(* ===== verification/_CoqProject ===== *)
-Q . S2P
Prelude.v
PyStr.v
Uuid.v
Errors.v
Decimal.v
Sorting.v
Rounding.v
PyFloat.v
Random.v
Json.v
Datetime.v
Enums.v
Rows.v
Store.v
Repositories.v
StateMachine.v
Transitions.v
Config.v
Optimizer.v
PolicyContext.v
PolicyEngine.v
OptimizerService.v
OptimizerTheorems.v
PolicyProps.v
Events.v
Providers.v
Simulator.v
Interventions.v
Inference.v
InferenceTheorems.v
CaseContexts.v
ToolData.v
Idempotency.v
AgentData.v
VerificationTypes.v
Processing.v
Processor.v
Verification.v
Lifecycle.v
Refinement.v
Fixtures.v
VerificationProps.v
ProcessorProps.v
VerificationTheorems.v
ProcessingProps.v
ProcessingTheorems.v
Invariants.v
Ingestion.v
Worker.v
ToolHandlers.v
ToolExecution.v
Approvals.v
EventService.v
WorkerTheorems.v
Agents.v
ToolRefinement.v
ToolProps.v
ToolTheorems.v
ApprovalTheorems.v
HandlerTheorems.v
Orchestrator.v
AgentTheorems.v
AgentEvaluation.v
BatchEvaluation.v
BatchTheorems.v
DataSplit.v
OperatorPolicy.v
Operator.v
Demo.v
System.v
Scenario.v
DemoTheorems.v
Guarantees.v
OperatorTheorems.v
EventTheorems.v
Witnesses.v
Applications.v
ToolWitnesses.v
AgentWitnesses.v
