(* ===== verification/Prelude.v ===== *)
(** * ReviveX recovery core: a verification library

    ReviveX (package names [recoverai_*]) receives payment events from a provider, opens a
    recovery case for each failed payment, decides by policy and by expected value which
    action to take, executes it through tools behind policy, approvals and idempotency keys,
    and credits recovered money to a case only against a captured payment.
    This library is a shallow embedding of that core, with the theorems that make it correct.
    File names below are relative to [src/packages/domain/recoverai_domain] unless a longer
    path is given.

    ** Parts and where they are modelled

    - Foundations. [Prelude] (results, the state-and-exception monad [M], notations, tactics,
      lemmas on options and lists), [PyStr] (the Python string methods used), [Uuid] (parsing,
      printing and the hashes), [PyFloat] (binary doubles: their arithmetic, [round] and [repr]),
      [Random] (Python's Mersenne Twister, for the first draw of a seeded generator), [Json] and
      [Datetime] (values and ISO-8601 text), [Decimal] with [Rounding] (Python's decimal
      arithmetic at 28 digits, half even; [as_money] of money.py; a decimal written and read
      back), [Sorting] (orders as a class, stable sort).
    - Data. [Enums] is packages/db/recoverai_db/enums.py; [Rows] has a Record per table of
      packages/db/recoverai_db/models; [Store] is the database with its clock, its stream of
      fresh identifiers, and the effects (insert, update, flush) with their CHECK, UNIQUE and
      primary-key errors; [Repositories] has the queries of
      packages/db/recoverai_db/repositories.
    - Case life cycle. [StateMachine] is state_machine.py; [Transitions] is transitions.py with
      the audit trail of audit.py and audit_write.py; [Errors] is errors.py.
    - Policy. [Config] is recovery_config.py and environment parsing; [PolicyContext] is
      policy_types.py and policy_context.py; [PolicyEngine] is policy_engine.py.
    - Processing. [Events] is events.py and normalize.py; [Ingestion] is ingestion.py;
      [Processing] is processing.py; [Processor] is processor.py; [VerificationTypes] and
      [Verification] are verification_types.py and verification.py; [Worker] is followups.py
      and apps/worker/recoverai_worker/jobs.py: each job in its transaction, with retries and
      the follow-up jobs it queues.
    - Optimizer. [Optimizer] is optimizer/config.py, erv.py, types.py, ranking.py and
      metrics.py; [OptimizerService] is optimizer/probabilities.py, service.py, batch.py and
      persist.py, with packages/eval/recoverai_eval/inference/persist.py.
    - Providers. [Providers] is packages/providers/recoverai_providers (models.py, base.py,
      registry.py) with a provider as the class [PaymentProvider] and its laws; [Simulator]
      is its simulator/ folder and an instance of the class; [Interventions] is
      simulator/interventions.py.
    - Scoring, in packages/eval/recoverai_eval. [Inference] is schema.py, constants.py,
      features/engineering.py, models/versioning.py and inference/api.py with fallback.py;
      [CaseContexts] is inference/domain.py and the contexts the optimizer and the tools ask
      for; [BatchEvaluation] is batch_evaluation.py and [DataSplit] data/split.py.
    - Demonstration. [Fixtures] is fixtures.py; [EventService] is
      src/apps/api/recoverai_api/events: webhooks, simulated payments and scenarios; [Demo] is
      src/apps/api/recoverai_api/operator/demo.py.
    - Tools. [ToolData] is tools/schemas.py, registry.py and permissions.py; [Idempotency] is
      tools/idempotency.py; [ToolHandlers] is tools/handlers.py; [ToolExecution] is
      tools/execution.py; [Approvals] is tools/approvals.py with the API routes of
      src/apps/api/recoverai_api/recovery/router.py.
    - Agents. [AgentData] is agents/config.py, budget.py, security.py, schemas.py and
      prompts/; [Agents] is agents/llm.py, runner.py, context.py, fallbacks.py,
      specialists.py, explainers.py and analyst.py, over the class [LlmClient] of language
      models; [Orchestrator] is agents/persist.py, gateway.py, orchestrator.py and service.py
      with their routes; [AgentEvaluation] is agents/evaluation.py
      and the gates of quality.py.
    - Operator. [OperatorPolicy] is src/apps/api/recoverai_api/operator/merchant.py, schemas.py
      and the policy part of service.py; [Operator] is its metrics, the list of cases,
      the views of a case, the audit trail, the approval queue and the routes of its router.py.
    - Composition. [System] lets the entry points (ingestion, worker jobs, API requests for
      processing, verification, optimization, tools, approvals, agents, webhooks, simulations,
      demonstrations and policy) interleave in any way that row locks permit; [Lifecycle] is
      the abstract specification, a step relation on the store, and [Refinement],
      [ToolRefinement] and [Orchestrator] show that the operations take its steps; [Scenario]
      is a concrete run that the witnesses use.

    ** State and effects

    An operation is a function [World -> World * result exn A]: the store after it, with its
    value or the exception it raises. The ORM's identity map is the table itself, rows by key,
    and a Python object passed around is the key of its row, so that aliasing is kept. A flush
    checks the CHECK constraints and has no other effect; an insert checks the keys. The order
    of rows a query without ORDER BY returns is that of the map. Transactions run one after
    the other except where the code waits for a row lock: there a parameter [concurrent] may
    run anything the other requests may do, and [System] discharges it by nested requests; when
    the outer transaction rolls back, the requests nested in it count as not served. A route
    of the API answers a DomainError with a response, and its transaction commits then too.
    The clock and uuid4 are streams of the store; a rollback restores every table and keeps
    them. Redis, RQ, the retry count of the queue, the environment variables and the
    trained pipelines are arguments of the definitions that use them; so are json.loads, the
    coercions of pydantic and the JSON text of times. A language model is a client with a
    state of its own that may answer anything or fail. Money is a decimal with coefficient
    and exponent, a float that reaches [Decimal(str(x))] is the decimal its text denotes;
    rounding to six digits goes through the nearest double ([PyFloat]). NaN and infinities
    are refused in settings and payloads. Text is a list of 8-bit characters. Log output,
    [updated_at], latencies and the identifiers of audit rows and notifications are left
    out, and so is the overflow of NUMERIC(18,2) in the database: amounts are stated through
    [as_money], which refuses amounts of more than 28 digits.

    ** What the theorems show

    - [Guarantees] (with [Invariants], [Lifecycle], [Refinement]): over every
      schedule of requests, retries included: every credit is justified by a payment that
      matched the case when it was credited; no payment counts twice; RECOVERED means paid in
      full; no more is recovered than was at risk; one open case per subject; recovered cases,
      settled payments and finished events are stable; cases move legally and their version
      counts the moves; an idempotency key names one request; recorded tool calls and agent
      runs hold no credentials; the audit trail only grows; the CHECK constraints hold; and
      every run is a sequence of steps of the abstract specification.
    - [StateMachine]: a case reaches execution only through the policy check, and can always
      finish. [PolicyProps]: the engine allows what no rule forbids, asks for approval when a
      value rule says so, reports the maximal risk, and always returns.
    - [VerificationProps], [VerificationTheorems]: what a verification evaluates, credits,
      and leaves alone. [ProcessorProps]: processing follows the policy and moves no money.
    - [ProcessingProps], [ProcessingTheorems], [Ingestion], [WorkerTheorems]: what each
      kind of event does, idempotence of delivery, atomicity of failing jobs, follow-up jobs
      through the queue, and credentials kept out of stored payloads.
    - [OptimizerTheorems]: the selected action is a best permitted one, expected values stay
      within the money at risk, ranking ignores the order of scoring, and optimizing only adds
      decisions, predictions, evaluations and audit events.
    - [ToolProps], [ToolTheorems], [ApprovalTheorems], [HandlerTheorems]: a tool
      runs only with the permission of the policy and, when asked for, a valid approval;
      blocked and held requests have no other effect; a request is executed once and
      answered from its key ever after; an approval resumes the very request; tools credit
      nothing; what the handlers make through the simulator.
    - [Fixtures], [EventTheorems]: the demonstration's parties are made once; a webhook's body
      overrides its payload; receiving events moves no money; the scenarios end as meant.
    - [OperatorPolicy], [OperatorTheorems]: a policy update takes effect and is enforced; pages
      partition the cases that match; the command centre accounts for the money.
    - [AgentTheorems]: whatever the language model answers, a run stays in the closed set of
      actions, executes only what the optimizer selected and at most once, keeps within its
      budgets of steps, tool calls and questions, and credits nothing; the analyst only reads.
    - [InferenceTheorems], [CaseContexts]: the features are the columns the model was trained on
      and hold no outcome; a prediction is a probability, by the rules when no model loads;
      stored versions are never overwritten; every stored case can be scored.
    - [BatchTheorems], [DataSplit]: the heuristic strategy never recovers less than doing
      nothing; the split of the rows shares no customer and takes four of them.
    - [AgentEvaluation], [DemoTheorems]: the agents pass the gates of their evaluation; how each
      demonstration ends, and that those that collect never run a tool.
    - [Witnesses], [Applications], [ToolWitnesses], [AgentWitnesses]: every theorem with
      hypotheses applied to a concrete run.

    ** Bounds and fuel

    The walks of the state machine are over lists fixed in the source and need no fuel. The
    digit count of [Decimal] takes the binary logarithm of the number plus one as fuel, which
    bounds its decimal digits; the scans of [Datetime] take the length of the text, and move
    right at every step. The attempts of a question to the language model are counted by the
    settings; a shuffle may reject 256 draws in a row before it has no answer, and the shortest
    text of a double is found within 17 digits. Python's integers and decimals are unbounded integers with the
    context precision of 28 digits written out; [Uuid] keeps its 128 bits as masks, and
    [Random] its words of 32 and 64 bits.

    ** Not modelled

    HTTP routing, authentication and serialisation (FastAPI, pydantic), the evaluation reports
    and health checks of the API, the scan of the agents' source files, the generation of cases
    (distributions of [random] through the floating-point library of C), training and
    calibration on numpy and scikit-learn, the command lines, Alembic
    migrations, seed scripts, and the web front end. The views leave out what the rows do:
    latencies, the identifiers of audit rows and decisions; [created_at] of rows that do not
    keep it, and the collation of the database, are arguments of the views. *)

From stdpp Require Export base tactics option list gmap sets strings pretty relations numbers.
From Stdlib Require Export ZArith Lia.
From stdpp Require Import options.

#[global] Set Default Proof Using "Type".

(** ** Results of fallible Python code *)

(** [Ok a] is a normal return, [Raise e] an exception that propagates. *)
Inductive result (E A : Type) : Type :=
  | Ok (a : A)
  | Raise (e : E).
Arguments Ok {E A} a.
Arguments Raise {E A} e.

#[export] Instance result_ret {E} : MRet (result E) := fun A a => Ok a.
#[export] Instance result_throw {E} : MThrow E (result E) := fun A e => Raise e.
#[export] Instance result_bind {E} : MBind (result E) :=
  fun A B f r => match r with Ok a => f a | Raise e => Raise e end.

Definition is_ok {E A} (r : result E A) : bool :=
  match r with Ok _ => true | Raise _ => false end.

(** An [option] read as a result: [None] raises [e]. *)
Definition ok_or {E A} (e : E) (o : option A) : result E A :=
  match o with Some a => Ok a | None => Raise e end.

(** ** State with exceptions

    A computation maps the store to the store it leaves and a result.  The
    store is kept when an exception is raised: rolling back is what the
    caller's transaction does, not what [raise] does. *)
Definition M (S E A : Type) : Type := S -> S * result E A.

#[export] Instance m_ret {S E} : MRet (M S E) := fun A a s => (s, Ok a).
#[export] Instance m_throw {S E} : MThrow E (M S E) := fun A e s => (s, Raise e).
#[export] Instance m_bind {S E} : MBind (M S E) :=
  fun A B f m s => match m s with
                   | (s', Ok a) => f a s'
                   | (s', Raise e) => (s', Raise e)
                   end.

Definition get {S E} : M S E S := fun s => (s, Ok s).
Definition gets {S E A} (f : S -> A) : M S E A := fun s => (s, Ok (f s)).
Definition modify {S E} (f : S -> S) : M S E unit := fun s => (f s, Ok tt).
Definition lift {S E A} (r : result E A) : M S E A := fun s => (s, r).

(** [try: m except E as e: h e] *)
Definition try_except {S E A} (m : M S E A) (h : E -> M S E A) : M S E A :=
  fun s => match m s with
           | (s', Ok a) => (s', Ok a)
           | (s', Raise e) => h e s'
           end.

(** [for x in l: f x] *)
Fixpoint for_each {S E A} (f : A -> M S E unit) (l : list A) : M S E unit :=
  match l with
  | [] => mret tt
  | x :: l => f x ;; for_each f l
  end.

(** [[f x for x in l]] with effects *)
Fixpoint map_each {S E A B} (f : A -> M S E B) (l : list A) : M S E (list B) :=
  match l with
  | [] => mret []
  | x :: l => y ← f x; ys ← map_each f l; mret (y :: ys)
  end.

Definition when {S E} (b : bool) (m : M S E unit) : M S E unit :=
  if b then m else mret tt.

Definition final {S E A} (m : M S E A) (s : S) : S := (m s).1.
Definition outcome {S E A} (m : M S E A) (s : S) : result E A := (m s).2.

(** ** Preservation of a relation between stores

    [preserves R m]: whatever [m] returns or raises, the store it leaves is
    related to the store it started from.  With [R] a preorder this composes,
    and the database [pres] carries one lemma per operation. *)
Definition preserves {S E A} (R : relation S) (m : M S E A) : Prop :=
  forall s, R s (final m s).

Create HintDb pres discriminated.

Section Preserves.
Context {S E : Type} (R : relation S) `{!PreOrder R}.

Lemma preserves_ret {A} (a : A) : preserves R (mret a : M S E A).
Proof using All. intros s. reflexivity. Qed.

Lemma preserves_throw {A} (e : E) : preserves R (mthrow e : M S E A).
Proof using All. intros s. reflexivity. Qed.

Lemma preserves_gets {A} (f : S -> A) : preserves R (gets f : M S E A).
Proof using All. intros s. reflexivity. Qed.

Lemma preserves_get : preserves R (get : M S E S).
Proof using All. intros s. reflexivity. Qed.

Lemma preserves_lift {A} (r : result E A) : preserves R (lift r : M S E A).
Proof using All. intros s. reflexivity. Qed.

Lemma preserves_bind {A B} (m : M S E A) (f : A -> M S E B) :
  preserves R m -> (forall a, preserves R (f a)) -> preserves R (m ≫= f).
Proof using All.
  intros Hm Hf s. unfold final, mbind, m_bind. specialize (Hm s). unfold final in Hm.
  destruct (m s) as [s' [a|e]]; simpl in *; [|done].
  etrans; [exact Hm|]. apply Hf.
Qed.

Lemma preserves_try {A} (m : M S E A) h :
  preserves R m -> (forall e, preserves R (h e)) -> preserves R (try_except m h).
Proof using All.
  intros Hm Hh s. unfold final, try_except. specialize (Hm s). unfold final in Hm.
  destruct (m s) as [s' [a|e]]; simpl in *; [done|].
  etrans; [exact Hm|]. apply Hh.
Qed.

Lemma preserves_for_each {A} (f : A -> M S E unit) l :
  (forall a, preserves R (f a)) -> preserves R (for_each f l).
Proof using All.
  intros Hf. induction l as [|x l IH]; simpl; [apply preserves_ret|].
  apply preserves_bind; auto.
Qed.

Lemma preserves_map_each {A B} (f : A -> M S E B) l :
  (forall a, preserves R (f a)) -> preserves R (map_each f l).
Proof using All.
  intros Hf. induction l as [|x l IH]; simpl; [apply preserves_ret|].
  apply preserves_bind; [done|]. intros y. apply preserves_bind; [done|].
  intros ys. apply preserves_ret.
Qed.

Lemma preserves_when b (m : M S E unit) : preserves R m -> preserves R (when b m).
Proof using All. destruct b; simpl; auto using preserves_ret. Qed.

Lemma preserves_modify (f : S -> S) :
  (forall s, R s (f s)) -> preserves R (modify f : M S E unit).
Proof using All. intros Hf s. apply Hf. Qed.
End Preserves.

(** Relations a preservation proof is often about: a component of the store
    keeps its value; a property of the store is kept. *)
Definition unchanged {S B} (f : S -> B) : relation S := fun s s' => f s' = f s.
Definition keeps {S} (P : S -> Prop) : relation S := fun s s' => P s -> P s'.

#[export] Instance unchanged_preorder {S B} (f : S -> B) : PreOrder (unchanged f).
Proof. split; [intros s; reflexivity|]. intros s t u; unfold unchanged; congruence. Qed.
#[export] Instance keeps_preorder {S} (P : S -> Prop) : PreOrder (keeps P).
Proof. split; [intros s H; exact H|]. intros s t u; unfold keeps; auto. Qed.

#[export] Hint Resolve preserves_ret preserves_throw preserves_gets preserves_get
  preserves_lift preserves_when preserves_for_each preserves_map_each : pres.

(** Decompose a computation along its structure; every primitive or called
    operation is closed by a lemma of [pres]. *)
Ltac pres_step :=
  match goal with
  | |- forall _, _ => intros
  | |- preserves _ (mbind _ _) => apply preserves_bind; [try typeclasses eauto|..]
  | |- preserves _ (try_except _ _) => apply preserves_try; [try typeclasses eauto|..]
  | |- preserves _ (for_each _ _) => apply preserves_for_each; [try typeclasses eauto|..]
  | |- preserves _ (map_each _ _) => apply preserves_map_each; [try typeclasses eauto|..]
  | |- preserves _ (when _ _) => apply preserves_when; [try typeclasses eauto|..]
  | |- preserves _ _ => solve [eauto with pres typeclass_instances]
  | |- preserves _ (match ?x with _ => _ end) => destruct x
  | |- preserves _ (let '_ := ?x in _) => destruct x
  end.
Ltac solve_pres := repeat pres_step.

(** ** Postconditions of normal returns

    [returns m s Q]: when [m] returns normally from [s], the value and the store
    it leaves satisfy [Q].  The rules read a computation forwards. *)
Definition returns {S E A} (m : M S E A) (s : S) (Q : A -> S -> Prop) : Prop :=
  forall s' a, m s = (s', Ok a) -> Q a s'.

Lemma returns_ret {S E A} (a : A) (s : S) (Q : A -> S -> Prop) :
  Q a s -> returns (mret a : M S E A) s Q.
Proof. intros HQ s' b [= <- <-]. done. Qed.

Lemma returns_throw {S E A} (e : E) (s : S) (Q : A -> S -> Prop) :
  returns (mthrow e : M S E A) s Q.
Proof. intros s' b [=]. Qed.

Lemma returns_gets {S E A B} (g : S -> A) (f : A -> M S E B) s Q :
  returns (f (g s)) s Q -> returns (gets g ≫= f) s Q.
Proof. done. Qed.

Lemma returns_lift {S E A B} (r : result E A) (f : A -> M S E B) s Q :
  (forall a, r = Ok a -> returns (f a) s Q) -> returns (lift r ≫= f) s Q.
Proof. intros H s' b. unfold mbind, m_bind, lift. destruct r; [by apply H|done]. Qed.

Lemma returns_bind {S E A B} (m : M S E A) (f : A -> M S E B) s Q P :
  returns m s P -> (forall a s', P a s' -> returns (f a) s' Q) -> returns (m ≫= f) s Q.
Proof.
  intros Hm Hf s' b. unfold mbind, m_bind. destruct (m s) as [s1 [a|e]] eqn:H; [|done].
  apply Hf. by apply Hm.
Qed.

Lemma returns_try {S E A} (m : M S E A) h s Q :
  returns m s Q -> (forall e s', m s = (s', Raise e) -> returns (h e) s' Q) ->
  returns (try_except m h) s Q.
Proof.
  intros Hm Hh s' b. unfold try_except. destruct (m s) as [s1 [a|e]] eqn:H.
  - intros [= <- <-]. by apply Hm.
  - by apply Hh.
Qed.

Lemma returns_mono {S E A} (m : M S E A) s (P Q : A -> S -> Prop) :
  returns m s P -> (forall a s', P a s' -> Q a s') -> returns m s Q.
Proof. intros Hm H s' a Ha. by apply H, Hm. Qed.

Lemma returns_preserves {S E A} (R : relation S) (m : M S E A) s :
  preserves R m -> returns m s (fun _ s' => R s s').
Proof. intros H s' a Ha. specialize (H s). unfold final in H. by rewrite Ha in H. Qed.

Lemma returns_and {S E A} (m : M S E A) s (P Q : A -> S -> Prop) :
  returns m s P -> returns m s Q -> returns m s (fun a s' => P a s' /\ Q a s').
Proof. intros HP HQ s' a Ha. split; [by apply HP|by apply HQ]. Qed.

(** ** Boolean quantifiers over lists *)

Lemma forallb_elem {A} (f : A -> bool) l : forallb f l = true <-> forall x, x ∈ l -> f x = true.
Proof. rewrite forallb_forall. setoid_rewrite list_elem_of_In. done. Qed.

Lemma existsb_elem {A} (f : A -> bool) l : existsb f l = true <-> exists x, x ∈ l /\ f x = true.
Proof. rewrite existsb_exists. setoid_rewrite list_elem_of_In. done. Qed.

Lemma existsb_elem_false {A} (f : A -> bool) l :
  existsb f l = false <-> forall x, x ∈ l -> f x = false.
Proof.
  split.
  - intros H x Hx. destruct (f x) eqn:Hf; [|done].
    rewrite <- H. symmetry. apply existsb_elem. eauto.
  - intros H. destruct (existsb f l) eqn:He; [|done].
    apply existsb_elem in He as (x & Hx & Hf). by rewrite H in Hf.
Qed.

(** A decidable property of the elements of a concrete list. *)
Lemma forallb_decide {A} (P : A -> Prop) `{forall x, Decision (P x)} l :
  forallb (fun x => bool_decide (P x)) l = true -> forall x, x ∈ l -> P x.
Proof. rewrite forallb_elem. intros Hl x Hx. by apply (bool_decide_eq_true (P x)), Hl. Qed.

(** ** Finite maps *)

Lemma alter_as_insert `{Countable K} {A} (f : A -> A) (m : gmap K A) i x :
  m !! i = Some x -> alter f i m = <[i := f x]> m.
Proof.
  intros Hx. apply map_eq. intros j. destruct (decide (j = i)) as [->|Hne].
  - by rewrite lookup_alter_eq, lookup_insert_eq, Hx.
  - by rewrite lookup_alter_ne, lookup_insert_ne by done.
Qed.

Lemma alter_None `{Countable K} {A} (f : A -> A) (m : gmap K A) i :
  m !! i = None -> alter f i m = m.
Proof.
  intros Hi. apply map_eq. intros j. destruct (decide (j = i)) as [->|Hne].
  - by rewrite lookup_alter_eq, Hi.
  - by rewrite lookup_alter_ne by done.
Qed.
