(* ===== verification/PyStr.v ===== *)
(** * Python text and integers

    The operations of [str] and [int] the modelled code uses.  Text is a
    [string] of 8-bit characters; [strip] and [lower] act on its ASCII part. *)
From S2P Require Import Prelude.
From Stdlib Require Import Ascii.
Open Scope stdpp_scope.
Open Scope Z_scope.

Definition code (c : ascii) : N := N_of_ascii c.

(** ** Characters and predicates *)

(** ASCII characters [str.strip] removes: \t \n \v \f \r, \x1c-\x1f and space. *)
Definition is_space (c : ascii) : bool :=
  let n := code c in
  ((9 <=? n) && (n <=? 13) || (28 <=? n) && (n <=? 32))%N.

Definition lower_char (c : ascii) : ascii :=
  let n := code c in
  if ((65 <=? n) && (n <=? 90))%N then ascii_of_N (n + 32) else c.

Fixpoint lower (s : string) : string :=
  match s with
  | EmptyString => EmptyString
  | String c s => String (lower_char c) (lower s)
  end.

(** ** Stripping and slicing *)

Fixpoint lstrip_by (p : ascii -> bool) (s : string) : string :=
  match s with
  | String c s' => if p c then lstrip_by p s' else s
  | EmptyString => EmptyString
  end.

Fixpoint rstrip_by (p : ascii -> bool) (s : string) : string :=
  match s with
  | String c s' =>
      match rstrip_by p s' with
      | EmptyString => if p c then EmptyString else String c EmptyString
      | r => String c r
      end
  | EmptyString => EmptyString
  end.

Definition strip_by (p : ascii -> bool) (s : string) : string :=
  rstrip_by p (lstrip_by p s).
Definition strip : string -> string := strip_by is_space.

(** [s[:n]] *)
Fixpoint prefix_n (n : nat) (s : string) : string :=
  match n, s with
  | S n, String c s => String c (prefix_n n s)
  | _, _ => EmptyString
  end.

(** [bool(s)] *)
Definition nonempty (s : string) : bool :=
  match s with EmptyString => false | _ => true end.

Fixpoint remove_char (c : ascii) (s : string) : string :=
  match s with
  | EmptyString => EmptyString
  | String d s => if Ascii.eqb c d then remove_char c s else String d (remove_char c s)
  end.

(** [needle in s] *)
Fixpoint contains (needle s : string) : bool :=
  String.prefix needle s ||
  match s with EmptyString => false | String _ s' => contains needle s' end.

(** [s.replace(old, new)] for a non-empty [old]: leftmost, non-overlapping. *)
Fixpoint replace_fuel (fuel : nat) (old new s : string) : string :=
  match fuel, s with
  | O, _ => s
  | _, EmptyString => EmptyString
  | S fuel, String c s' =>
      if String.prefix old s
      then new +:+ replace_fuel fuel old new
                     (String.substring (String.length old) (String.length s) s)
      else String c (replace_fuel fuel old new s')
  end.
Definition replace (old new s : string) : string :=
  replace_fuel (S (String.length s)) old new s.

(** [sep.join(parts)] *)
Definition join (sep : string) (parts : list string) : string := String.concat sep parts.

Definition mem_str (s : string) (l : list string) : bool := bool_decide (s ∈ l).

(** ** Integers *)

(** [str(n)] *)
Definition str_int (n : Z) : string := pretty n.

Definition digit_value (c : ascii) : option Z :=
  let n := code c in
  if ((48 <=? n) && (n <=? 57))%N then Some (Z.of_N n - 48)
  else if ((97 <=? n) && (n <=? 122))%N then Some (Z.of_N n - 87)
  else if ((65 <=? n) && (n <=? 90))%N then Some (Z.of_N n - 55)
  else None.

Definition digit_in (base : Z) (c : ascii) : option Z :=
  d ← digit_value c; if d <? base then Some d else None.

(** Digits in [base], single underscores allowed between two digits;
    [after_digit] tells whether the previous character was a digit. *)
Fixpoint scan_digits (base : Z) (s : string) (after_digit : bool) (acc : Z) : option Z :=
  match s with
  | EmptyString => if after_digit then Some acc else None
  | String c s =>
      if Ascii.eqb c "_" then if after_digit then scan_digits base s false acc else None
      else d ← digit_in base c; scan_digits base s true (acc * base + d)
  end.

Definition strip_sign (s : string) : bool * string :=
  match s with
  | String "-" s => (true, s)
  | String "+" s => (false, s)
  | _ => (false, s)
  end.

(** The optional [0x] (and one underscore after it) of [int(s, 16)]. *)
Definition strip_radix_prefix (base : Z) (s : string) : string :=
  if base =? 16 then
    match s with
    | String "0" (String ("x" | "X") (String "_" s)) => s
    | String "0" (String ("x" | "X") s) => s
    | _ => s
    end
  else s.

(** [int(s, base)] for [base] 10 or 16; [None] is the [ValueError]. *)
Definition int_of_str (base : Z) (s : string) : option Z :=
  let '(neg, body) := strip_sign (strip s) in
  n ← scan_digits base (strip_radix_prefix base body) false 0;
  Some (if neg then - n else n).

Example int_of_str_ex1 : int_of_str 10 " -1_000 " = Some (-1000). Proof. reflexivity. Qed.
Example int_of_str_ex2 : int_of_str 10 "1__0" = None. Proof. reflexivity. Qed.
Example int_of_str_ex3 : int_of_str 16 "0xfF" = Some 255. Proof. reflexivity. Qed.
Example int_of_str_ex4 : int_of_str 10 "" = None. Proof. reflexivity. Qed.

(** ** Round trip of [int] and [str] *)

Fixpoint digits_only (base : Z) (s : string) : bool :=
  match s with
  | EmptyString => true
  | String c s => match digit_in base c with Some _ => negb (Ascii.eqb c "_") | None => false end
                  && digits_only base s
  end.

Lemma pretty_N_char_digit n :
  (n < 10)%N -> digit_in 10 (pretty_N_char n) = Some (Z.of_N n).
Proof.
  intros H. assert (n = 0 ∨ n = 1 ∨ n = 2 ∨ n = 3 ∨ n = 4 ∨ n = 5 ∨ n = 6 ∨ n = 7 ∨ n = 8 ∨ n = 9)%N as Hn
    by lia. by destruct_or!; subst.
Qed.

Lemma pretty_N_char_not_underscore n : Ascii.eqb (pretty_N_char n) "_" = false.
Proof. unfold pretty_N_char. repeat case_match; reflexivity. Qed.

Lemma scan_digits_pretty_go n s b acc :
  (0 < n)%N ->
  exists k, scan_digits 10 (pretty_N_go n s) b acc = scan_digits 10 s true (acc * 10 ^ k + Z.of_N n)
    /\ 0 < k.
Proof.
  revert s b acc. induction (N.lt_wf_0 n) as [n _ IH]; intros s b acc Hn.
  rewrite pretty_N_go_step by done.
  assert (n mod 10 < 10)%N as Hm by (apply N.mod_lt; done).
  pose proof (N.div_mod n 10 ltac:(done)) as Hdm.
  destruct (decide (n / 10 = 0)%N) as [Hz|Hnz].
  - rewrite Hz, pretty_N_go_0. exists 1. split; [|lia]. simpl.
    rewrite pretty_N_char_not_underscore, pretty_N_char_digit by done. simpl.
    f_equal. rewrite Z.pow_1_r. lia.
  - destruct (IH (n / 10)%N ltac:(apply N.div_lt; lia)
                (String (pretty_N_char (n mod 10)) s) b acc (proj1 (N.neq_0_lt_0 _) Hnz)) as (k & Hk & Hk0).
    exists (k + 1). split; [|lia]. rewrite Hk. simpl.
    rewrite pretty_N_char_not_underscore, pretty_N_char_digit by done. simpl.
    f_equal. rewrite Z.pow_add_r by lia. lia.
Qed.

Lemma scan_digits_pretty_N (n : N) : scan_digits 10 (pretty n) false 0 = Some (Z.of_N n).
Proof.
  unfold pretty, pretty_N. case_decide as Hn; [by subst|].
  destruct (scan_digits_pretty_go n "" false 0 ltac:(lia)) as (k & -> & _). done.
Qed.

Lemma pretty_N_go_head n s : (0 < n)%N -> exists m s', (m < 10)%N /\ pretty_N_go n s = String (pretty_N_char m) s'.
Proof.
  revert s. induction (N.lt_wf_0 n) as [n _ IH]; intros s Hn.
  rewrite pretty_N_go_step by done.
  destruct (decide (n / 10 = 0)%N) as [Hz|Hnz].
  - rewrite Hz, pretty_N_go_0. eexists _, _. split; [|done]. by apply N.mod_lt.
  - apply IH; [by apply N.div_lt|by apply N.neq_0_lt_0].
Qed.

Lemma pretty_N_head (n : N) : exists m s, (m < 10)%N /\ pretty n = String (pretty_N_char m) s.
Proof.
  unfold pretty, pretty_N. case_decide; [|by apply pretty_N_go_head; lia].
  by exists 0%N, "".
Qed.

(** No character of a printed natural is a space. *)
Fixpoint no_space (s : string) : bool :=
  match s with EmptyString => true | String c s => negb (is_space c) && no_space s end.

Lemma pretty_N_char_space n : is_space (pretty_N_char n) = false.
Proof. unfold pretty_N_char. repeat case_match; reflexivity. Qed.

Lemma no_space_pretty_go n s : no_space s = true -> no_space (pretty_N_go n s) = true.
Proof.
  revert s. induction (N.lt_wf_0 n) as [n _ IH]; intros s Hs.
  destruct (decide (n = 0)%N) as [->|Hn]; [by rewrite pretty_N_go_0|].
  rewrite pretty_N_go_step by lia. apply IH; [apply N.div_lt; lia|].
  simpl. by rewrite pretty_N_char_space.
Qed.

Lemma no_space_pretty_N (n : N) : no_space (pretty n) = true.
Proof. unfold pretty, pretty_N. case_decide; [done|]. by apply no_space_pretty_go. Qed.

Lemma rstrip_no_space s : no_space s = true -> rstrip_by is_space s = s.
Proof.
  induction s as [|c s IH]; simpl; [done|]. rewrite andb_true_iff. intros [Hc Hs].
  rewrite IH by done. destruct s; [|done]. by destruct (is_space c).
Qed.

Lemma strip_no_space s : no_space s = true -> strip s = s.
Proof.
  intros Hs. unfold strip, strip_by. destruct s as [|c s]; [done|]. simpl in *.
  apply andb_true_iff in Hs as [Hc Hs]. destruct (is_space c) eqn:E; [done|].
  apply rstrip_no_space. simpl. by rewrite E.
Qed.

Lemma strip_sign_pretty_N (n : N) : strip_sign (pretty n) = (false, pretty n).
Proof.
  destruct (pretty_N_head n) as (m & s & Hm & ->).
  unfold pretty_N_char. by repeat case_match.
Qed.

Lemma int_of_str_str_int n : int_of_str 10 (str_int n) = Some n.
Proof.
  unfold int_of_str, str_int. destruct n as [|p|p]; [done|..].
  - change (pretty (Z.pos p)) with (pretty (N.pos p)).
    rewrite strip_no_space by apply no_space_pretty_N.
    rewrite strip_sign_pretty_N. cbv [strip_radix_prefix Z.eqb Pos.eqb].
    by rewrite scan_digits_pretty_N.
  - change (pretty (Z.neg p)) with (String "-" (pretty (N.pos p))).
    rewrite strip_no_space by (simpl; apply no_space_pretty_N).
    cbv [strip_sign strip_radix_prefix Z.eqb Pos.eqb]. by rewrite scan_digits_pretty_N.
Qed.

Lemma str_int_inj a b : str_int a = str_int b -> a = b.
Proof. apply (inj pretty). Qed.
