(* ===== verification/Uuid.v ===== *)
(** * UUIDs and message digests

    [uuid.UUID] values as 128-bit naturals, their text form, and the
    name-based [uuid.uuid5] the code derives payment ids with.  SHA-1 and
    SHA-256 ([hashlib]) are computed, so derived ids evaluate. *)
From S2P Require Import Prelude PyStr.
From Stdlib Require Import Ascii NArith.
Open Scope stdpp_scope.

Abbreviation UUID := N.

(** ** Text form *)

Definition hex_digit (n : N) : ascii :=
  if (n <? 10)%N then ascii_of_N (48 + n) else ascii_of_N (87 + n).

(** [k] hexadecimal digits of [n], most significant first. *)
Fixpoint hex_digits (k : nat) (n : N) (tail : string) : string :=
  match k with
  | O => tail
  | S k => hex_digits k (n / 16)%N (String (hex_digit (n mod 16)%N) tail)
  end.

(** Insert the dashes of the 8-4-4-4-12 layout; the lists gives the remaining group lengths. *)
Fixpoint dashed (groups : list nat) (left : nat) (s : string) : string :=
  match s with
  | EmptyString => EmptyString
  | String c s' =>
      match left, groups with
      | O, g :: groups => String "-" (String c (dashed groups (pred g) s'))
      | _, _ => String c (dashed groups (pred left) s')
      end
  end.

(** [str(u)] *)
Definition uuid_str (u : UUID) : string := dashed [4; 4; 4; 12]%nat 8 (hex_digits 32 u "").

(** [uuid.UUID(s)]; [None] is the [ValueError]. *)
Definition uuid_of_str (s : string) : option UUID :=
  let s := replace "uuid:" "" (replace "urn:" "" s) in
  let s := strip_by (fun c => Ascii.eqb c "{" || Ascii.eqb c "}") s in
  let s := remove_char "-" s in
  if decide (String.length s = 32%nat) then Z.to_N <$> int_of_str 16 s else None.

Example uuid_str_ex :
  uuid_str 0x3d5c8a106b2e4f1a9c3d0e7f2a1b4c8d = "3d5c8a10-6b2e-4f1a-9c3d-0e7f2a1b4c8d".
Proof. reflexivity. Qed.
Example uuid_of_str_ex1 :
  uuid_of_str "{3D5C8A10-6b2e-4f1a-9c3d-0e7f2a1b4c8d}" = Some 0x3d5c8a106b2e4f1a9c3d0e7f2a1b4c8d%N.
Proof. vm_compute. reflexivity. Qed.
Example uuid_of_str_ex2 : uuid_of_str "not-a-uuid" = None.
Proof. reflexivity. Qed.

(** ** Digests *)

Definition word := N.
Definition w32 (n : N) : word := N.land n 0xFFFFFFFF.
Definition rotl (k n : N) : word := w32 (N.lor (N.shiftl n k) (N.shiftr n (32 - k))).
Definition rotr (k n : N) : word := rotl (32 - k) n.
Definition add32 (a b : N) : word := w32 (a + b).
Definition not32 (a : N) : word := N.lxor a 0xFFFFFFFF.

Definition bytes_of_string (s : string) : list N := N_of_ascii <$> String.list_ascii_of_string s.

(** [k] bytes of [n], big endian. *)
Fixpoint be_bytes (k : nat) (n : N) (tail : list N) : list N :=
  match k with
  | O => tail
  | S k => be_bytes k (N.shiftr n 8) (N.land n 255 :: tail)
  end.

Fixpoint be_value (l : list N) (acc : N) : N :=
  match l with [] => acc | b :: l => be_value l (N.shiftl acc 8 + b)%N end.

(** Merkle-Damgård padding to a multiple of 64 bytes. *)
Definition pad_message (msg : list N) : list N :=
  let len := length msg in
  let zeros := ((119 - len mod 64) mod 64)%nat in
  msg ++ [128%N] ++ replicate zeros 0%N ++ be_bytes 8 (8 * N.of_nat len)%N [].

Fixpoint chunks {A} (fuel n : nat) (l : list A) : list (list A) :=
  match fuel, l with
  | O, _ | _, [] => []
  | S fuel, _ => take n l :: chunks fuel n (drop n l)
  end.

Definition words_of_block (block : list N) : list word :=
  (fun b => be_value b 0) <$> chunks 16 4 block.

(** Extend a message schedule, most recent word first. *)
Fixpoint extend (step : list word -> word) (k : nat) (rev_w : list word) : list word :=
  match k with O => rev_w | S k => extend step k (step rev_w :: rev_w) end.

Definition nthw (l : list word) (i : nat) : word := nth i l 0%N.

Definition sha1_round (t : nat) (st : N * N * N * N * N) (wt : N) : N * N * N * N * N :=
  let '(a, b, c, d, e) := st in
  let '(f, k) :=
    if (t <? 20)%nat then (N.lor (N.land b c) (N.land (not32 b) d), 0x5A827999%N)
    else if (t <? 40)%nat then (N.lxor (N.lxor b c) d, 0x6ED9EBA1%N)
    else if (t <? 60)%nat
      then (N.lor (N.lor (N.land b c) (N.land b d)) (N.land c d), 0x8F1BBCDC%N)
    else (N.lxor (N.lxor b c) d, 0xCA62C1D6%N) in
  (add32 (rotl 5 a) (add32 f (add32 e (add32 k wt))), a, rotl 30 b, c, d).

Fixpoint rounds {S} (f : nat -> S -> N -> S) (t : nat) (st : S) (ws : list word) : S :=
  match ws with [] => st | w :: ws => rounds f (t + 1) (f t st w) ws end.

Definition sha1_block (h : N * N * N * N * N) (block : list N) : N * N * N * N * N :=
  let ws := rev (extend (fun w => rotl 1 (N.lxor (N.lxor (nthw w 2) (nthw w 7))
                                            (N.lxor (nthw w 13) (nthw w 15))))
                   64 (rev (words_of_block block))) in
  let '(a, b, c, d, e) := rounds sha1_round 0 h ws in
  let '(h0, h1, h2, h3, h4) := h in
  (add32 h0 a, add32 h1 b, add32 h2 c, add32 h3 d, add32 h4 e).

Definition sha1 (msg : list N) : list N :=
  let '(a, b, c, d, e) :=
    fold_left sha1_block (chunks (S (S (length msg))) 64 (pad_message msg))
      (0x67452301, 0xEFCDAB89, 0x98BADCFE, 0x10325476, 0xC3D2E1F0)%N in
  be_bytes 4 a (be_bytes 4 b (be_bytes 4 c (be_bytes 4 d (be_bytes 4 e [])))).

(** The largest [r] with [r^3 <= n], found bit by bit from bit [k - 1] down. *)
Fixpoint cube_root (k : nat) (n r : N) : N :=
  match k with
  | O => r
  | S k => let r' := (r + 2 ^ N.of_nat k)%N in cube_root k n (if (r' ^ 3 <=? n)%N then r' else r)
  end.

Definition is_prime (n : nat) : bool :=
  forallb (fun d => negb (n mod d =? 0)%nat) (seq 2 (n - 2)).
Definition primes (count : nat) : list N :=
  map N.of_nat (firstn count (List.filter is_prime (seq 2 310))).

(** The first 32 bits of the fractional parts of the cube roots of the first 64
    primes, and of the square roots of the first 8. *)
Definition sha256_k : list N :=
  Eval vm_compute in map (fun p => cube_root 40 (p * 2 ^ 96) 0 mod 2 ^ 32)%N (primes 64).
Definition sha256_h : list N :=
  Eval vm_compute in map (fun p => N.sqrt (p * 2 ^ 64) mod 2 ^ 32)%N (primes 8).

Definition sha256_round (t : nat) (st : list N) (wt : N) : list N :=
  match st with
  | [a; b; c; d; e; f; g; h] =>
      let s1 := N.lxor (N.lxor (rotr 6 e) (rotr 11 e)) (rotr 25 e) in
      let ch := N.lxor (N.land e f) (N.land (not32 e) g) in
      let t1 := add32 h (add32 s1 (add32 ch (add32 (nthw sha256_k t) wt))) in
      let s0 := N.lxor (N.lxor (rotr 2 a) (rotr 13 a)) (rotr 22 a) in
      let maj := N.lxor (N.lxor (N.land a b) (N.land a c)) (N.land b c) in
      [add32 t1 (add32 s0 maj); a; b; c; add32 d t1; e; f; g]
  | _ => st
  end.

Definition sha256_block (h : list N) (block : list N) : list N :=
  let sigma0 x := N.lxor (N.lxor (rotr 7 x) (rotr 18 x)) (N.shiftr x 3) in
  let sigma1 x := N.lxor (N.lxor (rotr 17 x) (rotr 19 x)) (N.shiftr x 10) in
  let ws := rev (extend (fun w => add32 (sigma1 (nthw w 1)) (add32 (nthw w 6)
                                     (add32 (sigma0 (nthw w 14)) (nthw w 15))))
                   48 (rev (words_of_block block))) in
  zip_with add32 h (rounds sha256_round 0 h ws).

Definition sha256 (msg : list N) : list N :=
  foldr (be_bytes 4) []
    (fold_left sha256_block (chunks (S (S (length msg))) 64 (pad_message msg))
      sha256_h).

(** [digest.hex()] *)
Definition hex_of_bytes (l : list N) : string := hex_digits (2 * length l) (be_value l 0) "".

Example sha1_abc : hex_of_bytes (sha1 (bytes_of_string "abc"))
  = "a9993e364706816aba3e25717850c26c9cd0d89d".
Proof. vm_compute. reflexivity. Qed.
Example sha1_two_blocks :
  hex_of_bytes (sha1 (bytes_of_string "abcdbcdecdefdefgefghfghighijhijkijkljklmklmnlmnomnopnopq"))
  = "84983e441c3bd26ebaae4aa1f95129e5e54670f1".
Proof. vm_compute. reflexivity. Qed.
Example sha256_abc : hex_of_bytes (sha256 (bytes_of_string "abc"))
  = "ba7816bf8f01cfea414140de5dae2223b00361a396177a9cb410ff61f20015ad".
Proof. vm_compute. reflexivity. Qed.

(** ** [uuid.uuid5]: the first 16 bytes of SHA-1, version 5, RFC 4122 variant *)
Definition uuid5 (namespace : UUID) (name : string) : UUID :=
  let h := be_value (take 16 (sha1 (be_bytes 16 namespace [] ++ bytes_of_string name))) 0 in
  let h := N.lor (N.ldiff h (N.shiftl 0xC000 48)) (N.shiftl 0x8000 48) in
  N.lor (N.ldiff h (N.shiftl 0xF000 64)) (N.shiftl 5 76).

Example uuid5_dns :
  uuid_str (uuid5 0x6ba7b8109dad11d180b400c04fd430c8 "python.org")
  = "886313e1-3b8a-5372-9b90-0c9aee199e5d".
Proof. vm_compute. reflexivity. Qed.

(** ** Round trip of [str] and [uuid.UUID] *)

Definition hex_char (c : ascii) : bool := match digit_in 16 c with Some _ => true | None => false end.

Fixpoint all_chars (p : ascii -> bool) (s : string) : bool :=
  match s with EmptyString => true | String c s => p c && all_chars p s end.

Lemma all_chars_impl (p q : ascii -> bool) s :
  (forall c, p c = true -> q c = true) -> all_chars p s = true -> all_chars q s = true.
Proof. intros Hpq. induction s; simpl; [done|]. rewrite !andb_true_iff. naive_solver. Qed.

(** [replace] changes nothing when the first character of [old] never occurs. *)
Lemma replace_absent c old new s :
  all_chars (fun d => negb (Ascii.eqb c d)) s = true -> replace (String c old) new s = s.
Proof.
  unfold replace. generalize (S (String.length s)) as fuel. intros fuel.
  revert s. induction fuel as [|fuel IH]; intros s Hs; [done|].
  destruct s as [|d s]; [done|]. simpl in *.
  apply andb_true_iff in Hs as [Hd Hs].
  destruct (ascii_dec c d) as [->|Hne]; [by rewrite Ascii.eqb_refl in Hd|].
  by rewrite IH.
Qed.

Lemma lstrip_absent p s : all_chars (fun c => negb (p c)) s = true -> lstrip_by p s = s.
Proof. destruct s; simpl; [done|]. rewrite andb_true_iff, negb_true_iff. by intros [-> _]. Qed.

Lemma rstrip_absent p s : all_chars (fun c => negb (p c)) s = true -> rstrip_by p s = s.
Proof.
  induction s as [|c s IH]; simpl; [done|]. rewrite andb_true_iff, negb_true_iff. intros [Hc Hs].
  rewrite IH by done. destruct s; [|done]. by rewrite Hc.
Qed.

Lemma hex_digit_value n : (n < 16)%N -> digit_in 16 (hex_digit n) = Some (Z.of_N n).
Proof.
  intros H. assert (n = 0 ∨ n = 1 ∨ n = 2 ∨ n = 3 ∨ n = 4 ∨ n = 5 ∨ n = 6 ∨ n = 7 ∨ n = 8 ∨ n = 9
    ∨ n = 10 ∨ n = 11 ∨ n = 12 ∨ n = 13 ∨ n = 14 ∨ n = 15)%N as Hn by lia.
  by destruct_or!; subst.
Qed.

Lemma hex_char_cases (q : ascii -> bool) :
  forallb (fun n => q (hex_digit n)) (N.of_nat <$> seq 0 16) = true ->
  forall n, (n < 16)%N -> q (hex_digit n) = true.
Proof.
  intros H n Hn. rewrite forallb_forall in H. apply (H n).
  apply list_elem_of_In, list_elem_of_fmap. exists (N.to_nat n). split; [lia|].
  apply elem_of_seq. lia.
Qed.

Lemma all_chars_hex_digits q k n tail :
  (forall m, (m < 16)%N -> q (hex_digit m) = true) ->
  all_chars q tail = true -> all_chars q (hex_digits k n tail) = true.
Proof.
  intros Hq. revert n tail. induction k as [|k IH]; intros n tail Ht; simpl; [done|].
  apply IH. simpl. rewrite Hq by by apply N.mod_lt. done.
Qed.

Lemma length_hex_digits k n tail :
  String.length (hex_digits k n tail) = (k + String.length tail)%nat.
Proof. revert n tail. induction k as [|k IH]; intros; simpl; [done|]. rewrite IH. simpl. lia. Qed.

Lemma all_chars_dashed q gs left s :
  q "-"%char = true -> all_chars q s = true -> all_chars q (dashed gs left s) = true.
Proof.
  intros Hd. revert gs left. induction s as [|c s IH]; intros gs left; simpl; [done|].
  rewrite andb_true_iff. intros [Hc Hs].
  destruct left, gs; simpl; rewrite ?Hd, ?Hc; simpl; by apply IH.
Qed.

Lemma remove_dashed gs left s :
  all_chars (fun c => negb (Ascii.eqb "-" c)) s = true -> remove_char "-" (dashed gs left s) = s.
Proof.
  revert gs left. induction s as [|c s IH]; intros gs left; [done|].
  cbn [all_chars]. rewrite andb_true_iff, negb_true_iff. intros [Hc Hs].
  destruct left as [|left], gs as [|g gs]; cbn [dashed remove_char];
    rewrite ?Ascii.eqb_refl; cbn [remove_char]; rewrite Hc; by rewrite IH.
Qed.

Lemma scan_hex_digits k n tail b acc :
  (n < 16 ^ N.of_nat (S k))%N ->
  scan_digits 16 (hex_digits (S k) n tail) b acc
  = scan_digits 16 tail true (acc * 16 ^ Z.of_nat (S k) + Z.of_N n)%Z.
Proof.
  revert n tail b acc. induction k as [|k IH]; intros n tail b acc Hn.
  - cbn [hex_digits scan_digits]. assert (n < 16)%N as Hlt by done.
    rewrite N.mod_small by done. rewrite hex_digit_value by done.
    assert (Ascii.eqb (hex_digit n) "_" = false) as ->.
    { apply negb_true_iff. by apply (hex_char_cases (fun c => negb (Ascii.eqb c "_"))). }
    done.
  - change (hex_digits (S (S k)) n tail)
      with (hex_digits (S k) (n / 16)%N (String (hex_digit (n mod 16)%N) tail)).
    assert (n mod 16 < 16)%N as Hm by (by apply N.mod_lt).
    rewrite IH.
    2:{ apply N.Div0.div_lt_upper_bound.
        rewrite (Nat2N.inj_succ (S k)), N.pow_succ_r' in Hn. done. }
    cbn [scan_digits]. rewrite hex_digit_value by done.
    assert (Ascii.eqb (hex_digit (n mod 16)) "_" = false) as ->.
    { apply negb_true_iff. by apply (hex_char_cases (fun c => negb (Ascii.eqb c "_"))). }
    simpl. f_equal. rewrite (Nat2Z.inj_succ (S k)), Z.pow_succ_r by lia.
    pose proof (N.div_mod n 16 ltac:(done)). lia.
Qed.

Lemma int_of_str_hex s n :
  all_chars hex_char s = true -> scan_digits 16 s false 0 = Some n -> int_of_str 16 s = Some n.
Proof.
  intros Hs Hn. unfold int_of_str, strip, strip_by.
  assert (forall c, hex_char c = true -> negb (is_space c) = true) as Hsp.
  { intros c. by destruct c as [[] [] [] [] [] [] [] []]. }
  rewrite lstrip_absent, rstrip_absent by eauto using all_chars_impl.
  assert (strip_sign s = (false, s)) as ->.
  { destruct s as [|c s]; [done|]. simpl in Hs. apply andb_true_iff in Hs as [Hc _].
    by destruct c as [[] [] [] [] [] [] [] []]. }
  assert (strip_radix_prefix 16 s = s) as ->; [|by rewrite Hn].
  destruct s as [|c [|d s]]; [done| |].
  - by destruct c as [[] [] [] [] [] [] [] []].
  - simpl in Hs. apply andb_true_iff in Hs as [_ Hs]. apply andb_true_iff in Hs as [Hd _].
    destruct (ascii_dec c "0") as [->|Hc].
    + by destruct d as [[] [] [] [] [] [] [] []].
    + destruct c as [[] [] [] [] [] [] [] []]; try done.
Qed.

Lemma uuid_of_str_uuid_str u : (u < 2 ^ 128)%N -> uuid_of_str (uuid_str u) = Some u.
Proof.
  intros Hu. unfold uuid_of_str, uuid_str.
  assert (forall q : ascii -> bool, forallb (fun n => q (hex_digit n)) (N.of_nat <$> seq 0 16) = true ->
    all_chars q (hex_digits 32 u "") = true) as Hall.
  { intros q Hq. apply all_chars_hex_digits; [|done]. by apply hex_char_cases. }
  rewrite (replace_absent "u" "rn:"), (replace_absent "u" "uid:")
    by (apply all_chars_dashed; [done|]; by apply Hall).
  unfold strip_by.
  rewrite lstrip_absent, rstrip_absent by (apply all_chars_dashed; [done|]; by apply Hall).
  rewrite remove_dashed by by apply Hall.
  rewrite decide_True by by rewrite length_hex_digits.
  rewrite (int_of_str_hex _ (Z.of_N u)); [simpl; f_equal; lia|by apply Hall|].
  rewrite scan_hex_digits by done. simpl. f_equal.
Qed.

Lemma uuid_str_inj u v : (u < 2 ^ 128)%N -> (v < 2 ^ 128)%N -> uuid_str u = uuid_str v -> u = v.
Proof.
  intros Hu Hv Heq. apply (f_equal uuid_of_str) in Heq.
  rewrite !uuid_of_str_uuid_str in Heq by done. by simplify_eq.
Qed.
