(* ===== verification/Errors.v ===== *)
(** * Exceptions

    [recoverai_domain/errors.py]: the [DomainError] hierarchy, with the
    [ProviderError]s of [recoverai_providers/errors.py] and the other Python exceptions the modelled code can raise as [PyError]. *)
From S2P Require Import Prelude PyStr Uuid.
Open Scope stdpp_scope.

Inductive exn : Type :=
  | DomainError (code message : string) (retryable : bool)
  | IngestionError (code message : string) (http_status : Z)
  | InvalidTransitionError (from_status to_status : string) (case_id : option UUID)
  | ConcurrentCaseUpdateError (case_id : UUID)
  | IdempotencyConflictError (key : string)
  | ToolValidationError (code message : string)
  | OptimizerError (code message : string)
  | AgentError (code message : string) (retryable : bool)
  | ProviderError (code message : string)
  | ProviderCapabilityError (capability provider : string)
  | ProviderNotFoundError (resource resource_id : string)
  | PyError (type_name message : string).

(** [except ProviderError] *)
Definition is_provider_error (e : exn) : bool :=
  match e with
  | ProviderError _ _ | ProviderCapabilityError _ _ | ProviderNotFoundError _ _ => true
  | _ => false
  end.

(** [except DomainError]: the constructors before [ProviderError]. *)
Definition is_domain_error (e : exn) : bool :=
  match e with PyError _ _ => false | _ => negb (is_provider_error e) end.

(** [except IngestionError] *)
Definition is_ingestion_error (e : exn) : bool := match e with IngestionError _ _ _ => true | _ => false end.

(** The [message] each constructor of the hierarchy stores; [str(exc)]. *)
Definition exn_message (e : exn) : string :=
  match e with
  | DomainError _ m _ | IngestionError _ m _ | ToolValidationError _ m
  | OptimizerError _ m | AgentError _ m _ | ProviderError _ m | PyError _ m => m
  | InvalidTransitionError from_status to_status _ =>
      "Cannot transition recovery case from " +:+ from_status +:+ " to " +:+ to_status
  | ConcurrentCaseUpdateError case_id =>
      "Recovery case " +:+ uuid_str case_id +:+ " was updated concurrently"
  | ProviderCapabilityError capability provider =>
      "Provider " +:+ provider +:+ " does not support " +:+ capability
  | ProviderNotFoundError resource resource_id =>
      resource +:+ " " +:+ resource_id +:+ " was not found"
  | IdempotencyConflictError key =>
      "Idempotency key " +:+ key +:+ " was reused with a different request payload"
  end.

(** [getattr(exc, "code", type(exc).__name__)]; SQLAlchemy's errors carry the
    code of their documentation page. *)
Definition exn_code (e : exn) : string :=
  match e with
  | DomainError c _ _ | IngestionError c _ _ | ToolValidationError c _
  | OptimizerError c _ | AgentError c _ _ | ProviderError c _ => c
  | ProviderCapabilityError _ _ => "PROVIDER_CAPABILITY_UNSUPPORTED"
  | ProviderNotFoundError _ _ => "PROVIDER_RESOURCE_NOT_FOUND"
  | InvalidTransitionError _ _ _ => "INVALID_STATE_TRANSITION"
  | ConcurrentCaseUpdateError _ => "CONCURRENT_CASE_UPDATE"
  | IdempotencyConflictError _ => "IDEMPOTENCY_KEY_CONFLICT"
  | PyError "IntegrityError" _ => "gkpj"
  | PyError "OperationalError" _ => "e3q8"
  | PyError type_name _ => type_name
  end.

(** [exc.retryable]; only [DomainError]s have the attribute. *)
Definition exn_retryable (e : exn) : bool :=
  match e with
  | DomainError _ _ r | AgentError _ _ r => r
  | ConcurrentCaseUpdateError _ => true
  | _ => false
  end.

Definition is_error_type (type_name : string) (e : exn) : bool :=
  match e with PyError t _ => String.eqb t type_name | _ => false end.
(** [except IntegrityError] and [except OperationalError] of SQLAlchemy *)
Definition is_integrity_error : exn -> bool := is_error_type "IntegrityError".
Definition is_operational_error : exn -> bool := is_error_type "OperationalError".

Definition ValueError (m : string) : exn := PyError "ValueError" m.
Definition TypeError (m : string) : exn := PyError "TypeError" m.
Definition KeyError (m : string) : exn := PyError "KeyError" m.
Definition IntegrityError (m : string) : exn := PyError "IntegrityError" m.
Definition InvalidOperation : exn := PyError "InvalidOperation" "".
Definition DivisionByZero : exn := PyError "DivisionByZero" "".
Definition OverflowError (m : string) : exn := PyError "OverflowError" m.
(** pydantic's [ValidationError] is a [ValueError]. *)
Definition ValidationError (m : string) : exn := PyError "ValidationError" m.

#[export] Instance exn_eq_dec : EqDecision exn.
Proof. solve_decision. Defined.

Lemma retryable_is_domain e : exn_retryable e = true -> is_domain_error e = true.
Proof. by destruct e. Qed.
