(* ===== verification/Decimal.v ===== *)
(** * Decimal arithmetic and money

    Python's [decimal.Decimal] under the default context (28 significant
    digits, ROUND_HALF_EVEN), and [recoverai_domain/money.py].  A finite
    decimal is [d_int * 10 ^ d_exp]; the sign of zero is not represented.
    NaN and infinities only occur when text is parsed ([PyDec]). *)
From S2P Require Import Prelude PyStr Uuid Errors.
From Stdlib Require Import Ascii.
Open Scope stdpp_scope.
Open Scope Z_scope.

Record Decimal : Type := mkDec { d_int : Z; d_exp : Z }.

#[export] Instance Decimal_eq_dec : EqDecision Decimal.
Proof. solve_decision. Defined.

Definition prec : Z := 28.

(** ** Digits and rounding *)

(** [len(str(n))] for a non-negative [n]. *)
Fixpoint ndigits_fuel (fuel : nat) (n : Z) : Z :=
  match fuel with
  | O => 1
  | S fuel => if n <? 10 then 1 else 1 + ndigits_fuel fuel (n / 10)
  end.
Definition ndigits (n : Z) : Z := ndigits_fuel (S (Z.to_nat (Z.log2 (Z.abs n)))) (Z.abs n).

(** The integer nearest to [n / m], ties to even ([m > 0]). *)
Definition div_half_even (n m : Z) : Z :=
  let q := n / m in
  let r := n mod m in
  if 2 * r <? m then q
  else if m <? 2 * r then q + 1
  else if Z.even q then q else q + 1.

(** Round to the context precision ([Context._fix]). *)
Definition fix_prec (x : Decimal) : Decimal :=
  let n := ndigits (d_int x) in
  if n <=? prec then x
  else
    let k := n - prec in
    let c := div_half_even (d_int x) (10 ^ k) in
    if ndigits c <=? prec then mkDec c (d_exp x + k)
    else mkDec (c / 10) (d_exp x + k + 1).

(** The coefficient of [x] at exponent [e], for [e <= d_exp x]. *)
Definition coeff_at (e : Z) (x : Decimal) : Z := d_int x * 10 ^ (d_exp x - e).

(** ** Operations *)

Definition dec_add (x y : Decimal) : Decimal :=
  let e := Z.min (d_exp x) (d_exp y) in
  fix_prec (mkDec (coeff_at e x + coeff_at e y) e).
Definition dec_sub (x y : Decimal) : Decimal :=
  let e := Z.min (d_exp x) (d_exp y) in
  fix_prec (mkDec (coeff_at e x - coeff_at e y) e).
Definition dec_mul (x y : Decimal) : Decimal :=
  fix_prec (mkDec (d_int x * d_int y) (d_exp x + d_exp y)).

(** Strip trailing zeros while the exponent is below the ideal one. *)
Fixpoint strip_zeros (fuel : nat) (c e : Z) : Decimal :=
  match fuel with
  | O => mkDec c e
  | S fuel => if c mod 10 =? 0 then strip_zeros fuel (c / 10) (e + 1) else mkDec c e
  end.

(** [x / y]: the quotient to [prec + 1] digits with a sticky last digit, rounded. *)
Definition dec_div (x y : Decimal) : result exn Decimal :=
  if d_int y =? 0 then Raise (if d_int x =? 0 then InvalidOperation else DivisionByZero)
  else
    let ideal := d_exp x - d_exp y in
    if d_int x =? 0 then Ok (fix_prec (mkDec 0 ideal))
    else
      let shift := ndigits (d_int y) - ndigits (d_int x) + prec + 1 in
      let e := ideal - shift in
      let n := Z.abs (d_int x) * 10 ^ Z.max shift 0 in
      let m := Z.abs (d_int y) * 10 ^ Z.max (- shift) 0 in
      let c := n / m in
      let s := Z.sgn (d_int x) * Z.sgn (d_int y) in
      let q := if n mod m =? 0 then strip_zeros (Z.to_nat (ideal - e)) c e
               else mkDec (if c mod 5 =? 0 then c + 1 else c) e in
      Ok (fix_prec (mkDec (s * d_int q) (d_exp q))).

(** Comparisons are exact. *)
Definition dec_cmp (x y : Decimal) : comparison :=
  let e := Z.min (d_exp x) (d_exp y) in
  Z.compare (coeff_at e x) (coeff_at e y).
Definition dec_ltb (x y : Decimal) : bool := match dec_cmp x y with Lt => true | _ => false end.
Definition dec_leb (x y : Decimal) : bool := match dec_cmp x y with Gt => false | _ => true end.
Definition dec_eqb (x y : Decimal) : bool := match dec_cmp x y with Eq => true | _ => false end.

(** The builtins [min] and [max] return the first of two equal values. *)
Definition dec_min (x y : Decimal) : Decimal := if dec_ltb y x then y else x.
Definition dec_max (x y : Decimal) : Decimal := if dec_ltb x y then y else x.

(** [x.quantize(Decimal((0, (1,), e)), rounding=ROUND_HALF_EVEN)] *)
Definition quantize (e : Z) (x : Decimal) : result exn Decimal :=
  let c := if e <=? d_exp x then coeff_at e x
           else div_half_even (d_int x) (10 ^ (e - d_exp x)) in
  if ndigits c <=? prec then Ok (mkDec c e) else Raise InvalidOperation.

Definition dec_of_Z (n : Z) : Decimal := mkDec n 0.

(** ** money.py *)

Definition MONEY_EXP : Z := -2.
Definition ZERO : Decimal := mkDec 0 MONEY_EXP.

Definition as_money (value : Decimal) : result exn Decimal :=
  quantized ← quantize MONEY_EXP value;
  if dec_ltb quantized ZERO then Raise (ValueError "money values must be >= 0")
  else Ok quantized.

Definition signed_money (value : Decimal) : result exn Decimal := quantize MONEY_EXP value.

(** ** Text *)

Fixpoint zeros (n : nat) : string := match n with O => "" | S n => String "0" (zeros n) end.
Fixpoint drop_str (n : nat) (s : string) : string :=
  match n, s with S n, String _ s => drop_str n s | _, _ => s end.

(** [str(x)]: to-scientific-string. *)
Definition dec_str (x : Decimal) : string :=
  let digits := str_int (Z.abs (d_int x)) in
  let len := Z.of_nat (String.length digits) in
  let leftdigits := d_exp x + len in
  let dotplace := if (d_exp x <=? 0) && (-6 <? leftdigits) then leftdigits else 1 in
  let body :=
    if dotplace <=? 0 then "0." +:+ zeros (Z.to_nat (- dotplace)) +:+ digits
    else if len <=? dotplace then digits +:+ zeros (Z.to_nat (dotplace - len))
    else prefix_n (Z.to_nat dotplace) digits +:+ "." +:+ drop_str (Z.to_nat dotplace) digits in
  let expo := if leftdigits =? dotplace then ""
              else "E" +:+ (if 0 <? leftdigits - dotplace then "+" else "")
                       +:+ str_int (leftdigits - dotplace) in
  (if d_int x <? 0 then "-" else "") +:+ body +:+ expo.

Inductive PyDec : Type := Finite (d : Decimal) | NotFinite.

Definition is_digit (c : ascii) : bool :=
  match digit_in 10 c with Some _ => true | None => false end.

(** Split off the leading digits. *)
Fixpoint span_digits (s : string) : string * string :=
  match s with
  | String c s' =>
      if is_digit c then let '(a, b) := span_digits s' in (String c a, b) else (EmptyString, s)
  | EmptyString => (EmptyString, EmptyString)
  end.

Definition digits_value (s : string) : Z := default 0 (scan_digits 10 s false 0).

(** The optional exponent part at the end of a number. *)
Definition parse_exponent (s : string) : option Z :=
  match s with
  | EmptyString => Some 0
  | String ("e" | "E") s =>
      let '(neg, s) := strip_sign s in
      match span_digits s with
      | (String _ _ as ds, EmptyString) => Some (if neg then - digits_value ds else digits_value ds)
      | _ => None
      end
  | _ => None
  end.

Definition is_special (s : string) : bool :=
  let s := lower s in
  let nan t := match t with
               | String "n" (String "a" (String "n" ds)) => String.eqb (span_digits ds).2 ""
               | _ => false end in
  mem_str s ["inf"; "infinity"] || nan s || match s with String "s" t => nan t | _ => false end.

(** [Decimal(s)]; [None] is the [InvalidOperation]. *)
Definition dec_of_str (s : string) : option PyDec :=
  let '(neg, body) := strip_sign (remove_char "_" (strip s)) in
  if is_special body then Some NotFinite
  else
    let '(ip, rest) := span_digits body in
    let '(fp, rest) := match rest with String "." r => span_digits r | _ => (EmptyString, rest) end in
    if nonempty (ip +:+ fp) then
      e ← parse_exponent rest;
      let c := digits_value (ip +:+ fp) in
      Some (Finite (mkDec (if neg then - c else c) (e - Z.of_nat (String.length fp))))
    else None.

Example dec_of_str_ex1 : dec_of_str " 499.00" = Some (Finite (mkDec 49900 (-2))).
Proof. vm_compute. reflexivity. Qed.
Example dec_of_str_ex2 : dec_of_str "-1.5e3" = Some (Finite (mkDec (-15) 2)).
Proof. vm_compute. reflexivity. Qed.
Example dec_of_str_ex3 : dec_of_str "abc" = None. Proof. vm_compute. reflexivity. Qed.
Example dec_of_str_ex4 : dec_of_str "-Infinity" = Some NotFinite. Proof. vm_compute. reflexivity. Qed.
Example dec_str_ex1 : dec_str (mkDec 123456 (-2)) = "1234.56". Proof. vm_compute. reflexivity. Qed.
Example dec_str_ex2 : dec_str (mkDec (-5) (-3)) = "-0.005". Proof. vm_compute. reflexivity. Qed.
Example dec_str_ex3 : dec_str (mkDec 5 3) = "5E+3". Proof. vm_compute. reflexivity. Qed.
Example dec_div_ex : dec_div (mkDec 1 0) (mkDec 3 0) = Ok (mkDec 3333333333333333333333333333 (-28)).
Proof. vm_compute. reflexivity. Qed.
Example dec_div_ex2 : dec_div (mkDec 49900 (-2)) (mkDec 100 0) = Ok (mkDec 499 (-2)).
Proof. vm_compute. reflexivity. Qed.

(** ** Digits *)

Lemma pow10_pos k : 0 <= k -> 0 < 10 ^ k.
Proof. intros. apply Z.pow_pos_nonneg; lia. Qed.

Lemma ndigits_fuel_spec fuel n :
  0 <= n -> n < 2 ^ Z.of_nat fuel \/ n < 10 ->
  1 <= ndigits_fuel fuel n /\ n < 10 ^ ndigits_fuel fuel n
  /\ (0 < n -> 10 ^ (ndigits_fuel fuel n - 1) <= n).
Proof.
  revert n. induction fuel as [|fuel IH]; intros n Hn Hf; simpl ndigits_fuel.
  - rewrite Z.pow_1_r. change (10 ^ (1 - 1)) with 1. simpl in Hf. lia.
  - destruct (Z.ltb_spec n 10) as [Hlt|Hge].
    + rewrite Z.pow_1_r. change (10 ^ (1 - 1)) with 1. lia.
    + assert (0 <= n / 10) as H0 by (apply Z.div_pos; lia).
      assert (n / 10 < 2 ^ Z.of_nat fuel) as Hlt.
      { apply Z.div_lt_upper_bound; [lia|].
        rewrite Nat2Z.inj_succ, Z.pow_succ_r in Hf by lia. lia. }
      destruct (IH (n / 10) H0 (or_introl Hlt)) as (H1 & H2 & H3).
      set (d := ndigits_fuel fuel (n / 10)) in *.
      pose proof (Z.div_mod n 10 ltac:(lia)). pose proof (Z.mod_pos_bound n 10 ltac:(lia)).
      assert (1 <= n / 10) as Hd1 by (apply Z.div_le_lower_bound; lia).
      split; [lia|]. replace (1 + d) with (Z.succ d) by lia. rewrite Z.pow_succ_r by lia.
      split; [lia|]. intros _. replace (Z.succ d - 1) with (Z.succ (d - 1)) by lia.
      rewrite Z.pow_succ_r by lia. specialize (H3 ltac:(lia)). lia.
Qed.

Lemma ndigits_spec n :
  1 <= ndigits n /\ Z.abs n < 10 ^ ndigits n /\ (n ≠ 0 -> 10 ^ (ndigits n - 1) <= Z.abs n).
Proof.
  unfold ndigits. set (a := Z.abs n). assert (0 <= a) as Ha by (unfold a; lia).
  destruct (ndigits_fuel_spec (S (Z.to_nat (Z.log2 a))) a Ha) as (H1 & H2 & H3).
  - destruct (decide (a = 0)) as [->|Hne]; [right; lia|]. left.
    pose proof (Z.log2_nonneg a). pose proof (Z.log2_spec a ltac:(lia)) as Hl.
    rewrite Nat2Z.inj_succ, Z2Nat.id by lia. apply Hl.
  - repeat split; [done..|]. intros. apply H3. unfold a in *; lia.
Qed.

Lemma ndigits_le n k : 1 <= k -> ndigits n <= k <-> Z.abs n < 10 ^ k.
Proof.
  intros Hk. destruct (ndigits_spec n) as (H1 & H2 & H3). split.
  - intros Hle. apply Z.lt_le_trans with (1 := H2). apply Z.pow_le_mono_r; lia.
  - intros Hlt. destruct (decide (n = 0)) as [->|Hne]; [vm_compute ndigits; lia|].
    specialize (H3 Hne). destruct (Z.le_gt_cases (ndigits n) k) as [|Hgt]; [done|].
    assert (10 ^ k <= 10 ^ (ndigits n - 1)) by (apply Z.pow_le_mono_r; lia). lia.
Qed.

Lemma ndigits_small n : Z.abs n < 10 ^ prec -> (ndigits n <=? prec) = true.
Proof. intros. apply Z.leb_le, ndigits_le; [done|]. done. Qed.

Lemma fix_prec_small x : Z.abs (d_int x) < 10 ^ prec -> fix_prec x = x.
Proof. intros. unfold fix_prec. by rewrite ndigits_small. Qed.

(** ** Half-even division *)

Lemma div_half_even_exact k m : 0 < m -> div_half_even (k * m) m = k.
Proof.
  intros Hm. unfold div_half_even. rewrite Z.div_mul, Z.mod_mul by lia.
  destruct (Z.ltb_spec (2 * 0) m); lia.
Qed.

(** The result is a nearest integer, and an even one on a tie. *)
Lemma div_half_even_spec n m :
  0 < m -> let q := div_half_even n m in
  2 * Z.abs (n - m * q) <= m /\ (2 * Z.abs (n - m * q) = m -> Z.even q = true).
Proof.
  intros Hm. unfold div_half_even. pose proof (Z.div_mod n m ltac:(lia)).
  pose proof (Z.mod_pos_bound n m Hm).
  destruct (Z.ltb_spec (2 * (n mod m)) m); [simpl; lia|].
  destruct (Z.ltb_spec m (2 * (n mod m))); [simpl; lia|].
  destruct (Z.even (n / m)) eqn:Heven; simpl; [split; [lia|done]|].
  split; [lia|]. intros _. rewrite Z.add_1_r, Z.even_succ.
  by rewrite <- Z.negb_even, Heven.
Qed.

Lemma div_half_even_unique n m q :
  0 < m -> 2 * Z.abs (n - m * q) < m -> div_half_even n m = q.
Proof. intros Hm Hq. destruct (div_half_even_spec n m Hm) as [H _]. nia. Qed.

Lemma div_half_even_mono n n' m : 0 < m -> n <= n' -> div_half_even n m <= div_half_even n' m.
Proof.
  intros Hm Hle.
  destruct (div_half_even_spec n m Hm) as [H1 H1'], (div_half_even_spec n' m Hm) as [H2 H2'].
  set (q := div_half_even n m) in *. set (q' := div_half_even n' m) in *.
  destruct (Z.le_gt_cases q q') as [|Hgt]; [done|]. exfalso.
  assert (q = q' + 1) as Hq by nia.
  assert (2 * Z.abs (n - m * q) = m /\ 2 * Z.abs (n' - m * q') = m) as [Ht Ht'] by nia.
  specialize (H1' Ht). specialize (H2' Ht'). subst q.
  rewrite Hq, Z.add_1_r, Z.even_succ, <- Z.negb_even, H2' in H1'. done.
Qed.

Lemma div_half_even_nonneg n m : 0 < m -> 0 <= n -> 0 <= div_half_even n m.
Proof.
  intros Hm Hn. rewrite <- (div_half_even_exact 0 m Hm). apply div_half_even_mono; lia.
Qed.

(** ** The order is the order of the values *)

(** [scaled e x] compares [x] at any exponent not above its own. *)
Lemma coeff_at_shift e e' x : e' <= e -> e <= d_exp x -> coeff_at e' x = coeff_at e x * 10 ^ (e - e').
Proof.
  intros. unfold coeff_at. rewrite <- Z.mul_assoc, <- Z.pow_add_r by lia. do 2 f_equal. lia.
Qed.

Lemma coeff_at_same x : coeff_at (d_exp x) x = d_int x.
Proof. unfold coeff_at. rewrite Z.sub_diag. lia. Qed.

Lemma dec_cmp_at e x y :
  e <= d_exp x -> e <= d_exp y -> dec_cmp x y = Z.compare (coeff_at e x) (coeff_at e y).
Proof.
  intros Hx Hy. unfold dec_cmp. set (m := Z.min (d_exp x) (d_exp y)).
  rewrite (coeff_at_shift m e x), (coeff_at_shift m e y) by lia.
  apply Zmult_compare_compat_r. apply Z.lt_gt, pow10_pos. lia.
Qed.

Lemma dec_leb_at e x y :
  e <= d_exp x -> e <= d_exp y -> dec_leb x y = (coeff_at e x <=? coeff_at e y).
Proof. intros. unfold dec_leb. by rewrite (dec_cmp_at e). Qed.
Lemma dec_ltb_at e x y :
  e <= d_exp x -> e <= d_exp y -> dec_ltb x y = (coeff_at e x <? coeff_at e y).
Proof. intros. unfold dec_ltb. by rewrite (dec_cmp_at e). Qed.
Lemma dec_eqb_at e x y :
  e <= d_exp x -> e <= d_exp y -> dec_eqb x y = (coeff_at e x =? coeff_at e y).
Proof.
  intros. unfold dec_eqb. rewrite (dec_cmp_at e) by done. by rewrite Z.eqb_compare.
Qed.

Lemma dec_leb_refl x : dec_leb x x = true.
Proof. rewrite (dec_leb_at (d_exp x)) by lia. apply Z.leb_refl. Qed.

Lemma dec_leb_trans x y z : dec_leb x y = true -> dec_leb y z = true -> dec_leb x z = true.
Proof.
  set (e := Z.min (d_exp x) (Z.min (d_exp y) (d_exp z))).
  rewrite !(dec_leb_at e) by lia. rewrite !Z.leb_le. lia.
Qed.

Lemma dec_ltb_leb x y : dec_ltb x y = negb (dec_leb y x).
Proof.
  set (e := Z.min (d_exp x) (d_exp y)).
  rewrite (dec_ltb_at e), (dec_leb_at e) by lia. apply Z.ltb_antisym.
Qed.

Lemma dec_leb_total x y : dec_leb x y = true \/ dec_leb y x = true.
Proof.
  set (e := Z.min (d_exp x) (d_exp y)). rewrite !(dec_leb_at e) by lia.
  rewrite !Z.leb_le. lia.
Qed.

(** Two values with the money exponent compare by their cents. *)
Lemma dec_leb_money a b : dec_leb (mkDec a MONEY_EXP) (mkDec b MONEY_EXP) = (a <=? b).
Proof. rewrite (dec_leb_at MONEY_EXP) by done. unfold coeff_at. simpl. by rewrite !Z.mul_1_r. Qed.
Lemma dec_ltb_money a b : dec_ltb (mkDec a MONEY_EXP) (mkDec b MONEY_EXP) = (a <? b).
Proof. rewrite (dec_ltb_at MONEY_EXP) by done. unfold coeff_at. simpl. by rewrite !Z.mul_1_r. Qed.
Lemma dec_eqb_money a b : dec_eqb (mkDec a MONEY_EXP) (mkDec b MONEY_EXP) = (a =? b).
Proof. rewrite (dec_eqb_at MONEY_EXP) by done. unfold coeff_at. simpl. by rewrite !Z.mul_1_r. Qed.

Definition in_prec (n : Z) : Prop := Z.abs n < 10 ^ prec.

Lemma dec_add_money a b : in_prec (a + b) -> dec_add (mkDec a MONEY_EXP) (mkDec b MONEY_EXP) = mkDec (a + b) MONEY_EXP.
Proof.
  intros. unfold dec_add, coeff_at. cbn [d_int d_exp]. rewrite Z.min_id, Z.sub_diag, !Z.mul_1_r.
  by apply fix_prec_small.
Qed.
Lemma dec_sub_money a b : in_prec (a - b) -> dec_sub (mkDec a MONEY_EXP) (mkDec b MONEY_EXP) = mkDec (a - b) MONEY_EXP.
Proof.
  intros. unfold dec_sub, coeff_at. cbn [d_int d_exp]. rewrite Z.min_id, Z.sub_diag, !Z.mul_1_r.
  by apply fix_prec_small.
Qed.

(** ** Quantization *)

Lemma quantize_exp e x y : quantize e x = Ok y -> d_exp y = e /\ in_prec (d_int y).
Proof.
  unfold quantize. destruct (Z.leb_spec (ndigits (if e <=? d_exp x then coeff_at e x
    else div_half_even (d_int x) (10 ^ (e - d_exp x)))) prec) as [Hle|]; [|done].
  intros [= <-]. split; [done|]. by apply ndigits_le in Hle.
Qed.

Lemma quantize_id e x : d_exp x = e -> in_prec (d_int x) -> quantize e x = Ok x.
Proof.
  intros <- Hp. unfold quantize. rewrite Z.leb_refl, coeff_at_same, ndigits_small by done.
  by destruct x.
Qed.

(** The quantized value is within half a unit of the last place. *)
Lemma quantize_error e x y :
  quantize e x = Ok y ->
  if e <=? d_exp x then d_int y = coeff_at e x
  else 2 * Z.abs (d_int x - d_int y * 10 ^ (e - d_exp x)) <= 10 ^ (e - d_exp x).
Proof.
  unfold quantize. destruct (Z.leb_spec e (d_exp x)) as [Hle|Hgt].
  - destruct (_ <=? prec); [|done]. by intros [= <-].
  - destruct (_ <=? prec); [|done]. intros [= <-]. simpl.
    destruct (div_half_even_spec (d_int x) (10 ^ (e - d_exp x))) as [H _]; [apply pow10_pos; lia|].
    by rewrite (Z.mul_comm _ (10 ^ _)).
Qed.

Lemma as_money_ok x y : as_money x = Ok y -> d_exp y = MONEY_EXP /\ 0 <= d_int y /\ in_prec (d_int y).
Proof.
  unfold as_money, mbind, result_bind. destruct (quantize _ _) as [q|] eqn:Hq; [|done].
  apply quantize_exp in Hq as [He Hp]. destruct (dec_ltb q ZERO) eqn:Hlt; [done|].
  intros [= <-]. destruct q as [n e]. simpl in *. subst e. unfold ZERO in Hlt.
  rewrite dec_ltb_money in Hlt. apply Z.ltb_ge in Hlt. done.
Qed.

(** Money values are fixed points: a non-negative amount of cents within the precision. *)
Lemma as_money_id n : 0 <= n -> in_prec n -> as_money (mkDec n MONEY_EXP) = Ok (mkDec n MONEY_EXP).
Proof.
  intros Hn Hp. unfold as_money. rewrite quantize_id by done. simpl. unfold ZERO.
  rewrite dec_ltb_money. by destruct (Z.ltb_spec n 0); [lia|].
Qed.

Lemma as_money_idemp x y : as_money x = Ok y -> as_money y = Ok y.
Proof.
  intros (He & Hn & Hp)%as_money_ok. destruct y as [n e]; simpl in *; subst e. by apply as_money_id.
Qed.

(** A money value below a quantized one is below the value it came from. *)
Lemma below_quantized x y c :
  as_money x = Ok y -> d_exp c = MONEY_EXP -> dec_ltb c y = true -> dec_ltb c x = true.
Proof.
  intros Hx Hc Hlt. pose proof (as_money_ok _ _ Hx) as (Hy & _ & _).
  assert (quantize MONEY_EXP x = Ok y) as Hq.
  { unfold as_money, mbind, result_bind in Hx. destruct (quantize MONEY_EXP x) as [q|]; [|done].
    destruct (dec_ltb q ZERO); [done|]. by injection Hx as <-. }
  apply quantize_error in Hq. destruct c as [c ec], y as [y ey]; simpl in *; subst.
  rewrite dec_ltb_money in Hlt. apply Z.ltb_lt in Hlt.
  destruct (Z.leb_spec MONEY_EXP (d_exp x)) as [Hle|Hgt].
  - rewrite (dec_ltb_at MONEY_EXP) by done. rewrite <- Hq. unfold coeff_at. simpl.
    rewrite Z.mul_1_r. by apply Z.ltb_lt.
  - rewrite (dec_ltb_at (d_exp x)) by (simpl; lia). rewrite coeff_at_same.
    unfold coeff_at. cbn [d_int d_exp]. apply Z.ltb_lt.
    assert (0 < 10 ^ (MONEY_EXP - d_exp x)) by (apply pow10_pos; lia). nia.
Qed.

Lemma as_money_min x y a b :
  as_money x = Ok a -> as_money y = Ok b -> as_money (dec_min a b) = Ok (dec_min a b).
Proof.
  intros Hx Hy. unfold dec_min. destruct (dec_ltb b a); eauto using as_money_idemp.
Qed.

(** ** Properties *)

(** [as_money] rounds to the nearest cent, to the even one on a tie; its results
    have two decimals, are not negative, and are fixed by it. *)
Theorem money_is_nearest_cent x y :
  as_money x = Ok y ->
  let e := Z.min (d_exp x) MONEY_EXP in
  let gap := Z.abs (coeff_at e x - coeff_at e y) in
  d_exp y = MONEY_EXP /\ 0 <= d_int y /\ as_money y = Ok y
  /\ 2 * gap <= 10 ^ (MONEY_EXP - e)
  /\ (2 * gap = 10 ^ (MONEY_EXP - e) -> Z.even (d_int y) = true).
Proof.
  intros H. pose proof (as_money_ok _ _ H) as (He & Hpos & _). pose proof (as_money_idemp _ _ H) as Hid.
  cbv zeta. split; [done|]. split; [done|]. split; [done|]. clear Hid.
  unfold as_money, mbind, result_bind in H. destruct (quantize MONEY_EXP x) as [q|] eqn:Hq; [|done].
  destruct (dec_ltb q ZERO); [done|]. injection H as ->.
  unfold quantize in Hq. destruct (Z.leb_spec MONEY_EXP (d_exp x)) as [Hle|Hgt].
  - rewrite Z.min_r by lia. destruct (_ <=? prec); [|done]. injection Hq as <-.
    unfold coeff_at at 2 4. simpl d_exp. simpl d_int. rewrite Z.sub_diag, Z.mul_1_r, Z.sub_diag. simpl. lia.
  - rewrite Z.min_l by lia. destruct (_ <=? prec); [|done]. injection Hq as <-.
    destruct (div_half_even_spec (d_int x) (10 ^ (MONEY_EXP - d_exp x))) as [H1 H2]; [apply pow10_pos; lia|].
    unfold coeff_at. simpl d_exp. simpl d_int. rewrite Z.sub_diag, Z.mul_1_r, (Z.mul_comm (div_half_even _ _)).
    by split.
Qed.
