(* ===== verification/Sorting.v ===== *)
(** * Sorting by a key

    [sorted(l, key=k)]: a stable sort by a three-way comparison.  The orders the
    keys are compared by form the class [Order]; tuples compare lexicographically. *)
From S2P Require Import Prelude Decimal.
From Stdlib Require Import Sorted.
Open Scope stdpp_scope.

(** ** Orders *)

(** A three-way comparison that is a total preorder. *)
Class Order {A} (cmp : A -> A -> comparison) : Prop := {
  cmp_flip : forall x y, cmp y x = CompOpp (cmp x y);
  cmp_trans : forall x y z, cmp x y <> Gt -> cmp y z <> Gt -> cmp x z <> Gt;
}.

(** Compare by a key. *)
Definition on_key {A K} (cmp : K -> K -> comparison) (key : A -> K) (x y : A) : comparison :=
  cmp (key x) (key y).

(** Compare first by [c1], then by [c2]. *)
Definition lex {A} (c1 c2 : A -> A -> comparison) (x y : A) : comparison :=
  match c1 x y with Eq => c2 x y | c => c end.

(** Compare the other way round. *)
Definition reversed {A} (cmp : A -> A -> comparison) (x y : A) : comparison := cmp y x.

#[global] Typeclasses Opaque on_key lex reversed dec_cmp.

Lemma cmp_refl {A} (cmp : A -> A -> comparison) `{!Order cmp} x : cmp x x = Eq.
Proof. pose proof (cmp_flip (cmp:=cmp) x x) as H. by destruct (cmp x x). Qed.

Lemma cmp_eq_l {A} (cmp : A -> A -> comparison) `{!Order cmp} x y z : cmp x y = Eq -> cmp x z = cmp y z.
Proof.
  intros H. pose proof (cmp_flip (cmp:=cmp) x y) as H'. rewrite H in H'. simpl in H'.
  pose proof (cmp_trans (cmp:=cmp) x y z) as H1. pose proof (cmp_trans (cmp:=cmp) y x z) as H2.
  pose proof (cmp_trans (cmp:=cmp) z x y) as H3. pose proof (cmp_trans (cmp:=cmp) z y x) as H4.
  rewrite (cmp_flip (cmp:=cmp) x z), (cmp_flip (cmp:=cmp) y z) in H3, H4. rewrite H in H1, H3. rewrite H' in H2, H4.
  destruct (cmp x z), (cmp y z); try done; exfalso; simpl in *;
    first [by apply H1|by apply H2|by apply H3|by apply H4].
Qed.

Lemma cmp_eq_r {A} (cmp : A -> A -> comparison) `{!Order cmp} x y z : cmp x y = Eq -> cmp z x = cmp z y.
Proof. intros H. rewrite (cmp_flip (cmp:=cmp) x z), (cmp_flip (cmp:=cmp) y z). by rewrite (cmp_eq_l cmp x y z H). Qed.

#[export] Instance on_key_order {A K} (cmp : K -> K -> comparison) (key : A -> K) :
  Order cmp -> Order (on_key cmp key).
Proof. unfold on_key. intros H. split; [intros; apply H|intros x y z; apply H]. Qed.

#[export] Instance reversed_order {A} (cmp : A -> A -> comparison) : Order cmp -> Order (reversed cmp).
Proof.
  unfold reversed. intros H. split; [intros; apply H|].
  intros x y z H1 H2. by apply (cmp_trans (cmp:=cmp) z y x).
Qed.

#[export] Instance lex_order {A} (c1 c2 : A -> A -> comparison) : Order c1 -> Order c2 -> Order (lex c1 c2).
Proof.
  intros H1 H2. unfold lex. split.
  - intros x y. rewrite (cmp_flip (cmp:=c1) x y). destruct (c1 x y); simpl; [apply H2|done..].
  - intros x y z Hxy Hyz. destruct (c1 x y) eqn:E1; [| |done].
    + rewrite (cmp_eq_l c1 x y z E1). destruct (c1 y z); [by apply (cmp_trans (cmp:=c2) x y z)|done..].
    + destruct (c1 y z) eqn:E2; [| |done].
      * rewrite <- (cmp_eq_r c1 y z x E2), E1. done.
      * pose proof (cmp_trans (cmp:=c1) x y z) as Ht. rewrite E1, E2 in Ht.
        destruct (c1 x z) eqn:E3; [|done|by exfalso; apply Ht].
        rewrite (cmp_eq_l c1 x z y E3), (cmp_flip (cmp:=c1) y z), E2 in E1. done.
Qed.

#[export] Instance Z_order : Order Z.compare.
Proof. split; [intros; apply Z.compare_antisym|intros x y z; apply Z.le_trans]. Qed.

#[export] Instance dec_order : Order dec_cmp.
Proof.
  split.
  - intros x y. unfold dec_cmp. rewrite (Z.min_comm (d_exp y)). apply Z.compare_antisym.
  - intros x y z H1 H2. pose proof (dec_leb_trans x y z) as H. unfold dec_leb in H.
    destruct (dec_cmp x y), (dec_cmp y z), (dec_cmp x z); try done;
      (specialize (H eq_refl eq_refl); discriminate H).
Qed.

Lemma ascii_compare_lt_trans a b c :
  Ascii.compare a b = Lt -> Ascii.compare b c = Lt -> Ascii.compare a c = Lt.
Proof. unfold Ascii.compare. rewrite !N.compare_lt_iff. lia. Qed.

Lemma string_compare_trans s t u :
  String.compare s t <> Gt -> String.compare t u <> Gt -> String.compare s u <> Gt.
Proof.
  revert t u. induction s as [|a s IH]; intros [|b t] [|c u]; simpl; try done.
  destruct (Ascii.compare a b) eqn:E1; [| |done].
  - apply Ascii.compare_eq_iff in E1 as ->. destruct (Ascii.compare b c); [apply IH|done..].
  - destruct (Ascii.compare b c) eqn:E2; [| |done].
    + apply Ascii.compare_eq_iff in E2 as ->. by rewrite E1.
    + by rewrite (ascii_compare_lt_trans a b c E1 E2).
Qed.

#[export] Instance string_order : Order String.compare.
Proof. split; [intros; apply String.compare_antisym|exact string_compare_trans]. Qed.

(** ** The sort *)

Section Sort.
Context {A : Type} (cmp : A -> A -> comparison).

(** Insert before the first element that is not smaller. *)
Fixpoint insert_sorted (x : A) (l : list A) : list A :=
  match l with
  | [] => [x]
  | y :: l' => match cmp y x with Lt => y :: insert_sorted x l' | _ => x :: l end
  end.

Definition sort_by (l : list A) : list A := foldr insert_sorted [] l.

Lemma insert_sorted_perm x l : insert_sorted x l ≡ₚ x :: l.
Proof.
  induction l as [|y l IH]; simpl; [done|]. destruct (cmp y x); [done| |done].
  rewrite IH. apply perm_swap.
Qed.

Lemma sort_by_perm l : sort_by l ≡ₚ l.
Proof. induction l as [|x l IH]; simpl; [done|]. by rewrite insert_sorted_perm, IH. Qed.

Lemma elem_of_sort_by x l : x ∈ sort_by l <-> x ∈ l.
Proof. by rewrite sort_by_perm. Qed.

Context `{!Order cmp}.

Definition not_after (x y : A) : Prop := cmp x y <> Gt.

Lemma insert_sorted_sorted x l :
  StronglySorted not_after l -> StronglySorted not_after (insert_sorted x l).
Proof using Type*.
  induction l as [|y l IH]; intros H; simpl; [by repeat constructor|].
  inversion_clear H as [|? ? Hl Hy].
  assert (cmp y x <> Lt -> StronglySorted not_after (x :: y :: l)) as Hfront.
  { intros Hyx. assert (not_after x y) as Hxy.
    { unfold not_after. rewrite (cmp_flip (cmp:=cmp) y x). by destruct (cmp y x). }
    constructor; [by constructor|]. constructor; [done|]. 
    eapply list.Forall_impl; [exact Hy|]. intros z Hz. by apply (cmp_trans (cmp:=cmp) x y z). }
  destruct (cmp y x) eqn:E; [by apply Hfront| |by apply Hfront].
  constructor; [by apply IH|]. apply list.Forall_forall. intros z.
  rewrite insert_sorted_perm. intros [->|Hz]%elem_of_cons; [unfold not_after; by rewrite E|].
  rewrite list.Forall_forall in Hy. by apply Hy.
Qed.

Lemma sort_by_sorted l : StronglySorted not_after (sort_by l).
Proof using Type*. induction l; simpl; [constructor|]. by apply insert_sorted_sorted. Qed.

(** The first element is least. *)
Lemma sort_by_head l x l' : sort_by l = x :: l' -> x ∈ l /\ forall y, y ∈ l -> not_after x y.
Proof using Type*.
  intros H. pose proof (sort_by_sorted l) as Hs. rewrite H in Hs. inversion_clear Hs as [|? ? _ Hx].
  split; [apply elem_of_sort_by; rewrite H; apply list_elem_of_here|].
  intros y. rewrite <- elem_of_sort_by, H. intros [->|Hy]%elem_of_cons.
  - unfold not_after. by rewrite (cmp_refl cmp).
  - rewrite list.Forall_forall in Hx. by apply Hx.
Qed.

Lemma sort_by_nil l : sort_by l = [] -> l = [].
Proof using Type. intros H. apply Permutation_nil_r. by rewrite <- sort_by_perm, H. Qed.

(** Where elements that compare equal are equal, the order of the input does not
    matter. *)
Lemma sorted_unique l l' :
  StronglySorted not_after l -> StronglySorted not_after l' -> l ≡ₚ l' ->
  (forall x y, x ∈ l -> y ∈ l -> cmp x y = Eq -> x = y) -> l = l'.
Proof using Type*.
  intros Hl. revert l'. induction Hl as [|x l Hl IH Hx]; intros l' Hl' Hp Hu.
  { by apply Permutation_nil in Hp as ->. }
  destruct Hl' as [|y l' Hl' Hy]; [by symmetry in Hp; apply Permutation_nil in Hp|].
  assert (x = y) as <-.
  { assert (y ∈ x :: l) as Hyl by (rewrite Hp; apply list_elem_of_here).
    assert (x ∈ y :: l') as Hxl by (rewrite <- Hp; apply list_elem_of_here).
    apply Hu; [apply list_elem_of_here|done|].
    pose proof (proj1 (list.Forall_forall _ _) Hx) as Hx'. pose proof (proj1 (list.Forall_forall _ _) Hy) as Hy'.
    unfold not_after in *. apply elem_of_cons in Hyl, Hxl.
    destruct Hyl as [->|Hyl]; [apply (cmp_refl cmp)|]. destruct Hxl as [->|Hxl]; [apply (cmp_refl cmp)|].
    specialize (Hx' y Hyl). specialize (Hy' x Hxl). rewrite (cmp_flip (cmp:=cmp) x y) in Hy'.
    destruct (cmp x y); simpl in *; congruence. }
  f_equal. apply IH; [done|by apply Permutation_cons_inv in Hp|].
  intros a b Ha Hb. apply Hu; by apply list_elem_of_further.
Qed.

Lemma sort_by_unique l l' :
  l ≡ₚ l' -> (forall x y, x ∈ l -> y ∈ l -> cmp x y = Eq -> x = y) -> sort_by l = sort_by l'.
Proof using Type*.
  intros Hp Hu. apply sorted_unique; [apply sort_by_sorted..|by rewrite !sort_by_perm|].
  intros x y. rewrite !elem_of_sort_by. apply Hu.
Qed.

End Sort.
