(* ===== verification/Rounding.v ===== *)
(** * Rounding of decimal results

    Results are rounded to 28 digits; a bound that has 28 digits itself survives
    the rounding, and so do the signs. The second part reads and prints decimals as text. *)
From S2P Require Import Prelude PyStr Uuid Errors Decimal.
From Stdlib Require Import Ascii.
Open Scope stdpp_scope.
Open Scope Z_scope.

(** A decimal with at most 28 digits. *)
Definition representable (x : Decimal) : Prop := in_prec (d_int x).

Lemma pow10_split a b : 0 <= a -> 0 <= b -> 10 ^ (a + b) = 10 ^ a * 10 ^ b.
Proof. intros. by apply Z.pow_add_r. Qed.

(** ** The rounded coefficient *)

Definition excess (x : Decimal) : Z := ndigits (d_int x) - prec.
Definition rounded (x : Decimal) : Z := div_half_even (d_int x) (10 ^ excess x).

Lemma ndigits_ge n k : 1 <= k -> k < ndigits n -> 10 ^ k <= Z.abs n.
Proof.
  intros Hk H. destruct (Z.le_gt_cases (10 ^ k) (Z.abs n)) as [|Hlt]; [done|].
  apply ndigits_le in Hlt; lia.
Qed.

Lemma rounded_bound x : prec < ndigits (d_int x) -> Z.abs (rounded x) <= 10 ^ prec.
Proof.
  intros H. unfold rounded, excess. set (k := ndigits (d_int x) - prec).
  assert (0 < k) as Hk by (unfold k, prec in *; lia).
  assert (Z.abs (d_int x) < 10 ^ prec * 10 ^ k) as Hb.
  { rewrite <- pow10_split by (unfold prec; lia). unfold k. replace (prec + (ndigits (d_int x) - prec)) with (ndigits (d_int x)) by lia.
    apply (ndigits_spec (d_int x)). }
  pose proof (pow10_pos k ltac:(lia)) as Hp.
  pose proof (div_half_even_mono (d_int x) (10 ^ prec * 10 ^ k) (10 ^ k) Hp ltac:(lia)) as H1.
  pose proof (div_half_even_mono (- 10 ^ prec * 10 ^ k) (d_int x) (10 ^ k) Hp ltac:(lia)) as H2.
  rewrite div_half_even_exact in H1, H2 by done. lia.
Qed.

Lemma dec_cmp_scaled c e x : dec_cmp (mkDec (c * 10) e) x = dec_cmp (mkDec c (e + 1)) x.
Proof.
  set (m := Z.min e (d_exp x)). rewrite (dec_cmp_at m (mkDec (c * 10) e)), (dec_cmp_at m (mkDec c (e + 1)))
    by (unfold m; simpl; lia).
  unfold coeff_at. simpl. replace (e + 1 - m) with (1 + (e - m)) by lia.
  rewrite pow10_split by (unfold m; lia). rewrite Z.pow_1_r, Z.mul_assoc. done.
Qed.

(** [fix_prec x] has the value of its rounded coefficient. *)
Lemma fix_prec_value x y : prec < ndigits (d_int x) ->
  dec_cmp (fix_prec x) y = dec_cmp (mkDec (rounded x) (d_exp x + excess x)) y.
Proof.
  intros H. unfold fix_prec. rewrite (proj2 (Z.leb_gt _ _) H). fold (excess x). fold (rounded x).
  destruct (Z.leb_spec (ndigits (rounded x)) prec) as [|Hgt]; [done|].
  pose proof (rounded_bound x H) as Hb. pose proof (ndigits_ge _ prec ltac:(unfold prec; lia) Hgt) as Hg.
  assert (rounded x = 10 ^ prec \/ rounded x = - 10 ^ prec) as Hr by lia.
  replace (d_exp x + excess x + 1) with ((d_exp x + excess x) + 1) by lia.
  rewrite <- dec_cmp_scaled. f_equal. f_equal. destruct Hr as [-> | ->]; reflexivity.
Qed.

Lemma fix_prec_representable x : representable (fix_prec x).
Proof.
  unfold representable, in_prec. destruct (Z.le_gt_cases (ndigits (d_int x)) prec) as [Hle|Hgt].
  - unfold fix_prec. rewrite (proj2 (Z.leb_le _ _) Hle). by apply ndigits_le.
  - unfold fix_prec. rewrite (proj2 (Z.leb_gt _ _) Hgt). fold (excess x). fold (rounded x).
    destruct (Z.leb_spec (ndigits (rounded x)) prec) as [Hn|Hn]; simpl; [by apply ndigits_le|].
    pose proof (rounded_bound x Hgt) as Hb.
    pose proof (ndigits_ge _ prec ltac:(unfold prec; lia) Hn) as Hg.
    assert (rounded x = 10 ^ prec \/ rounded x = - 10 ^ prec) as [-> | ->] by lia; reflexivity.
Qed.

(** ** Bounds survive *)

Lemma fix_prec_le y x : representable x -> dec_leb y x = true -> dec_leb (fix_prec y) x = true.
Proof.
  intros Hx Hle. destruct (Z.le_gt_cases (ndigits (d_int y)) prec) as [Hn|Hn].
  { rewrite fix_prec_small; [done|]. by apply ndigits_le. }
  unfold dec_leb. rewrite fix_prec_value by done. fold (dec_leb (mkDec (rounded y) (d_exp y + excess y)) x).
  pose proof (ndigits_ge (d_int y) (Z.pred (ndigits (d_int y))) ltac:(unfold prec in *; lia) (Z.lt_pred_l _)) as Hbig.
  set (k := excess y) in *. assert (0 < k) as Hk by (unfold k, excess; lia).
  assert (10 ^ Z.pred (ndigits (d_int y)) = 10 ^ (k + 27)) as Hpow.
  { f_equal. unfold k, excess, prec. lia. }
  rewrite Hpow in Hbig. unfold rounded. fold k.
  pose proof (pow10_pos k ltac:(lia)) as Hpk.
  destruct (Z.le_gt_cases (d_exp y + k) (d_exp x)) as [Hexp|Hexp].
  - rewrite (dec_leb_at (d_exp y + k)) by (simpl; lia). unfold coeff_at at 1. cbn [d_int d_exp]. rewrite Z.sub_diag, Z.mul_1_r.
    rewrite (dec_leb_at (d_exp y)) in Hle by lia. apply Z.leb_le in Hle. apply Z.leb_le.
    rewrite coeff_at_same, (coeff_at_shift (d_exp y + k) (d_exp y) x) in Hle by lia.
    replace (d_exp y + k - d_exp y) with k in Hle by lia.
    etrans; [apply (div_half_even_mono _ _ _ Hpk Hle)|]. by rewrite div_half_even_exact.
  - unfold representable, in_prec in Hx. change (10 ^ prec) with (10 * 10 ^ 27) in Hx.
    destruct (Z.le_gt_cases 0 (d_int y)) as [Hs|Hs].
    + exfalso. set (m := Z.min (d_exp y) (d_exp x)). rewrite (dec_leb_at m) in Hle by (unfold m; lia).
      apply Z.leb_le in Hle. unfold coeff_at in Hle.
      assert (10 ^ (k + 27) * 10 ^ (d_exp y - m) = 10 ^ (k + 27 + (d_exp y - m))) as E1.
      { rewrite (pow10_split (k + 27)); [done|lia|unfold m; lia]. }
      assert (10 ^ (k + 27 + (d_exp y - m)) = 10 ^ (k + d_exp y - d_exp x - 1) * (10 ^ 28 * 10 ^ (d_exp x - m))) as E2.
      { rewrite <- !pow10_split by (unfold m; lia). f_equal. lia. }
      pose proof (pow10_pos (k + d_exp y - d_exp x - 1) ltac:(lia)).
      pose proof (pow10_pos (d_exp x - m) ltac:(unfold m; lia)).
      pose proof (pow10_pos (d_exp y - m) ltac:(unfold m; lia)).
      assert (d_int x * 10 ^ (d_exp x - m) < 10 ^ 28 * 10 ^ (d_exp x - m)) by nia. nia.
    + rewrite (dec_leb_at (d_exp x)) by (simpl; lia). rewrite coeff_at_same. unfold coeff_at. cbn [d_int d_exp].
      apply Z.leb_le. rewrite pow10_split in Hbig by lia.
      pose proof (div_half_even_mono (d_int y) (- 10 ^ 27 * 10 ^ k) (10 ^ k) Hpk ltac:(lia)) as Hq.
      rewrite div_half_even_exact in Hq by done.
      assert (10 <= 10 ^ (d_exp y + k - d_exp x)).
      { change 10 with (10 ^ 1) at 1. apply Z.pow_le_mono_r; lia. }
      nia.
Qed.

(** ** Operations *)

Lemma dec_leb_zero y : dec_leb ZERO y = true -> 0 <= d_int y.
Proof.
  unfold ZERO. set (m := Z.min MONEY_EXP (d_exp y)). rewrite (dec_leb_at m) by (unfold m; simpl; lia).
  intros H%Z.leb_le. unfold coeff_at in H. simpl in H.
  pose proof (pow10_pos (d_exp y - m) ltac:(unfold m; lia)). nia.
Qed.

Lemma dec_sub_le x y : representable x -> dec_leb ZERO y = true -> dec_leb (dec_sub x y) x = true.
Proof.
  intros Hx Hy. apply dec_leb_zero in Hy. apply fix_prec_le; [done|]. set (e := Z.min (d_exp x) (d_exp y)).
  rewrite (dec_leb_at e) by (unfold e; simpl; lia). unfold coeff_at at 1. cbn [d_int d_exp].
  rewrite Z.sub_diag, Z.mul_1_r. apply Z.leb_le. unfold coeff_at at 2.
  pose proof (pow10_pos (d_exp y - e) ltac:(unfold e; lia)). nia.
Qed.

Lemma dec_sub_representable x y : representable (dec_sub x y).
Proof. apply fix_prec_representable. Qed.

(** A product with a factor of at most one. *)
Lemma dec_mul_le p m : representable m -> 0 <= d_int m -> dec_leb p (dec_of_Z 1) = true ->
  dec_leb (dec_mul p m) m = true.
Proof.
  intros Hm Hpos Hp. apply fix_prec_le; [done|]. set (e := Z.min (d_exp p) 0).
  rewrite (dec_leb_at e) in Hp by (unfold e; simpl; lia). apply Z.leb_le in Hp.
  unfold coeff_at in Hp. cbn [d_int d_exp dec_of_Z] in Hp. rewrite Z.mul_1_l in Hp.
  rewrite (dec_leb_at (d_exp m + e)) by (unfold e; simpl; lia). unfold coeff_at. cbn [d_int d_exp].
  apply Z.leb_le. replace (d_exp p + d_exp m - (d_exp m + e)) with (d_exp p - e) by lia.
  replace (d_exp m - (d_exp m + e)) with (0 - e) by lia. nia.
Qed.

Lemma quantize_le x y c : quantize MONEY_EXP x = Ok y -> d_exp c = MONEY_EXP ->
  dec_leb x c = true -> dec_leb y c = true.
Proof.
  intros Hq Hc Hle. pose proof (quantize_exp _ _ _ Hq) as [Hy _]. apply quantize_error in Hq.
  destruct c as [c ec], y as [y ey]; simpl in *; subst. rewrite dec_leb_money. apply Z.leb_le.
  destruct (Z.leb_spec MONEY_EXP (d_exp x)) as [He|He].
  - rewrite (dec_leb_at MONEY_EXP) in Hle by done. rewrite <- Hq in Hle. unfold coeff_at in Hle.
    cbn [d_int d_exp] in Hle. rewrite Z.sub_diag, Z.mul_1_r in Hle. by apply Z.leb_le in Hle.
  - rewrite (dec_leb_at (d_exp x)) in Hle by (simpl; lia). rewrite coeff_at_same in Hle.
    unfold coeff_at in Hle. cbn [d_int d_exp] in Hle. apply Z.leb_le in Hle.
    pose proof (pow10_pos (MONEY_EXP - d_exp x) ltac:(lia)) as Hp.
    destruct (Z.le_gt_cases y c) as [|Hgt]; [done|]. exfalso.
    assert ((c + 1) * 10 ^ (MONEY_EXP - d_exp x) <= y * 10 ^ (MONEY_EXP - d_exp x)) by nia. lia.
Qed.

Lemma as_money_quantize x y : as_money x = Ok y -> quantize MONEY_EXP x = Ok y.
Proof.
  unfold as_money, mbind, result_bind. destruct (quantize MONEY_EXP x) as [q|]; [|done].
  destruct (dec_ltb q ZERO); [done|]. by intros [= <-].
Qed.

Lemma as_money_nonneg x y : as_money x = Ok y -> dec_leb ZERO y = true.
Proof.
  intros (He & Hn & _)%as_money_ok. destruct y as [y ey]; simpl in *; subst. unfold ZERO.
  rewrite dec_leb_money. by apply Z.leb_le.
Qed.

(** * Decimals as text

    [Decimal(str(x))] is [x], whatever notation [str] chooses. *)

(** ** Digits *)

Fixpoint all_digits (s : string) : bool :=
  match s with EmptyString => true | String c s => is_digit c && all_digits s end.

Definition DIGITS : list ascii := ["0"; "1"; "2"; "3"; "4"; "5"; "6"; "7"; "8"; "9"]%char.

Lemma digit_char c : is_digit c = true -> c ∈ DIGITS.
Proof.
  intros H. apply (bool_decide_unpack _). revert H. destruct c as [[] [] [] [] [] [] [] []]; vm_compute; done.
Qed.
Lemma char_digit c : c ∈ DIGITS -> is_digit c = true.
Proof.
  intros H. assert (forallb is_digit DIGITS = true) as F by reflexivity.
  rewrite forallb_elem in F. by apply F.
Qed.

(** One goal for each digit. *)
Ltac digit_cases H :=
  apply digit_char in H; unfold DIGITS in H;
  repeat (apply elem_of_cons in H as [->|H]); [..|by apply elem_of_nil in H].

Lemma all_digits_app a b : all_digits (a +:+ b) = all_digits a && all_digits b.
Proof. induction a as [|c a IH]; simpl; [done|]. by rewrite IH, andb_assoc. Qed.

Lemma all_digits_zeros n : all_digits (zeros n) = true.
Proof. by induction n. Qed.

Lemma all_digits_pretty_go n s : all_digits s = true -> all_digits (pretty_N_go n s) = true.
Proof.
  revert s. induction (N.lt_wf_0 n) as [n _ IH]; intros s Hs.
  destruct (decide (n = 0)%N) as [->|Hn]; [by rewrite pretty_N_go_0|].
  rewrite pretty_N_go_step by lia. apply IH; [apply N.div_lt; lia|].
  simpl. unfold is_digit. by rewrite pretty_N_char_digit by (by apply N.mod_lt).
Qed.

Lemma str_int_nonneg n : 0 <= n -> str_int n = pretty (Z.to_N n).
Proof. intros H. destruct n as [|p|p]; [done|done|lia]. Qed.

Lemma str_int_neg n : n < 0 -> str_int n = String "-" (str_int (- n)).
Proof. intros H. destruct n as [|p|p]; [lia|lia|done]. Qed.

Lemma all_digits_str_int n : 0 <= n -> all_digits (str_int n) = true.
Proof.
  intros H. rewrite str_int_nonneg by done. unfold pretty, pretty_N. case_decide; [done|].
  by apply all_digits_pretty_go.
Qed.

Lemma str_int_head n : 0 <= n -> exists c s, str_int n = String c s.
Proof.
  intros H. rewrite str_int_nonneg by done. destruct (pretty_N_head (Z.to_N n)) as (m & s & _ & ->). eauto.
Qed.

(** ** What reading does to digits *)

Lemma span_digits_app a b :
  all_digits a = true -> match b with String c _ => is_digit c = false | EmptyString => True end ->
  span_digits (a +:+ b) = (a, b).
Proof.
  intros Ha Hb. induction a as [|c a IH]; simpl in *.
  - destruct b as [|c b]; [done|]. simpl. by rewrite Hb.
  - apply andb_true_iff in Ha as [Hc Ha]. by rewrite Hc, IH.
Qed.

Lemma append_empty s : s +:+ "" = s.
Proof. induction s as [|c s IH]; [done|]. exact (f_equal (String c) IH). Qed.

Lemma span_digits_all a : all_digits a = true -> span_digits a = (a, "").
Proof. intros H. pose proof (span_digits_app a "" H I) as E. by rewrite append_empty in E. Qed.

(** The value of digits read after others. *)
Fixpoint digits_from (acc : Z) (s : string) : Z :=
  match s with
  | EmptyString => acc
  | String c s => digits_from (acc * 10 + default 0 (digit_in 10 c)) s
  end.

Lemma scan_digits_value s acc : all_digits s = true -> scan_digits 10 s true acc = Some (digits_from acc s).
Proof.
  revert acc. induction s as [|c s IH]; intros acc Hs; simpl in Hs; [done|].
  apply andb_true_iff in Hs as [Hc Hs]. specialize (IH (acc * 10 + default 0 (digit_in 10 c)) Hs).
  digit_cases Hc; exact IH.
Qed.

Lemma digits_value_from s : all_digits s = true -> nonempty s = true -> digits_value s = digits_from 0 s.
Proof.
  destruct s as [|c s]; [done|]. simpl. intros [Hc Hs]%andb_true_iff _. unfold digits_value.
  pose proof (scan_digits_value s (0 * 10 + default 0 (digit_in 10 c)) Hs) as H.
  digit_cases Hc; exact (f_equal (default 0) H).
Qed.

Lemma digits_from_app acc a b : digits_from acc (a +:+ b) = digits_from (digits_from acc a) b.
Proof. revert acc. induction a as [|c a IH]; intros acc; simpl; [done|]. apply IH. Qed.

Lemma digits_from_zeros n : digits_from 0 (zeros n) = 0.
Proof. induction n as [|n IH]; simpl; [done|]. exact IH. Qed.

Lemma str_int_value n : 0 <= n -> digits_from 0 (str_int n) = n.
Proof.
  intros H. pose proof (all_digits_str_int n H) as Hd. destruct (str_int_head n H) as (c & s & E).
  rewrite <- digits_value_from; [|done|by rewrite E]. unfold digits_value.
  rewrite str_int_nonneg by done. rewrite scan_digits_pretty_N. simpl. lia.
Qed.

Lemma cut_digits n s : prefix_n n s +:+ drop_str n s = s.
Proof. revert s. induction n as [|n IH]; intros [|c s]; try done. exact (f_equal (String c) (IH s)). Qed.
Lemma all_digits_cut n s : all_digits s = true -> all_digits (prefix_n n s) = true /\ all_digits (drop_str n s) = true.
Proof. intros H. rewrite <- (cut_digits n s), all_digits_app in H. by apply andb_true_iff in H. Qed.

Lemma length_drop_str n s : String.length (drop_str n s) = (String.length s - n)%nat.
Proof. revert s. induction n as [|n IH]; intros [|c s]; done || apply IH. Qed.
Lemma length_append a b : String.length (a +:+ b) = (String.length a + String.length b)%nat.
Proof. induction a as [|c a IH]; [done|]. exact (f_equal S IH). Qed.
Lemma length_zeros n : String.length (zeros n) = n.
Proof. induction n as [|n IH]; simpl; [done|]. by rewrite IH. Qed.

(** ** Reading a number back *)

(** The characters of a printed number. *)
Fixpoint plain (s : string) : bool :=
  match s with
  | EmptyString => true
  | String c s => negb (is_space c) && negb (Ascii.eqb "_" c) && plain s
  end.

Lemma plain_app a b : plain (a +:+ b) = plain a && plain b.
Proof. induction a as [|c a IH]; simpl; [done|]. by rewrite IH, andb_assoc. Qed.
Lemma plain_digits s : all_digits s = true -> plain s = true.
Proof.
  induction s as [|c s IH]; simpl; [done|]. intros [Hc Hs]%andb_true_iff. rewrite IH by done.
  by digit_cases Hc.
Qed.
Lemma plain_stripped s : plain s = true -> remove_char "_" (strip s) = s.
Proof.
  intros H. rewrite strip_no_space.
  - induction s as [|c s IH]; simpl in *; [done|].
    apply andb_true_iff in H as [[_ Hc]%andb_true_iff Hs]. apply negb_true_iff in Hc. by rewrite Hc, IH.
  - induction s as [|c s IH]; simpl in *; [done|]. apply andb_true_iff in H as [[Hc _]%andb_true_iff Hs].
    by rewrite Hc, IH.
Qed.

Lemma not_special c s : is_digit c = true -> is_special (String c s) = false.
Proof.
  intros Hc. unfold is_special, mem_str. rewrite bool_decide_eq_false_2; [by digit_cases Hc|].
  intros H. repeat (apply elem_of_cons in H as [H|H]); [..|by apply elem_of_nil in H];
    simpl in H; injection H as H _; by digit_cases Hc.
Qed.

(** The exponent [str] writes. *)
Definition exponent_text (k : Z) : string := "E" +:+ (if 0 <? k then "+" else "") +:+ str_int k.

Lemma parse_digits (neg : bool) s : all_digits s = true -> nonempty s = true ->
  match span_digits s with
  | (String _ _ as ds, EmptyString) => Some (if neg then - digits_value ds else digits_value ds)
  | _ => None
  end = Some (if neg then - digits_from 0 s else digits_from 0 s).
Proof.
  intros Hs Hn. rewrite span_digits_all by done. rewrite <- (digits_value_from s) by done. by destruct s.
Qed.

Lemma parse_exponent_text k : parse_exponent (exponent_text k) = Some k.
Proof.
  assert (forall n, 0 <= n -> all_digits (str_int n) = true /\ nonempty (str_int n) = true) as Hd.
  { intros n Hn. split; [by apply all_digits_str_int|]. by destruct (str_int_head n Hn) as (c & s & ->). }
  unfold exponent_text. destruct (Z.ltb_spec 0 k) as [Hk|Hk].
  - destruct (Hd k ltac:(lia)) as [H1 H2]. rewrite <- (str_int_value k) at 2 by lia.
    exact (parse_digits false _ H1 H2).
  - destruct (decide (k = 0)) as [->|Hne]; [done|]. rewrite str_int_neg by lia.
    destruct (Hd (- k) ltac:(lia)) as [H1 H2]. transitivity (Some (- digits_from 0 (str_int (- k)))).
    + exact (parse_digits true _ H1 H2).
    + rewrite str_int_value by lia. f_equal. lia.
Qed.

(** Digits, an optional point with more digits, an optional exponent. *)
Definition reads (ip fp : string) (e : Z) (text : string) : Prop :=
  all_digits ip = true /\ all_digits fp = true /\ nonempty ip = true
  /\ exists rest, parse_exponent rest = Some e /\ plain rest = true
       /\ match rest with String c _ => is_digit c = false /\ c <> "."%char | EmptyString => True end
       /\ text = ip +:+ (if nonempty fp then "." +:+ fp +:+ rest else rest).

Lemma read_number (neg : bool) ip fp e text : reads ip fp e text ->
  dec_of_str ((if neg then "-" else "") +:+ text)
    = Some (Finite (mkDec (if neg then - digits_from 0 (ip +:+ fp) else digits_from 0 (ip +:+ fp))
                      (e - Z.of_nat (String.length fp)))).
Proof.
  intros (Hi & Hf & Hn & rest & He & Hp & Hr & ->). destruct ip as [|c ip]; [done|].
  assert (plain (String c ip +:+ (if nonempty fp then "." +:+ fp +:+ rest else rest)) = true) as Ht.
  { rewrite plain_app, plain_digits by done. destruct (nonempty fp); [|done].
    change (plain ("." +:+ (fp +:+ rest)) = true). rewrite !plain_app, (plain_digits fp), Hp by done. done. }
  simpl in Hi. apply andb_true_iff in Hi as [Hc Hi].
  assert (strip_sign (remove_char "_" (strip ((if neg then "-" else "")
    +:+ (String c ip +:+ (if nonempty fp then "." +:+ fp +:+ rest else rest)))))
    = (neg, String c ip +:+ (if nonempty fp then "." +:+ fp +:+ rest else rest))) as E.
  { rewrite plain_stripped by (destruct neg; exact Ht). destruct neg; [done|]. simpl. by digit_cases Hc. }
  unfold dec_of_str. rewrite E. change (String c ip +:+ ?r) with (String c (ip +:+ r)).
  rewrite not_special by done. change (String c (ip +:+ ?r)) with (String c ip +:+ r).
  assert (all_digits (String c ip) = true) as Hci by (simpl; by rewrite Hc).
  destruct fp as [|f fp]; simpl nonempty; cbv iota.
  - rewrite span_digits_app; [|done|by destruct rest as [|r rest]; [|destruct Hr]].
    assert (match rest with String "." r => span_digits r | _ => ("", rest) end = ("", rest)) as ->.
    { destruct rest as [|r rest]; [done|]. destruct Hr as [_ Hr]. clear -Hr. by repeat case_match. }
    change (String c ip +:+ "") with (String c (ip +:+ "")). simpl nonempty. cbv iota. rewrite He. simpl.
    change (String c (ip +:+ "")) with (String c ip +:+ "").
    rewrite digits_value_from; [done|by rewrite all_digits_app, Hci|done].
  - rewrite span_digits_app; [|done|done]. change ("." +:+ ?r) with (String "." r). cbv iota beta.
    rewrite span_digits_app; [|done|by destruct rest as [|r rest]; [|destruct Hr]].
    change (nonempty (String c ip +:+ String f fp)) with true. cbv iota. rewrite He. simpl mbind.
    rewrite digits_value_from; [done|by rewrite all_digits_app, Hci|done].
Qed.

Lemma plain_exponent k : plain (exponent_text k) = true.
Proof.
  assert (forall n, plain (str_int n) = true) as H.
  { intros n. destruct (Z.lt_ge_cases n 0) as [Hn|Hn]; [rewrite str_int_neg by done; simpl|];
      apply plain_digits, all_digits_str_int; lia. }
  unfold exponent_text. rewrite !plain_app, H. by destruct (0 <? k).
Qed.

Lemma append_assoc' a b c : a +:+ (b +:+ c) = (a +:+ b) +:+ c.
Proof. induction a as [|x a IH]; [done|]. exact (f_equal (String x) IH). Qed.

Lemma nonempty_digits n s : (0 < n)%nat -> nonempty s = true -> nonempty (prefix_n n s) = true.
Proof. destruct n; [lia|]. by destruct s. Qed.
Lemma nonempty_length s : nonempty s = bool_decide (0 < String.length s)%nat.
Proof. by destruct s. Qed.

(** [Decimal(str(x))] is [x]: every decimal, whether [str] writes it with or without an
    exponent, reads back as the same coefficient and exponent. *)
Theorem decimal_text_roundtrip x : dec_of_str (dec_str x) = Some (Finite x).
Proof.
  unfold dec_str. set (digits := str_int (Z.abs (d_int x))).
  pose proof (all_digits_str_int (Z.abs (d_int x)) ltac:(lia)) as Hd.
  destruct (str_int_head (Z.abs (d_int x)) ltac:(lia)) as (c & s & Hhead). fold digits in Hd, Hhead.
  assert (nonempty digits = true) as Hne by (by rewrite Hhead).
  set (len := Z.of_nat (String.length digits)).
  assert (0 < len) as Hlen by (unfold len; rewrite Hhead; simpl; lia).
  set (left := d_exp x + len). set (dot := if (d_exp x <=? 0) && (-6 <? left) then left else 1).
  assert (exists ip fp e,
    reads ip fp e ((if dot <=? 0 then "0." +:+ zeros (Z.to_nat (- dot)) +:+ digits
       else if len <=? dot then digits +:+ zeros (Z.to_nat (dot - len))
       else prefix_n (Z.to_nat dot) digits +:+ "." +:+ drop_str (Z.to_nat dot) digits)
       +:+ (if left =? dot then "" else exponent_text (left - dot)))
    /\ digits_from 0 (ip +:+ fp) = Z.abs (d_int x) /\ e - Z.of_nat (String.length fp) = d_exp x)
    as (ip & fp & e & Hr & Hv & He).
  2:{ unfold exponent_text in Hr. pose proof (read_number (d_int x <? 0) _ _ _ _ Hr) as H. rewrite H, Hv, He.
      destruct x as [n k]. simpl. destruct (Z.ltb_spec n 0); repeat f_equal; lia. }
  assert (digits_from 0 digits = Z.abs (d_int x)) as Hval by (apply str_int_value; lia).
  assert (dot = left /\ left <= len \/ dot = 1) as Hdot.
  { unfold dot, left. destruct (Z.leb_spec (d_exp x) 0); simpl; [|by right].
    destruct (Z.ltb_spec (-6) (d_exp x + len)); [left; lia|by right]. }
  set (rest := if left =? dot then "" else exponent_text (left - dot)).
  assert (parse_exponent rest = Some (left - dot) /\ plain rest = true
    /\ match rest with String c _ => is_digit c = false /\ c <> "."%char | EmptyString => True end)
    as (Hpe & Hpl & Hrest).
  { unfold rest. destruct (Z.eqb_spec left dot) as [E|_]; [by replace (left - dot) with 0 by lia|].
    split; [apply parse_exponent_text|]. split; [apply plain_exponent|]. done. }
  destruct (Z.leb_spec dot 0) as [Hle|Hgt]; [|destruct (Z.leb_spec len dot) as [Hld|Hld]].
  - destruct Hdot as [[Hdot Hll]|Hdot]; [|lia]. exists "0", (zeros (Z.to_nat (- dot)) +:+ digits), 0.
    assert (rest = "") as -> by (unfold rest; by replace (left =? dot) with true by (symmetry; apply Z.eqb_eq; lia)).
    split; [|split].
    + split; [done|]. split; [by rewrite all_digits_app, all_digits_zeros|]. split; [done|]. exists "".
      split; [done|]. split; [done|]. split; [done|]. rewrite append_empty.
      rewrite nonempty_length, bool_decide_eq_true_2; [by rewrite append_empty|].
      rewrite length_append. unfold len in Hlen. lia.
    + change ("0" +:+ ?r) with (String "0" r). simpl. rewrite digits_from_app, digits_from_zeros. exact Hval.
    + rewrite length_append, length_zeros. unfold len, left in *. lia.
  - assert (Z.to_nat (dot - len) = 0%nat) as -> by lia. exists digits, "", (left - dot).
    split; [|split; [by rewrite append_empty|unfold left; simpl; lia]].
    split; [done|]. split; [done|]. split; [done|]. exists rest.
    split; [done|]. split; [done|]. split; [done|]. simpl. by rewrite append_empty.
  - destruct (all_digits_cut (Z.to_nat dot) digits Hd) as [H1 H2].
    exists (prefix_n (Z.to_nat dot) digits), (drop_str (Z.to_nat dot) digits), (left - dot).
    split; [|split; [by rewrite cut_digits|rewrite length_drop_str; unfold len, left in *; lia]].
    split; [done|]. split; [done|]. split; [apply nonempty_digits; [lia|done]|]. exists rest.
    split; [done|]. split; [done|]. split; [done|].
    rewrite nonempty_length, length_drop_str, bool_decide_eq_true_2 by (unfold len in Hld; lia).
    by rewrite <- !append_assoc'.
Qed.
