(* ===== verification/PyFloat.v ===== *)
(** * Rounding a float to six digits

    [float(d)] of a decimal probability, [round(x, 6)] and [Decimal(str(x))]: the
    double nearest to [d], the multiple of a millionth nearest to that double, and
    the shortest decimal of the result.  A float that the code only passes on is
    represented by the decimal [Decimal(str(x))].  The second part bounds the result. *)
From S2P Require Import Prelude PyStr Uuid Errors Decimal Rounding.
From Stdlib Require Import Ascii.
Open Scope stdpp_scope.
Open Scope Z_scope.

(** A double, [fl_mantissa / 2 ^ fl_shift]. *)
Record Double : Type := mk_Double { fl_mantissa : Z; fl_shift : Z }.

(** The double nearest to [n / m], for positive [n] and [m]: a mantissa of 53 bits,
    ties to even. *)
Definition nearest_double (n m : Z) : Double :=
  let s := 53 + Z.log2 m - Z.log2 n in
  let scaled (s : Z) := if 0 <=? s then (n * 2 ^ s, m) else (n, m * 2 ^ (- s)) in
  let '(a, b) := scaled s in
  let s := if 2 ^ 53 <=? a / b then s - 1 else s in
  let '(a, b) := scaled s in
  mk_Double (div_half_even a b) s.

(** [float(d)] for [0 <= d <= 1]. *)
Definition double_of_dec (d : Decimal) : Double :=
  if d_int d =? 0 then mk_Double 0 0
  else if d_exp d <? 0 then nearest_double (d_int d) (10 ^ (- d_exp d))
  else nearest_double (d_int d * 10 ^ d_exp d) 1.

(** [round(x, 6)] in millionths. *)
Definition millionths (x : Double) : Z :=
  div_half_even (fl_mantissa x * 10 ^ 6 * 2 ^ Z.max (- fl_shift x) 0) (2 ^ Z.max (fl_shift x) 0).

(** [Decimal(str(round(float(d), 6)))] *)
Definition round6 (d : Decimal) : Decimal := strip_zeros 5 (millionths (double_of_dec d)) (-6).

Example round6_half : round6 (mkDec 5 (-1)) = mkDec 5 (-1).
Proof. reflexivity. Qed.
Example round6_third : round6 (mkDec 3333333333 (-10)) = mkDec 333333 (-6).
Proof. reflexivity. Qed.
Example round6_one : round6 (mkDec 1 0) = mkDec 10 (-1).
Proof. reflexivity. Qed.
(** [0.0000005] is not a tie: its double lies below it. *)
Example round6_not_a_tie : round6 (mkDec 5 (-7)) = mkDec 0 (-1).
Proof. vm_compute. reflexivity. Qed.
Example round6_up : round6 (mkDec 25 (-7)) = mkDec 3 (-6).
Proof. vm_compute. reflexivity. Qed.

(** [repr(x)] of the float [d] stands for, [0 <= x <= 1]: digits below a ten-thousandth
    are written with an exponent. *)
Definition float_repr (d : Decimal) : string :=
  let adjusted := ndigits (d_int d) + d_exp d - 1 in
  if (d_int d =? 0) || (-4 <=? adjusted) then dec_str d
  else
    match str_int (Z.abs (d_int d)) with
    | EmptyString => dec_str d
    | String c rest =>
        String c EmptyString +:+ (if nonempty rest then "." +:+ rest else "") +:+ "e-"
        +:+ (if adjusted <=? -10 then "" else "0") +:+ str_int (- adjusted)
    end.

Example float_repr_ex : map float_repr [mkDec 5 (-1); mkDec 123 (-6); mkDec 15 (-6); mkDec 1 (-10)]
  = ["0.5"; "0.000123"; "1.5e-05"; "1e-10"].
Proof. vm_compute. reflexivity. Qed.

(** ** Bounds *)

Lemma div_half_even_le_unit n m s : 0 < m -> 0 <= s -> 0 <= n <= m -> 0 <= div_half_even (n * 2 ^ s) m <= 2 ^ s.
Proof.
  intros Hm Hs Hn. pose proof (Z.pow_pos_nonneg 2 s ltac:(lia) Hs) as Hp. split.
  - apply div_half_even_nonneg; [done|nia].
  - pose proof (div_half_even_mono (n * 2 ^ s) (2 ^ s * m) m Hm ltac:(nia)) as H.
    by rewrite div_half_even_exact in H.
Qed.

(** The double nearest to a fraction of at most one is at most one. *)
Lemma nearest_double_unit n m : 0 < n <= m ->
  0 <= fl_shift (nearest_double n m) /\ 0 <= fl_mantissa (nearest_double n m) <= 2 ^ fl_shift (nearest_double n m).
Proof.
  intros H. pose proof (Z.log2_le_mono n m ltac:(lia)) as Hlog. unfold nearest_double.
  set (s := 53 + Z.log2 m - Z.log2 n). assert (53 <= s) as Hs by (unfold s; lia).
  rewrite (proj2 (Z.leb_le 0 s)) by lia. cbv zeta.
  set (s' := if 2 ^ 53 <=? n * 2 ^ s / m then s - 1 else s).
  assert (0 <= s') as Hs' by (unfold s'; destruct (2 ^ 53 <=? _); lia).
  rewrite (proj2 (Z.leb_le 0 s')) by lia. simpl. split; [done|]. apply div_half_even_le_unit; lia.
Qed.

Lemma double_of_dec_unit d : 0 <= d_int d -> dec_leb d (dec_of_Z 1) = true ->
  0 <= fl_shift (double_of_dec d) /\ 0 <= fl_mantissa (double_of_dec d) <= 2 ^ fl_shift (double_of_dec d).
Proof.
  intros Hpos Hle. rewrite (dec_leb_at (Z.min (d_exp d) 0)) in Hle by (simpl; lia).
  apply Z.leb_le in Hle. unfold coeff_at in Hle. cbn [d_int d_exp dec_of_Z] in Hle.
  unfold double_of_dec. destruct (Z.eqb_spec (d_int d) 0) as [E|E]; [simpl; lia|].
  destruct (Z.ltb_spec (d_exp d) 0) as [He|He].
  - rewrite Z.min_l, Z.sub_diag in Hle by lia. apply nearest_double_unit.
    replace (0 - d_exp d) with (- d_exp d) in Hle by lia. lia.
  - rewrite Z.min_r, Z.sub_0_r in Hle by lia. change (2 ^ 0) with 1 in Hle. apply nearest_double_unit.
    pose proof (pow10_pos (d_exp d) He). nia.
Qed.

Lemma strip_zeros_cmp fuel c e x : dec_cmp (strip_zeros fuel c e) x = dec_cmp (mkDec c e) x.
Proof.
  revert c e. induction fuel as [|fuel IH]; intros c e; simpl; [done|].
  destruct (Z.eqb_spec (c mod 10) 0) as [E|E]; [|done]. rewrite IH.
  rewrite <- (dec_cmp_scaled (c / 10) e x). do 2 f_equal. pose proof (Z.div_mod c 10 ltac:(lia)). lia.
Qed.

(** Rounding to six digits stays in the unit interval. *)
Lemma round6_unit d : dec_leb (dec_of_Z 0) d = true -> dec_leb d (dec_of_Z 1) = true ->
  dec_leb (dec_of_Z 0) (round6 d) = true /\ dec_leb (round6 d) (dec_of_Z 1) = true.
Proof.
  intros Hpos Hle.
  assert (0 <= d_int d) as Hn.
  { set (m := Z.min 0 (d_exp d)). rewrite (dec_leb_at m) in Hpos by (unfold m; simpl; lia).
    apply Z.leb_le in Hpos. unfold coeff_at in Hpos. simpl in Hpos.
    pose proof (pow10_pos (d_exp d - m) ltac:(unfold m; lia)). nia. }
  destruct (double_of_dec_unit d Hn Hle) as [Hs Hm]. unfold round6.
  assert (0 <= millionths (double_of_dec d) <= 10 ^ 6) as Hr.
  { unfold millionths. rewrite (Z.max_l (fl_shift _) 0), (Z.max_r (- fl_shift _) 0), Z.mul_1_r by lia.
    pose proof (Z.pow_pos_nonneg 2 _ ltac:(lia) Hs) as Hp. split.
    - apply div_half_even_nonneg; [done|]. nia.
    - set (x := double_of_dec d) in *.
      pose proof (div_half_even_mono (fl_mantissa x * 10 ^ 6) (10 ^ 6 * 2 ^ fl_shift x) _ Hp ltac:(nia)) as H.
      by rewrite div_half_even_exact in H. }
  set (c := millionths (double_of_dec d)) in *. split.
  - destruct (dec_leb_total (dec_of_Z 0) (strip_zeros 5 c (-6))) as [|H]; [done|].
    unfold dec_leb in H |- *. rewrite strip_zeros_cmp in H.
    assert (c = 0) as ->; [|by vm_compute].
    fold (dec_leb (mkDec c (-6)) (dec_of_Z 0)) in H. rewrite (dec_leb_at (-6)) in H by done.
    apply Z.leb_le in H. unfold coeff_at in H. simpl in H. lia.
  - unfold dec_leb. rewrite strip_zeros_cmp. fold (dec_leb (mkDec c (-6)) (dec_of_Z 1)).
    rewrite (dec_leb_at (-6)) by done. apply Z.leb_le. unfold coeff_at. simpl. lia.
Qed.

(** * Arithmetic on floats

    A finite float is represented by [Decimal(repr(x))], the shortest decimal that
    reads back as it; the operations round to the nearest double and print the result.
    Only non-negative floats are divided. *)

(** ** Doubles *)

Definition numerator (x : Double) : Z := fl_mantissa x * 2 ^ Z.max (- fl_shift x) 0.
Definition denominator (x : Double) : Z := 2 ^ Z.max (fl_shift x) 0.

Definition double_eqb (x y : Double) : bool :=
  numerator x * denominator y =? numerator y * denominator x.

(** [n / m] scaled by [10 ^ k]. *)
Definition scale10 (k n m : Z) : Z * Z := if 0 <=? k then (n * 10 ^ k, m) else (n, m * 10 ^ (- k)).

(** The double a decimal reads as, for a non-negative decimal. *)
Definition double_of (d : Decimal) : Double :=
  if d_int d =? 0 then mk_Double 0 0
  else let '(n, m) := scale10 (d_exp d) (d_int d) 1 in nearest_double n m.

(** The number [p] of digits before the point: [10 ^ (p - 1) <= n / m < 10 ^ p]. *)
Definition point_position (n m : Z) : Z :=
  let p := ndigits n - ndigits m in
  let '(a, b) := scale10 (- p) n m in
  if b <=? a then p + 1 else p.

(** The decimals of [digits] digits on both sides of [n / m], the nearer first. *)
Definition neighbours (digits n m : Z) : list Decimal :=
  let e := point_position n m - digits in
  let '(a, b) := scale10 (- e) n m in
  let below := mkDec (a / b) e in
  let above := mkDec (a / b + 1) e in
  if 2 * (a mod b) <? b then [below; above]
  else if b <? 2 * (a mod b) then [above; below]
  else if Z.even (a / b) then [below; above] else [above; below].

Definition float_zero : Decimal := mkDec 0 (-1).
Definition float_one : Decimal := mkDec 10 (-1).

(** The shortest neighbour that reads back; 17 digits are always enough. *)
Fixpoint shortest_from (fuel : nat) (digits : Z) (x : Double) : Decimal :=
  match List.filter (fun d => double_eqb (double_of d) x) (neighbours digits (numerator x) (denominator x)) with
  | d :: _ => d
  | [] => match fuel with
          | O => default float_zero (head (neighbours digits (numerator x) (denominator x)))
          | S fuel => shortest_from fuel (digits + 1) x
          end
  end.

(** [repr(x)] writes an integral value below [10 ^ 16] with one zero after the point,
    and no zeros at the end of others. *)
Definition printed (d : Decimal) : Decimal :=
  let d := strip_zeros (Z.to_nat (ndigits (d_int d))) (d_int d) (d_exp d) in
  if (0 <=? d_exp d) && (ndigits (d_int d) + d_exp d <=? 16)
  then mkDec (d_int d * 10 ^ (d_exp d + 1)) (-1) else d.

(** [Decimal(repr(x))] *)
Definition decimal_of_double (x : Double) : Decimal :=
  if fl_mantissa x =? 0 then float_zero else printed (shortest_from 16 1 x).

(** ** Operations *)

(** [float(d)] of a decimal and [float(n)] of an integer. *)
Definition float_of_dec (d : Decimal) : Decimal := decimal_of_double (double_of d).
Definition float_of_int (n : Z) : Decimal := float_of_dec (dec_of_Z n).

(** [n / m] of integers, [0 <= n] and [0 < m]. *)
Definition int_truediv (n m : Z) : Decimal :=
  if n =? 0 then float_zero else decimal_of_double (nearest_double n m).

(** [x / y] of floats, [0 <= x] and [0 < y]. *)
Definition float_div (x y : Decimal) : Decimal :=
  let a := double_of x in
  let b := double_of y in
  if d_int x =? 0 then float_zero
  else decimal_of_double (nearest_double (numerator a * denominator b) (denominator a * numerator b)).

(** The exponent of [repr(x)], of two digits at least. *)
Definition exponent_suffix (k : Z) : string :=
  "e" +:+ (if k <? 0 then "-" else "+") +:+ (if Z.abs k <? 10 then "0" else "") +:+ str_int (Z.abs k).

(** [repr(x)] *)
Definition float_str (d : Decimal) : string :=
  let digits := str_int (Z.abs (d_int d)) in
  let adjusted := Z.of_nat (String.length digits) + d_exp d - 1 in
  if (d_int d =? 0) || ((-4 <=? adjusted) && (adjusted <? 16)) then dec_str d
  else
    (if d_int d <? 0 then "-" else "") +:+
    match digits with
    | EmptyString => EmptyString
    | String c rest =>
        String c EmptyString +:+ (if nonempty rest then "." +:+ rest else "") +:+ exponent_suffix adjusted
    end.

Example int_truediv_ex : map (fun p => float_str (int_truediv p.1 p.2)) [(1, 3); (2, 3); (1, 10); (7, 7); (0, 4); (22, 7); (123456789, 3)]
  = ["0.3333333333333333"; "0.6666666666666666"; "0.1"; "1.0"; "0.0"; "3.142857142857143"; "41152263.0"].
Proof. vm_compute. reflexivity. Qed.
Example float_div_ex : map (fun p => float_str (float_div p.1 p.2))
    [(mkDec 49900 (-2), mkDec 12005 (-1)); (mkDec 1 (-1), mkDec 3 (-1)); (mkDec 1 16, mkDec 10 (-1)); (mkDec 1 0, mkDec 7 5)]
  = ["0.41566014160766346"; "0.33333333333333337"; "1e+16"; "1.4285714285714286e-06"].
Proof. vm_compute. reflexivity. Qed.
Example float_of_dec_ex : map float_of_dec [mkDec 49900 (-2); mkDec 5 0; mkDec 10000000000000000000001 (-22); mkDec 90071992547409930 (-1)]
  = [mkDec 4990 (-1); mkDec 50 (-1); mkDec 10 (-1); mkDec 90071992547409920 (-1)].
Proof. vm_compute. reflexivity. Qed.

(** ** The unit interval *)

Definition unit_interval (d : Decimal) : Prop := dec_leb (dec_of_Z 0) d = true /\ dec_leb d (dec_of_Z 1) = true.

Lemma dec_cmp_antisym x y : dec_cmp y x = CompOpp (dec_cmp x y).
Proof. unfold dec_cmp. rewrite (Z.min_comm (d_exp y)). apply Z.compare_antisym. Qed.

(** Two decimals that compare alike are in the interval together. *)
Lemma unit_interval_cmp x y : (forall z, dec_cmp x z = dec_cmp y z) -> unit_interval x -> unit_interval y.
Proof.
  intros H [H1 H2]. split; unfold dec_leb in *.
  - by rewrite dec_cmp_antisym, <- H, <- dec_cmp_antisym.
  - by rewrite <- H.
Qed.

Lemma dec_cmp_scaled_by k c e x : 0 <= k -> dec_cmp (mkDec (c * 10 ^ k) e) x = dec_cmp (mkDec c (e + k)) x.
Proof.
  intros H. revert c e. pattern k. apply natlike_ind; [| |done].
  - intros c e. by rewrite Z.mul_1_r, Z.add_0_r.
  - clear k H. intros k Hk IH c e. replace (c * 10 ^ Z.succ k) with (c * 10 ^ k * 10) by (rewrite Z.pow_succ_r by lia; ring).
    rewrite dec_cmp_scaled, IH. do 2 f_equal. lia.
Qed.

Lemma printed_cmp d x : dec_cmp (printed d) x = dec_cmp d x.
Proof.
  unfold printed. set (s := strip_zeros _ _ _).
  assert (dec_cmp s x = dec_cmp d x) as E by (unfold s; rewrite strip_zeros_cmp; by destruct d).
  destruct (Z.leb_spec 0 (d_exp s)); simpl; [|done]. destruct (_ <=? 16); [|done].
  rewrite dec_cmp_scaled_by by lia. rewrite <- E. destruct s as [c e]. do 2 f_equal. simpl. lia.
Qed.

Lemma ndigits_mono n m : 0 <= n <= m -> ndigits n <= ndigits m.
Proof. intros H. destruct (ndigits_spec m) as (H1 & H2 & _). apply ndigits_le; lia. Qed.

Lemma point_position_below n m : 0 < n < m -> point_position n m <= 0.
Proof.
  intros H. pose proof (ndigits_mono n m ltac:(lia)). unfold point_position, scale10.
  rewrite (proj2 (Z.leb_le 0 _)) by lia. destruct (Z.leb_spec m (n * 10 ^ (- (ndigits n - ndigits m)))) as [Hle|]; [|lia].
  assert (ndigits n - ndigits m <> 0); [|lia]. intros E. rewrite E in Hle. simpl in Hle. lia.
Qed.

Lemma unit_interval_below c e : e <= 0 -> 0 <= c <= 10 ^ (- e) -> unit_interval (mkDec c e).
Proof.
  intros He Hc. unfold unit_interval. rewrite !(dec_leb_at e) by (simpl; lia). unfold coeff_at. cbn [d_int d_exp dec_of_Z].
  rewrite Z.sub_diag, Z.mul_1_r, !Z.leb_le. replace (0 - e) with (- e) by lia. lia.
Qed.

Lemma neighbours_unit digits n m : 1 <= digits -> 0 < n < m -> Forall unit_interval (neighbours digits n m).
Proof.
  intros Hd H. pose proof (point_position_below n m H) as Hp. unfold neighbours, scale10.
  set (e := point_position n m - digits). assert (e < 0) as He by lia.
  rewrite (proj2 (Z.leb_le 0 (- e))) by lia. set (a := n * 10 ^ - e).
  pose proof (pow10_pos (- e) ltac:(lia)) as Hpow.
  assert (0 <= a / m < 10 ^ - e) as Hq.
  { unfold a. split; [apply Z.div_pos; nia|]. apply Z.div_lt_upper_bound; nia. }
  assert (unit_interval (mkDec (a / m) e) /\ unit_interval (mkDec (a / m + 1) e)) as [H1 H2].
  { split; apply unit_interval_below; lia. }
  repeat case_match; (apply Forall_cons_2; [done|apply Forall_cons_2; [done|apply Forall_nil_2]]).
Qed.

Lemma shortest_from_unit fuel digits x : 1 <= digits -> 0 < numerator x < denominator x ->
  unit_interval (shortest_from fuel digits x).
Proof.
  intros Hd Hx. revert digits Hd. induction fuel as [|fuel IH]; intros digits Hd; simpl;
    pose proof (neighbours_unit digits _ _ Hd Hx) as Hn; rewrite list.Forall_forall in Hn;
    destruct (List.filter _ _) as [|d l] eqn:Hf.
  - destruct (neighbours _ _ _) as [|d l]; [done|]. simpl. apply Hn. left.
  - apply Hn. assert (d ∈ d :: l) as Hin by left. rewrite <- Hf in Hin.
    apply list_elem_of_In, filter_In in Hin as [Hin _]. by apply list_elem_of_In.
  - apply IH. lia.
  - apply Hn. assert (d ∈ d :: l) as Hin by left. rewrite <- Hf in Hin.
    apply list_elem_of_In, filter_In in Hin as [Hin _]. by apply list_elem_of_In.
Qed.

Lemma shortest_one x : 0 < denominator x -> numerator x = denominator x -> shortest_from 16 1 x = mkDec 1 0.
Proof.
  intros Hpos E. assert (neighbours 1 (numerator x) (denominator x) = [mkDec 1 0; mkDec 2 0]) as Hn.
  { unfold neighbours, point_position, scale10. rewrite E, Z.sub_diag. simpl. rewrite Z.mul_1_r, Z.leb_refl. simpl.
    rewrite Z.mul_1_r, Z.mod_same, Z.div_same by lia. by rewrite (proj2 (Z.ltb_lt (2 * 0) _)) by lia. }
  simpl. rewrite Hn. simpl. unfold double_eqb. rewrite E.
  change (numerator (double_of (mkDec 1 0))) with (2 ^ 52). change (denominator (double_of (mkDec 1 0))) with (2 ^ 52).
  by rewrite (Z.mul_comm (2 ^ 52)), Z.eqb_refl.
Qed.

(** The text of a double of the interval is in it. *)
Lemma decimal_of_double_unit x : 0 <= fl_mantissa x -> numerator x <= denominator x -> unit_interval (decimal_of_double x).
Proof.
  intros Hm Hle. unfold decimal_of_double. destruct (Z.eqb_spec (fl_mantissa x) 0) as [_|Hne]; [by vm_compute|].
  assert (0 < numerator x) as Hpos.
  { unfold numerator. pose proof (Z.pow_pos_nonneg 2 (Z.max (- fl_shift x) 0) ltac:(lia) ltac:(lia)). nia. }
  apply (unit_interval_cmp (shortest_from 16 1 x)); [intros z; symmetry; apply printed_cmp|].
  destruct (decide (numerator x = denominator x)) as [E|E].
  - rewrite shortest_one by lia. by vm_compute.
  - apply shortest_from_unit; lia.
Qed.

(** A quotient of integers that is at most one. *)
Lemma int_truediv_unit n m : 0 <= n <= m -> 0 < m -> unit_interval (int_truediv n m).
Proof.
  intros H Hm. unfold int_truediv. destruct (Z.eqb_spec n 0) as [|Hn]; [by vm_compute|].
  destruct (nearest_double_unit n m ltac:(lia)) as (Hs & H0 & H1). apply decimal_of_double_unit; [done|].
  unfold numerator, denominator. rewrite Z.max_r, Z.max_l by lia. lia.
Qed.

(** ** The sign *)

Definition nonneg_dec (d : Decimal) : Prop := dec_leb (dec_of_Z 0) d = true.

Lemma nonneg_dec_int d : nonneg_dec d <-> 0 <= d_int d.
Proof.
  unfold nonneg_dec. set (m := Z.min 0 (d_exp d)). rewrite (dec_leb_at m) by (unfold m; simpl; lia).
  unfold coeff_at. cbn [d_int d_exp dec_of_Z]. rewrite Z.mul_0_l, Z.leb_le.
  pose proof (pow10_pos (d_exp d - m) ltac:(unfold m; lia)). split; nia.
Qed.

Lemma scale10_positive k n m : 0 <= n -> 0 < m -> 0 <= (scale10 k n m).1 /\ 0 < (scale10 k n m).2.
Proof.
  intros Hn Hm. unfold scale10. destruct (Z.leb_spec 0 k) as [Hk|Hk]; simpl.
  - pose proof (pow10_pos k Hk). nia.
  - pose proof (pow10_pos (- k) ltac:(lia)). nia.
Qed.

Lemma nearest_double_nonneg n m : 0 <= n -> 0 < m -> 0 <= fl_mantissa (nearest_double n m).
Proof.
  intros Hn Hm. unfold nearest_double.
  assert (forall s, let p := if 0 <=? s then (n * 2 ^ s, m) else (n, m * 2 ^ (- s)) in 0 <= p.1 /\ 0 < p.2) as H.
  { intros s. destruct (Z.leb_spec 0 s); simpl.
    - pose proof (Z.pow_pos_nonneg 2 s ltac:(lia) ltac:(lia)). nia.
    - pose proof (Z.pow_pos_nonneg 2 (- s) ltac:(lia) ltac:(lia)). nia. }
  set (s0 := 53 + Z.log2 m - Z.log2 n). destruct (if 0 <=? s0 then _ else _) as [a b].
  set (s1 := if 2 ^ 53 <=? a / b then s0 - 1 else s0). specialize (H s1). cbv zeta in H.
  destruct (if 0 <=? s1 then _ else _) as [a' b']. simpl in *. destruct H. by apply div_half_even_nonneg.
Qed.

Lemma double_of_nonneg d : 0 <= d_int d -> 0 <= fl_mantissa (double_of d).
Proof.
  intros H. unfold double_of. destruct (d_int d =? 0); [done|].
  destruct (scale10_positive (d_exp d) (d_int d) 1 H ltac:(lia)) as [H1 H2].
  destruct (scale10 _ _ _) as [n m]. by apply nearest_double_nonneg.
Qed.

Lemma neighbours_nonneg digits n m : 0 <= n -> 0 < m -> Forall nonneg_dec (neighbours digits n m).
Proof.
  intros Hn Hm. unfold neighbours. set (e := point_position n m - digits).
  destruct (scale10_positive (- e) n m Hn Hm) as [H1 H2]. destruct (scale10 (- e) n m) as [a b]. simpl in *.
  assert (0 <= a / b) as Hq by (by apply Z.div_pos).
  assert (nonneg_dec (mkDec (a / b) e) /\ nonneg_dec (mkDec (a / b + 1) e)) as [Hb Ha].
  { split; apply nonneg_dec_int; simpl; lia. }
  repeat case_match; (apply Forall_cons_2; [done|apply Forall_cons_2; [done|apply Forall_nil_2]]).
Qed.

Lemma denominator_pos x : 0 < denominator x.
Proof. apply Z.pow_pos_nonneg; lia. Qed.
Lemma numerator_nonneg x : 0 <= fl_mantissa x -> 0 <= numerator x.
Proof. intros H. unfold numerator. pose proof (Z.pow_pos_nonneg 2 (Z.max (- fl_shift x) 0) ltac:(lia) ltac:(lia)). nia. Qed.

Lemma shortest_from_nonneg fuel digits x : 0 <= fl_mantissa x -> nonneg_dec (shortest_from fuel digits x).
Proof.
  intros Hx.
  pose proof (numerator_nonneg x Hx) as Hn. pose proof (denominator_pos x) as Hd.
  revert digits. induction fuel as [|fuel IH]; intros digits; simpl;
    pose proof (neighbours_nonneg digits _ _ Hn Hd) as Hf; rewrite list.Forall_forall in Hf;
    (destruct (List.filter _ _) as [|d l] eqn:Hl; [|apply Hf; assert (d ∈ d :: l) as Hin by left;
       rewrite <- Hl in Hin; apply list_elem_of_In, filter_In in Hin as [Hin _]; by apply list_elem_of_In]).
  - destruct (neighbours _ _ _) as [|d l]; [done|]. apply Hf. left.
  - apply IH.
Qed.

Lemma decimal_of_double_nonneg x : 0 <= fl_mantissa x -> nonneg_dec (decimal_of_double x).
Proof.
  intros H. unfold decimal_of_double. destruct (_ =? 0); [done|].
  unfold nonneg_dec, dec_leb. rewrite dec_cmp_antisym, printed_cmp, <- dec_cmp_antisym. by apply shortest_from_nonneg.
Qed.

Lemma float_of_dec_nonneg d : nonneg_dec d -> nonneg_dec (float_of_dec d).
Proof. intros H%nonneg_dec_int. by apply decimal_of_double_nonneg, double_of_nonneg. Qed.

Lemma int_truediv_nonneg n m : 0 <= n -> 0 < m -> nonneg_dec (int_truediv n m).
Proof. intros. unfold int_truediv. destruct (_ =? 0); [done|]. apply decimal_of_double_nonneg, nearest_double_nonneg; lia. Qed.

Lemma float_div_nonneg x y : nonneg_dec x -> 0 < numerator (double_of y) -> nonneg_dec (float_div x y).
Proof.
  intros Hx%nonneg_dec_int Hy. unfold float_div. destruct (_ =? 0); [done|].
  apply decimal_of_double_nonneg, nearest_double_nonneg.
  - pose proof (numerator_nonneg _ (double_of_nonneg x Hx)). pose proof (denominator_pos (double_of y)). nia.
  - pose proof (denominator_pos (double_of x)). nia.
Qed.

(** ** Text *)

Lemma exponent_digits k : exists ds,
  exponent_suffix k = String "e"%char (String (if k <? 0 then "-"%char else "+"%char) ds)
  /\ all_digits ds = true /\ nonempty ds = true /\ digits_from 0 ds = Z.abs k.
Proof.
  pose proof (all_digits_str_int (Z.abs k) ltac:(lia)) as Hd. pose proof (str_int_value (Z.abs k) ltac:(lia)) as Hv.
  destruct (str_int_head (Z.abs k) ltac:(lia)) as (c & s & Hs).
  exists ((if Z.abs k <? 10 then "0" else "") +:+ str_int (Z.abs k)). split.
  { unfold exponent_suffix. by destruct (k <? 0). }
  split_and!.
  - rewrite all_digits_app, Hd. by destruct (Z.abs k <? 10).
  - rewrite Hs. by destruct (Z.abs k <? 10).
  - rewrite digits_from_app. by destruct (Z.abs k <? 10).
Qed.

Lemma parse_exponent_suffix k : parse_exponent (exponent_suffix k) = Some k /\ plain (exponent_suffix k) = true.
Proof.
  destruct (exponent_digits k) as (ds & -> & Hd & Hn & Hv). split.
  - transitivity (Some (if k <? 0 then - digits_from 0 ds else digits_from 0 ds)).
    + destruct (k <? 0); [exact (parse_digits true ds Hd Hn)|exact (parse_digits false ds Hd Hn)].
    + rewrite Hv. destruct (Z.ltb_spec k 0); f_equal; lia.
  - pose proof (plain_digits ds Hd). by destruct (k <? 0).
Qed.

(** [float(repr(x))] is [x]: the text of a float reads back as the same decimal. *)
Theorem float_text_roundtrip d : dec_of_str (float_str d) = Some (Finite d).
Proof.
  unfold float_str. set (digits := str_int (Z.abs (d_int d))).
  destruct ((d_int d =? 0) || _); [apply decimal_text_roundtrip|].
  set (adjusted := Z.of_nat (String.length digits) + d_exp d - 1).
  destruct (str_int_head (Z.abs (d_int d)) ltac:(lia)) as (c & rest & Hhead).
  pose proof (all_digits_str_int (Z.abs (d_int d)) ltac:(lia)) as Hd.
  pose proof (str_int_value (Z.abs (d_int d)) ltac:(lia)) as Hv. fold digits in Hhead, Hd, Hv.
  destruct (parse_exponent_suffix adjusted) as [Hp Hplain].
  assert (reads (String c EmptyString) rest adjusted
    (String c EmptyString +:+ (if nonempty rest then "." +:+ rest else "") +:+ exponent_suffix adjusted)) as Hr.
  { rewrite Hhead in Hd. simpl in Hd. apply andb_true_iff in Hd as [Hc Hrest].
    split; [simpl; by rewrite Hc|]. split; [done|]. split; [done|]. exists (exponent_suffix adjusted).
    split; [done|]. split; [done|]. split; [by unfold exponent_suffix|].
    destruct (nonempty rest); [by rewrite append_assoc'|done]. }
  pose proof (read_number (d_int d <? 0) _ _ _ _ Hr) as E. rewrite Hhead, E.
  change (String c EmptyString +:+ rest) with (String c rest). rewrite <- Hhead, Hv.
  assert (adjusted - Z.of_nat (String.length rest) = d_exp d) as He.
  { unfold adjusted. rewrite Hhead. simpl String.length. lia. }
  rewrite He. destruct d as [n e]. simpl. destruct (Z.ltb_spec n 0); repeat f_equal; lia.
Qed.
