(* ===== verification/Random.v ===== *)
(** * Pseudo-random draws

    [random.Random(text).random()] of the standard library, and the same of an integer
    seed: the text and its SHA-512 digest, or the integer, seed a Mersenne Twister, whose
    first two outputs give a multiple of [2 ^ -53]. *)
From S2P Require Import Prelude PyStr Uuid Errors Decimal Rounding PyFloat.
Open Scope stdpp_scope.

(** ** SHA-512 *)

Definition w64 (n : N) : N := N.land n 0xFFFFFFFFFFFFFFFF.
Definition add64 (a b : N) : N := w64 (a + b).
Definition not64 (a : N) : N := N.lxor a 0xFFFFFFFFFFFFFFFF.
Definition rotr64 (k x : N) : N := N.lor (N.shiftr x k) (w64 (N.shiftl x (64 - k))).

Definition pad_message_128 (msg : list N) : list N :=
  let len := length msg in
  let zeros := ((239 - len mod 128) mod 128)%nat in
  msg ++ [128%N] ++ replicate zeros 0%N ++ be_bytes 16 (8 * N.of_nat len)%N [].

Definition primes_80 : list N :=
  Eval vm_compute in map N.of_nat (firstn 80 (List.filter is_prime (seq 2 410))).

(** The first 64 bits of the fractional parts of the cube roots of the first 80
    primes, and of the square roots of the first 8. *)
Definition sha512_k : list N :=
  Eval vm_compute in map (fun p => cube_root 70 (p * 2 ^ 192) 0 mod 2 ^ 64)%N primes_80.
Definition sha512_h : list N :=
  Eval vm_compute in map (fun p => N.sqrt (p * 2 ^ 128) mod 2 ^ 64)%N (take 8 primes_80).

Definition sha512_round (t : nat) (st : list N) (wt : N) : list N :=
  match st with
  | [a; b; c; d; e; f; g; h] =>
      let s1 := N.lxor (N.lxor (rotr64 14 e) (rotr64 18 e)) (rotr64 41 e) in
      let ch := N.lxor (N.land e f) (N.land (not64 e) g) in
      let t1 := add64 h (add64 s1 (add64 ch (add64 (nthw sha512_k t) wt))) in
      let s0 := N.lxor (N.lxor (rotr64 28 a) (rotr64 34 a)) (rotr64 39 a) in
      let maj := N.lxor (N.lxor (N.land a b) (N.land a c)) (N.land b c) in
      [add64 t1 (add64 s0 maj); a; b; c; add64 d t1; e; f; g]
  | _ => st
  end.

Definition sha512_block (h : list N) (block : list N) : list N :=
  let sigma0 x := N.lxor (N.lxor (rotr64 1 x) (rotr64 8 x)) (N.shiftr x 7) in
  let sigma1 x := N.lxor (N.lxor (rotr64 19 x) (rotr64 61 x)) (N.shiftr x 6) in
  let words := (fun b => be_value b 0) <$> chunks 16 8 block in
  let ws := rev (extend (fun w => add64 (sigma1 (nthw w 1)) (add64 (nthw w 6)
                                     (add64 (sigma0 (nthw w 14)) (nthw w 15))))
                   64 (rev words)) in
  zip_with add64 h (rounds sha512_round 0 h ws).

Definition sha512 (msg : list N) : list N :=
  foldr (be_bytes 8) []
    (fold_left sha512_block (chunks (S (S (length msg))) 128 (pad_message_128 msg)) sha512_h).

Example sha512_abc : hex_of_bytes (sha512 (bytes_of_string "abc"))
  = "ddaf35a193617abacc417349ae20413112e6fa4e89a97ea20a9eeee64b55d39a2192992a274fc1a836ba3c23a3feebbd454d4423643ce80e2a9ac94fa54ca49f".
Proof. vm_compute. reflexivity. Qed.

(** ** The Mersenne Twister *)

Definition mt_size : nat := 624.

(** [init_genrand]: the words that follow [prev], from index [i]. *)
Fixpoint init_genrand (count : nat) (i prev : N) : list N :=
  match count with
  | O => []
  | S count =>
      let x := w32 (1812433253 * N.lxor prev (N.shiftr prev 30) + i) in
      x :: init_genrand count (i + 1) x
  end.

(** One loop of [init_by_array]: the words from index 1 on are visited round and
    round, [front] those still to come and [back] those done, most recent first;
    [key] are the words of the seed from number [j]. *)
Fixpoint mix_key (count : nat) (prev : N) (front back key : list N) (j : N) (whole_key : list N)
  : list N * list N * N :=
  match count with
  | O => (front, back, prev)
  | S count =>
      let '(front, back) := match front with [] => (rev back, []) | _ => (front, back) end in
      match front with
      | [] => (front, back, prev)
      | x :: front =>
          let '(key, j) := match key with [] => (whole_key, 0%N) | _ => (key, j) end in
          let x := w32 (N.lxor x (N.lxor prev (N.shiftr prev 30) * 1664525) + nthw key 0 + j) in
          mix_key count x front (x :: back) (tail key) (j + 1) whole_key
      end
  end.

(** The second loop, which subtracts the index [i] of the word. *)
Fixpoint mix_index (count : nat) (prev : N) (front back : list N) (i : N) : list N * list N :=
  match count with
  | O => (front, back)
  | S count =>
      let '(front, back, i) := match front with [] => (rev back, [], 1%N) | _ => (front, back, i) end in
      match front with
      | [] => (front, back)
      | x :: front =>
          let x := w32 (N.lxor x (N.lxor prev (N.shiftr prev 30) * 1566083941) + (2 ^ 32 - i)) in
          mix_index count x front (x :: back) (i + 1)
      end
  end.

(** The state [init_by_array(key)] leaves. *)
Definition init_by_array (key : list N) : list N :=
  let first := 19650218%N in
  let ring := init_genrand (mt_size - 1) 1 first in
  let '(front, back, prev) := mix_key (Nat.max mt_size (length key)) first ring [] key 0 key in
  let i := N.of_nat (S (length back)) in
  let '(front, back) := mix_index (mt_size - 1) prev front back i in
  2147483648%N :: rev back ++ front.

(** The [k]-th output, [k < 227]: twist and temper. *)
Definition mt_output (mt : list N) (k : nat) : N :=
  let y := N.lor (N.land (nthw mt k) 0x80000000) (N.land (nthw mt (S k)) 0x7FFFFFFF) in
  let x := N.lxor (N.lxor (nthw mt (k + 397)) (N.shiftr y 1))
                  (if N.odd y then 0x9908B0DF else 0)%N in
  let x := N.lxor x (N.shiftr x 11) in
  let x := N.lxor x (N.land (N.shiftl x 7) 0x9D2C5680) in
  let x := N.lxor x (N.land (N.shiftl x 15) 0xEFC60000) in
  N.lxor x (N.shiftr x 18).

(** The 32-bit words of an integer, least significant first. *)
Fixpoint words_le (fuel : nat) (n : N) : list N :=
  match fuel with
  | O => []
  | S fuel => if (n =? 0)%N then [] else N.land n 0xFFFFFFFF :: words_le fuel (N.shiftr n 32)
  end.

Definition seed_words (text : string) : list N :=
  let bytes := bytes_of_string text in
  let all := bytes ++ sha512 bytes in
  match words_le (S (length all)) (be_value all 0) with [] => [0%N] | l => l end.

(** The first [random()] of a generator seeded with these words, in units of [2 ^ -53]. *)
Definition first_draw (key : list N) : Z :=
  let mt := init_by_array key in
  Z.of_N (N.shiftr (mt_output mt 0) 5 * 67108864 + N.shiftr (mt_output mt 1) 6).

(** The words of an integer seed. *)
Definition int_seed_words (n : N) : list N :=
  match words_le (S (N.to_nat (N.size n))) n with [] => [0%N] | l => l end.

(** [random.Random(text).random()] and [random.Random(n).random()]. *)
Definition random_draw (text : string) : Z := first_draw (seed_words text).
Definition random_draw_of_int (n : N) : Z := first_draw (int_seed_words n).

(** [draw < float(p)] for [0 <= p <= 1]. *)
Definition draw_below (draw : Z) (p : Decimal) : bool :=
  let d := double_of_dec p in
  (draw * 2 ^ Z.max 0 (fl_shift d - 53) <? fl_mantissa d * 2 ^ Z.max 0 (53 - fl_shift d))%Z.
Definition draws_below (text : string) (p : Decimal) : bool := draw_below (random_draw text) p.

Example random_draw_1 : random_draw "42:abc:1" = 749959896876697%Z.
Proof. vm_compute. reflexivity. Qed.
Example random_draw_2 : random_draw "42:pay_sim_0011223344556677:2" = 7949747579313227%Z.
Proof. vm_compute. reflexivity. Qed.
Example draws_below_ex : draws_below "42:abc:1" (mkDec 9 (-2)) = true
  /\ draws_below "42:abc:1" (mkDec 8 (-2)) = false.
Proof. vm_compute. split; reflexivity. Qed.
Example random_draw_of_ints : map random_draw_of_int [0; 42; 0x123456789ABCDEF0]%N
  = [7605875871743422; 5759444582531269; 7647682895650398]%Z.
Proof. vm_compute. reflexivity. Qed.

(** * Draws against probabilities

    Rounding to a double is monotone, so a draw below one probability is below every
    greater one. *)
Open Scope Z_scope.

(** ** The nearest double of a fraction of at most one *)

Lemma div_half_even_scale n m k : 0 < m -> 0 < k -> div_half_even (n * k) (m * k) = div_half_even n m.
Proof.
  intros Hm Hk. unfold div_half_even.
  rewrite Z.div_mul_cancel_r, Z.mul_mod_distr_r by lia.
  replace (2 * (n mod m * k) <? m * k) with (2 * (n mod m) <? m)
    by (destruct (Z.ltb_spec (2 * (n mod m)) m), (Z.ltb_spec (2 * (n mod m * k)) (m * k)); nia).
  by replace (m * k <? 2 * (n mod m * k)) with (m <? 2 * (n mod m))
    by (destruct (Z.ltb_spec m (2 * (n mod m))), (Z.ltb_spec (m * k) (2 * (n mod m * k))); nia).
Qed.

(** Fractions in order round to mantissas in order. *)
Lemma div_half_even_frac n m n' m' : 0 < m -> 0 < m' -> n * m' <= n' * m -> div_half_even n m <= div_half_even n' m'.
Proof.
  intros Hm Hm' H. rewrite <- (div_half_even_scale n m m'), <- (div_half_even_scale n' m' m) by done.
  rewrite (Z.mul_comm m' m). apply div_half_even_mono; [nia|done].
Qed.

(** The mantissa is the fraction scaled to 53 bits. *)
Lemma nearest_double_bits n m : 0 < n <= m -> exists s, 52 <= s
  /\ nearest_double n m = mk_Double (div_half_even (n * 2 ^ s) m) s
  /\ 2 ^ 52 * m <= n * 2 ^ s < 2 ^ 53 * m.
Proof.
  intros H. pose proof (Z.log2_le_mono n m ltac:(lia)) as Hlog.
  pose proof (Z.log2_spec n ltac:(lia)) as Hn. pose proof (Z.log2_spec m ltac:(lia)) as Hm.
  pose proof (Z.log2_nonneg n) as Hn0. pose proof (Z.log2_nonneg m) as Hm0.
  unfold nearest_double. set (s := 53 + Z.log2 m - Z.log2 n). assert (53 <= s) as Hs by (unfold s; lia).
  rewrite (proj2 (Z.leb_le 0 s)) by lia. cbv zeta.
  assert (2 ^ 52 * m <= n * 2 ^ s < 2 ^ 54 * m) as [Hlo Hhi].
  { assert (2 ^ s * 2 ^ Z.log2 n = 2 ^ 53 * 2 ^ Z.log2 m) as Hpow
      by (unfold s; rewrite <- !Z.pow_add_r by lia; f_equal; lia).
    rewrite Z.pow_succ_r in Hn, Hm by done. change (2 ^ 52) with (2 ^ 51 * 2). change (2 ^ 54) with (2 ^ 53 * 2).
    change (2 ^ 53) with (2 ^ 51 * 4) in Hpow at 1. change (2 ^ 53) with (2 ^ 51 * 4).
    assert (0 < 2 ^ s) by lia. nia. }
  exists (if 2 ^ 53 <=? n * 2 ^ s / m then s - 1 else s).
  destruct (Z.leb_spec (2 ^ 53) (n * 2 ^ s / m)) as [Hbig|Hsmall].
  - rewrite (proj2 (Z.leb_le 0 (s - 1))) by lia. split; [lia|]. split; [done|].
    assert (2 ^ 53 * m <= n * 2 ^ s) as Hge.
    { pose proof (Z.mul_div_le (n * 2 ^ s) m ltac:(lia)). nia. }
    replace (2 ^ s) with (2 * 2 ^ (s - 1)) in * by (rewrite <- Z.pow_succ_r by lia; f_equal; lia).
    change (2 ^ 54) with (2 * 2 ^ 53) in Hhi. change (2 ^ 53) with (2 * 2 ^ 52) in Hge at 1. lia.
  - rewrite (proj2 (Z.leb_le 0 s)) by lia. split; [lia|]. split; [done|]. split; [done|].
    pose proof (Z.mul_succ_div_gt (n * 2 ^ s) m ltac:(lia)). nia.
Qed.

Lemma nearest_double_mono n m n' m' : 0 < n <= m -> 0 < n' <= m' -> n * m' <= n' * m ->
  fl_mantissa (nearest_double n m) * 2 ^ fl_shift (nearest_double n' m')
  <= fl_mantissa (nearest_double n' m') * 2 ^ fl_shift (nearest_double n m).
Proof.
  intros H H' Hle. destruct (nearest_double_bits n m H) as (s & Hs & -> & Hlo & Hhi).
  destruct (nearest_double_bits n' m' H') as (t & Ht & -> & Hlo' & Hhi'). cbn [fl_mantissa fl_shift].
  assert (div_half_even (n * 2 ^ s) m <= 2 ^ 53) as Hmant.
  { pose proof (div_half_even_mono (n * 2 ^ s) (2 ^ 53 * m) m ltac:(lia) ltac:(lia)) as Hd.
    by rewrite div_half_even_exact in Hd by lia. }
  assert (2 ^ 52 <= div_half_even (n' * 2 ^ t) m') as Hmant'.
  { pose proof (div_half_even_mono (2 ^ 52 * m') (n' * 2 ^ t) m' ltac:(lia) ltac:(lia)) as Hd.
    by rewrite div_half_even_exact in Hd by lia. }
  destruct (Z.lt_trichotomy s t) as [Hlt|[->|Hgt]].
  - exfalso. replace (2 ^ t) with (2 * 2 ^ s * 2 ^ (t - s - 1)) in Hhi'
      by (rewrite <- Z.pow_succ_r, <- Z.pow_add_r by lia; f_equal; lia).
    assert (1 <= 2 ^ (t - s - 1)) by (pose proof (Z.pow_pos_nonneg 2 (t - s - 1) ltac:(lia) ltac:(lia)); lia).
    assert (0 < 2 ^ s) by lia. change (2 ^ 53) with (2 * 2 ^ 52) in Hhi'.
    assert (2 ^ 52 * m * m' <= n * 2 ^ s * m') by nia.
    assert (n * 2 ^ s * m' <= n' * 2 ^ s * m) by nia.
    set (x := n' * 2 ^ s * 2 ^ (t - s - 1)). assert (n' * 2 ^ s <= x) by (unfold x; nia).
    assert (x < 2 ^ 52 * m') by (unfold x; lia).
    assert (x * m < 2 ^ 52 * m' * m) by nia. assert (n' * 2 ^ s * m <= x * m) by nia. lia.
  - apply Z.mul_le_mono_nonneg_r; [lia|]. apply div_half_even_frac; [lia|lia|].
    rewrite (Z.mul_shuffle0 n), (Z.mul_shuffle0 n'). apply Z.mul_le_mono_nonneg_r; [lia|done].
  - set (a := div_half_even (n * 2 ^ s) m) in *. set (b := div_half_even (n' * 2 ^ t) m') in *.
    replace (2 ^ s) with (2 * 2 ^ t * 2 ^ (s - t - 1))
      by (rewrite <- Z.pow_succ_r, <- Z.pow_add_r by lia; f_equal; lia).
    assert (1 <= 2 ^ (s - t - 1)) by (pose proof (Z.pow_pos_nonneg 2 (s - t - 1) ltac:(lia) ltac:(lia)); lia).
    assert (0 < 2 ^ t) by lia. change (2 ^ 53) with (2 ^ 52 * 2) in Hmant.
    transitivity (2 ^ 52 * 2 * 2 ^ t); [apply Z.mul_le_mono_nonneg_r; lia|]. rewrite <- Z.mul_assoc.
    transitivity (b * (2 * 2 ^ t)); [apply Z.mul_le_mono_nonneg_r; lia|].
    apply Z.mul_le_mono_nonneg_l; [lia|]. nia.
Qed.

(** ** Probabilities *)

Lemma draw_below_spec draw n m : 0 < n <= m ->
  (draw * 2 ^ Z.max 0 (fl_shift (nearest_double n m) - 53)
   <? fl_mantissa (nearest_double n m) * 2 ^ Z.max 0 (53 - fl_shift (nearest_double n m)))
  = (draw * 2 ^ fl_shift (nearest_double n m) <? fl_mantissa (nearest_double n m) * 2 ^ 53).
Proof.
  intros H. destruct (nearest_double_bits n m H) as (s & Hs & -> & _). cbn [fl_mantissa fl_shift].
  set (a := div_half_even _ _). destruct (Z.le_gt_cases 53 s).
  - rewrite (Z.max_r 0 (s - 53)), (Z.max_l 0 (53 - s)) by lia. change (2 ^ 0) with 1.
    replace (2 ^ s) with (2 ^ (s - 53) * 2 ^ 53) by (rewrite <- Z.pow_add_r by lia; f_equal; lia).
    rewrite Z.mul_1_r, Z.mul_assoc. set (x := draw * 2 ^ (s - 53)).
    destruct (Z.ltb_spec x a), (Z.ltb_spec (x * 2 ^ 53) (a * 2 ^ 53)); lia.
  - assert (s = 52) as -> by lia. change (Z.max 0 (52 - 53)) with 0. change (Z.max 0 (53 - 52)) with 1.
    destruct (Z.ltb_spec (draw * 2 ^ 0) (a * 2 ^ 1)), (Z.ltb_spec (draw * 2 ^ 52) (a * 2 ^ 53)); lia.
Qed.

(** A positive probability is a fraction of at most one. *)
Lemma probability_fraction p : 0 < d_int p -> dec_leb p (dec_of_Z 1) = true ->
  exists n m, 0 < n <= m /\ double_of_dec p = nearest_double n m
    /\ n = coeff_at (Z.min (d_exp p) 0) p /\ m = 10 ^ (- Z.min (d_exp p) 0).
Proof.
  intros Hpos Hle. rewrite (dec_leb_at (Z.min (d_exp p) 0)) in Hle by (simpl; lia).
  apply Z.leb_le in Hle. unfold coeff_at in *. cbn [d_int d_exp dec_of_Z] in Hle.
  exists (d_int p * 10 ^ (d_exp p - Z.min (d_exp p) 0)), (10 ^ (- Z.min (d_exp p) 0)).
  assert (0 < 10 ^ (d_exp p - Z.min (d_exp p) 0)) by (apply pow10_pos; lia).
  split_and!; [nia| | |done..].
  - by rewrite Z.sub_0_l, Z.mul_1_l in Hle.
  - unfold double_of_dec. rewrite (proj2 (Z.eqb_neq _ _)) by lia.
    destruct (Z.ltb_spec (d_exp p) 0).
    + by rewrite Z.min_l, Z.sub_diag, Z.mul_1_r by lia.
    + by rewrite Z.min_r, Z.sub_0_r by lia.
Qed.

(** What is drawn below a probability is below every greater one. *)
Lemma draw_below_mono draw p q : 0 <= draw -> 0 <= d_int p -> dec_leb p q = true -> dec_leb q (dec_of_Z 1) = true ->
  draw_below draw p = true -> draw_below draw q = true.
Proof.
  intros Hdraw Hp Hpq Hq. pose proof (dec_leb_trans _ _ _ Hpq Hq) as Hp1.
  destruct (Z.eq_dec (d_int p) 0) as [E|E].
  { unfold draw_below, double_of_dec. rewrite E. simpl. intros H%Z.ltb_lt. lia. }
  assert (0 < d_int q) as Hq0.
  { set (e := Z.min (d_exp p) (d_exp q)). rewrite (dec_leb_at e) in Hpq by (unfold e; lia).
    apply Z.leb_le in Hpq. unfold coeff_at in Hpq.
    pose proof (pow10_pos (d_exp p - e) ltac:(unfold e; lia)). pose proof (pow10_pos (d_exp q - e) ltac:(unfold e; lia)). nia. }
  destruct (probability_fraction p ltac:(lia) Hp1) as (n & m & Hnm & Ed & En & Em).
  destruct (probability_fraction q Hq0 Hq) as (n' & m' & Hnm' & Ed' & En' & Em').
  assert (n * m' <= n' * m) as Hle.
  { subst. set (a := Z.min (d_exp p) 0). set (b := Z.min (d_exp q) 0). set (e := Z.min a b).
    rewrite (dec_leb_at e) in Hpq by (unfold e, a, b; lia). apply Z.leb_le in Hpq.
    rewrite (coeff_at_shift a e), (coeff_at_shift b e) in Hpq by (unfold e, a, b; lia).
    pose proof (pow10_pos (- e) ltac:(unfold e, a, b; lia)).
    replace (10 ^ (- a)) with (10 ^ (- a)) by done.
    assert (10 ^ (a - e) * 10 ^ (- a) = 10 ^ (- e)) as Ha by (rewrite <- Z.pow_add_r by (unfold e, a, b; lia); f_equal; lia).
    assert (10 ^ (b - e) * 10 ^ (- b) = 10 ^ (- e)) as Hb by (rewrite <- Z.pow_add_r by (unfold e, a, b; lia); f_equal; lia).
    pose proof (pow10_pos (- a) ltac:(unfold a; lia)). pose proof (pow10_pos (- b) ltac:(unfold b; lia)).
    apply (Z.mul_le_mono_pos_r _ _ (10 ^ (- e))); [done|].
    rewrite <- Ha at 1. rewrite <- Hb at 1.
    replace (coeff_at a p * 10 ^ (- b) * (10 ^ (a - e) * 10 ^ (- a)))
      with (coeff_at a p * 10 ^ (a - e) * (10 ^ (- b) * 10 ^ (- a))) by ring.
    replace (coeff_at b q * 10 ^ (- a) * (10 ^ (b - e) * 10 ^ (- b)))
      with (coeff_at b q * 10 ^ (b - e) * (10 ^ (- b) * 10 ^ (- a))) by ring.
    apply Z.mul_le_mono_nonneg_r; [nia|done]. }
  unfold draw_below. rewrite Ed, Ed', !draw_below_spec, !Z.ltb_lt by done. intros Hlt.
  pose proof (nearest_double_mono n m n' m' Hnm Hnm' Hle) as Hmono.
  destruct (nearest_double_bits n m Hnm) as (s & Hs & Es & _). destruct (nearest_double_bits n' m' Hnm') as (t & Ht & Et & _).
  rewrite Es, Et in *. cbn [fl_mantissa fl_shift] in *. set (a := div_half_even (n * 2 ^ s) m) in *.
  set (b := div_half_even (n' * 2 ^ t) m') in *. assert (0 < 2 ^ s) by lia. assert (0 < 2 ^ t) by lia.
  apply (Z.mul_lt_mono_pos_r (2 ^ s)); [done|].
  apply Z.lt_le_trans with (a * 2 ^ 53 * 2 ^ t); nia.
Qed.
