(* ===== verification/Json.v ===== *)
(** * JSON documents

    The dynamic values the code keeps in JSONB columns and payloads
    ([dict[str, Any]]), with the Python operations it applies to them.  A float
    is represented by its [repr]. *)
From S2P Require Import Prelude PyStr Uuid Errors Decimal.
From Stdlib Require Import Ascii.
Open Scope stdpp_scope.

Inductive json : Type :=
  | JNull
  | JBool (b : bool)
  | JInt (n : Z)
  | JFloat (repr : string)
  | JStr (s : string)
  | JList (items : list json)
  | JObj (fields : list (string * json)).

Definition dict : Type := list (string * json).

(** Equality of JSON values as a boolean function, by the nested recursion. *)
Fixpoint json_eqb (a b : json) {struct a} : bool :=
  match a, b with
  | JNull, JNull => true
  | JBool x, JBool y => Bool.eqb x y
  | JInt x, JInt y => (x =? y)%Z
  | JFloat x, JFloat y | JStr x, JStr y => String.eqb x y
  | JList l, JList l' =>
      (fix go (l l' : list json) : bool :=
         match l, l' with
         | [], [] => true
         | x :: l, y :: l' => json_eqb x y && go l l'
         | _, _ => false
         end) l l'
  | JObj l, JObj l' =>
      (fix go (l l' : list (string * json)) : bool :=
         match l, l' with
         | [], [] => true
         | (k, x) :: l, (k', y) :: l' => String.eqb k k' && (json_eqb x y && go l l')
         | _, _ => false
         end) l l'
  | _, _ => false
  end.

Section JsonInd.
Context (P : json -> Prop).
Context (Hnull : P JNull) (Hbool : forall b, P (JBool b)) (Hnum : forall n, P (JInt n))
  (Hfloat : forall r, P (JFloat r)) (Hstr : forall s, P (JStr s))
  (Hlist : forall l, Forall P l -> P (JList l))
  (Hobj : forall l, Forall (fun kv => P kv.2) l -> P (JObj l)).
Fixpoint json_ind_nested (j : json) : P j :=
  match j with
  | JNull => Hnull | JBool b => Hbool b | JInt n => Hnum n | JFloat r => Hfloat r
  | JStr s => Hstr s
  | JList l => Hlist l ((fix go l : Forall P l :=
      match l with [] => Forall_nil_2 _ | x :: l => Forall_cons_2 _ _ _ (json_ind_nested x) (go l) end) l)
  | JObj l => Hobj l ((fix go l : Forall (fun kv => P kv.2) l :=
      match l with [] => Forall_nil_2 _ | x :: l => Forall_cons_2 _ _ _ (json_ind_nested x.2) (go l) end) l)
  end.
End JsonInd.

Lemma json_eqb_eq a b : json_eqb a b = true <-> a = b.
Proof.
  revert b. induction a as [|x|x|x|x|l IH|l IH] using json_ind_nested;
    intros [|y|y|y|y|l'|l']; simpl; try (split; congruence).
  - rewrite Bool.eqb_true_iff. split; congruence.
  - rewrite Z.eqb_eq. split; congruence.
  - rewrite String.eqb_eq. split; congruence.
  - rewrite String.eqb_eq. split; congruence.
  - transitivity (l = l'); [|split; congruence]. revert l'.
    induction IH as [|x l Hx _ IHl]; intros [|y l']; try (split; congruence).
    rewrite andb_true_iff, Hx, IHl. split; [intros [-> ->]; done|by intros [= -> ->]].
  - transitivity (l = l'); [|split; congruence]. revert l'.
    induction IH as [|[k x] l Hx _ IHl]; intros [|[k' y] l']; try (split; congruence).
    rewrite !andb_true_iff, String.eqb_eq, (Hx y), IHl.
    split; [intros (-> & Hxy & ->); simpl in Hxy; by subst|by intros [= -> -> ->]].
Qed.

#[export] Instance json_eq_dec : EqDecision json.
Proof.
  intros x y. destruct (json_eqb x y) eqn:H.
  - left. by apply json_eqb_eq.
  - right. intros ->. rewrite (proj2 (json_eqb_eq y y) eq_refl) in H. discriminate.
Defined.

(** ** Dictionaries *)

(** [d.get(k)] with [None] for an absent key. *)
Fixpoint lookup_key (k : string) (d : dict) : option json :=
  match d with
  | [] => None
  | (k', v) :: d => if String.eqb k k' then Some v else lookup_key k d
  end.

(** [d.get(k)] as a Python value: an absent key reads [None]. *)
Definition dict_get (k : string) (d : dict) : json := default JNull (lookup_key k d).

Definition has_key (k : string) (d : dict) : bool :=
  match lookup_key k d with Some _ => true | None => false end.

(** [d[k] = v]: replace in place or append. *)
Fixpoint dict_set (k : string) (v : json) (d : dict) : dict :=
  match d with
  | [] => [(k, v)]
  | (k', v') :: d => if String.eqb k k' then (k, v) :: d else (k', v') :: dict_set k v d
  end.

(** [d.update(e)], and [{**d, **e}] *)
Definition dict_update (d e : dict) : dict := fold_left (fun d kv => dict_set kv.1 kv.2 d) e d.

Definition dict_keys (d : dict) : list string := d.*1.

(** [sorted(keys)] *)
Fixpoint insert_str (x : string) (l : list string) : list string :=
  match l with
  | [] => [x]
  | y :: l' => if String.leb x y then x :: l else y :: insert_str x l'
  end.
Definition sorted_strs (l : list string) : list string := foldr insert_str [] l.

(** ** Conversions *)

Definition is_printable (c : ascii) : bool := ((32 <=? code c) && (code c <? 127))%N.

Definition repr_char (quote c : ascii) : string :=
  if Ascii.eqb c quote || Ascii.eqb c "\" then String "\" (String c "")
  else if Ascii.eqb c "010" then "\n"
  else if Ascii.eqb c "013" then "\r"
  else if Ascii.eqb c "009" then "\t"
  else if is_printable c then String c ""
  else "\x" +:+ hex_digits 2 (code c) "".

Fixpoint concat_map_str (f : ascii -> string) (s : string) : string :=
  match s with EmptyString => EmptyString | String c s => f c +:+ concat_map_str f s end.

(** [repr(s)] *)
Definition repr_str (s : string) : string :=
  let quote := if contains "'" s && negb (contains (String "034" "") s) then "034"%char else "'"%char in
  String quote (concat_map_str (repr_char quote) s +:+ String quote "").

Fixpoint repr (j : json) : string :=
  match j with
  | JNull => "None"
  | JBool b => if b then "True" else "False"
  | JInt n => str_int n
  | JFloat r => r
  | JStr s => repr_str s
  | JList l => "[" +:+ join ", " (map repr l) +:+ "]"
  | JObj l => "{" +:+ join ", " (map (fun kv => repr_str kv.1 +:+ ": " +:+ repr kv.2) l) +:+ "}"
  end.

(** [str(v)] *)
Definition py_str (j : json) : string := match j with JStr s => s | _ => repr j end.

(** [bool(v)] *)
Definition truthy (j : json) : bool :=
  match j with
  | JNull => false
  | JBool b => b
  | JInt n => negb (n =? 0)%Z
  | JFloat r => negb (mem_str r ["0.0"; "-0.0"])
  | JStr s => nonempty s
  | JList l => match l with [] => false | _ => true end
  | JObj l => match l with [] => false | _ => true end
  end.

(** [a or b] *)
Definition py_or (a b : json) : json := if truthy a then a else b.

(** [int(v)] *)
Definition py_int (j : json) : result exn Z :=
  match j with
  | JBool b => Ok (if b then 1 else 0)%Z
  | JInt n => Ok n
  | JFloat r =>
      match dec_of_str r with
      | Some (Finite d) => Ok (if (0 <=? d_exp d)%Z then coeff_at 0 d
                               else Z.quot (d_int d) (10 ^ (- d_exp d)))
      | _ => Raise (ValueError "cannot convert float to integer")
      end
  | JStr s => ok_or (ValueError ("invalid literal for int() with base 10: " +:+ repr_str s))
                    (int_of_str 10 s)
  | JNull | JList _ | JObj _ => Raise (TypeError "int() argument must be a number or a string")
  end.

(** ** Output: [json.dumps(v, sort_keys=True, separators=(",", ":"))] *)

Definition escape_char (c : ascii) : string :=
  if Ascii.eqb c "034" || Ascii.eqb c "\" then String "\" (String c "")
  else if Ascii.eqb c "010" then "\n"
  else if Ascii.eqb c "013" then "\r"
  else if Ascii.eqb c "009" then "\t"
  else if Ascii.eqb c "008" then "\b"
  else if Ascii.eqb c "012" then "\f"
  else if is_printable c then String c ""
  else "\u" +:+ hex_digits 4 (code c) "".

Definition quoted (s : string) : string :=
  String "034" (concat_map_str escape_char s +:+ String "034" "").

(** Fields by key. *)
Fixpoint insert_field (x : string * string) (l : list (string * string)) : list (string * string) :=
  match l with
  | [] => [x]
  | y :: l' => if String.leb x.1 y.1 then x :: l else y :: insert_field x l'
  end.
Definition sort_fields (l : list (string * string)) : list (string * string) := foldr insert_field [] l.

Fixpoint dumps (j : json) : string :=
  match j with
  | JNull => "null"
  | JBool b => if b then "true" else "false"
  | JInt n => str_int n
  | JFloat r => r
  | JStr s => quoted s
  | JList l => "[" +:+ join "," (map dumps l) +:+ "]"
  | JObj l => "{" +:+ join "," (map (fun kv => quoted kv.1 +:+ ":" +:+ kv.2)
                                  (sort_fields (map (fun kv => (kv.1, dumps kv.2)) l))) +:+ "}"
  end.

Definition opt_str (o : option string) : json := match o with Some s => JStr s | None => JNull end.
Definition opt_uuid (o : option UUID) : json :=
  match o with Some u => JStr (uuid_str u) | None => JNull end.
Definition as_str (j : json) : option string := match j with JStr s => Some s | _ => None end.
Definition as_dict (j : json) : option dict := match j with JObj d => Some d | _ => None end.

(** ** Lemmas *)

Lemma lookup_key_set k k' v d :
  lookup_key k (dict_set k' v d) = if String.eqb k k' then Some v else lookup_key k d.
Proof.
  induction d as [|[j w] d IH]; simpl; [done|].
  destruct (String.eqb_spec k' j) as [->|Hne]; simpl.
  - by destruct (String.eqb k j).
  - rewrite IH. destruct (String.eqb_spec k j) as [->|]; [|done].
    by rewrite (proj2 (String.eqb_neq j k')) by congruence.
Qed.

Lemma dict_get_set k k' v d :
  dict_get k (dict_set k' v d) = if String.eqb k k' then v else dict_get k d.
Proof. unfold dict_get. rewrite lookup_key_set. by destruct (String.eqb k k'). Qed.

Lemma lookup_key_None k d : k ∉ d.*1 -> lookup_key k d = None.
Proof.
  induction d as [|[j v] d IH]; [done|]. rewrite fmap_cons, elem_of_cons. simpl. intros H.
  destruct (String.eqb_spec k j) as [->|]; [tauto|]. apply IH. tauto.
Qed.

(** An update reads back, and leaves the other keys alone. *)
Lemma dict_get_update k d e : NoDup e.*1 -> dict_get k (dict_update d e) = default (dict_get k d) (lookup_key k e).
Proof.
  unfold dict_update. revert d. induction e as [|[k' v] e IH]; intros d; simpl; [done|].
  intros [Hk He]%list.NoDup_cons. rewrite (IH _ He), dict_get_set.
  destruct (String.eqb_spec k k') as [->|]; [|done]. by rewrite lookup_key_None.
Qed.

(** A dict has each key once, and keeps it so. *)
Lemma dict_set_keys k v d : NoDup d.*1 -> NoDup (dict_set k v d).*1 /\ forall j, j ∈ (dict_set k v d).*1 -> j = k \/ j ∈ d.*1.
Proof.
  induction d as [|[k' v'] d IH]; intros H; simpl.
  { split; [apply NoDup_singleton|]. intros j [->|[]%elem_of_nil]%elem_of_cons. by left. }
  rewrite fmap_cons in H. apply list.NoDup_cons in H as [Hk Hd]. simpl in Hk. destruct (IH Hd) as [H1 H2].
  destruct (String.eqb_spec k k') as [->|Hne]; rewrite !fmap_cons; simpl.
  - split; [by apply list.NoDup_cons|]. intros j. rewrite !elem_of_cons. tauto.
  - split; [apply list.NoDup_cons; split; [|done]|].
    + intros Hin. destruct (H2 _ Hin); [by subst|done].
    + intros j. rewrite !elem_of_cons. intros [->|Hj]; [tauto|]. destruct (H2 _ Hj); tauto.
Qed.

Lemma dict_update_keys d e : NoDup d.*1 -> NoDup (dict_update d e).*1.
Proof.
  unfold dict_update. revert d. induction e as [|[k v] e IH]; intros d H; simpl; [done|].
  by apply IH, dict_set_keys.
Qed.

Example repr_ex : repr (JObj [("a", JStr "x\y"); ("b", JList [JInt 1; JNull])])
  = "{'a': 'x\\y', 'b': [1, None]}".
Proof. vm_compute. reflexivity. Qed.

Example dumps_ex : dumps (JObj [("b", JList [JInt 1; JNull]); ("a", JStr "x\y")])
  = String.concat (String "034" "") ["{"; "a"; ":"; "x\\y"; ","; "b"; ":[1,null]}"].
Proof. vm_compute. reflexivity. Qed.
