(* ===== verification/Datetime.v ===== *)
(** * Dates and times

    Python's [datetime], [timedelta] and their ISO 8601 text form.  A
    [datetime] keeps its wall-clock reading as microseconds since
    0001-01-01T00:00 and the UTC offset of its [tzinfo]; the code compares and
    stores aware values only, as the [instant] they denote. *)
From S2P Require Import Prelude PyStr.
From Stdlib Require Import Ascii.
Open Scope stdpp_scope.
Open Scope Z_scope.

Definition MICROSECOND : Z := 1.
Definition SECOND : Z := 1000000.
Definition MINUTE : Z := 60 * SECOND.
Definition HOUR : Z := 60 * MINUTE.
Definition DAY : Z := 24 * HOUR.

(** [timedelta(hours=n)] and [timedelta(minutes=n)] *)
Definition hours (n : Z) : Z := n * HOUR.
Definition minutes (n : Z) : Z := n * MINUTE.

(** ** The proleptic Gregorian calendar *)

Definition is_leap (y : Z) : bool :=
  (y mod 4 =? 0) && (negb (y mod 100 =? 0) || (y mod 400 =? 0)).

Definition days_before_year (y : Z) : Z :=
  (y - 1) * 365 + (y - 1) / 4 - (y - 1) / 100 + (y - 1) / 400.

Definition days_in_month (y m : Z) : Z :=
  if m =? 2 then (if is_leap y then 29 else 28)
  else if mem_str (str_int m) ["4"; "6"; "9"; "11"] then 30 else 31.

Definition days_before_month (y m : Z) : Z :=
  nth (Z.to_nat (m - 1)) [0; 31; 59; 90; 120; 151; 181; 212; 243; 273; 304; 334] 0
  + (if (2 <? m) && is_leap y then 1 else 0).

(** [date(y, m, d).toordinal() - 1] *)
Definition ymd2days (y m d : Z) : Z := days_before_year y + days_before_month y m + (d - 1).

(** [_ord2ymd], on a day number counted from 0 *)
Definition days2ymd (n : Z) : Z * Z * Z :=
  let n400 := n / 146097 in let n := n mod 146097 in
  let n100 := n / 36524 in let n := n mod 36524 in
  let n4 := n / 1461 in let n := n mod 1461 in
  let n1 := n / 365 in let n := n mod 365 in
  let y := n400 * 400 + 1 + n100 * 100 + n4 * 4 + n1 in
  if (n1 =? 4) || (n100 =? 4) then (y - 1, 12, 31)
  else
    let leap := (n1 =? 3) && (negb (n4 =? 24) || (n100 =? 3)) in
    let month := Z.shiftr (n + 50) 5 in
    let preceding := days_before_month y month in
    let '(month, preceding) :=
      if n <? preceding
      then (month - 1, preceding - (if (month - 1 =? 2) then (if leap then 29 else 28)
                                    else days_in_month y (month - 1)))
      else (month, preceding) in
    (y, month, n - preceding + 1).

Definition valid_date (y m d : Z) : bool :=
  (1 <=? y) && (y <=? 9999) && (1 <=? m) && (m <=? 12) && (1 <=? d) && (d <=? days_in_month y m).

(** [_isoweek1monday], as a day number *)
Definition isoweek1monday (y : Z) : Z :=
  let firstday := ymd2days y 1 1 in
  let firstweekday := firstday mod 7 in
  let monday := firstday - firstweekday in
  if 3 <? firstweekday then monday + 7 else monday.

(** [_isoweek_to_gregorian]; [None] is its [ValueError]. *)
Definition iso_to_days (y week day : Z) : option Z :=
  let first_weekday := (days_before_year y + 1) mod 7 in
  let long_year := (first_weekday =? 4) || ((first_weekday =? 3) && is_leap y) in
  if (1 <=? y) && (y <=? 9999)
     && (((0 <? week) && (week <? 53)) || ((week =? 53) && long_year))
     && (0 <? day) && (day <? 8)
  then Some (isoweek1monday y + (week - 1) * 7 + (day - 1)) else None.

(** ** Datetimes *)

Record datetime : Type := mk_datetime { dt_wall : Z; dt_offset : option Z }.

Definition utc (t : Z) : datetime := mk_datetime t (Some 0).

(** A naive value is read as UTC: [d if d.tzinfo else d.replace(tzinfo=UTC)]. *)
Definition instant (d : datetime) : Z := dt_wall d - default 0 (dt_offset d).

(** [datetime(t.year, t.month, t.day, tzinfo=UTC)] *)
Definition start_of_day (t : Z) : Z := t - t mod DAY.
Definition hour_of (t : Z) : Z := t mod DAY / HOUR.
Definition minute_of (t : Z) : Z := t mod HOUR / MINUTE.

(** ** ISO 8601 output *)

Definition digit_char (n : Z) : ascii := ascii_of_N (48 + Z.to_N n).

(** [n] as exactly [k] decimal digits. *)
Fixpoint digits_n (k : nat) (n : Z) : string :=
  match k with
  | O => EmptyString
  | S k => String (digit_char (n / 10 ^ Z.of_nat k mod 10)) (digits_n k n)
  end.

Definition fraction (us : Z) : string := if us =? 0 then "" else "." +:+ digits_n 6 us.

(** [HH:MM[:SS[.ffffff]]] of an offset *)
Definition format_offset (o : Z) : string :=
  let a := Z.abs o in
  (if o <? 0 then "-" else "+") +:+ digits_n 2 (a / HOUR) +:+ ":" +:+ digits_n 2 (a mod HOUR / MINUTE)
  +:+ (if a mod MINUTE =? 0 then ""
       else ":" +:+ digits_n 2 (a mod MINUTE / SECOND) +:+ fraction (a mod SECOND)).

(** [d.isoformat()] *)
Definition isoformat (d : datetime) : string :=
  let t := dt_wall d in
  let '(y, m, day) := days2ymd (t / DAY) in
  digits_n 4 y +:+ "-" +:+ digits_n 2 m +:+ "-" +:+ digits_n 2 day +:+ "T"
  +:+ digits_n 2 (hour_of t) +:+ ":" +:+ digits_n 2 (minute_of t) +:+ ":"
  +:+ digits_n 2 (t mod MINUTE / SECOND) +:+ fraction (t mod SECOND)
  +:+ match dt_offset d with Some o => format_offset o | None => "" end.

(** ** ISO 8601 input

    CPython's [datetime.fromisoformat], its tolerance of unusual separators and
    trailing fraction digits included; characters are read at absolute
    positions and [NUL] stands for the end of the text. *)
Section FromIso.
Context (s : string).

Definition char_at (i : nat) : ascii := default zero (String.get i s).
Definition is_digit_at (i : nat) : bool := let n := code (char_at i) in ((48 <=? n) && (n <=? 57))%N.
Definition is_char (i : nat) (c : ascii) : bool := Ascii.eqb (char_at i) c.

(** [parse_digits]: [k] digits at [i]. *)
Fixpoint parse_digits (k i : nat) (acc : Z) : option Z :=
  match k with
  | O => Some acc
  | S k => if is_digit_at i
           then parse_digits k (S i) (acc * 10 + (Z.of_N (code (char_at i)) - 48))
           else None
  end.

(** The first position from [i] that holds no digit ([fuel] characters at most). *)
Fixpoint skip_digits (fuel i : nat) : nat :=
  match fuel with
  | O => i
  | S fuel => if is_digit_at i then skip_digits fuel (S i) else i
  end.

(** [_find_isoformat_datetime_separator] *)
Definition find_separator : nat :=
  let len := String.length s in
  if (len =? 7)%nat then 7%nat
  else if is_char 4 "-" then
    if is_char 5 "W" then
      if (8 <? len)%nat && is_char 8 "-"
      then if (10 <? len)%nat && is_digit_at 10 then 8%nat else 10%nat
      else 8%nat
    else 10%nat
  else if is_char 4 "W" then
    let pos := skip_digits len 7 in
    if (pos <? 9)%nat then pos else if Nat.even pos then 7%nat else 8%nat
  else 8%nat.

(** [parse_isoformat_date]: the day number of the date that ends at [len]. *)
Definition parse_date (len : nat) : option Z :=
  y ← parse_digits 4 0 0;
  let sep := is_char 4 "-" in
  let p := if sep then 5%nat else 4%nat in
  if is_char p "W" then
    week ← parse_digits 2 (S p) 0;
    let p := (p + 3)%nat in
    if (p <? len)%nat then
      if sep && negb (is_char p "-") then None
      else day ← parse_digits 1 (if sep then S p else p) 0; iso_to_days y week day
    else iso_to_days y week 1
  else
    m ← parse_digits 2 p 0;
    let p := (p + 2)%nat in
    if sep && negb (is_char p "-") then None
    else
      d ← parse_digits 2 (if sep then S p else p) 0;
      if valid_date y m d then Some (ymd2days y m d) else None.

(** The microseconds at [p], and whether unparsed text follows. *)
Definition parse_fraction (p_end p : nat) : option (Z * bool) :=
  let to_parse := Nat.min 6 (p_end - p) in
  us ← parse_digits to_parse p 0;
  let p' := skip_digits (String.length s) (p + to_parse) in
  Some (us * 10 ^ (6 - Z.of_nat to_parse), negb (is_char p' zero)).

(** [parse_hh_mm_ss_ff] between [p] and [p_end]: the components read so far
    are in [acc], most recent first. *)
Fixpoint parse_hms (k : nat) (p_end p : nat) (has_sep : bool) (acc : list Z)
  : option (list Z * Z * bool) :=
  match k with
  | O => '(us, rest) ← parse_fraction p_end p; Some (rev acc, us, rest)
  | S k' =>
      v ← parse_digits 2 p 0;
      let acc := v :: acc in
      let c := char_at (p + 2) in
      let has_sep := if Nat.eqb k 3 then Ascii.eqb c ":" else has_sep in
      let p := (p + 3)%nat in
      if (p_end <=? p)%nat then Some (rev acc, 0, negb (Ascii.eqb c zero))
      else if has_sep && Ascii.eqb c ":" then parse_hms k' p_end p has_sep acc
      else if Ascii.eqb c "." || Ascii.eqb c ","
      then '(us, rest) ← parse_fraction p_end p; Some (rev acc, us, rest)
      else if negb has_sep then parse_hms k' p_end (p - 1) has_sep acc
      else None
  end.

Definition hms_value (v : list Z) (us : Z) : Z :=
  nth 0 v 0 * HOUR + nth 1 v 0 * MINUTE + nth 2 v 0 * SECOND + us.

Definition valid_time (v : list Z) : bool :=
  (nth 0 v 0 <? 24) && (nth 1 v 0 <? 60) && (nth 2 v 0 <? 60).

Fixpoint find_tz (fuel i : nat) : nat :=
  match fuel with
  | O => i
  | S fuel => if is_char i "+" || is_char i "-" || is_char i "Z" then i
              else if (S i <? String.length s)%nat then find_tz fuel (S i) else S i
  end.

(** [parse_isoformat_time] from [p]: time of day and offset. *)
Definition parse_time (p : nat) : option (Z * option Z) :=
  let len := String.length s in
  let tz := find_tz len p in
  '(v, us, rest) ← parse_hms 3 tz p true [];
  if negb (valid_time v) then None
  else if (tz =? len)%nat then if (rest : bool) then None else Some (hms_value v us, None)
  else if is_char tz "Z" then
    if is_char (S tz) zero then Some (hms_value v us, Some 0) else None
  else
    '(ov, ous, orest) ← parse_hms 3 len (S tz) true [];
    if (orest : bool) then None
    else
      let off := if hms_value ov 0 =? 0 then 0 else hms_value ov ous in
      if off <? DAY
      then Some (hms_value v us, Some (if is_char tz "-" then - off else off))
      else None.

(** [datetime.fromisoformat(s)]; [None] is its [ValueError]. *)
Definition fromisoformat : option datetime :=
  let len := String.length s in
  if (len <? 7)%nat then None
  else
    let sep := find_separator in
    d ← parse_date sep;
    if (sep <? len)%nat then
      '(t, off) ← parse_time (S sep);
      Some (mk_datetime (d * DAY + t) off)
    else Some (mk_datetime (d * DAY) None).
End FromIso.

Example isoformat_ex : isoformat (utc (ymd2days 2024 2 29 * DAY + 13 * HOUR + 5 * SECOND + 7))
  = "2024-02-29T13:00:05.000007+00:00".
Proof. vm_compute. reflexivity. Qed.
Example fromisoformat_ex : fromisoformat "2024-02-29T13:00:05.000007-05:30"
  = Some (mk_datetime (ymd2days 2024 2 29 * DAY + 13 * HOUR + 5 * SECOND + 7) (Some (-(5 * HOUR + 30 * MINUTE)))).
Proof. vm_compute. reflexivity. Qed.
