(* ===== verification/Enums.v ===== *)
(** * Enumerations

    [recoverai_db/enums.py].  Every Python enumeration is a [StrEnum]: a member
    is its string value, so the class [StrEnum] gives each inductive type its
    members and values, [str(m)] is [value m], and [E(s)] is [of_value s].
    Enumerations whose members would clash are kept in a Module of their own
    name. *)
From S2P Require Import Prelude PyStr Errors.
Open Scope stdpp_scope.

Class StrEnum (A : Type) := {
  members : list A;
  value : A -> string;
}.

(** The laws of a Python enumeration: the members are all listed, and their
    values are distinct. *)
Class StrEnumLaws (A : Type) `{StrEnum A} := {
  members_complete : forall a : A, a ∈ members;
  value_inj : forall a b : A, value a = value b -> a = b;
}.

(** [E(s)]; [None] is the [ValueError]. *)
Definition of_value {A} `{StrEnum A} (s : string) : option A :=
  find (fun m => String.eqb (value m) s) members.

Ltac solve_enum_laws :=
  split; [intros []; repeat (apply list_elem_of_here || apply list_elem_of_further)
         | intros [] []; simpl; congruence].

Module MembershipRole.
Inductive t : Type :=
  | OWNER | ADMIN | OPERATOR | VIEWER.

#[export] Instance enum : StrEnum t := {|
  members := [OWNER; ADMIN; OPERATOR; VIEWER];
  value := fun m => match m with
    | OWNER => "OWNER"
    | ADMIN => "ADMIN"
    | OPERATOR => "OPERATOR"
    | VIEWER => "VIEWER"
    end;
|}.

#[export] Instance eq_dec : EqDecision t.
Proof. solve_decision. Defined.

#[export] Instance laws : StrEnumLaws t.
Proof. solve_enum_laws. Qed.
End MembershipRole.
#[export] Existing Instances MembershipRole.enum MembershipRole.eq_dec MembershipRole.laws.

Module PaymentStatus.
Inductive t : Type :=
  | CREATED | AUTHORIZED | CAPTURED | FAILED | REFUNDED | PARTIALLY_REFUNDED | CANCELLED | UNKNOWN.

#[export] Instance enum : StrEnum t := {|
  members := [CREATED; AUTHORIZED; CAPTURED; FAILED; REFUNDED; PARTIALLY_REFUNDED; CANCELLED; UNKNOWN];
  value := fun m => match m with
    | CREATED => "CREATED"
    | AUTHORIZED => "AUTHORIZED"
    | CAPTURED => "CAPTURED"
    | FAILED => "FAILED"
    | REFUNDED => "REFUNDED"
    | PARTIALLY_REFUNDED => "PARTIALLY_REFUNDED"
    | CANCELLED => "CANCELLED"
    | UNKNOWN => "UNKNOWN"
    end;
|}.

#[export] Instance eq_dec : EqDecision t.
Proof. solve_decision. Defined.

#[export] Instance laws : StrEnumLaws t.
Proof. solve_enum_laws. Qed.
End PaymentStatus.
#[export] Existing Instances PaymentStatus.enum PaymentStatus.eq_dec PaymentStatus.laws.

Module CartStatus.
Inductive t : Type :=
  | ACTIVE | ABANDONED | CONVERTED | EXPIRED.

#[export] Instance enum : StrEnum t := {|
  members := [ACTIVE; ABANDONED; CONVERTED; EXPIRED];
  value := fun m => match m with
    | ACTIVE => "ACTIVE"
    | ABANDONED => "ABANDONED"
    | CONVERTED => "CONVERTED"
    | EXPIRED => "EXPIRED"
    end;
|}.

#[export] Instance eq_dec : EqDecision t.
Proof. solve_decision. Defined.

#[export] Instance laws : StrEnumLaws t.
Proof. solve_enum_laws. Qed.
End CartStatus.
#[export] Existing Instances CartStatus.enum CartStatus.eq_dec CartStatus.laws.

Module SubscriptionStatus.
Inductive t : Type :=
  | CREATED | ACTIVE | PENDING | HALTED | CANCELLED | COMPLETED.

#[export] Instance enum : StrEnum t := {|
  members := [CREATED; ACTIVE; PENDING; HALTED; CANCELLED; COMPLETED];
  value := fun m => match m with
    | CREATED => "CREATED"
    | ACTIVE => "ACTIVE"
    | PENDING => "PENDING"
    | HALTED => "HALTED"
    | CANCELLED => "CANCELLED"
    | COMPLETED => "COMPLETED"
    end;
|}.

#[export] Instance eq_dec : EqDecision t.
Proof. solve_decision. Defined.

#[export] Instance laws : StrEnumLaws t.
Proof. solve_enum_laws. Qed.
End SubscriptionStatus.
#[export] Existing Instances SubscriptionStatus.enum SubscriptionStatus.eq_dec SubscriptionStatus.laws.

Module RecoveryCaseType.
Inductive t : Type :=
  | FAILED_PAYMENT | ABANDONED_CHECKOUT | SUBSCRIPTION_FAILURE.

#[export] Instance enum : StrEnum t := {|
  members := [FAILED_PAYMENT; ABANDONED_CHECKOUT; SUBSCRIPTION_FAILURE];
  value := fun m => match m with
    | FAILED_PAYMENT => "FAILED_PAYMENT"
    | ABANDONED_CHECKOUT => "ABANDONED_CHECKOUT"
    | SUBSCRIPTION_FAILURE => "SUBSCRIPTION_FAILURE"
    end;
|}.

#[export] Instance eq_dec : EqDecision t.
Proof. solve_decision. Defined.

#[export] Instance laws : StrEnumLaws t.
Proof. solve_enum_laws. Qed.
End RecoveryCaseType.
#[export] Existing Instances RecoveryCaseType.enum RecoveryCaseType.eq_dec RecoveryCaseType.laws.

Inductive RecoveryCaseStatus : Type :=
  | DETECTED | TRIAGED | INVESTIGATING | DIAGNOSED | SCORING | STRATEGY_SELECTED | POLICY_CHECK | AWAITING_APPROVAL | EXECUTING | ACTION_COMPLETED | VERIFYING | RECOVERED | NOT_RECOVERED | RETRY_SCHEDULED | ESCALATED | STOPPED | FAILED.

#[export] Instance RecoveryCaseStatus_enum : StrEnum RecoveryCaseStatus := {|
  members := [DETECTED; TRIAGED; INVESTIGATING; DIAGNOSED; SCORING; STRATEGY_SELECTED; POLICY_CHECK; AWAITING_APPROVAL; EXECUTING; ACTION_COMPLETED; VERIFYING; RECOVERED; NOT_RECOVERED; RETRY_SCHEDULED; ESCALATED; STOPPED; FAILED];
  value := fun m => match m with
    | DETECTED => "DETECTED"
    | TRIAGED => "TRIAGED"
    | INVESTIGATING => "INVESTIGATING"
    | DIAGNOSED => "DIAGNOSED"
    | SCORING => "SCORING"
    | STRATEGY_SELECTED => "STRATEGY_SELECTED"
    | POLICY_CHECK => "POLICY_CHECK"
    | AWAITING_APPROVAL => "AWAITING_APPROVAL"
    | EXECUTING => "EXECUTING"
    | ACTION_COMPLETED => "ACTION_COMPLETED"
    | VERIFYING => "VERIFYING"
    | RECOVERED => "RECOVERED"
    | NOT_RECOVERED => "NOT_RECOVERED"
    | RETRY_SCHEDULED => "RETRY_SCHEDULED"
    | ESCALATED => "ESCALATED"
    | STOPPED => "STOPPED"
    | FAILED => "FAILED"
    end;
|}.

#[export] Instance RecoveryCaseStatus_eq_dec : EqDecision RecoveryCaseStatus.
Proof. solve_decision. Defined.

#[export] Instance RecoveryCaseStatus_laws : StrEnumLaws RecoveryCaseStatus.
Proof. solve_enum_laws. Qed.

Module RecoveryActionType.
Inductive t : Type :=
  | RETRY_NOW | RETRY_LATER | SEND_PAYMENT_LINK | SEND_REMINDER | OFFER_DISCOUNT | ESCALATE | DO_NOTHING.

#[export] Instance enum : StrEnum t := {|
  members := [RETRY_NOW; RETRY_LATER; SEND_PAYMENT_LINK; SEND_REMINDER; OFFER_DISCOUNT; ESCALATE; DO_NOTHING];
  value := fun m => match m with
    | RETRY_NOW => "RETRY_NOW"
    | RETRY_LATER => "RETRY_LATER"
    | SEND_PAYMENT_LINK => "SEND_PAYMENT_LINK"
    | SEND_REMINDER => "SEND_REMINDER"
    | OFFER_DISCOUNT => "OFFER_DISCOUNT"
    | ESCALATE => "ESCALATE"
    | DO_NOTHING => "DO_NOTHING"
    end;
|}.

#[export] Instance eq_dec : EqDecision t.
Proof. solve_decision. Defined.

#[export] Instance laws : StrEnumLaws t.
Proof. solve_enum_laws. Qed.
End RecoveryActionType.
#[export] Existing Instances RecoveryActionType.enum RecoveryActionType.eq_dec RecoveryActionType.laws.

Module RecoveryActionStatus.
Inductive t : Type :=
  | PENDING | PLANNED | APPROVAL_REQUIRED | APPROVED | EXECUTING | SUCCEEDED | COMPLETED | FAILED | BLOCKED | CANCELLED.

#[export] Instance enum : StrEnum t := {|
  members := [PENDING; PLANNED; APPROVAL_REQUIRED; APPROVED; EXECUTING; SUCCEEDED; COMPLETED; FAILED; BLOCKED; CANCELLED];
  value := fun m => match m with
    | PENDING => "PENDING"
    | PLANNED => "PLANNED"
    | APPROVAL_REQUIRED => "APPROVAL_REQUIRED"
    | APPROVED => "APPROVED"
    | EXECUTING => "EXECUTING"
    | SUCCEEDED => "SUCCEEDED"
    | COMPLETED => "COMPLETED"
    | FAILED => "FAILED"
    | BLOCKED => "BLOCKED"
    | CANCELLED => "CANCELLED"
    end;
|}.

#[export] Instance eq_dec : EqDecision t.
Proof. solve_decision. Defined.

#[export] Instance laws : StrEnumLaws t.
Proof. solve_enum_laws. Qed.
End RecoveryActionStatus.
#[export] Existing Instances RecoveryActionStatus.enum RecoveryActionStatus.eq_dec RecoveryActionStatus.laws.

Inductive RiskLevel : Type :=
  | GREEN | YELLOW | RED.

#[export] Instance RiskLevel_enum : StrEnum RiskLevel := {|
  members := [GREEN; YELLOW; RED];
  value := fun m => match m with
    | GREEN => "GREEN"
    | YELLOW => "YELLOW"
    | RED => "RED"
    end;
|}.

#[export] Instance RiskLevel_eq_dec : EqDecision RiskLevel.
Proof. solve_decision. Defined.

#[export] Instance RiskLevel_laws : StrEnumLaws RiskLevel.
Proof. solve_enum_laws. Qed.

Module ApprovalStatus.
Inductive t : Type :=
  | PENDING | APPROVED | REJECTED | EXPIRED | CANCELLED.

#[export] Instance enum : StrEnum t := {|
  members := [PENDING; APPROVED; REJECTED; EXPIRED; CANCELLED];
  value := fun m => match m with
    | PENDING => "PENDING"
    | APPROVED => "APPROVED"
    | REJECTED => "REJECTED"
    | EXPIRED => "EXPIRED"
    | CANCELLED => "CANCELLED"
    end;
|}.

#[export] Instance eq_dec : EqDecision t.
Proof. solve_decision. Defined.

#[export] Instance laws : StrEnumLaws t.
Proof. solve_enum_laws. Qed.
End ApprovalStatus.
#[export] Existing Instances ApprovalStatus.enum ApprovalStatus.eq_dec ApprovalStatus.laws.

Module WebhookEventStatus.
Inductive t : Type :=
  | RECEIVED | PROCESSING | PROCESSED | FAILED | DEAD_LETTER.

#[export] Instance enum : StrEnum t := {|
  members := [RECEIVED; PROCESSING; PROCESSED; FAILED; DEAD_LETTER];
  value := fun m => match m with
    | RECEIVED => "RECEIVED"
    | PROCESSING => "PROCESSING"
    | PROCESSED => "PROCESSED"
    | FAILED => "FAILED"
    | DEAD_LETTER => "DEAD_LETTER"
    end;
|}.

#[export] Instance eq_dec : EqDecision t.
Proof. solve_decision. Defined.

#[export] Instance laws : StrEnumLaws t.
Proof. solve_enum_laws. Qed.
End WebhookEventStatus.
#[export] Existing Instances WebhookEventStatus.enum WebhookEventStatus.eq_dec WebhookEventStatus.laws.

Module IdempotencyKeyStatus.
Inductive t : Type :=
  | IN_PROGRESS | COMPLETED | FAILED.

#[export] Instance enum : StrEnum t := {|
  members := [IN_PROGRESS; COMPLETED; FAILED];
  value := fun m => match m with
    | IN_PROGRESS => "IN_PROGRESS"
    | COMPLETED => "COMPLETED"
    | FAILED => "FAILED"
    end;
|}.

#[export] Instance eq_dec : EqDecision t.
Proof. solve_decision. Defined.

#[export] Instance laws : StrEnumLaws t.
Proof. solve_enum_laws. Qed.
End IdempotencyKeyStatus.
#[export] Existing Instances IdempotencyKeyStatus.enum IdempotencyKeyStatus.eq_dec IdempotencyKeyStatus.laws.

Module NotificationChannel.
Inductive t : Type :=
  | EMAIL | SMS | WHATSAPP | PUSH.

#[export] Instance enum : StrEnum t := {|
  members := [EMAIL; SMS; WHATSAPP; PUSH];
  value := fun m => match m with
    | EMAIL => "EMAIL"
    | SMS => "SMS"
    | WHATSAPP => "WHATSAPP"
    | PUSH => "PUSH"
    end;
|}.

#[export] Instance eq_dec : EqDecision t.
Proof. solve_decision. Defined.

#[export] Instance laws : StrEnumLaws t.
Proof. solve_enum_laws. Qed.
End NotificationChannel.
#[export] Existing Instances NotificationChannel.enum NotificationChannel.eq_dec NotificationChannel.laws.

Module NotificationStatus.
Inductive t : Type :=
  | PENDING | SENT | DELIVERED | FAILED | CANCELLED.

#[export] Instance enum : StrEnum t := {|
  members := [PENDING; SENT; DELIVERED; FAILED; CANCELLED];
  value := fun m => match m with
    | PENDING => "PENDING"
    | SENT => "SENT"
    | DELIVERED => "DELIVERED"
    | FAILED => "FAILED"
    | CANCELLED => "CANCELLED"
    end;
|}.

#[export] Instance eq_dec : EqDecision t.
Proof. solve_decision. Defined.

#[export] Instance laws : StrEnumLaws t.
Proof. solve_enum_laws. Qed.
End NotificationStatus.
#[export] Existing Instances NotificationStatus.enum NotificationStatus.eq_dec NotificationStatus.laws.

Module ActorType.
Inductive t : Type :=
  | SYSTEM | USER | AGENT | WORKER.

#[export] Instance enum : StrEnum t := {|
  members := [SYSTEM; USER; AGENT; WORKER];
  value := fun m => match m with
    | SYSTEM => "SYSTEM"
    | USER => "USER"
    | AGENT => "AGENT"
    | WORKER => "WORKER"
    end;
|}.

#[export] Instance eq_dec : EqDecision t.
Proof. solve_decision. Defined.

#[export] Instance laws : StrEnumLaws t.
Proof. solve_enum_laws. Qed.
End ActorType.
#[export] Existing Instances ActorType.enum ActorType.eq_dec ActorType.laws.

Module AgentRunStatus.
Inductive t : Type :=
  | RUNNING | COMPLETED | FAILED.

#[export] Instance enum : StrEnum t := {|
  members := [RUNNING; COMPLETED; FAILED];
  value := fun m => match m with
    | RUNNING => "RUNNING"
    | COMPLETED => "COMPLETED"
    | FAILED => "FAILED"
    end;
|}.

#[export] Instance eq_dec : EqDecision t.
Proof. solve_decision. Defined.

#[export] Instance laws : StrEnumLaws t.
Proof. solve_enum_laws. Qed.
End AgentRunStatus.
#[export] Existing Instances AgentRunStatus.enum AgentRunStatus.eq_dec AgentRunStatus.laws.

Module ToolCallStatus.
Inductive t : Type :=
  | PENDING | SUCCESS | FAILED | BLOCKED | APPROVAL_REQUIRED.

#[export] Instance enum : StrEnum t := {|
  members := [PENDING; SUCCESS; FAILED; BLOCKED; APPROVAL_REQUIRED];
  value := fun m => match m with
    | PENDING => "PENDING"
    | SUCCESS => "SUCCESS"
    | FAILED => "FAILED"
    | BLOCKED => "BLOCKED"
    | APPROVAL_REQUIRED => "APPROVAL_REQUIRED"
    end;
|}.

#[export] Instance eq_dec : EqDecision t.
Proof. solve_decision. Defined.

#[export] Instance laws : StrEnumLaws t.
Proof. solve_enum_laws. Qed.
End ToolCallStatus.
#[export] Existing Instances ToolCallStatus.enum ToolCallStatus.eq_dec ToolCallStatus.laws.

Module ToolPermission.
Inductive t : Type :=
  | VIEW_RECOVERY | VIEW_CUSTOMER | VIEW_PAYMENT | RETRY_PAYMENT | CREATE_PAYMENT_LINK | SEND_NOTIFICATION | OFFER_DISCOUNT | ESCALATE | APPROVE_RECOVERY_ACTION | PAUSE_RECOVERY.

#[export] Instance enum : StrEnum t := {|
  members := [VIEW_RECOVERY; VIEW_CUSTOMER; VIEW_PAYMENT; RETRY_PAYMENT; CREATE_PAYMENT_LINK; SEND_NOTIFICATION; OFFER_DISCOUNT; ESCALATE; APPROVE_RECOVERY_ACTION; PAUSE_RECOVERY];
  value := fun m => match m with
    | VIEW_RECOVERY => "VIEW_RECOVERY"
    | VIEW_CUSTOMER => "VIEW_CUSTOMER"
    | VIEW_PAYMENT => "VIEW_PAYMENT"
    | RETRY_PAYMENT => "RETRY_PAYMENT"
    | CREATE_PAYMENT_LINK => "CREATE_PAYMENT_LINK"
    | SEND_NOTIFICATION => "SEND_NOTIFICATION"
    | OFFER_DISCOUNT => "OFFER_DISCOUNT"
    | ESCALATE => "ESCALATE"
    | APPROVE_RECOVERY_ACTION => "APPROVE_RECOVERY_ACTION"
    | PAUSE_RECOVERY => "PAUSE_RECOVERY"
    end;
|}.

#[export] Instance eq_dec : EqDecision t.
Proof. solve_decision. Defined.

#[export] Instance laws : StrEnumLaws t.
Proof. solve_enum_laws. Qed.
End ToolPermission.
#[export] Existing Instances ToolPermission.enum ToolPermission.eq_dec ToolPermission.laws.

(** [TERMINAL_RECOVERY_STATUSES] *)
Definition TERMINAL_RECOVERY_STATUSES : list RecoveryCaseStatus := [RECOVERED; STOPPED].

Definition DEFAULT_CURRENCY : string := "INR".

(** ** Lemmas *)

Section Laws.
Context {A} `{StrEnumLaws A}.

(** [E(str(m)) is m]. *)
Lemma of_value_value (a : A) : of_value (value a) = Some a.
Proof using All.
  unfold of_value. pose proof (members_complete a) as Ha.
  destruct (find _ members) as [b|] eqn:Hf.
  - apply find_some in Hf as [_ Hb]. apply String.eqb_eq in Hb. by rewrite (value_inj b a Hb).
  - apply (find_none _ _) with (x := a) in Hf; [|by apply list_elem_of_In].
    by rewrite String.eqb_refl in Hf.
Qed.

Lemma of_value_Some s (a : A) : of_value s = Some a <-> s = value a.
Proof using All.
  split; [|intros ->; apply of_value_value].
  unfold of_value. intros Hf. apply find_some in Hf as [_ Hb]. by apply String.eqb_eq in Hb.
Qed.
End Laws.
