(* ===== verification/Rows.v ===== *)
(** * Rows

    The tables of [recoverai_db/models/] the modelled code reads or writes, a
    record per table.  A row's primary key is the key of its table in the
    [Store], so the records hold the other columns.  Status columns hold members
    of their enumeration, timestamps are instants, and [updated_at] and the
    [created_at] of tables where no modelled code reads it are left out.  For each column the
    code assigns after the insert there is a setter [set_<table>_<column>]. *)
From S2P Require Import Prelude Uuid Decimal Json Enums.
Open Scope stdpp_scope.

(** [Merchant] in [models/merchant.py] *)
Record Merchant : Type := mk_Merchant {
  merchant_name : string;
  merchant_slug : string;
  merchant_is_active : bool;
  merchant_settings : option dict;
  merchant_description : option string;
}.

(** [Customer] in [models/customer.py] *)
Record Customer : Type := mk_Customer {
  customer_merchant_id : UUID;
  customer_external_id : option string;
  customer_email : option string;
  customer_phone : option string;
  customer_full_name : option string;
  customer_lifetime_value : Decimal;
  customer_currency : string;
  customer_metadata_json : option dict;
}.

(** [Payment] in [models/payment.py] *)
Record Payment : Type := mk_Payment {
  payment_merchant_id : UUID;
  payment_customer_id : UUID;
  payment_provider : string;
  payment_provider_payment_id : option string;
  payment_provider_order_id : option string;
  payment_provider_payment_link_id : option string;
  payment_amount : Decimal;
  payment_provider_amount_minor : option Z;
  payment_currency : string;
  payment_status : PaymentStatus.t;
  payment_payment_method : option string;
  payment_failure_reason : option string;
  payment_failure_code : option string;
  payment_captured_at : option Z;
  payment_failed_at : option Z;
}.

Definition set_payment_provider_order_id (v : option string) (r : Payment) : Payment :=
  mk_Payment (payment_merchant_id r) (payment_customer_id r) (payment_provider r)
    (payment_provider_payment_id r) v (payment_provider_payment_link_id r) (payment_amount r)
    (payment_provider_amount_minor r) (payment_currency r) (payment_status r)
    (payment_payment_method r) (payment_failure_reason r) (payment_failure_code r)
    (payment_captured_at r) (payment_failed_at r).
Definition set_payment_provider_payment_link_id (v : option string) (r : Payment) : Payment :=
  mk_Payment (payment_merchant_id r) (payment_customer_id r) (payment_provider r)
    (payment_provider_payment_id r) (payment_provider_order_id r) v (payment_amount r)
    (payment_provider_amount_minor r) (payment_currency r) (payment_status r)
    (payment_payment_method r) (payment_failure_reason r) (payment_failure_code r)
    (payment_captured_at r) (payment_failed_at r).
Definition set_payment_amount (v : Decimal) (r : Payment) : Payment :=
  mk_Payment (payment_merchant_id r) (payment_customer_id r) (payment_provider r)
    (payment_provider_payment_id r) (payment_provider_order_id r)
    (payment_provider_payment_link_id r) v (payment_provider_amount_minor r) (payment_currency
    r) (payment_status r) (payment_payment_method r) (payment_failure_reason r)
    (payment_failure_code r) (payment_captured_at r) (payment_failed_at r).
Definition set_payment_status (v : PaymentStatus.t) (r : Payment) : Payment :=
  mk_Payment (payment_merchant_id r) (payment_customer_id r) (payment_provider r)
    (payment_provider_payment_id r) (payment_provider_order_id r)
    (payment_provider_payment_link_id r) (payment_amount r) (payment_provider_amount_minor r)
    (payment_currency r) v (payment_payment_method r) (payment_failure_reason r)
    (payment_failure_code r) (payment_captured_at r) (payment_failed_at r).
Definition set_payment_payment_method (v : option string) (r : Payment) : Payment :=
  mk_Payment (payment_merchant_id r) (payment_customer_id r) (payment_provider r)
    (payment_provider_payment_id r) (payment_provider_order_id r)
    (payment_provider_payment_link_id r) (payment_amount r) (payment_provider_amount_minor r)
    (payment_currency r) (payment_status r) v (payment_failure_reason r) (payment_failure_code
    r) (payment_captured_at r) (payment_failed_at r).
Definition set_payment_failure_reason (v : option string) (r : Payment) : Payment :=
  mk_Payment (payment_merchant_id r) (payment_customer_id r) (payment_provider r)
    (payment_provider_payment_id r) (payment_provider_order_id r)
    (payment_provider_payment_link_id r) (payment_amount r) (payment_provider_amount_minor r)
    (payment_currency r) (payment_status r) (payment_payment_method r) v (payment_failure_code
    r) (payment_captured_at r) (payment_failed_at r).
Definition set_payment_failure_code (v : option string) (r : Payment) : Payment :=
  mk_Payment (payment_merchant_id r) (payment_customer_id r) (payment_provider r)
    (payment_provider_payment_id r) (payment_provider_order_id r)
    (payment_provider_payment_link_id r) (payment_amount r) (payment_provider_amount_minor r)
    (payment_currency r) (payment_status r) (payment_payment_method r) (payment_failure_reason
    r) v (payment_captured_at r) (payment_failed_at r).
Definition set_payment_captured_at (v : option Z) (r : Payment) : Payment :=
  mk_Payment (payment_merchant_id r) (payment_customer_id r) (payment_provider r)
    (payment_provider_payment_id r) (payment_provider_order_id r)
    (payment_provider_payment_link_id r) (payment_amount r) (payment_provider_amount_minor r)
    (payment_currency r) (payment_status r) (payment_payment_method r) (payment_failure_reason
    r) (payment_failure_code r) v (payment_failed_at r).
Definition set_payment_failed_at (v : option Z) (r : Payment) : Payment :=
  mk_Payment (payment_merchant_id r) (payment_customer_id r) (payment_provider r)
    (payment_provider_payment_id r) (payment_provider_order_id r)
    (payment_provider_payment_link_id r) (payment_amount r) (payment_provider_amount_minor r)
    (payment_currency r) (payment_status r) (payment_payment_method r) (payment_failure_reason
    r) (payment_failure_code r) (payment_captured_at r) v.

(** [PaymentAttempt] in [models/payment.py] *)
Record PaymentAttempt : Type := mk_PaymentAttempt {
  attempt_payment_id : UUID;
  attempt_attempt_number : Z;
  attempt_status : PaymentStatus.t;
  attempt_amount : Decimal;
  attempt_currency : string;
  attempt_failure_reason : option string;
  attempt_failure_code : option string;
  attempt_attempted_at : Z;
}.

(** [RecoveryCase] in [models/recovery_case.py] *)
Record RecoveryCase : Type := mk_RecoveryCase {
  case_merchant_id : UUID;
  case_customer_id : UUID;
  case_payment_id : option UUID;
  case_cart_id : option UUID;
  case_subscription_id : option UUID;
  case_case_type : RecoveryCaseType.t;
  case_status : RecoveryCaseStatus;
  case_amount_at_risk : Decimal;
  case_amount_recovered : Decimal;
  case_currency : string;
  case_priority : Z;
  case_source_event_id : option UUID;
  case_version : Z;
  case_opened_at : Z;
  case_closed_at : option Z;
  case_last_mismatch_reason : option string;
  case_verified_payment_id : option UUID;
  case_verified_webhook_event_id : option UUID;
}.

Definition set_case_status (v : RecoveryCaseStatus) (r : RecoveryCase) : RecoveryCase :=
  mk_RecoveryCase (case_merchant_id r) (case_customer_id r) (case_payment_id r) (case_cart_id
    r) (case_subscription_id r) (case_case_type r) v (case_amount_at_risk r)
    (case_amount_recovered r) (case_currency r) (case_priority r) (case_source_event_id r)
    (case_version r) (case_opened_at r) (case_closed_at r) (case_last_mismatch_reason r)
    (case_verified_payment_id r) (case_verified_webhook_event_id r).
Definition set_case_amount_recovered (v : Decimal) (r : RecoveryCase) : RecoveryCase :=
  mk_RecoveryCase (case_merchant_id r) (case_customer_id r) (case_payment_id r) (case_cart_id
    r) (case_subscription_id r) (case_case_type r) (case_status r) (case_amount_at_risk r) v
    (case_currency r) (case_priority r) (case_source_event_id r) (case_version r)
    (case_opened_at r) (case_closed_at r) (case_last_mismatch_reason r)
    (case_verified_payment_id r) (case_verified_webhook_event_id r).
Definition set_case_version (v : Z) (r : RecoveryCase) : RecoveryCase :=
  mk_RecoveryCase (case_merchant_id r) (case_customer_id r) (case_payment_id r) (case_cart_id
    r) (case_subscription_id r) (case_case_type r) (case_status r) (case_amount_at_risk r)
    (case_amount_recovered r) (case_currency r) (case_priority r) (case_source_event_id r) v
    (case_opened_at r) (case_closed_at r) (case_last_mismatch_reason r)
    (case_verified_payment_id r) (case_verified_webhook_event_id r).
Definition set_case_closed_at (v : option Z) (r : RecoveryCase) : RecoveryCase :=
  mk_RecoveryCase (case_merchant_id r) (case_customer_id r) (case_payment_id r) (case_cart_id
    r) (case_subscription_id r) (case_case_type r) (case_status r) (case_amount_at_risk r)
    (case_amount_recovered r) (case_currency r) (case_priority r) (case_source_event_id r)
    (case_version r) (case_opened_at r) v (case_last_mismatch_reason r)
    (case_verified_payment_id r) (case_verified_webhook_event_id r).
Definition set_case_last_mismatch_reason (v : option string) (r : RecoveryCase) : RecoveryCase :=
  mk_RecoveryCase (case_merchant_id r) (case_customer_id r) (case_payment_id r) (case_cart_id
    r) (case_subscription_id r) (case_case_type r) (case_status r) (case_amount_at_risk r)
    (case_amount_recovered r) (case_currency r) (case_priority r) (case_source_event_id r)
    (case_version r) (case_opened_at r) (case_closed_at r) v (case_verified_payment_id r)
    (case_verified_webhook_event_id r).
Definition set_case_verified_payment_id (v : option UUID) (r : RecoveryCase) : RecoveryCase :=
  mk_RecoveryCase (case_merchant_id r) (case_customer_id r) (case_payment_id r) (case_cart_id
    r) (case_subscription_id r) (case_case_type r) (case_status r) (case_amount_at_risk r)
    (case_amount_recovered r) (case_currency r) (case_priority r) (case_source_event_id r)
    (case_version r) (case_opened_at r) (case_closed_at r) (case_last_mismatch_reason r) v
    (case_verified_webhook_event_id r).
Definition set_case_verified_webhook_event_id (v : option UUID) (r : RecoveryCase) : RecoveryCase :=
  mk_RecoveryCase (case_merchant_id r) (case_customer_id r) (case_payment_id r) (case_cart_id
    r) (case_subscription_id r) (case_case_type r) (case_status r) (case_amount_at_risk r)
    (case_amount_recovered r) (case_currency r) (case_priority r) (case_source_event_id r)
    (case_version r) (case_opened_at r) (case_closed_at r) (case_last_mismatch_reason r)
    (case_verified_payment_id r) v.

(** [RecoveryAction] in [models/recovery_action.py] *)
Record RecoveryAction : Type := mk_RecoveryAction {
  action_merchant_id : UUID;
  action_recovery_case_id : UUID;
  action_action_type : string;
  action_status : RecoveryActionStatus.t;
  action_idempotency_key : string;
  action_attempt_number : Z;
  action_risk_level : RiskLevel;
  action_provider : option string;
  action_provider_reference : option string;
  action_amount : option Decimal;
  action_currency : string;
  action_scheduled_for : option Z;
  action_executed_at : option Z;
  action_error_code : option string;
  action_error_message : option string;
  action_metadata_json : option dict;
  action_created_at : Z;
}.

Definition set_action_status (v : RecoveryActionStatus.t) (r : RecoveryAction) : RecoveryAction :=
  mk_RecoveryAction (action_merchant_id r) (action_recovery_case_id r) (action_action_type r)
    v (action_idempotency_key r) (action_attempt_number r) (action_risk_level r)
    (action_provider r) (action_provider_reference r) (action_amount r) (action_currency r)
    (action_scheduled_for r) (action_executed_at r) (action_error_code r)
    (action_error_message r) (action_metadata_json r) (action_created_at r).
Definition set_action_provider (v : option string) (r : RecoveryAction) : RecoveryAction :=
  mk_RecoveryAction (action_merchant_id r) (action_recovery_case_id r) (action_action_type r)
    (action_status r) (action_idempotency_key r) (action_attempt_number r) (action_risk_level
    r) v (action_provider_reference r) (action_amount r) (action_currency r)
    (action_scheduled_for r) (action_executed_at r) (action_error_code r)
    (action_error_message r) (action_metadata_json r) (action_created_at r).
Definition set_action_provider_reference (v : option string) (r : RecoveryAction) : RecoveryAction :=
  mk_RecoveryAction (action_merchant_id r) (action_recovery_case_id r) (action_action_type r)
    (action_status r) (action_idempotency_key r) (action_attempt_number r) (action_risk_level
    r) (action_provider r) v (action_amount r) (action_currency r) (action_scheduled_for r)
    (action_executed_at r) (action_error_code r) (action_error_message r)
    (action_metadata_json r) (action_created_at r).
Definition set_action_scheduled_for (v : option Z) (r : RecoveryAction) : RecoveryAction :=
  mk_RecoveryAction (action_merchant_id r) (action_recovery_case_id r) (action_action_type r)
    (action_status r) (action_idempotency_key r) (action_attempt_number r) (action_risk_level
    r) (action_provider r) (action_provider_reference r) (action_amount r) (action_currency r)
    v (action_executed_at r) (action_error_code r) (action_error_message r)
    (action_metadata_json r) (action_created_at r).
Definition set_action_executed_at (v : option Z) (r : RecoveryAction) : RecoveryAction :=
  mk_RecoveryAction (action_merchant_id r) (action_recovery_case_id r) (action_action_type r)
    (action_status r) (action_idempotency_key r) (action_attempt_number r) (action_risk_level
    r) (action_provider r) (action_provider_reference r) (action_amount r) (action_currency r)
    (action_scheduled_for r) v (action_error_code r) (action_error_message r)
    (action_metadata_json r) (action_created_at r).
Definition set_action_error_code (v : option string) (r : RecoveryAction) : RecoveryAction :=
  mk_RecoveryAction (action_merchant_id r) (action_recovery_case_id r) (action_action_type r)
    (action_status r) (action_idempotency_key r) (action_attempt_number r) (action_risk_level
    r) (action_provider r) (action_provider_reference r) (action_amount r) (action_currency r)
    (action_scheduled_for r) (action_executed_at r) v (action_error_message r)
    (action_metadata_json r) (action_created_at r).
Definition set_action_error_message (v : option string) (r : RecoveryAction) : RecoveryAction :=
  mk_RecoveryAction (action_merchant_id r) (action_recovery_case_id r) (action_action_type r)
    (action_status r) (action_idempotency_key r) (action_attempt_number r) (action_risk_level
    r) (action_provider r) (action_provider_reference r) (action_amount r) (action_currency r)
    (action_scheduled_for r) (action_executed_at r) (action_error_code r) v
    (action_metadata_json r) (action_created_at r).
Definition set_action_metadata_json (v : option dict) (r : RecoveryAction) : RecoveryAction :=
  mk_RecoveryAction (action_merchant_id r) (action_recovery_case_id r) (action_action_type r)
    (action_status r) (action_idempotency_key r) (action_attempt_number r) (action_risk_level
    r) (action_provider r) (action_provider_reference r) (action_amount r) (action_currency r)
    (action_scheduled_for r) (action_executed_at r) (action_error_code r)
    (action_error_message r) v (action_created_at r).
Definition set_action_risk_level (v : RiskLevel) (r : RecoveryAction) : RecoveryAction :=
  mk_RecoveryAction (action_merchant_id r) (action_recovery_case_id r)
    (action_action_type r) (action_status r) (action_idempotency_key r)
    (action_attempt_number r) v (action_provider r) (action_provider_reference r)
    (action_amount r) (action_currency r) (action_scheduled_for r) (action_executed_at
    r) (action_error_code r) (action_error_message r) (action_metadata_json r)
    (action_created_at r).
Definition set_action_amount (v : option Decimal) (r : RecoveryAction) : RecoveryAction :=
  mk_RecoveryAction (action_merchant_id r) (action_recovery_case_id r)
    (action_action_type r) (action_status r) (action_idempotency_key r)
    (action_attempt_number r) (action_risk_level r) (action_provider r)
    (action_provider_reference r) v (action_currency r) (action_scheduled_for r)
    (action_executed_at r) (action_error_code r) (action_error_message r)
    (action_metadata_json r) (action_created_at r).

(** [RecoveryDecision] in [models/recovery_action.py] *)
Record RecoveryDecision : Type := mk_RecoveryDecision {
  decision_merchant_id : UUID;
  decision_recovery_case_id : UUID;
  decision_recovery_action_id : option UUID;
  decision_model_version : option string;
  decision_agent_version : option string;
  decision_decision_version : string;
  decision_selected_action : string;
  decision_confidence : option Decimal;
  decision_candidate_actions : dict;
  decision_expected_values : dict;
  decision_selected_expected_value : option Decimal;
  decision_policy_verdict : option string;
  decision_explanation : option string;
  decision_decision_factors : option dict;
}.

(** [WebhookEvent] in [models/webhook.py] *)
Record WebhookEvent : Type := mk_WebhookEvent {
  hook_merchant_id : UUID;
  hook_provider : string;
  hook_event_id : string;
  hook_event_type : string;
  hook_signature_valid : option bool;
  hook_status : WebhookEventStatus.t;
  hook_payload : dict;
  hook_received_at : Z;
  hook_processed_at : option Z;
  hook_error_code : option string;
  hook_error_message : option string;
  hook_correlation_id : option string;
}.

Definition set_hook_status (v : WebhookEventStatus.t) (r : WebhookEvent) : WebhookEvent :=
  mk_WebhookEvent (hook_merchant_id r) (hook_provider r) (hook_event_id r)
    (hook_event_type r) (hook_signature_valid r) v (hook_payload r)
    (hook_received_at r) (hook_processed_at r) (hook_error_code r)
    (hook_error_message r) (hook_correlation_id r).
Definition set_hook_processed_at (v : option Z) (r : WebhookEvent) : WebhookEvent :=
  mk_WebhookEvent (hook_merchant_id r) (hook_provider r) (hook_event_id r)
    (hook_event_type r) (hook_signature_valid r) (hook_status r) (hook_payload r)
    (hook_received_at r) v (hook_error_code r) (hook_error_message r)
    (hook_correlation_id r).
Definition set_hook_error_code (v : option string) (r : WebhookEvent) : WebhookEvent :=
  mk_WebhookEvent (hook_merchant_id r) (hook_provider r) (hook_event_id r)
    (hook_event_type r) (hook_signature_valid r) (hook_status r) (hook_payload r)
    (hook_received_at r) (hook_processed_at r) v (hook_error_message r)
    (hook_correlation_id r).
Definition set_hook_error_message (v : option string) (r : WebhookEvent) : WebhookEvent :=
  mk_WebhookEvent (hook_merchant_id r) (hook_provider r) (hook_event_id r)
    (hook_event_type r) (hook_signature_valid r) (hook_status r) (hook_payload r)
    (hook_received_at r) (hook_processed_at r) (hook_error_code r) v
    (hook_correlation_id r).
Definition set_hook_payload (v : dict) (r : WebhookEvent) : WebhookEvent :=
  mk_WebhookEvent (hook_merchant_id r) (hook_provider r) (hook_event_id r)
    (hook_event_type r) (hook_signature_valid r) (hook_status r) v
    (hook_received_at r) (hook_processed_at r) (hook_error_code r)
    (hook_error_message r) (hook_correlation_id r).
Definition set_hook_signature_valid (v : option bool) (r : WebhookEvent) : WebhookEvent :=
  mk_WebhookEvent (hook_merchant_id r) (hook_provider r) (hook_event_id r)
    (hook_event_type r) v (hook_status r) (hook_payload r) (hook_received_at r)
    (hook_processed_at r) (hook_error_code r) (hook_error_message r)
    (hook_correlation_id r).

(** [PolicyEvaluation] in [models/policy.py] *)
Record PolicyEvaluation : Type := mk_PolicyEvaluation {
  evaluation_merchant_id : UUID;
  evaluation_recovery_case_id : option UUID;
  evaluation_recovery_action_id : option UUID;
  evaluation_policy_version : string;
  evaluation_action : string;
  evaluation_risk_level : RiskLevel;
  evaluation_allowed : bool;
  evaluation_requires_approval : bool;
  evaluation_reason : option string;
  evaluation_policy_ids : option (list string);
  evaluation_evaluated_at : Z;
  evaluation_metadata_json : option dict;
}.

(** [Approval] in [models/policy.py] *)
Record Approval : Type := mk_Approval {
  approval_merchant_id : UUID;
  approval_recovery_case_id : UUID;
  approval_recovery_action_id : option UUID;
  approval_policy_evaluation_id : option UUID;
  approval_status : ApprovalStatus.t;
  approval_requested_by : option string;
  approval_decided_by : option string;
  approval_decision_reason : option string;
  approval_decided_at : option Z;
  approval_expires_at : option Z;
  approval_created_at : Z;
}.

Definition set_approval_status (v : ApprovalStatus.t) (r : Approval) : Approval :=
  mk_Approval (approval_merchant_id r) (approval_recovery_case_id r)
    (approval_recovery_action_id r) (approval_policy_evaluation_id r) v (approval_requested_by
    r) (approval_decided_by r) (approval_decision_reason r) (approval_decided_at r)
    (approval_expires_at r) (approval_created_at r).
Definition set_approval_decided_by (v : option string) (r : Approval) : Approval :=
  mk_Approval (approval_merchant_id r) (approval_recovery_case_id r)
    (approval_recovery_action_id r) (approval_policy_evaluation_id r) (approval_status r)
    (approval_requested_by r) v (approval_decision_reason r) (approval_decided_at r)
    (approval_expires_at r) (approval_created_at r).
Definition set_approval_decision_reason (v : option string) (r : Approval) : Approval :=
  mk_Approval (approval_merchant_id r) (approval_recovery_case_id r)
    (approval_recovery_action_id r) (approval_policy_evaluation_id r) (approval_status r)
    (approval_requested_by r) (approval_decided_by r) v (approval_decided_at r)
    (approval_expires_at r) (approval_created_at r).
Definition set_approval_decided_at (v : option Z) (r : Approval) : Approval :=
  mk_Approval (approval_merchant_id r) (approval_recovery_case_id r)
    (approval_recovery_action_id r) (approval_policy_evaluation_id r) (approval_status r)
    (approval_requested_by r) (approval_decided_by r) (approval_decision_reason r) v
    (approval_expires_at r) (approval_created_at r).

(** [Notification] in [models/audit.py] *)
Record Notification : Type := mk_Notification {
  notification_merchant_id : UUID;
  notification_customer_id : UUID;
  notification_recovery_case_id : option UUID;
  notification_channel : NotificationChannel.t;
  notification_status : NotificationStatus.t;
  notification_provider : option string;
  notification_provider_reference : option string;
  notification_subject : option string;
  notification_body_preview : option string;
  notification_scheduled_for : option Z;
  notification_sent_at : option Z;
  notification_error_code : option string;
  notification_error_message : option string;
  notification_metadata_json : option dict;
  notification_created_at : Z;
}.

(** [AuditEvent] in [models/audit.py] *)
Record AuditEvent : Type := mk_AuditEvent {
  audit_merchant_id : UUID;
  audit_case_id : option UUID;
  audit_actor_type : string;
  audit_actor_id : option string;
  audit_event_type : string;
  audit_action : option string;
  audit_previous_state : option string;
  audit_new_state : option string;
  audit_summary : string;
  audit_metadata_json : option dict;
  audit_correlation_id : option string;
  audit_idempotency_key : option string;
  audit_created_at : Z;
}.

(** [Cart] in [models/cart.py] *)
Record Cart : Type := mk_Cart {
  cart_merchant_id : UUID;
  cart_customer_id : UUID;
  cart_status : CartStatus.t;
  cart_subtotal : Decimal;
  cart_discount : Decimal;
  cart_total : Decimal;
  cart_currency : string;
  cart_abandoned_at : option Z;
  cart_converted_at : option Z;
  cart_metadata_json : option dict;
}.

Definition set_cart_discount (v : Decimal) (r : Cart) : Cart :=
  mk_Cart (cart_merchant_id r) (cart_customer_id r) (cart_status r) (cart_subtotal r) v
    (cart_total r) (cart_currency r) (cart_abandoned_at r) (cart_converted_at r)
    (cart_metadata_json r).

(** [Subscription] in [models/subscription.py] *)
Record Subscription : Type := mk_Subscription {
  subscription_merchant_id : UUID;
  subscription_customer_id : UUID;
  subscription_provider : string;
  subscription_provider_subscription_id : option string;
  subscription_plan_id : option string;
  subscription_status : SubscriptionStatus.t;
  subscription_amount : Decimal;
  subscription_currency : string;
  subscription_billing_interval : option string;
  subscription_current_period_start : option Z;
  subscription_current_period_end : option Z;
  subscription_failed_attempt_count : Z;
  subscription_cancelled_at : option Z;
  subscription_metadata_json : option dict;
  subscription_failure_reason : option string;
}.

(** [ModelPrediction] in [models/ml.py] *)
Record ModelPrediction : Type := mk_ModelPrediction {
  prediction_merchant_id : UUID;
  prediction_recovery_case_id : UUID;
  prediction_action : string;
  prediction_probability : Decimal;
  prediction_model_version : string;
  prediction_feature_version : string;
  prediction_fingerprint : string;
  prediction_source : string;
  prediction_diagnostics : option dict;
  prediction_created_at : Z;
  prediction_updated_at : Z;
}.

Definition set_prediction_probability (v : Decimal) (r : ModelPrediction) : ModelPrediction :=
  mk_ModelPrediction (prediction_merchant_id r) (prediction_recovery_case_id r)
    (prediction_action r) v (prediction_model_version r) (prediction_feature_version r)
    (prediction_fingerprint r) (prediction_source r) (prediction_diagnostics r)
    (prediction_created_at r) (prediction_updated_at r).
Definition set_prediction_source (v : string) (r : ModelPrediction) : ModelPrediction :=
  mk_ModelPrediction (prediction_merchant_id r) (prediction_recovery_case_id r)
    (prediction_action r) (prediction_probability r) (prediction_model_version r)
    (prediction_feature_version r) (prediction_fingerprint r) v (prediction_diagnostics
    r) (prediction_created_at r) (prediction_updated_at r).
Definition set_prediction_diagnostics (v : option dict) (r : ModelPrediction) : ModelPrediction :=
  mk_ModelPrediction (prediction_merchant_id r) (prediction_recovery_case_id r)
    (prediction_action r) (prediction_probability r) (prediction_model_version r)
    (prediction_feature_version r) (prediction_fingerprint r) (prediction_source r) v
    (prediction_created_at r) (prediction_updated_at r).
Definition set_prediction_updated_at (v : Z) (r : ModelPrediction) : ModelPrediction :=
  mk_ModelPrediction (prediction_merchant_id r) (prediction_recovery_case_id r)
    (prediction_action r) (prediction_probability r) (prediction_model_version r)
    (prediction_feature_version r) (prediction_fingerprint r) (prediction_source r)
    (prediction_diagnostics r) (prediction_created_at r) v.

(** [IdempotencyKey] in [models/idempotency.py] *)
Record IdempotencyKey : Type := mk_IdempotencyKey {
  idem_merchant_id : UUID;
  idem_key : string;
  idem_operation : string;
  idem_request_hash : string;
  idem_response_reference : option string;
  idem_status : IdempotencyKeyStatus.t;
  idem_completed_at : option Z;
  idem_expires_at : option Z;
  idem_metadata_json : option dict;
}.

Definition set_idem_response_reference (v : option string) (r : IdempotencyKey) : IdempotencyKey :=
  mk_IdempotencyKey (idem_merchant_id r) (idem_key r) (idem_operation r)
    (idem_request_hash r) v (idem_status r) (idem_completed_at r) (idem_expires_at r)
    (idem_metadata_json r).
Definition set_idem_status (v : IdempotencyKeyStatus.t) (r : IdempotencyKey) : IdempotencyKey :=
  mk_IdempotencyKey (idem_merchant_id r) (idem_key r) (idem_operation r)
    (idem_request_hash r) (idem_response_reference r) v (idem_completed_at r)
    (idem_expires_at r) (idem_metadata_json r).
Definition set_idem_completed_at (v : option Z) (r : IdempotencyKey) : IdempotencyKey :=
  mk_IdempotencyKey (idem_merchant_id r) (idem_key r) (idem_operation r)
    (idem_request_hash r) (idem_response_reference r) (idem_status r) v (idem_expires_at
    r) (idem_metadata_json r).
Definition set_idem_metadata_json (v : option dict) (r : IdempotencyKey) : IdempotencyKey :=
  mk_IdempotencyKey (idem_merchant_id r) (idem_key r) (idem_operation r)
    (idem_request_hash r) (idem_response_reference r) (idem_status r) (idem_completed_at
    r) (idem_expires_at r) v.

(** [ToolCall] in [models/audit.py] *)
Record ToolCall : Type := mk_ToolCall {
  call_merchant_id : UUID;
  call_recovery_case_id : option UUID;
  call_tool_name : string;
  call_tool_version : string;
  call_status : ToolCallStatus.t;
  call_request_payload : option dict;
  call_response_payload : option dict;
  call_idempotency_key : option string;
  call_correlation_id : option string;
  call_error_code : option string;
  call_error_message : option string;
}.

Definition set_call_status (v : ToolCallStatus.t) (r : ToolCall) : ToolCall :=
  mk_ToolCall (call_merchant_id r) (call_recovery_case_id r) (call_tool_name r)
    (call_tool_version r) v (call_request_payload r) (call_response_payload r)
    (call_idempotency_key r) (call_correlation_id r) (call_error_code r)
    (call_error_message r).
Definition set_call_request_payload (v : option dict) (r : ToolCall) : ToolCall :=
  mk_ToolCall (call_merchant_id r) (call_recovery_case_id r) (call_tool_name r)
    (call_tool_version r) (call_status r) v (call_response_payload r)
    (call_idempotency_key r) (call_correlation_id r) (call_error_code r)
    (call_error_message r).
Definition set_call_response_payload (v : option dict) (r : ToolCall) : ToolCall :=
  mk_ToolCall (call_merchant_id r) (call_recovery_case_id r) (call_tool_name r)
    (call_tool_version r) (call_status r) (call_request_payload r) v
    (call_idempotency_key r) (call_correlation_id r) (call_error_code r)
    (call_error_message r).
Definition set_call_error_code (v : option string) (r : ToolCall) : ToolCall :=
  mk_ToolCall (call_merchant_id r) (call_recovery_case_id r) (call_tool_name r)
    (call_tool_version r) (call_status r) (call_request_payload r)
    (call_response_payload r) (call_idempotency_key r) (call_correlation_id r) v
    (call_error_message r).
Definition set_call_error_message (v : option string) (r : ToolCall) : ToolCall :=
  mk_ToolCall (call_merchant_id r) (call_recovery_case_id r) (call_tool_name r)
    (call_tool_version r) (call_status r) (call_request_payload r)
    (call_response_payload r) (call_idempotency_key r) (call_correlation_id r)
    (call_error_code r) v.

(** [AgentRun] in [models/audit.py]; [latency_ms], a reading of the performance counter, is
    left out. *)
Record AgentRun : Type := mk_AgentRun {
  run_merchant_id : UUID;
  run_recovery_case_id : option UUID;
  run_agent_name : string;
  run_agent_version : string;
  run_status : AgentRunStatus.t;
  run_input_summary : option dict;
  run_output_summary : option dict;
  run_decision_factors : option dict;
  run_error_message : option string;
  run_started_at : Z;
  run_completed_at : option Z;
}.
