(* ===== verification/Store.v ===== *)
(** * The store

    The database a transaction works on, with the sources of time and of fresh
    identifiers, and the primitive accesses the components are written with:
    lookups, inserts with their constraints, attribute assignment, [flush],
    the repository queries of [recoverai_db/repositories/] and [record_audit].

    ORM objects are shared by identity: an operation is given a row's primary
    key and reads or assigns the row in the store, so every holder of the
    object sees the assignment.  Tables without references to their rows
    (attempts, decisions, notifications, audit events) are lists in insertion
    order. *)
From S2P Require Import Prelude PyStr Uuid Errors Decimal Json Datetime Enums Rows.
Open Scope stdpp_scope.

(** The tables only the tools, the optimizer and the agents use. *)
Record SideTables : Type := mk_SideTables {
  t_carts : gmap UUID Cart;
  t_subscriptions : gmap UUID Subscription;
  t_predictions : gmap UUID ModelPrediction;
  t_idempotency : gmap UUID IdempotencyKey;
  t_calls : gmap UUID ToolCall;
  t_agent_runs : gmap UUID AgentRun;
}.

Definition set_t_carts (v : gmap UUID Cart) (t : SideTables) : SideTables :=
  mk_SideTables v (t_subscriptions t) (t_predictions t) (t_idempotency t) (t_calls t) (t_agent_runs t).
Definition set_t_predictions (v : gmap UUID ModelPrediction) (t : SideTables) : SideTables :=
  mk_SideTables (t_carts t) (t_subscriptions t) v (t_idempotency t) (t_calls t) (t_agent_runs t).
Definition set_t_idempotency (v : gmap UUID IdempotencyKey) (t : SideTables) : SideTables :=
  mk_SideTables (t_carts t) (t_subscriptions t) (t_predictions t) v (t_calls t) (t_agent_runs t).
Definition set_t_calls (v : gmap UUID ToolCall) (t : SideTables) : SideTables :=
  mk_SideTables (t_carts t) (t_subscriptions t) (t_predictions t) (t_idempotency t) v (t_agent_runs t).
Definition set_t_agent_runs (v : gmap UUID AgentRun) (t : SideTables) : SideTables :=
  mk_SideTables (t_carts t) (t_subscriptions t) (t_predictions t) (t_idempotency t) (t_calls t) v.

(** [w_clock n] is the [n]-th reading of [datetime.now(UTC)] and [w_uuids n]
    the [n]-th [uuid4()]. *)
Record World : Type := mk_World {
  w_merchants : gmap UUID Merchant;
  w_customers : gmap UUID Customer;
  w_payments : gmap UUID Payment;
  w_attempts : list PaymentAttempt;
  w_cases : gmap UUID RecoveryCase;
  w_actions : gmap UUID RecoveryAction;
  w_decisions : list RecoveryDecision;
  w_webhooks : gmap UUID WebhookEvent;
  w_evaluations : gmap UUID PolicyEvaluation;
  w_approvals : gmap UUID Approval;
  w_notifications : list Notification;
  w_audit : list AuditEvent;
  w_side : SideTables;
  w_clock : nat -> Z;
  w_ticks : nat;
  w_uuids : nat -> UUID;
  w_draws : nat;
}.

Definition set_w_merchants (v : gmap UUID Merchant) (w : World) : World :=
  mk_World v (w_customers w) (w_payments w) (w_attempts w) (w_cases w) (w_actions w)
    (w_decisions w) (w_webhooks w) (w_evaluations w) (w_approvals w) (w_notifications w)
    (w_audit w) (w_side w) (w_clock w) (w_ticks w) (w_uuids w) (w_draws w).
Definition set_w_customers (v : gmap UUID Customer) (w : World) : World :=
  mk_World (w_merchants w) v (w_payments w) (w_attempts w) (w_cases w) (w_actions w)
    (w_decisions w) (w_webhooks w) (w_evaluations w) (w_approvals w) (w_notifications w)
    (w_audit w) (w_side w) (w_clock w) (w_ticks w) (w_uuids w) (w_draws w).
Definition set_w_payments (v : gmap UUID Payment) (w : World) : World :=
  mk_World (w_merchants w) (w_customers w) v (w_attempts w) (w_cases w) (w_actions w)
    (w_decisions w) (w_webhooks w) (w_evaluations w) (w_approvals w) (w_notifications w)
    (w_audit w) (w_side w) (w_clock w) (w_ticks w) (w_uuids w) (w_draws w).
Definition set_w_attempts (v : list PaymentAttempt) (w : World) : World :=
  mk_World (w_merchants w) (w_customers w) (w_payments w) v (w_cases w) (w_actions w)
    (w_decisions w) (w_webhooks w) (w_evaluations w) (w_approvals w) (w_notifications w)
    (w_audit w) (w_side w) (w_clock w) (w_ticks w) (w_uuids w) (w_draws w).
Definition set_w_cases (v : gmap UUID RecoveryCase) (w : World) : World :=
  mk_World (w_merchants w) (w_customers w) (w_payments w) (w_attempts w) v (w_actions w)
    (w_decisions w) (w_webhooks w) (w_evaluations w) (w_approvals w) (w_notifications w)
    (w_audit w) (w_side w) (w_clock w) (w_ticks w) (w_uuids w) (w_draws w).
Definition set_w_actions (v : gmap UUID RecoveryAction) (w : World) : World :=
  mk_World (w_merchants w) (w_customers w) (w_payments w) (w_attempts w) (w_cases w) v
    (w_decisions w) (w_webhooks w) (w_evaluations w) (w_approvals w) (w_notifications w)
    (w_audit w) (w_side w) (w_clock w) (w_ticks w) (w_uuids w) (w_draws w).
Definition set_w_decisions (v : list RecoveryDecision) (w : World) : World :=
  mk_World (w_merchants w) (w_customers w) (w_payments w) (w_attempts w) (w_cases w)
    (w_actions w) v (w_webhooks w) (w_evaluations w) (w_approvals w) (w_notifications w)
    (w_audit w) (w_side w) (w_clock w) (w_ticks w) (w_uuids w) (w_draws w).
Definition set_w_webhooks (v : gmap UUID WebhookEvent) (w : World) : World :=
  mk_World (w_merchants w) (w_customers w) (w_payments w) (w_attempts w) (w_cases w)
    (w_actions w) (w_decisions w) v (w_evaluations w) (w_approvals w) (w_notifications
    w) (w_audit w) (w_side w) (w_clock w) (w_ticks w) (w_uuids w) (w_draws w).
Definition set_w_evaluations (v : gmap UUID PolicyEvaluation) (w : World) : World :=
  mk_World (w_merchants w) (w_customers w) (w_payments w) (w_attempts w) (w_cases w)
    (w_actions w) (w_decisions w) (w_webhooks w) v (w_approvals w) (w_notifications w)
    (w_audit w) (w_side w) (w_clock w) (w_ticks w) (w_uuids w) (w_draws w).
Definition set_w_approvals (v : gmap UUID Approval) (w : World) : World :=
  mk_World (w_merchants w) (w_customers w) (w_payments w) (w_attempts w) (w_cases w)
    (w_actions w) (w_decisions w) (w_webhooks w) (w_evaluations w) v (w_notifications w)
    (w_audit w) (w_side w) (w_clock w) (w_ticks w) (w_uuids w) (w_draws w).
Definition set_w_notifications (v : list Notification) (w : World) : World :=
  mk_World (w_merchants w) (w_customers w) (w_payments w) (w_attempts w) (w_cases w)
    (w_actions w) (w_decisions w) (w_webhooks w) (w_evaluations w) (w_approvals w) v
    (w_audit w) (w_side w) (w_clock w) (w_ticks w) (w_uuids w) (w_draws w).
Definition set_w_audit (v : list AuditEvent) (w : World) : World :=
  mk_World (w_merchants w) (w_customers w) (w_payments w) (w_attempts w) (w_cases w)
    (w_actions w) (w_decisions w) (w_webhooks w) (w_evaluations w) (w_approvals w)
    (w_notifications w) v (w_side w) (w_clock w) (w_ticks w) (w_uuids w) (w_draws w).
Definition set_w_side (v : SideTables) (w : World) : World :=
  mk_World (w_merchants w) (w_customers w) (w_payments w) (w_attempts w) (w_cases w)
    (w_actions w) (w_decisions w) (w_webhooks w) (w_evaluations w) (w_approvals w)
    (w_notifications w) (w_audit w) v (w_clock w) (w_ticks w) (w_uuids w) (w_draws w).
Definition set_w_ticks (v : nat) (w : World) : World :=
  mk_World (w_merchants w) (w_customers w) (w_payments w) (w_attempts w) (w_cases w)
    (w_actions w) (w_decisions w) (w_webhooks w) (w_evaluations w) (w_approvals w)
    (w_notifications w) (w_audit w) (w_side w) (w_clock w) v (w_uuids w) (w_draws w).
Definition set_w_draws (v : nat) (w : World) : World :=
  mk_World (w_merchants w) (w_customers w) (w_payments w) (w_attempts w) (w_cases w)
    (w_actions w) (w_decisions w) (w_webhooks w) (w_evaluations w) (w_approvals w)
    (w_notifications w) (w_audit w) (w_side w) (w_clock w) (w_ticks w) (w_uuids w) v.

Definition w_carts (w : World) : gmap UUID Cart := t_carts (w_side w).
Definition w_subscriptions (w : World) : gmap UUID Subscription := t_subscriptions (w_side w).
Definition w_predictions (w : World) : gmap UUID ModelPrediction := t_predictions (w_side w).
Definition w_idempotency (w : World) : gmap UUID IdempotencyKey := t_idempotency (w_side w).
Definition w_tool_calls (w : World) : gmap UUID ToolCall := t_calls (w_side w).
Definition w_agent_runs (w : World) : gmap UUID AgentRun := t_agent_runs (w_side w).
Definition set_w_carts (v : gmap UUID Cart) (w : World) : World := set_w_side (set_t_carts v (w_side w)) w.
Definition set_w_predictions (v : gmap UUID ModelPrediction) (w : World) : World := set_w_side (set_t_predictions v (w_side w)) w.
Definition set_w_idempotency (v : gmap UUID IdempotencyKey) (w : World) : World := set_w_side (set_t_idempotency v (w_side w)) w.
Definition set_w_tool_calls (v : gmap UUID ToolCall) (w : World) : World := set_w_side (set_t_calls v (w_side w)) w.
Definition set_w_agent_runs (v : gmap UUID AgentRun) (w : World) : World := set_w_side (set_t_agent_runs v (w_side w)) w.

Notation Op := (M World exn).

(** ** Time and identifiers *)

(** [datetime.now(UTC)] *)
Definition utcnow : Op Z :=
  t ← gets (fun w => w_clock w (w_ticks w));
  modify (fun w => set_w_ticks (S (w_ticks w)) w);;
  mret t.

(** [uuid.uuid4()] *)
Definition uuid4 : Op UUID :=
  u ← gets (fun w => w_uuids w (w_draws w));
  modify (fun w => set_w_draws (S (w_draws w)) w);;
  mret u.

(** ** Rows by primary key

    [session.get(T, id)] is a table lookup; reading an attribute of a row that
    is gone raises. *)
Definition ObjectDeletedError : exn := PyError "ObjectDeletedError" "".

Definition get_row {A} (table : World -> gmap UUID A) (id : UUID) : Op A :=
  w ← get; lift (ok_or ObjectDeletedError (table w !! id)).

Definition update_merchant (id : UUID) (f : Merchant -> Merchant) : Op unit :=
  modify (fun w => set_w_merchants (alter f id (w_merchants w)) w).
Definition update_payment (id : UUID) (f : Payment -> Payment) : Op unit :=
  modify (fun w => set_w_payments (alter f id (w_payments w)) w).
Definition update_case (id : UUID) (f : RecoveryCase -> RecoveryCase) : Op unit :=
  modify (fun w => set_w_cases (alter f id (w_cases w)) w).
Definition update_action (id : UUID) (f : RecoveryAction -> RecoveryAction) : Op unit :=
  modify (fun w => set_w_actions (alter f id (w_actions w)) w).
Definition update_webhook (id : UUID) (f : WebhookEvent -> WebhookEvent) : Op unit :=
  modify (fun w => set_w_webhooks (alter f id (w_webhooks w)) w).
Definition update_approval (id : UUID) (f : Approval -> Approval) : Op unit :=
  modify (fun w => set_w_approvals (alter f id (w_approvals w)) w).

Definition update_cart (id : UUID) (f : Cart -> Cart) : Op unit :=
  modify (fun w => set_w_carts (alter f id (w_carts w)) w).
Definition update_key (id : UUID) (f : IdempotencyKey -> IdempotencyKey) : Op unit :=
  modify (fun w => set_w_idempotency (alter f id (w_idempotency w)) w).
Definition update_call (id : UUID) (f : ToolCall -> ToolCall) : Op unit :=
  modify (fun w => set_w_tool_calls (alter f id (w_tool_calls w)) w).

Definition update_agent_run (id : UUID) (f : AgentRun -> AgentRun) : Op unit :=
  modify (fun w => set_w_agent_runs (alter f id (w_agent_runs w)) w).

(** The rows of a table that satisfy a [WHERE] clause, with their keys.  SQL
    leaves the order of the rows open. *)
Definition rows_where {A} (p : UUID -> A -> bool) (table : gmap UUID A) : list (UUID * A) :=
  filter (fun kv => p kv.1 kv.2 = true) (map_to_list table).

(** [session.scalar(select(T).where(p))]: the first row's key *)
Definition scalar_where {A} (p : UUID -> A -> bool) (table : gmap UUID A) : option UUID :=
  head (map fst (rows_where p table)).

(** ** Constraints *)

Definition nonneg (d : Decimal) : bool := dec_leb ZERO d.
Definition is_some {A} (o : option A) : bool := match o with Some _ => true | None => false end.
Definition same {A} `{EqDecision A} (a b : A) : bool := bool_decide (a = b).

(** The [CHECK] constraints of [recovery_cases]. *)
Definition case_checks (c : RecoveryCase) : bool :=
  nonneg (case_amount_at_risk c) && nonneg (case_amount_recovered c)
  && dec_leb (case_amount_recovered c) (case_amount_at_risk c)
  && (is_some (case_payment_id c) || is_some (case_cart_id c) || is_some (case_subscription_id c)).
Definition payment_checks (p : Payment) : bool := nonneg (payment_amount p).
Definition attempt_checks (a : PaymentAttempt) : bool := nonneg (attempt_amount a).
Definition action_checks (a : RecoveryAction) : bool :=
  match action_amount a with None => true | Some m => nonneg m end.

Definition cart_checks (c : Cart) : bool :=
  nonneg (cart_subtotal c) && nonneg (cart_discount c) && nonneg (cart_total c).

Definition customer_checks (c : Customer) : bool := nonneg (customer_lifetime_value c).
Definition prediction_checks (p : ModelPrediction) : bool :=
  dec_leb (dec_of_Z 0) (prediction_probability p) && dec_leb (prediction_probability p) (dec_of_Z 1).

(** Every row meets the [CHECK] constraints of its table. *)
Definition db_checks (w : World) : bool :=
  forallb (fun kv => payment_checks kv.2) (map_to_list (w_payments w))
  && forallb attempt_checks (w_attempts w)
  && forallb (fun kv => case_checks kv.2) (map_to_list (w_cases w))
  && forallb (fun kv => action_checks kv.2) (map_to_list (w_actions w))
  && forallb (fun kv => cart_checks kv.2) (map_to_list (w_carts w))
  && forallb (fun kv => customer_checks kv.2) (map_to_list (w_customers w))
  && forallb (fun kv => prediction_checks kv.2) (map_to_list (w_predictions w)).

(** [session.flush()]: pending assignments reach the database, which refuses
    rows that break a constraint. *)
Definition flush : Op unit :=
  w ← get;
  if db_checks w then mret tt else mthrow (IntegrityError "CHECK constraint violated").

(** [uq_recovery_cases_open_payment], [_open_cart] and [_open_subscription]:
    [c] conflicts with the open case [d]. *)
Definition open_case_conflict (c d : RecoveryCase) : bool :=
  let clash (f : RecoveryCase -> option UUID) := is_some (f c) && same (f c) (f d) in
  same (case_closed_at c) None && same (case_closed_at d) None
  && same (case_merchant_id c) (case_merchant_id d)
  && (clash case_payment_id || clash case_cart_id || clash case_subscription_id).

(** ** Inserts

    [session.add(row); session.flush()], the row's key drawn by [uuid4] where
    the caller sets none. *)
Definition unique_violation : exn := IntegrityError "duplicate key value violates unique constraint".

Definition insert_case (c : RecoveryCase) : Op UUID :=
  id ← uuid4;
  w ← get;
  if is_some (w_cases w !! id)
     || existsb (fun kv => open_case_conflict c kv.2) (map_to_list (w_cases w))
  then mthrow unique_violation
  else if negb (case_checks c) then mthrow (IntegrityError "CHECK constraint violated")
  else modify (fun w => set_w_cases (<[id := c]> (w_cases w)) w);; mret id.

(** [merchants.slug] is unique; a customer's lifetime value is not negative. *)
Definition insert_merchant (id : UUID) (m : Merchant) : Op unit :=
  w ← get;
  if is_some (w_merchants w !! id)
     || existsb (fun kv => same (merchant_slug m) (merchant_slug kv.2)) (map_to_list (w_merchants w))
  then mthrow unique_violation
  else modify (fun w => set_w_merchants (<[id := m]> (w_merchants w)) w).

Definition insert_customer (id : UUID) (c : Customer) : Op unit :=
  w ← get;
  if is_some (w_customers w !! id) then mthrow unique_violation
  else if negb (nonneg (customer_lifetime_value c)) then mthrow (IntegrityError "CHECK constraint violated")
  else modify (fun w => set_w_customers (<[id := c]> (w_customers w)) w).

(** [uq_payments_merchant_provider_payment_id] *)
Definition payment_conflict (p q : Payment) : bool :=
  same (payment_merchant_id p) (payment_merchant_id q) && same (payment_provider p) (payment_provider q)
  && is_some (payment_provider_payment_id p)
  && same (payment_provider_payment_id p) (payment_provider_payment_id q).

Definition insert_payment (id : UUID) (p : Payment) : Op unit :=
  w ← get;
  if is_some (w_payments w !! id)
     || existsb (fun kv => payment_conflict p kv.2) (map_to_list (w_payments w))
  then mthrow unique_violation
  else if negb (payment_checks p) then mthrow (IntegrityError "CHECK constraint violated")
  else modify (fun w => set_w_payments (<[id := p]> (w_payments w)) w).

(** [uq_recovery_actions_merchant_idempotency] *)
Definition action_conflict (a b : RecoveryAction) : bool :=
  same (action_merchant_id a) (action_merchant_id b)
  && same (action_idempotency_key a) (action_idempotency_key b).

Definition insert_action (a : RecoveryAction) : Op UUID :=
  id ← uuid4;
  w ← get;
  if is_some (w_actions w !! id)
     || existsb (fun kv => action_conflict a kv.2) (map_to_list (w_actions w))
  then mthrow unique_violation
  else if negb (action_checks a) then mthrow (IntegrityError "CHECK constraint violated")
  else modify (fun w => set_w_actions (<[id := a]> (w_actions w)) w);; mret id.

(** [uq_webhook_events_provider_event_id] *)
Definition webhook_conflict (e f : WebhookEvent) : bool :=
  same (hook_provider e) (hook_provider f) && same (hook_event_id e) (hook_event_id f).

Definition insert_webhook (e : WebhookEvent) : Op UUID :=
  id ← uuid4;
  w ← get;
  if is_some (w_webhooks w !! id)
     || existsb (fun kv => webhook_conflict e kv.2) (map_to_list (w_webhooks w))
  then mthrow unique_violation
  else modify (fun w => set_w_webhooks (<[id := e]> (w_webhooks w)) w);; mret id.

Definition insert_approval (a : Approval) : Op UUID :=
  id ← uuid4;
  w ← get;
  if is_some (w_approvals w !! id) then mthrow unique_violation
  else modify (fun w => set_w_approvals (<[id := a]> (w_approvals w)) w);; mret id.

Definition insert_evaluation (e : PolicyEvaluation) : Op UUID :=
  id ← uuid4;
  w ← get;
  if is_some (w_evaluations w !! id) then mthrow unique_violation
  else modify (fun w => set_w_evaluations (<[id := e]> (w_evaluations w)) w);; mret id.

(** [uq_idempotency_keys_merchant_key] *)
Definition key_conflict (a b : IdempotencyKey) : bool :=
  same (idem_merchant_id a) (idem_merchant_id b) && same (idem_key a) (idem_key b).

Definition insert_key (k : IdempotencyKey) : Op UUID :=
  id ← uuid4;
  w ← get;
  if is_some (w_idempotency w !! id)
     || existsb (fun kv => key_conflict k kv.2) (map_to_list (w_idempotency w))
  then mthrow unique_violation
  else modify (fun w => set_w_idempotency (<[id := k]> (w_idempotency w)) w);; mret id.

Definition insert_call (c : ToolCall) : Op UUID :=
  id ← uuid4;
  w ← get;
  if is_some (w_tool_calls w !! id) then mthrow unique_violation
  else modify (fun w => set_w_tool_calls (<[id := c]> (w_tool_calls w)) w);; mret id.

Definition insert_agent_run (r : AgentRun) : Op UUID :=
  id ← uuid4;
  w ← get;
  if is_some (w_agent_runs w !! id) then mthrow unique_violation
  else modify (fun w => set_w_agent_runs (<[id := r]> (w_agent_runs w)) w);; mret id.

(** [uq_payment_attempts_payment_attempt] *)
Definition attempt_conflict (a b : PaymentAttempt) : bool :=
  same (attempt_payment_id a) (attempt_payment_id b)
  && same (attempt_attempt_number a) (attempt_attempt_number b).

Definition insert_attempt (a : PaymentAttempt) : Op unit :=
  w ← get;
  if existsb (attempt_conflict a) (w_attempts w) then mthrow unique_violation
  else if negb (attempt_checks a) then mthrow (IntegrityError "CHECK constraint violated")
  else modify (fun w => set_w_attempts (w_attempts w ++ [a]) w).

(** Processing numbers an attempt after the highest of its payment. *)
Definition add_attempt (a : PaymentAttempt) : Op unit :=
  modify (fun w => set_w_attempts (w_attempts w ++ [a]) w).
Definition add_notification (n : Notification) : Op unit :=
  modify (fun w => set_w_notifications (w_notifications w ++ [n]) w).
Definition add_decision (d : RecoveryDecision) : Op unit :=
  modify (fun w => set_w_decisions (w_decisions w ++ [d]) w).
Definition add_audit (e : AuditEvent) : Op unit :=
  modify (fun w => set_w_audit (w_audit w ++ [e]) w).
