(* ===== verification/Repositories.v ===== *)
(** * Repositories and the audit trail

    [recoverai_db/repositories/] as queries on the store, and [record_audit] of
    [recoverai_domain/audit_write.py] with the event types of [audit.py]. *)
From S2P Require Import Prelude PyStr Uuid Errors Decimal Json Datetime Enums Rows Store.
Open Scope stdpp_scope.

Module MerchantRepository.
Definition get_merchant (merchant_id : UUID) (w : World) : option Merchant :=
  w_merchants w !! merchant_id.

Definition get_by_slug (slug : string) (w : World) : option UUID :=
  scalar_where (fun _ m => same (merchant_slug m) slug) (w_merchants w).
End MerchantRepository.

Module CustomerRepository.
Definition get_customer (merchant_id customer_id : UUID) (w : World) : option UUID :=
  scalar_where (fun id c => same (customer_merchant_id c) merchant_id && same id customer_id)
    (w_customers w).

Definition get_by_external_id (merchant_id : UUID) (external_id : string) (w : World)
  : option UUID :=
  scalar_where (fun _ c => same (customer_merchant_id c) merchant_id
                           && same (customer_external_id c) (Some external_id))
    (w_customers w).
End CustomerRepository.

Module PaymentRepository.
Definition get_payment (merchant_id payment_id : UUID) (w : World) : option UUID :=
  scalar_where (fun id p => same (payment_merchant_id p) merchant_id && same id payment_id)
    (w_payments w).

Definition get_by_provider_payment_id (merchant_id : UUID) (provider provider_payment_id : string)
  (w : World) : option UUID :=
  scalar_where (fun _ p => same (payment_merchant_id p) merchant_id
                           && same (payment_provider p) provider
                           && same (payment_provider_payment_id p) (Some provider_payment_id))
    (w_payments w).

(** Newest first in the code; the model lists the rows in table order. *)
Definition list_for_customer (merchant_id customer_id : UUID) (w : World) : list (UUID * Payment) :=
  rows_where (fun _ p => same (payment_merchant_id p) merchant_id
                         && same (payment_customer_id p) customer_id) (w_payments w).

(** [int(max(attempt_number) or 0) + 1] over the payment's attempts *)
Definition max_attempt (payment_id : UUID) (l : list PaymentAttempt) : Z :=
  foldr (fun a m => if same (attempt_payment_id a) payment_id
                    then Z.max (attempt_attempt_number a) m else m) 0%Z l.
Definition next_attempt_number (payment_id : UUID) (w : World) : Z :=
  (max_attempt payment_id (w_attempts w) + 1)%Z.
End PaymentRepository.

Module RecoveryCaseRepository.
Definition list_open_for_payment (merchant_id payment_id : UUID) (w : World)
  : list (UUID * RecoveryCase) :=
  rows_where (fun _ c => same (case_merchant_id c) merchant_id
                         && same (case_payment_id c) (Some payment_id)
                         && same (case_closed_at c) None)
    (w_cases w).

Definition list_open_for_customer (merchant_id customer_id : UUID) (w : World)
  : list (UUID * RecoveryCase) :=
  rows_where (fun _ c => same (case_merchant_id c) merchant_id
                         && same (case_customer_id c) customer_id
                         && same (case_closed_at c) None)
    (w_cases w).

Definition list_that_counted_payment (merchant_id payment_id : UUID) (w : World)
  : list (UUID * RecoveryCase) :=
  rows_where (fun _ c => same (case_merchant_id c) merchant_id
                         && same (case_verified_payment_id c) (Some payment_id)
                         && dec_ltb ZERO (case_amount_recovered c))
    (w_cases w).

(** [SELECT ... FOR UPDATE]: the lock itself has no effect on the rows. *)
Definition get_case_for_update (case_id : UUID) (w : World) : option UUID :=
  if is_some (w_cases w !! case_id) then Some case_id else None.
End RecoveryCaseRepository.

Module WebhookEventRepository.
Definition get_by_provider_event (merchant_id : UUID) (provider event_id : string) (w : World)
  : option UUID :=
  scalar_where (fun _ e => same (hook_merchant_id e) merchant_id
                           && same (hook_provider e) provider
                           && same (hook_event_id e) event_id)
    (w_webhooks w).

Definition get_by_provider_event_id (provider event_id : string) (w : World) : option UUID :=
  scalar_where (fun _ e => same (hook_provider e) provider && same (hook_event_id e) event_id)
    (w_webhooks w).
End WebhookEventRepository.

(** ** The audit trail *)

(** The optional keyword arguments of [record_audit]. *)
Record AuditArgs : Type := mk_AuditArgs {
  arg_case_id : option UUID;
  arg_actor_type : string;
  arg_actor_id : option string;
  arg_action : option string;
  arg_previous_state : option string;
  arg_new_state : option string;
  arg_correlation_id : option string;
  arg_idempotency_key : option string;
  arg_metadata : option dict;
}.

Definition record_audit (merchant_id : UUID) (event_type summary : string) (a : AuditArgs)
  : Op unit :=
  t ← utcnow;
  add_audit (mk_AuditEvent merchant_id (arg_case_id a) (arg_actor_type a) (arg_actor_id a)
    event_type (arg_action a) (arg_previous_state a) (arg_new_state a) summary (arg_metadata a)
    (arg_correlation_id a) (arg_idempotency_key a) t).

(** ** Lemmas *)

Lemma elem_of_rows_where {A} (p : UUID -> A -> bool) t id r :
  (id, r) ∈ rows_where p t <-> t !! id = Some r /\ p id r = true.
Proof.
  unfold rows_where. rewrite list_elem_of_filter, elem_of_map_to_list. simpl. tauto.
Qed.

Lemma scalar_where_Some {A} (p : UUID -> A -> bool) t id :
  scalar_where p t = Some id -> exists r, t !! id = Some r /\ p id r = true.
Proof.
  unfold scalar_where. destruct (rows_where p t) as [|[k r] l] eqn:H; simpl; [done|].
  intros [= ->]. exists r. apply elem_of_rows_where. rewrite H. left.
Qed.

Lemma scalar_where_None {A} (p : UUID -> A -> bool) t :
  scalar_where p t = None <-> forall id r, t !! id = Some r -> p id r = false.
Proof.
  unfold scalar_where. destruct (rows_where p t) as [|[k r] l] eqn:H; simpl.
  - split; [intros _ id r Hid|done]. destruct (p id r) eqn:Hp; [|done].
    assert ((id, r) ∈ rows_where p t) as Hin by (by apply elem_of_rows_where).
    rewrite H in Hin. by apply elem_of_nil in Hin.
  - split; [done|]. intros Hall.
    assert ((k, r) ∈ rows_where p t) as Hin by (rewrite H; left).
    apply elem_of_rows_where in Hin as [Hk Hp]. by rewrite (Hall _ _ Hk) in Hp.
Qed.

Lemma same_true {A} `{EqDecision A} (a b : A) : same a b = true <-> a = b.
Proof. unfold same. apply bool_decide_eq_true. Qed.

Lemma same_eq {A} `{EqDecision A} (a b : A) : same a b = true -> a = b.
Proof. apply same_true. Qed.

Lemma same_refl {A} `{EqDecision A} (a : A) : same a a = true.
Proof. by apply same_true. Qed.

Lemma get_payment_spec m id w :
  PaymentRepository.get_payment m id w =
    match w_payments w !! id with
    | Some p => if same (payment_merchant_id p) m then Some id else None
    | None => None
    end.
Proof.
  unfold PaymentRepository.get_payment. destruct (scalar_where _ _) as [k|] eqn:H.
  - apply scalar_where_Some in H as (p & Hp & H). apply andb_true_iff in H as [Hm Hk].
    apply same_eq in Hk as ->. by rewrite Hp, Hm.
  - destruct (w_payments w !! id) as [p|] eqn:Hp; [|done].
    rewrite scalar_where_None in H. specialize (H _ _ Hp).
    rewrite same_refl, andb_true_r in H. by rewrite H.
Qed.

Lemma max_attempt_le id l a :
  a ∈ l -> attempt_payment_id a = id -> (attempt_attempt_number a <= PaymentRepository.max_attempt id l)%Z.
Proof.
  induction 1 as [a l|a b l _ IH]; intros Hid; simpl.
  - rewrite (proj2 (same_true _ _) Hid). lia.
  - specialize (IH Hid). destruct (same _ _); lia.
Qed.

Lemma next_attempt_free a w :
  attempt_attempt_number a = PaymentRepository.next_attempt_number (attempt_payment_id a) w ->
  existsb (attempt_conflict a) (w_attempts w) = false.
Proof.
  intros Ha. apply existsb_elem_false. intros b Hb. unfold attempt_conflict.
  destruct (same (attempt_payment_id a) _) eqn:Hp; [|done]. apply same_eq in Hp. simpl.
  apply bool_decide_eq_false. intros E.
  pose proof (max_attempt_le _ _ _ Hb (eq_sym Hp)) as Hle.
  unfold PaymentRepository.next_attempt_number in Ha. lia.
Qed.
