(* ===== verification/StateMachine.v ===== *)
(** * The recovery case state machine

    [recoverai_domain/state_machine.py]: the legal transitions of a recovery
    case, the audit event each target is recorded under, and the predicates on
    statuses.  A status argument of the Python functions is a member or its
    name, the type [StatusArg]. *)
From S2P Require Import Prelude PyStr Uuid Errors Enums.
Open Scope stdpp_scope.

Definition LEGAL_TRANSITIONS : list (RecoveryCaseStatus * RecoveryCaseStatus) := [
  (DETECTED, TRIAGED);
  (TRIAGED, INVESTIGATING);
  (TRIAGED, SCORING);
  (INVESTIGATING, DIAGNOSED);
  (DIAGNOSED, SCORING);
  (SCORING, STRATEGY_SELECTED);
  (STRATEGY_SELECTED, POLICY_CHECK);
  (POLICY_CHECK, EXECUTING);
  (POLICY_CHECK, STOPPED);
  (POLICY_CHECK, ESCALATED);
  (POLICY_CHECK, AWAITING_APPROVAL);
  (POLICY_CHECK, RETRY_SCHEDULED);
  (AWAITING_APPROVAL, EXECUTING);
  (AWAITING_APPROVAL, STOPPED);
  (AWAITING_APPROVAL, ESCALATED);
  (AWAITING_APPROVAL, POLICY_CHECK);
  (EXECUTING, ACTION_COMPLETED);
  (EXECUTING, FAILED);
  (ACTION_COMPLETED, VERIFYING);
  (VERIFYING, RECOVERED);
  (VERIFYING, NOT_RECOVERED);
  (VERIFYING, RETRY_SCHEDULED);
  (NOT_RECOVERED, RETRY_SCHEDULED);
  (NOT_RECOVERED, ESCALATED);
  (NOT_RECOVERED, STOPPED);
  (FAILED, RETRY_SCHEDULED);
  (FAILED, ESCALATED);
  (FAILED, STOPPED);
  (RETRY_SCHEDULED, SCORING);
  (ESCALATED, STOPPED)
].

Definition STARTING_STATUS : RecoveryCaseStatus := DETECTED.

Definition AUDIT_TYPE_FOR_TARGET : list (RecoveryCaseStatus * string) := [
  (TRIAGED, "CASE_TRIAGED");
  (INVESTIGATING, "CASE_INVESTIGATING");
  (DIAGNOSED, "CASE_DIAGNOSED");
  (SCORING, "RECOVERY_SCORING_STARTED");
  (STRATEGY_SELECTED, "RECOVERY_STRATEGY_SELECTED");
  (POLICY_CHECK, "RECOVERY_POLICY_CHECKED");
  (AWAITING_APPROVAL, "APPROVAL_REQUESTED");
  (EXECUTING, "RECOVERY_EXECUTION_STARTED");
  (ACTION_COMPLETED, "RECOVERY_ACTION_COMPLETED");
  (VERIFYING, "RECOVERY_VERIFICATION_STARTED");
  (RECOVERED, "RECOVERY_VERIFIED");
  (NOT_RECOVERED, "RECOVERY_VERIFICATION_FAILED");
  (STOPPED, "RECOVERY_CASE_STOPPED");
  (ESCALATED, "RECOVERY_CASE_ESCALATED");
  (FAILED, "RECOVERY_EXECUTION_STARTED");
  (RETRY_SCHEDULED, "RECOVERY_VERIFICATION_FAILED")
].

(** [AUDIT_TYPE_FOR_TARGET.get(target)] *)
Definition audit_type_for (target : RecoveryCaseStatus) : option string :=
  snd <$> find (fun kv => bool_decide (kv.1 = target)) AUDIT_TYPE_FOR_TARGET.

(** [(from, to) in LEGAL_TRANSITIONS] and [s in TERMINAL_RECOVERY_STATUSES] *)
Definition legal (from_status to_status : RecoveryCaseStatus) : bool :=
  bool_decide ((from_status, to_status) ∈ LEGAL_TRANSITIONS).
Definition terminal (s : RecoveryCaseStatus) : bool :=
  bool_decide (s ∈ TERMINAL_RECOVERY_STATUSES).

Inductive StatusArg : Type :=
  | StatusName (name : string)
  | StatusMember (s : RecoveryCaseStatus).

Definition coerce_status (v : StatusArg) : result exn RecoveryCaseStatus :=
  match v with
  | StatusMember s => Ok s
  | StatusName name =>
      ok_or (ValueError ("'" +:+ name +:+ "' is not a valid RecoveryCaseStatus")) (of_value name)
  end.

Definition is_terminal (v : StatusArg) : result exn bool :=
  s ← coerce_status v; mret (terminal s).

Definition can_transition (from_status to_status : StatusArg) : result exn bool :=
  source ← coerce_status from_status;
  target ← coerce_status to_status;
  mret (legal source target).

Definition assert_legal_transition (from_status to_status : StatusArg) : result exn unit :=
  source ← coerce_status from_status;
  target ← coerce_status to_status;
  if legal source target then mret tt
  else mthrow (InvalidTransitionError (value source) (value target) None).

(** ** The transition system *)

Definition case_step : relation RecoveryCaseStatus := fun s t => legal s t = true.

(** [path s l t]: a run from [s] to [t] whose visited statuses, [s] first and
    [t] excluded, are [l]. *)
Inductive path : RecoveryCaseStatus -> list RecoveryCaseStatus -> RecoveryCaseStatus -> Prop :=
  | path_nil s : path s [] s
  | path_cons s t u l : case_step s t -> path t l u -> path s (s :: l) u.

(** [S] is closed under the transitions that leave a status outside [avoid]. *)
Definition closed_under (avoid S : list RecoveryCaseStatus) : bool :=
  forallb (fun s => bool_decide (s ∈ avoid) ||
    forallb (fun t => negb (legal s t) || bool_decide (t ∈ S)) members) S.

(** A run to a terminal status, searched for along [n] transitions at most. *)
Fixpoint finishes (n : nat) (s : RecoveryCaseStatus) : bool :=
  terminal s ||
  match n with
  | O => false
  | S n => existsb (fun t => legal s t && finishes n t) members
  end.

(** ** Lemmas *)

Lemma path_app s l t l' u : path s l t -> path t l' u -> path s (l ++ l') u.
Proof. induction 1; simpl; eauto using path. Qed.

Lemma path_head s l t : path s l t -> l = [] \/ head l = Some s.
Proof. destruct 1; auto. Qed.

Lemma closed_under_path avoid S s l t :
  closed_under avoid S = true -> s ∈ S -> path s l t -> (forall x, x ∈ l -> x ∉ avoid) -> t ∈ S.
Proof.
  intros HS Hs Hp. induction Hp as [|s t u l Hst _ IH]; intros Hl; [done|].
  apply IH; [|intros x Hx; apply Hl; by right].
  unfold closed_under in HS. rewrite forallb_elem in HS. specialize (HS s Hs).
  rewrite bool_decide_eq_false_2, orb_false_l in HS by (apply Hl; left).
  rewrite forallb_elem in HS. specialize (HS t (members_complete t)).
  unfold case_step in Hst. rewrite Hst in HS. simpl in HS. by apply bool_decide_eq_true in HS.
Qed.

Lemma finishes_path n s : finishes n s = true -> exists l t, path s l t /\ terminal t = true.
Proof.
  revert s. induction n as [|n IH]; intros s; cbn [finishes].
  - rewrite orb_false_r. intros Ht. exists [], s. eauto using path.
  - intros [Ht|Hn]%orb_true_iff; [exists [], s; eauto using path|].
    apply existsb_elem in Hn as (t & _ & [Hst Ht]%andb_true_iff).
    destruct (IH t Ht) as (l & u & Hl & Hu). exists (s :: l), u. eauto using path.
Qed.

Lemma terminal_no_step s t : terminal s = true -> legal s t = false.
Proof. destruct s; try done; destruct t; done. Qed.

Lemma terminal_path s l t : terminal s = true -> path s l t -> l = [] /\ t = s.
Proof.
  intros Hs Hp. destruct Hp as [|s t u l Hst _]; [done|].
  unfold case_step in Hst. by rewrite (terminal_no_step _ _ Hs) in Hst.
Qed.

Lemma coerce_status_value s : coerce_status (StatusName (value s)) = Ok s.
Proof. unfold coerce_status. by rewrite of_value_value. Qed.

(** ** Properties *)

(** The terminal statuses are exactly the statuses no transition
    leaves: [is_terminal] and the transition table agree. *)
Theorem terminal_iff_no_successor s :
  is_terminal (StatusMember s) = Ok true <->
  forall t, can_transition (StatusMember s) (StatusMember t) = Ok false.
Proof.
  unfold is_terminal, can_transition. simpl. split.
  - intros [= Hs] t. by rewrite terminal_no_step.
  - intros H.
    assert (existsb (legal s) members = false) as Hnone.
    { apply existsb_elem_false. intros t _. specialize (H t). by injection H. }
    clear H. by destruct s; vm_compute in Hnone |- *.
Qed.

(** C14. No case can get stuck: from every status a terminal status is
    reachable by legal transitions. *)
Theorem every_status_finishes s : exists l t, path s l t /\ terminal t = true.
Proof. apply (finishes_path 8). by destruct s. Qed.

(** Nothing is executed, recovered or failed without a policy check: a
    legal run of a new case that reaches EXECUTING, ACTION_COMPLETED,
    VERIFYING, RECOVERED, NOT_RECOVERED or FAILED has visited POLICY_CHECK. *)
Theorem policy_check_before_execution l t :
  path STARTING_STATUS l t ->
  t ∈ [EXECUTING; ACTION_COMPLETED; VERIFYING; RECOVERED; NOT_RECOVERED; FAILED] ->
  POLICY_CHECK ∈ l.
Proof.
  intros Hp Ht. destruct (decide (POLICY_CHECK ∈ l)) as [|Hn]; [done|exfalso].
  assert (t ∈ [DETECTED; TRIAGED; INVESTIGATING; DIAGNOSED; SCORING; STRATEGY_SELECTED; POLICY_CHECK]) as Hin.
  { eapply (closed_under_path [POLICY_CHECK]); [vm_compute; reflexivity| |exact Hp|].
    - left.
    - intros x Hx ->%list_elem_of_singleton. done. }
  set_solver.
Qed.
