(* ===== verification/Transitions.v ===== *)
(** * Moving a case between statuses

    [recoverai_domain/transitions.py]: locking a case and [transition_case], the
    only writer of [status], [version] and [closed_at]. *)
From S2P Require Import Prelude PyStr Uuid Errors Decimal Json Datetime Enums Rows Store Repositories StateMachine.
Open Scope stdpp_scope.

Definition lock_recovery_case (case_id : UUID) : Op UUID :=
  w ← get;
  lift (ok_or (DomainError "RECOVERY_CASE_NOT_FOUND"
                 ("Recovery case " +:+ uuid_str case_id +:+ " was not found") false)
              (RecoveryCaseRepository.get_case_for_update case_id w)).

(** The keyword arguments of [transition_case]. *)
Record TransitionArgs : Type := mk_TransitionArgs {
  t_actor_type : string;
  t_correlation_id : option string;
  t_summary : option string;
  t_metadata : option dict;
  t_expected_version : option Z;
}.

(** [summary or default] *)
Definition str_or (s : option string) (default : string) : string :=
  match s with
  | Some s => if nonempty s then s else default
  | None => default
  end.

Definition transition_metadata (case_id : UUID) (c : RecoveryCase) (version : option Z)
  (metadata : option dict) : dict :=
  dict_update
    ([("case_id", JStr (uuid_str case_id)); ("merchant_id", JStr (uuid_str (case_merchant_id c)))]
     ++ match version with Some v => [("version", JInt v)] | None => [] end)
    (default [] metadata).

(** [expected_version is not None and case.version != expected_version] *)
Definition version_mismatch (c : RecoveryCase) (a : TransitionArgs) : bool :=
  match t_expected_version a with Some v => negb (case_version c =? v)%Z | None => false end.

(** The audit row of a rejected transition. *)
Definition record_rejection (case_id : UUID) (c : RecoveryCase) (target : RecoveryCaseStatus)
  (a : TransitionArgs) : Op unit :=
  record_audit (case_merchant_id c) "STATE_TRANSITION_REJECTED"
    ("Rejected illegal recovery transition from " +:+ value (case_status c)
     +:+ " to " +:+ value target)
    (mk_AuditArgs (Some case_id) (t_actor_type a) None (Some "reject_transition")
       (Some (value (case_status c))) (Some (value target)) (t_correlation_id a) None
       (Some (transition_metadata case_id c None (t_metadata a)))).

Definition transition_case (case_id : UUID) (target : RecoveryCaseStatus) (a : TransitionArgs)
  : Op unit :=
  c ← get_row w_cases case_id;
  if version_mismatch c a then mthrow (ConcurrentCaseUpdateError case_id)
  else match assert_legal_transition (StatusMember (case_status c)) (StatusMember target) with
  | Raise _ =>
      record_rejection case_id c target a;;
      mthrow (InvalidTransitionError (value (case_status c)) (value target) (Some case_id))
  | Ok _ =>
      update_case case_id (set_case_status target);;
      update_case case_id (fun c => set_case_version (case_version c + 1)%Z c);;
      now ← utcnow;
      update_case case_id
        (set_case_closed_at (if terminal target then Some now else None));;
      c' ← get_row w_cases case_id;
      record_audit (case_merchant_id c')
        (default "PAYMENT_UPDATED" (audit_type_for target))
        (str_or (t_summary a) ("Recovery case moved from " +:+ value (case_status c)
                               +:+ " to " +:+ value target))
        (mk_AuditArgs (Some case_id) (t_actor_type a) None (Some "transition")
           (Some (value (case_status c))) (Some (value target)) (t_correlation_id a) None
           (Some (transition_metadata case_id c' (Some (case_version c')) (t_metadata a))));;
      flush
  end.

(** ** Behaviour *)

(** The row a legal transition to [target] at time [now] leaves. *)
Definition moved (target : RecoveryCaseStatus) (now : Z) (c : RecoveryCase) : RecoveryCase :=
  set_case_closed_at (if terminal target then Some now else None)
    (set_case_version (case_version c + 1)%Z (set_case_status target c)).

(** The store it leaves: the row, two clock readings and one audit event. *)
Definition after_move (case_id : UUID) (target : RecoveryCaseStatus) (c : RecoveryCase)
  (e : AuditEvent) (w : World) : World :=
  set_w_audit (w_audit w ++ [e])
    (set_w_ticks (S (S (w_ticks w)))
       (set_w_cases (<[case_id := moved target (w_clock w (w_ticks w)) c]> (w_cases w)) w)).

Definition move_event (case_id : UUID) (target : RecoveryCaseStatus) (c : RecoveryCase)
  (a : TransitionArgs) (w : World) : AuditEvent :=
  mk_AuditEvent (case_merchant_id c) (Some case_id) (t_actor_type a) None
    (default "PAYMENT_UPDATED" (audit_type_for target)) (Some "transition")
    (Some (value (case_status c))) (Some (value target))
    (str_or (t_summary a) ("Recovery case moved from " +:+ value (case_status c)
                           +:+ " to " +:+ value target))
    (Some (transition_metadata case_id c (Some (case_version c + 1)%Z) (t_metadata a)))
    (t_correlation_id a) None (w_clock w (S (w_ticks w))).

Definition rejection_event (case_id : UUID) (target : RecoveryCaseStatus) (c : RecoveryCase)
  (a : TransitionArgs) (w : World) : AuditEvent :=
  mk_AuditEvent (case_merchant_id c) (Some case_id) (t_actor_type a) None
    "STATE_TRANSITION_REJECTED" (Some "reject_transition")
    (Some (value (case_status c))) (Some (value target))
    ("Rejected illegal recovery transition from " +:+ value (case_status c)
     +:+ " to " +:+ value target)
    (Some (transition_metadata case_id c None (t_metadata a)))
    (t_correlation_id a) None (w_clock w (w_ticks w)).

(** ** Lemmas *)

Lemma record_audit_run m ty s a w :
  record_audit m ty s a w =
    (set_w_audit (w_audit w ++ [mk_AuditEvent m (arg_case_id a) (arg_actor_type a)
        (arg_actor_id a) ty (arg_action a) (arg_previous_state a) (arg_new_state a) s
        (arg_metadata a) (arg_correlation_id a) (arg_idempotency_key a) (w_clock w (w_ticks w))])
      (set_w_ticks (S (w_ticks w)) w), Ok tt).
Proof. reflexivity. Qed.

Lemma get_row_run {A} (t : World -> gmap UUID A) id r w :
  t w !! id = Some r -> get_row t id w = (w, Ok r).
Proof. intros H. unfold get_row, mbind, m_bind, get, lift. by rewrite H. Qed.

Lemma get_row_None {A} (t : World -> gmap UUID A) id w :
  t w !! id = None -> get_row t id w = (w, Raise ObjectDeletedError).
Proof. intros H. unfold get_row, mbind, m_bind, get, lift. by rewrite H. Qed.

Lemma bind_run {A B} (m : Op A) (k : A -> Op B) w w' a :
  m w = (w', Ok a) -> (m ≫= k) w = k a w'.
Proof. intros H. unfold mbind, m_bind. by rewrite H. Qed.

Lemma bind_raise {A B} (m : Op A) (k : A -> Op B) w w' e :
  m w = (w', Raise e) -> (m ≫= k) w = (w', Raise e).
Proof. intros H. unfold mbind, m_bind. by rewrite H. Qed.

Lemma assert_legal_true s t :
  assert_legal_transition (StatusMember s) (StatusMember t) =
    if legal s t then Ok tt else Raise (InvalidTransitionError (value s) (value t) None).
Proof. reflexivity. Qed.

Lemma flush_run w :
  flush w = (w, if db_checks w then Ok tt else Raise (IntegrityError "CHECK constraint violated")).
Proof. unfold flush, mbind, m_bind, get. by destruct (db_checks w). Qed.

(** Assigning to the row of a case. *)
Lemma update_case_run id f w c :
  w_cases w !! id = Some c -> update_case id f w = (set_w_cases (<[id := f c]> (w_cases w)) w, Ok tt).
Proof. intros Hc. unfold update_case, modify. by rewrite (alter_as_insert _ _ _ _ Hc). Qed.

Lemma update_case_again id f w c cases :
  update_case id f (set_w_cases (<[id := c]> cases) w) = (set_w_cases (<[id := f c]> cases) w, Ok tt).
Proof.
  rewrite (update_case_run _ _ _ c) by apply lookup_insert_eq.
  change (w_cases (set_w_cases (<[id := c]> cases) w)) with (<[id := c]> cases).
  by rewrite insert_insert_eq.
Qed.

Lemma utcnow_after_cases cases w :
  utcnow (set_w_cases cases w)
  = (set_w_cases cases (set_w_ticks (S (w_ticks w)) w), Ok (w_clock w (w_ticks w))).
Proof. reflexivity. Qed.

(** The behaviour of [transition_case] on every branch. *)
Lemma transition_case_run case_id target a w c :
  w_cases w !! case_id = Some c ->
  transition_case case_id target a w =
    if version_mismatch c a then (w, Raise (ConcurrentCaseUpdateError case_id))
    else if legal (case_status c) target then
      let w' := after_move case_id target c (move_event case_id target c a w) w in
      (w', if db_checks w' then Ok tt else Raise (IntegrityError "CHECK constraint violated"))
    else (set_w_audit (w_audit w ++ [rejection_event case_id target c a w])
            (set_w_ticks (S (w_ticks w)) w),
          Raise (InvalidTransitionError (value (case_status c)) (value target) (Some case_id))).
Proof.
  intros Hc. unfold transition_case. rewrite (bind_run _ _ _ _ _ (get_row_run _ _ _ _ Hc)).
  destruct (version_mismatch c a); [done|].
  rewrite assert_legal_true. destruct (legal (case_status c) target); [|done].
  rewrite (bind_run _ _ _ _ _ (update_case_run _ _ _ _ Hc)).
  rewrite (bind_run _ _ _ _ _ (update_case_again _ _ _ _ _)).
  rewrite (bind_run _ _ _ _ _ (utcnow_after_cases _ _)).
  rewrite (bind_run _ _ _ _ _ (update_case_again _ _ _ _ _)).
  erewrite bind_run by (apply get_row_run, lookup_insert_eq).
  by rewrite (bind_run _ _ _ _ _ (record_audit_run _ _ _ _ _)), flush_run.
Qed.
