(* ===== verification/Config.v ===== *)
(** * Recovery configuration

    [recoverai_domain/recovery_config.py] and the constants of
    [policy_types.py]: settings read from the environment, and a merchant's
    overrides of them. *)
From S2P Require Import Prelude PyStr Uuid Errors Decimal Json Enums.
Open Scope stdpp_scope.

Definition POLICY_VERSION : string := "policy-v1".

Record RecoverySettings : Type := mk_RecoverySettings {
  recovery_window_hours : Z;
  recovery_ordering_grace_minutes : Z;
  high_value_approval_threshold : Decimal;
  medium_value_approval_threshold : Decimal;
  max_retry_attempts : Z;
  max_discount_percent : Decimal;
  max_daily_discount_budget : Decimal;
  max_communications_per_day : Z;
  quiet_hours_start : Z;
  quiet_hours_end : Z;
  automatic_recovery_enabled : bool;
  approval_ttl_minutes : Z;
  policy_version : string;
}.

Definition default_settings : RecoverySettings :=
  mk_RecoverySettings 72 60 (dec_of_Z 25000) (dec_of_Z 5000) 3 (dec_of_Z 10) (dec_of_Z 5000) 3 21 8
    true 60 POLICY_VERSION.

(** [Decimal(text)]: a [NaN] or infinity has no place among the amounts, and
    the model refuses it as it refuses malformed text. *)
Definition decimal_of_text (s : string) : result exn Decimal :=
  match dec_of_str s with Some (Finite d) => Ok d | _ => Raise InvalidOperation end.

Definition int_of_text (s : string) : result exn Z :=
  ok_or (ValueError ("invalid literal for int() with base 10: " +:+ repr_str s)) (int_of_str 10 s).

Definition is_true_text (s : string) : bool :=
  mem_str (lower (strip s)) ["1"; "true"; "yes"; "on"].

(** ** The environment: [os.environ] is an association list *)
Section Environment.
Context (environ : list (string * string)).

Fixpoint env_get (name : string) (env : list (string * string)) : option string :=
  match env with
  | [] => None
  | (k, v) :: env => if String.eqb name k then Some v else env_get name env
  end.

(** The value of a variable that is set and not blank. *)
Definition env_value (name : string) : option string :=
  raw ← env_get name environ; if nonempty (strip raw) then Some raw else None.

Definition _int_env (name : string) (dflt : Z) : result exn Z :=
  match env_value name with Some raw => int_of_text raw | None => Ok dflt end.
Definition _decimal_env (name : string) (dflt : Decimal) : result exn Decimal :=
  match env_value name with Some raw => decimal_of_text raw | None => Ok dflt end.
Definition _bool_env (name : string) (dflt : bool) : result exn bool :=
  match env_value name with Some raw => Ok (is_true_text raw) | None => Ok dflt end.

Definition from_env : result exn RecoverySettings :=
  recovery_window_hours ← _int_env "RECOVERY_WINDOW_HOURS" 72;
  recovery_ordering_grace_minutes ← _int_env "RECOVERY_ORDERING_GRACE_MINUTES" 60;
  high_value ← _decimal_env "HIGH_VALUE_APPROVAL_THRESHOLD" (dec_of_Z 25000);
  medium_value ← _decimal_env "MEDIUM_VALUE_APPROVAL_THRESHOLD" (dec_of_Z 5000);
  max_retry_attempts ← _int_env "MAX_RETRY_ATTEMPTS" 3;
  max_discount_percent ← _decimal_env "MAX_DISCOUNT_PERCENT" (dec_of_Z 10);
  max_daily_discount_budget ← _decimal_env "MAX_DAILY_DISCOUNT_BUDGET" (dec_of_Z 5000);
  max_communications_per_day ← _int_env "MAX_COMMUNICATIONS_PER_DAY" 3;
  quiet_hours_start ← _int_env "QUIET_HOURS_START" 21;
  quiet_hours_end ← _int_env "QUIET_HOURS_END" 8;
  automatic_recovery_enabled ← _bool_env "AUTOMATIC_RECOVERY_ENABLED" true;
  approval_ttl_minutes ← _int_env "APPROVAL_TTL_MINUTES" 60;
  let version := match env_get "POLICY_VERSION" environ with
                 | Some v => if nonempty v then v else POLICY_VERSION
                 | None => POLICY_VERSION
                 end in
  mret (mk_RecoverySettings recovery_window_hours recovery_ordering_grace_minutes high_value
          medium_value max_retry_attempts max_discount_percent max_daily_discount_budget
          max_communications_per_day quiet_hours_start quiet_hours_end
          automatic_recovery_enabled approval_ttl_minutes version).

Definition load_recovery_settings : result exn RecoverySettings := from_env.
End Environment.

(** ** A merchant's overrides *)

(** [{}] is the result for [None] and for an empty dict. *)
Definition _policy_section (settings : option dict) : dict :=
  match settings with
  | None => []
  | Some s => match dict_get "policy" s with JObj nested => nested | _ => s end
  end.

(** [raw is None or raw == ""] *)
Definition unset (raw : json) : bool :=
  match raw with JNull => true | JStr s => negb (nonempty s) | _ => false end.

Definition _int_value (data : dict) (key : string) (dflt : Z) : result exn Z :=
  let raw := dict_get key data in if unset raw then Ok dflt else py_int raw.
Definition _decimal_value (data : dict) (key : string) (dflt : Decimal) : result exn Decimal :=
  let raw := dict_get key data in if unset raw then Ok dflt else decimal_of_text (py_str raw).
Definition _bool_value (data : dict) (key : string) (dflt : bool) : result exn bool :=
  let raw := dict_get key data in
  if unset raw then Ok dflt
  else match raw with JBool b => Ok b | _ => Ok (is_true_text (py_str raw)) end.

Definition merge_merchant (self : RecoverySettings) (settings : option dict)
  : result exn RecoverySettings :=
  let policy := _policy_section settings in
  match policy with
  | [] => Ok self
  | _ =>
    window ← _int_value policy "recovery_window_hours" (recovery_window_hours self);
    grace ← _int_value policy "recovery_ordering_grace_minutes"
              (recovery_ordering_grace_minutes self);
    high ← _decimal_value policy "high_value_approval_threshold"
             (high_value_approval_threshold self);
    medium ← _decimal_value policy "medium_value_approval_threshold"
               (medium_value_approval_threshold self);
    retries ← _int_value policy "max_retry_attempts" (max_retry_attempts self);
    percent ← _decimal_value policy "max_discount_percent" (max_discount_percent self);
    budget ← _decimal_value policy "max_daily_discount_budget" (max_daily_discount_budget self);
    comms ← _int_value policy "max_communications_per_day" (max_communications_per_day self);
    quiet_start ← _int_value policy "quiet_hours_start" (quiet_hours_start self);
    quiet_end ← _int_value policy "quiet_hours_end" (quiet_hours_end self);
    enabled ← _bool_value policy "automatic_recovery_enabled" (automatic_recovery_enabled self);
    ttl ← _int_value policy "approval_ttl_minutes" (approval_ttl_minutes self);
    mret (mk_RecoverySettings window grace high medium retries percent budget comms quiet_start
            quiet_end enabled ttl
            (py_str (py_or (dict_get "policy_version" policy) (JStr (policy_version self)))))
  end.

(** ** The action sets of [policy_types.py] *)

Definition AUTOMATIC_ACTIONS : list RecoveryActionType.t :=
  [RecoveryActionType.RETRY_NOW; RecoveryActionType.RETRY_LATER;
   RecoveryActionType.SEND_PAYMENT_LINK; RecoveryActionType.SEND_REMINDER;
   RecoveryActionType.OFFER_DISCOUNT].
Definition COMMUNICATION_ACTIONS : list RecoveryActionType.t :=
  [RecoveryActionType.SEND_REMINDER; RecoveryActionType.SEND_PAYMENT_LINK;
   RecoveryActionType.OFFER_DISCOUNT].
Definition RETRY_ACTIONS : list RecoveryActionType.t :=
  [RecoveryActionType.RETRY_NOW; RecoveryActionType.RETRY_LATER].
