(* ===== verification/Optimizer.v ===== *)
(** * Expected recovery value

    [recoverai_domain/optimizer/]: the assumptions of [config.py], the data of
    [types.py], the arithmetic of [erv.py], the ranking of [ranking.py] and the
    summaries of [metrics.py]. *)
From S2P Require Import Prelude PyStr Uuid Errors Decimal Sorting Json Datetime Enums Config.
Open Scope stdpp_scope.

(** ** [config.py] *)

Definition OPTIMIZER_VERSION : string := "erv-v1".

Definition RECOVERY_INTERVENTIONS : list RecoveryActionType.t :=
  [RecoveryActionType.RETRY_NOW; RecoveryActionType.RETRY_LATER;
   RecoveryActionType.SEND_PAYMENT_LINK; RecoveryActionType.SEND_REMINDER;
   RecoveryActionType.OFFER_DISCOUNT].
Definition CONTROL_STRATEGIES : list RecoveryActionType.t :=
  [RecoveryActionType.ESCALATE; RecoveryActionType.DO_NOTHING].

Definition FRICTION_RANK (a : RecoveryActionType.t) : Z :=
  match a with
  | RecoveryActionType.DO_NOTHING => 0
  | RecoveryActionType.RETRY_LATER => 1
  | RecoveryActionType.SEND_PAYMENT_LINK => 2
  | RecoveryActionType.SEND_REMINDER => 3
  | RecoveryActionType.RETRY_NOW => 4
  | RecoveryActionType.OFFER_DISCOUNT => 5
  | RecoveryActionType.ESCALATE => 6
  end.

Definition SIMPLICITY_RANK (a : RecoveryActionType.t) : Z :=
  match a with
  | RecoveryActionType.DO_NOTHING => 0
  | RecoveryActionType.SEND_REMINDER => 1
  | RecoveryActionType.RETRY_LATER => 2
  | RecoveryActionType.SEND_PAYMENT_LINK => 3
  | RecoveryActionType.RETRY_NOW => 4
  | RecoveryActionType.OFFER_DISCOUNT => 5
  | RecoveryActionType.ESCALATE => 6
  end.

Definition LEGAL_ACTIONS : list string := map value (members (A := RecoveryActionType.t)).

Record ActionCostAssumptions : Type := mk_ActionCostAssumptions {
  cost_intervention_cost : Decimal;
  cost_communication_cost : Decimal;
  cost_risk_penalty : Decimal;
}.

Record OptimizerSettings : Type := mk_OptimizerSettings {
  optimizer_version : string;
  prediction_ttl_minutes : Z;
  default_discount_percent : Decimal;
  tie_epsilon : Decimal;
  retry_now : ActionCostAssumptions;
  retry_later : ActionCostAssumptions;
  send_payment_link : ActionCostAssumptions;
  send_reminder : ActionCostAssumptions;
  offer_discount : ActionCostAssumptions;
  escalate : ActionCostAssumptions;
  do_nothing : ActionCostAssumptions;
}.

(** [Decimal("n.nn")] given in hundredths. *)
Definition cents (n : Z) : Decimal := mkDec n MONEY_EXP.
Definition costs (i c r : Z) : ActionCostAssumptions :=
  mk_ActionCostAssumptions (cents i) (cents c) (cents r).

Definition default_optimizer_settings : OptimizerSettings :=
  mk_OptimizerSettings OPTIMIZER_VERSION 60 (dec_of_Z 5) (cents 1) (costs 500 0 1500) (costs 200 0 400)
    (costs 300 150 800) (costs 50 150 1200) (costs 100 150 4000) (costs 25000 0 3000) (costs 0 0 0).

Section Environment.
Context (environ : list (string * string)).

(** Three variables and their defaults in hundredths. *)
Definition costs_env (intervention communication risk : string) (i c r : Z)
  : result exn ActionCostAssumptions :=
  i ← _decimal_env environ intervention (cents i);
  c ← _decimal_env environ communication (cents c);
  r ← _decimal_env environ risk (cents r);
  mret (mk_ActionCostAssumptions i c r).

Definition load_optimizer_settings : result exn OptimizerSettings :=
  let version := match env_get "OPTIMIZER_VERSION" environ with
                 | Some v => if nonempty v then v else OPTIMIZER_VERSION
                 | None => OPTIMIZER_VERSION
                 end in
  ttl ← _int_env environ "PREDICTION_TTL_MINUTES" 60;
  discount ← _decimal_env environ "DEFAULT_DISCOUNT_PERCENT" (dec_of_Z 5);
  epsilon ← _decimal_env environ "ERV_TIE_EPSILON" (cents 1);
  now ← costs_env "COST_RETRY_NOW" "COST_RETRY_NOW_COMMUNICATION" "RISK_PENALTY_RETRY_NOW"
          500 0 1500;
  later ← costs_env "COST_RETRY_LATER" "COST_RETRY_LATER_COMMUNICATION" "RISK_PENALTY_RETRY_LATER"
            200 0 400;
  link ← costs_env "COST_PAYMENT_LINK" "COST_PAYMENT_LINK_COMMUNICATION" "RISK_PENALTY_PAYMENT_LINK"
           300 150 800;
  reminder ← costs_env "COST_REMINDER" "COST_REMINDER_COMMUNICATION" "RISK_PENALTY_REMINDER"
               50 150 1200;
  offer ← costs_env "COST_DISCOUNT_INTERVENTION" "COST_DISCOUNT_COMMUNICATION" "RISK_PENALTY_DISCOUNT"
            100 150 4000;
  human ← costs_env "COST_HUMAN_ESCALATION" "COST_ESCALATE_COMMUNICATION" "RISK_PENALTY_ESCALATE"
            25000 0 3000;
  nothing ← costs_env "COST_DO_NOTHING" "COST_DO_NOTHING_COMMUNICATION" "RISK_PENALTY_DO_NOTHING"
              0 0 0;
  mret (mk_OptimizerSettings version ttl discount epsilon now later link reminder offer human nothing).
End Environment.

(** [settings.costs_for(action)] *)
Definition assumptions_of (settings : OptimizerSettings) (a : RecoveryActionType.t)
  : ActionCostAssumptions :=
  match a with
  | RecoveryActionType.RETRY_NOW => retry_now settings
  | RecoveryActionType.RETRY_LATER => retry_later settings
  | RecoveryActionType.SEND_PAYMENT_LINK => send_payment_link settings
  | RecoveryActionType.SEND_REMINDER => send_reminder settings
  | RecoveryActionType.OFFER_DISCOUNT => offer_discount settings
  | RecoveryActionType.ESCALATE => escalate settings
  | RecoveryActionType.DO_NOTHING => do_nothing settings
  end.

Definition costs_for (settings : OptimizerSettings) (action : string)
  : result exn ActionCostAssumptions :=
  match of_value action with
  | None => Raise (KeyError ("Unknown recovery action: " +:+ action))
  | Some a =>
      let assumptions := assumptions_of settings a in
      i ← as_money (cost_intervention_cost assumptions);
      c ← as_money (cost_communication_cost assumptions);
      r ← as_money (cost_risk_penalty assumptions);
      mret (mk_ActionCostAssumptions i c r)
  end.

(** ** [types.py] *)

Record ProbabilityQuote : Type := mk_ProbabilityQuote {
  quote_probability : Decimal;
  quote_model_version : string;
  quote_feature_version : string;
  quote_source : string;
  quote_predicted_at : option Z;
  quote_stale : bool;
  quote_refreshed : bool;
}.

Record CandidateAction : Type := mk_CandidateAction {
  cand_action : string;
  cand_probability : option Decimal;
  cand_amount_at_risk : Decimal;
  cand_expected_recovery : Decimal;
  cand_intervention_cost : Decimal;
  cand_discount_cost : Decimal;
  cand_communication_cost : Decimal;
  cand_risk_penalty : Decimal;
  cand_expected_value : Decimal;
  cand_allowed : bool;
  cand_requires_approval : bool;
  cand_policy_reason : string;
  cand_prediction_source : option string;
  cand_model_version : option string;
  cand_feature_version : option string;
  cand_prediction_timestamp : option Z;
  cand_stale_prediction : bool;
  cand_missing_probability : bool;
  cand_discount_percent : option Decimal;
  cand_policy_ids : list string;
  cand_risk_level : option string;
}.

(** [str(d)] of a decimal, [None] kept. *)
Definition opt_dec_str (d : option Decimal) : json :=
  match d with Some d => JStr (dec_str d) | None => JNull end.

Definition candidate_dict (c : CandidateAction) : dict := [
  ("action", JStr (cand_action c));
  ("probability", opt_dec_str (cand_probability c));
  ("amount_at_risk", JStr (dec_str (cand_amount_at_risk c)));
  ("expected_recovery", JStr (dec_str (cand_expected_recovery c)));
  ("intervention_cost", JStr (dec_str (cand_intervention_cost c)));
  ("discount_cost", JStr (dec_str (cand_discount_cost c)));
  ("communication_cost", JStr (dec_str (cand_communication_cost c)));
  ("risk_penalty", JStr (dec_str (cand_risk_penalty c)));
  ("expected_value", JStr (dec_str (cand_expected_value c)));
  ("allowed", JBool (cand_allowed c));
  ("requires_approval", JBool (cand_requires_approval c));
  ("policy_reason", JStr (cand_policy_reason c));
  ("prediction_source", opt_str (cand_prediction_source c));
  ("model_version", opt_str (cand_model_version c));
  ("feature_version", opt_str (cand_feature_version c));
  ("prediction_timestamp",
     match cand_prediction_timestamp c with Some t => JStr (isoformat (utc t)) | None => JNull end);
  ("stale_prediction", JBool (cand_stale_prediction c));
  ("missing_probability", JBool (cand_missing_probability c));
  ("discount_percent", opt_dec_str (cand_discount_percent c));
  ("policy_ids", JList (map JStr (cand_policy_ids c)));
  ("risk_level", opt_str (cand_risk_level c))].

Record OptimizationResult : Type := mk_OptimizationResult {
  opt_case_id : UUID;
  opt_model_version : string;
  opt_optimizer_version : string;
  opt_feature_version : option string;
  opt_candidate_actions : list CandidateAction;
  opt_selected_action : option string;
  opt_selected_expected_value : option Decimal;
  opt_selection_reason : string;
  opt_prediction_source : option string;
  opt_requires_approval : bool;
  opt_decision_id : option UUID;
}.

Definition optimization_dict (r : OptimizationResult) : dict := [
  ("case_id", JStr (uuid_str (opt_case_id r)));
  ("model_version", JStr (opt_model_version r));
  ("optimizer_version", JStr (opt_optimizer_version r));
  ("feature_version", opt_str (opt_feature_version r));
  ("candidate_actions", JList (map (fun c => JObj (candidate_dict c)) (opt_candidate_actions r)));
  ("selected_action", opt_str (opt_selected_action r));
  ("selected_expected_value", opt_dec_str (opt_selected_expected_value r));
  ("selection_reason", JStr (opt_selection_reason r));
  ("prediction_source", opt_str (opt_prediction_source r));
  ("requires_approval", JBool (opt_requires_approval r));
  ("decision_id", opt_uuid (opt_decision_id r))].

(** What the optimizer is told about a case; [ml_context] is the input of the
    predictor, which it only hands on. *)
Record OptimizerCaseInput : Type := mk_OptimizerCaseInput {
  input_case_id : UUID;
  input_merchant_id : UUID;
  input_amount_at_risk : Decimal;
  input_amount_recovered : Decimal;
  input_currency : string;
  input_suspicious : bool;
  input_source_mismatch : bool;
  input_discount_percent : option Decimal;
  input_ml_context : option dict;
}.

Record BatchOptimizationResult : Type := mk_BatchOptimizationResult {
  batch_optimizer_version : string;
  batch_results : list OptimizationResult;
}.
Definition case_count (b : BatchOptimizationResult) : Z := Z.of_nat (length (batch_results b)).

(** ** [erv.py] *)

(** A float is given by the decimal [Decimal(str(x))]. *)
Definition probability_to_decimal (probability : Decimal) : result exn Decimal :=
  if dec_ltb probability (dec_of_Z 0) || dec_ltb (dec_of_Z 1) probability
  then Raise (OptimizerError "INVALID_PROBABILITY"
                ("Probability " +:+ dec_str probability +:+ " is outside [0, 1]"))
  else Ok probability.

Definition discount_cost (amount_at_risk percent : Decimal) : result exn Decimal :=
  amount ← as_money amount_at_risk;
  if dec_ltb percent (dec_of_Z 0)
  then Raise (OptimizerError "INVALID_DISCOUNT" "Discount percent must be >= 0")
  else
    concession ← dec_div (dec_mul amount percent) (dec_of_Z 100);
    as_money concession.

Definition expected_recovered_revenue (probability amount_at_risk : Decimal) : result exn Decimal :=
  p ← probability_to_decimal probability;
  amount ← as_money amount_at_risk;
  as_money (dec_mul p amount).

(** [expected - as_money(a) - as_money(b) - ...], rounded to cents. *)
Definition net_of (expected intervention discount communication risk : Decimal)
  : result exn Decimal :=
  intervention ← as_money intervention;
  discount ← as_money discount;
  communication ← as_money communication;
  risk ← as_money risk;
  signed_money (dec_sub (dec_sub (dec_sub (dec_sub expected intervention) discount) communication) risk).

Definition expected_net_recovery (probability amount_at_risk intervention_cost discount_cost_value
  communication_cost risk_penalty : Decimal) : result exn Decimal :=
  expected ← expected_recovered_revenue probability amount_at_risk;
  net_of expected intervention_cost discount_cost_value communication_cost risk_penalty.

(** The intervention, discount, communication and risk costs. *)
Definition costs_for_action (action : string) (amount_at_risk : Decimal)
  (settings : OptimizerSettings) (discount_percent : option Decimal)
  : result exn (Decimal * Decimal * Decimal * Decimal) :=
  assumptions ← costs_for settings action;
  concession ← (if String.eqb action "OFFER_DISCOUNT"
                then discount_cost amount_at_risk
                       (default (default_discount_percent settings) discount_percent)
                else Ok ZERO);
  mret (cost_intervention_cost assumptions, concession, cost_communication_cost assumptions,
        cost_risk_penalty assumptions).

(** ** [ranking.py] *)

(** [FRICTION_RANK.get(action, 99)] *)
Definition rank_of (rank : RecoveryActionType.t -> Z) (action : string) : Z :=
  match of_value action with Some a => rank a | None => 99 end.

Definition total_direct_cost (c : CandidateAction) : Decimal :=
  dec_add (dec_add (cand_intervention_cost c) (cand_communication_cost c)) (cand_discount_cost c).

(** Comparison of [_tie_key]s, tuples of five. *)
Definition tie_cmp : CandidateAction -> CandidateAction -> comparison :=
  lex (on_key Z.compare (fun c => rank_of FRICTION_RANK (cand_action c)))
 (lex (on_key dec_cmp total_direct_cost)
 (lex (on_key dec_cmp cand_risk_penalty)
 (lex (on_key Z.compare (fun c => rank_of SIMPLICITY_RANK (cand_action c)))
      (on_key String.compare cand_action)))).

Definition action_among (l : list RecoveryActionType.t) (action : string) : bool :=
  mem_str action (map value l).

Definition eligible_candidate (c : CandidateAction) : bool :=
  cand_allowed c && negb (cand_missing_probability c) && match cand_probability c with Some _ => true | None => false end.
Definition eligible_candidates (candidates : list CandidateAction) : list CandidateAction :=
  List.filter eligible_candidate candidates.

(** By expected value, highest first; equal ones in their order. *)
Definition by_value_desc : list CandidateAction -> list CandidateAction :=
  sort_by (reversed (on_key dec_cmp cand_expected_value)).

Definition IndexError : exn := PyError "IndexError" "list index out of range".

Definition _max_with_ties (pool : list CandidateAction) (settings : OptimizerSettings)
  : result exn CandidateAction :=
  let ranked := by_value_desc pool in
  best ← ok_or IndexError (head ranked);
  epsilon ← signed_money (tie_epsilon settings);
  let tied := List.filter (fun item =>
    dec_leb (dec_sub (cand_expected_value best) (cand_expected_value item)) epsilon) ranked in
  ok_or IndexError (head (sort_by tie_cmp tied)).

(** [{item.action: item for item in eligible}.get(action)] *)
Definition last_with (action : string) (l : list CandidateAction) : option CandidateAction :=
  head (rev (List.filter (fun c => String.eqb (cand_action c) action) l)).

Definition _select_control (eligible : list CandidateAction) (suspicious : bool)
  : option CandidateAction * string :=
  let nothing := last_with "DO_NOTHING" eligible in
  let escalate := last_with "ESCALATE" eligible in
  match suspicious, nothing, escalate with
  | true, _, Some escalate =>
      (Some escalate, "Recovery interventions are uneconomic or unavailable; "
                      +:+ "ESCALATE selected because the case is high-risk")
  | _, Some nothing, _ =>
      (Some nothing, "Every permitted recovery intervention has negative expected value; "
                     +:+ "DO_NOTHING selected for economic discipline")
  | _, None, Some escalate =>
      (Some escalate, "Every permitted recovery intervention has negative expected value; "
                      +:+ "ESCALATE selected because DO_NOTHING is not permitted")
  | _, None, None =>
      match List.filter (fun c => action_among CONTROL_STRATEGIES (cand_action c)) eligible with
      | chosen :: _ => (Some chosen, "Fell back to control strategy " +:+ cand_action chosen)
      | [] => (None, "No permitted recovery or control strategy remains")
      end
  end.

(** The recovery interventions among the candidates, and those worth their cost. *)
Definition recovery_candidates (eligible : list CandidateAction) : list CandidateAction :=
  List.filter (fun c => action_among RECOVERY_INTERVENTIONS (cand_action c)) eligible.
Definition non_negative (c : CandidateAction) : bool := dec_leb ZERO (cand_expected_value c).

Definition winner_reason (winner : CandidateAction) : string :=
  "Selected " +:+ cand_action winner +:+ " with maximum expected recovery value "
  +:+ dec_str (cand_expected_value winner) +:+ " among policy-permitted recovery interventions"
  +:+ (if cand_requires_approval winner then "; execution still requires human approval" else "").

Definition select_action (candidates : list CandidateAction) (settings : OptimizerSettings)
  (suspicious source_mismatch : bool) : result exn (option CandidateAction * string) :=
  match eligible_candidates candidates with
  | [] => mret (None, "No policy-permitted candidate with a valid probability remains")
  | eligible =>
      match List.filter non_negative (recovery_candidates eligible) with
      | [] => mret (_select_control eligible (suspicious || source_mismatch))
      | pool =>
          winner ← _max_with_ties pool settings;
          mret (Some winner, winner_reason winner)
      end
  end.

(** ** [metrics.py] *)

Definition expected_recovered_revenue_for (c : CandidateAction) : result exn Decimal :=
  match cand_probability c with
  | None => Ok ZERO
  | Some p => expected_recovered_revenue p (cand_amount_at_risk c)
  end.

Definition expected_net_recovery_for (c : CandidateAction) : result exn Decimal :=
  match cand_probability c with
  | None => net_of ZERO (cand_intervention_cost c) (cand_discount_cost c) (cand_communication_cost c)
              (cand_risk_penalty c)
  | Some p => expected_net_recovery p (cand_amount_at_risk c) (cand_intervention_cost c)
                (cand_discount_cost c) (cand_communication_cost c) (cand_risk_penalty c)
  end.

Definition discount_spend (c : CandidateAction) : result exn Decimal := as_money (cand_discount_cost c).

Definition intervention_cost_total (c : CandidateAction) : result exn Decimal :=
  as_money (dec_add (cand_intervention_cost c) (cand_communication_cost c)).

(** [next(item for item in candidates if item.action == selected)] *)
Definition selected_candidate (r : OptimizationResult) : option CandidateAction :=
  List.find (fun c => match opt_selected_action r with
                      | Some a => String.eqb (cand_action c) a
                      | None => false
                      end) (opt_candidate_actions r).

Definition expected_recovery_rate (r : OptimizationResult) : option Decimal :=
  c ← selected_candidate r; cand_probability c.
