(* ===== verification/PolicyContext.v ===== *)
(** * What the policy engine is told about a case

    [recoverai_domain/policy_context.py] and the data types of
    [policy_types.py]: the facts about a case, its merchant and its customer,
    gathered by queries on the store. *)
From S2P Require Import Prelude PyStr Uuid Errors Decimal Json Datetime Enums Rows Store Repositories Config.
Open Scope stdpp_scope.

Record ProposedAction : Type := mk_ProposedAction {
  proposed_action_type : string;
  proposed_discount_percent : option Decimal;
  proposed_discount_amount : option Decimal;
  proposed_channel : option string;
  proposed_scheduled_for : option Z;
  proposed_metadata : dict;
}.

(** [ProposedAction(action_type=a)] *)
Definition propose (a : string) : ProposedAction := mk_ProposedAction a None None None None [].

Record PolicyEvaluationResult : Type := mk_PolicyEvaluationResult {
  result_allowed : bool;
  result_requires_approval : bool;
  result_risk_level : RiskLevel;
  result_reason : string;
  result_policy_ids : list string;
  result_policy_version : string;
}.

(** [ctx_case_id] and [ctx_case] are the case object: its key and its row. *)
Record PolicyContext : Type := mk_PolicyContext {
  ctx_case_id : UUID;
  ctx_case : RecoveryCase;
  ctx_merchant : Merchant;
  ctx_customer : option UUID;
  ctx_payment : option UUID;
  ctx_settings : RecoverySettings;
  ctx_now : Z;
  ctx_retry_count : Z;
  ctx_communications_last_24h : Z;
  ctx_discount_spent_today : Decimal;
  ctx_blocked_action_types : list string;
  ctx_customer_opted_out : bool;
  ctx_suspicious : bool;
  ctx_source_mismatch : bool;
  ctx_discount_eligible : bool;
  ctx_merchant_id : UUID;
}.

Definition _policy_dict (settings : option dict) : dict := _policy_section settings.

Definition _blocked_actions (policy : dict) : list string :=
  match py_or (dict_get "blocked_action_types" policy) (JList []) with
  | JList items => map py_str items
  | _ => []
  end.

Definition _truthy (v : json) : bool :=
  match v with JBool b => b | JNull => false | _ => is_true_text (py_str v) end.

Definition MISMATCHES : list string :=
  ["MERCHANT_MISMATCH"; "CUSTOMER_MISMATCH"; "ORDER_MISMATCH"; "PAYMENT_MISMATCH"].

Definition has_mismatch (c : RecoveryCase) : bool :=
  match case_last_mismatch_reason c with Some r => mem_str r MISMATCHES | None => false end.

Definition _is_suspicious (c : RecoveryCase) (customer_meta : dict) : bool :=
  if _truthy (dict_get "suspicious" customer_meta) then true else has_mismatch c.
Definition _is_source_mismatch (c : RecoveryCase) (customer_meta : dict) : bool :=
  if _truthy (dict_get "source_mismatch" customer_meta) then true else has_mismatch c.

Definition counted_retry_statuses : list RecoveryActionStatus.t :=
  [RecoveryActionStatus.PENDING; RecoveryActionStatus.PLANNED;
   RecoveryActionStatus.APPROVAL_REQUIRED; RecoveryActionStatus.APPROVED;
   RecoveryActionStatus.EXECUTING; RecoveryActionStatus.SUCCEEDED;
   RecoveryActionStatus.COMPLETED].

Definition _retry_count (case_id : UUID) (w : World) : Z :=
  Z.of_nat (length (rows_where (fun _ a =>
    same (action_recovery_case_id a) case_id
    && mem_str (action_action_type a) ["RETRY_NOW"; "RETRY_LATER"]
    && bool_decide (action_status a ∈ counted_retry_statuses)) (w_actions w))).

Definition _communications_last_24h (merchant_id customer_id : UUID) (now : Z) (w : World) : Z :=
  let since := (now - hours 24)%Z in
  Z.of_nat (length (List.filter (fun n =>
    same (notification_merchant_id n) merchant_id
    && same (notification_customer_id n) customer_id
    && (since <=? notification_created_at n)%Z
    && negb (same (notification_status n) NotificationStatus.CANCELLED)) (w_notifications w))).

Definition counted_discount_statuses : list RecoveryActionStatus.t :=
  [RecoveryActionStatus.SUCCEEDED; RecoveryActionStatus.COMPLETED;
   RecoveryActionStatus.EXECUTING; RecoveryActionStatus.PENDING;
   RecoveryActionStatus.APPROVED; RecoveryActionStatus.APPROVAL_REQUIRED].

(** [sum] over a NUMERIC column: exact, at the smallest exponent. *)
Definition exact_add (x y : Decimal) : Decimal :=
  let e := Z.min (d_exp x) (d_exp y) in mkDec (coeff_at e x + coeff_at e y) e.
Definition sql_sum (l : list Decimal) : Decimal := foldr exact_add (dec_of_Z 0) l.

(** The amounts of the merchant's discount actions created since the start of
    the day [now] falls in. *)
Definition discount_amounts (merchant_id : UUID) (now : Z) (w : World) : list Decimal :=
  omap (fun kv => action_amount kv.2) (rows_where (fun _ a =>
    same (action_merchant_id a) merchant_id
    && String.eqb (action_action_type a) "OFFER_DISCOUNT"
    && bool_decide (action_status a ∈ counted_discount_statuses)
    && (start_of_day now <=? action_created_at a)%Z) (w_actions w)).

Definition _discount_spent_today (merchant_id : UUID) (now : Z) (w : World) : Decimal :=
  sql_sum (discount_amounts merchant_id now w).

(** [build_policy_context(session, case, settings=base, now=now)] *)
Definition build_policy_context (case_id : UUID) (base : RecoverySettings) (now : option Z)
  : Op PolicyContext :=
  resolved_now ← match now with Some n => mret n | None => utcnow end;
  c ← get_row w_cases case_id;
  w ← get;
  match MerchantRepository.get_merchant (case_merchant_id c) w with
  | None => mthrow (ValueError ("Merchant " +:+ uuid_str (case_merchant_id c) +:+ " was not found"))
  | Some merchant =>
      merged ← lift (merge_merchant base (merchant_settings merchant));
      let customer := CustomerRepository.get_customer (case_merchant_id c) (case_customer_id c) w in
      let payment := match case_payment_id c with
                     | Some p => PaymentRepository.get_payment (case_merchant_id c) p w
                     | None => None
                     end in
      let customer_meta := default [] (k ← customer; r ← w_customers w !! k;
                                       customer_metadata_json r) in
      let merchant_policy := _policy_dict (merchant_settings merchant) in
      mret (mk_PolicyContext case_id c merchant customer payment merged resolved_now
        (_retry_count case_id w)
        (_communications_last_24h (case_merchant_id c) (case_customer_id c) resolved_now w)
        (_discount_spent_today (case_merchant_id c) resolved_now w)
        (_blocked_actions merchant_policy)
        (_truthy (dict_get "communication_opt_out" customer_meta))
        (_is_suspicious c customer_meta)
        (_is_source_mismatch c customer_meta)
        (negb (_truthy (dict_get "discount_ineligible" customer_meta)))
        (case_merchant_id c))
  end.
