(* ===== verification/PolicyEngine.v ===== *)
(** * The policy engine

    [recoverai_domain/policy_engine.py]: the rules as lists of hits, their
    combination into a verdict, and the persisted evaluation. *)
From S2P Require Import Prelude PyStr Uuid Errors Decimal Json Datetime Enums Rows Store Repositories Config PolicyContext.
Open Scope stdpp_scope.
Open Scope Z_scope.

Record RuleHit : Type := mk_RuleHit {
  hit_policy_id : string;
  hit_allowed : option bool;
  hit_requires_approval : option bool;
  hit_risk_level : option RiskLevel;
  hit_reason : string;
}.

Definition _RISK_RANK (r : RiskLevel) : Z := match r with GREEN => 0 | YELLOW => 1 | RED => 2 end.

(** A hit that denies the action. *)
Definition deny (policy_id : string) (risk : RiskLevel) (reason : string) : RuleHit :=
  mk_RuleHit policy_id (Some false) None (Some risk) reason.
Definition permit (policy_id : string) (approval : bool) (risk : RiskLevel) (reason : string)
  : RuleHit :=
  mk_RuleHit policy_id (Some true) (Some approval) (Some risk) reason.

(** [if c: hits.append(h)] *)
Definition hit_if (c : bool) (h : RuleHit) : list RuleHit := if c then [h] else [].

Definition _parse_action (action : string) : option RecoveryActionType.t := of_value action.

Definition is_action (a b : RecoveryActionType.t) : bool := bool_decide (a = b).
Definition action_in (a : RecoveryActionType.t) (l : list RecoveryActionType.t) : bool :=
  bool_decide (a ∈ l).

Definition _value_risk (context : PolicyContext) (action : RecoveryActionType.t)
  : result exn RuleHit :=
  amount ← as_money (case_amount_at_risk (ctx_case context));
  let settings := ctx_settings context in
  mret
    (if action_in action [RecoveryActionType.ESCALATE; RecoveryActionType.DO_NOTHING]
     then permit "value_threshold" false GREEN
            "Human-path action does not require automatic recovery"
     else if dec_ltb (high_value_approval_threshold settings) amount
     then permit "high_value_approval_threshold" true RED
            "High-value action requires human approval"
     else if dec_ltb (medium_value_approval_threshold settings) amount
     then permit "medium_value_approval_threshold" true YELLOW
            "Medium-value action requires human approval"
     else permit "value_threshold" false GREEN
            "Low-value action may execute automatically when other rules allow").

(** [proposed.discount_amount], or [percent] of the amount at risk *)
Definition discount_amount_of (context : PolicyContext) (proposed : ProposedAction)
  (percent : Decimal) : result exn Decimal :=
  match proposed_discount_amount proposed with
  | Some a => Ok a
  | None => m ← as_money (case_amount_at_risk (ctx_case context));
            dec_div (dec_mul m percent) (dec_of_Z 100)
  end.

Definition _discount_rules (context : PolicyContext) (proposed : ProposedAction)
  (settings : RecoverySettings) : result exn (list RuleHit) :=
  match proposed_discount_percent proposed with
  | None => Ok [deny "max_discount_percent" RED "Discount percentage is required"]
  | Some percent =>
      amount ← discount_amount_of context proposed percent;
      let projected := dec_add (ctx_discount_spent_today context) amount in
      mret (hit_if (dec_ltb (max_discount_percent settings) percent)
              (deny "max_discount_percent" RED "Discount exceeds the maximum allowed percentage")
            ++ hit_if (negb (ctx_discount_eligible context))
              (deny "discount_eligibility" RED "Customer is not eligible for a discount")
            ++ hit_if (dec_ltb (max_daily_discount_budget settings) projected)
              (deny "daily_discount_budget" RED "Daily discount budget would be exceeded")
            ++ hit_if (dec_ltb (dec_of_Z 0) percent)
              (mk_RuleHit "discount_recorded" None None (Some YELLOW)
                 "Discount is bounded by percentage and daily budget"))
  end.

Definition _in_quiet_hours (context : PolicyContext) (settings : RecoverySettings) : bool :=
  let hour := hour_of (ctx_now context) in
  let start_h := quiet_hours_start settings in
  let end_h := quiet_hours_end settings in
  if start_h =? end_h then false
  else if start_h <? end_h then (start_h <=? hour) && (hour <? end_h)
  else (start_h <=? hour) || (hour <? end_h).

Definition _communication_rules (context : PolicyContext) (action : RecoveryActionType.t)
  (settings : RecoverySettings) : list RuleHit :=
  hit_if (ctx_customer_opted_out context)
    (deny "customer_communication_opt_out" RED
       "Customer has opted out of recovery communications")
  ++ hit_if (max_communications_per_day settings <=? ctx_communications_last_24h context)
    (deny "communication_frequency" YELLOW "Communication frequency limit has been reached")
  ++ hit_if (is_action action RecoveryActionType.SEND_REMINDER && _in_quiet_hours context settings)
    (deny "quiet_hours" YELLOW "Quiet hours currently prohibit outbound reminders").

Definition _restriction_rules (context : PolicyContext) (action : RecoveryActionType.t)
  (proposed : ProposedAction) (settings : RecoverySettings) : result exn (list RuleHit) :=
  let automatic := action_in action AUTOMATIC_ACTIONS in
  discount ← (if is_action action RecoveryActionType.OFFER_DISCOUNT
              then _discount_rules context proposed settings else Ok []);
  mret (hit_if (mem_str (value action) (ctx_blocked_action_types context))
          (deny "blocked_action_types" RED
             ("Action " +:+ value action +:+ " is blocked by merchant policy"))
        ++ hit_if (negb (automatic_recovery_enabled settings) && automatic)
          (deny "automatic_recovery_kill_switch" RED
             "Automatic recovery is disabled by the merchant kill switch")
        ++ hit_if ((ctx_suspicious context || ctx_source_mismatch context) && automatic)
          (deny "suspicious_source_mismatch" RED
             "Suspicious or source-mismatch cases cannot run automatic recovery")
        ++ hit_if (action_in action RETRY_ACTIONS
                   && (max_retry_attempts settings <=? ctx_retry_count context))
          (deny "max_retry_attempts" RED "Retry attempt limit has been reached")
        ++ discount
        ++ (if action_in action COMMUNICATION_ACTIONS
            then _communication_rules context action settings else [])).

(** ** Combining the hits: the loop of [evaluate_action] *)

Record Verdict : Type := mk_Verdict {
  v_allowed : bool;
  v_requires_approval : bool;
  v_risk : RiskLevel;
  v_reasons : list string;
  v_policy_ids : list string;
}.

Definition add_hit (v : Verdict) (hit : RuleHit) : Verdict :=
  mk_Verdict
    (match hit_allowed hit with Some false => false | _ => v_allowed v end)
    (match hit_requires_approval hit with Some true => true | _ => v_requires_approval v end)
    (match hit_risk_level hit with
     | Some r => if _RISK_RANK (v_risk v) <? _RISK_RANK r then r else v_risk v
     | None => v_risk v
     end)
    (if nonempty (hit_reason hit) then v_reasons v ++ [hit_reason hit] else v_reasons v)
    (v_policy_ids v ++ [hit_policy_id hit]).

Definition combine (hits : list RuleHit) : Verdict :=
  fold_left add_hit hits (mk_Verdict true false GREEN [] []).

Definition result_version (settings : RecoverySettings) : string :=
  if nonempty (policy_version settings) then policy_version settings else POLICY_VERSION.

Definition verdict_result (settings : RecoverySettings) (v : Verdict) : PolicyEvaluationResult :=
  let requires_approval := if negb (v_allowed v) then false else v_requires_approval v in
  let reasons := match v_reasons v with
                 | [] => ["Default safe policy allowed the proposed action"]
                 | l => l
                 end in
  mk_PolicyEvaluationResult (v_allowed v) (requires_approval && v_allowed v) (v_risk v)
    (join "; " reasons) (v_policy_ids v) (result_version settings).

Definition rule_hits (context : PolicyContext) (action : RecoveryActionType.t)
  (proposed : ProposedAction) : result exn (list RuleHit) :=
  v ← _value_risk context action;
  r ← _restriction_rules context action proposed (ctx_settings context);
  mret (v :: r).

Definition evaluate_action (context : PolicyContext) (proposed : ProposedAction)
  : result exn PolicyEvaluationResult :=
  let settings := ctx_settings context in
  match _parse_action (proposed_action_type proposed) with
  | None => Ok (mk_PolicyEvaluationResult false false RED
                  "Unknown action is rejected before execution" ["closed_action_enum"]
                  (result_version settings))
  | Some parsed =>
      hits ← rule_hits context parsed proposed;
      mret (verdict_result settings (combine hits))
  end.

(** ** Persistence *)

Definition opt_dec (d : option Decimal) : json :=
  match d with Some d => JStr (dec_str d) | None => JNull end.

Definition persist_policy_evaluation (context : PolicyContext) (proposed : ProposedAction)
  (r : PolicyEvaluationResult) (recovery_action_id : option UUID) (correlation_id : option string)
  (actor_type : string) (actor_id : option string) : Op UUID :=
  now ← utcnow;
  let c := ctx_case context in
  row_id ← insert_evaluation (mk_PolicyEvaluation (case_merchant_id c) (Some (ctx_case_id context))
    recovery_action_id (result_policy_version r) (proposed_action_type proposed)
    (result_risk_level r) (result_allowed r) (result_requires_approval r) (Some (result_reason r))
    (Some (result_policy_ids r)) now
    (Some [("correlation_id", opt_str correlation_id);
           ("amount_at_risk", JStr (dec_str (case_amount_at_risk c)));
           ("discount_percent", opt_dec (proposed_discount_percent proposed))]));
  flush;;
  record_audit (case_merchant_id c) "POLICY_EVALUATED"
    ("Policy evaluated " +:+ proposed_action_type proposed +:+ ": " +:+ result_reason r)
    (mk_AuditArgs (Some (ctx_case_id context)) actor_type actor_id
       (Some (proposed_action_type proposed)) None None correlation_id None
       (Some [("case_id", JStr (uuid_str (ctx_case_id context)));
              ("merchant_id", JStr (uuid_str (case_merchant_id c)));
              ("policy_version", JStr (result_policy_version r));
              ("allowed", JBool (result_allowed r));
              ("requires_approval", JBool (result_requires_approval r));
              ("risk_level", JStr (value (result_risk_level r)));
              ("policy_ids", JList (map JStr (result_policy_ids r)));
              ("policy_evaluation_id", JStr (uuid_str row_id))]));;
  mret row_id.

Definition evaluate_and_persist (context : PolicyContext) (proposed : ProposedAction)
  (recovery_action_id : option UUID) (correlation_id : option string) (actor_type : string)
  (actor_id : option string) : Op PolicyEvaluationResult :=
  r ← lift (evaluate_action context proposed);
  persist_policy_evaluation context proposed r recovery_action_id correlation_id actor_type
    actor_id;;
  mret r.
