(* ===== verification/OptimizerService.v ===== *)
(** * The recovery optimizer

    [recoverai_domain/optimizer/probabilities.py], [service.py], [persist.py] and
    [batch.py], with the stored predictions of [recoverai_eval/inference/persist.py]:
    every legal action of a case is scored, ranked, and the decision recorded. *)
From S2P Require Import Prelude PyStr Uuid Errors Decimal Sorting PyFloat Json Datetime Enums Rows Store Repositories StateMachine Transitions Config Optimizer PolicyContext PolicyEngine.
Open Scope stdpp_scope.

(** ** Stored predictions *)

Definition FEATURE_VERSION : string := "features-v1".
Definition FALLBACK_VERSION : string := "MODEL_FALLBACK".

Module ModelPredictionRepository.
Definition get_by_fingerprint (fingerprint : string) (w : World) : option UUID :=
  scalar_where (fun _ p => same (prediction_fingerprint p) fingerprint) (w_predictions w).

(** Newest first by [updated_at], then by [created_at]. *)
Definition newest_first : UUID * ModelPrediction -> UUID * ModelPrediction -> comparison :=
  lex (reversed (on_key Z.compare (fun kv => prediction_updated_at kv.2)))
      (reversed (on_key Z.compare (fun kv => prediction_created_at kv.2))).

Definition get_latest_for_action (recovery_case_id : UUID) (action : string) (w : World)
  : option ModelPrediction :=
  snd <$> head (sort_by newest_first
    (rows_where (fun _ p => same (prediction_recovery_case_id p) recovery_case_id
                            && same (prediction_action p) action) (w_predictions w))).

Definition upsert (row : Z -> ModelPrediction) : Op unit :=
  w ← get;
  now ← utcnow;
  let new := row now in
  match get_by_fingerprint (prediction_fingerprint new) w with
  | Some id =>
      modify (fun w => set_w_predictions (alter (fun p =>
        set_prediction_updated_at now
          (set_prediction_diagnostics (prediction_diagnostics new)
            (set_prediction_source (prediction_source new)
              (set_prediction_probability (prediction_probability new) p))))
        id (w_predictions w)) w)
  | None =>
      id ← uuid4;
      modify (fun w => set_w_predictions (<[id := new]> (w_predictions w)) w)
  end.
End ModelPredictionRepository.

(** The digest [persist.py] keys a prediction by. *)
Definition prediction_key (merchant_id recovery_case_id action model_version feature_version : string)
  : string :=
  hex_of_bytes (sha256 (bytes_of_string
    (join "|" [merchant_id; recovery_case_id; action; model_version; feature_version]))).

Definition persist_prediction (merchant_id recovery_case_id : UUID) (action : string)
  (probability : Decimal) (model_version feature_version source : string) (diagnostics : option dict)
  : Op string :=
  if dec_ltb probability (dec_of_Z 0) || dec_ltb (dec_of_Z 1) probability
  then mthrow (ValueError "probability must be in [0, 1]")
  else
    let fingerprint := prediction_key (uuid_str merchant_id) (uuid_str recovery_case_id) action
                         model_version feature_version in
    ModelPredictionRepository.upsert (fun now =>
      mk_ModelPrediction merchant_id recovery_case_id action (round6 probability) model_version
        feature_version fingerprint source diagnostics now now);;
    mret fingerprint.

(** ** [probabilities.py] *)

(** What the predictor answers; [InferenceError] is not a [DomainError]. *)
Record RecoveryProbability : Type := mk_RecoveryProbability {
  rp_probability : Decimal;
  rp_model_version : string;
  rp_feature_version : string;
  rp_source : string;
  rp_diagnostics : dict;
}.
Inductive predictor_error : Type :=
  | InferenceError (code message : string)
  | OtherError (e : exn).

Definition map_prediction_source (raw : string) : string :=
  if mem_str raw ["ml"; "MODEL"] then "MODEL"
  else if mem_str raw ["MODEL_FALLBACK"; FALLBACK_VERSION] then "MODEL_FALLBACK"
  else if String.eqb raw "OVERRIDE" then "OVERRIDE"
  else raw.

Section Optimizer.
(** The predictor the optimizer is constructed with: the trained model, or the rules
    that stand in for it. *)
Context (predictor : dict -> string -> result predictor_error RecoveryProbability).
(** [self._settings] *)
Context (settings : OptimizerSettings).

Definition _load_cached (session : bool) (recovery_case_id : UUID) (action : string) (now ttl : Z)
  (w : World) : result exn (option ProbabilityQuote) :=
  if negb session then mret None
  else
    match ModelPredictionRepository.get_latest_for_action recovery_case_id action w with
    | None => mret None
    | Some row =>
        let predicted_at := prediction_updated_at row in
        let stale := (ttl <? now - predicted_at)%Z in
        p ← probability_to_decimal (prediction_probability row);
        mret (Some (mk_ProbabilityQuote p (prediction_model_version row) (prediction_feature_version row)
                      (map_prediction_source (prediction_source row)) (Some predicted_at) stale false))
    end.

Definition _predict (ml_context : option dict) (action : string) (now : Z) (refreshed : bool)
  : result exn ProbabilityQuote :=
  match ml_context with
  | None => Raise (OptimizerError "MISSING_CASE_CONTEXT"
                     "A case context is required to score recovery probability")
  | Some ml_context =>
      match predictor ml_context action with
      | Raise (InferenceError code message) => Raise (OptimizerError code message)
      | Raise (OtherError e) => Raise e
      | Ok scored =>
          p ← probability_to_decimal (rp_probability scored);
          let source := map_prediction_source (rp_source scored) in
          let source :=
            if mem_str source ["MODEL"; "MODEL_FALLBACK"; "OVERRIDE"] then source
            else if String.eqb (rp_source scored) "ml" then "MODEL" else rp_source scored in
          mret (mk_ProbabilityQuote p (rp_model_version scored) (rp_feature_version scored) source
                  (Some now) false refreshed)
      end
  end.

(** [overrides.get(action)] of a mapping given by its items *)
Fixpoint override_for (action : string) (overrides : list (string * Decimal)) : option Decimal :=
  match overrides with
  | [] => None
  | (a, p) :: rest => if String.eqb action a then Some p else override_for action rest
  end.

Definition quote_is_stale (q : option ProbabilityQuote) : bool :=
  match q with Some q => quote_stale q | None => false end.

Definition resolve_probability (action : string) (ml_context : option dict)
  (overrides : option (list (string * Decimal))) (now : Z) (session : bool)
  (merchant_id recovery_case_id : UUID) : Op (option ProbabilityQuote) :=
  match overrides with
  | Some overrides =>
      match override_for action overrides with
      | Some p =>
          p ← lift (probability_to_decimal p);
          mret (Some (mk_ProbabilityQuote p "override" FEATURE_VERSION "OVERRIDE" (Some now) false false))
      | None => mret None
      end
  | None =>
      w ← get;
      cached ← lift (_load_cached session recovery_case_id action now
                       (minutes (prediction_ttl_minutes settings)) w);
      match cached with
      | Some ((mk_ProbabilityQuote _ _ _ _ _ false _) as quote) => mret (Some quote)
      | _ =>
          quote ← lift (_predict ml_context action now (quote_is_stale cached));
          when session
            (persist_prediction merchant_id recovery_case_id action (quote_probability quote)
               (quote_model_version quote) (quote_feature_version quote)
               (if String.eqb (quote_source quote) "MODEL" then "ml" else quote_source quote)
               (Some [("optimizer_version", JStr (optimizer_version settings))]);;
             mret tt);;
          mret (Some quote)
      end
  end.

(** ** [persist.py] *)

Definition _policy_verdict (r : OptimizationResult) : string :=
  match opt_selected_action r with
  | None => "NONE"
  | Some _ =>
      match selected_candidate r with
      | None => "NONE"
      | Some selected =>
          if negb (cand_allowed selected) then "DENY"
          else if cand_requires_approval selected then "APPROVAL_REQUIRED"
          else "ALLOW"
      end
  end.

Definition _decision_factors (r : OptimizationResult) (now : Z) : dict := [
  ("optimizer_version", JStr (opt_optimizer_version r));
  ("feature_version", opt_str (opt_feature_version r));
  ("prediction_source", opt_str (opt_prediction_source r));
  ("requires_approval", JBool (opt_requires_approval r));
  ("recorded_at", JStr (isoformat (utc now)));
  ("expected_vs_actual", JObj [
     ("expected_recovery_is_probabilistic", JBool true);
     ("actual_recovery_owned_by", JStr "RecoveryVerificationService")])].

(** A name that is empty is replaced. *)
Definition selected_or_none (o : option string) : string :=
  match o with Some s => if nonempty s then s else "NONE" | None => "NONE" end.

Definition decision_row (r : OptimizationResult) (merchant_id : UUID) (now : Z) : RecoveryDecision :=
  mk_RecoveryDecision merchant_id (opt_case_id r) None (Some (opt_model_version r)) None
    (opt_optimizer_version r) (selected_or_none (opt_selected_action r)) None
    [("optimizer_version", JStr (opt_optimizer_version r));
     ("actions", JList (map (fun c => JObj (candidate_dict c)) (opt_candidate_actions r)))]
    (dict_update [] (map (fun c => (cand_action c, JStr (dec_str (cand_expected_value c))))
                       (opt_candidate_actions r)))
    (opt_selected_expected_value r) (Some (_policy_verdict r)) (Some (opt_selection_reason r))
    (Some (_decision_factors r now)).

(** The new row and its key. *)
Definition persist_optimization_decision (r : OptimizationResult) (merchant_id : UUID)
  (correlation_id : option string) : Op UUID :=
  now ← utcnow;
  row_id ← uuid4;
  add_decision (decision_row r merchant_id now);;
  flush;;
  record_audit merchant_id "ERV_OPTIMIZATION_RECORDED" (opt_selection_reason r)
    (mk_AuditArgs (Some (opt_case_id r)) (value ActorType.SYSTEM) None (opt_selected_action r) None None
       correlation_id None
       (Some [("decision_id", JStr (uuid_str row_id));
              ("optimizer_version", JStr (opt_optimizer_version r));
              ("model_version", JStr (opt_model_version r));
              ("selected_expected_value", opt_dec_str (opt_selected_expected_value r));
              ("prediction_source", opt_str (opt_prediction_source r))]));;
  mret row_id.

(** ** [service.py] *)

Fixpoint normalize_from (seen : list string) (candidates : list string) : result exn (list string) :=
  match candidates with
  | [] => mret []
  | action :: rest =>
      if mem_str action seen then normalize_from seen rest
      else if negb (mem_str action LEGAL_ACTIONS)
      then Raise (OptimizerError "INVALID_ACTION" ("Unknown recovery action: " +:+ action))
      else rest ← normalize_from (action :: seen) rest; mret (action :: rest)
  end.
Definition _normalize_candidates (candidates : option (list string)) : result exn (list string) :=
  match candidates with None => mret LEGAL_ACTIONS | Some l => normalize_from [] l end.

(** A percentage or an amount is proposed with a discount only. *)
Definition for_discount {A} (action : string) (v : A) : option A :=
  if String.eqb action "OFFER_DISCOUNT" then Some v else None.

Fixpoint policy_result_for (action : string) (results : list (string * PolicyEvaluationResult))
  : option PolicyEvaluationResult :=
  match results with
  | [] => None
  | (a, r) :: rest => if String.eqb action a then Some r else policy_result_for action rest
  end.

Definition unconstrained : PolicyEvaluationResult :=
  mk_PolicyEvaluationResult true false GREEN
    "No PolicyContext provided; caller injected an unconstrained ranking"
    ["optimizer_unconstrained"] POLICY_VERSION.

Definition _evaluate_policy (action : string) (policy_context : option PolicyContext)
  (policy_results : option (list (string * PolicyEvaluationResult)))
  (discount_percent discount_amount : Decimal) (session : bool) (correlation_id : option string)
  : Op PolicyEvaluationResult :=
  match results ← policy_results; policy_result_for action results with
  | Some r => mret r
  | None =>
      match policy_context with
      | None => mret unconstrained
      | Some context =>
          let proposed := mk_ProposedAction action (for_discount action discount_percent)
                            (for_discount action discount_amount) None None [] in
          if session
          then evaluate_and_persist context proposed None correlation_id (value ActorType.SYSTEM) None
          else lift (evaluate_action context proposed)
      end
  end.

Definition _candidate_from_quote (action : string) (amount : Decimal) (quote : option ProbabilityQuote)
  (intervention_cost discount_cost communication_cost risk_penalty : Decimal)
  (policy : PolicyEvaluationResult) (discount_percent : option Decimal) : result exn CandidateAction :=
  match quote with
  | None =>
      mret (mk_CandidateAction action None amount ZERO intervention_cost discount_cost
              communication_cost risk_penalty ZERO false false
              "Missing candidate probability; excluded from ranking" None None None None false true
              discount_percent (result_policy_ids policy) (Some (value (result_risk_level policy))))
  | Some quote =>
      expected_recovery ← expected_recovered_revenue (quote_probability quote) amount;
      expected_value ← expected_net_recovery (quote_probability quote) amount intervention_cost
                         discount_cost communication_cost risk_penalty;
      mret (mk_CandidateAction action (Some (quote_probability quote)) amount expected_recovery
              intervention_cost discount_cost communication_cost risk_penalty expected_value
              (result_allowed policy) (result_requires_approval policy && result_allowed policy)
              (result_reason policy) (Some (quote_source quote)) (Some (quote_model_version quote))
              (Some (quote_feature_version quote)) (quote_predicted_at quote) (quote_stale quote) false
              discount_percent (result_policy_ids policy) (Some (value (result_risk_level policy))))
  end.

Definition text_or (o : option string) (default : string) : string :=
  match o with Some s => if nonempty s then s else default | None => default end.

Definition _result_versions (candidates : list CandidateAction) (selected : option CandidateAction)
  : string * option string * option string :=
  let focus :=
    match selected with
    | Some c => Some c
    | None => head (List.filter (fun c => nonempty (text_or (cand_model_version c) "")) candidates)
    end in
  match focus with
  | None => ("unknown", None, None)
  | Some c => (text_or (cand_model_version c) "unknown", cand_feature_version c, cand_prediction_source c)
  end.

(** The keyword arguments of [optimize]; [o_session] says whether a session is given. *)
Record OptimizeArgs : Type := mk_OptimizeArgs {
  o_candidates : option (list string);
  o_policy_context : option PolicyContext;
  o_policy_results : option (list (string * PolicyEvaluationResult));
  o_probabilities : option (list (string * Decimal));
  o_now : option Z;
  o_session : bool;
  o_persist : bool;
  o_correlation_id : option string;
}.

(** One iteration of the loop over the actions. *)
Definition score_action (case_context : OptimizerCaseInput) (amount discount_percent : Decimal)
  (now : Z) (a : OptimizeArgs) (action : string) : Op CandidateAction :=
  quote ← resolve_probability action (input_ml_context case_context) (o_probabilities a) now
            (o_session a) (input_merchant_id case_context) (input_case_id case_context);
  '(intervention, concession, communication, risk) ←
    lift (costs_for_action action amount settings (for_discount action discount_percent));
  policy ← _evaluate_policy action (o_policy_context a) (o_policy_results a) discount_percent concession
             (o_session a && o_persist a) (o_correlation_id a);
  lift (_candidate_from_quote action amount quote intervention concession communication risk policy
          (for_discount action discount_percent)).

(** The result the scored candidates give. *)
Definition rank_candidates (case_context : OptimizerCaseInput) (scored : list CandidateAction)
  : result exn OptimizationResult :=
  let ordered := sort_by (on_key String.compare cand_action) scored in
  let ranked_display := by_value_desc (sort_by (on_key String.compare cand_action) ordered) in
  '(selected, reason) ← select_action ordered settings (input_suspicious case_context)
                          (input_source_mismatch case_context);
  let '(model_version, feature_version, prediction_source) := _result_versions ordered selected in
  mret (mk_OptimizationResult (input_case_id case_context) model_version (optimizer_version settings)
          feature_version ranked_display (cand_action <$> selected) (cand_expected_value <$> selected)
          reason prediction_source
          (match selected with Some c => cand_requires_approval c | None => false end) None).

Definition set_decision_id (v : option UUID) (r : OptimizationResult) : OptimizationResult :=
  mk_OptimizationResult (opt_case_id r) (opt_model_version r) (opt_optimizer_version r)
    (opt_feature_version r) (opt_candidate_actions r) (opt_selected_action r)
    (opt_selected_expected_value r) (opt_selection_reason r) (opt_prediction_source r)
    (opt_requires_approval r) v.

Definition optimize (case_context : OptimizerCaseInput) (a : OptimizeArgs) : Op OptimizationResult :=
  now ← match o_now a with Some now => mret now | None => utcnow end;
  amount ← lift (as_money (input_amount_at_risk case_context));
  actions ← lift (_normalize_candidates (o_candidates a));
  let discount_percent := default (default_discount_percent settings) (input_discount_percent case_context) in
  scored ← map_each (score_action case_context amount discount_percent now a) actions;
  result ← lift (rank_candidates case_context scored);
  if o_persist a then
    if negb (o_session a)
    then mthrow (OptimizerError "MISSING_SESSION"
                   "Persisting an optimization decision requires a database session")
    else
      decision ← persist_optimization_decision result (input_merchant_id case_context) (o_correlation_id a);
      mret (set_decision_id (Some decision) result)
  else mret result.

(** The environment and the settings of the policy context; and the context of a case
    the predictor is given, which [recoverai_eval/inference/domain.py] computes. *)
Context (environ : list (string * string)) (recovery_settings : option RecoverySettings).
Context (ml_context_of : UUID -> World -> dict).

Definition optimize_case (case_id : UUID) (persist : bool) (probabilities : option (list (string * Decimal)))
  (now : option Z) (correlation_id : option string) (candidates : option (list string))
  : Op OptimizationResult :=
  found ← gets (fun w => w_cases w !! case_id);
  match found with
  | None => mthrow (OptimizerError "RECOVERY_CASE_NOT_FOUND"
                      ("Recovery case " +:+ uuid_str case_id +:+ " was not found"))
  | Some c =>
      let recovered_before := case_amount_recovered c in
      base ← (match recovery_settings with
              | Some s => mret s
              | None => lift (load_recovery_settings environ)
              end);
      policy_context ← build_policy_context case_id base now;
      w ← get;
      let snapshot := mk_OptimizerCaseInput case_id (case_merchant_id c) (case_amount_at_risk c)
        (case_amount_recovered c) (case_currency c) (ctx_suspicious policy_context)
        (ctx_source_mismatch policy_context) (Some (default_discount_percent settings))
        (Some (ml_context_of case_id w)) in
      result ← optimize snapshot (mk_OptimizeArgs candidates (Some policy_context) None probabilities now
                                    true persist correlation_id);
      c' ← get_row w_cases case_id;
      if negb (dec_eqb (case_amount_recovered c') recovered_before)
      then mthrow (OptimizerError "OPTIMIZER_MUTATED_RECOVERY"
                     "RecoveryOptimizer must not change amount_recovered")
      else mret result
  end.

(** ** [batch.py] *)

Definition optimize_batch (cases : list (OptimizerCaseInput * option (list (string * Decimal))))
  : Op BatchOptimizationResult :=
  results ← map_each (fun c =>
    optimize c.1 (mk_OptimizeArgs None None None c.2 None false false None)) cases;
  mret (mk_BatchOptimizationResult (optimizer_version settings) results).
End Optimizer.
