(* ===== verification/OptimizerTheorems.v ===== *)
(** * What the optimizer promises

    The expected value never exceeds the amount at risk; the selected action is a
    permitted one and a best one; the order of the candidates does not matter; and
    optimizing a case leaves its money, its payments and its actions alone. *)
From S2P Require Import Prelude PyStr Uuid Errors Decimal Sorting Rounding PyFloat Json Datetime Enums Rows Store Repositories StateMachine Transitions Config Optimizer PolicyContext PolicyEngine OptimizerService.
Open Scope stdpp_scope.

(** ** Expected values *)

Lemma probability_ok p q : probability_to_decimal p = Ok q ->
  q = p /\ dec_leb (dec_of_Z 0) p = true /\ dec_leb p (dec_of_Z 1) = true.
Proof.
  unfold probability_to_decimal. destruct (dec_ltb p _) eqn:H1; [done|].
  destruct (dec_ltb _ p) eqn:H2; [done|]. intros [= <-]. rewrite dec_ltb_leb in H1, H2.
  apply negb_false_iff in H1, H2. done.
Qed.

Lemma expected_revenue_bounds p a m r :
  expected_recovered_revenue p a = Ok r -> as_money a = Ok m ->
  dec_leb ZERO r = true /\ dec_leb r m = true /\ as_money r = Ok r.
Proof.
  unfold expected_recovered_revenue. intros H Hm. destruct (probability_to_decimal p) as [q|] eqn:Hp; [|done].
  apply probability_ok in Hp as (-> & _ & Hp1). unfold mbind, result_bind in H. rewrite Hm in H.
  pose proof (as_money_ok _ _ Hm) as (He & Hn & Hpr). split; [by apply as_money_nonneg in H|].
  split; [|by apply as_money_idemp in H]. apply as_money_quantize in H.
  eapply quantize_le; [exact H|exact He|]. by apply dec_mul_le.
Qed.

(** Each cost taken off can only lower the value. *)
Lemma net_of_le expected i d c k v :
  representable expected -> d_exp expected = MONEY_EXP -> net_of expected i d c k = Ok v ->
  dec_leb v expected = true.
Proof.
  intros Hr He. unfold net_of. destruct (as_money i) as [i'|] eqn:Hi; [|done].
  destruct (as_money d) as [d'|] eqn:Hd; [|done]. destruct (as_money c) as [c'|] eqn:Hc; [|done].
  destruct (as_money k) as [k'|] eqn:Hk; [|done]. unfold mbind, result_bind, signed_money. intros H.
  apply as_money_nonneg in Hi, Hd, Hc, Hk. eapply quantize_le; [exact H|exact He|].
  eapply dec_leb_trans; [by apply dec_sub_le; [apply dec_sub_representable|]|].
  eapply dec_leb_trans; [by apply dec_sub_le; [apply dec_sub_representable|]|].
  eapply dec_leb_trans; [by apply dec_sub_le; [apply dec_sub_representable|]|].
  by apply dec_sub_le.
Qed.

Lemma expected_net_le p a i d c k m v :
  expected_net_recovery p a i d c k = Ok v -> as_money a = Ok m ->
  exists r, expected_recovered_revenue p a = Ok r /\ dec_leb v r = true /\ dec_leb r m = true
    /\ dec_leb ZERO r = true.
Proof.
  unfold expected_net_recovery. destruct (expected_recovered_revenue p a) as [r|] eqn:Hr; [|done].
  intros H Hm. pose proof (expected_revenue_bounds _ _ _ _ Hr Hm) as (H0 & H1 & H2).
  pose proof (as_money_ok _ _ H2) as (He & _ & Hpr). exists r. repeat split; try done.
  by eapply net_of_le.
Qed.

(** ** Ranking *)

(** A best candidate of a pool: its value is within the tolerance of the highest, and
    no candidate within the tolerance comes before it in the tie order. *)
Definition best_in (pool : CandidateAction -> Prop) (epsilon : Decimal) (c : CandidateAction) : Prop :=
  exists top, pool top
    /\ (forall d, pool d -> dec_leb (cand_expected_value d) (cand_expected_value top) = true)
    /\ let near d := dec_leb (dec_sub (cand_expected_value top) (cand_expected_value d)) epsilon in
       pool c /\ near c = true /\ forall d, pool d -> near d = true -> tie_cmp c d <> Gt.

(** The orders the two sorts use. *)
#[export] Instance value_order : Order (reversed (on_key dec_cmp cand_expected_value)).
Proof. apply _. Qed.
#[global] Typeclasses Opaque tie_cmp.
#[export] Instance tie_order : Order tie_cmp.
Proof. unfold tie_cmp. apply _. Qed.

Lemma by_value_desc_head l x l' : by_value_desc l = x :: l' ->
  x ∈ l /\ forall y, y ∈ l -> dec_leb (cand_expected_value y) (cand_expected_value x) = true.
Proof.
  unfold by_value_desc. intros H. apply (sort_by_head _) in H as [Hx Hmin]. split; [exact Hx|].
  intros y Hy. specialize (Hmin y Hy). unfold not_after, reversed, on_key in Hmin. unfold dec_leb.
  by destruct (dec_cmp _ _).
Qed.

Lemma tie_head l x l' : sort_by tie_cmp l = x :: l' ->
  x ∈ l /\ forall y, y ∈ l -> tie_cmp x y <> Gt.
Proof. intros H. by apply (sort_by_head tie_cmp) in H. Qed.

Lemma max_with_ties_spec pool settings c :
  _max_with_ties pool settings = Ok c ->
  exists epsilon, signed_money (tie_epsilon settings) = Ok epsilon /\ best_in (fun d => d ∈ pool) epsilon c.
Proof.
  unfold _max_with_ties. destruct (by_value_desc pool) as [|top rest] eqn:Hs; [done|].
  destruct (signed_money _) as [epsilon|]; [|done]. unfold mbind, result_bind. cbn [ok_or head].
  set (tied := List.filter _ _). destruct (sort_by tie_cmp tied) as [|c' rest'] eqn:Ht; [done|].
  intros [= ->]. exists epsilon. split; [done|]. exists top.
  destruct (by_value_desc_head _ _ _ Hs) as [Htop Hmax], (tie_head _ _ _ Ht) as [Hc Hmin].
  assert (forall d, d ∈ tied <-> d ∈ pool
    /\ dec_leb (dec_sub (cand_expected_value top) (cand_expected_value d)) epsilon = true) as Htied.
  { intros d. unfold tied. rewrite list_elem_of_In, filter_In, <- list_elem_of_In, <- Hs.
    unfold by_value_desc. rewrite elem_of_sort_by. reflexivity. }
  split; [exact Htop|]. split; [exact Hmax|].
  - apply Htied in Hc as [Hc1 Hc2]. split; [done|]. split; [done|].
    intros d Hd Hnear. apply Hmin, Htied. done.
Qed.

(** What a permitted candidate is. *)
Definition permitted_candidate (candidates : list CandidateAction) (c : CandidateAction) : Prop :=
  c ∈ candidates /\ cand_allowed c = true /\ cand_missing_probability c = false
  /\ exists p, cand_probability c = Some p.

Lemma eligible_spec candidates c : c ∈ eligible_candidates candidates <-> permitted_candidate candidates c.
Proof.
  unfold eligible_candidates, permitted_candidate, eligible_candidate.
  rewrite list_elem_of_In, filter_In, <- list_elem_of_In, !andb_true_iff, negb_true_iff.
  destruct (cand_probability c) as [p|]; split.
  - intros (H1 & (H2 & H3) & _). eauto.
  - intros (H1 & H2 & H3 & _). eauto.
  - intros (_ & _ & H). done.
  - intros (_ & _ & _ & p & H). done.
Qed.

(** A permitted recovery intervention that does not lose money. *)
Definition worthwhile (candidates : list CandidateAction) (c : CandidateAction) : Prop :=
  permitted_candidate candidates c
  /\ action_among RECOVERY_INTERVENTIONS (cand_action c) = true
  /\ dec_leb ZERO (cand_expected_value c) = true.

Lemma worthwhile_spec candidates c :
  c ∈ List.filter non_negative (recovery_candidates (eligible_candidates candidates))
  <-> worthwhile candidates c.
Proof.
  unfold worthwhile, recovery_candidates. rewrite list_elem_of_In, !filter_In, <- list_elem_of_In, eligible_spec.
  unfold non_negative. tauto.
Qed.

Lemma last_with_spec action l c : last_with action l = Some c -> c ∈ l /\ cand_action c = action.
Proof.
  unfold last_with. intros H. assert (c ∈ rev (List.filter (fun c => String.eqb (cand_action c) action) l)) as Hc.
  { destruct (rev _); [done|]. injection H as ->. apply list_elem_of_here. }
  rewrite list_elem_of_In, <- in_rev, filter_In, <- list_elem_of_In, String.eqb_eq in Hc. done.
Qed.

(** The fallback is a control strategy. *)
Lemma select_control_spec l suspicious c reason :
  _select_control l suspicious = (Some c, reason) ->
  c ∈ l /\ action_among CONTROL_STRATEGIES (cand_action c) = true.
Proof.
  unfold _select_control. intros H.
  destruct suspicious, (last_with "DO_NOTHING" l) as [n|] eqn:Hn, (last_with "ESCALATE" l) as [e|] eqn:He;
    try (injection H as <- _;
         first [apply last_with_spec in Hn as [? ->]; by split | apply last_with_spec in He as [? ->]; by split]).
  all: destruct (List.filter _ l) as [|x r] eqn:Hf; [done|]; injection H as <- _;
    assert (x ∈ x :: r) as Hx by apply list_elem_of_here;
    rewrite <- Hf, list_elem_of_In, filter_In, <- list_elem_of_In in Hx; exact Hx.
Qed.

(** What [select_action] answers. *)
Definition selection_of (candidates : list CandidateAction) (settings : OptimizerSettings)
  (selected : option CandidateAction) : Prop :=
  (forall c, selected = Some c -> permitted_candidate candidates c)
  /\ ((exists c epsilon, selected = Some c /\ signed_money (tie_epsilon settings) = Ok epsilon
          /\ best_in (worthwhile candidates) epsilon c)
      \/ ((forall d, ~ worthwhile candidates d)
          /\ forall c, selected = Some c -> action_among CONTROL_STRATEGIES (cand_action c) = true)).

Lemma best_in_ext (P Q : CandidateAction -> Prop) epsilon c :
  (forall d, P d <-> Q d) -> best_in P epsilon c -> best_in Q epsilon c.
Proof.
  intros H (top & Htop & Hmax & Hc & Hnear & Hmin). exists top.
  split; [by apply H|]. split; [intros d Hd; by apply Hmax, H|].
  split; [by apply H|]. split; [done|]. intros d Hd. by apply Hmin, H.
Qed.

Lemma select_action_spec candidates settings suspicious mismatch selected reason :
  select_action candidates settings suspicious mismatch = Ok (selected, reason) ->
  selection_of candidates settings selected.
Proof.
  unfold select_action. destruct (eligible_candidates candidates) as [|e l] eqn:He.
  { intros [= <- _]. split; [done|]. right. split; [|done]. intros d Hd.
    apply worthwhile_spec in Hd. by rewrite He in Hd; apply elem_of_nil in Hd. }
  rewrite <- He. clear e l He.
  destruct (List.filter non_negative _) as [|x pool] eqn:Hp.
  - intros [= H]. split.
    + intros c ->. apply select_control_spec in H as [H _]. by apply eligible_spec.
    + right. split; [|intros c ->; by apply select_control_spec in H as [_ H]].
      intros d Hd. apply worthwhile_spec in Hd. rewrite Hp in Hd. by apply elem_of_nil in Hd.
  - unfold mbind, result_bind. destruct (_max_with_ties _ _) as [c|] eqn:Hm; [|done].
    intros [= <- _]. apply max_with_ties_spec in Hm as (epsilon & He & Hb). rewrite <- Hp in Hb.
    apply (best_in_ext _ _ _ _ (worthwhile_spec candidates)) in Hb. split.
    + intros c' [= <-]. destruct Hb as (_ & _ & _ & [Hc _] & _). exact Hc.
    + left. by exists c, epsilon.
Qed.

(** ** The result *)

Lemma by_name_perm l : sort_by (on_key String.compare cand_action) l ≡ₚ l.
Proof. apply sort_by_perm. Qed.

(** The candidates a result lists are those that were scored. *)
Lemma selection_of_perm l l' settings selected :
  l ≡ₚ l' -> selection_of l settings selected -> selection_of l' settings selected.
Proof.
  intros Hp. assert (forall c, permitted_candidate l c <-> permitted_candidate l' c) as Hc.
  { intros c. unfold permitted_candidate. by rewrite Hp. }
  assert (forall c, worthwhile l c <-> worthwhile l' c) as Hw.
  { intros c. unfold worthwhile. by rewrite Hc. }
  intros [H1 H2]. split; [intros c Hs; by apply Hc, H1|].
  destruct H2 as [(c & epsilon & Hs & He & Hb)|[Hn Hs]].
  - left. exists c, epsilon. split; [done|]. split; [done|]. by apply (best_in_ext _ _ _ _ Hw).
  - right. split; [|done]. intros d Hd. by apply (Hn d), Hw.
Qed.

(** What a result says of the candidates it lists. *)
Definition result_of (settings : OptimizerSettings) (r : OptimizationResult) : Prop :=
  exists selected,
    opt_selected_action r = cand_action <$> selected
    /\ opt_selected_expected_value r = cand_expected_value <$> selected
    /\ opt_requires_approval r = match selected with Some c => cand_requires_approval c | None => false end
    /\ selection_of (opt_candidate_actions r) settings selected.

Lemma rank_candidates_spec settings case_context scored r :
  rank_candidates settings case_context scored = Ok r ->
  result_of settings r /\ opt_candidate_actions r ≡ₚ scored.
Proof.
  unfold rank_candidates, mbind, result_bind.
  set (ordered := sort_by _ scored). assert (ordered ≡ₚ scored) as Hp by apply by_name_perm.
  destruct (select_action ordered _ _ _) as [[selected reason]|] eqn:Hs; [|done].
  destruct (_result_versions ordered selected) as [[mv fv] ps]. intros [= <-]. simpl.
  assert (by_value_desc (sort_by (on_key String.compare cand_action) ordered) ≡ₚ ordered) as Hd.
  { unfold by_value_desc. rewrite sort_by_perm. apply by_name_perm. }
  split; [|by rewrite Hd]. exists selected. split; [done|]. split; [done|]. split; [done|].
  cbn [opt_candidate_actions]. eapply selection_of_perm; [symmetry; exact Hd|].
  by eapply select_action_spec.
Qed.

Lemma same_name l x y :
  NoDup (map cand_action l) -> x ∈ l -> y ∈ l -> on_key String.compare cand_action x y = Eq -> x = y.
Proof.
  intros Hn Hx Hy He%String.compare_eq_iff. revert Hn Hx Hy.
  induction l as [|z l IH]; intros Hn Hx Hy; [by apply elem_of_nil in Hx|].
  inversion_clear Hn as [|? ? Hz Hn'].
  assert (forall c, c ∈ l -> cand_action c ∈ map cand_action l) as Hin.
  { intros c Hc. by apply list_elem_of_In, in_map, list_elem_of_In. }
  apply elem_of_cons in Hx, Hy. destruct Hx as [Ex|Hx], Hy as [Ey|Hy]; [congruence| | |by apply IH]; exfalso; apply Hz.
  - rewrite <- Ex, He. by apply Hin.
  - rewrite <- Ey, <- He. by apply Hin.
Qed.

Lemma rank_candidates_perm settings case_context scored scored' :
  NoDup (map cand_action scored) -> scored ≡ₚ scored' ->
  rank_candidates settings case_context scored = rank_candidates settings case_context scored'.
Proof.
  intros Hn Hp. unfold rank_candidates.
  rewrite (sort_by_unique (on_key String.compare cand_action) scored scored' Hp); [done|].
  intros x y. by apply same_name.
Qed.

(** ** The scored candidates *)

(** What is true of a candidate scored for [amount]: it recovers something between
    nothing and the amount, and is worth at most that. *)
Definition within_risk (amount : Decimal) (c : CandidateAction) : Prop :=
  cand_amount_at_risk c = amount
  /\ dec_leb ZERO (cand_expected_recovery c) = true
  /\ dec_leb (cand_expected_recovery c) amount = true
  /\ dec_leb (cand_expected_value c) (cand_expected_recovery c) = true.

Lemma candidate_within_risk action amount quote i d c k policy percent cand :
  as_money amount = Ok amount ->
  _candidate_from_quote action amount quote i d c k policy percent = Ok cand ->
  cand_action cand = action /\ within_risk amount cand.
Proof.
  intros Hm. unfold _candidate_from_quote. destruct quote as [q|].
  - destruct (expected_recovered_revenue _ amount) as [r|] eqn:Hr; [|done].
    destruct (expected_net_recovery _ _ _ _ _ _) as [v|] eqn:Hv; [|done]. intros [= <-].
    split; [done|]. destruct (expected_net_le _ _ _ _ _ _ _ _ Hv Hm) as (r' & Hr' & H1 & H2 & H3).
    rewrite Hr in Hr'. injection Hr' as <-. done.
  - intros [= <-]. split; [done|]. split; [done|].
    split; [apply dec_leb_refl|]. split; [by apply as_money_nonneg in Hm|apply dec_leb_refl].
Qed.

Lemma normalize_NoDup candidates actions :
  _normalize_candidates candidates = Ok actions -> NoDup actions.
Proof.
  assert (forall l seen out, normalize_from seen l = Ok out ->
            NoDup out /\ forall a, a ∈ out -> a ∉ seen) as H.
  { induction l as [|a l IH]; intros seen out; simpl; [intros [= <-]; split; [constructor|]|].
    - intros a Ha. by apply elem_of_nil in Ha.
    - destruct (mem_str a seen) eqn:Hs; [apply IH|]. destruct (mem_str a LEGAL_ACTIONS); [|done]. simpl.
      unfold mbind, result_bind. destruct (normalize_from (a :: seen) l) as [out'|] eqn:Ho; [|done].
      intros [= <-]. destruct (IH _ _ Ho) as [Hn Hd]. apply bool_decide_eq_false in Hs. split.
      + constructor; [|done]. intros Ha. apply (Hd a Ha), list_elem_of_here.
      + intros b Hb Hbs. apply elem_of_cons in Hb as [->|Hb]; [by apply Hs|].
        apply (Hd b Hb). by apply list_elem_of_further. }
  destruct candidates as [l|]; simpl.
  - intros Hl. by destruct (H _ _ _ Hl).
  - intros [= <-]. apply (bool_decide_unpack _). vm_compute. done.
Qed.

Section Service.
Context (predictor : dict -> string -> result predictor_error RecoveryProbability).
Context (settings : OptimizerSettings).

Lemma returns_score case_context amount percent now a action w :
  as_money amount = Ok amount ->
  returns (score_action predictor settings case_context amount percent now a action) w
    (fun c _ => cand_action c = action /\ within_risk amount c).
Proof using Type.
  intros Hm. unfold score_action.
  eapply (returns_bind _ _ _ _ (fun _ _ => True)); [by intros|]. intros quote w1 _.
  apply returns_lift. intros [[[i d] c] k] _.
  eapply (returns_bind _ _ _ _ (fun _ _ => True)); [by intros|]. intros policy w2 _.
  intros w3 cand [= <- H]. by eapply candidate_within_risk.
Qed.

Lemma returns_map_each {A B} (f : A -> Op B) (P : A -> B -> Prop) l w :
  (forall a w, returns (f a) w (fun b _ => P a b)) ->
  returns (map_each f l) w (fun bs _ => Forall2 P l bs).
Proof using Type.
  intros Hf. revert w. induction l as [|a l IH]; intros w; simpl; [by apply returns_ret|].
  eapply returns_bind; [apply Hf|]. intros b w1 Hb. eapply returns_bind; [apply IH|].
  intros bs w2 Hbs. apply returns_ret. by constructor.
Qed.

Lemma scored_names (l : list string) (cands : list CandidateAction) amount :
  Forall2 (fun action c => cand_action c = action /\ within_risk amount c) l cands ->
  map cand_action cands = l /\ Forall (within_risk amount) cands.
Proof using Type.
  induction 1 as [|a c l cands [Ha Hc] _ [IH1 IH2]]; simpl; [by split|].
  split; [by rewrite Ha, IH1|by constructor].
Qed.

(** A result and the candidates it was computed from. *)
Definition optimized (case_context : OptimizerCaseInput) (r : OptimizationResult) : Prop :=
  exists amount,
    as_money (input_amount_at_risk case_context) = Ok amount
    /\ Forall (within_risk amount) (opt_candidate_actions r)
    /\ NoDup (map cand_action (opt_candidate_actions r))
    /\ result_of settings r.

Lemma returns_optimize case_context a w :
  returns (optimize predictor settings case_context a) w (fun r _ => optimized case_context r).
Proof using Type.
  unfold optimize. eapply (returns_bind _ _ _ _ (fun _ _ => True)); [by intros|]. intros now w1 _.
  apply returns_lift. intros amount Hm. apply returns_lift. intros actions Hact.
  eapply returns_bind.
  { apply (returns_map_each _ (fun action c => cand_action c = action /\ within_risk amount c)).
    intros action w2. apply returns_score. by eapply as_money_idemp. }
  intros scored w2 Hs. apply scored_names in Hs as [Hnames Hrisk].
  apply returns_lift. intros result Hr. apply rank_candidates_spec in Hr as [Hr Hp].
  assert (optimized case_context result) as Ho.
  { exists amount. split; [done|]. rewrite Hp. split; [done|]. split; [|done].
    rewrite Hnames. by eapply normalize_NoDup. }
  destruct (o_persist a); [|by apply returns_ret]. destruct (negb (o_session a)); [apply returns_throw|].
  eapply (returns_bind _ _ _ _ (fun _ _ => True)); [by intros|]. intros d w3 _.
  by apply returns_ret.
Qed.

(** The candidates are the actions asked for, each once. *)
Lemma returns_optimize_named case_context a w :
  returns (optimize predictor settings case_context a) w (fun r _ =>
    forall actions, _normalize_candidates (o_candidates a) = Ok actions ->
      map cand_action (opt_candidate_actions r) ≡ₚ actions).
Proof using Type.
  unfold optimize. eapply (returns_bind _ _ _ _ (fun _ _ => True)); [by intros|]. intros now w1 _.
  apply returns_lift. intros amount Hm. apply returns_lift. intros actions Hact.
  eapply returns_bind.
  { apply (returns_map_each _ (fun action c => cand_action c = action /\ within_risk amount c)).
    intros action w2. apply returns_score. by eapply as_money_idemp. }
  intros scored w2 Hs. apply scored_names in Hs as [Hnames _].
  apply returns_lift. intros result Hr. apply rank_candidates_spec in Hr as [_ Hp].
  assert (forall acts, _normalize_candidates (o_candidates a) = Ok acts ->
            map cand_action (opt_candidate_actions result) ≡ₚ acts) as Ho
    by (rewrite Hact; intros acts [= <-]; by rewrite Hp, Hnames).
  destruct (o_persist a); [|by apply returns_ret]. destruct (negb (o_session a)); [apply returns_throw|].
  eapply (returns_bind _ _ _ _ (fun _ _ => True)); [by intros|]. intros d w3 _.
  by apply returns_ret.
Qed.

(** [optimize_case] optimizes its snapshot of the case. *)
Lemma returns_optimize_case environ rs ml id persist probabilities now cid candidates w :
  returns (optimize_case predictor settings environ rs ml id persist probabilities now cid candidates) w
    (fun r _ => result_of settings r
       /\ NoDup (map cand_action (opt_candidate_actions r))
       /\ forall actions, _normalize_candidates candidates = Ok actions ->
            map cand_action (opt_candidate_actions r) ≡ₚ actions).
Proof using Type.
  unfold optimize_case. apply returns_gets. destruct (w_cases w !! id) as [c|]; [|apply returns_throw].
  eapply (returns_bind _ _ _ _ (fun _ _ => True)); [by intros|]. intros base w1 _.
  eapply (returns_bind _ _ _ _ (fun _ _ => True)); [by intros|]. intros ctx w2 _.
  eapply (returns_bind _ _ _ _ (fun _ _ => True)); [by intros|]. intros v w3 _.
  eapply returns_bind; [apply returns_and; [apply returns_optimize|apply returns_optimize_named]|].
  intros r w4 [(amount & _ & _ & Hn & Hr) Hnames].
  eapply (returns_bind _ _ _ _ (fun _ _ => True)); [by intros|]. intros c' w5 _.
  destruct (negb _); [apply returns_throw|]. apply returns_ret.
  split; [exact Hr|]. split; [exact Hn|exact Hnames].
Qed.

(** The tables the optimizer does not own. *)
Definition other_tables (w : World) :=
  (w_merchants w, w_customers w, w_payments w, w_attempts w, w_cases w, w_actions w,
   (w_webhooks w, w_approvals w, w_notifications w, w_idempotency w, w_tool_calls w, w_carts w)).

(** Decisions and evaluations are only added. *)
Definition recorded (w w' : World) : Prop :=
  other_tables w' = other_tables w /\ (exists l, w_decisions w' = w_decisions w ++ l)
  /\ w_evaluations w ⊆ w_evaluations w'.

#[local] Instance recorded_preorder : PreOrder recorded.
Proof using Type.
  split; [by split; [|split; [exists []; rewrite app_nil_r|]]|].
  intros x y z (H1 & [l1 H2] & H3) (H4 & [l2 H5] & H6). split; [congruence|].
  split; [exists (l1 ++ l2); by rewrite H5, H2, app_assoc|by etrans].
Qed.

Lemma recorded_same w w' :
  other_tables w' = other_tables w -> w_decisions w' = w_decisions w ->
  w_evaluations w' = w_evaluations w -> recorded w w'.
Proof using Type.
  intros H1 H2 H3. split; [done|]. split; [exists []; by rewrite app_nil_r|by rewrite H3].
Qed.

Lemma recorded_uuid4 : preserves recorded uuid4.
Proof using Type. intros w. by apply recorded_same. Qed.
Lemma recorded_utcnow : preserves recorded utcnow.
Proof using Type. intros w. by apply recorded_same. Qed.
Lemma recorded_flush : preserves recorded flush.
Proof using Type. intros w. unfold final. rewrite flush_run. reflexivity. Qed.
Lemma recorded_audit m ty s a : preserves recorded (record_audit m ty s a).
Proof using Type. intros w. unfold final. rewrite record_audit_run. by apply recorded_same. Qed.
Lemma recorded_decision d : preserves recorded (add_decision d).
Proof using Type. intros w. split; [done|]. split; [by exists [d]|done]. Qed.
Lemma recorded_get_row {A} (t : World -> gmap UUID A) id : preserves recorded (get_row t id).
Proof using Type. unfold get_row. solve_pres. Qed.
Lemma recorded_evaluation e : preserves recorded (insert_evaluation e).
Proof using Type.
  unfold insert_evaluation. apply preserves_bind; [apply _|apply recorded_uuid4|]. intros id w.
  unfold final, mbind, m_bind, get, modify. destruct (w_evaluations w !! id) eqn:He; simpl; [by apply recorded_same|].
  split; [done|]. split; [by exists []; rewrite app_nil_r|]. by apply insert_subseteq.
Qed.
Lemma recorded_predictions f : preserves recorded (modify (fun w => set_w_predictions (f w) w) : Op unit).
Proof using Type. intros w. by apply recorded_same. Qed.
#[local] Hint Resolve recorded_uuid4 recorded_utcnow recorded_flush recorded_audit recorded_decision
  recorded_get_row recorded_evaluation recorded_predictions : pres.

Lemma recorded_persist_prediction m c action p mv fv source diagnostics :
  preserves recorded (persist_prediction m c action p mv fv source diagnostics).
Proof using Type.
  unfold persist_prediction, ModelPredictionRepository.upsert. solve_pres.
Qed.

Lemma recorded_context id base now : preserves recorded (build_policy_context id base now).
Proof using Type. unfold build_policy_context. solve_pres. Qed.
#[local] Hint Resolve recorded_persist_prediction recorded_context : pres.

Lemma recorded_score case_context amount percent now a action :
  preserves recorded (score_action predictor settings case_context amount percent now a action).
Proof using Type.
  unfold score_action, resolve_probability, _evaluate_policy, evaluate_and_persist, persist_policy_evaluation.
  solve_pres.
Qed.
#[local] Hint Resolve recorded_score : pres.

Lemma recorded_optimize case_context a : preserves recorded (optimize predictor settings case_context a).
Proof using Type. unfold optimize, persist_optimization_decision. solve_pres. Qed.
#[local] Hint Resolve recorded_optimize : pres.

Lemma recorded_optimize_case environ rs ml id persist probabilities now cid candidates :
  preserves recorded (optimize_case predictor settings environ rs ml id persist probabilities now cid candidates).
Proof using Type. unfold optimize_case. solve_pres. Qed.
End Service.

(** ** The verdict *)

Lemma find_by_name l c : NoDup (map cand_action l) -> c ∈ l ->
  List.find (fun d => String.eqb (cand_action d) (cand_action c)) l = Some c.
Proof.
  intros Hn Hc. destruct (List.find _ l) as [d|] eqn:Hf.
  - apply find_some in Hf as [Hd He]. apply String.eqb_eq in He. f_equal.
    apply (same_name l); [done|by apply list_elem_of_In|done|]. unfold on_key.
    rewrite He. apply (cmp_refl String.compare).
  - eapply find_none in Hf; [|by apply list_elem_of_In]. by rewrite String.eqb_refl in Hf.
Qed.

Lemma verdict_of_result settings r :
  NoDup (map cand_action (opt_candidate_actions r)) -> result_of settings r ->
  _policy_verdict r = match opt_selected_action r with
                      | None => "NONE"
                      | Some _ => if opt_requires_approval r then "APPROVAL_REQUIRED" else "ALLOW"
                      end.
Proof.
  intros Hn (selected & Ha & _ & Hr & Hs & _). unfold _policy_verdict, selected_candidate.
  rewrite Ha, Hr. destruct selected as [c|]; simpl; [|done].
  destruct (Hs c eq_refl) as (Hc & Hallowed & _). rewrite (find_by_name _ _ Hn Hc), Hallowed. done.
Qed.

(** ** Properties *)

(** C40. The optimizer selects a best permitted action: the candidate it names is allowed by
    policy and has a probability; when some permitted recovery intervention is worth its
    cost, the selected one is such an intervention, its value within the tolerance of the
    highest and first among those in the tie order; when none is, no recovery intervention
    is selected, only ESCALATE or DO_NOTHING. *)
Theorem selection_is_best predictor settings case_context a w w' r :
  optimize predictor settings case_context a w = (w', Ok r) -> result_of settings r.
Proof. intros H. by apply (returns_optimize predictor settings) in H as (_ & _ & _ & _ & Hr). Qed.

(** Expected values stay within the money at risk: every candidate is scored for the
    case's amount at risk, its expected recovery lies between nothing and that amount, and
    its expected value, after the costs, is at most the expected recovery. *)
Theorem expected_values_within_risk predictor settings case_context a w w' r amount :
  optimize predictor settings case_context a w = (w', Ok r) ->
  as_money (input_amount_at_risk case_context) = Ok amount ->
  Forall (within_risk amount) (opt_candidate_actions r).
Proof.
  intros H Hm. apply (returns_optimize predictor settings) in H as (m & Hm' & H & _).
  rewrite Hm in Hm'. by injection Hm' as <-.
Qed.

(** Ranking does not depend on the order in which the actions were scored: the same
    scored candidates, one per action, give the same result in any order. *)
Theorem ranking_ignores_order settings case_context scored scored' :
  NoDup (map cand_action scored) -> scored ≡ₚ scored' ->
  rank_candidates settings case_context scored = rank_candidates settings case_context scored'.
Proof. apply rank_candidates_perm. Qed.

(** Optimizing a case, whatever it returns or raises, changes no merchant, customer,
    payment, attempt, case, action, event, approval, notification or cart: it only adds
    decisions and policy evaluations, and stores predictions and audit events. *)
Theorem optimizer_is_read_only predictor settings environ recovery_settings ml_context_of case_id
    persist probabilities now correlation_id candidates w :
  let w' := final (optimize_case predictor settings environ recovery_settings ml_context_of case_id
                     persist probabilities now correlation_id candidates) w in
  other_tables w' = other_tables w /\ (exists l, w_decisions w' = w_decisions w ++ l)
  /\ w_evaluations w ⊆ w_evaluations w'.
Proof. apply recorded_optimize_case. Qed.

(** The verdict recorded with a decision is never a denial: it is NONE without a
    selected action, APPROVAL_REQUIRED when the selected one needs approval, and ALLOW
    otherwise. *)
Theorem recorded_verdict_permits predictor settings case_context a w w' r :
  optimize predictor settings case_context a w = (w', Ok r) ->
  _policy_verdict r = match opt_selected_action r with
                      | None => "NONE"
                      | Some _ => if opt_requires_approval r then "APPROVAL_REQUIRED" else "ALLOW"
                      end.
Proof.
  intros H. apply (returns_optimize predictor settings) in H as (_ & _ & _ & Hn & Hr).
  by eapply verdict_of_result.
Qed.
