(* ===== verification/PolicyProps.v ===== *)
(** * Correctness of the policy engine

    The verdict of [PolicyEngine.evaluate_action] against a declarative
    statement of the policy: when an action is permitted, when it needs a human,
    how risky it is, and when quiet hours hold. *)
From S2P Require Import Prelude PyStr Uuid Errors Decimal Json Datetime Enums Rows Store Repositories Config PolicyContext PolicyEngine.
Open Scope stdpp_scope.
Open Scope Z_scope.

(** ** The policy, declaratively *)

(** [action] may run for the case of [context]. *)
Record permitted (context : PolicyContext) (action : RecoveryActionType.t)
  (proposed : ProposedAction) : Prop := {
  not_blocked : value action ∉ ctx_blocked_action_types context;
  automatic_ok : action ∈ AUTOMATIC_ACTIONS ->
    automatic_recovery_enabled (ctx_settings context) = true
    /\ ctx_suspicious context = false /\ ctx_source_mismatch context = false;
  retries_left : action ∈ RETRY_ACTIONS ->
    ctx_retry_count context < max_retry_attempts (ctx_settings context);
  discount_ok : action = RecoveryActionType.OFFER_DISCOUNT ->
    exists percent amount,
      proposed_discount_percent proposed = Some percent
      /\ discount_amount_of context proposed percent = Ok amount
      /\ dec_leb percent (max_discount_percent (ctx_settings context)) = true
      /\ ctx_discount_eligible context = true
      /\ dec_leb (dec_add (ctx_discount_spent_today context) amount)
           (max_daily_discount_budget (ctx_settings context)) = true;
  contact_ok : action ∈ COMMUNICATION_ACTIONS ->
    ctx_customer_opted_out context = false
    /\ ctx_communications_last_24h context < max_communications_per_day (ctx_settings context)
    /\ (action = RecoveryActionType.SEND_REMINDER ->
        _in_quiet_hours context (ctx_settings context) = false);
}.

(** The hour [h] lies in the circular interval from [s] (included) to [e]
    (excluded) on a 24-hour dial. *)
Definition in_dial (s e h : Z) : Prop := exists k, 0 <= k < (e - s) mod 24 /\ h = (s + k) mod 24.

Definition rank_max (l : list RiskLevel) : Z := foldr (fun r m => Z.max (_RISK_RANK r) m) 0 l.

(** ** Combining hits *)

#[local] Arguments _RISK_RANK : simpl never.

Definition denies (h : RuleHit) : bool :=
  match hit_allowed h with Some false => true | _ => false end.
Definition asks_approval (h : RuleHit) : bool :=
  match hit_requires_approval h with Some true => true | _ => false end.

Lemma fold_allowed hits v :
  v_allowed (fold_left add_hit hits v) = v_allowed v && negb (existsb denies hits).
Proof.
  revert v. induction hits as [|h hits IH]; intros v; simpl; [by rewrite andb_true_r|].
  rewrite IH. unfold denies at 2. simpl. destruct (hit_allowed h) as [[]|]; simpl; try done.
  by rewrite andb_false_r.
Qed.

Lemma fold_approval hits v :
  v_requires_approval (fold_left add_hit hits v) = v_requires_approval v || existsb asks_approval hits.
Proof.
  revert v. induction hits as [|h hits IH]; intros v; simpl; [by rewrite orb_false_r|].
  rewrite IH. unfold asks_approval at 2. simpl.
  destruct (hit_requires_approval h) as [[]|]; simpl; try done. by rewrite orb_true_r.
Qed.

Lemma fold_risk hits v :
  _RISK_RANK (v_risk (fold_left add_hit hits v))
  = Z.max (_RISK_RANK (v_risk v)) (rank_max (omap hit_risk_level hits)).
Proof.
  revert v. induction hits as [|h hits IH]; intros v; simpl.
  - assert (0 <= _RISK_RANK (v_risk v)) by (unfold _RISK_RANK; destruct (v_risk v); lia). lia.
  - rewrite IH. simpl. destruct (hit_risk_level h) as [r|]; simpl; [|done].
    change (list_omap _ _ hit_risk_level hits) with (omap hit_risk_level hits).
    fold (rank_max (omap hit_risk_level hits)).
    destruct (Z.ltb_spec (_RISK_RANK (v_risk v)) (_RISK_RANK r)); lia.
Qed.

Lemma fold_ids hits v :
  v_policy_ids (fold_left add_hit hits v) = v_policy_ids v ++ map hit_policy_id hits.
Proof.
  revert v. induction hits as [|h hits IH]; intros v; simpl; [by rewrite app_nil_r|].
  rewrite IH. simpl. by rewrite <- app_assoc.
Qed.

Lemma existsb_hit_if p c h : existsb p (hit_if c h) = c && p h.
Proof. destruct c; simpl; [by rewrite orb_false_r|done]. Qed.

Lemma evaluate_known context proposed action hits :
  _parse_action (proposed_action_type proposed) = Some action ->
  rule_hits context action proposed = Ok hits ->
  evaluate_action context proposed = Ok (verdict_result (ctx_settings context) (combine hits)).
Proof. intros Hp Hh. unfold evaluate_action. by rewrite Hp, Hh. Qed.

Lemma evaluate_known_inv context proposed action r :
  _parse_action (proposed_action_type proposed) = Some action ->
  evaluate_action context proposed = Ok r ->
  exists hits, rule_hits context action proposed = Ok hits
               /\ r = verdict_result (ctx_settings context) (combine hits).
Proof.
  intros Hp. unfold evaluate_action. rewrite Hp.
  destruct (rule_hits context action proposed) as [hits|e] eqn:Hh; simpl; [|done].
  intros [= <-]. eauto.
Qed.

(** ** The rules, one by one *)

Lemma value_risk_allows context action h :
  _value_risk context action = Ok h -> denies h = false.
Proof.
  unfold _value_risk. destruct (as_money _) as [m|e]; simpl; [|done]. intros [= <-].
  repeat case_match; done.
Qed.

Lemma communication_denies context action s :
  existsb denies (_communication_rules context action s) =
    ctx_customer_opted_out context
    || (max_communications_per_day s <=? ctx_communications_last_24h context)
    || (is_action action RecoveryActionType.SEND_REMINDER && _in_quiet_hours context s).
Proof.
  unfold _communication_rules. rewrite !existsb_app, !existsb_hit_if. simpl.
  by rewrite !andb_true_r, orb_assoc.
Qed.

Lemma discount_denies context proposed s hits :
  _discount_rules context proposed s = Ok hits ->
  existsb denies hits = false <->
  exists percent amount,
    proposed_discount_percent proposed = Some percent
    /\ discount_amount_of context proposed percent = Ok amount
    /\ dec_leb percent (max_discount_percent s) = true
    /\ ctx_discount_eligible context = true
    /\ dec_leb (dec_add (ctx_discount_spent_today context) amount) (max_daily_discount_budget s) = true.
Proof.
  unfold _discount_rules. destruct (proposed_discount_percent proposed) as [percent|].
  2:{ intros [= <-]. simpl. split; [done|]. by intros (? & ? & ? & ?). }
  destruct (discount_amount_of context proposed percent) as [amount|e] eqn:Ha; simpl; [|done].
  intros [= <-]. rewrite !existsb_app, !existsb_hit_if. simpl. rewrite !dec_ltb_leb.
  rewrite !andb_true_r, andb_false_r, orb_false_r, !orb_false_iff, !negb_false_iff.
  split.
  - intros (H1 & H2 & H3). exists percent, amount. auto.
  - intros (p & a & [= <-] & Ha' & H1 & H2 & H3). rewrite Ha in Ha'. injection Ha' as <-. auto.
Qed.

Lemma rule_hits_inv context action proposed hits :
  rule_hits context action proposed = Ok hits ->
  exists v r, _value_risk context action = Ok v
    /\ _restriction_rules context action proposed (ctx_settings context) = Ok r
    /\ hits = v :: r.
Proof.
  unfold rule_hits. destruct (_value_risk _ _) as [v|]; simpl; [|done].
  destruct (_restriction_rules _ _ _ _) as [r|]; simpl; [|done]. intros [= <-]. eauto.
Qed.

(** [dec_div] by 100 never raises, so only the amount at risk can make the
    engine fail. *)
Lemma discount_amount_total context proposed percent m :
  as_money (case_amount_at_risk (ctx_case context)) = Ok m ->
  exists a, discount_amount_of context proposed percent = Ok a.
Proof.
  intros Hm. unfold discount_amount_of. destruct (proposed_discount_amount proposed); [eauto|].
  rewrite Hm. simpl. unfold dec_div. simpl. case_match; eauto.
Qed.

Lemma restriction_denies context action proposed hits :
  _restriction_rules context action proposed (ctx_settings context) = Ok hits ->
  existsb denies hits = false <-> permitted context action proposed.
Proof.
  unfold _restriction_rules.
  destruct (if is_action action RecoveryActionType.OFFER_DISCOUNT
            then _discount_rules context proposed (ctx_settings context) else Ok [])
    as [disc|e] eqn:Hd; simpl; [|done].
  intros [= <-]. rewrite !existsb_app, !existsb_hit_if. simpl. rewrite !andb_true_r.
  assert (existsb denies (if action_in action COMMUNICATION_ACTIONS
            then _communication_rules context action (ctx_settings context) else [])
          = action_in action COMMUNICATION_ACTIONS
            && existsb denies (_communication_rules context action (ctx_settings context))) as ->
    by (by destruct (action_in _ _)).
  rewrite communication_denies. unfold action_in, is_action, mem_str in *.
  rewrite !orb_false_iff, !andb_false_iff, !orb_false_iff, !negb_false_iff,
    !bool_decide_eq_false, !Z.leb_gt.
  assert (existsb denies disc = false <-> (action = RecoveryActionType.OFFER_DISCOUNT ->
    exists percent amount,
      proposed_discount_percent proposed = Some percent
      /\ discount_amount_of context proposed percent = Ok amount
      /\ dec_leb percent (max_discount_percent (ctx_settings context)) = true
      /\ ctx_discount_eligible context = true
      /\ dec_leb (dec_add (ctx_discount_spent_today context) amount)
           (max_daily_discount_budget (ctx_settings context)) = true)) as ->.
  { case_bool_decide.
    - rewrite (discount_denies _ _ _ _ Hd). tauto.
    - injection Hd as <-. simpl. tauto. }
  split.
  - intros (H1 & H2 & H3 & H4 & H5 & H6). split; try done; intros; naive_solver.
  - intros [? automatic_ok0 retries_left0 ? contact_ok0]. repeat split; try done.
    + destruct (decide (action ∈ AUTOMATIC_ACTIONS)) as [Ha|]; [|by right].
      left. by apply automatic_ok0.
    + destruct (decide (action ∈ AUTOMATIC_ACTIONS)) as [Ha|]; [|by right].
      left. by apply automatic_ok0.
    + destruct (decide (action ∈ RETRY_ACTIONS)); auto.
    + destruct (decide (action ∈ COMMUNICATION_ACTIONS)); [right|by left].
      destruct contact_ok0 as (? & ? & ?); [done|].
      repeat split; try done.
      clear Hd. case_bool_decide; simpl; auto.
Qed.

Lemma automatic_not_human action :
  action ∈ AUTOMATIC_ACTIONS <->
  action_in action [RecoveryActionType.ESCALATE; RecoveryActionType.DO_NOTHING] = false.
Proof.
  rewrite <- (bool_decide_eq_true (action ∈ AUTOMATIC_ACTIONS)). by destruct action.
Qed.

Lemma discount_asks_nothing context proposed s hits :
  _discount_rules context proposed s = Ok hits -> existsb asks_approval hits = false.
Proof.
  unfold _discount_rules. destruct (proposed_discount_percent proposed) as [p|]; [|by intros [= <-]].
  destruct (discount_amount_of context proposed p); simpl; [|done]. intros [= <-].
  rewrite !existsb_app, !existsb_hit_if. simpl. by rewrite !andb_false_r.
Qed.

Lemma communication_asks_nothing context action s :
  existsb asks_approval (_communication_rules context action s) = false.
Proof.
  unfold _communication_rules. rewrite !existsb_app, !existsb_hit_if. simpl.
  by rewrite !andb_false_r.
Qed.

Lemma restrictions_ask_nothing context action proposed s hits :
  _restriction_rules context action proposed s = Ok hits -> existsb asks_approval hits = false.
Proof.
  unfold _restriction_rules.
  destruct (if is_action action RecoveryActionType.OFFER_DISCOUNT
            then _discount_rules context proposed s else Ok []) as [disc|e] eqn:Hd; simpl; [|done].
  assert (existsb asks_approval disc = false) as Hdisc.
  { destruct (is_action _ _); [by apply discount_asks_nothing in Hd|by injection Hd as <-]. }
  intros [= <-]. rewrite !existsb_app, !existsb_hit_if. simpl. rewrite !andb_false_r, Hdisc. simpl.
  destruct (action_in action COMMUNICATION_ACTIONS); [apply communication_asks_nothing|done].
Qed.

Lemma approvals_of_hits context action proposed hits :
  rule_hits context action proposed = Ok hits ->
  exists m, as_money (case_amount_at_risk (ctx_case context)) = Ok m
    /\ (existsb asks_approval hits = true <->
        action ∈ AUTOMATIC_ACTIONS
        /\ (dec_ltb (high_value_approval_threshold (ctx_settings context)) m = true
            \/ dec_ltb (medium_value_approval_threshold (ctx_settings context)) m = true)).
Proof.
  intros H. apply rule_hits_inv in H as (v & r & Hv & Hr & ->).
  unfold _value_risk in Hv. destruct (as_money _) as [m|]; simpl in Hv; [|done].
  exists m. split; [done|]. injection Hv as <-.
  pose proof (restrictions_ask_nothing _ _ _ _ _ Hr) as Hr'.
  simpl. rewrite Hr', orb_false_r, automatic_not_human.
  destruct (action_in action _), (dec_ltb (high_value_approval_threshold _) m),
    (dec_ltb (medium_value_approval_threshold _) m); simpl; naive_solver.
Qed.

(** An allowed action is a permitted one. *)
Lemma allowed_permitted context proposed action r :
  _parse_action (proposed_action_type proposed) = Some action ->
  evaluate_action context proposed = Ok r ->
  result_allowed r = true <-> permitted context action proposed.
Proof.
  intros Hp He. destruct (evaluate_known_inv _ _ _ _ Hp He) as (hits & Hh & ->).
  apply rule_hits_inv in Hh as (v & rest & Hv & Hr & ->). simpl.
  unfold combine. rewrite fold_allowed. simpl. rewrite (value_risk_allows _ _ _ Hv). simpl.
  rewrite negb_true_iff. by apply restriction_denies.
Qed.

(** ** Properties *)

(** C15. The engine allows a known action exactly when the declarative policy
    permits it: the action is not blocked by the merchant, automatic recovery is
    on and the case is not suspicious, retries, discounts and communications are
    within their limits and outside quiet hours. *)
Theorem allowed_iff_permitted context proposed action r :
  _parse_action (proposed_action_type proposed) = Some action ->
  evaluate_action context proposed = Ok r ->
  result_allowed r = true <-> permitted context action proposed.
Proof. apply allowed_permitted. Qed.

(** Human approval is asked for exactly when a permitted automatic action
    is worth more than one of the two approval thresholds; a denied action never
    asks for approval. *)
Theorem approval_iff_valuable context proposed action r :
  _parse_action (proposed_action_type proposed) = Some action ->
  evaluate_action context proposed = Ok r ->
  exists m, as_money (case_amount_at_risk (ctx_case context)) = Ok m
    /\ (result_requires_approval r = true <->
        permitted context action proposed /\ action ∈ AUTOMATIC_ACTIONS
        /\ (dec_ltb (high_value_approval_threshold (ctx_settings context)) m = true
            \/ dec_ltb (medium_value_approval_threshold (ctx_settings context)) m = true)).
Proof.
  intros Hp He. destruct (evaluate_known_inv _ _ _ _ Hp He) as (hits & Hh & ->).
  destruct (approvals_of_hits _ _ _ _ Hh) as (m & Hm & Ha). exists m. split; [done|].
  rewrite <- Ha. apply rule_hits_inv in Hh as (v & rest & Hv & Hr & ->).
  rewrite <- (restriction_denies _ _ _ _ Hr). unfold combine, verdict_result.
  cbn [result_requires_approval]. rewrite fold_allowed, fold_approval. simpl.
  rewrite (value_risk_allows _ _ _ Hv). simpl.
  destruct (existsb denies rest); simpl; [naive_solver|]. rewrite andb_true_r. tauto.
Qed.

(** The reported risk is the highest risk of the rules that fired, and the
    reported policy ids are theirs, in order, whatever the verdict. *)
Theorem risk_is_maximum context proposed action r :
  _parse_action (proposed_action_type proposed) = Some action ->
  evaluate_action context proposed = Ok r ->
  exists hits, rule_hits context action proposed = Ok hits
    /\ _RISK_RANK (result_risk_level r) = rank_max (omap hit_risk_level hits)
    /\ result_policy_ids r = map hit_policy_id hits.
Proof.
  intros Hp He. destruct (evaluate_known_inv _ _ _ _ Hp He) as (hits & Hh & ->).
  exists hits. split; [done|]. unfold combine, verdict_result. simpl.
  rewrite fold_risk, fold_ids. split; [|done].
  change (_RISK_RANK (v_risk (mk_Verdict true false GREEN [] []))) with 0.
  assert (0 <= rank_max (omap hit_risk_level hits)); [|lia].
  induction (omap hit_risk_level hits); simpl; lia.
Qed.

(** Fail closed: an action outside the closed enumeration is rejected at
    the highest risk, without approval, whatever the case. *)
Theorem unknown_action_rejected context proposed :
  (forall a : RecoveryActionType.t, proposed_action_type proposed <> value a) ->
  exists r, evaluate_action context proposed = Ok r
    /\ result_allowed r = false /\ result_requires_approval r = false
    /\ result_risk_level r = RED /\ result_policy_ids r = ["closed_action_enum"].
Proof.
  intros Hn. unfold evaluate_action, _parse_action.
  destruct (of_value _) as [a|] eqn:Ha; [|eauto 10].
  apply of_value_Some in Ha. by destruct (Hn a).
Qed.

(** C16. The engine gives a verdict on every action of a case whose amount at
    risk is a representable non-negative amount of money. *)
Theorem evaluation_total context proposed m :
  as_money (case_amount_at_risk (ctx_case context)) = Ok m ->
  exists r, evaluate_action context proposed = Ok r.
Proof.
  intros Hm. unfold evaluate_action. destruct (_parse_action _) as [action|]; [|eauto].
  unfold rule_hits, _value_risk, _restriction_rules, _discount_rules. rewrite Hm. simpl.
  destruct (is_action action RecoveryActionType.OFFER_DISCOUNT); simpl; [|eauto].
  destruct (proposed_discount_percent proposed) as [p|]; simpl; [|eauto].
  destruct (discount_amount_total context proposed p m Hm) as [a ->]. simpl. eauto.
Qed.

(** Quiet hours are the circular interval of hours from [quiet_hours_start]
    (included) to [quiet_hours_end] (excluded), over midnight when the start is
    later; equal bounds mean no quiet hours. *)
Theorem quiet_hours_dial context settings :
  0 <= quiet_hours_start settings < 24 -> 0 <= quiet_hours_end settings < 24 ->
  _in_quiet_hours context settings = true <->
  in_dial (quiet_hours_start settings) (quiet_hours_end settings) (hour_of (ctx_now context)).
Proof.
  intros Hs He. unfold _in_quiet_hours, in_dial.
  assert (0 <= hour_of (ctx_now context) < 24) as Hh.
  { unfold hour_of, DAY. pose proof (Z.mod_pos_bound (ctx_now context) (24 * HOUR) eq_refl).
    assert (0 < HOUR) by done. split; [apply Z.div_pos; lia|apply Z.div_lt_upper_bound; lia]. }
  generalize dependent (hour_of (ctx_now context)). intros h Hh.
  generalize dependent (quiet_hours_start settings). intros s Hs.
  generalize dependent (quiet_hours_end settings). intros e He.
  destruct (Z.eqb_spec s e) as [->|Hne].
  { rewrite Z.sub_diag, Z.mod_0_l by lia. split; [done|]. intros (k & Hk & _). lia. }
  destruct (Z.ltb_spec s e).
  - rewrite andb_true_iff, Z.leb_le, Z.ltb_lt. rewrite (Z.mod_small (e - s)) by lia. split.
    + intros ?. exists (h - s). split; [lia|]. rewrite Z.mod_small; lia.
    + intros (k & Hk & ->). rewrite Z.mod_small; lia.
  - rewrite orb_true_iff, Z.leb_le, Z.ltb_lt.
    rewrite <- (Z.mod_unique_pos (e - s) 24 (-1) (e - s + 24)) by lia. split.
    + intros [?|?]; [exists (h - s)|exists (h - s + 24)]; (split; [lia|]).
      * rewrite Z.mod_small; lia.
      * apply (Z.mod_unique_pos _ _ 1); lia.
    + intros (k & Hk & ->). destruct (Z.lt_ge_cases (s + k) 24).
      * left. rewrite Z.mod_small; lia.
      * right. rewrite <- (Z.mod_unique_pos (s + k) 24 1 (s + k - 24)); lia.
Qed.
