(* ===== verification/Events.v ===== *)
(** * Provider events and their normal form

    [ProviderEvent] of [recoverai_providers/models.py], the domain events of
    [recoverai_domain/events.py] and [normalize.py], which turns the one into
    the other or rejects it. *)
From S2P Require Import Prelude PyStr Uuid Errors Decimal Json Datetime Enums.
Open Scope stdpp_scope.

Record ProviderEvent : Type := mk_ProviderEvent {
  pe_provider : string;
  pe_event_id : string;
  pe_event_type : string;
  pe_occurred_at : datetime;
  pe_provider_resource_id : string;
  pe_merchant_reference : string;
  pe_payload : dict;
  pe_signature_valid : option bool;
  pe_correlation_id : option string;
}.

Inductive DomainEventType : Type :=
  | PAYMENT_FAILED | PAYMENT_CAPTURED | PAYMENT_REFUNDED | PAYMENT_CANCELLED
  | PAYMENT_AUTHORIZED | PAYMENT_CREATED | UNKNOWN_EVENT.

#[export] Instance DomainEventType_enum : StrEnum DomainEventType := {|
  members := [PAYMENT_FAILED; PAYMENT_CAPTURED; PAYMENT_REFUNDED; PAYMENT_CANCELLED;
              PAYMENT_AUTHORIZED; PAYMENT_CREATED; UNKNOWN_EVENT];
  value := fun t => match t with
    | PAYMENT_FAILED => "PAYMENT_FAILED"
    | PAYMENT_CAPTURED => "PAYMENT_CAPTURED"
    | PAYMENT_REFUNDED => "PAYMENT_REFUNDED"
    | PAYMENT_CANCELLED => "PAYMENT_CANCELLED"
    | PAYMENT_AUTHORIZED => "PAYMENT_AUTHORIZED"
    | PAYMENT_CREATED => "PAYMENT_CREATED"
    | UNKNOWN_EVENT => "UNKNOWN"
    end;
|}.

Record DomainPaymentEvent : Type := mk_DomainPaymentEvent {
  ev_event_type : DomainEventType;
  ev_provider : string;
  ev_provider_event_id : string;
  ev_webhook_event_id : UUID;
  ev_merchant_id : UUID;
  ev_occurred_at : datetime;
  ev_provider_payment_id : string;
  ev_provider_order_id : option string;
  ev_merchant_reference : string;
  ev_amount : Decimal;
  ev_currency : string;
  ev_status : string;
  ev_failure_code : option string;
  ev_attempt_number : Z;
  ev_customer_id : option UUID;
  ev_customer_external_id : option string;
  ev_correlation_id : option string;
  ev_payment_method : option string;
}.

Record UnknownDomainEvent : Type := mk_UnknownDomainEvent {
  un_provider : string;
  un_provider_event_id : string;
  un_webhook_event_id : UUID;
  un_merchant_id : UUID;
  un_occurred_at : datetime;
  un_raw_event_type : string;
  un_correlation_id : option string;
  un_payload_keys : list string;
}.

Inductive NormalizedEvent : Type :=
  | PaymentEvent (e : DomainPaymentEvent)
  | UnknownEvent (e : UnknownDomainEvent).

Definition EVENT_TYPE_MAP : list (string * DomainEventType) := [
  ("payment.failed", PAYMENT_FAILED);
  ("payment.captured", PAYMENT_CAPTURED);
  ("payment.refunded", PAYMENT_REFUNDED);
  ("payment.cancelled", PAYMENT_CANCELLED);
  ("payment.authorized", PAYMENT_AUTHORIZED);
  ("payment.created", PAYMENT_CREATED);
  ("PAYMENT_FAILED", PAYMENT_FAILED);
  ("PAYMENT_CAPTURED", PAYMENT_CAPTURED);
  ("PAYMENT_REFUNDED", PAYMENT_REFUNDED);
  ("PAYMENT_CANCELLED", PAYMENT_CANCELLED)
].

Definition event_type_of (s : string) : option DomainEventType :=
  snd <$> find (fun kv => String.eqb kv.1 s) EVENT_TYPE_MAP.

Fixpoint payload_str (payload : dict) (keys : list string) : option string :=
  match keys with
  | [] => None
  | key :: keys =>
      let v := dict_get key payload in
      match v with
      | JNull => payload_str payload keys
      | _ => if nonempty (strip (py_str v)) then Some (py_str v) else payload_str payload keys
      end
  end.

(** ** [normalize.py] *)

Definition invalid_event (message : string) : exn :=
  IngestionError "INVALID_PROVIDER_EVENT" message 400.

Definition _require_decimal (payload : dict) : result exn PyDec :=
  match dict_get "amount" payload with
  | JNull => Raise (invalid_event "amount is required to normalize this event")
  | raw => ok_or (invalid_event "amount must be a decimal value") (dec_of_str (py_str raw))
  end.

Definition _optional_uuid (v : json) : result exn (option UUID) :=
  match v with
  | JNull => Ok None
  | JStr EmptyString => Ok None
  | _ => match uuid_of_str (py_str v) with
         | Some u => Ok (Some u)
         | None => Raise (invalid_event "customer_id must be a UUID")
         end
  end.

(** [int(payload.get("attempt_number", 1))]: [TypeError] and [ValueError] are
    turned into an ingestion error. *)
Definition attempt_number_of (payload : dict) : result exn Z :=
  match py_int (default (JInt 1) (lookup_key "attempt_number" payload)) with
  | Ok n => Ok n
  | Raise _ => Raise (invalid_event "attempt_number must be an integer")
  end.

(** The field validation of pydantic: a [Decimal] field takes finite values. *)
Definition validate_amount (d : PyDec) : result exn Decimal :=
  match d with
  | Finite d => Ok d
  | NotFinite => Raise (ValidationError "amount: Input should be a finite number")
  end.

(** [a or b] on optional text *)
Definition or_str (a b : option string) : option string :=
  match a with Some s => if nonempty s then a else b | None => b end.

Definition normalize_provider_event (event : ProviderEvent) (webhook_event_id merchant_id : UUID)
  : result exn NormalizedEvent :=
  let payload := pe_payload event in
  match event_type_of (pe_event_type event) with
  | None =>
      Ok (UnknownEvent (mk_UnknownDomainEvent (pe_provider event) (pe_event_id event)
            webhook_event_id merchant_id (pe_occurred_at event) (pe_event_type event)
            (pe_correlation_id event) (sorted_strs (dict_keys payload))))
  | Some domain_type =>
      let provider_payment_id :=
        default (pe_provider_resource_id event)
          (payload_str payload ["provider_payment_id"; "payment_id"]) in
      if negb (nonempty provider_payment_id)
      then Raise (IngestionError "INVALID_PAYMENT_REFERENCE" "provider payment id is required" 400)
      else
        amount ← _require_decimal payload;
        attempt_number ← attempt_number_of payload;
        customer_id ← _optional_uuid (dict_get "customer_id" payload);
        amount ← validate_amount amount;
        mret (PaymentEvent (mk_DomainPaymentEvent domain_type (pe_provider event)
          (pe_event_id event) webhook_event_id merchant_id (pe_occurred_at event)
          provider_payment_id (payload_str payload ["provider_order_id"; "order_id"])
          (pe_merchant_reference event) amount
          (default "INR" (payload_str payload ["currency"]))
          (default (value domain_type) (payload_str payload ["status"]))
          (payload_str payload ["failure_reason"; "failure_code"]) attempt_number customer_id
          (payload_str payload ["customer_external_id"]) (pe_correlation_id event)
          (payload_str payload ["payment_method"])))
  end.

(** ** Lemmas *)

Lemma payload_str_nonblank payload keys s :
  payload_str payload keys = Some s -> nonempty (strip s) = true.
Proof.
  induction keys as [|k keys IH]; simpl; [done|].
  destruct (dict_get k payload) eqn:Hv; try done;
    match goal with |- context [nonempty (strip ?t)] => destruct (nonempty (strip t)) eqn:He end;
    try done; by intros [= <-].
Qed.
