(* ===== verification/Providers.v ===== *)
(** * Payment providers

    [recoverai_providers]: the requests and snapshots of [models.py], the interface of
    [base.py] as the class [PaymentProvider], and the local simulator, its instance,
    with the events it sends. A provider is an object in memory: its operations take and
    return its state [P], and may read the clock. *)
From S2P Require Import Prelude PyStr Uuid Errors Decimal PyFloat Random Json Datetime Enums Rows Store Events.
Open Scope stdpp_scope.

(** ** [models.py] *)

Definition SIMULATOR : string := "SIMULATOR".

Module FailureReason.
Inductive t : Type :=
  | TEMPORARY_BANK_ERROR | INSUFFICIENT_FUNDS | EXPIRED_CARD | DECLINED | NETWORK_TIMEOUT
  | MANDATE_FAILURE | CUSTOMER_CANCELLED | UNKNOWN.

#[export] Instance enum : StrEnum t := {|
  members := [TEMPORARY_BANK_ERROR; INSUFFICIENT_FUNDS; EXPIRED_CARD; DECLINED; NETWORK_TIMEOUT;
              MANDATE_FAILURE; CUSTOMER_CANCELLED; UNKNOWN];
  value := fun m => match m with
    | TEMPORARY_BANK_ERROR => "TEMPORARY_BANK_ERROR"
    | INSUFFICIENT_FUNDS => "INSUFFICIENT_FUNDS"
    | EXPIRED_CARD => "EXPIRED_CARD"
    | DECLINED => "DECLINED"
    | NETWORK_TIMEOUT => "NETWORK_TIMEOUT"
    | MANDATE_FAILURE => "MANDATE_FAILURE"
    | CUSTOMER_CANCELLED => "CUSTOMER_CANCELLED"
    | UNKNOWN => "UNKNOWN"
    end;
|}.

#[export] Instance eq_dec : EqDecision t.
Proof. solve_decision. Defined.

#[export] Instance laws : StrEnumLaws t.
Proof. solve_enum_laws. Qed.
End FailureReason.
#[export] Existing Instances FailureReason.enum FailureReason.eq_dec FailureReason.laws.

Record CustomerHistory : Type := mk_CustomerHistory {
  prior_failures : Z;
  prior_captures : Z;
  history_lifetime_value : Decimal;
}.
Definition no_history : CustomerHistory := mk_CustomerHistory 0 0 ZERO.

Record CreateOrderRequest : Type := mk_CreateOrderRequest {
  order_merchant_reference : string;
  order_amount : Decimal;
  order_currency : string;
  order_customer_reference : option string;
  order_metadata : dict;
}.

Record CreatePaymentRequest : Type := mk_CreatePaymentRequest {
  req_merchant_reference : string;
  req_amount : Decimal;
  req_currency : string;
  req_customer_reference : option string;
  req_provider_order_id : option string;
  req_attempt_number : Z;
  req_customer_history : CustomerHistory;
  req_intended_status : option PaymentStatus.t;
  req_failure_reason : option FailureReason.t;
  req_metadata : dict;
}.

Record CreatePaymentLinkRequest : Type := mk_CreatePaymentLinkRequest {
  link_merchant_reference : string;
  link_amount : Decimal;
  link_currency : string;
  link_customer_reference : option string;
  link_description : option string;
  link_metadata : dict;
}.

Record PaymentLinkSnapshot : Type := mk_PaymentLinkSnapshot {
  plink_provider : string;
  plink_provider_payment_link_id : string;
  plink_merchant_reference : string;
  plink_amount : Decimal;
  plink_currency : string;
  plink_status : string;
  plink_url : string;
  plink_simulated : bool;
  plink_metadata : dict;
}.

Definition set_plink_status (v : string) (r : PaymentLinkSnapshot) : PaymentLinkSnapshot :=
  mk_PaymentLinkSnapshot (plink_provider r) (plink_provider_payment_link_id r)
    (plink_merchant_reference r) (plink_amount r) (plink_currency r) v (plink_url r)
    (plink_simulated r) (plink_metadata r).

Record RefundPaymentRequest : Type := mk_RefundPaymentRequest {
  refund_provider_payment_id : string;
  refund_amount : option Decimal;
  refund_merchant_reference : option string;
}.

Record OrderSnapshot : Type := mk_OrderSnapshot {
  osnap_provider : string;
  osnap_provider_order_id : string;
  osnap_merchant_reference : string;
  osnap_amount : Decimal;
  osnap_currency : string;
  osnap_status : PaymentStatus.t;
  osnap_metadata : dict;
}.

Record PaymentSnapshot : Type := mk_PaymentSnapshot {
  snap_provider : string;
  snap_provider_payment_id : string;
  snap_provider_order_id : option string;
  snap_merchant_reference : string;
  snap_amount : Decimal;
  snap_currency : string;
  snap_status : PaymentStatus.t;
  snap_attempt_number : Z;
  snap_failure_reason : option FailureReason.t;
  snap_payment_method : option string;
  snap_occurred_at : datetime;
  snap_metadata : dict;
}.

(** [payment.model_copy(update={status, occurred_at, failure_reason: None})] *)
Definition refunded_snapshot (now : Z) (r : PaymentSnapshot) : PaymentSnapshot :=
  mk_PaymentSnapshot (snap_provider r) (snap_provider_payment_id r) (snap_provider_order_id r)
    (snap_merchant_reference r) (snap_amount r) (snap_currency r) PaymentStatus.REFUNDED
    (snap_attempt_number r) None (snap_payment_method r) (utc now) (snap_metadata r).

(** ** [base.py] *)

Class PaymentProvider (P : Type) : Type := {
  provider_name : P -> string;
  create_order : CreateOrderRequest -> P -> Op (OrderSnapshot * P);
  create_payment : CreatePaymentRequest -> P -> Op (PaymentSnapshot * P);
  fetch_payment : string -> P -> Op (PaymentSnapshot * P);
  fetch_order_payments : string -> P -> Op (list PaymentSnapshot * P);
  refund_payment : RefundPaymentRequest -> P -> Op (PaymentSnapshot * P);
  create_payment_link : CreatePaymentLinkRequest -> P -> Op (PaymentLinkSnapshot * P);
  fetch_payment_link : string -> P -> Op (PaymentLinkSnapshot * P);
  cancel_payment_link : string -> P -> Op (PaymentLinkSnapshot * P);
}.

(** What the abstract class does for a method that is not overridden. *)
Definition unsupported {P A} `{!PaymentProvider P} (capability : string) (p : P) : Op (A * P) :=
  mthrow (ProviderCapabilityError capability (provider_name p)).

(** Only the clock moves. *)
Definition only_time (w w' : World) : Prop :=
  exists n, (w_ticks w <= n)%nat /\ w' = set_w_ticks n w.

(** The law of a provider: it keeps its own state and leaves the database alone. *)
Class ProviderLaws (P : Type) `{!PaymentProvider P} : Prop := {
  create_payment_law r p : preserves only_time (create_payment r p);
  fetch_payment_law r p : preserves only_time (fetch_payment r p);
  create_payment_link_law r p : preserves only_time (create_payment_link r p);
}.

#[export] Instance only_time_preorder : PreOrder only_time.
Proof.
  split.
  - intros w. exists (w_ticks w). split; [done|]. by destruct w.
  - intros w1 w2 w3 (n & Hn & ->) (m & Hm & ->). exists m. simpl in *. split; [lia|done].
Qed.

Lemma only_time_utcnow : preserves only_time utcnow.
Proof. intros w. exists (S (w_ticks w)). split; [lia|done]. Qed.
#[export] Hint Resolve only_time_utcnow : pres.
