(* ===== verification/Simulator.v ===== *)
(** * The local payment simulator

    [recoverai_providers/simulator]: [provider.py], [outcomes.py] and [events.py]. Its
    outcomes are pseudo-random numbers seeded by the payment, so every run of it
    evaluates. *)
From S2P Require Import Prelude PyStr Uuid Errors Decimal PyFloat Random Json Datetime Enums Rows Store Events Providers.
Open Scope stdpp_scope.

(** ** [outcomes.py] *)

Definition cents (n : Z) : Decimal := mkDec n (-2).

Definition _NEVER_CAPTURE : list FailureReason.t :=
  [FailureReason.CUSTOMER_CANCELLED; FailureReason.MANDATE_FAILURE].

Definition capture_probability (failure_reason : option FailureReason.t) (attempt_number : Z)
  (history : CustomerHistory) : Decimal :=
  let attempt := Z.max attempt_number 1 in
  let prior_fail := Z.max (prior_failures history) 0 in
  let per_attempt (n : Z) := dec_mul (cents n) (dec_of_Z (attempt - 1)) in
  let per_failure (n : Z) := dec_mul (cents n) (dec_of_Z prior_fail) in
  match failure_reason with
  | Some FailureReason.CUSTOMER_CANCELLED | Some FailureReason.MANDATE_FAILURE => cents 0
  | Some FailureReason.EXPIRED_CARD => cents 2
  | Some FailureReason.TEMPORARY_BANK_ERROR =>
      let raw := dec_sub (dec_add (cents 25) (per_attempt 15)) (per_failure 3) in
      dec_min (dec_max raw (cents 5)) (cents 80)
  | Some FailureReason.NETWORK_TIMEOUT =>
      dec_min (dec_add (cents 20) (per_attempt 15)) (cents 75)
  | Some FailureReason.INSUFFICIENT_FUNDS =>
      let raw := dec_sub (dec_add (cents 8) (per_attempt 4)) (per_failure 2) in
      dec_min (dec_max raw (cents 2)) (cents 35)
  | Some FailureReason.DECLINED => dec_min (dec_add (cents 12) (per_attempt 5)) (cents 40)
  | Some FailureReason.UNKNOWN | None =>
      dec_min (dec_add (cents 15) (dec_mul (cents 5) (dec_of_Z attempt))) (cents 50)
  end.

(** [rng] is the text the generator is seeded with; one number is drawn at most. *)
Definition roll_attempt_outcome (rng : string) (failure_reason : option FailureReason.t)
  (attempt_number : Z) (history : CustomerHistory) (intended_status : option PaymentStatus.t)
  : PaymentStatus.t * option FailureReason.t :=
  match intended_status with
  | Some PaymentStatus.FAILED =>
      (PaymentStatus.FAILED, Some (default FailureReason.UNKNOWN failure_reason))
  | Some PaymentStatus.CANCELLED =>
      (PaymentStatus.CANCELLED, Some (default FailureReason.CUSTOMER_CANCELLED failure_reason))
  | Some status => (status, None)
  | None =>
      let reason := default FailureReason.UNKNOWN failure_reason in
      if bool_decide (reason = FailureReason.CUSTOMER_CANCELLED)
      then (PaymentStatus.CANCELLED, Some reason)
      else if draws_below rng (capture_probability (Some reason) attempt_number history)
      then (PaymentStatus.CAPTURED, None)
      else (PaymentStatus.FAILED, Some reason)
  end.

(** ** [events.py] *)

Definition event_type_for_status (status : string) : string :=
  match of_value status with
  | Some PaymentStatus.CREATED => "payment.created"
  | Some PaymentStatus.AUTHORIZED => "payment.authorized"
  | Some PaymentStatus.CAPTURED => "payment.captured"
  | Some PaymentStatus.FAILED => "payment.failed"
  | Some PaymentStatus.REFUNDED => "payment.refunded"
  | Some PaymentStatus.CANCELLED => "payment.cancelled"
  | _ => "payment." +:+ lower status
  end.

(** [hashlib.sha256(material).hexdigest()[:n]] *)
Definition digest (n : nat) (parts : list string) : string :=
  prefix_n n (hex_of_bytes (sha256 (bytes_of_string (join ":" parts)))).

Definition deterministic_event_id (seed : Z) (provider_payment_id event_type : string)
  (attempt_number : Z) : string :=
  "evt_sim_" +:+ digest 20 [str_int seed; provider_payment_id; event_type; str_int attempt_number].
Definition deterministic_payment_id (seed : Z) (merchant_reference : string) (sequence : Z) : string :=
  "pay_sim_" +:+ digest 16 [str_int seed; "pay"; merchant_reference; str_int sequence].
Definition deterministic_order_id (seed : Z) (merchant_reference : string) (sequence : Z) : string :=
  "order_sim_" +:+ digest 16 [str_int seed; "order"; merchant_reference; str_int sequence].
Definition deterministic_payment_link_id (seed : Z) (merchant_reference : string) (sequence : Z)
  : string :=
  "plink_sim_" +:+ digest 16 [str_int seed; "plink"; merchant_reference; str_int sequence].

Definition opt_value {A} `{StrEnum A} (o : option A) : json :=
  match o with Some a => JStr (value a) | None => JNull end.

(** [occurred_at or datetime.now(UTC)] *)
Definition time_or_now (occurred_at : option datetime) : Op datetime :=
  match occurred_at with Some t => mret t | None => now ← utcnow; mret (utc now) end.

(** The status of a snapshot is a text in the code; [status] is it, which is that of the
    snapshot whenever that is one of the enumeration. *)
Definition build_event_with_status (status : string) (snapshot : PaymentSnapshot) (seed : Z)
  (correlation_id : option string) (extra_payload : dict) (occurred_at : option datetime)
  (event_type : option string) : Op ProviderEvent :=
  let resolved_type := match event_type with
                       | Some t => if nonempty t then t else event_type_for_status status
                       | None => event_type_for_status status
                       end in
  noted ← time_or_now occurred_at;
  let payload := [
    ("provider_payment_id", JStr (snap_provider_payment_id snapshot));
    ("provider_order_id", opt_str (snap_provider_order_id snapshot));
    ("amount", JStr (dec_str (snap_amount snapshot)));
    ("currency", JStr (snap_currency snapshot));
    ("status", JStr status);
    ("attempt_number", JInt (snap_attempt_number snapshot));
    ("failure_reason", opt_value (snap_failure_reason snapshot));
    ("payment_method", opt_str (snap_payment_method snapshot));
    ("merchant_reference", JStr (snap_merchant_reference snapshot));
    ("occurred_at", JStr (isoformat noted))] in
  sent ← time_or_now occurred_at;
  mret (mk_ProviderEvent SIMULATOR
    (deterministic_event_id seed (snap_provider_payment_id snapshot) resolved_type
       (snap_attempt_number snapshot))
    resolved_type sent (snap_provider_payment_id snapshot) (snap_merchant_reference snapshot)
    (dict_update payload extra_payload) (Some true) correlation_id).

Definition build_provider_event (snapshot : PaymentSnapshot) : Z -> option string -> dict ->
  option datetime -> option string -> Op ProviderEvent :=
  build_event_with_status (value (snap_status snapshot)) snapshot.

(** ** [provider.py] *)

Record LocalSimulationProvider : Type := mk_LocalSimulationProvider {
  sim_seed : Z;
  sim_sequence : Z;
  sim_orders : gmap string OrderSnapshot;
  sim_payments : gmap string PaymentSnapshot;
  sim_order_payments : gmap string (list string);
  sim_payment_links : gmap string PaymentLinkSnapshot;
}.

Definition new_simulator (seed : Z) : LocalSimulationProvider :=
  mk_LocalSimulationProvider seed 0 ∅ ∅ ∅ ∅.

Definition set_sequence (v : Z) (p : LocalSimulationProvider) : LocalSimulationProvider :=
  mk_LocalSimulationProvider (sim_seed p) v (sim_orders p) (sim_payments p) (sim_order_payments p)
    (sim_payment_links p).
Definition set_orders (v : gmap string OrderSnapshot) (p : LocalSimulationProvider)
  : LocalSimulationProvider :=
  mk_LocalSimulationProvider (sim_seed p) (sim_sequence p) v (sim_payments p) (sim_order_payments p)
    (sim_payment_links p).
Definition set_payments (v : gmap string PaymentSnapshot) (p : LocalSimulationProvider)
  : LocalSimulationProvider :=
  mk_LocalSimulationProvider (sim_seed p) (sim_sequence p) (sim_orders p) v (sim_order_payments p)
    (sim_payment_links p).
Definition set_order_payments (v : gmap string (list string)) (p : LocalSimulationProvider)
  : LocalSimulationProvider :=
  mk_LocalSimulationProvider (sim_seed p) (sim_sequence p) (sim_orders p) (sim_payments p) v
    (sim_payment_links p).
Definition set_payment_links (v : gmap string PaymentLinkSnapshot) (p : LocalSimulationProvider)
  : LocalSimulationProvider :=
  mk_LocalSimulationProvider (sim_seed p) (sim_sequence p) (sim_orders p) (sim_payments p)
    (sim_order_payments p) v.

(** The next number, and the provider that has given it. *)
Definition _next_sequence (p : LocalSimulationProvider) : Z * LocalSimulationProvider :=
  let sequence := (sim_sequence p + 1)%Z in (sequence, set_sequence sequence p).

(** The text [_rng] seeds its generator with. *)
Definition _rng (p : LocalSimulationProvider) (parts : list string) : string :=
  join ":" (str_int (sim_seed p) :: parts).

Definition known_order (p : LocalSimulationProvider) (provider_order_id : string) : list string :=
  default [] (sim_order_payments p !! provider_order_id).

Definition sim_create_order (r : CreateOrderRequest) (p : LocalSimulationProvider)
  : OrderSnapshot * LocalSimulationProvider :=
  let '(sequence, p) := _next_sequence p in
  let id := deterministic_order_id (sim_seed p) (order_merchant_reference r) sequence in
  let order := mk_OrderSnapshot SIMULATOR id (order_merchant_reference r) (order_amount r)
                 (order_currency r) PaymentStatus.CREATED (order_metadata r) in
  (order, set_order_payments (<[id := known_order p id]> (sim_order_payments p))
            (set_orders (<[id := order]> (sim_orders p)) p)).

(** The order of a payment: the one named, recorded when it is not known, or a new one. *)
Definition order_for (r : CreatePaymentRequest) (p : LocalSimulationProvider)
  : string * LocalSimulationProvider :=
  match req_provider_order_id r with
  | None =>
      let '(order, p) := sim_create_order
        (mk_CreateOrderRequest (req_merchant_reference r) (req_amount r) (req_currency r)
           (req_customer_reference r) []) p in
      (osnap_provider_order_id order, p)
  | Some id =>
      match sim_orders p !! id with
      | Some _ => (id, p)
      | None => (id, set_orders (<[id := mk_OrderSnapshot SIMULATOR id (req_merchant_reference r)
                   (req_amount r) (req_currency r) PaymentStatus.CREATED []]> (sim_orders p)) p)
      end
  end.

Definition sim_create_payment (r : CreatePaymentRequest) (p : LocalSimulationProvider)
  : Op (PaymentSnapshot * LocalSimulationProvider) :=
  let '(sequence, p) := _next_sequence p in
  let id := deterministic_payment_id (sim_seed p) (req_merchant_reference r) sequence in
  let '(order_id, p) := order_for r p in
  let '(status, failure_reason) :=
    roll_attempt_outcome (_rng p [id; str_int (req_attempt_number r)]) (req_failure_reason r)
      (req_attempt_number r) (req_customer_history r) (req_intended_status r) in
  now ← utcnow;
  let snapshot := mk_PaymentSnapshot SIMULATOR id (Some order_id) (req_merchant_reference r)
    (req_amount r) (req_currency r) status (req_attempt_number r) failure_reason (Some "card")
    (utc now) (req_metadata r) in
  mret (snapshot, set_order_payments (<[order_id := known_order p order_id ++ [id]]> (sim_order_payments p))
                    (set_payments (<[id := snapshot]> (sim_payments p)) p)).

Definition sim_fetch_payment (id : string) (p : LocalSimulationProvider)
  : Op (PaymentSnapshot * LocalSimulationProvider) :=
  match sim_payments p !! id with
  | None => mthrow (ProviderNotFoundError "payment" id)
  | Some payment => mret (payment, p)
  end.

Definition sim_fetch_order_payments (id : string) (p : LocalSimulationProvider)
  : Op (list PaymentSnapshot * LocalSimulationProvider) :=
  if negb (is_some (sim_orders p !! id)) && negb (is_some (sim_order_payments p !! id))
  then mthrow (ProviderNotFoundError "order" id)
  else mret (omap (fun i => sim_payments p !! i) (known_order p id), p).

Definition sim_refund_payment (r : RefundPaymentRequest) (p : LocalSimulationProvider)
  : Op (PaymentSnapshot * LocalSimulationProvider) :=
  let id := refund_provider_payment_id r in
  match sim_payments p !! id with
  | None => mthrow (ProviderNotFoundError "payment" id)
  | Some payment =>
      if negb (bool_decide (snap_status payment ∈ [PaymentStatus.CAPTURED; PaymentStatus.AUTHORIZED]))
      then mthrow (ProviderError "PROVIDER_REFUND_INVALID_STATE"
                     ("Cannot refund payment in status " +:+ value (snap_status payment)))
      else
        now ← utcnow;
        let refunded := refunded_snapshot now payment in
        mret (refunded, set_payments (<[id := refunded]> (sim_payments p)) p)
  end.

Definition sim_create_payment_link (r : CreatePaymentLinkRequest) (p : LocalSimulationProvider)
  : Op (PaymentLinkSnapshot * LocalSimulationProvider) :=
  let '(sequence, p) := _next_sequence p in
  let id := deterministic_payment_link_id (sim_seed p) (link_merchant_reference r) sequence in
  let snapshot := mk_PaymentLinkSnapshot SIMULATOR id (link_merchant_reference r) (link_amount r)
    (link_currency r) "CREATED" ("sim://payment-link/" +:+ id) true
    (dict_update (link_metadata r)
       [("simulated", JBool true); ("description", opt_str (link_description r));
        ("customer_reference", opt_str (link_customer_reference r))]) in
  mret (snapshot, set_payment_links (<[id := snapshot]> (sim_payment_links p)) p).

Definition sim_fetch_payment_link (id : string) (p : LocalSimulationProvider)
  : Op (PaymentLinkSnapshot * LocalSimulationProvider) :=
  match sim_payment_links p !! id with
  | None => mthrow (ProviderNotFoundError "payment_link" id)
  | Some link => mret (link, p)
  end.

Definition sim_cancel_payment_link (id : string) (p : LocalSimulationProvider)
  : Op (PaymentLinkSnapshot * LocalSimulationProvider) :=
  match sim_payment_links p !! id with
  | None => mthrow (ProviderNotFoundError "payment_link" id)
  | Some link =>
      let cancelled := set_plink_status "CANCELLED" link in
      mret (cancelled, set_payment_links (<[id := cancelled]> (sim_payment_links p)) p)
  end.

#[export] Instance simulator_provider : PaymentProvider LocalSimulationProvider := {|
  provider_name := fun _ => SIMULATOR;
  create_order := fun r p => mret (sim_create_order r p);
  create_payment := sim_create_payment;
  fetch_payment := sim_fetch_payment;
  fetch_order_payments := sim_fetch_order_payments;
  refund_payment := sim_refund_payment;
  create_payment_link := sim_create_payment_link;
  fetch_payment_link := sim_fetch_payment_link;
  cancel_payment_link := sim_cancel_payment_link;
|}.

#[export] Instance simulator_laws : ProviderLaws LocalSimulationProvider.
Proof.
  split; intros r p; simpl.
  - unfold sim_create_payment. destruct (_next_sequence p) as [s q]. destruct (order_for r q) as [o q'].
    destruct (roll_attempt_outcome _ _ _ _ _). solve_pres.
  - unfold sim_fetch_payment. solve_pres.
  - unfold sim_create_payment_link. destruct (_next_sequence p). solve_pres.
Qed.

(** [recoverai_providers/registry.py] *)
Definition upper_char (c : Ascii.ascii) : Ascii.ascii :=
  let n := code c in if ((97 <=? n) && (n <=? 122))%N then Ascii.ascii_of_N (n - 32) else c.
Fixpoint upper (s : string) : string :=
  match s with EmptyString => EmptyString | String c s => String (upper_char c) (upper s) end.

Definition get_payment_provider (name : option string) (seed : Z)
  : result exn LocalSimulationProvider :=
  let resolved := upper (match name with Some n => if nonempty n then n else SIMULATOR | None => SIMULATOR end) in
  if mem_str resolved [SIMULATOR; "LOCAL"; "LOCAL_SIMULATION"] then Ok (new_simulator seed)
  else Raise (ProviderError "PROVIDER_NOT_CONFIGURED"
                ("Payment provider " +:+ resolved
                 +:+ " is not available. Razorpay is not implemented in Phase 5.")).
