(* ===== verification/Interventions.v ===== *)
(** * Recovery probabilities of interventions

    [recoverai_providers/simulator/interventions.py]: how likely a case is to be
    recovered by an action, which extends the capture probability of the simulator.
    The floats of the context are given by the decimals they print as (see
    [PyFloat]); they are finite. *)
From S2P Require Import Prelude PyStr Uuid Errors Decimal Rounding PyFloat Random Enums Providers Simulator.
Open Scope stdpp_scope.

Definition SCORABLE_ACTIONS : list string := map value (members (A := RecoveryActionType.t)).
Definition _HARD_FAILURES : list FailureReason.t := _NEVER_CAPTURE.

Record InterventionContext : Type := mk_InterventionContext {
  iv_failure_reason : option FailureReason.t;
  iv_attempt_number : Z;
  iv_history : CustomerHistory;
  iv_historical_success_rate : Decimal;
  iv_historical_recovery_rate : Decimal;
  iv_communication_count : Z;
  iv_previous_discount_usage : Decimal;
  iv_cart_age_hours : option Decimal;
  iv_customer_lifetime_value : Decimal;
  iv_amount : Decimal;
  iv_hour_of_day : Z;
  iv_case_type : string;
}.

(** [Decimal("0.045")] and the like. *)
Definition milli (n : Z) : Decimal := mkDec n (-3).

Definition _clip_prob (v : Decimal) : result exn Decimal :=
  if dec_ltb v (dec_of_Z 0) then mret (cents 0)
  else if dec_ltb (cents 95) v then mret (cents 95)
  else quantize (-4) v.

Definition _dec (v : Decimal) : Decimal := round6 v.

(** [_dec(min(max(x, 0.0), 1.0))] *)
Definition unit_dec (x : Decimal) : Decimal := _dec (dec_min (dec_max x float_zero) float_one).

(** The terms the branches share. *)
Record InterventionTerms : Type := mk_InterventionTerms {
  tm_retry_base : Decimal;
  tm_success : Decimal;
  tm_loyalty : Decimal;
  tm_fatigue : Decimal;
  tm_discount_used : Decimal;
  tm_cart_pen : Decimal;
  tm_attempt_pen : Decimal;
  tm_high_amount_pen : Decimal;
  tm_quiet_hour : bool;
  tm_abandoned : bool;
}.

Definition intervention_terms (c : InterventionContext) : result exn InterventionTerms :=
  let attempt := Z.max (iv_attempt_number c) 1 in
  let retry_base := capture_probability (iv_failure_reason c) attempt (iv_history c) in
  let success := unit_dec (iv_historical_success_rate c) in
  let prior_recovery := unit_dec (iv_historical_recovery_rate c) in
  let loyalty := dec_add (dec_mul (cents 12) success) (dec_mul (cents 8) prior_recovery) in
  contacts ← dec_div (dec_of_Z (Z.max (iv_communication_count c) 0)) (dec_of_Z 8);
  let fatigue := dec_min (dec_of_Z 1) contacts in
  let discount_used := unit_dec (iv_previous_discount_usage c) in
  cart_pen ← match iv_cart_age_hours c with
             | None => mret (dec_of_Z 0)
             | Some age =>
                 let hours := dec_max age float_zero in
                 aged ← dec_div hours (dec_of_Z 720);
                 mret (dec_min (cents 28) (dec_mul aged (cents 28)))
             end;
  let attempt_pen := dec_mul (milli 45) (dec_of_Z (Z.max (attempt - 1) 0)) in
  let clv := iv_customer_lifetime_value c in
  amount_ratio ← (if dec_ltb (dec_of_Z 0) clv
                  then ratio ← dec_div (iv_amount c) clv; mret (dec_min ratio (dec_of_Z 5))
                  else mret (dec_of_Z 0));
  let high_amount_pen := dec_mul (cents 4) (dec_max (dec_sub amount_ratio (dec_of_Z 1)) (dec_of_Z 0)) in
  let quiet_hour := ((21 <=? iv_hour_of_day c) || (iv_hour_of_day c <? 8))%Z in
  mret (mk_InterventionTerms retry_base success loyalty fatigue discount_used cart_pen attempt_pen
          high_amount_pen quiet_hour (String.eqb (iv_case_type c) "ABANDONED_CHECKOUT")).

(** The actions after a hard failure. *)
Definition hard_probability (mandate : bool) (success : Decimal) (action : RecoveryActionType.t)
  : result exn Decimal :=
  match action with
  | RecoveryActionType.ESCALATE => _clip_prob (dec_add (cents 4) (dec_mul (cents 4) success))
  | RecoveryActionType.DO_NOTHING => mret (cents 1)
  | RecoveryActionType.SEND_PAYMENT_LINK =>
      if mandate then _clip_prob (dec_add (cents 3) (dec_mul (cents 5) success)) else mret (cents 1)
  | _ => mret (cents 1)
  end.

(** The score of the other failures before it is clipped. *)
Definition soft_score (reason : option FailureReason.t) (t : InterventionTerms)
  (action : RecoveryActionType.t) : Decimal :=
  let due_to r := bool_decide (reason = Some r) in
  let '(mk_InterventionTerms retry_base success loyalty fatigue discount_used cart_pen attempt_pen
         high_amount_pen quiet_hour abandoned) := t in
  let base_score := dec_sub (dec_add retry_base loyalty) cart_pen in
  match action with
  | RecoveryActionType.RETRY_NOW =>
      let p := dec_sub (dec_sub base_score attempt_pen) high_amount_pen in
      if due_to FailureReason.INSUFFICIENT_FUNDS then dec_mul p (cents 62)
      else if due_to FailureReason.TEMPORARY_BANK_ERROR then dec_min (cents 90) (dec_add p (cents 10))
      else if due_to FailureReason.NETWORK_TIMEOUT then dec_min (cents 85) (dec_add p (cents 6))
      else if due_to FailureReason.EXPIRED_CARD then dec_min p (cents 6)
      else p
  | RecoveryActionType.RETRY_LATER =>
      let p := dec_sub (dec_sub base_score (dec_mul (cents 2) attempt_pen)) high_amount_pen in
      if due_to FailureReason.INSUFFICIENT_FUNDS
      then dec_min (cents 58) (dec_sub (dec_add (dec_mul retry_base (cents 215)) loyalty) cart_pen)
      else if due_to FailureReason.TEMPORARY_BANK_ERROR
      then dec_sub (dec_add retry_base loyalty) (cents 3)
      else if due_to FailureReason.EXPIRED_CARD then dec_min p (cents 7)
      else p
  | RecoveryActionType.SEND_PAYMENT_LINK =>
      let p := dec_sub (dec_sub (dec_add (dec_add (cents 18) loyalty) (dec_mul (cents 8) success)) cart_pen)
                 attempt_pen in
      let p := if due_to FailureReason.EXPIRED_CARD
               then dec_sub (dec_add (cents 42) (dec_mul (cents 22) success)) cart_pen
               else if due_to FailureReason.DECLINED then dec_add (cents 22) loyalty
               else if due_to FailureReason.TEMPORARY_BANK_ERROR
               then dec_add (dec_mul retry_base (cents 55)) (cents 8)
               else p in
      if abandoned then dec_add p (cents 6) else p
  | RecoveryActionType.SEND_REMINDER =>
      let p := dec_sub (dec_sub (dec_sub (dec_add (cents 14) (dec_mul (cents 20) success))
                 (dec_mul (cents 22) fatigue)) cart_pen) attempt_pen in
      let p := if quiet_hour then dec_sub p (cents 5) else p in
      let p := if abandoned then dec_add p (cents 4) else p in
      if due_to FailureReason.EXPIRED_CARD then dec_mul p (cents 45) else p
  | RecoveryActionType.OFFER_DISCOUNT =>
      let novelty := dec_sub (dec_of_Z 1) (dec_mul (cents 70) discount_used) in
      let p := dec_sub (dec_sub (dec_add (dec_add (cents 20) (dec_mul (cents 16) success))
                 (dec_mul (cents 8) novelty)) cart_pen) high_amount_pen in
      let p := if due_to FailureReason.INSUFFICIENT_FUNDS then dec_add p (cents 6) else p in
      let p := if abandoned then dec_add p (cents 5) else p in
      dec_mul p novelty
  | RecoveryActionType.DO_NOTHING =>
      let organic := dec_sub (dec_add (milli 25) (dec_mul (cents 6) success)) (dec_mul (milli 15) fatigue) in
      if abandoned then dec_sub organic (dec_mul cart_pen (mkDec 5 (-1))) else organic
  | RecoveryActionType.ESCALATE =>
      dec_sub (dec_add (cents 8) (dec_mul (cents 12) success)) (dec_mul (cents 3) fatigue)
  end.

(** [reason in _HARD_FAILURES] *)
Definition in_hard_failures (reason : option FailureReason.t) : bool :=
  match reason with Some r => bool_decide (r ∈ _HARD_FAILURES) | None => false end.

Definition intervention_recovery_probability (c : InterventionContext) (action : string)
  : result exn Decimal :=
  match of_value action with
  | None => Raise (ValueError ("Unknown recovery action: " +:+ action))
  | Some parsed =>
      terms ← intervention_terms c;
      let reason := iv_failure_reason c in
      if in_hard_failures reason
      then hard_probability (bool_decide (reason = Some FailureReason.MANDATE_FAILURE)) (tm_success terms) parsed
      else _clip_prob (soft_score reason terms parsed)
  end.

(** A customer with a perfect record whose bank was down, at noon. *)
Definition calm_context (reason : FailureReason.t) (count : Z) : InterventionContext :=
  mk_InterventionContext (Some reason) 1 (mk_CustomerHistory 0 5 (mkDec 100000 (-2))) (mkDec 5 (-1))
    (mkDec 25 (-2)) count float_zero None (mkDec 100000 (-2)) (mkDec 49900 (-2)) 12 "FAILED_PAYMENT".

Example probabilities_of_a_bank_error :
  map (intervention_recovery_probability (calm_context FailureReason.TEMPORARY_BANK_ERROR 2)) SCORABLE_ACTIONS
  = map (fun n => Ok (mkDec n (-4))) [4300; 3000; 2175; 1850; 3600; 1325; 512]%Z.
Proof. vm_compute. reflexivity. Qed.

(** ** Bounds *)

Lemma dec_div_total x y : d_int y <> 0%Z -> exists q, dec_div x y = Ok q.
Proof.
  intros H. unfold dec_div. rewrite (proj2 (Z.eqb_neq _ _) H). destruct (d_int x =? 0)%Z; eauto.
Qed.

Lemma positive_nonzero x : dec_ltb (dec_of_Z 0) x = true -> d_int x <> 0%Z.
Proof.
  intros H E. set (m := Z.min 0 (d_exp x)). rewrite (dec_ltb_at m) in H by (unfold m; simpl; lia).
  unfold coeff_at in H. rewrite E in H. simpl in H. by rewrite Z.ltb_irrefl in H.
Qed.

Lemma intervention_terms_total c :
  exists t, intervention_terms c = Ok t /\ tm_success t = unit_dec (iv_historical_success_rate c).
Proof.
  unfold intervention_terms.
  destruct (dec_div_total (dec_of_Z (Z.max (iv_communication_count c) 0)) (dec_of_Z 8)) as [contacts ->]; [done|].
  simpl mbind.
  assert (forall A (f : Decimal -> result exn A) (P : A -> Prop), (forall q, exists t, f q = Ok t /\ P t) ->
    exists t, match iv_cart_age_hours c with
              | None => mret (dec_of_Z 0)
              | Some age => aged ← dec_div (dec_max age float_zero) (dec_of_Z 720);
                            mret (dec_min (cents 28) (dec_mul aged (cents 28)))
              end ≫= f = Ok t /\ P t) as Hcart.
  { intros A f P Hf. destruct (iv_cart_age_hours c) as [age|]; [|apply Hf].
    destruct (dec_div_total (dec_max age float_zero) (dec_of_Z 720)) as [q ->]; [done|]. apply Hf. }
  apply Hcart. intros pen. destruct (dec_ltb (dec_of_Z 0) (iv_customer_lifetime_value c)) eqn:Hclv; [|simpl; eauto].
  destruct (dec_div_total (iv_amount c) (iv_customer_lifetime_value c)) as [q ->]; [by apply positive_nonzero|].
  simpl. eauto.
Qed.

(** Quantizing keeps a value between two that are already quantized. *)
Lemma quantize_between e lo hi x : d_exp lo = e -> d_exp hi = e -> in_prec (d_int lo) -> in_prec (d_int hi) ->
  dec_leb lo x = true -> dec_leb x hi = true ->
  exists y, quantize e x = Ok y /\ dec_leb lo y = true /\ dec_leb y hi = true.
Proof.
  intros <- He Hl Hh Hlo Hhi. unfold quantize.
  set (c := if (d_exp lo <=? d_exp x)%Z then coeff_at (d_exp lo) x
            else div_half_even (d_int x) (10 ^ (d_exp lo - d_exp x))).
  assert (d_int lo <= c <= d_int hi)%Z as Hc.
  { subst c. destruct (Z.leb_spec (d_exp lo) (d_exp x)) as [H|H].
    - rewrite (dec_leb_at (d_exp lo)) in Hlo, Hhi by lia. apply Z.leb_le in Hlo, Hhi.
      rewrite coeff_at_same in Hlo. rewrite <- He, coeff_at_same, He in Hhi. lia.
    - rewrite (dec_leb_at (d_exp x)) in Hlo, Hhi by lia. apply Z.leb_le in Hlo, Hhi.
      rewrite coeff_at_same in Hlo, Hhi. unfold coeff_at in Hlo, Hhi. rewrite He in Hhi.
      pose proof (pow10_pos (d_exp lo - d_exp x) ltac:(lia)) as Hp.
      rewrite <- (div_half_even_exact (d_int lo) _ Hp), <- (div_half_even_exact (d_int hi) _ Hp).
      split; by apply div_half_even_mono. }
  rewrite ndigits_small by (unfold in_prec in *; lia). eexists. split; [done|].
  rewrite !(dec_leb_at (d_exp lo)) by (simpl; lia). unfold coeff_at. simpl d_exp. rewrite He, Z.sub_diag. simpl.
  rewrite !Z.leb_le. lia.
Qed.

Definition probability_within (hi : Decimal) (r : result exn Decimal) : Prop :=
  exists p, r = Ok p /\ dec_leb (dec_of_Z 0) p = true /\ dec_leb p hi = true.

Lemma clip_within hi v : d_exp hi = (-4)%Z -> in_prec (d_int hi) -> (0 <= d_int hi <= 9500)%Z ->
  dec_leb v hi = true -> probability_within hi (_clip_prob v).
Proof.
  intros He Hp Hi Hv. unfold _clip_prob. destruct hi as [h e]. simpl in *. subst e.
  destruct (dec_ltb v (dec_of_Z 0)) eqn:Hneg.
  { exists (cents 0). split_and!; [done..|]. rewrite (dec_leb_at (-4)) by done. apply Z.leb_le.
    unfold coeff_at. simpl. lia. }
  rewrite dec_ltb_leb in Hneg. apply negb_false_iff in Hneg.
  destruct (dec_ltb (cents 95) v) eqn:Hbig.
  { exists (cents 95). rewrite dec_ltb_leb in Hbig. split_and!; [done..|].
    destruct (dec_leb_total (cents 95) v) as [H|H]; [by eapply dec_leb_trans|by rewrite H in Hbig]. }
  destruct (quantize_between (-4) (mkDec 0 (-4)) (mkDec h (-4)) v) as (y & E & Hlo & Hhi); try done.
  - by apply (dec_leb_trans _ (dec_of_Z 0)).
  - exists y. split_and!; [done| |done]. by apply (dec_leb_trans _ (mkDec 0 (-4))).
Qed.

Lemma clip_bounded v : probability_within (mkDec 9500 (-4)) (_clip_prob v).
Proof.
  destruct (dec_ltb (cents 95) v) eqn:Hbig.
  - unfold _clip_prob. rewrite Hbig. rewrite dec_ltb_leb in Hbig. destruct (dec_ltb v (dec_of_Z 0)).
    + exists (cents 0). split_and!; vm_compute; done.
    + exists (cents 95). split_and!; vm_compute; done.
  - apply clip_within; [done..|simpl; lia|]. rewrite dec_ltb_leb in Hbig. apply negb_false_iff in Hbig.
    by apply (dec_leb_trans _ (cents 95)).
Qed.

(** A rounded float of the unit interval is in it. *)
Lemma dec_min_le_r x y : dec_leb (dec_min x y) y = true.
Proof.
  unfold dec_min. destruct (dec_ltb y x) eqn:E; [apply dec_leb_refl|].
  rewrite dec_ltb_leb in E. by apply negb_false_iff in E.
Qed.

Lemma dec_max_ge_r x y : dec_leb y (dec_max x y) = true.
Proof.
  unfold dec_max. destruct (dec_ltb x y) eqn:E; [apply dec_leb_refl|].
  rewrite dec_ltb_leb in E. by apply negb_false_iff in E.
Qed.

Lemma unit_dec_unit x : dec_leb (dec_of_Z 0) (unit_dec x) = true /\ dec_leb (unit_dec x) (dec_of_Z 1) = true.
Proof.
  apply round6_unit.
  - unfold dec_min. destruct (dec_ltb _ _); [done|]. by apply (dec_leb_trans _ float_zero), dec_max_ge_r.
  - by apply (dec_leb_trans _ float_one); [apply dec_min_le_r|].
Qed.

(** The value of a hard failure's score, from the sum of its two terms. *)
Lemma scaled_unit_le base factor s : (0 <= factor)%Z -> dec_leb s (dec_of_Z 1) = true ->
  (Z.abs (base + factor) < 10 ^ prec)%Z -> (factor < 10 ^ prec)%Z ->
  dec_leb (dec_add (cents base) (dec_mul (cents factor) s)) (cents (base + factor)) = true.
Proof.
  intros Hf Hs Hb Hp. pose proof (dec_mul_le s (cents factor)) as H.
  assert (dec_leb (dec_mul (cents factor) s) (cents factor) = true) as Hm.
  { unfold dec_mul. rewrite Z.mul_comm, (Z.add_comm (d_exp (cents factor))). apply H; [|done|done].
    unfold representable, in_prec. simpl. lia. }
  set (m := dec_mul (cents factor) s) in *. apply fix_prec_le; [exact Hb|].
  set (e := Z.min (d_exp (cents base)) (d_exp m)). assert (e <= -2)%Z by (unfold e; simpl; lia).
  rewrite (dec_leb_at e) in Hm by (unfold e, cents; simpl; lia). rewrite (dec_leb_at e) by (simpl; lia).
  apply Z.leb_le in Hm. apply Z.leb_le. unfold coeff_at in *. cbn [d_int d_exp cents] in *.
  rewrite Z.sub_diag, Z.mul_1_r, Z.mul_add_distr_r. lia.
Qed.

Lemma hard_within mandate success action : dec_leb success (dec_of_Z 1) = true ->
  probability_within (mkDec 800 (-4)) (hard_probability mandate success action).
Proof.
  intros H. assert (probability_within (mkDec 800 (-4)) (Ok (cents 1))) as Hone.
  { exists (cents 1). by split_and!. }
  assert (probability_within (mkDec 800 (-4)) (_clip_prob (dec_add (cents 4) (dec_mul (cents 4) success)))) as H4.
  { apply clip_within; [done|done|simpl; lia|].
    apply (dec_leb_trans _ (cents 8)); [by apply (scaled_unit_le 4 4)|done]. }
  destruct action; try exact Hone; [|exact H4]. destruct mandate; [|exact Hone].
  apply clip_within; [done|done|simpl; lia|].
  apply (dec_leb_trans _ (cents 8)); [by apply (scaled_unit_le 3 5)|done].
Qed.

(** Every action of the enumeration has a probability of recovery between 0 and 0.95
    in every context, and one of at most 0.08 after a cancellation or a lost mandate; any
    other action is refused. *)
Theorem intervention_probability_bounded c action :
  match of_value (A := RecoveryActionType.t) action with
  | None => intervention_recovery_probability c action
            = Raise (ValueError ("Unknown recovery action: " +:+ action))
  | Some _ =>
      probability_within
        (if in_hard_failures (iv_failure_reason c) then mkDec 800 (-4) else mkDec 9500 (-4))
        (intervention_recovery_probability c action)
  end.
Proof.
  unfold intervention_recovery_probability. destruct (of_value action) as [parsed|]; [|done].
  assert (exists t, intervention_terms c = Ok t /\ dec_leb (tm_success t) (dec_of_Z 1) = true) as (t & -> & Ht).
  { destruct (intervention_terms_total c) as (t & E & Hs). exists t. rewrite Hs. split; [done|]. apply unit_dec_unit. }
  simpl. destruct (in_hard_failures _); [by apply hard_within|apply clip_bounded].
Qed.
