(* ===== verification/Inference.v ===== *)
(** * Scoring a case

    [recoverai_eval]: the schema of a case context ([schema.py]), the features a model
    sees ([constants.py], [features/engineering.py]), the rules that stand in for a model
    ([inference/fallback.py]), the stored models ([models/versioning.py]) and the
    prediction itself ([inference/api.py]).  Floats are represented as in [PyFloat]. *)
From S2P Require Import Prelude PyStr Uuid Errors Decimal Rounding PyFloat Json Enums OptimizerService Providers Simulator Interventions.
Open Scope stdpp_scope.

(** ** [schema.py] *)

Record CaseContext : Type := mk_CaseContext {
  cc_amount : Decimal;
  cc_failure_reason : string;
  cc_attempt_number : Z;
  cc_merchant_category : option string;
  cc_payment_method : option string;
  cc_bank : option string;
  cc_historical_success_rate : option Decimal;
  cc_historical_recovery_rate : option Decimal;
  cc_customer_lifetime_value : option Decimal;
  cc_days_since_last_purchase : option Decimal;
  cc_cart_age_hours : option Decimal;
  cc_cart_value : option Decimal;
  cc_subscription_state : option string;
  cc_communication_count : option Z;
  cc_days_since_last_contact : option Decimal;
  cc_previous_discount_usage : option Decimal;
  cc_hour_of_day : option Z;
  cc_day_of_week : option Z;
  cc_customer_segment : option string;
  cc_case_type : option string;
  cc_prior_failures : option Z;
  cc_prior_captures : option Z;
  cc_merchant_id : option string;
  cc_recovery_case_id : option string;
  cc_customer_id : option string;
}.

Definition json_of {A} (f : A -> json) (o : option A) : json := match o with Some a => f a | None => JNull end.
Definition JNum (d : Decimal) : json := JFloat (float_str d).

(** [context.model_dump()] *)
Definition model_dump (c : CaseContext) : dict := [
  ("amount", JNum (cc_amount c)); ("failure_reason", JStr (cc_failure_reason c));
  ("attempt_number", JInt (cc_attempt_number c));
  ("merchant_category", json_of JStr (cc_merchant_category c));
  ("payment_method", json_of JStr (cc_payment_method c)); ("bank", json_of JStr (cc_bank c));
  ("historical_success_rate", json_of JNum (cc_historical_success_rate c));
  ("historical_recovery_rate", json_of JNum (cc_historical_recovery_rate c));
  ("customer_lifetime_value", json_of JNum (cc_customer_lifetime_value c));
  ("days_since_last_purchase", json_of JNum (cc_days_since_last_purchase c));
  ("cart_age_hours", json_of JNum (cc_cart_age_hours c)); ("cart_value", json_of JNum (cc_cart_value c));
  ("subscription_state", json_of JStr (cc_subscription_state c));
  ("communication_count", json_of JInt (cc_communication_count c));
  ("days_since_last_contact", json_of JNum (cc_days_since_last_contact c));
  ("previous_discount_usage", json_of JNum (cc_previous_discount_usage c));
  ("hour_of_day", json_of JInt (cc_hour_of_day c)); ("day_of_week", json_of JInt (cc_day_of_week c));
  ("customer_segment", json_of JStr (cc_customer_segment c)); ("case_type", json_of JStr (cc_case_type c));
  ("prior_failures", json_of JInt (cc_prior_failures c)); ("prior_captures", json_of JInt (cc_prior_captures c));
  ("merchant_id", json_of JStr (cc_merchant_id c)); ("recovery_case_id", json_of JStr (cc_recovery_case_id c));
  ("customer_id", json_of JStr (cc_customer_id c))].

(** The constraints of the fields. *)
Definition opt_ok {A} (p : A -> bool) (o : option A) : bool := match o with Some a => p a | None => true end.
Definition not_negative (d : Decimal) : bool := dec_leb (dec_of_Z 0) d.
Definition in_unit (d : Decimal) : bool := not_negative d && dec_leb d (dec_of_Z 1).
Definition between (lo hi n : Z) : bool := ((lo <=? n) && (n <=? hi))%Z.
Definition at_least (lo n : Z) : bool := (lo <=? n)%Z.

Definition valid_context (c : CaseContext) : bool :=
  not_negative (cc_amount c) && nonempty (cc_failure_reason c) && at_least 1 (cc_attempt_number c)
  && opt_ok in_unit (cc_historical_success_rate c) && opt_ok in_unit (cc_historical_recovery_rate c)
  && opt_ok not_negative (cc_customer_lifetime_value c) && opt_ok not_negative (cc_days_since_last_purchase c)
  && opt_ok not_negative (cc_cart_age_hours c) && opt_ok not_negative (cc_cart_value c)
  && opt_ok (at_least 0) (cc_communication_count c) && opt_ok not_negative (cc_days_since_last_contact c)
  && opt_ok in_unit (cc_previous_discount_usage c) && opt_ok (between 0 23) (cc_hour_of_day c)
  && opt_ok (between 0 6) (cc_day_of_week c) && opt_ok (at_least 0) (cc_prior_failures c)
  && opt_ok (at_least 0) (cc_prior_captures c).

Definition VALID_ACTIONS : list string := map value (members (A := RecoveryActionType.t)).

Definition parse_action (action : string) : result predictor_error string :=
  if mem_str action VALID_ACTIONS then mret action
  else Raise (InferenceError "INVALID_ACTION" ("Unknown recovery action: " +:+ action)).

(** ** [constants.py] *)

Definition LEAKAGE_FIELDS : list string :=
  ["recovered"; "recovery_time_hours"; "amount_recovered"; "true_probability"; "label"; "outcome"; "captured"].

Definition NUMERIC_FEATURES : list string := [
  "amount"; "attempt_number"; "historical_success_rate"; "historical_recovery_rate";
  "customer_lifetime_value"; "days_since_last_purchase"; "cart_age_hours"; "cart_value";
  "communication_count"; "days_since_last_contact"; "previous_discount_usage"; "hour_of_day";
  "day_of_week"; "prior_failures"; "prior_captures"; "customer_success_ratio"; "recent_failure_count";
  "communication_fatigue"; "amount_to_clv_ratio"].

Definition CATEGORICAL_FEATURES : list string := [
  "merchant_category"; "payment_method"; "bank"; "failure_reason"; "subscription_state";
  "customer_segment"; "case_type"; "action"; "failure_action_interaction"].

Definition MODEL_FEATURE_COLUMNS : list string := NUMERIC_FEATURES ++ CATEGORICAL_FEATURES.

(** ** [features/engineering.py] *)

Definition ModelQualityError (code message : string) : exn := PyError code message.

Definition truthy_Z (o : option Z) : Z := default 0%Z o.
(** [max(a, b)] and [min(a, b)] of floats. *)
Definition capped_fatigue (comms : Z) : Decimal :=
  let c := int_truediv comms 8 in if dec_ltb c float_one then c else float_one.

Definition derive_features (row : CaseContext) (action : string) : result exn dict :=
  if existsb (fun name => mem_str name (model_dump row).*1 && mem_str name MODEL_FEATURE_COLUMNS) LEAKAGE_FIELDS
  then Raise (ModelQualityError "TARGET_LEAKAGE" "Leakage field used as a feature")
  else
    let amount := cc_amount row in
    let clv := default float_zero (cc_customer_lifetime_value row) in
    let attempt := cc_attempt_number row in
    let comms := truthy_Z (cc_communication_count row) in
    let failure := cc_failure_reason row in
    let features := [
      ("amount", JNum amount); ("attempt_number", JInt attempt);
      ("historical_success_rate", json_of JNum (cc_historical_success_rate row));
      ("historical_recovery_rate", json_of JNum (cc_historical_recovery_rate row));
      ("customer_lifetime_value", json_of JNum (cc_customer_lifetime_value row));
      ("days_since_last_purchase", json_of JNum (cc_days_since_last_purchase row));
      ("cart_age_hours", json_of JNum (cc_cart_age_hours row));
      ("cart_value", json_of JNum (cc_cart_value row)); ("communication_count", JInt comms);
      ("days_since_last_contact", json_of JNum (cc_days_since_last_contact row));
      ("previous_discount_usage", json_of JNum (cc_previous_discount_usage row));
      ("hour_of_day", json_of JInt (cc_hour_of_day row)); ("day_of_week", json_of JInt (cc_day_of_week row));
      ("prior_failures", json_of JInt (cc_prior_failures row));
      ("prior_captures", json_of JInt (cc_prior_captures row));
      ("customer_success_ratio", json_of JNum (cc_historical_success_rate row));
      ("recent_failure_count", JInt (Z.max (attempt - 1) (truthy_Z (cc_prior_failures row))));
      ("communication_fatigue", JNum (capped_fatigue comms));
      ("amount_to_clv_ratio", if dec_ltb (dec_of_Z 0) clv then JNum (float_div amount clv) else JNull);
      ("merchant_category", json_of JStr (cc_merchant_category row));
      ("payment_method", json_of JStr (cc_payment_method row)); ("bank", json_of JStr (cc_bank row));
      ("failure_reason", JStr failure);
      ("subscription_state", json_of JStr (cc_subscription_state row));
      ("customer_segment", json_of JStr (cc_customer_segment row));
      ("case_type", json_of JStr (cc_case_type row)); ("action", JStr action);
      ("failure_action_interaction", JStr (failure +:+ "|" +:+ action))] in
    if existsb (fun name => mem_str name LEAKAGE_FIELDS) features.*1
    then Raise (ModelQualityError "TARGET_LEAKAGE" "Derived features leaked")
    else mret features.

Definition features_from_context (context : CaseContext) (action : string) : result exn dict :=
  derive_features context action.

(** ** [inference/fallback.py] *)

Definition to_predictor {A} (r : result exn A) : result predictor_error A :=
  match r with Ok a => Ok a | Raise e => Raise (OtherError e) end.

(** [min(max(value, 0.0), 1.0)] *)
Definition unit_float (x : Decimal) : Decimal := dec_min (dec_max x float_zero) float_one.

Definition fallback_context (context : CaseContext) : InterventionContext :=
  let reason := default FailureReason.UNKNOWN (of_value (cc_failure_reason context)) in
  let clv := default (dec_of_Z 0) (cc_customer_lifetime_value context) in
  mk_InterventionContext (Some reason) (cc_attempt_number context)
    (mk_CustomerHistory (truthy_Z (cc_prior_failures context)) (truthy_Z (cc_prior_captures context)) clv)
    (default float_zero (cc_historical_success_rate context))
    (default float_zero (cc_historical_recovery_rate context))
    (truthy_Z (cc_communication_count context))
    (default float_zero (cc_previous_discount_usage context))
    (cc_cart_age_hours context) clv (cc_amount context)
    (default 12%Z (cc_hour_of_day context))
    (match cc_case_type context with
     | Some t => if nonempty t then t else "FAILED_PAYMENT" | None => "FAILED_PAYMENT" end).

Definition fallback_probability (context : CaseContext) (action : string) : result predictor_error Decimal :=
  parsed ← parse_action action;
  value ← to_predictor (intervention_recovery_probability (fallback_context context) parsed);
  mret (unit_float (float_of_dec value)).

(** * The stored models and the prediction

    [recoverai_eval/models/versioning.py] and [inference/api.py].  The directory of the
    models is a map from the names of its subdirectories to what they hold; a stored
    pipeline either loads or fails with a message.  scikit-learn's pipelines are a
    parameter: a type with its [predict_proba]. *)

Section Registry.
Context {Pipeline : Type}.

(** [model.joblib] and [metadata.json] of a version. *)
Record Bundle : Type := mk_Bundle {
  bundle_artifact : option (result string Pipeline);
  bundle_metadata : option dict;
}.

(** [models_dir()], with the text of the file [PRODUCTION]. *)
Record ModelsDir : Type := mk_ModelsDir {
  dir_versions : gmap string Bundle;
  dir_production : option string;
}.

Definition read_production_pointer (d : ModelsDir) : option string :=
  match dir_production d with
  | Some text => let text := strip text in if nonempty text then Some text else None
  | None => None
  end.

Definition write_production_pointer (version : string) (d : ModelsDir) : ModelsDir :=
  mk_ModelsDir (dir_versions d) (Some version).

(** The names [iterdir()] lists. *)
Definition entries (d : ModelsDir) : list string :=
  (map_to_list (dir_versions d)).*1
  ++ match dir_production d with Some _ => ["PRODUCTION"] | None => [] end.

(** The number of an entry that is a version of the prefix. *)
Definition version_number (prefix name : string) : option Z :=
  if String.prefix prefix name then
    let suffix := drop_str (String.length prefix) name in
    if nonempty suffix && all_digits suffix then Some (digits_from 0 suffix) else None
  else None.

Definition next_model_version (prefix : string) (d : ModelsDir) : string :=
  let existing := omap (version_number prefix) (entries d) in
  prefix +:+ str_int (match existing with [] => 1 | n :: l => foldr Z.max n l + 1 end)%Z.

(** [saved_at] is the text of the present time. *)
Definition save_bundle (version : string) (pipeline : Pipeline) (metadata : dict) (overwrite : bool)
  (saved_at : string) (d : ModelsDir) : result exn ModelsDir :=
  match dir_versions d !! version with
  | Some _ =>
      if negb overwrite
      then Raise (ModelQualityError "VERSION_EXISTS"
                    ("Model version " +:+ version +:+ " already exists. Refusing to overwrite."))
      else mret (mk_ModelsDir (<[version := mk_Bundle (Some (Ok pipeline))
                  (Some (dict_set "saved_at" (JStr saved_at) (dict_set "model_version" (JStr version) metadata)))]>
                  (dir_versions d)) (dir_production d))
  | None =>
      mret (mk_ModelsDir (<[version := mk_Bundle (Some (Ok pipeline))
              (Some (dict_set "saved_at" (JStr saved_at) (dict_set "model_version" (JStr version) metadata)))]>
              (dir_versions d)) (dir_production d))
  end.

(** [version or other] *)
Definition text_or_else (o : option string) (other : option string) : option string :=
  match o with Some t => if nonempty t then Some t else other | None => other end.

Definition load_bundle (version : option string) (d : ModelsDir) : result predictor_error (Pipeline * dict) :=
  match text_or_else version (read_production_pointer d) with
  | None => Raise (InferenceError "MODEL_UNAVAILABLE" "No trained recovery model is available")
  | Some chosen =>
      match dir_versions d !! chosen ≫= bundle_artifact with
      | None => Raise (InferenceError "MODEL_UNAVAILABLE" ("Missing artifact for " +:+ chosen))
      | Some (Raise why) =>
          Raise (InferenceError "MODEL_LOAD_FAILED" ("Failed to load " +:+ chosen +:+ ": " +:+ why))
      | Some (Ok pipeline) =>
          mret (pipeline, default [] (dir_versions d !! chosen ≫= bundle_metadata))
      end
  end.

(** ** [inference/api.py] *)

Definition Cache : Type := gmap string (Pipeline * dict).
Definition clear_model_cache : Cache := ∅.
Definition cache_key (version : option string) : string := default "__production__" (text_or_else version None).

Definition _load (version : option string) (d : ModelsDir) (cache : Cache)
  : result predictor_error (Pipeline * dict) * Cache :=
  match cache !! cache_key version with
  | Some cached => (Ok cached, cache)
  | None =>
      match load_bundle version d with
      | Ok bundle => (Ok bundle, <[cache_key version := bundle]> cache)
      | Raise e => (Raise e, cache)
      end
  end.

Definition _validate_probability (value : Decimal) : result predictor_error Decimal :=
  if dec_ltb value (dec_of_Z 0) || dec_ltb (dec_of_Z 1) value
  then Raise (InferenceError "INVALID_PROBABILITY"
                ("Probability " +:+ float_str value +:+ " is outside [0, 1]"))
  else mret value.

(** [str(metadata.get(key) or other)] *)
Definition text_in (key : string) (metadata : dict) (other : string) : string :=
  py_str (py_or (dict_get key metadata) (JStr other)).

(** [predict_proba(frame)[0][1]] of the one row of features; [model_validate] is
    pydantic's, with its message when it refuses. *)
Context (predict_proba : Pipeline -> dict -> result exn Decimal).
Context (model_validate : dict -> result string CaseContext).

Definition _ml_predict (context : CaseContext) (action : string) (model_version : option string)
  (d : ModelsDir) (cache : Cache) : result predictor_error RecoveryProbability * Cache :=
  match _load model_version d cache with
  | (Raise e, cache) => (Raise e, cache)
  | (Ok (pipeline, metadata), cache) =>
      (features ← to_predictor (features_from_context context action);
       raw ← to_predictor (predict_proba pipeline features);
       probability ← _validate_probability raw;
       mret (mk_RecoveryProbability probability
               (text_in "model_version" metadata (default "unknown" (text_or_else model_version None)))
               (text_in "feature_version" metadata FEATURE_VERSION) "ml"
               [("algorithm", dict_get "algorithm" metadata)]), cache)
  end.

(** The rules instead of a model. *)
Definition fallback_prediction (context : CaseContext) (action : string)
  : result predictor_error RecoveryProbability :=
  value ← fallback_probability context action;
  probability ← _validate_probability value;
  mret (mk_RecoveryProbability probability FALLBACK_VERSION FEATURE_VERSION "MODEL_FALLBACK"
          [("reason", JStr "trained_model_unavailable_or_unloadable")]).

Definition validated (case_context : CaseContext + dict) : result predictor_error CaseContext :=
  match case_context with
  | inl context => mret context
  | inr fields =>
      match model_validate fields with
      | Ok context => mret context
      | Raise message => Raise (InferenceError "MALFORMED_FEATURES" message)
      end
  end.

Definition predict_recovery_probability (case_context : CaseContext + dict) (action : string)
  (model_version : option string) (allow_fallback : bool) (d : ModelsDir) (cache : Cache)
  : result predictor_error RecoveryProbability * Cache :=
  match (parsed ← parse_action action; context ← validated case_context; mret (parsed, context)) with
  | Raise e => (Raise e, cache)
  | Ok (parsed, context) =>
      match _ml_predict context parsed model_version d cache with
      | (Raise (InferenceError code message), cache) =>
          if negb allow_fallback then (Raise (InferenceError code message), cache)
          else (fallback_prediction context parsed, cache)
      | other => other
      end
  end.

(** [default_predictor] of the optimizer, in a process whose cache is [cache]. *)
Definition default_predictor (d : ModelsDir) (cache : Cache) (case_context : dict) (action : string)
  : result predictor_error RecoveryProbability :=
  (predict_recovery_probability (inr case_context) action None true d cache).1.
End Registry.
Arguments Bundle : clear implicits.
Arguments ModelsDir : clear implicits.
Arguments Cache : clear implicits.
