(* ===== verification/InferenceTheorems.v ===== *)
(** * What scoring promises

    The features of a model are its columns, a prediction is a probability, a missing
    model is replaced by the rules, and versions are never overwritten. *)
From S2P Require Import Prelude PyStr Uuid Errors Decimal Rounding PyFloat Json Enums Providers Simulator Interventions Optimizer OptimizerService Inference.
Open Scope stdpp_scope.

(** ** Features *)

(** Whatever the case, the features derived for an action are the columns the model was
    trained on, each once, none of them an outcome. *)
Theorem features_are_the_model_columns context action :
  exists features,
    features_from_context context action = Ok features
    /\ features.*1 ≡ₚ MODEL_FEATURE_COLUMNS /\ NoDup features.*1
    /\ (forall name, name ∈ LEAKAGE_FIELDS -> name ∉ features.*1)
    /\ dict_get "action" features = JStr action.
Proof.
  unfold features_from_context, derive_features. eexists. split; [reflexivity|].
  assert (NoDup MODEL_FEATURE_COLUMNS) as Hnd by (apply (bool_decide_unpack _); by vm_compute).
  match goal with |- ?ks ≡ₚ _ /\ _ => assert (ks ≡ₚ MODEL_FEATURE_COLUMNS) as Hp end.
  { apply (bool_decide_unpack _). by vm_compute. }
  split; [done|]. split; [by rewrite Hp|]. split; [|done].
  intros name Hl. rewrite Hp. revert name Hl. apply list.Forall_forall, (bool_decide_unpack _). by vm_compute.
Qed.

(** ** Versions *)

Section Registry.
Context {Pipeline : Type}.
Implicit Types d : ModelsDir Pipeline.

Lemma drop_prefix a b : drop_str (String.length a) (a +:+ b) = b.
Proof. induction a as [|c a IH]; [done|]. exact IH. Qed.

Lemma prefix_append a b : String.prefix a (a +:+ b) = true.
Proof.
  induction a as [|c a IH]; simpl; [by destruct b|]. destruct (Ascii.ascii_dec c c); [exact IH|congruence].
Qed.

Lemma version_number_of prefix n : (0 <= n)%Z -> version_number prefix (prefix +:+ str_int n) = Some n.
Proof.
  intros H. unfold version_number. rewrite prefix_append, drop_prefix.
  rewrite all_digits_str_int by done. destruct (str_int_head n H) as (c & s & E). rewrite E at 1. simpl andb.
  cbv iota. by rewrite str_int_value.
Qed.

Lemma foldr_max_ge x l n : n ∈ x :: l -> (n <= foldr Z.max x l)%Z.
Proof.
  induction l as [|y l IH]; simpl.
  - intros [->|H]%elem_of_cons; [lia|by apply elem_of_nil in H].
  - intros [->|[->|H]%elem_of_cons]%elem_of_cons.
    + specialize (IH ltac:(left)). lia.
    + lia.
    + specialize (IH ltac:(by right)). lia.
Qed.

Lemma existing_numbers prefix d version n : is_Some (dir_versions d !! version) ->
  version_number prefix version = Some n -> n ∈ omap (version_number prefix) (entries d).
Proof.
  intros [b Hb] Hn. apply list_elem_of_omap. exists version. split; [|done]. apply elem_of_app. left.
  apply list_elem_of_fmap. exists (version, b). split; [done|]. by apply elem_of_map_to_list.
Qed.

Lemma version_number_nonneg prefix name n : version_number prefix name = Some n -> (0 <= n)%Z.
Proof.
  unfold version_number. destruct (String.prefix prefix name); [|done].
  destruct (nonempty _ && all_digits _); [|done]. intros [= <-].
  assert (forall s acc, (0 <= acc)%Z -> (0 <= digits_from acc s)%Z) as H.
  { intros s. induction s as [|c s IH]; intros acc Ha; simpl; [done|]. apply IH.
    assert (0 <= default 0 (digit_in 10 c))%Z; [|lia]. destruct c as [[] [] [] [] [] [] [] []]; vm_compute; done. }
  by apply H.
Qed.

(** The version that comes next is the name of no directory. *)
Theorem next_version_is_new prefix d : dir_versions d !! next_model_version prefix d = None.
Proof.
  unfold next_model_version. destruct (dir_versions d !! _) as [b|] eqn:E; [exfalso|done].
  destruct (omap (version_number prefix) (entries d)) as [|n l] eqn:Hl.
  - pose proof (existing_numbers prefix d _ 1 ltac:(by eexists) (version_number_of prefix 1 ltac:(lia))) as H.
    rewrite Hl in H. by apply elem_of_nil in H.
  - assert (0 <= n)%Z as Hn.
    { assert (n ∈ omap (version_number prefix) (entries d)) as H by (rewrite Hl; left).
      apply list_elem_of_omap in H as (x & _ & Hx). by eapply version_number_nonneg. }
    pose proof (foldr_max_ge n l n ltac:(left)) as Hmax.
    pose proof (existing_numbers prefix d _ _ ltac:(by eexists) (version_number_of prefix (foldr Z.max n l + 1) ltac:(lia))) as H.
    rewrite Hl in H. apply foldr_max_ge in H. lia.
Qed.

(** A model saved under a new version and made the production model is the one loaded. *)
Theorem saved_model_is_served version pipeline metadata overwrite at_time d :
  dir_versions d !! version = None -> nonempty version = true -> strip version = version ->
  exists d', save_bundle version pipeline metadata overwrite at_time d = Ok d'
    /\ (forall other, other <> version -> dir_versions d' !! other = dir_versions d !! other)
    /\ exists meta, load_bundle None (write_production_pointer version d') = Ok (pipeline, meta)
       /\ dict_get "model_version" meta = JStr version.
Proof.
  intros Hnew Hne Hstrip. unfold save_bundle. rewrite Hnew. eexists. split; [done|].
  split; [intros other Ho; by apply lookup_insert_ne|].
  eexists. unfold load_bundle, read_production_pointer. simpl. rewrite Hstrip, Hne. simpl.
  rewrite lookup_insert_eq. simpl. split; [done|]. by rewrite !dict_get_set.
Qed.

(** A version that is there is left as it is. *)
Theorem versions_are_not_overwritten version pipeline metadata at_time d :
  is_Some (dir_versions d !! version) ->
  exists message, save_bundle version pipeline metadata false at_time d = Raise (ModelQualityError "VERSION_EXISTS" message).
Proof. intros [b H]. unfold save_bundle. rewrite H. eauto. Qed.
End Registry.

(** ** Predictions *)

Lemma float_of_dec_clipped x : in_unit (unit_float x) = true.
Proof.
  unfold in_unit, not_negative, unit_float. apply andb_true_iff. split.
  - unfold dec_min. destruct (dec_ltb _ _); [done|]. by apply (dec_leb_trans _ float_zero), dec_max_ge_r.
  - by apply (dec_leb_trans _ float_one); [apply dec_min_le_r|].
Qed.

Lemma valid_action action : mem_str action VALID_ACTIONS = true ->
  exists a, of_value (A := RecoveryActionType.t) action = Some a.
Proof.
  unfold mem_str. rewrite bool_decide_eq_true. unfold VALID_ACTIONS. rewrite list_elem_of_fmap.
  intros (a & -> & _). exists a. apply of_value_value.
Qed.

Section Prediction.
Context {Pipeline : Type}.
Context (predict_proba : Pipeline -> dict -> result exn Decimal).
Context (model_validate : dict -> result string CaseContext).
Implicit Types d : ModelsDir Pipeline.

Notation predict := (predict_recovery_probability predict_proba model_validate).

Lemma validate_in_unit v p : _validate_probability v = Ok p -> p = v /\ in_unit p = true.
Proof.
  unfold _validate_probability, in_unit, not_negative. rewrite !dec_ltb_leb.
  destruct (dec_leb (dec_of_Z 0) v) eqn:E1; [|done]. destruct (dec_leb v (dec_of_Z 1)) eqn:E2; [|done].
  simpl. intros [= <-]. by rewrite E1, E2.
Qed.

Lemma validate_unit v : in_unit v = true -> _validate_probability v = Ok v.
Proof.
  unfold _validate_probability, in_unit, not_negative. rewrite !dec_ltb_leb. intros [-> ->]%andb_true_iff. done.
Qed.

Lemma in_unit_decimal v : in_unit v = true -> probability_to_decimal v = Ok v.
Proof.
  unfold probability_to_decimal, in_unit, not_negative. rewrite !dec_ltb_leb. intros [-> ->]%andb_true_iff. done.
Qed.

(** The rules always answer. *)
Lemma fallback_answers context action : mem_str action VALID_ACTIONS = true ->
  exists p, fallback_prediction context action
    = Ok (mk_RecoveryProbability p FALLBACK_VERSION FEATURE_VERSION "MODEL_FALLBACK"
            [("reason", JStr "trained_model_unavailable_or_unloadable")])
    /\ in_unit p = true.
Proof.
  intros H. destruct (valid_action action H) as [a Ha].
  pose proof (intervention_probability_bounded (fallback_context context) action) as Hb. rewrite Ha in Hb.
  destruct Hb as (p & E & _). exists (unit_float (float_of_dec p)). split; [|apply float_of_dec_clipped].
  unfold fallback_prediction, fallback_probability, parse_action. rewrite H. simpl. rewrite E. simpl.
  rewrite validate_unit by apply float_of_dec_clipped. done.
Qed.


(** The optimizer built with the default predictor scores a case that validates even
    when there is no model. *)
Lemma fallback_scores fields context action now refreshed :
  model_validate fields = Ok context -> mem_str action VALID_ACTIONS = true ->
  exists q, _predict (default_predictor predict_proba model_validate (mk_ModelsDir ∅ None) ∅) (Some fields) action now refreshed
    = Ok q /\ quote_source q = "MODEL_FALLBACK" /\ quote_model_version q = FALLBACK_VERSION
    /\ dec_leb (dec_of_Z 0) (quote_probability q) = true /\ dec_leb (quote_probability q) (dec_of_Z 1) = true.
Proof.
  intros Hv Ha. destruct (fallback_answers context action Ha) as (p & Hf & Hp).
  assert (default_predictor predict_proba model_validate (mk_ModelsDir ∅ None) ∅ fields action
    = Ok (mk_RecoveryProbability p FALLBACK_VERSION FEATURE_VERSION "MODEL_FALLBACK"
            [("reason", JStr "trained_model_unavailable_or_unloadable")])) as E.
  { unfold default_predictor, predict_recovery_probability, parse_action. rewrite Ha. simpl.
    rewrite Hv. simpl. by rewrite Hf. }
  unfold _predict. rewrite E. cbn [rp_probability]. rewrite in_unit_decimal by done. simpl.
  eexists. split; [done|].
  unfold in_unit, not_negative in Hp. apply andb_true_iff in Hp as [H1 H2]. by split_and!.
Qed.
End Prediction.
