(* ===== verification/CaseContexts.v ===== *)
(** * The context of a case

    [recoverai_eval/inference/domain.py]: what the predictor is told of a case, read from
    the payments, notifications, cart and subscription of its customer; and the contexts
    the optimizer and the probability tool give it. *)
From S2P Require Import Prelude PyStr Uuid Errors Decimal Rounding PyFloat Json Datetime Enums Rows Store Repositories Optimizer OptimizerService Inference InferenceTheorems.
Open Scope stdpp_scope.

(** [max((later - earlier).total_seconds() / unit, 0.0)], [unit] in seconds. *)
Definition elapsed (later earlier unit : Z) : Decimal :=
  if (later <? earlier)%Z then float_zero
  else float_div (int_truediv (later - earlier) SECOND) (float_of_int unit).

(** [max(times, default=None)] *)
Definition latest (times : list Z) : option Z :=
  match times with [] => None | t :: l => Some (foldr Z.max t l) end.

Definition count_status (s : PaymentStatus.t) (payments : list Payment) : Z :=
  Z.of_nat (length (filter (fun p => payment_status p = s) payments)).

(** The numbers that come from the payments of the customer. *)
Record PaymentFacts : Type := mk_PaymentFacts {
  pf_prior_failures : Z;
  pf_prior_captures : Z;
  pf_historical_success : option Decimal;
  pf_historical_recovery : option Decimal;
  pf_last_capture : option Z;
}.
Definition no_payments : PaymentFacts := mk_PaymentFacts 0 0 None None None.

Definition payment_facts (payments : list Payment) : PaymentFacts :=
  let prior_captures := count_status PaymentStatus.CAPTURED payments in
  let prior_failures := count_status PaymentStatus.FAILED payments in
  let total := (prior_captures + prior_failures)%Z in
  let recovered := filter (fun p => payment_status p = PaymentStatus.CAPTURED /\ is_Some (payment_captured_at p)) payments in
  mk_PaymentFacts prior_failures prior_captures
    (if (total =? 0)%Z then None else Some (int_truediv prior_captures total))
    (match payments with
     | [] => None
     | _ => Some (int_truediv (Z.of_nat (length recovered)) (Z.max (Z.of_nat (length payments)) 1))
     end)
    (latest (omap payment_captured_at payments)).

Definition payments_of (merchant_id customer_id : UUID) (w : World) : list Payment :=
  (rows_where (fun _ p => same (payment_merchant_id p) merchant_id && same (payment_customer_id p) customer_id)
     (w_payments w)).*2.
Definition notifications_of (merchant_id customer_id : UUID) (w : World) : list Notification :=
  List.filter (fun n => same (notification_merchant_id n) merchant_id && same (notification_customer_id n) customer_id)
    (w_notifications w).

(** The amount and the lifetime value are decimals of the database. *)
Definition case_context_from_domain (merchant_id case_id : UUID) (amount : Decimal)
  (failure_reason : option string) (attempt_number : Z) (customer_id : option UUID) (payment : option Payment)
  (cart_id subscription_id : option UUID) (lifetime_value : option Decimal) (opened_at : option Z)
  (case_type : option string) (w : World) : CaseContext :=
  let payments := match customer_id with Some c => payment_facts (payments_of merchant_id c w) | None => no_payments end in
  let since (earlier : option Z) (unit : Z) :=
    match earlier, opened_at with Some e, Some o => Some (elapsed o e unit) | _, _ => None end in
  let notices := match customer_id with Some c => notifications_of merchant_id c w | None => [] end in
  let last_sent := latest (omap notification_sent_at notices) in
  let cart := cart_id ≫= (fun id => w_carts w !! id) in
  let subscription_state :=
    match subscription_id ≫= (fun id => w_subscriptions w !! id) with
    | Some s => value (subscription_status s)
    | None => "NONE"
    end in
  mk_CaseContext (float_of_dec amount)
    (match failure_reason with Some r => if nonempty r then r else "UNKNOWN" | None => "UNKNOWN" end)
    (Z.max attempt_number 1) None (payment ≫= payment_payment_method) None
    (pf_historical_success payments) (pf_historical_recovery payments) (float_of_dec <$> lifetime_value)
    (since (pf_last_capture payments) 86400)
    (since (cart ≫= cart_abandoned_at) 3600) ((fun c => float_of_dec (cart_total c)) <$> cart)
    (Some subscription_state) (Some (Z.of_nat (length notices))) (since last_sent 86400) None
    (hour_of <$> opened_at) ((fun t => (t / DAY) mod 7)%Z <$> opened_at) None case_type
    (Some (pf_prior_failures payments)) (Some (pf_prior_captures payments)) (Some (uuid_str merchant_id))
    (Some (uuid_str case_id)) (uuid_str <$> customer_id).

(** [payment] of the case when it belongs to its merchant. *)
Definition payment_of_case (c : RecoveryCase) (w : World) : option Payment :=
  (case_payment_id c ≫= (fun id => PaymentRepository.get_payment (case_merchant_id c) id w))
    ≫= (fun id => w_payments w !! id).

(** The context [RecoveryOptimizer.optimize_case] gives the predictor, which asks for the
    context of a case that it has found. *)
Definition optimizer_context (case_id : UUID) (c : RecoveryCase) (w : World) : CaseContext :=
  let payment := payment_of_case c w in
  let customer := CustomerRepository.get_customer (case_merchant_id c) (case_customer_id c) w
                    ≫= (fun id => w_customers w !! id) in
  case_context_from_domain (case_merchant_id c) case_id (case_amount_at_risk c)
    (payment ≫= payment_failure_code) 1 (Some (case_customer_id c)) payment (case_cart_id c)
    (case_subscription_id c) (customer_lifetime_value <$> customer) (Some (case_opened_at c))
    (Some (value (case_case_type c))) w.

Definition optimizer_context_of (case_id : UUID) (w : World) : dict :=
  match w_cases w !! case_id with Some c => model_dump (optimizer_context case_id c w) | None => [] end.

(** The context of [handle_calculate_recovery_probability], with the customer and the
    payment the executor found. *)
Definition tool_context_of (case_id : UUID) (attempt_number : Z) (customer payment : option UUID) (w : World)
  : result predictor_error dict :=
  match w_cases w !! case_id with
  | None => mret []
  | Some c =>
      let p := payment ≫= (fun id => w_payments w !! id) in
      let customer_row := customer ≫= (fun id => w_customers w !! id) in
      mret (model_dump (case_context_from_domain (case_merchant_id c) case_id (case_amount_at_risk c)
        (p ≫= payment_failure_code) attempt_number customer p (case_cart_id c) (case_subscription_id c)
        (customer_lifetime_value <$> customer_row) (Some (case_opened_at c))
        (Some (value (case_case_type c))) w))
  end.

(** ** The facts do not depend on the order of the rows *)

Lemma foldr_max_in t l : (foldr Z.max t l) ∈ t :: l /\ forall x, x ∈ t :: l -> (x <= foldr Z.max t l)%Z.
Proof.
  induction l as [|y l [IHin IHle]]; simpl.
  - split; [left|]. intros x [->|H]%elem_of_cons; [lia|by apply elem_of_nil in H].
  - split.
    + destruct (Z.max_spec y (foldr Z.max t l)) as [[_ ->]|[_ ->]]; [|right; left].
      apply elem_of_cons in IHin as [->|H]; [left|by do 2 right].
    + intros x [->|[->|H]%elem_of_cons]%elem_of_cons; [|lia|].
      * specialize (IHle t ltac:(left)). lia.
      * specialize (IHle x ltac:(by right)). lia.
Qed.

#[export] Instance latest_proper : Proper ((≡ₚ) ==> (=)) latest.
Proof.
  intros l l' H. destruct l as [|t l], l' as [|t' l']; try done.
  - by apply Permutation_nil in H.
  - symmetry in H. by apply Permutation_nil in H.
  - simpl. f_equal. destruct (foldr_max_in t l) as [Hin Hle], (foldr_max_in t' l') as [Hin' Hle'].
    rewrite H in Hin. rewrite <- H in Hin'. apply Z.le_antisymm; auto.
Qed.

#[export] Instance payment_facts_proper : Proper ((≡ₚ) ==> (=)) payment_facts.
Proof.
  intros l l' H. unfold payment_facts, count_status.
  assert (forall (P : Payment -> Prop) `{!forall x, Decision (P x)}, length (filter P l) = length (filter P l')) as Hf.
  { intros P dec. by rewrite H. }
  rewrite !Hf. rewrite (latest_proper _ _ (omap_Permutation payment_captured_at _ _ H)).
  rewrite (Permutation_length H).
  destruct l as [|p l], l' as [|p' l']; [done| | |done]; by apply Permutation_length in H.
Qed.

Lemma rows_where_insert {A} (p : UUID -> A -> bool) (t : gmap UUID A) id r :
  t !! id = None -> p id r = false -> rows_where p (<[id := r]> t) ≡ₚ rows_where p t.
Proof.
  intros Hid Hp. unfold rows_where. rewrite map_to_list_insert by done. rewrite filter_cons_False; [done|].
  simpl. by rewrite Hp.
Qed.

(** What is told of a case does not change when another customer, of this merchant or of
    another, pays. *)
Theorem contexts_are_isolated m case_id amount failure_reason attempt customer payment cart subscription lifetime
    opened_at case_type id p w :
  w_payments w !! id = None ->
  payment_merchant_id p <> m \/ customer <> Some (payment_customer_id p) ->
  case_context_from_domain m case_id amount failure_reason attempt customer payment cart subscription lifetime
    opened_at case_type (set_w_payments (<[id := p]> (w_payments w)) w)
  = case_context_from_domain m case_id amount failure_reason attempt customer payment cart subscription lifetime
      opened_at case_type w.
Proof.
  intros Hid Hother. unfold case_context_from_domain. destruct customer as [c|]; [|done].
  assert (payment_facts (payments_of m c (set_w_payments (<[id := p]> (w_payments w)) w))
          = payment_facts (payments_of m c w)) as E; [|by rewrite E].
  apply payment_facts_proper. unfold payments_of. apply fmap_Permutation, rows_where_insert; [done|].
  unfold same. destruct (bool_decide_reflect (payment_merchant_id p = m)); [|done].
  apply bool_decide_eq_false_2. intros Hc. destruct Hother as [H|H]; [done|]. apply H. by f_equal.
Qed.

(** ** A context that is built validates *)

Lemma filter_length_le {A} (P : A -> Prop) `{!forall x, Decision (P x)} (l : list A) :
  (length (filter P l) <= length l)%nat.
Proof. apply list.length_filter. Qed.

Lemma opt_ok_intro {A} (p : A -> bool) (o : option A) : (forall a, o = Some a -> p a = true) -> opt_ok p o = true.
Proof. destruct o as [a|]; simpl; auto. Qed.

Lemma in_unit_interval d : unit_interval d -> in_unit d = true.
Proof. intros [H1 H2]. unfold in_unit, not_negative. by rewrite H1, H2. Qed.

Lemma payment_facts_valid payments :
  opt_ok in_unit (pf_historical_success (payment_facts payments)) = true
  /\ opt_ok in_unit (pf_historical_recovery (payment_facts payments)) = true
  /\ (0 <= pf_prior_failures (payment_facts payments))%Z /\ (0 <= pf_prior_captures (payment_facts payments))%Z.
Proof.
  unfold payment_facts, count_status. simpl. split_and!; [| |lia|lia].
  - set (a := length (filter _ _)). set (b := length (filter _ _)).
    destruct (Z.eqb_spec (Z.of_nat a + Z.of_nat b) 0); [done|]. apply in_unit_interval, int_truediv_unit; lia.
  - destruct payments as [|p l]; [done|]. apply in_unit_interval, int_truediv_unit; [|lia].
    rewrite Z.max_l by (simpl; lia). split; [lia|]. apply Nat2Z.inj_le, filter_length_le.
Qed.

Lemma elapsed_valid later earlier unit : (0 < numerator (double_of (float_of_int unit)))%Z ->
  not_negative (elapsed later earlier unit) = true.
Proof.
  intros Hu. unfold elapsed. destruct (Z.ltb_spec later earlier); [done|].
  apply float_div_nonneg; [|done]. apply int_truediv_nonneg; [lia|done].
Qed.

Lemma hour_valid t : between 0 23 (hour_of t) = true.
Proof.
  unfold between, hour_of. pose proof (Z.mod_pos_bound t DAY ltac:(done)). apply andb_true_iff. rewrite !Z.leb_le.
  split; [apply Z.div_pos; [lia|done]|]. enough (t mod DAY / HOUR < 24)%Z by lia.
  apply Z.div_lt_upper_bound; [done|]. change (HOUR * 24)%Z with DAY. lia.
Qed.

(** Of rows whose money is not negative, the context is one that [CaseContext] accepts:
    the optimizer never fails for a context it has built itself. *)
Theorem built_contexts_validate m case_id amount failure_reason attempt customer payment cart subscription lifetime
    opened_at case_type w :
  nonneg_dec amount -> (forall v, lifetime = Some v -> nonneg_dec v) ->
  (forall id c, cart = Some id -> w_carts w !! id = Some c -> nonneg_dec (cart_total c)) ->
  valid_context (case_context_from_domain m case_id amount failure_reason attempt customer payment cart
                   subscription lifetime opened_at case_type w) = true.
Proof.
  intros Ha Hl Hc.
  assert (forall f, opt_ok not_negative
    (match f, opened_at with Some e, Some o => Some (elapsed o e 86400) | _, _ => None end) = true) as Hdays.
  { intros [e|]; [|done]. destruct opened_at; [|done]. by apply elapsed_valid. }
  assert (forall f, opt_ok not_negative
    (match f, opened_at with Some e, Some o => Some (elapsed o e 3600) | _, _ => None end) = true) as Hhours.
  { intros [e|]; [|done]. destruct opened_at; [|done]. by apply elapsed_valid. }
  unfold valid_context, case_context_from_domain.
  set (facts := match customer with Some c => _ | None => no_payments end).
  assert (opt_ok in_unit (pf_historical_success facts) = true
    /\ opt_ok in_unit (pf_historical_recovery facts) = true
    /\ (0 <= pf_prior_failures facts)%Z /\ (0 <= pf_prior_captures facts)%Z) as (H1 & H2 & H3 & H4).
  { unfold facts. destruct customer; [apply payment_facts_valid|done]. }
  cbn [cc_amount cc_failure_reason cc_attempt_number cc_historical_success_rate cc_historical_recovery_rate
    cc_customer_lifetime_value cc_days_since_last_purchase cc_cart_age_hours cc_cart_value cc_communication_count
    cc_days_since_last_contact cc_previous_discount_usage cc_hour_of_day cc_day_of_week cc_prior_failures cc_prior_captures].
  rewrite !andb_true_iff. split_and!.
  - by apply float_of_dec_nonneg.
  - destruct failure_reason as [r|]; [|done]. by destruct (nonempty r) eqn:E.
  - apply Z.leb_le. lia.
  - exact H1.
  - exact H2.
  - apply opt_ok_intro. intros a (v & Hv & ->)%fmap_Some. by apply float_of_dec_nonneg, Hl.
  - apply Hdays.
  - apply Hhours.
  - apply opt_ok_intro. intros a (c & Hv & ->)%fmap_Some. apply bind_Some in Hv as (id & Hcart & Hrow).
    by eapply float_of_dec_nonneg, Hc.
  - apply Z.leb_le. lia.
  - apply Hdays.
  - done.
  - apply opt_ok_intro. intros h (t & Ht & ->)%fmap_Some. by apply hour_valid.
  - apply opt_ok_intro. intros h (t & Ht & ->)%fmap_Some. apply andb_true_iff. rewrite !Z.leb_le.
    pose proof (Z.mod_pos_bound (t / DAY) 7 ltac:(done)). lia.
  - by apply Z.leb_le.
  - by apply Z.leb_le.
Qed.

(** ** The optimizer and its context *)

Lemma nonneg_is d : nonneg d = true -> nonneg_dec d.
Proof. intros H. apply nonneg_dec_int. by apply dec_leb_zero. Qed.

(** The money of the rows the database accepts. *)
Lemma checked_money w : db_checks w = true ->
  (forall id r, w_cases w !! id = Some r -> nonneg_dec (case_amount_at_risk r))
  /\ (forall id r, w_customers w !! id = Some r -> nonneg_dec (customer_lifetime_value r))
  /\ (forall id r, w_carts w !! id = Some r -> nonneg_dec (cart_total r)).
Proof.
  unfold db_checks. rewrite !andb_true_iff, !forallb_elem. intros [[[[[[_ _] H3] _] H5] H6] _].
  split_and!; intros id r Hr; apply elem_of_map_to_list in Hr; apply nonneg_is.
  - specialize (H3 _ Hr). unfold case_checks in H3. rewrite !andb_true_iff in H3. simpl in H3. tauto.
  - apply (H6 _ Hr).
  - specialize (H5 _ Hr). unfold cart_checks in H5. rewrite !andb_true_iff in H5. simpl in H5. tauto.
Qed.

(** C20. With no model on the disk every case of the store is still scored: the context the
    optimizer builds is one the schema accepts, and the rules answer for it. *)
Theorem cases_are_scored_without_a_model {Pipeline : Type} (predict_proba : Pipeline -> dict -> result exn Decimal)
    (model_validate : dict -> result string CaseContext) case_id c action now refreshed w :
  (forall context, valid_context context = true -> model_validate (model_dump context) = Ok context) ->
  db_checks w = true -> w_cases w !! case_id = Some c ->
  mem_str action VALID_ACTIONS = true ->
  exists q, _predict (default_predictor predict_proba model_validate (mk_ModelsDir ∅ None) ∅)
              (Some (optimizer_context_of case_id w)) action now refreshed = Ok q
    /\ quote_source q = "MODEL_FALLBACK" /\ unit_interval (quote_probability q).
Proof.
  intros Hmv Hdb Hcase Haction. destruct (checked_money w Hdb) as (Hamount & Hcustomers & Hcarts).
  assert (model_validate (optimizer_context_of case_id w) = Ok (optimizer_context case_id c w)) as Hv.
  { unfold optimizer_context_of. rewrite Hcase. apply Hmv, built_contexts_validate; [eauto| |eauto].
    intros v (r & Hr & ->)%fmap_Some. apply bind_Some in Hr as (id & _ & Hr). eauto. }
  destruct (fallback_scores predict_proba model_validate _ _ action now refreshed Hv Haction) as (q & E & Hs & _ & Hq).
  exists q. done.
Qed.
