(* ===== verification/ToolData.v ===== *)
(** * The tools and their inputs

    [recoverai_domain/tools/permissions.py], [registry.py] and [schemas.py]: which tool
    carries out which action, what each tool requires, and the fields its input has. *)
From S2P Require Import Prelude PyStr Uuid Errors Decimal Json Enums.
Open Scope stdpp_scope.

(** ** [permissions.py] *)

Definition TOOL_BY_ACTION (a : RecoveryActionType.t) : string :=
  match a with
  | RecoveryActionType.RETRY_NOW => "retry_payment"
  | RecoveryActionType.RETRY_LATER => "schedule_retry"
  | RecoveryActionType.SEND_PAYMENT_LINK => "create_payment_link"
  | RecoveryActionType.SEND_REMINDER => "send_notification"
  | RecoveryActionType.OFFER_DISCOUNT => "offer_discount"
  | RecoveryActionType.ESCALATE => "escalate_to_human"
  | RecoveryActionType.DO_NOTHING => "pause_recovery"
  end.

(** [ACTION_BY_TOOL.get]: the inverse table. *)
Definition action_for_tool (tool_name : string) : option RecoveryActionType.t :=
  find (fun a => String.eqb (TOOL_BY_ACTION a) tool_name) members.

Definition tool_for_action (action : string) : option string := TOOL_BY_ACTION <$> of_value action.

Definition parse_action_type (s : string) : option RecoveryActionType.t := of_value s.

(** ** [schemas.py]

    An input model is the list of its fields; fields that are not listed are refused. *)
Inductive field_type : Type :=
  | OptionalText   (* [str | None = None] *)
  | RequiredText   (* [str] *)
  | OptionalInt    (* [int | None = None] *)
  | ChannelField.  (* [NotificationChannel = NotificationChannel.EMAIL] *)

Definition INPUT_MODELS : list (string * list (string * field_type)) := [
  ("get_customer_history", []);
  ("get_payment_details", []);
  ("get_cart_details", []);
  ("get_subscription_details", []);
  ("get_recovery_case", []);
  ("calculate_recovery_probability", [("action", OptionalText)]);
  ("retry_payment", [("attempt_number", OptionalInt)]);
  ("schedule_retry", [("scheduled_for", RequiredText)]);
  ("create_payment_link", [("description", OptionalText)]);
  ("send_notification",
     [("channel", ChannelField); ("subject", OptionalText); ("body_preview", OptionalText)]);
  ("offer_discount", [("discount_percent", RequiredText)]);
  ("check_payment_status", [("provider_payment_id", OptionalText)]);
  ("check_subscription_status", []);
  ("escalate_to_human", [("reason", OptionalText)]);
  ("pause_recovery", [("reason", OptionalText)])
].

Definition OUTPUT_SCHEMA : dict := [("type", JStr "object")].

Record ToolSpec : Type := mk_ToolSpec {
  spec_name : string;
  spec_version : string;
  spec_description : string;
  spec_input_model : list (string * field_type);
  spec_output_schema : dict;
  spec_risk_level : RiskLevel;
  spec_required_permission : ToolPermission.t;
  spec_timeout_seconds : Z;
  spec_side_effect : bool;
}.

(** ** [registry.py] *)

Definition input_model (name : string) : list (string * field_type) :=
  default [] (snd <$> find (fun kv => String.eqb kv.1 name) INPUT_MODELS).

Definition tool (name description : string) (risk : RiskLevel) (permission : ToolPermission.t)
  (timeout : Z) (side_effect : bool) : ToolSpec :=
  mk_ToolSpec name "v1" description (input_model name) OUTPUT_SCHEMA risk permission timeout side_effect.

Definition TOOL_SPECS : list ToolSpec := [
  tool "get_customer_history" "Read customer profile and prior payments for the case merchant."
    GREEN ToolPermission.VIEW_CUSTOMER 10 false;
  tool "get_payment_details" "Read the failed payment attached to the recovery case."
    GREEN ToolPermission.VIEW_PAYMENT 10 false;
  tool "get_cart_details" "Read cart context when the case is an abandoned checkout."
    GREEN ToolPermission.VIEW_RECOVERY 10 false;
  tool "get_subscription_details" "Read subscription context when the case is a subscription failure."
    GREEN ToolPermission.VIEW_RECOVERY 10 false;
  tool "get_recovery_case" "Read recovery case status and amounts. Does not mutate recovered revenue."
    GREEN ToolPermission.VIEW_RECOVERY 10 false;
  tool "calculate_recovery_probability"
    "Estimate P(recovery | case, action). Does not choose or execute the action."
    GREEN ToolPermission.VIEW_RECOVERY 10 false;
  tool "retry_payment" "Create a new simulated payment attempt. Does not reuse the failed payment id."
    YELLOW ToolPermission.RETRY_PAYMENT 30 true;
  tool "schedule_retry" "Persist a future retry. Does not execute the payment now."
    GREEN ToolPermission.RETRY_PAYMENT 10 true;
  tool "create_payment_link" "Create a simulated payment link. Not a Razorpay payment link."
    YELLOW ToolPermission.CREATE_PAYMENT_LINK 30 true;
  tool "send_notification" "Record a simulated notification. No SMS or WhatsApp delivery."
    GREEN ToolPermission.SEND_NOTIFICATION 15 true;
  tool "offer_discount" "Record a bounded discount. Does not decide economic value."
    YELLOW ToolPermission.OFFER_DISCOUNT 15 true;
  tool "check_payment_status" "Fetch payment status from the provider adapter or local records."
    GREEN ToolPermission.VIEW_PAYMENT 15 false;
  tool "check_subscription_status"
    "Read local subscription status. Provider subscription fetch is not required."
    GREEN ToolPermission.VIEW_RECOVERY 10 false;
  tool "escalate_to_human" "Escalate the case. Never claims financial recovery."
    GREEN ToolPermission.ESCALATE 10 true;
  tool "pause_recovery" "Stop automatic recovery for the case without crediting revenue."
    GREEN ToolPermission.PAUSE_RECOVERY 10 true
].

(** [ToolRegistry.get] and [require] *)
Definition registry_get (name : string) : result exn ToolSpec :=
  ok_or (ToolValidationError "UNKNOWN_TOOL" ("Tool " +:+ name +:+ " is not registered"))
        (find (fun s => String.eqb (spec_name s) name) TOOL_SPECS).

(** ** Validation

    [model_validate] and [model_dump(mode="json")] of pydantic on these models. Text is
    accepted as it is; what pydantic reads as an integer is the parameter [as_int], which
    leaves integers alone. *)
Section Validation.
Context (as_int : json -> option Z).

(** One field: its value, or [None] when it is refused. *)
Definition validate_field (ty : field_type) (v : option json) : option json :=
  match ty, v with
  | OptionalText, None | OptionalText, Some JNull => Some JNull
  | OptionalText, Some (JStr s) => Some (JStr s)
  | RequiredText, Some (JStr s) => Some (JStr s)
  | OptionalInt, None | OptionalInt, Some JNull => Some JNull
  | OptionalInt, Some v => JInt <$> as_int v
  | ChannelField, None => Some (JStr (value NotificationChannel.EMAIL))
  | ChannelField, Some (JStr s) =>
      c ← of_value s; Some (JStr (value (c : NotificationChannel.t)))
  | _, _ => None
  end.

Fixpoint validate_fields (fields : list (string * field_type)) (payload : dict) : option dict :=
  match fields with
  | [] => Some []
  | (name, ty) :: fields =>
      v ← validate_field ty (lookup_key name payload);
      rest ← validate_fields fields payload;
      Some ((name, v) :: rest)
  end.

Definition model_validate (fields : list (string * field_type)) (payload : dict) : option dict :=
  if forallb (fun k => mem_str k (map fst fields)) (dict_keys payload)
  then validate_fields fields payload else None.
End Validation.

(** ** Lemmas *)

(** The two tables are inverse to one another, and name registered tools. *)
Lemma action_for_tool_inv a : action_for_tool (TOOL_BY_ACTION a) = Some a.
Proof. by destruct a. Qed.

Lemma action_for_tool_Some name a : action_for_tool name = Some a -> name = TOOL_BY_ACTION a.
Proof. intros H. apply find_some in H as [_ H]. by apply String.eqb_eq in H. Qed.

Lemma registry_get_name name s : registry_get name = Ok s -> s ∈ TOOL_SPECS /\ spec_name s = name.
Proof.
  unfold registry_get. destruct (find _ _) as [t|] eqn:H; [|done]. intros [= <-].
  apply find_some in H as [Hin Hn]. split; [by apply list_elem_of_In|by apply String.eqb_eq].
Qed.

(** A decidable property of every tool. *)
Lemma all_tools (P : ToolSpec -> bool) :
  forallb P TOOL_SPECS = true -> forall s, s ∈ TOOL_SPECS -> P s = true.
Proof. intros H s. by apply forallb_elem. Qed.

Lemma validate_field_again as_int ty v v' :
  (forall n, as_int (JInt n) = Some n) ->
  validate_field as_int ty v = Some v' -> validate_field as_int ty (Some v') = Some v'.
Proof.
  intros Hint. destruct ty, v as [[]|]; simpl; intros H; simplify_eq/=; try done;
    try (apply fmap_Some in H as (m & _ & ->); simpl; by rewrite Hint);
    destruct (of_value _) as [c|]; simplify_eq/=; by destruct c.
Qed.

Lemma validate_fields_keys as_int fields payload d :
  validate_fields as_int fields payload = Some d -> map fst d = map fst fields.
Proof.
  revert d. induction fields as [|[name ty] fields IH]; intros d; simpl; [by intros [= <-]|].
  destruct (validate_field _ _ _); simpl; [|done]. destruct (validate_fields _ _ _) eqn:H; simpl; [|done].
  intros [= <-]. simpl. f_equal. by apply IH.
Qed.

Lemma lookup_key_notin k d : k ∉ map fst d -> lookup_key k d = None.
Proof.
  induction d as [|[j v] d IH]; simpl; [done|]. intros H.
  destruct (String.eqb_spec k j) as [->|]; [exfalso; apply H; left|]. apply IH. set_solver.
Qed.

Lemma validate_fields_more as_int fields payload d k v :
  k ∉ map fst fields -> validate_fields as_int fields payload = Some d ->
  validate_fields as_int fields ((k, v) :: payload) = Some d.
Proof.
  revert d. induction fields as [|[name ty] fields IH]; intros d Hk; simpl; [done|].
  assert (name <> k) as Hne by (intros ->; apply Hk; left).
  rewrite (proj2 (String.eqb_neq name k)) by done.
  destruct (validate_field _ _ _); simpl; [|done].
  destruct (validate_fields _ fields payload) as [r|] eqn:Hr; simpl; [|done].
  intros H. rewrite (IH r); [done|set_solver|done].
Qed.

(** Validating a validated input changes nothing. *)
Lemma model_validate_again as_int fields payload d :
  (forall n, as_int (JInt n) = Some n) -> NoDup (map fst fields) ->
  model_validate as_int fields payload = Some d -> model_validate as_int fields d = Some d.
Proof.
  intros Hint Hnd. unfold model_validate. destruct (forallb _ (dict_keys payload)); [|done].
  intros H. assert (forallb (fun k => mem_str k (map fst fields)) (dict_keys d) = true) as ->.
  { assert (dict_keys d = map fst fields) as -> by exact (validate_fields_keys _ _ _ _ H).
    apply forallb_elem.
    intros k Hk. by apply bool_decide_eq_true. }
  revert d H Hnd. induction fields as [|[name ty] fields IH]; intros d; simpl; [by intros [= <-]|].
  destruct (validate_field _ _ _) as [v|] eqn:Hv; simpl; [|done].
  destruct (validate_fields _ fields payload) as [r|] eqn:Hr; simpl; [|done].
  intros [= <-] [Hn Hnd]%list.NoDup_cons. simpl. rewrite String.eqb_refl.
  rewrite (validate_field_again _ _ _ _ Hint Hv). simpl.
  by rewrite (validate_fields_more _ _ _ r) by (done || by apply IH).
Qed.

Lemma input_models_nodup s : s ∈ TOOL_SPECS -> NoDup (map fst (spec_input_model s)).
Proof.
  intros H. apply (bool_decide_eq_true (NoDup (map fst (spec_input_model s)))). revert s H.
  apply all_tools. vm_compute. reflexivity.
Qed.
