(* ===== verification/Idempotency.v ===== *)
(** * Idempotency keys

    [recoverai_domain/tools/idempotency.py]: a request is identified by the merchant's key
    and by the hash of its canonical JSON; a key is recorded once, whatever requests race. *)
From S2P Require Import Prelude PyStr Uuid Errors Decimal Json Datetime Enums Rows Store Repositories.
Open Scope stdpp_scope.

Definition IDEMPOTENCY_TTL_HOURS : Z := 24.

Definition SENSITIVE_KEY_FRAGMENTS : list string :=
  ["authorization"; "secret"; "api_key"; "password"; "card_number"; "cvv"; "pan"; "token"; "credential"].

Definition sensitive (key : string) : bool :=
  existsb (fun fragment => contains fragment (lower key)) SENSITIVE_KEY_FRAGMENTS.

Fixpoint sanitize_json (v : json) : json :=
  match v with
  | JObj fields =>
      JObj ((fix go (l : list (string * json)) : list (string * json) :=
               match l with
               | [] => []
               | (k, x) :: l => if sensitive k then go l else (k, sanitize_json x) :: go l
               end) fields)
  | JList l => JList (map sanitize_json l)
  | v => v
  end.

(** [sanitize_payload] of a dictionary *)
Definition sanitize_payload (d : dict) : dict :=
  omap (fun kv => if sensitive kv.1 then None else Some (kv.1, sanitize_json kv.2)) d.

Definition canonical_request_hash (payload : dict) : string :=
  hex_of_bytes (sha256 (bytes_of_string (dumps (JObj (sanitize_payload payload))))).

(** What other transactions commit while this one waits for the key. *)
Section Idempotency.
Context (concurrent : World -> World).

Definition key_row (merchant_id : UUID) (key : string) (w : World) : option UUID :=
  scalar_where (fun _ k => same (idem_merchant_id k) merchant_id && same (idem_key k) key)
    (w_idempotency w).

(** The row that is there: a replay, if it was made for the same request. *)
Definition replayed_key (id : UUID) (key request_hash : string) : Op (UUID * bool) :=
  k ← get_row w_idempotency id;
  if negb (String.eqb (idem_request_hash k) request_hash) then mthrow (IdempotencyConflictError key)
  else mret (id, true).

(** The record, and whether it is a replay. *)
Definition begin_idempotent_operation (merchant_id : UUID) (key operation request_hash : string)
  : Op (UUID * bool) :=
  existing ← gets (key_row merchant_id key);
  match existing with
  | Some id => replayed_key id key request_hash
  | None =>
      now ← utcnow;
      inserted ← try_except
        (flush;; modify concurrent;;
         id ← insert_key (mk_IdempotencyKey merchant_id key operation request_hash None
                IdempotencyKeyStatus.IN_PROGRESS None (Some (now + hours IDEMPOTENCY_TTL_HOURS)%Z)
                (Some []));
         mret (inl id))
        (fun e => if is_integrity_error e then mret (inr e) else mthrow e);
      match inserted with
      | inl id => mret (id, false)
      | inr e =>
          raced ← gets (key_row merchant_id key);
          match raced with
          | None => mthrow e
          | Some id => replayed_key id key request_hash
          end
      end
  end.
End Idempotency.

Definition complete_idempotent_operation (record : UUID) (response : dict)
  (response_reference : option string) : Op unit :=
  now ← utcnow;
  update_key record (fun k =>
    set_idem_metadata_json
      (Some (dict_set "result" (JObj response) (default [] (idem_metadata_json k))))
      (set_idem_response_reference response_reference
        (set_idem_completed_at (Some now)
          (set_idem_status IdempotencyKeyStatus.COMPLETED k)))).

Definition fail_idempotent_operation (record : UUID) (error_code : string) : Op unit :=
  now ← utcnow;
  update_key record (fun k =>
    set_idem_metadata_json
      (Some (dict_set "error_code" (JStr error_code) (default [] (idem_metadata_json k))))
      (set_idem_completed_at (Some now)
        (set_idem_status IdempotencyKeyStatus.FAILED k))).

(** ** Sanitized values *)

(** No key at any depth is sensitive. *)
Fixpoint clean_json (v : json) : bool :=
  match v with
  | JObj fields =>
      (fix go (l : list (string * json)) : bool :=
         match l with
         | [] => true
         | (k, x) :: l => negb (sensitive k) && (clean_json x && go l)
         end) fields
  | JList l => forallb clean_json l
  | _ => true
  end.

Lemma sanitize_json_clean v : clean_json (sanitize_json v) = true.
Proof.
  induction v as [| | | | |l IH|l IH] using json_ind_nested; simpl; try done.
  - induction IH as [|x l Hx _ IHl]; simpl; [done|]. by rewrite Hx.
  - induction IH as [|[k x] l Hx _ IHl]; simpl; [done|].
    simpl in Hx. destruct (sensitive k) eqn:Hk; [done|]. by rewrite Hk, Hx, IHl.
Qed.

Lemma sanitize_payload_obj d : JObj (sanitize_payload d) = sanitize_json (JObj d).
Proof.
  unfold sanitize_payload. simpl. f_equal. induction d as [|[k x] d IH]; simpl; [done|].
  destruct (sensitive k); simpl; [exact IH|]. f_equal. exact IH.
Qed.

Lemma sanitize_payload_clean d : clean_json (JObj (sanitize_payload d)) = true.
Proof. rewrite sanitize_payload_obj. apply sanitize_json_clean. Qed.

(** A clean value is left alone. *)
Lemma sanitize_json_id v : clean_json v = true -> sanitize_json v = v.
Proof.
  induction v as [| | | | |l IH|l IH] using json_ind_nested; simpl; try done.
  - intros H. f_equal. induction IH as [|x l Hx _ IHl]; simpl in *; [done|].
    apply andb_true_iff in H as [H1 H2]. by rewrite Hx, IHl.
  - intros H. f_equal. induction IH as [|[k x] l Hx _ IHl]; simpl in *; [done|].
    apply andb_true_iff in H as [H1%negb_true_iff [H2 H3]%andb_true_iff].
    simpl in Hx. by rewrite H1, Hx, IHl.
Qed.

Lemma insert_key_run k w :
  w_idempotency w !! w_uuids w (w_draws w) = None ->
  existsb (fun kv => key_conflict k kv.2) (map_to_list (w_idempotency w)) = false ->
  insert_key k w =
    (set_w_idempotency (<[w_uuids w (w_draws w) := k]> (w_idempotency w))
       (set_w_draws (S (w_draws w)) w), Ok (w_uuids w (w_draws w))).
Proof.
  intros Hid Hc. unfold insert_key, uuid4, mbind, m_bind, gets, get, modify. simpl.
  change (w_idempotency (set_w_draws (S (w_draws w)) w)) with (w_idempotency w).
  by rewrite Hid, Hc.
Qed.
