(* ===== verification/VerificationTypes.v ===== *)
(** * Results of verification and follow-up jobs

    [recoverai_domain/verification_types.py]. *)
From S2P Require Import Prelude PyStr Uuid Errors Decimal Json Enums.
Open Scope stdpp_scope.

Module MismatchReason.
Inductive t : Type :=
  | MERCHANT_MISMATCH | CUSTOMER_MISMATCH | ORDER_MISMATCH | PAYMENT_MISMATCH
  | AMOUNT_MISMATCH | CURRENCY_MISMATCH | OUTSIDE_RECOVERY_WINDOW | ALREADY_COUNTED
  | DUPLICATE_EVENT | NOT_CAPTURED | UNKNOWN.

#[export] Instance enum : StrEnum t := {|
  members := [MERCHANT_MISMATCH; CUSTOMER_MISMATCH; ORDER_MISMATCH; PAYMENT_MISMATCH;
              AMOUNT_MISMATCH; CURRENCY_MISMATCH; OUTSIDE_RECOVERY_WINDOW; ALREADY_COUNTED;
              DUPLICATE_EVENT; NOT_CAPTURED; UNKNOWN];
  value := fun m => match m with
    | MERCHANT_MISMATCH => "MERCHANT_MISMATCH"
    | CUSTOMER_MISMATCH => "CUSTOMER_MISMATCH"
    | ORDER_MISMATCH => "ORDER_MISMATCH"
    | PAYMENT_MISMATCH => "PAYMENT_MISMATCH"
    | AMOUNT_MISMATCH => "AMOUNT_MISMATCH"
    | CURRENCY_MISMATCH => "CURRENCY_MISMATCH"
    | OUTSIDE_RECOVERY_WINDOW => "OUTSIDE_RECOVERY_WINDOW"
    | ALREADY_COUNTED => "ALREADY_COUNTED"
    | DUPLICATE_EVENT => "DUPLICATE_EVENT"
    | NOT_CAPTURED => "NOT_CAPTURED"
    | UNKNOWN => "UNKNOWN"
    end;
|}.

#[export] Instance eq_dec : EqDecision t.
Proof. solve_decision. Defined.

#[export] Instance laws : StrEnumLaws t.
Proof. solve_enum_laws. Qed.
End MismatchReason.
#[export] Existing Instances MismatchReason.enum MismatchReason.eq_dec MismatchReason.laws.

Record RecoveryMatchResult : Type := mk_RecoveryMatchResult {
  m_matched : bool;
  m_case_id : UUID;
  m_payment_id : option UUID;
  m_amount_recovered : Decimal;
  m_currency : string;
  m_reasons : list string;
  m_mismatch_reason : option MismatchReason.t;
  m_remaining_exposure : Decimal;
  m_capped_overpayment : Decimal;
}.

Definition set_m_payment_id (v : option UUID) (r : RecoveryMatchResult) : RecoveryMatchResult :=
  mk_RecoveryMatchResult (m_matched r) (m_case_id r) v (m_amount_recovered r) (m_currency r)
    (m_reasons r) (m_mismatch_reason r) (m_remaining_exposure r) (m_capped_overpayment r).

Definition opt_reason (r : option MismatchReason.t) : json :=
  match r with Some r => JStr (value r) | None => JNull end.

(** [str(reason)] of an optional reason *)
Definition reason_text (r : option MismatchReason.t) : string :=
  match r with Some r => value r | None => "None" end.

Definition to_public_dict (r : RecoveryMatchResult) : dict :=
  [("matched", JBool (m_matched r)); ("case_id", JStr (uuid_str (m_case_id r)));
   ("amount_recovered", JStr (dec_str (m_amount_recovered r))); ("currency", JStr (m_currency r))]
  ++ match m_payment_id r with Some p => [("payment_id", JStr (uuid_str p))] | None => [] end
  ++ (if m_matched r then [("reasons", JList (map JStr (m_reasons r)))]
      else [("mismatch_reason", opt_reason (m_mismatch_reason r))]).

Record FollowUpJob : Type := mk_FollowUpJob {
  job_name : string;
  job_case_id : UUID;
  job_payment_id : option UUID;
  job_webhook_event_id : option UUID;
  job_extra : list (string * string);
}.

Definition as_dict (j : FollowUpJob) : dict :=
  dict_update
    ([("name", JStr (job_name j)); ("case_id", JStr (uuid_str (job_case_id j)))]
     ++ match job_payment_id j with Some p => [("payment_id", JStr (uuid_str p))] | None => [] end
     ++ match job_webhook_event_id j with
        | Some e => [("webhook_event_id", JStr (uuid_str e))]
        | None => []
        end)
    (map (fun kv => (kv.1, JStr kv.2)) (job_extra j)).
