(* ===== verification/Processing.v ===== *)
(** * Processing a stored provider event

    [recoverai_domain/processing.py]: a webhook row is normalised and dispatched
    to the handler of its event type, which updates the payment it names and
    opens or attaches a recovery case; failures are recorded on the row. *)
From S2P Require Import Prelude PyStr Uuid Errors Decimal Json Datetime Enums Rows Store Repositories Events VerificationTypes.
Open Scope stdpp_scope.

(** [uuid.UUID("3d5c8a10-6b2e-4f1a-9c3d-0e7f2a1b4c8d")] *)
Definition INTERNAL_PAYMENT_NS : UUID := 0x3d5c8a106b2e4f1a9c3d0e7f2a1b4c8d%N.
Definition SAFE_ERROR_MAX_LEN : nat := 500.

Definition internal_payment_uuid (merchant_id : UUID) (provider provider_payment_id : string)
  : UUID :=
  uuid5 INTERNAL_PAYMENT_NS (uuid_str merchant_id +:+ ":" +:+ provider +:+ ":" +:+ provider_payment_id).

(** The [occurred_at] a payload carries, or the time the row was received. *)
Definition occurred_at_of (row : WebhookEvent) : datetime :=
  match dict_get "occurred_at" (hook_payload row) with
  | JStr raw =>
      if nonempty (strip raw) then
        match fromisoformat (replace "Z" "+00:00" raw) with
        | Some parsed => mk_datetime (dt_wall parsed) (Some (default 0%Z (dt_offset parsed)))
        | None => utc (hook_received_at row)
        end
      else utc (hook_received_at row)
  | _ => utc (hook_received_at row)
  end.

Definition provider_event_from_row (row : WebhookEvent) : ProviderEvent :=
  let payload := hook_payload row in
  let resource_id := py_str
    (py_or (dict_get "provider_payment_id" payload)
       (py_or (dict_get "provider_resource_id" payload)
          (py_or (dict_get "payment_id" payload) (JStr "")))) in
  let merchant_reference := py_str
    (py_or (dict_get "merchant_reference" payload) (JStr (uuid_str (hook_merchant_id row)))) in
  mk_ProviderEvent (hook_provider row) (hook_event_id row) (hook_event_type row)
    (occurred_at_of row) resource_id merchant_reference payload (hook_signature_valid row)
    (hook_correlation_id row).

(** [record_audit] as the handlers of this file call it: by the worker. *)
Definition worker_audit (merchant_id : UUID) (event_type summary action : string)
  (case_id : option UUID) (previous_state new_state correlation_id : option string)
  (metadata : dict) : Op unit :=
  record_audit merchant_id event_type summary
    (mk_AuditArgs case_id (value ActorType.WORKER) None (Some action) previous_state new_state
       correlation_id None (Some metadata)).

(** ** Payments *)

Definition _is_status_downgrade (current incoming : PaymentStatus.t) : bool :=
  if same current PaymentStatus.CAPTURED
     && bool_decide (incoming ∈ [PaymentStatus.CREATED; PaymentStatus.AUTHORIZED;
                                 PaymentStatus.FAILED; PaymentStatus.CANCELLED])
  then true
  else same current PaymentStatus.REFUNDED && negb (same incoming PaymentStatus.REFUNDED).

Definition _resolve_customer (event : DomainPaymentEvent) : Op UUID :=
  w ← get;
  match ev_customer_id event with
  | Some customer_id =>
      lift (ok_or (DomainError "MISSING_CUSTOMER" "Customer does not belong to this merchant" false)
              (CustomerRepository.get_customer (ev_merchant_id event) customer_id w))
  | None =>
      match or_str (ev_customer_external_id event) None with
      | Some external_id =>
          lift (ok_or (DomainError "MISSING_CUSTOMER" "Customer external id was not found" false)
                  (CustomerRepository.get_by_external_id (ev_merchant_id event) external_id w))
      | None => mthrow (DomainError "MISSING_CUSTOMER"
                          "customer_id or customer_external_id is required" false)
      end
  end.

Definition _add_attempt (payment_id : UUID) (event : DomainPaymentEvent) (status : PaymentStatus.t)
  : Op unit :=
  number ← gets (PaymentRepository.next_attempt_number payment_id);
  add_attempt (mk_PaymentAttempt payment_id number status (ev_amount event) (ev_currency event)
    (ev_failure_code event) (ev_failure_code event) (instant (ev_occurred_at event))).

(** The assignments [_find_or_create_payment] makes on a known payment. *)
Definition apply_event (event : DomainPaymentEvent) (status : PaymentStatus.t) (p : Payment)
  : Payment :=
  let p1 := if negb (_is_status_downgrade (payment_status p) status)
            then set_payment_status status p else p in
  let p2 := set_payment_provider_order_id
              (or_str (ev_provider_order_id event) (payment_provider_order_id p1)) p1 in
  let p3 :=
    if same status PaymentStatus.FAILED then
      set_payment_failed_at (Some (instant (ev_occurred_at event)))
        (set_payment_failure_reason (or_str (ev_failure_code event) (payment_failure_reason p2))
           (set_payment_failure_code (or_str (ev_failure_code event) (payment_failure_code p2)) p2))
    else p2 in
  let p4 :=
    if same status PaymentStatus.CAPTURED then
      set_payment_amount (ev_amount event)
        (set_payment_status PaymentStatus.CAPTURED
           (set_payment_captured_at (Some (instant (ev_occurred_at event))) p3))
    else p3 in
  set_payment_payment_method (or_str (ev_payment_method event) (payment_payment_method p4)) p4.

(** [int(d)] truncates towards zero. *)
Definition dec_to_int (d : Decimal) : Z :=
  if (0 <=? d_exp d)%Z then coeff_at 0 d else Z.quot (d_int d) (10 ^ (- d_exp d)).

Definition new_payment (customer_id : UUID) (event : DomainPaymentEvent) (status : PaymentStatus.t)
  : Payment :=
  let at_if (s : PaymentStatus.t) :=
    if same status s then Some (instant (ev_occurred_at event)) else None in
  mk_Payment (ev_merchant_id event) customer_id (ev_provider event)
    (Some (ev_provider_payment_id event)) (ev_provider_order_id event) None (ev_amount event)
    (Some (dec_to_int (dec_mul (ev_amount event) (dec_of_Z 100)))) (ev_currency event) status
    (ev_payment_method event) (ev_failure_code event) (ev_failure_code event)
    (at_if PaymentStatus.CAPTURED) (at_if PaymentStatus.FAILED).

(** Returns the payment's key and its previous status. *)
Definition _find_or_create_payment (event : DomainPaymentEvent) (status : PaymentStatus.t)
  : Op (UUID * option PaymentStatus.t) :=
  existing ← gets (PaymentRepository.get_by_provider_payment_id (ev_merchant_id event)
                     (ev_provider event) (ev_provider_payment_id event));
  match existing with
  | Some payment_id =>
      p ← get_row w_payments payment_id;
      update_payment payment_id (apply_event event status);;
      _add_attempt payment_id event status;;
      mret (payment_id, Some (payment_status p))
  | None =>
      customer_id ← _resolve_customer event;
      let payment_id := internal_payment_uuid (ev_merchant_id event) (ev_provider event)
                          (ev_provider_payment_id event) in
      insert_payment payment_id (new_payment customer_id event status);;
      flush;;
      _add_attempt payment_id event status;;
      mret (payment_id, None)
  end.

(** ** Recovery cases *)

Definition verify_job (case_id payment_id webhook_event_id : UUID) : FollowUpJob :=
  mk_FollowUpJob "verify_recovery_case" case_id (Some payment_id) (Some webhook_event_id) [].
Definition process_job (case_id webhook_event_id : UUID) : FollowUpJob :=
  mk_FollowUpJob "process_recovery_case" case_id None (Some webhook_event_id) [].

(** [if payment.status == CAPTURED: _queue_verify(...)] *)
Definition verify_if_captured (p : Payment) (case_id payment_id webhook_event_id : UUID)
  : list FollowUpJob :=
  if same (payment_status p) PaymentStatus.CAPTURED
  then [verify_job case_id payment_id webhook_event_id] else [].

Definition new_case (event : DomainPaymentEvent) (payment_id : UUID) (p : Payment)
  (webhook_event_id : UUID) (now : Z) : RecoveryCase :=
  mk_RecoveryCase (ev_merchant_id event) (payment_customer_id p) (Some payment_id) None None
    RecoveryCaseType.FAILED_PAYMENT DETECTED (payment_amount p) ZERO (payment_currency p) 0%Z
    (Some webhook_event_id) 1%Z now None None None None.

Definition opt_status (s : option PaymentStatus.t) : option string := value <$> s.

Section Processing.
(** What other transactions commit between the query for open cases and the
    insert of a new one. *)
Context (concurrent : World -> World).

Definition insert_case_nested (c : RecoveryCase) : Op UUID :=
  flush;; modify concurrent;; insert_case c.

Definition _create_or_attach_recovery_case (webhook_event_id : UUID)
  (event : DomainPaymentEvent) (payment_id : UUID) : Op (list FollowUpJob) :=
  p ← get_row w_payments payment_id;
  let open_cases := RecoveryCaseRepository.list_open_for_payment (ev_merchant_id event) payment_id in
  found ← gets open_cases;
  match found with
  | (case_id, c) :: _ =>
      worker_audit (ev_merchant_id event) "RECOVERY_CASE_ATTACHED"
        "Existing open recovery case attached; no duplicate case created" "attach_case"
        (Some case_id) None (Some (value (case_status c))) (ev_correlation_id event)
        [("payment_id", JStr (uuid_str payment_id));
         ("source_event_id", JStr (uuid_str webhook_event_id))];;
      mret (verify_if_captured p case_id payment_id webhook_event_id)
  | [] =>
      now ← utcnow;
      let c := new_case event payment_id p webhook_event_id now in
      inserted ← try_except (case_id ← insert_case_nested c; mret (inl case_id))
        (fun e => if is_integrity_error e then mret (inr e) else mthrow e);
      match inserted with
      | inr e =>
          found ← gets open_cases;
          match found with
          | [] => mthrow e
          | (case_id, c) :: _ =>
              worker_audit (ev_merchant_id event) "RECOVERY_CASE_ATTACHED"
                "Existing open recovery case attached after uniqueness conflict" "attach_case"
                (Some case_id) None (Some (value (case_status c))) (ev_correlation_id event)
                [("payment_id", JStr (uuid_str payment_id))];;
              p ← get_row w_payments payment_id;
              mret (verify_if_captured p case_id payment_id webhook_event_id)
          end
      | inl case_id =>
          worker_audit (ev_merchant_id event) "RECOVERY_CASE_CREATED"
            "Recovery case created in DETECTED status for failed payment" "create_case"
            (Some case_id) None (Some (value DETECTED)) (ev_correlation_id event)
            [("payment_id", JStr (uuid_str payment_id)); ("case_id", JStr (uuid_str case_id));
             ("amount_at_risk", JStr (dec_str (payment_amount p)))];;
          mret (process_job case_id webhook_event_id
                :: verify_if_captured p case_id payment_id webhook_event_id)
      end
  end.

(** Open cases of the payment, then open cases of its customer, each once. *)
Definition _candidate_cases (payment_id : UUID) (p : Payment) (w : World) : list UUID :=
  let by_payment :=
    (RecoveryCaseRepository.list_open_for_payment (payment_merchant_id p) payment_id w).*1 in
  let by_customer :=
    (RecoveryCaseRepository.list_open_for_customer (payment_merchant_id p)
       (payment_customer_id p) w).*1 in
  by_payment ++ filter (fun id => id ∉ by_payment) by_customer.

Definition _handle_payment_failed (webhook_event_id : UUID) (event : DomainPaymentEvent)
  : Op (list FollowUpJob) :=
  '(payment_id, previous) ← _find_or_create_payment event PaymentStatus.FAILED;
  worker_audit (ev_merchant_id event) "PAYMENT_UPDATED"
    "Payment marked FAILED from provider event" "update_payment" None (opt_status previous)
    (Some (value PaymentStatus.FAILED)) (ev_correlation_id event)
    [("payment_id", JStr (uuid_str payment_id));
     ("provider_payment_id", JStr (ev_provider_payment_id event));
     ("provider_order_id", opt_str (ev_provider_order_id event))];;
  _create_or_attach_recovery_case webhook_event_id event payment_id.

Definition _handle_payment_captured (webhook_event_id : UUID) (event : DomainPaymentEvent)
  : Op (list FollowUpJob) :=
  '(payment_id, previous) ← _find_or_create_payment event PaymentStatus.CAPTURED;
  p ← get_row w_payments payment_id;
  candidates ← gets (_candidate_cases payment_id p);
  worker_audit (ev_merchant_id event) "PAYMENT_UPDATED"
    "Payment marked CAPTURED from provider event. Recovery verification queued asynchronously."
    "update_payment" (head candidates) (opt_status previous) (Some (value PaymentStatus.CAPTURED))
    (ev_correlation_id event)
    [("payment_id", JStr (uuid_str payment_id));
     ("provider_payment_id", JStr (ev_provider_payment_id event));
     ("open_recovery_case_id", opt_uuid (head candidates));
     ("verification_queued", JBool (negb (bool_decide (candidates = []))))];;
  mret (map (fun case_id => verify_job case_id payment_id webhook_event_id) candidates).

Definition _handle_payment_refunded (event : DomainPaymentEvent) : Op unit :=
  '(payment_id, previous) ← _find_or_create_payment event PaymentStatus.REFUNDED;
  worker_audit (ev_merchant_id event) "PAYMENT_UPDATED"
    "Payment marked REFUNDED from provider event. Refund policy is not implemented."
    "update_payment" None (opt_status previous) (Some (value PaymentStatus.REFUNDED))
    (ev_correlation_id event)
    [("payment_id", JStr (uuid_str payment_id));
     ("provider_payment_id", JStr (ev_provider_payment_id event))].

Definition _handle_payment_status (event : DomainPaymentEvent) (status : PaymentStatus.t)
  : Op unit :=
  '(payment_id, previous) ← _find_or_create_payment event status;
  worker_audit (ev_merchant_id event) "PAYMENT_UPDATED"
    ("Payment marked " +:+ value status +:+ " from provider event") "update_payment" None
    (opt_status previous) (Some (value status)) (ev_correlation_id event)
    [("payment_id", JStr (uuid_str payment_id));
     ("provider_payment_id", JStr (ev_provider_payment_id event))].

(** [_dispatch]: the jobs appended to [followups]. *)
Definition _dispatch (webhook_event_id : UUID) (row : WebhookEvent) (domain_event : NormalizedEvent)
  : Op (list FollowUpJob) :=
  match domain_event with
  | UnknownEvent u =>
      worker_audit (hook_merchant_id row) "UNKNOWN_EVENT_IGNORED"
        "Unknown provider event type stored without domain side effects" "ignore_unknown" None
        None None (hook_correlation_id row)
        [("raw_event_type", JStr (un_raw_event_type u));
         ("payload_keys", JList (map JStr (un_payload_keys u)))];;
      mret []
  | PaymentEvent e =>
      match ev_event_type e with
      | PAYMENT_FAILED => _handle_payment_failed webhook_event_id e
      | PAYMENT_CAPTURED => _handle_payment_captured webhook_event_id e
      | PAYMENT_REFUNDED => _handle_payment_refunded e;; mret []
      | PAYMENT_CANCELLED => _handle_payment_status e PaymentStatus.CANCELLED;; mret []
      | PAYMENT_AUTHORIZED => _handle_payment_status e PaymentStatus.AUTHORIZED;; mret []
      | PAYMENT_CREATED | UNKNOWN_EVENT => _handle_payment_status e PaymentStatus.CREATED;; mret []
      end
  end.

(** ** The webhook row *)

Definition _mark_failure (webhook_event_id : UUID) (exc : exn) (dead_letter : bool) : Op unit :=
  let retryable := is_operational_error exc || exn_retryable exc in
  let code := exn_code exc in
  let message := prefix_n SAFE_ERROR_MAX_LEN (exn_message exc) in
  let status := if dead_letter then WebhookEventStatus.DEAD_LETTER else WebhookEventStatus.FAILED in
  update_webhook webhook_event_id (fun r =>
    set_hook_status status
      (set_hook_error_message (Some message)
         (set_hook_error_code (Some (prefix_n 64 code)) r)));;
  row ← get_row w_webhooks webhook_event_id;
  worker_audit (hook_merchant_id row) "PROVIDER_EVENT_FAILED"
    (if dead_letter then "Provider event moved to dead letter"
     else "Provider event processing failed")
    (if dead_letter then "dead_letter" else "process_failed") None None (Some (value status))
    (hook_correlation_id row)
    [("webhook_event_id", JStr (uuid_str webhook_event_id)); ("error_code", JStr code);
     ("retryable", JBool retryable)].

Record ProcessResult : Type := mk_ProcessResult {
  pr_status : string;
  pr_webhook_event_id : UUID;
  pr_followups : list dict;
}.

(** The end of the [try] block: the row is marked and the jobs are returned. *)
Definition finish_processing (webhook_event_id : UUID) (row : WebhookEvent)
  (followups : list FollowUpJob) : Op ProcessResult :=
  now ← utcnow;
  update_webhook webhook_event_id (fun r =>
    set_hook_error_message None (set_hook_error_code None
      (set_hook_processed_at (Some now) (set_hook_status WebhookEventStatus.PROCESSED r))));;
  record_audit (hook_merchant_id row) "PROVIDER_EVENT_PROCESSED" "Provider event processed"
    (mk_AuditArgs None (value ActorType.WORKER) None (Some "process") None
       (Some (value WebhookEventStatus.PROCESSED)) (hook_correlation_id row)
       (Some (hook_provider row +:+ ":" +:+ hook_event_id row))
       (Some [("webhook_event_id", JStr (uuid_str webhook_event_id));
              ("event_type", JStr (hook_event_type row))]));;
  mret (mk_ProcessResult "processed" webhook_event_id (map as_dict followups)).

(** The [try] block up to the dispatch. *)
Definition normalize_and_dispatch (webhook_event_id : UUID) (row : WebhookEvent)
  : Op (list FollowUpJob) :=
  merchant ← gets (MerchantRepository.get_merchant (hook_merchant_id row));
  match merchant with
  | None => mthrow (DomainError "MISSING_MERCHANT" "Merchant was not found for provider event" false)
  | Some _ =>
      domain_event ← lift (normalize_provider_event (provider_event_from_row row)
                             webhook_event_id (hook_merchant_id row));
      _dispatch webhook_event_id row domain_event
  end.

(** The [try] block of [process_webhook_event]. *)
Definition process_body (webhook_event_id : UUID) : Op ProcessResult :=
  row ← get_row w_webhooks webhook_event_id;
  followups ← normalize_and_dispatch webhook_event_id row;
  finish_processing webhook_event_id row followups.

Definition process_webhook_event (webhook_event_id : UUID) : Op ProcessResult :=
  found ← gets (fun w => w_webhooks w !! webhook_event_id);
  match found with
  | None => mthrow (DomainError "INVALID_PROVIDER_EVENT"
                      ("Webhook event " +:+ uuid_str webhook_event_id +:+ " was not found") false)
  | Some row =>
      match hook_status row with
      | WebhookEventStatus.PROCESSED =>
          mret (mk_ProcessResult "already_processed" webhook_event_id [])
      | WebhookEventStatus.DEAD_LETTER =>
          mret (mk_ProcessResult "dead_letter" webhook_event_id [])
      | _ =>
          update_webhook webhook_event_id (set_hook_status WebhookEventStatus.PROCESSING);;
          flush;;
          try_except (process_body webhook_event_id) (fun exc =>
            if is_domain_error exc && negb (exn_retryable exc) then
              _mark_failure webhook_event_id exc true;;
              mret (mk_ProcessResult "dead_letter" webhook_event_id [])
            else
              _mark_failure webhook_event_id exc false;;
              mthrow exc)
      end
  end.
End Processing.

Definition mark_dead_letter (webhook_event_id : UUID) (error : string) : Op unit :=
  found ← gets (fun w => w_webhooks w !! webhook_event_id);
  match found with
  | None => mret tt
  | Some row =>
      match hook_status row with
      | WebhookEventStatus.PROCESSED | WebhookEventStatus.DEAD_LETTER => mret tt
      | _ =>
          update_webhook webhook_event_id (fun r =>
            set_hook_error_message (Some (prefix_n SAFE_ERROR_MAX_LEN error))
              (set_hook_status WebhookEventStatus.DEAD_LETTER r));;
          worker_audit (hook_merchant_id row) "PROVIDER_EVENT_FAILED"
            "Provider event moved to dead letter after bounded retries" "dead_letter" None None
            (Some (value WebhookEventStatus.DEAD_LETTER)) (hook_correlation_id row)
            [("webhook_event_id", JStr (uuid_str webhook_event_id))]
      end
  end.
