(* ===== verification/Processor.v ===== *)
(** * Advancing a case

    [recoverai_domain/processor.py]: the deterministic walk of a case to its
    policy check and the three outcomes of the check: blocked, waiting for a
    human, or planned. *)
From S2P Require Import Prelude PyStr Uuid Errors Decimal Json Datetime Enums Rows Store Repositories StateMachine Transitions Config PolicyContext PolicyEngine.
Open Scope stdpp_scope.

Definition RETRYABLE_FAILURES : list string :=
  ["TEMPORARY_BANK_ERROR"; "NETWORK_TIMEOUT"; "INSUFFICIENT_FUNDS"].

Definition PROCESS_STEPS : list (RecoveryCaseStatus * string) := [
  (TRIAGED, "Case triaged with deterministic Phase 4 rules");
  (INVESTIGATING, "Investigating failed-payment context");
  (DIAGNOSED, "Diagnosis recorded without ML");
  (SCORING, "Placeholder scoring started");
  (STRATEGY_SELECTED, "Placeholder strategy selected");
  (POLICY_CHECK, "Policy check recorded by the deterministic policy engine")
].

Definition _already_past_order : list RecoveryCaseStatus :=
  [DETECTED; TRIAGED; INVESTIGATING; DIAGNOSED; SCORING; STRATEGY_SELECTED; POLICY_CHECK;
   AWAITING_APPROVAL; EXECUTING; ACTION_COMPLETED].

(** [order.index(s)]; [None] is the [ValueError]. *)
Fixpoint index_of (s : RecoveryCaseStatus) (l : list RecoveryCaseStatus) : option nat :=
  match l with
  | [] => None
  | t :: l => if bool_decide (s = t) then Some O else S <$> index_of s l
  end.

Definition _already_past (current target : RecoveryCaseStatus) : bool :=
  match index_of current _already_past_order, index_of target _already_past_order with
  | Some i, Some j => (j <? i)%nat
  | _, _ => false
  end.

(** The statuses a case waits in, for an event, a retry or a human. *)
Definition waiting_statuses : list RecoveryCaseStatus :=
  [ACTION_COMPLETED; VERIFYING; NOT_RECOVERED; RETRY_SCHEDULED; FAILED; ESCALATED;
   AWAITING_APPROVAL].

Definition tool_name_for (a : RecoveryActionType.t) : string :=
  match a with
  | RecoveryActionType.RETRY_NOW => "retry_payment"
  | RecoveryActionType.RETRY_LATER => "schedule_retry"
  | RecoveryActionType.SEND_PAYMENT_LINK => "create_payment_link"
  | RecoveryActionType.SEND_REMINDER => "send_notification"
  | RecoveryActionType.OFFER_DISCOUNT => "offer_discount"
  | RecoveryActionType.ESCALATE => "escalate_to_human"
  | RecoveryActionType.DO_NOTHING => "pause_recovery"
  end.

Definition case_fingerprint (c : RecoveryCase) : dict :=
  [("amount_at_risk", JStr (dec_str (case_amount_at_risk c)));
   ("payment_id", opt_uuid (case_payment_id c));
   ("customer_id", JStr (uuid_str (case_customer_id c)));
   ("last_mismatch_reason", opt_str (case_last_mismatch_reason c));
   ("amount_recovered", JStr (dec_str (case_amount_recovered c)))].

Definition planned_key (case_id : UUID) (action_type : RecoveryActionType.t) : string :=
  "phase5:" +:+ uuid_str case_id +:+ ":" +:+ value action_type +:+ ":1".

Section Processor.
Context (settings : RecoverySettings).
(** The keyword arguments of every method. *)
Context (correlation_id : option string) (actor_type : string).

(** [transition_case] with the arguments the processor passes. *)
Definition move (case_id : UUID) (target : RecoveryCaseStatus) (summary : string)
  (metadata : option dict) : Op unit :=
  transition_case case_id target
    (mk_TransitionArgs actor_type correlation_id (Some summary) metadata None).

(** The loop of [_walk_to_policy_check]. *)
Fixpoint walk_steps (case_id : UUID) (steps : list (RecoveryCaseStatus * string)) : Op unit :=
  match steps with
  | [] => mret tt
  | (target, summary) :: steps =>
      c ← get_row w_cases case_id;
      let current := case_status c in
      if bool_decide (current = target) || _already_past current target
      then walk_steps case_id steps
      else if bool_decide (current = POLICY_CHECK) then mret tt
      else move case_id target summary None;; walk_steps case_id steps
  end.

Definition walk_to_policy_check (case_id : UUID) : Op unit := walk_steps case_id PROCESS_STEPS.

Definition _select_action (case_id : UUID) : Op RecoveryActionType.t :=
  c ← get_row w_cases case_id;
  w ← get;
  let payment := match case_payment_id c with
                 | Some p => PaymentRepository.get_payment (case_merchant_id c) p w
                 | None => None
                 end in
  let failure := default "" (k ← payment; p ← w_payments w !! k; payment_failure_code p) in
  mret (if mem_str failure RETRYABLE_FAILURES then RecoveryActionType.RETRY_LATER
        else RecoveryActionType.SEND_PAYMENT_LINK).

Definition default_action_metadata : dict :=
  [("phase", JInt 5); ("planned", JBool true); ("executed", JBool false);
   ("rule", JStr "phase5_deterministic")].

(** The planned action of the case: the one already recorded, or a new one
    with its decision. *)
Definition _record_planned_action (case_id : UUID) (action_type : RecoveryActionType.t)
  (status : RecoveryActionStatus.t) (risk_level : RiskLevel) (metadata : option dict)
  : Op UUID :=
  c ← get_row w_cases case_id;
  let idempotency_key := planned_key case_id action_type in
  existing ← gets (fun w => scalar_where (fun _ a =>
    same (action_merchant_id a) (case_merchant_id c)
    && String.eqb (action_idempotency_key a) idempotency_key) (w_actions w));
  match existing with
  | Some action_id => mret action_id
  | None =>
      now ← utcnow;
      action_id ← insert_action (mk_RecoveryAction (case_merchant_id c) case_id
        (value action_type) status idempotency_key 1%Z risk_level None None
        (Some (case_amount_at_risk c)) (case_currency c) None None None None
        (Some (match metadata with Some ((_ :: _) as m) => m | _ => default_action_metadata end))
        now);
      flush;;
      add_decision (mk_RecoveryDecision (case_merchant_id c) case_id (Some action_id) None None
        "phase5-policy" (value action_type) None
        [("actions", JList [JStr (value action_type)])] [] None
        (Some (if same status RecoveryActionStatus.BLOCKED then "DENY" else "ALLOW"))
        (Some "Deterministic rule: RETRY_LATER for retryable bank/network failures, otherwise SEND_PAYMENT_LINK. Policy engine is authoritative.")
        (Some [("rule", JStr "phase5_deterministic"); ("failure_code", JBool true)]));;
      mret action_id
  end.

(** The branch of a denied action. *)
Definition block_case (case_id : UUID) (action_type : RecoveryActionType.t)
  (evaluation : PolicyEvaluationResult) : Op unit :=
  _record_planned_action case_id action_type RecoveryActionStatus.BLOCKED
    (result_risk_level evaluation)
    (Some [("phase", JInt 5); ("planned", JBool true); ("executed", JBool false);
           ("policy_version", JStr (result_policy_version evaluation));
           ("reason", JStr (result_reason evaluation))]);;
  let suspicious := contains "suspicious" (lower (result_reason evaluation)) in
  let mismatch := contains "mismatch" (lower (result_reason evaluation)) in
  move case_id (if suspicious || mismatch then ESCALATED else STOPPED)
    (result_reason evaluation)
    (Some [("selected_action", JStr (value action_type));
           ("policy_ids", JList (map JStr (result_policy_ids evaluation)))]);;
  flush.

(** The branch of an action a human must approve. *)
Definition request_approval (case_id : UUID) (action_type : RecoveryActionType.t)
  (context : PolicyContext) (evaluation : PolicyEvaluationResult) : Op unit :=
  payload ← (if bool_decide (action_type = RecoveryActionType.RETRY_LATER)
             then now ← utcnow;
                  mret [("scheduled_for", JStr (isoformat (utc (now + hours 1))))]
             else mret []);
  action_id ← _record_planned_action case_id action_type RecoveryActionStatus.APPROVAL_REQUIRED
    (result_risk_level evaluation)
    (Some [("phase", JInt 5); ("planned", JBool true); ("executed", JBool false);
           ("tool_name", JStr (tool_name_for action_type)); ("payload", JObj payload);
           ("policy_version", JStr (result_policy_version evaluation))]);
  c ← get_row w_cases case_id;
  now ← utcnow;
  approval_id ← insert_approval (mk_Approval (case_merchant_id c) case_id (Some action_id) None
    ApprovalStatus.PENDING (Some "processor") None None None
    (Some (now + minutes (approval_ttl_minutes (ctx_settings context)))%Z) now);
  flush;;
  update_action action_id (fun a =>
    set_action_metadata_json
      (Some (dict_update (default [] (action_metadata_json a))
               [("approval_id", JStr (uuid_str approval_id));
                ("case_fingerprint", JObj (case_fingerprint c));
                ("idempotency_key", JStr (action_idempotency_key a))])) a);;
  move case_id AWAITING_APPROVAL "Policy requires human approval before execution"
    (Some [("selected_action", JStr (value action_type));
           ("approval_id", JStr (uuid_str approval_id))]);;
  flush.

(** The branch of an action that may run. *)
Definition plan_action (case_id : UUID) (action_type : RecoveryActionType.t)
  (evaluation : PolicyEvaluationResult) : Op unit :=
  _record_planned_action case_id action_type RecoveryActionStatus.PENDING
    (result_risk_level evaluation) None;;
  move case_id EXECUTING "Planned action recorded as ready. No financial provider call was made."
    (Some [("selected_action", JStr (value action_type)); ("executed", JBool false)]);;
  move case_id ACTION_COMPLETED
    "Planned recovery action recorded as ready. No financial provider call was made."
    (Some [("selected_action", JStr (value action_type)); ("action_status", JStr "PENDING")]);;
  flush.

Definition process_locked_case (case_id : UUID) : Op unit :=
  c ← get_row w_cases case_id;
  if terminal (case_status c) then mret tt
  else if bool_decide (case_status c ∈ waiting_statuses) then mret tt
  else
    walk_to_policy_check case_id;;
    c ← get_row w_cases case_id;
    if negb (bool_decide (case_status c = POLICY_CHECK)) then flush
    else
      action_type ← _select_action case_id;
      context ← build_policy_context case_id settings None;
      evaluation ← evaluate_and_persist context (propose (value action_type)) None
                     correlation_id actor_type None;
      if negb (result_allowed evaluation) then block_case case_id action_type evaluation
      else if result_requires_approval evaluation
      then request_approval case_id action_type context evaluation
      else plan_action case_id action_type evaluation.

Definition process (case_id : UUID) : Op unit :=
  case_id ← lock_recovery_case case_id;
  process_locked_case case_id.
End Processor.

(** The module-level [process_recovery_case]: the settings come from the
    environment. *)
Definition process_recovery_case (environ : list (string * string)) (case_id : UUID)
  (correlation_id : option string) : Op dict :=
  settings ← lift (load_recovery_settings environ);
  process settings correlation_id (value ActorType.WORKER) case_id;;
  c ← get_row w_cases case_id;
  mret [("status", JStr (value (case_status c))); ("case_id", JStr (uuid_str case_id));
        ("version", JStr (str_int (case_version c)))].
