(* ===== verification/Verification.v ===== *)
(** * Verifying a recovery

    [recoverai_domain/verification.py]: a case is credited only for a captured
    payment that matches it. *)
From S2P Require Import Prelude PyStr Uuid Errors Decimal Json Datetime Enums Rows Store Repositories StateMachine Transitions Config VerificationTypes Processor.
Open Scope stdpp_scope.

(** An optional text read as a condition: [None] and the empty text are false. *)
Definition or_none (s : option string) : option string :=
  match s with Some t => if nonempty t then s else None | None => None end.

Section Verification.
Context (settings : RecoverySettings).

Definition match_reasons : list string :=
  ["merchant matches"; "customer matches"; "payment/order matches recovery context";
   "payment is CAPTURED"; "capture is inside the recovery window";
   "payment was not previously counted"].

Definition _inside_window (c : RecoveryCase) (p : Payment) : bool :=
  match payment_captured_at p with
  | None => false
  | Some captured_at =>
      let earliest := (case_opened_at c - minutes (recovery_ordering_grace_minutes settings))%Z in
      let latest := (case_opened_at c + hours (recovery_window_hours settings))%Z in
      (earliest <=? captured_at)%Z && (captured_at <=? latest)%Z
  end.

Definition _mismatch (case_id : UUID) (c : RecoveryCase) (payment_id : UUID)
  (reason : MismatchReason.t) (remaining : Decimal) (detail : string) : RecoveryMatchResult :=
  mk_RecoveryMatchResult false case_id (Some payment_id) ZERO (case_currency c) [detail]
    (Some reason) remaining ZERO.

(** The action points at the payment, by provider reference or metadata. *)
Definition action_links (payment_id : UUID) (p : Payment) (a : RecoveryAction) : bool :=
  match action_provider_reference a with
  | Some r => nonempty r && same (Some r) (payment_provider_payment_id p)
  | None => false
  end
  || same (dict_get "new_payment_id" (default [] (action_metadata_json a)))
       (JStr (uuid_str payment_id)).

Definition linked_via_action (case_id payment_id : UUID) (p : Payment) (w : World) : bool :=
  existsb (fun kv => action_links payment_id p kv.2)
    (rows_where (fun _ a => same (action_recovery_case_id a) case_id) (w_actions w)).

(** The case's own payment, if the merchant has it. *)
Definition case_payment_of (c : RecoveryCase) (w : World) : option Payment :=
  pid ← case_payment_id c;
  k ← PaymentRepository.get_payment (case_merchant_id c) pid w;
  w_payments w !! k.

(** The provider orders of the case's payment and of the payment, when both
    have one. *)
Definition orders_of (c : RecoveryCase) (p : Payment) (w : World) : option (string * string) :=
  cp ← case_payment_of c w;
  o1 ← or_none (payment_provider_order_id cp);
  o2 ← or_none (payment_provider_order_id p);
  Some (o1, o2).

(** The result for a payment that passed every check. *)
Definition credit_result (case_id : UUID) (c : RecoveryCase) (payment_id : UUID) (p : Payment)
  (remaining : Decimal) : result exn RecoveryMatchResult :=
  captured ← as_money (payment_amount p);
  if dec_leb captured ZERO
  then mret (_mismatch case_id c payment_id MismatchReason.AMOUNT_MISMATCH remaining
               "captured amount is not positive")
  else
    at_risk ← as_money (case_amount_at_risk c);
    let credited := dec_min captured at_risk in
    overpayment ← (if dec_ltb at_risk captured then as_money (dec_sub captured credited)
                   else Ok ZERO);
    let full := dec_leb at_risk captured in
    let amount := if full then credited else captured in
    exposure ← as_money (dec_sub at_risk amount);
    mret (mk_RecoveryMatchResult full case_id (Some payment_id) amount (case_currency c)
      (match_reasons
       ++ (if dec_ltb captured at_risk
           then ["partial capture credited without treating full amount_at_risk as recovered"]
           else [])
       ++ (if dec_ltb ZERO overpayment
           then ["overpayment capped at amount_at_risk; excess is not recovery revenue"]
           else []))
      None exposure overpayment).

Definition _evaluate (case_id : UUID) (c : RecoveryCase) (payment_id : UUID) (p : Payment)
  (w : World) : result exn RecoveryMatchResult :=
  remaining ← as_money (dec_sub (case_amount_at_risk c) (case_amount_recovered c));
  let mismatch r detail := Ok (_mismatch case_id c payment_id r remaining detail) in
  if negb (same (payment_merchant_id p) (case_merchant_id c))
  then mismatch MismatchReason.MERCHANT_MISMATCH "merchant does not match"
  else if negb (same (payment_customer_id p) (case_customer_id c))
  then mismatch MismatchReason.CUSTOMER_MISMATCH "customer does not match"
  else
    let orders := orders_of c p w in
    if match orders with Some (o1, o2) => negb (String.eqb o1 o2) | None => false end
    then mismatch MismatchReason.ORDER_MISMATCH "order does not match case"
    else
      let shared_order := is_some orders in
      if match case_payment_id c with
         | Some pid => negb (same payment_id pid)
                       && negb (shared_order || linked_via_action case_id payment_id p w)
         | None => false
         end
      then mismatch MismatchReason.PAYMENT_MISMATCH "payment does not match case"
      else if negb (String.eqb (payment_currency p) (case_currency c))
      then mismatch MismatchReason.CURRENCY_MISMATCH "currency does not match"
      else if negb (same (payment_status p) PaymentStatus.CAPTURED)
      then mismatch MismatchReason.NOT_CAPTURED "payment is not CAPTURED"
      else if negb (is_some (payment_captured_at p))
      then mismatch MismatchReason.NOT_CAPTURED "captured_at is missing"
      else if negb (_inside_window c p)
      then mismatch MismatchReason.OUTSIDE_RECOVERY_WINDOW "capture is outside the recovery window"
      else credit_result case_id c payment_id p remaining.

(** ** Payments that already counted *)

Definition no_credit (case_id : UUID) (c : RecoveryCase) (payment_id : UUID)
  (reason : MismatchReason.t) (detail : string) : result exn RecoveryMatchResult :=
  recovered ← as_money (case_amount_recovered c);
  remaining ← as_money (dec_sub (case_amount_at_risk c) (case_amount_recovered c));
  mret (mk_RecoveryMatchResult false case_id (Some payment_id) recovered (case_currency c)
    [detail] (Some reason) remaining ZERO).

Definition counted_elsewhere (case_id : UUID) (c : RecoveryCase) (payment_id : UUID) (w : World)
  : bool :=
  existsb (fun kv => negb (same kv.1 case_id))
    (RecoveryCaseRepository.list_that_counted_payment (case_merchant_id c) payment_id w).

Definition _duplicate_or_already_counted (case_id : UUID) (c : RecoveryCase) (payment_id : UUID)
  (webhook_event_id : option UUID) (w : World) : result exn (option RecoveryMatchResult) :=
  if is_some webhook_event_id && same (case_verified_webhook_event_id c) webhook_event_id
  then r ← no_credit case_id c payment_id MismatchReason.DUPLICATE_EVENT
             "same capture event already verified"; mret (Some r)
  else if same (case_verified_payment_id c) (Some payment_id)
  then r ← no_credit case_id c payment_id MismatchReason.ALREADY_COUNTED
             "this payment was already counted toward the case"; mret (Some r)
  else if counted_elsewhere case_id c payment_id w
  then r ← no_credit case_id c payment_id MismatchReason.ALREADY_COUNTED
             "payment already counted on another recovery case"; mret (Some r)
  else mret None.

(** ** The service *)
Context (correlation_id : option string) (actor_type : string).

Definition case_audit (case_id : UUID) (c : RecoveryCase) (event_type summary action : string)
  (previous_state new_state : string) (metadata : dict) : Op unit :=
  record_audit (case_merchant_id c) event_type summary
    (mk_AuditArgs (Some case_id) actor_type None (Some action) (Some previous_state)
       (Some new_state) correlation_id None
       (Some ([("case_id", JStr (uuid_str case_id));
               ("merchant_id", JStr (uuid_str (case_merchant_id c)))] ++ metadata))).

Definition _ensure_verifying (case_id : UUID) : Op unit :=
  c ← get_row w_cases case_id;
  if bool_decide (case_status c = VERIFYING) then mret tt
  else if bool_decide (case_status c = RECOVERED) then mret tt
  else
    when (negb (bool_decide (case_status c = ACTION_COMPLETED)))
      (process_locked_case settings correlation_id actor_type case_id);;
    c ← get_row w_cases case_id;
    when (bool_decide (case_status c = ACTION_COMPLETED))
      (transition_case case_id VERIFYING
         (mk_TransitionArgs actor_type correlation_id (Some "Recovery verification started")
            None None)).

(** [case.amount_recovered], [verified_payment_id] and
    [verified_webhook_event_id] of a credit. *)
Definition credit (amount : Decimal) (payment_id webhook_event_id : option UUID)
  (c : RecoveryCase) : RecoveryCase :=
  set_case_verified_webhook_event_id webhook_event_id
    (set_case_verified_payment_id payment_id (set_case_amount_recovered amount c)).

Definition _apply_success (case_id payment_id : UUID) (m : RecoveryMatchResult)
  (webhook_event_id : option UUID) : Op unit :=
  c ← get_row w_cases case_id;
  if negb (bool_decide (case_status c = VERIFYING)) then mret tt
  else
    previous_amount ← lift (as_money (case_amount_recovered c));
    credited ← lift (as_money (m_amount_recovered m));
    at_risk ← lift (as_money (case_amount_at_risk c));
    if dec_ltb at_risk credited
    then mthrow (DomainError "RECOVERY_AMOUNT_OVERFLOW"
                   "amount_recovered would exceed amount_at_risk" false)
    else
      update_case case_id (credit credited (Some payment_id) webhook_event_id);;
      update_case case_id (set_case_last_mismatch_reason None);;
      when (negb (dec_eqb previous_amount credited))
        (case_audit case_id c "RECOVERY_AMOUNT_UPDATED"
           ("Verified recovered amount updated from " +:+ dec_str previous_amount +:+ " to "
            +:+ dec_str credited +:+ " " +:+ case_currency c)
           "update_amount_recovered" (dec_str previous_amount) (dec_str credited)
           [("payment_id", JStr (uuid_str payment_id));
            ("capped_overpayment", JStr (dec_str (m_capped_overpayment m)))]);;
      transition_case case_id RECOVERED
        (mk_TransitionArgs actor_type correlation_id
           (Some "Capture matched the recovery case; recovered amount persisted")
           (Some [("payment_id", JStr (uuid_str payment_id));
                  ("amount_recovered", JStr (dec_str credited))]) None).

(** The partial credit of [_persist_failure]. *)
Definition credit_partial (case_id : UUID) (r : RecoveryMatchResult)
  (webhook_event_id : option UUID) : Op unit :=
  c ← get_row w_cases case_id;
  previous_amount ← lift (as_money (case_amount_recovered c));
  credited ← lift (as_money (dec_min (m_amount_recovered r) (case_amount_at_risk c)));
  update_case case_id (fun c =>
    credit credited
      (match m_payment_id r with Some p => Some p | None => case_verified_payment_id c end)
      webhook_event_id c);;
  when (negb (dec_eqb previous_amount credited))
    (case_audit case_id c "RECOVERY_AMOUNT_UPDATED"
       ("Partial capture credited " +:+ dec_str credited +:+ " " +:+ case_currency c
        +:+ "; remaining exposure " +:+ dec_str (m_remaining_exposure r))
       "update_amount_recovered" (dec_str previous_amount) (dec_str credited)
       [("partial", JBool true)]).

Definition _persist_failure (case_id : UUID) (r : RecoveryMatchResult)
  (webhook_event_id : option UUID) : Op unit :=
  let reason := value (default MismatchReason.UNKNOWN (m_mismatch_reason r)) in
  update_case case_id (set_case_last_mismatch_reason (Some reason));;
  when (is_some webhook_event_id && same (m_mismatch_reason r) (Some MismatchReason.DUPLICATE_EVENT))
    (update_case case_id (set_case_verified_webhook_event_id webhook_event_id));;
  when (same (m_mismatch_reason r) None && dec_ltb ZERO (m_amount_recovered r)
        && dec_ltb ZERO (m_remaining_exposure r))
    (credit_partial case_id r webhook_event_id);;
  c ← get_row w_cases case_id;
  if bool_decide (case_status c = VERIFYING) then
    transition_case case_id NOT_RECOVERED
      (mk_TransitionArgs actor_type correlation_id
         (Some ("Recovery verification failed: " +:+ reason))
         (Some [("mismatch_reason", JStr reason); ("payment_id", opt_uuid (m_payment_id r))])
         None)
  else
    when (is_some (m_mismatch_reason r))
      (case_audit case_id c "RECOVERY_VERIFICATION_FAILED"
         ("Recovery verification failed: " +:+ reason) "verify_failed"
         (value (case_status c)) (value (case_status c)) [("mismatch_reason", JStr reason)]).

Definition _audit_no_credit (case_id payment_id : UUID) (r : RecoveryMatchResult) : Op unit :=
  update_case case_id (set_case_last_mismatch_reason (value <$> m_mismatch_reason r));;
  c ← get_row w_cases case_id;
  case_audit case_id c "RECOVERY_VERIFICATION_FAILED"
    ("Verification ignored; no additional recovered revenue ("
     +:+ reason_text (m_mismatch_reason r) +:+ ")")
    "verify_idempotent" (value (case_status c)) (value (case_status c))
    [("payment_id", JStr (uuid_str payment_id));
     ("mismatch_reason", JStr (reason_text (m_mismatch_reason r)));
     ("amount_recovered", JStr (dec_str (case_amount_recovered c)))].

(** [_resolve_payment]: the payment named, or the case's own. *)
Definition _resolve_payment (c : RecoveryCase) (payment_id : option UUID) (w : World)
  : option UUID :=
  target_id ← match payment_id with Some p => Some p | None => case_payment_id c end;
  if is_some (w_payments w !! target_id) then Some target_id else None.

Definition remaining_of (c : RecoveryCase) : result exn Decimal :=
  as_money (dec_sub (case_amount_at_risk c) (case_amount_recovered c)).

(** The part of [verify_case] after a payment was found and not counted. *)
Definition verify_payment (case_id payment_id : UUID) (webhook_event_id : option UUID)
  : Op RecoveryMatchResult :=
  c ← get_row w_cases case_id;
  p ← get_row w_payments payment_id;
  w ← get;
  m ← lift (_evaluate case_id c payment_id p w);
  let m := set_m_payment_id (Some payment_id) m in
  if bool_decide (case_status c = RECOVERED) then
    recovered ← lift (as_money (case_amount_recovered c));
    mret (mk_RecoveryMatchResult true case_id (Some payment_id) recovered (case_currency c)
            ["already recovered; verification is idempotent"] None ZERO ZERO)
  else
    _ensure_verifying case_id;;
    (if m_matched m then _apply_success case_id payment_id m webhook_event_id
     else _persist_failure case_id m webhook_event_id);;
    flush;;
    mret m.

Definition verify_case (case_id : UUID) (payment_id webhook_event_id : option UUID)
  : Op RecoveryMatchResult :=
  case_id ← lock_recovery_case case_id;
  c ← get_row w_cases case_id;
  if bool_decide (case_status c = STOPPED) then
    recovered ← lift (as_money (case_amount_recovered c));
    remaining ← lift (remaining_of c);
    mret (mk_RecoveryMatchResult false case_id None recovered (case_currency c)
            ["case is STOPPED"] (Some MismatchReason.UNKNOWN) remaining ZERO)
  else
    found ← gets (_resolve_payment c payment_id);
    match found with
    | None =>
        remaining ← lift (remaining_of c);
        let r := mk_RecoveryMatchResult false case_id None ZERO (case_currency c) []
                   (Some MismatchReason.PAYMENT_MISMATCH) remaining ZERO in
        _persist_failure case_id r webhook_event_id;;
        flush;;
        mret r
    | Some payment_id =>
        w ← get;
        duplicate ← lift (_duplicate_or_already_counted case_id c payment_id webhook_event_id w);
        match duplicate with
        | Some d =>
            _audit_no_credit case_id payment_id d;;
            flush;;
            mret d
        | None => verify_payment case_id payment_id webhook_event_id
        end
    end.
End Verification.

(** The module-level [verify_recovery_case] of [processor.py]. *)
Definition verify_recovery_case (environ : list (string * string)) (case_id : UUID)
  (payment_id webhook_event_id : option UUID) (correlation_id : option string) : Op dict :=
  settings ← lift (load_recovery_settings environ);
  r ← verify_case settings correlation_id (value ActorType.WORKER) case_id payment_id
        webhook_event_id;
  mret (to_public_dict r).
