(* ===== verification/Lifecycle.v ===== *)
(** * The abstract recovery system

    What the components may do to the store, as a labelled transition system of
    atomic steps: a clock is read, an audit event is appended, a case moves along
    a legal transition, a matching payment is credited, and so on.  Each
    operation refines it ([preserves (runs settings A) op], with [A] the labels the
    operation may use), and each invariant is proved once, by induction on
    [runs]. *)
From S2P Require Import Prelude PyStr Uuid Errors Decimal Json Datetime Enums Rows Store Repositories StateMachine Transitions Config Idempotency AgentData VerificationTypes Events Processing Processor Verification.
Open Scope stdpp_scope.

Inductive label : Type :=
  | L_time | L_audit | L_webhook | L_payment | L_attempt | L_case_new
  | L_case_move (target : RecoveryCaseStatus) | L_case_note | L_case_credit | L_evaluation | L_action | L_decision | L_approval
  | L_action_update | L_approval_update | L_notification | L_side
  | L_key | L_call | L_run | L_party.

#[export] Instance label_eq_dec : EqDecision label.
Proof. solve_decision. Defined.

(** ** When a payment may be credited to a case *)

(** Every check of [RecoveryVerificationService._evaluate], as a proposition. *)
Record creditable (settings : RecoverySettings) (w : World) (case_id : UUID) (c : RecoveryCase)
  (payment_id : UUID) (p : Payment) : Prop := {
  cr_merchant : payment_merchant_id p = case_merchant_id c;
  cr_customer : payment_customer_id p = case_customer_id c;
  cr_currency : payment_currency p = case_currency c;
  cr_orders : forall o1 o2, orders_of c p w = Some (o1, o2) -> o1 = o2;
  cr_linked : case_payment_id c = None \/ case_payment_id c = Some payment_id
              \/ is_some (orders_of c p w) = true
              \/ linked_via_action case_id payment_id p w = true;
  cr_captured : payment_status p = PaymentStatus.CAPTURED;
  cr_window : exists t, payment_captured_at p = Some t
    /\ (case_opened_at c - minutes (recovery_ordering_grace_minutes settings) <= t
        <= case_opened_at c + hours (recovery_window_hours settings))%Z;
  cr_positive : exists m, as_money (payment_amount p) = Ok m /\ dec_ltb ZERO m = true;
}.

(** The amount credited: what was captured, capped at the amount at risk. *)
Definition credit_amount (c : RecoveryCase) (p : Payment) (amount : Decimal) : Prop :=
  exists captured at_risk,
    as_money (payment_amount p) = Ok captured
    /\ as_money (case_amount_at_risk c) = Ok at_risk
    /\ amount = dec_min captured at_risk
    /\ (dec_leb at_risk captured = true -> case_status c = VERIFYING).

(** The whole amount at risk is recovered, from a known payment. *)
Definition fully_credited (c : RecoveryCase) : Prop :=
  is_some (case_verified_payment_id c) = true
  /\ as_money (case_amount_at_risk c) = Ok (case_amount_recovered c).

(** ** What a step may do to one row *)

Record fresh_case (c : RecoveryCase) : Prop := {
  fc_status : case_status c = STARTING_STATUS;
  fc_version : case_version c = 1%Z;
  fc_recovered : case_amount_recovered c = ZERO;
  fc_closed : case_closed_at c = None;
  fc_unverified : case_verified_payment_id c = None;
}.

(** The columns of a case no operation assigns. *)
Definition case_identity (c : RecoveryCase) :=
  (case_merchant_id c, case_customer_id c, case_payment_id c, case_cart_id c,
   case_subscription_id c, case_case_type c, case_amount_at_risk c, case_currency c,
   case_source_event_id c, case_opened_at c).

Definition payment_identity (p : Payment) :=
  (payment_merchant_id p, payment_customer_id p, payment_provider p,
   payment_provider_payment_id p, payment_currency p).

(** The columns of an action and of an approval that are set when it is recorded. *)
Definition action_identity (a : RecoveryAction) :=
  (action_merchant_id a, action_recovery_case_id a, action_action_type a,
   action_idempotency_key a, action_attempt_number a, action_currency a, action_created_at a).
Definition approval_identity (a : Approval) :=
  (approval_merchant_id a, approval_recovery_case_id a, approval_recovery_action_id a,
   approval_policy_evaluation_id a, approval_requested_by a, approval_expires_at a, approval_created_at a).

(** Money has been captured. *)
Definition settled (s : PaymentStatus.t) : bool :=
  bool_decide (s ∈ [PaymentStatus.CAPTURED; PaymentStatus.REFUNDED]).

Record payment_evolves (p p' : Payment) : Prop := {
  pv_identity : payment_identity p' = payment_identity p;
  pv_settled : settled (payment_status p) = true -> settled (payment_status p') = true;
  pv_amount : payment_amount p' = payment_amount p \/ settled (payment_status p') = true;
}.

Definition hook_final (e : WebhookEvent) : bool :=
  bool_decide (hook_status e ∈ [WebhookEventStatus.PROCESSED; WebhookEventStatus.DEAD_LETTER]).
Definition hook_identity (e : WebhookEvent) :=
  (hook_merchant_id e, hook_provider e, hook_event_id e, hook_event_type e, hook_payload e,
   hook_received_at e).

(** What a key is recorded with, and a call. *)
Definition key_identity (k : IdempotencyKey) :=
  (idem_merchant_id k, idem_key k, idem_operation k, idem_request_hash k, idem_expires_at k).
Definition call_identity (t : ToolCall) :=
  (call_merchant_id t, call_recovery_case_id t, call_tool_name t, call_tool_version t,
   call_idempotency_key t, call_correlation_id t).

(** The payloads of a call have no sensitive key, at any depth. *)
Definition payload_clean (o : option dict) : Prop :=
  match o with Some d => clean_json (JObj d) = true | None => True end.
Definition call_clean (t : ToolCall) : Prop :=
  payload_clean (call_request_payload t) /\ payload_clean (call_response_payload t).

(** The columns a run of an agent is recorded with; its summaries have no secret key. *)
Definition run_identity (r : AgentRun) :=
  (run_merchant_id r, run_recovery_case_id r, run_agent_name r, run_agent_version r, run_input_summary r,
   run_started_at r).
Definition summary_clean (o : option dict) : Prop :=
  match o with Some d => secret_free (JObj d) = true | None => True end.
Definition run_clean (r : AgentRun) : Prop :=
  summary_clean (run_input_summary r) /\ summary_clean (run_output_summary r).

(** What an operator may not change of a merchant. *)
Definition merchant_identity (m : Merchant) :=
  (merchant_name m, merchant_slug m, merchant_is_active m, merchant_description m).

(** ** Steps *)

Inductive step (settings : RecoverySettings) : label -> World -> World -> Prop :=
  | step_tick w : step settings L_time w (set_w_ticks (S (w_ticks w)) w)
  | step_draw w : step settings L_time w (set_w_draws (S (w_draws w)) w)
  | step_audit e w : step settings L_audit w (set_w_audit (w_audit w ++ [e]) w)
  | step_webhook_new id e w :
      w_webhooks w !! id = None ->
      (forall id' e', w_webhooks w !! id' = Some e' -> webhook_conflict e e' = false) ->
      step settings L_webhook w (set_w_webhooks (<[id := e]> (w_webhooks w)) w)
  | step_webhook id e e' w :
      w_webhooks w !! id = Some e -> hook_final e = false -> hook_identity e' = hook_identity e ->
      step settings L_webhook w (set_w_webhooks (<[id := e']> (w_webhooks w)) w)
  | step_payment_new id p w :
      w_payments w !! id = None -> payment_checks p = true ->
      (forall id' p', w_payments w !! id' = Some p' -> payment_conflict p p' = false) ->
      step settings L_payment w (set_w_payments (<[id := p]> (w_payments w)) w)
  | step_payment id p p' w :
      w_payments w !! id = Some p -> payment_evolves p p' ->
      step settings L_payment w (set_w_payments (<[id := p']> (w_payments w)) w)
  | step_attempt a w :
      existsb (attempt_conflict a) (w_attempts w) = false ->
      step settings L_attempt w (set_w_attempts (w_attempts w ++ [a]) w)
  | step_case_new id c w :
      w_cases w !! id = None -> fresh_case c -> case_checks c = true ->
      (forall id' c', w_cases w !! id' = Some c' -> open_case_conflict c c' = false) ->
      step settings L_case_new w (set_w_cases (<[id := c]> (w_cases w)) w)
  | step_case_move id c target now w :
      w_cases w !! id = Some c -> legal (case_status c) target = true ->
      (target = RECOVERED -> fully_credited c) ->
      step settings (L_case_move target) w (set_w_cases (<[id := moved target now c]> (w_cases w)) w)
  | step_case_note id c reason w :
      w_cases w !! id = Some c ->
      step settings L_case_note w
        (set_w_cases (<[id := set_case_last_mismatch_reason reason c]> (w_cases w)) w)
  | step_case_credit id c payment_id p amount webhook_event_id w :
      w_cases w !! id = Some c -> w_payments w !! payment_id = Some p ->
      creditable settings w id c payment_id p -> credit_amount c p amount ->
      case_status c <> RECOVERED ->
      case_verified_payment_id c <> Some payment_id ->
      counted_elsewhere id c payment_id w = false ->
      step settings L_case_credit w
        (set_w_cases (<[id := credit amount (Some payment_id) webhook_event_id c]> (w_cases w)) w)
  | step_evaluation id e w :
      w_evaluations w !! id = None ->
      step settings L_evaluation w (set_w_evaluations (<[id := e]> (w_evaluations w)) w)
  | step_action_new id a w :
      w_actions w !! id = None -> action_checks a = true ->
      (forall id' a', w_actions w !! id' = Some a' -> action_conflict a a' = false) ->
      step settings L_action w (set_w_actions (<[id := a]> (w_actions w)) w)
  | step_action_note id a meta w :
      w_actions w !! id = Some a ->
      dict_get "new_payment_id" meta
        = dict_get "new_payment_id" (default [] (action_metadata_json a)) ->
      step settings L_action w
        (set_w_actions (<[id := set_action_metadata_json (Some meta) a]> (w_actions w)) w)
  | step_decision d w : step settings L_decision w (set_w_decisions (w_decisions w ++ [d]) w)
  | step_approval id a w :
      w_approvals w !! id = None ->
      step settings L_approval w (set_w_approvals (<[id := a]> (w_approvals w)) w)
  | step_action_update id a a' w :
      w_actions w !! id = Some a -> action_identity a' = action_identity a ->
      step settings L_action_update w (set_w_actions (<[id := a']> (w_actions w)) w)
  | step_approval_update id a a' w :
      w_approvals w !! id = Some a -> approval_identity a' = approval_identity a ->
      step settings L_approval_update w (set_w_approvals (<[id := a']> (w_approvals w)) w)
  | step_notification n w :
      step settings L_notification w (set_w_notifications (w_notifications w ++ [n]) w)
  | step_side t w :
      t_idempotency t = w_idempotency w -> t_calls t = w_tool_calls w -> t_agent_runs t = w_agent_runs w ->
      step settings L_side w (set_w_side t w)
  | step_key_new id k w :
      w_idempotency w !! id = None ->
      (forall id' k', w_idempotency w !! id' = Some k' -> key_conflict k k' = false) ->
      step settings L_key w (set_w_idempotency (<[id := k]> (w_idempotency w)) w)
  | step_key id k k' w :
      w_idempotency w !! id = Some k -> key_identity k' = key_identity k ->
      step settings L_key w (set_w_idempotency (<[id := k']> (w_idempotency w)) w)
  | step_call_new id t w :
      w_tool_calls w !! id = None -> call_clean t ->
      step settings L_call w (set_w_tool_calls (<[id := t]> (w_tool_calls w)) w)
  | step_call id t t' w :
      w_tool_calls w !! id = Some t -> call_identity t' = call_identity t ->
      (call_clean t -> call_clean t') ->
      step settings L_call w (set_w_tool_calls (<[id := t']> (w_tool_calls w)) w)
  | step_run_new id r w :
      w_agent_runs w !! id = None -> run_clean r ->
      step settings L_run w (set_w_agent_runs (<[id := r]> (w_agent_runs w)) w)
  | step_run id r r' w :
      w_agent_runs w !! id = Some r -> run_identity r' = run_identity r -> (run_clean r -> run_clean r') ->
      step settings L_run w (set_w_agent_runs (<[id := r']> (w_agent_runs w)) w)
  | step_merchant_new id m w :
      w_merchants w !! id = None ->
      (forall id' m', w_merchants w !! id' = Some m' -> merchant_slug m <> merchant_slug m') ->
      step settings L_party w (set_w_merchants (<[id := m]> (w_merchants w)) w)
  | step_merchant id m m' w :
      w_merchants w !! id = Some m -> merchant_identity m' = merchant_identity m ->
      step settings L_party w (set_w_merchants (<[id := m']> (w_merchants w)) w)
  | step_customer_new id c w :
      w_customers w !! id = None ->
      step settings L_party w (set_w_customers (<[id := c]> (w_customers w)) w).

(** Steps whose labels lie in [A]. *)
Definition allowed_step (settings : RecoverySettings) (A : list label) : relation World :=
  fun w w' => exists l, l ∈ A /\ step settings l w w'.
Definition runs (settings : RecoverySettings) (A : list label) : relation World :=
  rtc (allowed_step settings A).

#[export] Instance runs_preorder settings A : PreOrder (runs settings A).
Proof. unfold runs. apply _. Qed.

(** The labels of each component. *)
Definition PROCESSOR : list label :=
  [L_time; L_audit; L_evaluation; L_action; L_decision; L_approval; L_case_move TRIAGED;
   L_case_move INVESTIGATING; L_case_move DIAGNOSED; L_case_move SCORING;
   L_case_move STRATEGY_SELECTED; L_case_move POLICY_CHECK; L_case_move AWAITING_APPROVAL;
   L_case_move EXECUTING; L_case_move ACTION_COMPLETED; L_case_move STOPPED;
   L_case_move ESCALATED].
Definition VERIFIER : list label :=
  PROCESSOR ++ [L_case_move VERIFYING; L_case_move RECOVERED; L_case_move NOT_RECOVERED;
                L_case_note; L_case_credit].
Definition HANDLER : list label := [L_time; L_audit; L_payment; L_attempt; L_case_new].
Definition INGESTION : list label := [L_time; L_audit; L_webhook].
(** The optimizer and the tools also use the tables of [SideTables]: carts and predictions;
    the tools, idempotency keys and calls. *)
Definition OPTIMIZER : list label := [L_time; L_audit; L_evaluation; L_decision; L_side].
Definition TOOLS : list label :=
  [L_time; L_audit; L_webhook; L_payment; L_attempt; L_evaluation; L_action; L_approval;
   L_action_update; L_approval_update; L_notification; L_side; L_key; L_call; L_case_move AWAITING_APPROVAL;
   L_case_move EXECUTING; L_case_move ACTION_COMPLETED; L_case_move RETRY_SCHEDULED;
   L_case_move FAILED; L_case_move ESCALATED; L_case_move STOPPED].
(** An agent run walks the case like the processor, optimizes, and executes one tool. *)
Definition AGENTS : list label := L_run :: PROCESSOR ++ OPTIMIZER ++ TOOLS.
Definition ALL : list label :=
  VERIFIER ++ [L_payment; L_attempt; L_case_new; L_webhook; L_party] ++ OPTIMIZER ++ AGENTS.

Lemma runs_step settings A l w w' : l ∈ A -> step settings l w w' -> runs settings A w w'.
Proof. intros Hl Hs. apply rtc_once. by exists l. Qed.

Lemma runs_step_eq settings A l w v w' :
  l ∈ A -> step settings l w v -> v = w' -> runs settings A w w'.
Proof. intros Hl Hs <-. by eapply runs_step. Qed.

Lemma runs_mono settings A B w w' : A ⊆ B -> runs settings A w w' -> runs settings B w w'.
Proof.
  intros HAB. apply rtc_subrel. intros x y (l & Hl & Hs). exists l. split; [by apply HAB|done].
Qed.

Lemma preserves_mono {E R} settings A B (m : M World E R) :
  A ⊆ B -> preserves (runs settings A) m -> preserves (runs settings B) m.
Proof. intros HAB Hm w. eapply runs_mono; [done|apply Hm]. Qed.

(** Rule induction: a reflexive and transitive relation that holds of every
    allowed step holds of every run. *)
Lemma runs_ind settings A (R : relation World) `{!PreOrder R} :
  (forall l w w', l ∈ A -> step settings l w w' -> R w w') ->
  forall w w', runs settings A w w' -> R w w'.
Proof.
  intros Hstep w w'. induction 1 as [w|w v w' (l & Hl & Hs) _ IH]; [reflexivity|].
  transitivity v; [by eapply Hstep|done].
Qed.

(** A label outside a concrete list. *)
Lemma not_in_labels (l : label) (A : list label) (B : Prop) : l ∈ A -> bool_decide (l ∈ A) = false -> B.
Proof. intros H Hn. by rewrite bool_decide_eq_false in Hn. Qed.
Ltac refute_label H := solve [exfalso; apply (not_in_labels _ _ _ H); vm_compute; reflexivity].
