(* ===== verification/Refinement.v ===== *)
(** * The operations refine the abstract system

    One lemma per primitive of the store and per operation of the components:
    its effect is a run of steps whose labels the component is allowed.  The
    lemmas are hints of the database [pres]. *)
From S2P Require Import Prelude PyStr Uuid Errors Decimal Json Datetime Enums Rows Store Repositories StateMachine Transitions Config PolicyContext PolicyEngine VerificationTypes Events Processing Processor Verification Lifecycle.
Open Scope stdpp_scope.

(** ** Reading the state of a computation *)

(** [preserves] at one store. *)
Definition preserves_from {E A} (R : relation World) (m : M World E A) (w : World) : Prop :=
  R w (final m w).

Section From.
Context {E : Type} (R : relation World) `{!PreOrder R}.

Lemma from_bind {A B} (m : M World E A) (f : A -> M World E B) w :
  preserves_from R m w ->
  (forall a w', m w = (w', Ok a) -> preserves_from R (f a) w') ->
  preserves_from R (m ≫= f) w.
Proof using All.
  unfold preserves_from, final, mbind, m_bind. intros Hm Hf.
  destruct (m w) as [w' [a|e]] eqn:H; simpl in *; [|done].
  etrans; [exact Hm|]. by apply Hf.
Qed.

Lemma preserves_all {A} (m : M World E A) : (forall w, preserves_from R m w) -> preserves R m.
Proof using All. done. Qed.

Lemma from_preserves {A} (m : M World E A) w : preserves R m -> preserves_from R m w.
Proof using All. intros H. apply H. Qed.

(** Reads: the rest of the computation starts in the same store, and knows
    what was read. *)
Lemma from_get {B} (f : World -> M World E B) w :
  preserves_from R (f w) w -> preserves_from R (get ≫= f) w.
Proof using All. done. Qed.

Lemma from_gets {A B} (g : World -> A) (f : A -> M World E B) w :
  preserves_from R (f (g w)) w -> preserves_from R (gets g ≫= f) w.
Proof using All. done. Qed.

Lemma from_lift {A B} (r : result E A) (f : A -> M World E B) w :
  (forall a, r = Ok a -> preserves_from R (f a) w) -> preserves_from R (lift r ≫= f) w.
Proof using All.
  intros H. unfold preserves_from, final, mbind, m_bind, lift. destruct r; [by apply H|].
  reflexivity.
Qed.

Lemma from_throw {A} (e : E) w : preserves_from R (mthrow e : M World E A) w.
Proof using All. unfold preserves_from. reflexivity. Qed.
Lemma from_ret {A} (a : A) w : preserves_from R (mret a : M World E A) w.
Proof using All. unfold preserves_from. reflexivity. Qed.
End From.

Lemma from_get_row {A B} (R : relation World) `{!PreOrder R} (t : World -> gmap UUID A) id
  (f : A -> Op B) w :
  (forall r, t w !! id = Some r -> preserves_from R (f r) w) ->
  preserves_from R (get_row t id ≫= f) w.
Proof.
  intros H. destruct (t w !! id) as [r|] eqn:Hr.
  - unfold preserves_from, final. rewrite (bind_run _ _ _ _ _ (get_row_run _ _ _ _ Hr)). by apply H.
  - unfold preserves_from, final. rewrite (bind_raise _ _ _ _ _ (get_row_None _ _ _ Hr)). reflexivity.
Qed.

Lemma get_row_inv {A} (t : World -> gmap UUID A) id w w' r :
  get_row t id w = (w', Ok r) -> w' = w /\ t w !! id = Some r.
Proof.
  unfold get_row, mbind, m_bind, get, lift. destruct (t w !! id); simpl; intros [= <- <-]. done.
Qed.

(** ** Primitives *)

#[local] Ltac in_labels := first [assumption | repeat (apply list_elem_of_here || apply list_elem_of_further)].

Section Primitives.
Context (settings : RecoverySettings) (A : list label).
Notation R := (runs settings A).

Lemma runs_get_row {B} (t : World -> gmap UUID B) id : preserves R (get_row t id).
Proof using All.
  intros w. unfold get_row, final, mbind, m_bind, get, lift. simpl. reflexivity.
Qed.

Lemma runs_flush : preserves R flush.
Proof using All. intros w. unfold final. rewrite flush_run. reflexivity. Qed.

Lemma runs_utcnow : L_time ∈ A -> preserves R utcnow.
Proof using All. intros H w. eapply runs_step; [exact H|apply step_tick]. Qed.

Lemma runs_uuid4 : L_time ∈ A -> preserves R uuid4.
Proof using All. intros H w. eapply runs_step; [exact H|apply step_draw]. Qed.

Lemma runs_add_audit e : L_audit ∈ A -> preserves R (add_audit e).
Proof using All. intros H w. eapply runs_step; [exact H|apply step_audit]. Qed.

Lemma runs_record_audit m ty s a :
  L_time ∈ A -> L_audit ∈ A -> preserves R (record_audit m ty s a).
Proof using All.
  intros Ht Ha. unfold record_audit. apply preserves_bind; [apply _|by apply runs_utcnow|].
  intros t. by apply runs_add_audit.
Qed.

Lemma runs_add_decision d : L_decision ∈ A -> preserves R (add_decision d).
Proof using All. intros H w. eapply runs_step; [exact H|apply step_decision]. Qed.

Lemma is_some_false {B} (o : option B) : is_some o = false <-> o = None.
Proof using. by destruct o. Qed.

Lemma existsb_map_false {B} (p : B -> bool) (m : gmap UUID B) :
  existsb (fun kv => p kv.2) (map_to_list m) = false ->
  forall id r, m !! id = Some r -> p r = false.
Proof using.
  rewrite existsb_elem_false. intros H id r Hr. apply (H (id, r)). by apply elem_of_map_to_list.
Qed.

Lemma runs_insert_evaluation e :
  L_time ∈ A -> L_evaluation ∈ A -> preserves R (insert_evaluation e).
Proof using All.
  intros Ht H. apply preserves_bind; [apply _|by apply runs_uuid4|]. intros id w. apply from_get; [apply _|].
  destruct (w_evaluations w !! id) eqn:Hid; simpl; [unfold preserves_from; reflexivity|].
  eapply runs_step; [exact H|by apply step_evaluation].
Qed.

Lemma runs_insert_approval a :
  L_time ∈ A -> L_approval ∈ A -> preserves R (insert_approval a).
Proof using All.
  intros Ht H. apply preserves_bind; [apply _|by apply runs_uuid4|]. intros id w. apply from_get; [apply _|].
  destruct (w_approvals w !! id) eqn:Hid; simpl; [unfold preserves_from; reflexivity|].
  eapply runs_step; [exact H|by apply step_approval].
Qed.

Lemma runs_insert_merchant id m : L_party ∈ A -> preserves R (insert_merchant id m).
Proof using All.
  intros H w. apply from_get; [apply _|].
  destruct (is_some _ || _) eqn:Hg; [unfold preserves_from; reflexivity|].
  apply orb_false_iff in Hg as [Hid%is_some_false Hc].
  eapply runs_step; [exact H|apply step_merchant_new; [done|]]. intros id' m' Hm' E.
  pose proof (existsb_map_false (fun m' => same (merchant_slug m) (merchant_slug m')) _ Hc id' m' Hm') as Hs.
  unfold same in Hs. by apply bool_decide_eq_false in Hs.
Qed.

Lemma runs_update_merchant id f :
  L_party ∈ A -> (forall m, merchant_identity (f m) = merchant_identity m) ->
  preserves R (update_merchant id f).
Proof using All.
  intros H Hf w. unfold final, update_merchant, modify. simpl.
  destruct (w_merchants w !! id) as [m|] eqn:Hm.
  - rewrite (alter_as_insert _ _ _ _ Hm). eapply runs_step; [exact H|by eapply step_merchant; [|apply Hf]].
  - rewrite alter_None by done. destruct w. reflexivity.
Qed.

Lemma runs_insert_customer id c : L_party ∈ A -> preserves R (insert_customer id c).
Proof using All.
  intros H w. apply from_get; [apply _|].
  destruct (is_some _) eqn:Hid; [unfold preserves_from; reflexivity|]. apply is_some_false in Hid.
  destruct (negb _); [unfold preserves_from; reflexivity|].
  eapply runs_step; [exact H|by apply step_customer_new].
Qed.

Lemma runs_insert_action a : L_time ∈ A -> L_action ∈ A -> preserves R (insert_action a).
Proof using All.
  intros Ht H. apply preserves_bind; [apply _|by apply runs_uuid4|]. intros id w. apply from_get; [apply _|].
  destruct (is_some _ || _) eqn:Hg; [unfold preserves_from; reflexivity|].
  apply orb_false_iff in Hg as [Hid%is_some_false Hc].
  destruct (action_checks a) eqn:Hk; simpl; [|unfold preserves_from; reflexivity].
  eapply runs_step; [exact H|apply step_action_new; [done..|]]. by apply existsb_map_false.
Qed.

Lemma runs_insert_webhook e : L_time ∈ A -> L_webhook ∈ A -> preserves R (insert_webhook e).
Proof using All.
  intros Ht H. apply preserves_bind; [apply _|by apply runs_uuid4|]. intros id w. apply from_get; [apply _|].
  destruct (is_some _ || _) eqn:Hg; [unfold preserves_from; reflexivity|].
  apply orb_false_iff in Hg as [Hid%is_some_false Hc].
  eapply runs_step; [exact H|apply step_webhook_new; [done|]]. by apply existsb_map_false.
Qed.

Lemma runs_insert_payment id p : L_payment ∈ A -> preserves R (insert_payment id p).
Proof using All.
  intros H w. apply from_get; [apply _|].
  destruct (is_some _ || _) eqn:Hg; [unfold preserves_from; reflexivity|].
  apply orb_false_iff in Hg as [Hid%is_some_false Hc].
  destruct (payment_checks p) eqn:Hk; simpl; [|unfold preserves_from; reflexivity].
  eapply runs_step; [exact H|apply step_payment_new; [done..|]]. by apply existsb_map_false.
Qed.

Lemma runs_insert_case c :
  L_time ∈ A -> L_case_new ∈ A -> fresh_case c -> preserves R (insert_case c).
Proof using All.
  intros Ht H Hf. apply preserves_bind; [apply _|by apply runs_uuid4|]. intros id w. apply from_get; [apply _|].
  destruct (is_some _ || _) eqn:Hg; [unfold preserves_from; reflexivity|].
  apply orb_false_iff in Hg as [Hid%is_some_false Hc].
  destruct (case_checks c) eqn:Hk; simpl; [|unfold preserves_from; reflexivity].
  eapply runs_step; [exact H|apply step_case_new; [done..|]]. by apply existsb_map_false.
Qed.

Lemma runs_note_case id r :
  L_case_note ∈ A -> preserves R (update_case id (set_case_last_mismatch_reason r)).
Proof using All.
  intros H w. unfold final, update_case, modify. simpl.
  destruct (w_cases w !! id) as [c|] eqn:Hc.
  - rewrite (alter_as_insert _ _ _ _ Hc). eapply runs_step; [exact H|by apply step_case_note].
  - rewrite alter_None by done. destruct w. reflexivity.
Qed.
End Primitives.

#[export] Hint Resolve runs_get_row runs_flush runs_utcnow runs_uuid4 runs_add_audit
  runs_record_audit runs_add_decision runs_insert_evaluation runs_insert_approval
  runs_insert_action runs_insert_webhook runs_insert_payment runs_note_case : pres.

(** Membership of a label in a concrete list. *)
Ltac solve_label :=
  solve [repeat (apply list_elem_of_here || apply list_elem_of_further)].
#[export] Hint Extern 1 (_ ∈ _) => solve_label : pres.

(** ** Transitions *)

Section Transitions.
Context (settings : RecoverySettings) (A : list label) (target : RecoveryCaseStatus).
Context (Htime : L_time ∈ A) (Haudit : L_audit ∈ A) (Hmove : L_case_move target ∈ A).

Lemma runs_transition_from case_id a w :
  (forall c, w_cases w !! case_id = Some c -> target = RECOVERED -> fully_credited c) ->
  preserves_from (runs settings A) (transition_case case_id target a) w.
Proof using All.
  intros Hfull. unfold preserves_from, final. destruct (w_cases w !! case_id) as [c|] eqn:Hc.
  2:{ unfold transition_case.
      rewrite (bind_raise _ _ _ _ _ (get_row_None _ _ _ Hc)). reflexivity. }
  rewrite (transition_case_run _ _ _ _ _ Hc).
  destruct (version_mismatch c a); [reflexivity|].
  destruct (legal (case_status c) target) eqn:Hl; simpl.
  - etrans; [eapply runs_step; [exact Htime|apply step_tick]|].
    etrans; [eapply runs_step; [exact Hmove|]; apply (step_case_move _ case_id c target); [done..|]; by apply Hfull|].
    etrans; [eapply runs_step; [exact Htime|apply step_tick]|].
    eapply runs_step_eq; [exact Haudit|apply step_audit|reflexivity].
  - etrans; [eapply runs_step; [exact Htime|apply step_tick]|].
    eapply runs_step_eq; [exact Haudit|apply step_audit|reflexivity].
Qed.

Lemma runs_transition_case case_id a :
  target <> RECOVERED -> preserves (runs settings A) (transition_case case_id target a).
Proof using All. intros Hne w. by apply runs_transition_from. Qed.
End Transitions.

#[export] Hint Extern 1 (_ <> RECOVERED) => discriminate : pres.
#[export] Hint Resolve runs_transition_case : pres.

Lemma runs_lock settings A case_id : preserves (runs settings A) (lock_recovery_case case_id).
Proof. intros w. unfold lock_recovery_case, final, mbind, m_bind, get, lift. simpl. reflexivity. Qed.
#[export] Hint Resolve runs_lock : pres.

(** ** The processor *)

Section Processor.
Context (settings base : RecoverySettings) (correlation_id : option string) (actor_type : string).
Notation R := (runs settings PROCESSOR).

Lemma runs_move case_id target s m :
  L_case_move target ∈ PROCESSOR ->
  preserves R (move correlation_id actor_type case_id target s m).
Proof.
  intros H. apply runs_transition_case; [solve_label..|done|]. intros ->. refute_label H.
Qed.
#[local] Hint Resolve runs_move : pres.

Lemma runs_walk case_id steps :
  (forall kv, kv ∈ steps -> L_case_move kv.1 ∈ PROCESSOR) ->
  preserves R (walk_steps correlation_id actor_type case_id steps).
Proof.
  induction steps as [|[target s] steps IH]; intros Hsteps; simpl; [apply preserves_ret, _|].
  specialize (IH (fun kv Hkv => Hsteps kv (list_elem_of_further _ _ _ Hkv))).
  specialize (Hsteps (target, s) (list_elem_of_here _ _)). simpl in Hsteps.
  solve_pres.
Qed.

Lemma runs_walk_to_policy_check case_id :
  preserves R (walk_to_policy_check correlation_id actor_type case_id).
Proof.
  apply runs_walk. intros kv Hkv. apply (bool_decide_eq_true (L_case_move kv.1 ∈ PROCESSOR)).
  revert kv Hkv. apply forallb_elem. vm_compute. reflexivity.
Qed.
#[local] Hint Resolve runs_walk_to_policy_check : pres.

Lemma runs_record_planned case_id t s r m :
  preserves R (_record_planned_action case_id t s r m).
Proof. unfold _record_planned_action. solve_pres. Qed.
#[local] Hint Resolve runs_record_planned : pres.

Lemma runs_action_note id meta :
  (forall a, dict_get "new_payment_id" (meta a)
             = dict_get "new_payment_id" (default [] (action_metadata_json a))) ->
  preserves R (update_action id (fun a => set_action_metadata_json (Some (meta a)) a)).
Proof.
  intros H w. unfold final, update_action, modify. simpl.
  destruct (w_actions w !! id) as [a|] eqn:Ha.
  - rewrite (alter_as_insert _ _ _ _ Ha). eapply (runs_step _ _ L_action); [solve_label|].
    by apply step_action_note.
  - rewrite alter_None by done. destruct w. reflexivity.
Qed.

Lemma dict_get_update_other k d e :
  (forall v, (k, v) ∉ e) -> dict_get k (dict_update d e) = dict_get k d.
Proof.
  revert d. induction e as [|[k' v] e IH]; intros d He; [done|].
  unfold dict_update. simpl. fold (dict_update (dict_set k' v d) e). rewrite IH.
  - rewrite dict_get_set. destruct (String.eqb_spec k k') as [->|]; [|done].
    exfalso. apply (He v). left.
  - intros v' Hv'. apply (He v'). by right.
Qed.

Lemma runs_block case_id t e : preserves R (block_case correlation_id actor_type case_id t e).
Proof. unfold block_case. solve_pres. destruct (_ || _); solve_pres. Qed.

Lemma runs_request case_id t c e :
  preserves R (request_approval correlation_id actor_type case_id t c e).
Proof.
  unfold request_approval. repeat pres_step.
  apply (runs_action_note _ (fun r => dict_update (default [] (action_metadata_json r)) _)).
  intros r. apply dict_get_update_other. intros v Hv. set_solver.
Qed.

Lemma runs_plan case_id t e : preserves R (plan_action correlation_id actor_type case_id t e).
Proof. unfold plan_action. solve_pres. Qed.

Lemma runs_build_context case_id now : preserves R (build_policy_context case_id base now).
Proof. unfold build_policy_context. solve_pres. Qed.

Lemma runs_evaluate_and_persist c p i ci at' ai :
  preserves R (evaluate_and_persist c p i ci at' ai).
Proof. unfold evaluate_and_persist, persist_policy_evaluation. solve_pres. Qed.
#[local] Hint Resolve runs_block runs_request runs_plan runs_build_context
  runs_evaluate_and_persist : pres.

Lemma runs_process_locked_case case_id :
  preserves R (process_locked_case base correlation_id actor_type case_id).
Proof. unfold process_locked_case, _select_action. solve_pres. Qed.
End Processor.

(** ** Time only goes on *)

Lemma step_time settings l w w' : step settings l w w' ->
  (w_ticks w <= w_ticks w')%nat /\ (w_draws w <= w_draws w')%nat /\ w_clock w' = w_clock w
  /\ w_uuids w' = w_uuids w.
Proof. intros Hs. destruct Hs; simpl; auto with lia. Qed.

Lemma runs_time settings A w w' : runs settings A w w' ->
  (w_ticks w <= w_ticks w')%nat /\ (w_draws w <= w_draws w')%nat.
Proof.
  induction 1 as [w|w v w' (l & _ & Hs) _ [IH1 IH2]]; [done|].
  destruct (step_time _ _ _ _ Hs) as (H1 & H2 & _). lia.
Qed.

Lemma runs_later settings A w t d :
  L_time ∈ A -> (w_ticks w <= t)%nat -> (w_draws w <= d)%nat ->
  runs settings A w (set_w_ticks t (set_w_draws d w)).
Proof.
  intros HA Ht Hd. remember (t - w_ticks w + (d - w_draws w))%nat as n eqn:Hn.
  revert w Ht Hd Hn. induction n as [|n IH]; intros w Ht Hd Hn.
  - assert (t = w_ticks w) as -> by lia. assert (d = w_draws w) as -> by lia.
    destruct w. reflexivity.
  - destruct (decide (w_ticks w = t)) as [E|E].
    + transitivity (set_w_draws (S (w_draws w)) w).
      { eapply runs_step; [done|apply step_draw]. }
      apply (IH (set_w_draws (S (w_draws w)) w)); simpl; lia.
    + transitivity (set_w_ticks (S (w_ticks w)) w).
      { eapply runs_step; [done|apply step_tick]. }
      apply (IH (set_w_ticks (S (w_ticks w)) w)); simpl; lia.
Qed.
