(* ===== verification/Fixtures.v ===== *)
(** * The merchants and customers of the demonstration

    [recoverai_domain/fixtures.py]: the simulator's merchants and customers are made on first
    use, and found ever after. *)
From S2P Require Import Prelude PyStr Uuid Errors Decimal Json Datetime Enums Rows Store Repositories Config Lifecycle Refinement.
Open Scope stdpp_scope.

Definition SEED_NAMESPACE : UUID := 0x6ba7b8109dad11d180b400c04fd430c8%N.
Definition SIMULATOR_MERCHANT_SLUG : string := "recoverai-demo".
Definition SIMULATOR_CUSTOMER_EXTERNAL_ID : string := "sim_cust_001".
Definition SIMULATOR_ALT_CUSTOMER_EXTERNAL_ID : string := "sim_cust_002".
Definition SIMULATOR_ALT_MERCHANT_SLUG : string := "recoverai-demo-alt".
Definition LEGACY_SIMULATOR_MERCHANT_SLUG : string := "simulator-dev".

Definition simulator_merchant_id : UUID := uuid5 SEED_NAMESPACE "merchant:recoverai-demo".
Definition simulator_customer_id : UUID := uuid5 SEED_NAMESPACE "customer:recoverai-demo:1".
Definition simulator_alt_customer_id : UUID := uuid5 SEED_NAMESPACE "customer:recoverai-demo:2".
Definition simulator_alt_merchant_id : UUID := uuid5 SEED_NAMESPACE "merchant:recoverai-demo-alt".

(** [a if a is not None else b()] of two queries *)
Definition or_found {A} (a b : World -> option A) (w : World) : option A :=
  match a w with Some x => Some x | None => b w end.

(** The key of the merchant [merchants.get_merchant(id)] returns. *)
Definition merchant_with_id (id : UUID) (w : World) : option UUID :=
  if is_some (MerchantRepository.get_merchant id w) then Some id else None.

Definition _get_demo_merchant : World -> option UUID :=
  or_found (merchant_with_id simulator_merchant_id)
    (or_found (MerchantRepository.get_by_slug SIMULATOR_MERCHANT_SLUG)
       (MerchantRepository.get_by_slug LEGACY_SIMULATOR_MERCHANT_SLUG)).

Definition customer_with (merchant_id customer_id : UUID) (external_id : string) : World -> option UUID :=
  or_found (CustomerRepository.get_customer merchant_id customer_id)
    (CustomerRepository.get_by_external_id merchant_id external_id).

Definition demo_merchant : Merchant :=
  mk_Merchant "RecoverAI Demo Merchant" SIMULATOR_MERCHANT_SLUG true None
    (Some "Deterministic demo merchant for local payment simulation").
Definition demo_customer (merchant_id : UUID) : Customer :=
  mk_Customer merchant_id (Some SIMULATOR_CUSTOMER_EXTERNAL_ID) (Some "simulator-customer@example.test")
    None (Some "Simulator Customer") (mkDec 250000 (-2)) DEFAULT_CURRENCY None.
Definition demo_alt_customer (merchant_id : UUID) : Customer :=
  mk_Customer merchant_id (Some SIMULATOR_ALT_CUSTOMER_EXTERNAL_ID)
    (Some "simulator-customer-alt@example.test") None (Some "Simulator Customer Alt") (mkDec 80000 (-2))
    DEFAULT_CURRENCY None.
Definition alt_merchant : Merchant :=
  mk_Merchant "RecoverAI Demo Merchant Alt" SIMULATOR_ALT_MERCHANT_SLUG true None
    (Some "Second merchant for mismatch simulation").
Definition alt_merchant_customer (merchant_id : UUID) : Customer :=
  mk_Customer merchant_id (Some SIMULATOR_ALT_CUSTOMER_EXTERNAL_ID) (Some "alt-merchant-customer@example.test")
    None (Some "Alt Merchant Customer") (mkDec 10000 (-2)) DEFAULT_CURRENCY None.

Section Fixtures.
(** What other transactions commit before a row is inserted. *)
Context (concurrent : World -> World).

(** [x = find(); if x is None: try: insert except IntegrityError: x = find(); if x is None: raise] *)
Definition find_or_insert (find : World -> option UUID) (insert : Op UUID) : Op UUID :=
  found ← gets find;
  match found with
  | Some id => mret id
  | None =>
      try_except (flush;; modify concurrent;; insert)
        (fun e =>
           if is_integrity_error e
           then raced ← gets find;
                match raced with Some id => mret id | None => mthrow e end
           else mthrow e)
  end.

Definition ensure_demo_merchant : Op UUID :=
  find_or_insert _get_demo_merchant
    (insert_merchant simulator_merchant_id demo_merchant;; mret simulator_merchant_id).

Definition ensure_simulator_fixtures : Op (UUID * UUID) :=
  merchant ← ensure_demo_merchant;
  customer ← find_or_insert (customer_with merchant simulator_customer_id SIMULATOR_CUSTOMER_EXTERNAL_ID)
               (insert_customer simulator_customer_id (demo_customer merchant);; mret simulator_customer_id);
  mret (merchant, customer).

Definition ensure_alt_simulator_customer : Op UUID :=
  '(merchant, _) ← ensure_simulator_fixtures;
  find_or_insert (customer_with merchant simulator_alt_customer_id SIMULATOR_ALT_CUSTOMER_EXTERNAL_ID)
    (insert_customer simulator_alt_customer_id (demo_alt_customer merchant);; mret simulator_alt_customer_id).

Definition ensure_alt_merchant : Op UUID :=
  find_or_insert (or_found (merchant_with_id simulator_alt_merchant_id)
                    (MerchantRepository.get_by_slug SIMULATOR_ALT_MERCHANT_SLUG))
    (insert_merchant simulator_alt_merchant_id alt_merchant;; mret simulator_alt_merchant_id).

Definition ensure_alt_simulator_merchant : Op (UUID * UUID) :=
  merchant ← ensure_alt_merchant;
  customer ← find_or_insert (CustomerRepository.get_by_external_id merchant SIMULATOR_ALT_CUSTOMER_EXTERNAL_ID)
               (id ← uuid4; insert_customer id (alt_merchant_customer merchant);; mret id);
  mret (merchant, customer).
End Fixtures.

(** ** Lemmas *)

#[local] Opaque simulator_merchant_id simulator_customer_id simulator_alt_customer_id simulator_alt_merchant_id.

Lemma returned_inj {S E A} (s s' : S) (a b : A) : (s, Ok (E := E) a) = (s', Ok b) -> s = s' /\ a = b.
Proof. split; congruence. Qed.

(** The merchants and the customers of a store. *)
Definition parties (w : World) := (w_merchants w, w_customers w).

Section Found.
Context (concurrent : World -> World).
(** The other transactions add no merchant and no customer. *)
Context (Hquiet : forall w, parties (concurrent w) = parties w).

(** What is returned is found ever after. *)
Lemma returns_find_or_insert (find : World -> option UUID) insert (Q : UUID -> World -> Prop) w :
  (forall v v', parties v' = parties v -> find v' = find v) ->
  (forall v v' e, insert v = (v', Raise e) -> parties v' = parties v) ->
  (forall v, parties v = parties w -> find v = None ->
     returns insert v (fun id v' => find v' = Some id /\ Q id v')) ->
  (forall id, find w = Some id -> Q id w) ->
  returns (find_or_insert concurrent find insert) w (fun id w' => find w' = Some id /\ Q id w').
Proof using Hquiet.
  intros Hfind Hraise Hins HQ. unfold find_or_insert. apply returns_gets.
  destruct (find w) as [id|] eqn:Hf; [apply returns_ret; split; [done|by apply HQ]|].
  pose proof (Hfind _ _ (Hquiet w)) as Hc.
  assert ((flush;; modify concurrent;; insert) w
    = if db_checks w then insert (concurrent w)
      else (w, Raise (IntegrityError "CHECK constraint violated"))) as E.
  { unfold flush, mbind, m_bind, get, gets, modify. simpl. by destruct (db_checks w). }
  apply returns_try.
  - intros v a. rewrite E. destruct (db_checks w); [|done]. apply Hins; [apply Hquiet|congruence].
  - intros e v. rewrite E. intros He. destruct (is_integrity_error e); [|apply returns_throw].
    apply returns_gets. enough (find v = None) as -> by apply returns_throw.
    destruct (db_checks w); [|by injection He as <- _].
    rewrite (Hfind (concurrent w) v); [congruence|]. by eapply Hraise.
Qed.
End Found.

(** Finding looks at merchants and customers alone. *)
Lemma demo_merchant_found v v' : parties v' = parties v -> _get_demo_merchant v' = _get_demo_merchant v.
Proof.
  intros [= Hm _]. unfold _get_demo_merchant, or_found, merchant_with_id, MerchantRepository.get_merchant,
    MerchantRepository.get_by_slug. by rewrite Hm.
Qed.
Lemma customer_found m id x v v' : parties v' = parties v -> customer_with m id x v' = customer_with m id x v.
Proof.
  intros [= _ Hc]. unfold customer_with, or_found, CustomerRepository.get_customer,
    CustomerRepository.get_by_external_id. by rewrite Hc.
Qed.

(** The merchant that is found exists, and the customer that is found is the merchant's. *)
Lemma demo_merchant_exists w m : _get_demo_merchant w = Some m -> is_Some (w_merchants w !! m).
Proof.
  unfold _get_demo_merchant, or_found, merchant_with_id, MerchantRepository.get_merchant,
    MerchantRepository.get_by_slug.
  destruct (w_merchants w !! simulator_merchant_id) eqn:Hm; simpl; [intros <-%(inj Some); by rewrite Hm|].
  destruct (scalar_where _ _) as [id|] eqn:Hs; [intros [= ->]|clear Hs; intros Hs];
    apply scalar_where_Some in Hs as (r & Hr & _); by exists r.
Qed.

Definition owns (m c : UUID) (w : World) : Prop :=
  exists row, w_customers w !! c = Some row /\ customer_merchant_id row = m.

Lemma customer_owned m id x w c : customer_with m id x w = Some c -> owns m c w.
Proof.
  unfold customer_with, or_found, CustomerRepository.get_customer, CustomerRepository.get_by_external_id.
  destruct (scalar_where _ _) as [i|] eqn:Hs; [intros [= ->]|clear Hs; intros Hs];
    apply scalar_where_Some in Hs as (r & Hr & [Hp _]%andb_true_iff); exists r;
    (split; [done|by apply bool_decide_eq_true in Hp]).
Qed.

Lemma get_customer_inserted m id row w :
  customer_merchant_id row = m ->
  CustomerRepository.get_customer m id (set_w_customers (<[id := row]> (w_customers w)) w) = Some id.
Proof.
  intros Hm. unfold CustomerRepository.get_customer. destruct (scalar_where _ _) as [i|] eqn:Hs.
  - apply scalar_where_Some in Hs as (r & _ & [_ Hp]%andb_true_iff). apply bool_decide_eq_true in Hp. by subst.
  - pose proof (proj1 (scalar_where_None _ _) Hs id row) as Hn. simpl in Hn.
    rewrite lookup_insert_eq in Hn. specialize (Hn eq_refl). unfold same in Hn.
    rewrite Hm, !bool_decide_eq_true_2 in Hn by done. done.
Qed.

Section Idempotent.
Context (concurrent : World -> World).
Context (Hquiet : forall w, parties (concurrent w) = parties w).

Lemma raised_insert_customer id c v v' e :
  (insert_customer id c;; mret id : Op UUID) v = (v', Raise e) -> parties v' = parties v.
Proof using.
  unfold insert_customer, mbind, m_bind, get, gets. simpl. destruct (is_some _); [by intros [= <-]|].
  destruct (negb _); [by intros [= <-]|done].
Qed.
Lemma raised_insert_merchant id m v v' e :
  (insert_merchant id m;; mret id : Op UUID) v = (v', Raise e) -> parties v' = parties v.
Proof using.
  unfold insert_merchant, mbind, m_bind, get, gets. simpl. destruct (_ || _); [by intros [= <-]|done].
Qed.

Lemma returns_demo_merchant w :
  returns (ensure_demo_merchant concurrent) w (fun m w' => _get_demo_merchant w' = Some m /\ True).
Proof using Hquiet.
  apply returns_find_or_insert; [done|apply demo_merchant_found|apply raised_insert_merchant| |done].
  intros v _ _ v' id. unfold insert_merchant, mbind, m_bind, get, gets. simpl.
  destruct (_ || _); [done|]. intros [<- <-]%returned_inj.
  split; [|done].
  unfold _get_demo_merchant, or_found, merchant_with_id, MerchantRepository.get_merchant. simpl.
  by rewrite lookup_insert_eq.
Qed.

Lemma returns_demo_customer m w :
  returns (find_or_insert concurrent (customer_with m simulator_customer_id SIMULATOR_CUSTOMER_EXTERNAL_ID)
             (insert_customer simulator_customer_id (demo_customer m);; mret simulator_customer_id)) w
    (fun c w' => customer_with m simulator_customer_id SIMULATOR_CUSTOMER_EXTERNAL_ID w' = Some c
                 /\ w_merchants w' = w_merchants w).
Proof using Hquiet.
  apply returns_find_or_insert; [done|apply customer_found|apply raised_insert_customer| |done].
  intros v Hv _ v' id. unfold insert_customer, mbind, m_bind, get, gets. simpl.
  destruct (is_some _); [done|]. intros [<- <-]%returned_inj.
  split; [|by injection Hv].
  unfold customer_with, or_found. by rewrite get_customer_inserted.
Qed.

(** The merchant and the customer of the simulator are made once: whoever asks again, while no
    one else adds merchants or customers, gets the same two and changes nothing; the merchant
    exists and the customer is the merchant's. *)
Theorem fixtures_are_idempotent w w' m c :
  ensure_simulator_fixtures concurrent w = (w', Ok (m, c)) ->
  ensure_simulator_fixtures concurrent w' = (w', Ok (m, c))
  /\ is_Some (w_merchants w' !! m) /\ owns m c w'.
Proof using Hquiet.
  intros H. enough (_get_demo_merchant w' = Some m
    /\ customer_with m simulator_customer_id SIMULATOR_CUSTOMER_EXTERNAL_ID w' = Some c) as [Hm Hc].
  { split; [|split; [by apply demo_merchant_exists|by eapply customer_owned]].
    unfold ensure_simulator_fixtures, ensure_demo_merchant, find_or_insert, mbind, m_bind, gets. simpl.
    rewrite Hm. simpl. by rewrite Hc. }
  revert w' m c H. cut (returns (ensure_simulator_fixtures concurrent) w (fun mc w' =>
    _get_demo_merchant w' = Some mc.1
    /\ customer_with mc.1 simulator_customer_id SIMULATOR_CUSTOMER_EXTERNAL_ID w' = Some mc.2));
    [intros Hr w' m c H; exact (Hr w' (m, c) H)|].
  unfold ensure_simulator_fixtures. eapply returns_bind; [apply returns_demo_merchant|]. intros m v [Hm _].
  eapply returns_bind; [apply returns_demo_customer|]. intros c w' [Hc Hk]. apply returns_ret. simpl.
  split; [|done]. revert Hm. unfold _get_demo_merchant, or_found, merchant_with_id,
    MerchantRepository.get_merchant, MerchantRepository.get_by_slug. by rewrite Hk.
Qed.
End Idempotent.

(** ** The fixtures refine the abstract system *)

Section Refines.
Context (cfg : RecoverySettings) (A : list label) (HA : [L_time; L_party] ⊆ A).
Context (concurrent : World -> World) (Hrely : forall w, runs cfg A w (concurrent w)).
Notation R := (runs cfg A).

Lemma runs_find_or_insert find (insert : Op UUID) :
  preserves R insert -> preserves R (find_or_insert concurrent find insert).
Proof using Hrely.
  intros Hi. assert (preserves R (modify concurrent : Op unit)) by (intros w; apply Hrely).
  unfold find_or_insert. solve_pres.
Qed.

Lemma party_in : L_party ∈ A.
Proof using HA. apply HA. solve_label. Qed.
Lemma time_in : L_time ∈ A.
Proof using HA. apply HA. solve_label. Qed.
#[local] Hint Resolve runs_find_or_insert runs_insert_merchant runs_insert_customer party_in time_in
  runs_uuid4 : pres.

Lemma runs_fixtures : preserves R (ensure_simulator_fixtures concurrent).
Proof using All. unfold ensure_simulator_fixtures, ensure_demo_merchant. solve_pres; apply runs_find_or_insert; solve_pres. Qed.
Lemma runs_alt_customer : preserves R (ensure_alt_simulator_customer concurrent).
Proof using All.
  pose proof runs_fixtures. unfold ensure_alt_simulator_customer. solve_pres; apply runs_find_or_insert; solve_pres.
Qed.
Lemma runs_alt_merchant : preserves R (ensure_alt_simulator_merchant concurrent).
Proof using All.
  unfold ensure_alt_simulator_merchant, ensure_alt_merchant. solve_pres; apply runs_find_or_insert; solve_pres.
Qed.
End Refines.
