(* ===== verification/VerificationProps.v ===== *)
(** * Verification credits only what matches

    The evaluation of a payment against a case agrees with the proposition
    [creditable], and [verify_case] refines the abstract system: the only way it
    changes a recovered amount is the credit step. *)
From S2P Require Import Prelude PyStr Uuid Errors Decimal Json Datetime Enums Rows Store Repositories StateMachine Transitions Config PolicyContext PolicyEngine VerificationTypes Events Processing Processor Verification Lifecycle Refinement.
Open Scope stdpp_scope.

(** ** Evaluation *)

Lemma dec_min_full x y : dec_leb y x = true -> dec_leb (dec_min x y) y = true.
Proof.
  intros H. unfold dec_min. destruct (dec_ltb y x) eqn:E; [apply dec_leb_refl|].
  rewrite dec_ltb_leb in E. by apply negb_false_iff in E.
Qed.

Lemma dec_min_partial x y : dec_leb y x = false -> dec_min x y = x.
Proof.
  intros H. unfold dec_min. rewrite dec_ltb_leb.
  destruct (dec_leb_total x y) as [->|H']; [done|]. by rewrite H in H'.
Qed.

(** Of two money values, the smaller one is the second when it is not above
    the first. *)
Lemma dec_min_money x y a b :
  as_money x = Ok a -> as_money y = Ok b -> true = dec_leb b a -> b = dec_min a b.
Proof.
  intros (Ha & _ & _)%as_money_ok (Hb & _ & _)%as_money_ok Hle. unfold dec_min.
  destruct a as [a ea], b as [b eb]; simpl in *; subst. rewrite dec_leb_money in Hle.
  rewrite dec_ltb_money. symmetry in Hle. apply Z.leb_le in Hle.
  destruct (Z.ltb_spec b a); [done|]. f_equal. lia.
Qed.

Section Evaluate.
Context (settings : RecoverySettings).

Lemma credit_result_none case_id c payment_id p remaining m :
  credit_result case_id c payment_id p remaining = Ok m ->
  m_mismatch_reason m = None ->
  exists captured at_risk,
    as_money (payment_amount p) = Ok captured /\ as_money (case_amount_at_risk c) = Ok at_risk
    /\ dec_ltb ZERO captured = true
    /\ m_matched m = dec_leb at_risk captured
    /\ m_amount_recovered m = dec_min captured at_risk
    /\ m_payment_id m = Some payment_id
    /\ as_money (dec_sub at_risk (dec_min captured at_risk)) = Ok (m_remaining_exposure m).
Proof using.
  unfold credit_result. destruct (as_money (payment_amount p)) as [captured|] eqn:Hcap; simpl; [|done].
  destruct (dec_leb captured ZERO) eqn:Hz; [by intros [= <-]|].
  destruct (as_money (case_amount_at_risk c)) as [at_risk|] eqn:Hrisk; simpl; [|done].
  destruct (if dec_ltb at_risk captured then _ else _) as [over|]; simpl; [|done].
  assert ((if dec_leb at_risk captured then dec_min captured at_risk else captured)
          = dec_min captured at_risk) as ->.
  { destruct (dec_leb at_risk captured) eqn:E; [done|]. by rewrite dec_min_partial. }
  destruct (as_money (dec_sub at_risk (dec_min captured at_risk))) as [exposure|] eqn:He; simpl; [|done].
  intros [= <-] _. exists captured, at_risk. simpl. rewrite dec_ltb_leb, Hz. done.
Qed.

(** A payment evaluated without a mismatch is creditable. *)
Lemma evaluate_none case_id c payment_id p w m :
  _evaluate settings case_id c payment_id p w = Ok m -> m_mismatch_reason m = None ->
  creditable settings w case_id c payment_id p
  /\ exists captured at_risk,
    as_money (payment_amount p) = Ok captured /\ as_money (case_amount_at_risk c) = Ok at_risk
    /\ m_matched m = dec_leb at_risk captured
    /\ m_amount_recovered m = dec_min captured at_risk
    /\ m_payment_id m = Some payment_id
    /\ as_money (dec_sub at_risk (dec_min captured at_risk)) = Ok (m_remaining_exposure m).
Proof using.
  unfold _evaluate. destruct (as_money (dec_sub _ _)) as [remaining|]; simpl; [|done].
  destruct (same (payment_merchant_id p) _) eqn:H1; simpl; [|by intros [= <-]].
  destruct (same (payment_customer_id p) _) eqn:H2; simpl; [|by intros [= <-]].
  destruct (match orders_of c p w with Some (o1, o2) => _ | None => _ end) eqn:H3;
    simpl; [by intros [= <-]|].
  destruct (match case_payment_id c with Some pid => _ | None => _ end) eqn:H4;
    simpl; [by intros [= <-]|].
  destruct (String.eqb _ _) eqn:H5; simpl; [|by intros [= <-]].
  destruct (same (payment_status p) _) eqn:H6; simpl; [|by intros [= <-]].
  destruct (payment_captured_at p) as [t|] eqn:H7; simpl; [|by intros [= <-]].
  destruct (_inside_window settings c p) eqn:H8; simpl; [|by intros [= <-]].
  intros Hm Hn. destruct (credit_result_none _ _ _ _ _ _ Hm Hn)
    as (cap & risk & Hcap & Hrisk & Hpos & Hrest).
  split; [|by exists cap, risk].
  apply same_eq in H1, H2, H6. apply String.eqb_eq in H5.
  unfold _inside_window in H8. rewrite H7 in H8. apply andb_true_iff in H8 as [Hlo Hhi].
  apply Z.leb_le in Hlo, Hhi. split; try done.
  - intros o1 o2 Ho. rewrite Ho in H3. by apply negb_false_iff, String.eqb_eq in H3.
  - destruct (case_payment_id c) as [pid|]; [|by left].
    apply andb_false_iff in H4 as [H4|H4]; apply negb_false_iff in H4.
    + apply same_eq in H4 as ->. right. by left.
    + apply orb_true_iff in H4. tauto.
  - exists t. done.
  - by exists cap.
Qed.

Lemma credit_result_matched case_id c payment_id p remaining m :
  credit_result case_id c payment_id p remaining = Ok m -> m_matched m = true ->
  m_mismatch_reason m = None.
Proof using.
  unfold credit_result. destruct (as_money (payment_amount p)) as [captured|]; simpl; [|done].
  destruct (dec_leb captured ZERO); [by intros [= <-]|].
  destruct (as_money (case_amount_at_risk c)) as [at_risk|]; simpl; [|done].
  destruct (if dec_ltb at_risk captured then _ else _) as [over|]; simpl; [|done].
  destruct (as_money (dec_sub at_risk _)); simpl; [|done]. by intros [= <-].
Qed.

(** The evaluation itself never reports a duplicate event. *)
Lemma evaluate_not_duplicate case_id c payment_id p w m :
  _evaluate settings case_id c payment_id p w = Ok m ->
  m_mismatch_reason m <> Some MismatchReason.DUPLICATE_EVENT.
Proof using.
  unfold _evaluate. destruct (as_money (dec_sub _ _)) as [remaining|]; simpl; [|done].
  repeat match goal with
         | |- (if ?b then _ else _) = _ -> _ => destruct b; [by intros [= <-]|]
         end.
  unfold credit_result. destruct (as_money (payment_amount p)) as [captured|]; simpl; [|done].
  destruct (dec_leb captured ZERO); [by intros [= <-]|].
  destruct (as_money (case_amount_at_risk c)) as [at_risk|]; simpl; [|done].
  destruct (if dec_ltb at_risk captured then _ else _) as [over|]; simpl; [|done].
  destruct (as_money (dec_sub at_risk _)); simpl; [|done]. by intros [= <-].
Qed.

Lemma evaluate_matched case_id c payment_id p w m :
  _evaluate settings case_id c payment_id p w = Ok m -> m_matched m = true ->
  m_mismatch_reason m = None.
Proof using.
  unfold _evaluate. destruct (as_money (dec_sub _ _)) as [remaining|]; simpl; [|done].
  repeat match goal with
         | |- (if ?b then _ else _) = _ -> _ => destruct b; [by intros [= <-]|]
         end.
  apply credit_result_matched.
Qed.
End Evaluate.

(** ** What the processor leaves alone *)

(** The columns of a case verification reads or writes, other than its status. *)
Definition case_book (c : RecoveryCase) :=
  (case_identity c, case_amount_recovered c, case_verified_payment_id c,
   case_verified_webhook_event_id c).

Definition book_kept (c c' : RecoveryCase) : Prop :=
  case_book c' = case_book c /\ (case_status c' = RECOVERED -> case_status c = RECOVERED).

Definition links_kept (a a' : RecoveryAction) : Prop :=
  action_recovery_case_id a' = action_recovery_case_id a
  /\ action_provider_reference a' = action_provider_reference a
  /\ dict_get "new_payment_id" (default [] (action_metadata_json a'))
     = dict_get "new_payment_id" (default [] (action_metadata_json a)).

Record frame (w w' : World) : Prop := {
  fr_payments : w_payments w' = w_payments w;
  fr_cases : forall id, option_Forall2 book_kept (w_cases w !! id) (w_cases w' !! id);
  fr_actions : forall id a, w_actions w !! id = Some a ->
    exists a', w_actions w' !! id = Some a' /\ links_kept a a';
}.

#[export] Instance book_kept_preorder : PreOrder book_kept.
Proof.
  split; [done|]. intros x y z [H1 H2] [H3 H4]. split; [congruence|auto].
Qed.

#[export] Instance links_kept_preorder : PreOrder links_kept.
Proof. split; [done|]. intros x y z (? & ? & ?) (? & ? & ?). split; [congruence|split; congruence]. Qed.

#[export] Instance frame_preorder : PreOrder frame.
Proof.
  split.
  - intros w. split; [done|intros id; reflexivity|intros id a Ha; by exists a].
  - intros x y z [P1 C1 A1] [P2 C2 A2]. split; [congruence| |].
    + intros id. transitivity (w_cases y !! id); [apply C1|apply C2].
    + intros id a Ha. destruct (A1 _ _ Ha) as (b & Hb & L1). destruct (A2 _ _ Hb) as (d & Hd & L2).
      exists d. split; [done|]. by transitivity b.
Qed.

(** Inserting at a key only changes that key. *)
Lemma insert_option_Forall2 {A} (R : relation A) `{!PreOrder R} (m : gmap UUID A) i x y :
  m !! i = Some x -> R x y -> forall id, option_Forall2 R (m !! id) (<[i := y]> m !! id).
Proof.
  intros Hx HR id. destruct (decide (id = i)) as [->|Hne].
  - rewrite lookup_insert_eq, Hx. by constructor.
  - rewrite lookup_insert_ne by done. reflexivity.
Qed.

Ltac frame_same :=
  split; [done|intros ?; reflexivity|];
  let id := fresh in let r := fresh in let H := fresh in intros id r H; by exists r.

(** The labels of [_ensure_verifying], and of the note a failure starts with. *)
Definition ENSURE : list label := L_case_move VERIFYING :: L_case_note :: PROCESSOR.

Lemma step_frame settings l w w' : l ∈ ENSURE -> step settings l w w' -> frame w w'.
Proof.
  intros Hl Hs. destruct Hs; try frame_same;
    try refute_label Hl.
  - split; [done| |intros id' a Ha; by exists a]. simpl.
    apply (insert_option_Forall2 _ _ _ c); [done|]. split; [done|].
    simpl. intros ->. refute_label Hl.
  - split; [done| |intros id' a Ha; by exists a]. simpl.
    apply (insert_option_Forall2 _ _ _ c); [done|]. by split.
  - split; [done|intros ?; reflexivity|]. simpl. intros id' a' Ha'. exists a'. split; [|done].
    rewrite lookup_insert_ne; [done|congruence].
  - split; [done|intros ?; reflexivity|]. simpl. intros id' a' Ha'.
    destruct (decide (id' = id)) as [->|Hne].
    + rewrite lookup_insert_eq. eexists. split; [done|]. simplify_eq. done.
    + rewrite lookup_insert_ne by done. by exists a'.
Qed.

Lemma runs_frame settings w w' : runs settings ENSURE w w' -> frame w w'.
Proof. apply runs_ind; [apply _|]. intros l x y. apply step_frame. Qed.

(** The equations behind [book_kept]. *)
Lemma book_eqs c c' : case_book c' = case_book c ->
  case_merchant_id c' = case_merchant_id c /\ case_customer_id c' = case_customer_id c
  /\ case_payment_id c' = case_payment_id c /\ case_currency c' = case_currency c
  /\ case_opened_at c' = case_opened_at c /\ case_amount_at_risk c' = case_amount_at_risk c
  /\ case_verified_payment_id c' = case_verified_payment_id c
  /\ case_amount_recovered c' = case_amount_recovered c.
Proof. unfold case_book, case_identity. intros [=]. done. Qed.

Lemma orders_of_frame w w' c c' p :
  w_payments w' = w_payments w -> case_book c' = case_book c -> orders_of c' p w' = orders_of c p w.
Proof.
  intros Hp Hb. apply book_eqs in Hb as (Hm & _ & Hpid & _).
  unfold orders_of, case_payment_of, PaymentRepository.get_payment. by rewrite Hpid, Hm, Hp.
Qed.

Lemma linked_frame w w' id pid p :
  frame w w' -> linked_via_action id pid p w = true -> linked_via_action id pid p w' = true.
Proof.
  intros [_ _ Ha] Hl. unfold linked_via_action in *. apply existsb_elem in Hl as ([k a] & Hin & Hk).
  apply elem_of_rows_where in Hin as [Hlook Hcase]. apply same_eq in Hcase.
  destruct (Ha _ _ Hlook) as (a' & Ha' & Hrc & Hpr & Hmd).
  apply existsb_elem. exists (k, a'). split.
  - apply elem_of_rows_where. split; [done|]. rewrite Hrc, Hcase. apply same_refl.
  - simpl in *. unfold action_links in *. by rewrite Hpr, Hmd.
Qed.

Lemma creditable_frame settings w w' id c c' pid p :
  frame w w' -> book_kept c c' -> creditable settings w id c pid p ->
  creditable settings w' id c' pid p.
Proof.
  intros Hf [Hb _] [Hm Hcu Hcur Hord Hlink Hcap Hwin Hpos].
  pose proof (orders_of_frame w w' c c' p (fr_payments _ _ Hf) Hb) as Ho.
  apply book_eqs in Hb as (E1 & E2 & E3 & E4 & E5 & _).
  split; rewrite ?E1, ?E2, ?E3, ?E4, ?E5, ?Ho; try done.
  destruct Hlink as [?|[?|[?|?]]]; auto. do 3 right. by eapply linked_frame.
Qed.

Lemma counted_frame w w' id c c' pid :
  frame w w' -> case_book c' = case_book c ->
  counted_elsewhere id c pid w = false -> counted_elsewhere id c' pid w' = false.
Proof.
  intros Hf Hb Hc. unfold counted_elsewhere in *. rewrite existsb_elem_false in *.
  intros [k d'] Hin. unfold RecoveryCaseRepository.list_that_counted_payment in *.
  apply elem_of_rows_where in Hin as [Hlook Hp].
  pose proof (fr_cases _ _ Hf k) as Hk. rewrite Hlook in Hk.
  inversion Hk as [d ? [Hbd _] Hd|]; subst. apply (Hc (k, d)).
  apply elem_of_rows_where. split; [done|].
  apply book_eqs in Hb as (Hm & _).
  apply book_eqs in Hbd as (Hm' & _ & _ & _ & _ & _ & Hv & Hr). by rewrite <- Hm, <- Hm', <- Hv, <- Hr.
Qed.

(** ** The service refines the abstract system *)

Lemma processor_in_ensure : PROCESSOR ⊆ ENSURE.
Proof. unfold ENSURE. set_solver. Qed.

Lemma ensure_in_verifier : ENSURE ⊆ VERIFIER.
Proof. unfold ENSURE, VERIFIER. set_solver. Qed.

(** [m] leaves the store as a run of [A], then the rest goes on. *)
Lemma from_bind_runs {B C} settings A A' (m : Op B) (k : B -> Op C) w :
  A ⊆ A' -> preserves (runs settings A) m ->
  (forall b w', m w = (w', Ok b) -> runs settings A w w' ->
    preserves_from (runs settings A') (k b) w') ->
  preserves_from (runs settings A') (m ≫= k) w.
Proof.
  intros HA Hm Hk. apply from_bind; [apply _|eapply runs_mono; [done|apply Hm]|].
  intros b w' Hb. apply Hk; [done|]. specialize (Hm w). unfold final in Hm. by rewrite Hb in Hm.
Qed.

Section Service.
Context (settings : RecoverySettings) (correlation_id : option string) (actor_type : string).
Notation R := (runs settings VERIFIER).

Lemma runs_case_audit A id c ty s a ps ns md :
  L_time ∈ A -> L_audit ∈ A ->
  preserves (runs settings A) (case_audit correlation_id actor_type id c ty s a ps ns md).
Proof. apply runs_record_audit. Qed.
#[local] Hint Resolve runs_case_audit : pres.

Lemma runs_ensure id :
  preserves (runs settings ENSURE) (_ensure_verifying settings correlation_id actor_type id).
Proof.
  unfold _ensure_verifying. solve_pres.
  eapply preserves_mono; [apply processor_in_ensure|].
  apply runs_process_locked_case.
Qed.

(** One credit, made in a store where the payment still matches. *)
Lemma runs_credit id c pid p amount hook w :
  w_cases w !! id = Some c -> w_payments w !! pid = Some p ->
  creditable settings w id c pid p -> credit_amount c p amount ->
  case_status c <> RECOVERED -> case_verified_payment_id c <> Some pid ->
  counted_elsewhere id c pid w = false ->
  preserves_from R (update_case id (credit amount (Some pid) hook)) w.
Proof.
  intros Hc Hp Hcr Ha Hs Hv Hce. unfold preserves_from, final, update_case, modify. simpl.
  rewrite (alter_as_insert _ _ _ _ Hc). eapply runs_step; [|by eapply step_case_credit].
  solve_label.
Qed.

(** What the evaluation established, read in the store where it is used. *)
Record to_credit (id pid : UUID) (m : RecoveryMatchResult) (w : World) : Prop := {
  tc_creditable : exists c p captured at_risk,
    w_cases w !! id = Some c /\ w_payments w !! pid = Some p
    /\ creditable settings w id c pid p
    /\ case_status c <> RECOVERED /\ case_verified_payment_id c <> Some pid
    /\ counted_elsewhere id c pid w = false
    /\ as_money (payment_amount p) = Ok captured /\ as_money (case_amount_at_risk c) = Ok at_risk
    /\ m_matched m = dec_leb at_risk captured
    /\ m_amount_recovered m = dec_min captured at_risk;
  tc_payment : m_payment_id m = Some pid;
}.

Lemma to_credit_frame id pid m w w' :
  frame w w' -> to_credit id pid m w -> to_credit id pid m w'.
Proof.
  intros Hf [(c & p & cap & risk & Hc & Hp & Hcr & Hs & Hv & Hce & Hcap & Hrisk & Hm & Ha) Hpid].
  pose proof (fr_cases _ _ Hf id) as Hk. rewrite Hc in Hk. inversion Hk as [? c' Hb Hc1 Hc'|]; subst.
  pose proof (book_eqs _ _ (proj1 Hb)) as (_ & _ & _ & _ & _ & Er & Ev & _).
  split; [|done]. exists c', p, cap, risk. rewrite (fr_payments _ _ Hf), Ev, Er.
  split; [done|]. split; [done|]. split; [by eapply creditable_frame|].
  split; [intros H; by apply Hs, Hb|]. split; [done|].
  split; [by eapply counted_frame; [|apply Hb|]|]. done.
Qed.

Lemma runs_apply_success id pid m hook w :
  to_credit id pid m w -> m_matched m = true ->
  preserves_from R (_apply_success correlation_id actor_type id pid m hook) w.
Proof.
  intros [(c & p & cap & risk & Hc & Hp & Hcr & Hs & Hv & Hce & Hcap & Hrisk & Hm & Ha) Hpid] Hmt.
  apply from_get_row; [apply _|]. intros c' Hc'. simplify_eq.
  destruct (bool_decide (case_status c = VERIFYING)) eqn:Hver; simpl;
    [|unfold preserves_from; reflexivity].
  apply bool_decide_eq_true in Hver.
  apply from_lift; [apply _|]. intros prev _. apply from_lift; [apply _|]. intros credited Hcred.
  apply from_lift; [apply _|]. intros risk' Hrisk'.
  destruct (dec_ltb risk' credited); [unfold preserves_from; reflexivity|].
  rewrite Ha, (as_money_min _ _ _ _ Hcap Hrisk) in Hcred. injection Hcred as <-.
  assert (fully_credited (credit (dec_min cap risk) (Some pid) hook c)) as Hfull.
  { split; [done|]. simpl. rewrite Hrisk. f_equal. rewrite Hmt in Hm.
    by apply (dec_min_money _ _ _ _ Hcap Hrisk). }
  apply from_bind; [apply _| |].
  { eapply runs_credit; [done|done|done|by exists cap, risk|done..]. }
  intros [] w1 [= <-]. apply from_bind; [apply _|apply runs_note_case; solve_label|].
  intros [] w2 [= <-].
  match goal with |- preserves_from _ _ ?w => set (w2 := w) end.
  assert (w_cases w2 !! id = Some (set_case_last_mismatch_reason None
            (credit (dec_min cap risk) (Some pid) hook c))) as Hw2.
  { subst w2. simpl. by rewrite !lookup_alter_eq, Hc. }
  apply from_bind; [apply _| |].
  { apply from_preserves; [apply _|]. clear. solve_pres. }
  intros [] w3 Hw3.
  assert (w_cases w3 = w_cases w2) as Hcases.
  { destruct (negb _) in Hw3; simpl in Hw3; [|by injection Hw3 as <-].
    unfold case_audit in Hw3. rewrite record_audit_run in Hw3. by injection Hw3 as <-. }
  apply runs_transition_from; [solve_label..|]. intros c3 Hc3 _. rewrite Hcases, Hw2 in Hc3.
  by injection Hc3 as <-.
Qed.

Lemma runs_credit_partial id pid m hook w :
  to_credit id pid m w -> m_matched m = false ->
  preserves_from R (credit_partial correlation_id actor_type id m hook) w.
Proof.
  intros [(c & p & cap & risk & Hc & Hp & Hcr & Hs & Hv & Hce & Hcap & Hrisk & Hm & Ha) Hpid] Hmf.
  rewrite Hmf in Hm. symmetry in Hm.
  apply from_get_row; [apply _|]. intros c' Hc'. simplify_eq.
  apply from_lift; [apply _|]. intros prev _. apply from_lift; [apply _|]. intros credited Hcred.
  rewrite Hpid. apply from_bind; [apply _| |].
  - eapply runs_credit; [done|done|done| |done..]. exists cap, risk.
    split; [done|]. split; [done|]. split; [|intros H; by rewrite Hm in H].
    rewrite Ha, (dec_min_partial cap risk) in Hcred by done. rewrite dec_min_partial by done.
    pose proof (as_money_ok _ _ Hcap) as (He & _ & _).
    pose proof (below_quantized _ _ cap Hrisk He) as Hlow. rewrite dec_ltb_leb, Hm in Hlow.
    specialize (Hlow eq_refl). unfold dec_min in Hcred.
    destruct (dec_ltb (case_amount_at_risk c) cap) eqn:Hx.
    + exfalso. rewrite dec_ltb_leb in Hx, Hlow. apply negb_true_iff in Hx, Hlow.
      by destruct (dec_leb_total cap (case_amount_at_risk c)) as [E|E]; congruence.
    + rewrite (as_money_idemp _ _ Hcap) in Hcred. by injection Hcred as <-.
  - intros [] w' _. apply from_preserves; [apply _|]. clear. solve_pres.
Qed.

Lemma from_final {E A} (R' : relation World) (m : M World E A) w :
  R' w (final m w) -> preserves_from R' m w.
Proof. done. Qed.

Lemma runs_persist_failure id pid m hook w :
  (m_mismatch_reason m = None -> to_credit id pid m w /\ m_matched m = false) ->
  m_mismatch_reason m <> Some MismatchReason.DUPLICATE_EVENT ->
  preserves_from R (_persist_failure correlation_id actor_type id m hook) w.
Proof.
  intros Hcr Hdup. unfold _persist_failure.
  apply (from_bind_runs settings ENSURE); [apply ensure_in_verifier|solve_pres|].
  intros [] w1 _ Hw1%runs_frame.
  assert (is_some hook && same (m_mismatch_reason m) (Some MismatchReason.DUPLICATE_EVENT) = false) as ->.
  { apply andb_false_iff. right. apply not_true_iff_false. by intros ?%same_eq. }
  apply from_bind; [apply _|apply from_ret, _|]. intros [] w2 [= <-].
  apply from_bind; [apply _| |].
  - destruct (same (m_mismatch_reason m) None) eqn:Hnone; simpl; [|apply from_ret, _].
    apply same_eq in Hnone. destruct (Hcr Hnone) as [Htc Hm].
    destruct (dec_ltb ZERO (m_amount_recovered m) && _); simpl; [|apply from_ret, _].
    eapply runs_credit_partial; [|done]. by eapply to_credit_frame.
  - intros [] w3 _. apply from_preserves; [apply _|]. clear. solve_pres.
Qed.

Lemma runs_verify_payment id pid hook w c p :
  w_cases w !! id = Some c -> w_payments w !! pid = Some p ->
  case_verified_payment_id c <> Some pid -> counted_elsewhere id c pid w = false ->
  preserves_from R (verify_payment settings correlation_id actor_type id pid hook) w.
Proof.
  intros Hc Hp Hv Hce. unfold verify_payment.
  apply from_get_row; [apply _|]. intros c' Hc'. simplify_eq.
  apply from_get_row; [apply _|]. intros p' Hp'. simplify_eq.
  apply from_get; [apply _|]. apply from_lift; [apply _|]. intros m Hm.
  destruct (bool_decide (case_status c = RECOVERED)) eqn:Hrec.
  { apply from_preserves; [apply _|]. clear. solve_pres. }
  apply bool_decide_eq_false in Hrec.
  assert (m_mismatch_reason m = None -> to_credit id pid (set_m_payment_id (Some pid) m) w) as Htc.
  { intros Hn. destruct (evaluate_none _ _ _ _ _ _ _ Hm Hn)
      as (Hcr & cap & risk & Hcap & Hrisk & Hmt & Ha & _ & _).
    split; [|done]. exists c, p, cap, risk. done. }
  apply (from_bind_runs settings ENSURE); [apply ensure_in_verifier|apply runs_ensure|].
  intros [] w1 _ Hw1%runs_frame.
  apply from_bind; [apply _| |].
  - simpl. destruct (m_matched m) eqn:Hmt.
    + eapply runs_apply_success; [|done]. eapply to_credit_frame; [done|].
      by apply Htc, (evaluate_matched _ _ _ _ _ _ _ Hm).
    + eapply (runs_persist_failure _ pid); [|by apply (evaluate_not_duplicate _ _ _ _ _ _ _ Hm)].
      simpl. intros Hn. split; [|done]. eapply to_credit_frame; [done|by apply Htc].
  - intros [] w2 _. apply from_preserves; [apply _|]. clear. solve_pres.
Qed.

Lemma runs_verify_case id pid hook :
  preserves R (verify_case settings correlation_id actor_type id pid hook).
Proof.
  unfold verify_case. apply preserves_bind; [apply _|solve_pres|]. clear id. intros id w.
  apply from_get_row; [apply _|]. intros c Hc.
  destruct (bool_decide (case_status c = STOPPED)).
  { apply from_preserves; [apply _|]. clear. solve_pres. }
  apply from_gets; [apply _|]. unfold _resolve_payment.
  destruct (match pid with Some p => Some p | None => case_payment_id c end) as [t|]; simpl.
  2:{ apply from_lift; [apply _|]. intros r _. apply from_bind; [apply _| |].
      - apply (runs_persist_failure _ 0%N); done.
      - intros [] w' _. apply from_preserves; [apply _|]. clear. solve_pres. }
  destruct (w_payments w !! t) as [p|] eqn:Hp; simpl.
  2:{ apply from_lift; [apply _|]. intros r _. apply from_bind; [apply _| |].
      - apply (runs_persist_failure _ 0%N); done.
      - intros [] w' _. apply from_preserves; [apply _|]. clear. solve_pres. }
  apply from_get; [apply _|]. apply from_lift; [apply _|]. intros d Hd.
  destruct d as [d|].
  { apply from_preserves; [apply _|]. unfold _audit_no_credit. clear. solve_pres. }
  unfold _duplicate_or_already_counted in Hd.
  destruct (is_some hook && _); [by destruct (no_credit _ _ _ _ _)|].
  destruct (same (case_verified_payment_id c) (Some t)) eqn:Hv; [by destruct (no_credit _ _ _ _ _)|].
  destruct (counted_elsewhere id c t w) eqn:Hce; [by destruct (no_credit _ _ _ _ _)|].
  eapply runs_verify_payment; [done..| |done]. intros Heq. by rewrite Heq, same_refl in Hv.
Qed.
End Service.
