(* ===== verification/ProcessorProps.v ===== *)
(** * What the processor decides

    [process_locked_case] leaves waiting and finished cases alone, and takes every
    other case to the status its policy evaluation asks for, without crediting any
    money. *)
From S2P Require Import Prelude PyStr Uuid Errors Decimal Json Datetime Enums Rows Store Repositories StateMachine Transitions Config PolicyContext PolicyEngine VerificationTypes Events Processing Processor Verification Lifecycle Refinement VerificationProps.
Open Scope stdpp_scope.

(** The statuses the processor takes a case from. *)
Definition active_statuses : list RecoveryCaseStatus :=
  [DETECTED; TRIAGED; INVESTIGATING; DIAGNOSED; SCORING; STRATEGY_SELECTED; POLICY_CHECK].

(** What is left alone by an operation. *)
Definition decisions_kept : relation World := fun w w' =>
  w_cases w' = w_cases w /\ w_evaluations w' = w_evaluations w /\ w_approvals w' = w_approvals w.

#[export] Instance decisions_kept_preorder : PreOrder decisions_kept.
Proof. split; [done|]. intros x y z (? & ? & ?) (? & ? & ?). split; [congruence|split; congruence]. Qed.

(** The decision the store records about case [id]. *)
Definition decided (id : UUID) (w w' : World) (s : RecoveryCaseStatus) : Prop :=
  exists eid e, w_evaluations w !! eid = None /\ w_evaluations w' !! eid = Some e
    /\ evaluation_recovery_case_id e = Some id
    /\ (if negb (evaluation_allowed e) then s = STOPPED \/ s = ESCALATED
        else if evaluation_requires_approval e then
          s = AWAITING_APPROVAL /\ exists aid a, w_approvals w' !! aid = Some a
            /\ approval_recovery_case_id a = id /\ approval_status a = ApprovalStatus.PENDING
        else s = ACTION_COMPLETED).

(** ** Rules *)

Lemma returns_get_row {A B} (t : World -> gmap UUID A) id (f : A -> Op B) w Q :
  (forall r, t w !! id = Some r -> returns (f r) w Q) -> returns (get_row t id ≫= f) w Q.
Proof.
  intros H w' b. destruct (t w !! id) as [r|] eqn:Hr.
  - rewrite (bind_run _ _ _ _ _ (get_row_run _ _ _ _ Hr)). by apply H.
  - rewrite (bind_raise _ _ _ _ _ (get_row_None _ _ _ Hr)). done.
Qed.

Lemma returns_transition case_id target a w c :
  w_cases w !! case_id = Some c ->
  returns (transition_case case_id target a) w (fun _ w' =>
    legal (case_status c) target = true
    /\ w_cases w' = <[case_id := moved target (w_clock w (w_ticks w)) c]> (w_cases w)
    /\ w_evaluations w' = w_evaluations w /\ w_approvals w' = w_approvals w).
Proof.
  intros Hc w' []. rewrite (transition_case_run _ _ _ _ _ Hc).
  destruct (version_mismatch c a); [done|]. destruct (legal _ _); [|done].
  simpl. destruct (db_checks _); [|done]. intros [= <-]. done.
Qed.

Section Processor.
Context (settings : RecoverySettings) (correlation_id : option string) (actor_type : string).
Notation K := decisions_kept.

Lemma kept_record_audit m ty s a : preserves K (record_audit m ty s a).
Proof. by intros w. Qed.
Lemma kept_flush : preserves K flush.
Proof. intros w. unfold final. by rewrite flush_run. Qed.
Lemma kept_utcnow : preserves K utcnow.
Proof. by intros w. Qed.
Lemma kept_add_decision d : preserves K (add_decision d).
Proof. by intros w. Qed.
Lemma kept_get_row {A} (t : World -> gmap UUID A) id : preserves K (get_row t id).
Proof. intros w. unfold final, get_row, mbind, m_bind, get, lift. done. Qed.
Lemma kept_update_action id f : preserves K (update_action id f).
Proof. by intros w. Qed.
Lemma kept_insert_action a : preserves K (insert_action a).
Proof.
  intros w. unfold final, insert_action, mbind, m_bind, get, uuid4, gets, modify. simpl.
  destruct (_ || _); [done|]. by destruct (negb _).
Qed.
#[local] Hint Resolve kept_record_audit kept_flush kept_utcnow kept_add_decision kept_get_row
  kept_update_action kept_insert_action : pres.

Lemma kept_record_planned id t s r m : preserves K (_record_planned_action id t s r m).
Proof. unfold _record_planned_action. solve_pres. Qed.
Lemma kept_build_context id now : preserves K (build_policy_context id settings now).
Proof. unfold build_policy_context. solve_pres. Qed.
Lemma kept_select id : preserves K (_select_action id).
Proof. unfold _select_action. solve_pres. Qed.

(** ** The walk *)

(** An active case is past a step, at it, or moves to it. *)
Lemma active_not_past s : s ∈ active_statuses -> _already_past s POLICY_CHECK = false.
Proof.
  intros Hs. apply negb_true_iff. revert s Hs. apply forallb_elem. reflexivity.
Qed.
Lemma policy_check_past s : s ∈ active_statuses ->
  bool_decide (POLICY_CHECK = s) || _already_past POLICY_CHECK s = true.
Proof. revert s. apply forallb_elem. reflexivity. Qed.

(** A walk along active statuses stays among them, and ends at POLICY_CHECK when
    that is one of its steps. *)
Definition walked (id : UUID) (w : World) (c : RecoveryCase) (at_policy : Prop) (w' : World) : Prop :=
  exists c', w_cases w' !! id = Some c' /\ case_status c' ∈ active_statuses
    /\ (at_policy \/ case_status c = POLICY_CHECK -> case_status c' = POLICY_CHECK)
    /\ w_evaluations w' = w_evaluations w /\ w_approvals w' = w_approvals w.

Lemma returns_walk id steps w c :
  w_cases w !! id = Some c -> case_status c ∈ active_statuses ->
  (forall kv, kv ∈ steps -> kv.1 ∈ active_statuses) ->
  returns (walk_steps correlation_id actor_type id steps) w
    (fun _ => walked id w c (POLICY_CHECK ∈ steps.*1)).
Proof.
  revert w c. induction steps as [|[target summary] steps IH]; intros w c Hc Ha Hsteps.
  { apply returns_ret. exists c. split; [done|]. split; [done|]. split; [|done].
    intros [H|H]; [by apply not_elem_of_nil in H|done]. }
  assert (target ∈ active_statuses) as Ht by (apply (Hsteps (target, summary)); left).
  assert (forall kv, kv ∈ steps -> kv.1 ∈ active_statuses) as Hrest by (intros; apply Hsteps; by right).
  simpl. apply returns_get_row. intros c0 Hc0. simplify_eq.
  destruct (bool_decide (case_status c = target) || _already_past (case_status c) target) eqn:Hskip.
  - eapply returns_mono; [by apply (IH w c)|]. intros _ w' (c' & Hc' & Ha' & Hp & He).
    exists c'. split; [done|]. split; [done|]. split; [|done].
    intros [[<-|Hin]%elem_of_cons|H]; [|auto..]. apply Hp. right.
    rewrite (active_not_past _ Ha), orb_false_r in Hskip. by apply bool_decide_eq_true in Hskip.
  - destruct (bool_decide (case_status c = POLICY_CHECK)) eqn:Hpc.
    + apply bool_decide_eq_true in Hpc. rewrite Hpc, (policy_check_past _ Ht) in Hskip. done.
    + apply bool_decide_eq_false in Hpc.
      eapply returns_bind; [by apply (returns_transition _ _ _ w c)|].
      intros [] w1 (_ & Hw1 & He1 & Ha1).
      assert (w_cases w1 !! id = Some (moved target (w_clock w (w_ticks w)) c)) as Hc1
        by (by rewrite Hw1, lookup_insert_eq).
      eapply returns_mono; [by apply (IH w1 _ Hc1)|]. intros _ w' (c' & Hc' & Ha' & Hp & He' & Haw').
      exists c'. split; [done|]. split; [done|]. split; [|split; congruence].
      intros [[<-|Hin]%elem_of_cons|H]; [| |done]; apply Hp; [by right|by left].
Qed.

Lemma returns_walk_to_policy_check id w c :
  w_cases w !! id = Some c -> case_status c ∈ active_statuses ->
  returns (walk_to_policy_check correlation_id actor_type id) w
    (fun _ => walked id w c True).
Proof.
  intros Hc Ha. eapply returns_mono.
  - apply (returns_walk _ _ _ _ Hc Ha).
    apply (forallb_decide (fun kv => kv.1 ∈ active_statuses)). reflexivity.
  - intros _ w' (c' & Hc' & Ha' & Hp & He). exists c'. split; [done|]. split; [done|]. split; [|done].
    intros _. apply Hp. left. apply (bool_decide_unpack _). vm_compute. done.
Qed.

(** ** The evaluation *)

Lemma returns_insert_evaluation e w :
  returns (insert_evaluation e) w (fun _ w' =>
    w_cases w' = w_cases w /\ w_approvals w' = w_approvals w
    /\ exists eid, w_evaluations w !! eid = None /\ w_evaluations w' = <[eid := e]> (w_evaluations w)).
Proof.
  intros w' eid. unfold insert_evaluation, uuid4, mbind, m_bind, get, gets, modify. simpl.
  destruct (is_some _) eqn:Hn; [done|]. intros [= <- <-]. split; [done|]. split; [done|].
  eexists. split; [by apply is_some_false|done].
Qed.

Lemma returns_insert_approval a w :
  returns (insert_approval a) w (fun aid w' =>
    w_cases w' = w_cases w /\ w_evaluations w' = w_evaluations w /\ w_approvals w' !! aid = Some a).
Proof.
  intros w' aid. unfold insert_approval, uuid4, mbind, m_bind, get, gets, modify. simpl.
  destruct (is_some _); [done|]. intros [= <- <-]. simpl. by rewrite lookup_insert_eq.
Qed.

Lemma returns_kept {A} (m : Op A) w : preserves K m -> returns m w (fun _ w' => K w w').
Proof. apply returns_preserves. Qed.

(** What an evaluation leaves: one new row, which says what it returned. *)
Definition evaluated (id : UUID) (r : PolicyEvaluationResult) (w w' : World) : Prop :=
  w_cases w' = w_cases w
  /\ exists eid e, w_evaluations w !! eid = None /\ w_evaluations w' !! eid = Some e
     /\ evaluation_recovery_case_id e = Some id
     /\ evaluation_allowed e = result_allowed r
     /\ evaluation_requires_approval e = result_requires_approval r.

Lemma returns_evaluate ctx proposed w :
  returns (evaluate_and_persist ctx proposed None correlation_id actor_type None) w
    (fun r w' => evaluated (ctx_case_id ctx) r w w').
Proof.
  apply returns_lift. intros r _. eapply returns_bind; [|intros u w' H; by apply returns_ret, H].
  eapply returns_bind; [apply returns_kept, kept_utcnow|]. intros now w1 (Hc1 & He1 & _).
  eapply returns_bind; [apply returns_insert_evaluation|]. intros eid w2 (Hc2 & _ & i & Hn & Hi).
  eapply returns_bind; [apply returns_kept, kept_flush|]. intros [] w3 (Hc3 & He3 & _).
  eapply returns_bind; [apply returns_kept, kept_record_audit|]. intros [] w4 (Hc4 & He4 & _).
  apply returns_ret. split; [congruence|]. rewrite <- He1. eexists i, _. split; [done|].
  rewrite He4, He3, Hi, lookup_insert_eq. done.
Qed.

(** ** The three branches *)

(** A branch takes the case to [s], and only that changes. *)
Definition settles (id : UUID) (P : RecoveryCaseStatus -> Prop) (w w' : World) : Prop :=
  w_evaluations w' = w_evaluations w
  /\ exists c', w_cases w' !! id = Some c' /\ P (case_status c').

Lemma returns_block id action e w c :
  w_cases w !! id = Some c ->
  returns (block_case correlation_id actor_type id action e) w
    (fun _ => settles id (fun s => s = STOPPED \/ s = ESCALATED) w).
Proof.
  intros Hc. unfold block_case.
  eapply returns_bind; [apply returns_kept, kept_record_planned|]. intros _ w1 (Hc1 & He1 & _).
  eapply returns_bind; [apply returns_transition; by rewrite Hc1|]. intros [] w2 (_ & Hc2 & He2 & _).
  eapply returns_mono; [apply returns_kept, kept_flush|]. intros [] w3 (Hc3 & He3 & _).
  split; [congruence|]. eexists. rewrite Hc3, Hc2, lookup_insert_eq. split; [done|].
  simpl. destruct (_ || _); auto.
Qed.

Lemma returns_plan id action e w c :
  w_cases w !! id = Some c ->
  returns (plan_action correlation_id actor_type id action e) w
    (fun _ => settles id (fun s => s = ACTION_COMPLETED) w).
Proof.
  intros Hc. unfold plan_action.
  eapply returns_bind; [apply returns_kept, kept_record_planned|]. intros _ w1 (Hc1 & He1 & _).
  eapply returns_bind; [apply returns_transition; by rewrite Hc1|]. intros [] w2 (_ & Hc2 & He2 & _).
  eapply returns_bind; [apply returns_transition; by rewrite Hc2, lookup_insert_eq|].
  intros [] w3 (_ & Hc3 & He3 & _).
  eapply returns_mono; [apply returns_kept, kept_flush|]. intros [] w4 (Hc4 & He4 & _).
  split; [congruence|]. eexists. by rewrite Hc4, Hc3, lookup_insert_eq.
Qed.

Lemma returns_request id action ctx e w c :
  w_cases w !! id = Some c ->
  returns (request_approval correlation_id actor_type id action ctx e) w (fun _ w' =>
    settles id (fun s => s = AWAITING_APPROVAL) w w'
    /\ exists aid a, w_approvals w' !! aid = Some a
      /\ approval_recovery_case_id a = id /\ approval_status a = ApprovalStatus.PENDING).
Proof.
  intros Hc. unfold request_approval.
  eapply returns_bind; [apply returns_kept; solve_pres|]. intros payload w1 (Hc1 & He1 & _).
  eapply returns_bind; [apply returns_kept, kept_record_planned|]. intros aid w2 (Hc2 & He2 & _).
  apply returns_get_row. intros c2 _.
  eapply returns_bind; [apply returns_kept, kept_utcnow|]. intros now w3 (Hc3 & He3 & _).
  eapply returns_bind; [apply returns_insert_approval|]. intros pid w4 (Hc4 & He4 & Hp).
  eapply returns_bind; [apply returns_kept, kept_flush|]. intros [] w5 (Hc5 & He5 & Hp5).
  eapply returns_bind; [apply returns_kept, kept_update_action|]. intros [] w6 (Hc6 & He6 & Hp6).
  eapply returns_bind; [apply returns_transition; by rewrite Hc6, Hc5, Hc4, Hc3, Hc2, Hc1|].
  intros [] w7 (_ & Hc7 & He7 & Hp7).
  eapply returns_mono; [apply returns_kept, kept_flush|]. intros [] w8 (Hc8 & He8 & Hp8).
  split; [split; [congruence|]|].
  - eexists. by rewrite Hc8, Hc7, lookup_insert_eq.
  - eexists pid, _. by rewrite Hp8, Hp7, Hp6, Hp5, Hp.
Qed.

(** The context is built for the case it was asked for. *)
Lemma returns_build_context id w :
  returns (build_policy_context id settings None) w (fun ctx w' => K w w' /\ ctx_case_id ctx = id).
Proof.
  apply returns_and; [apply returns_kept, kept_build_context|]. unfold build_policy_context.
  eapply returns_bind; [apply returns_kept, kept_utcnow|]. intros now w1 _.
  apply returns_get_row. intros c _.
  match goal with |- returns (get ≫= ?f) ?w ?Q => change (returns (f w) w Q) end. simpl.
  destruct (MerchantRepository.get_merchant _ _) as [m|]; [|apply returns_throw].
  apply returns_lift. intros merged _. by apply returns_ret.
Qed.

(** A case in an active status: evaluated, then settled by the verdict. *)
Lemma returns_process_active id w c :
  w_cases w !! id = Some c -> case_status c ∈ active_statuses ->
  returns (process_locked_case settings correlation_id actor_type id) w (fun _ w' =>
    exists c', w_cases w' !! id = Some c' /\ decided id w w' (case_status c')).
Proof.
  intros Hc Ha. apply returns_get_row. intros c0 Hc0. simplify_eq.
  assert (terminal (case_status c) = false) as ->.
  { apply negb_true_iff. revert Ha. generalize (case_status c). by apply forallb_elem. }
  assert (bool_decide (case_status c ∈ waiting_statuses) = false) as ->.
  { apply negb_true_iff. revert Ha. generalize (case_status c). by apply forallb_elem. }
  eapply returns_bind; [by apply (returns_walk_to_policy_check _ _ c)|].
  intros [] w1 (c1 & Hc1 & _ & Hpol & He1 & _). specialize (Hpol (or_introl I)).
  apply returns_get_row. intros c1' Hc1'. simplify_eq.
  rewrite bool_decide_eq_true_2 by done. cbn [negb].
  eapply returns_bind; [apply returns_kept, kept_select|]. intros action w2 (Hc2 & He2 & _).
  eapply returns_bind; [apply returns_build_context|]. intros ctx w3 ((Hc3 & He3 & _) & Hid).
  eapply returns_bind; [apply returns_evaluate|].
  intros r w4 (Hc4 & eid & e & Hn & Heid & Hcase & Hall & Happ).
  assert (w_cases w4 !! id = Some c1) as Hw4 by congruence.
  assert (w_evaluations w !! eid = None) as Hfresh by congruence. rewrite Hid in Hcase.
  destruct (result_allowed r) eqn:Hallowed; simpl; [destruct (result_requires_approval r) eqn:Hreq|].
  - eapply returns_mono; [by apply (returns_request _ _ _ _ _ c1)|].
    intros _ w' [[He' (c' & Hc' & Hs)] Hp]. exists c'. split; [done|].
    exists eid, e. rewrite He', Hall, Happ. done.
  - eapply returns_mono; [by apply (returns_plan _ _ _ _ c1)|].
    intros _ w' [He' (c' & Hc' & Hs)]. exists c'. split; [done|].
    exists eid, e. rewrite He', Hall, Happ. done.
  - eapply returns_mono; [by apply (returns_block _ _ _ _ c1)|].
    intros _ w' [He' (c' & Hc' & Hs)]. exists c'. split; [done|].
    exists eid, e. rewrite He', Hall. done.
Qed.

(** Every other status is left alone. *)
Lemma process_parked id w c :
  w_cases w !! id = Some c -> terminal (case_status c) || bool_decide (case_status c ∈ waiting_statuses) = true ->
  process_locked_case settings correlation_id actor_type id w = (w, Ok tt).
Proof.
  intros Hc Hp. unfold process_locked_case. rewrite (bind_run _ _ _ _ _ (get_row_run _ _ _ _ Hc)).
  destruct (terminal (case_status c)); [done|]. simpl in Hp. by rewrite Hp.
Qed.
End Processor.

(** ** Properties *)

(** C34. Processing a case does nothing at all when the case is finished or waits for an
    event, a retry or a human; from every status up to the policy check a normal
    return leaves one new evaluation of that case, and the case STOPPED or ESCALATED
    when it denies the action, AWAITING_APPROVAL with a PENDING approval when it asks for
    one, and ACTION_COMPLETED only when it allows the action outright. *)
Theorem processing_follows_policy settings correlation_id actor_type id w c :
  w_cases w !! id = Some c ->
  (terminal (case_status c) = true \/ case_status c ∈ waiting_statuses ->
     process_locked_case settings correlation_id actor_type id w = (w, Ok tt))
  /\ (case_status c ∈ active_statuses -> forall w',
        process_locked_case settings correlation_id actor_type id w = (w', Ok tt) ->
        exists c', w_cases w' !! id = Some c' /\ decided id w w' (case_status c')).
Proof.
  intros Hc. split.
  - intros H. apply (process_parked _ _ _ _ _ _ Hc). apply orb_true_iff.
    rewrite bool_decide_eq_true. exact H.
  - intros Ha w' Hw'. by eapply (returns_process_active _ _ _ _ _ _ Hc Ha).
Qed.

(** Processing a case, whatever it returns or raises, touches no payment, and leaves
    the identity, the recovered amount and the verified payment and event of every case
    as they were: only verification credits money, and only it can make a case
    RECOVERED. *)
Theorem processing_moves_no_money settings correlation_id actor_type id w :
  let w' := final (process_locked_case settings correlation_id actor_type id) w in
  w_payments w' = w_payments w
  /\ forall i, option_Forall2 book_kept (w_cases w !! i) (w_cases w' !! i).
Proof.
  assert (frame w (final (process_locked_case settings correlation_id actor_type id) w)) as [Hp Hc _].
  { apply (runs_frame settings). eapply runs_mono; [apply processor_in_ensure|apply runs_process_locked_case]. }
  by split.
Qed.
