(* ===== verification/VerificationTheorems.v ===== *)
(** * What verification decides

    The reason [_evaluate] reports is true of the payment; a full match of a case
    that waits for it makes it RECOVERED; a payment already counted credits nothing;
    and a full match of a case in another waiting status is reported without being
    credited. *)
From S2P Require Import Prelude PyStr Uuid Errors Decimal Json Datetime Enums Rows Store Repositories StateMachine Transitions Config PolicyContext PolicyEngine VerificationTypes Events Processing Processor Verification Lifecycle Refinement VerificationProps ProcessorProps.
Open Scope stdpp_scope.

(** What each mismatch reason of [_evaluate] says of a payment. *)
Definition mismatch_holds (settings : RecoverySettings) (w : World) (id : UUID) (c : RecoveryCase)
  (pid : UUID) (p : Payment) (r : MismatchReason.t) : Prop :=
  match r with
  | MismatchReason.MERCHANT_MISMATCH => payment_merchant_id p <> case_merchant_id c
  | MismatchReason.CUSTOMER_MISMATCH => payment_customer_id p <> case_customer_id c
  | MismatchReason.ORDER_MISMATCH => exists o1 o2, orders_of c p w = Some (o1, o2) /\ o1 <> o2
  | MismatchReason.PAYMENT_MISMATCH =>
      (exists q, case_payment_id c = Some q /\ q <> pid)
      /\ orders_of c p w = None /\ linked_via_action id pid p w = false
  | MismatchReason.CURRENCY_MISMATCH => payment_currency p <> case_currency c
  | MismatchReason.NOT_CAPTURED =>
      payment_status p <> PaymentStatus.CAPTURED \/ payment_captured_at p = None
  | MismatchReason.OUTSIDE_RECOVERY_WINDOW =>
      exists t, payment_captured_at p = Some t
        /\ ~ (case_opened_at c - minutes (recovery_ordering_grace_minutes settings) <= t
              <= case_opened_at c + hours (recovery_window_hours settings))%Z
  | MismatchReason.AMOUNT_MISMATCH =>
      exists m, as_money (payment_amount p) = Ok m /\ dec_ltb ZERO m = false
  | _ => False
  end.

(** A payment that can be credited has none of the mismatches. *)
Lemma creditable_no_mismatch settings w id c pid p r :
  creditable settings w id c pid p -> ~ mismatch_holds settings w id c pid p r.
Proof.
  intros [H1 H2 H3 H4 H5 H6 (t & Ht & Hwin) (m & Hm & Hpos)]. destruct r; simpl; try tauto.
  - intros (o1 & o2 & Ho & Hne). by apply Hne, H4.
  - intros ((q & Hq & Hne) & Ho & Hl). rewrite Ho, Hl in H5. simpl in H5.
    destruct H5 as [?|[?|[?|?]]]; congruence.
  - intros (m' & Hm' & Hp). congruence.
  - intros (t' & Ht' & Hw). simplify_eq. done.
  - intros [?|?]; congruence.
Qed.

(** The result of a mismatch: nothing matched, nothing credited. *)
Definition reports (m : RecoveryMatchResult) (r : MismatchReason.t) : Prop :=
  m_mismatch_reason m = Some r /\ m_matched m = false /\ m_amount_recovered m = ZERO.

Lemma credit_result_cases id c pid p remaining m :
  credit_result id c pid p remaining = Ok m ->
  m_mismatch_reason m = None
  \/ reports m MismatchReason.AMOUNT_MISMATCH
     /\ exists x, as_money (payment_amount p) = Ok x /\ dec_ltb ZERO x = false.
Proof.
  unfold credit_result. destruct (as_money (payment_amount p)) as [captured|] eqn:Hcap; simpl; [|done].
  destruct (dec_leb captured ZERO) eqn:Hz.
  { intros [= <-]. right. split; [done|]. exists captured. by rewrite dec_ltb_leb, Hz. }
  destruct (as_money (case_amount_at_risk c)) as [at_risk|]; simpl; [|done].
  destruct (if dec_ltb at_risk captured then _ else _) as [over|]; simpl; [|done].
  destruct (as_money (dec_sub at_risk _)); simpl; [|done]. intros [= <-]. by left.
Qed.

(** Either no mismatch is reported, or one that holds. *)
Lemma evaluate_cases settings id c pid p w m :
  _evaluate settings id c pid p w = Ok m ->
  m_mismatch_reason m = None
  \/ exists r, reports m r /\ mismatch_holds settings w id c pid p r.
Proof.
  unfold _evaluate. destruct (as_money (dec_sub _ _)) as [remaining|]; simpl; [|done].
  assert (forall r d, @Ok exn _ (_mismatch id c pid r remaining d) = Ok m ->
    mismatch_holds settings w id c pid p r ->
    m_mismatch_reason m = None \/ exists r, reports m r /\ mismatch_holds settings w id c pid p r) as Hmis.
  { intros r d [= <-] Hh. right. by exists r. }
  destruct (same (payment_merchant_id p) _) eqn:H1; simpl.
  2:{ intros H. apply (Hmis _ _ H). simpl. intros E. by rewrite E, same_refl in H1. }
  destruct (same (payment_customer_id p) _) eqn:H2; simpl.
  2:{ intros H. apply (Hmis _ _ H). simpl. intros E. by rewrite E, same_refl in H2. }
  destruct (orders_of c p w) as [[o1 o2]|] eqn:Ho; simpl.
  1: destruct (String.eqb_spec o1 o2) as [->|Hne]; simpl;
    [|intros H; apply (Hmis _ _ H); by exists o1, o2].
  all: destruct (case_payment_id c) as [q|] eqn:Hq; simpl; rewrite ?andb_false_r; simpl.
  3: destruct (same pid q) eqn:Hpq; simpl; [|destruct (linked_via_action id pid p w) eqn:Hl; simpl].
  5:{ intros H. apply (Hmis _ _ H). simpl. split; [|done]. exists q. split; [done|].
      intros ->. by rewrite same_refl in Hpq. }
  all: destruct (String.eqb_spec (payment_currency p) (case_currency c)); simpl;
    [|intros H; by apply (Hmis _ _ H)].
  all: destruct (same (payment_status p) _) eqn:H6; simpl;
    [|intros H; apply (Hmis _ _ H); left; intros E; by rewrite E, same_refl in H6].
  all: destruct (payment_captured_at p) as [t|] eqn:Ht; simpl; [|intros H; apply (Hmis _ _ H); by right].
  all: destruct (_inside_window settings c p) eqn:Hw; simpl;
    [|intros H; apply (Hmis _ _ H); exists t; split; [done|]; unfold _inside_window in Hw;
      rewrite Ht in Hw; apply andb_false_iff in Hw; rewrite !Z.leb_gt in Hw; lia].
  all: intros [H|[H Hx]]%credit_result_cases; [by left|right; by exists MismatchReason.AMOUNT_MISMATCH].
Qed.

(** ** Running the service *)

Lemma lock_run id w c : w_cases w !! id = Some c -> lock_recovery_case id w = (w, Ok id).
Proof.
  intros Hc. unfold lock_recovery_case, mbind, m_bind, get, lift, RecoveryCaseRepository.get_case_for_update.
  by rewrite Hc.
Qed.

Lemma returns_get {A} (f : World -> Op A) w Q : returns (f w) w Q -> returns (get ≫= f) w Q.
Proof. done. Qed.

Section Service.
Context (settings : RecoverySettings) (correlation_id : option string) (actor_type : string).
Notation verify_case := (verify_case settings correlation_id actor_type).

(** [verify_case] for a payment the store knows, on a case that is not STOPPED. *)
Lemma verify_case_known id pid hook w c p :
  w_cases w !! id = Some c -> case_status c <> STOPPED -> w_payments w !! pid = Some p ->
  verify_case id (Some pid) hook w =
    (duplicate ← lift (_duplicate_or_already_counted id c pid hook w);
     match duplicate with
     | Some d => _audit_no_credit correlation_id actor_type id pid d;; flush;; mret d
     | None => verify_payment settings correlation_id actor_type id pid hook
     end) w.
Proof.
  intros Hc Hs Hp. unfold Verification.verify_case.
  rewrite (bind_run _ _ _ _ _ (lock_run _ _ _ Hc)), (bind_run _ _ _ _ _ (get_row_run _ _ _ _ Hc)).
  rewrite bool_decide_eq_false_2 by done.
  unfold gets, mbind, m_bind, get, _resolve_payment. simpl. by rewrite Hp.
Qed.

Lemma no_credit_cases id c pid r d :
  (exists e, no_credit id c pid r d = Raise e)
  \/ exists m, no_credit id c pid r d = Ok m /\ m_matched m = false /\ m_mismatch_reason m = Some r.
Proof.
  unfold no_credit. destruct (as_money (case_amount_recovered c)); simpl; [|left; eauto].
  destruct (as_money (dec_sub _ _)); simpl; [right|left]; eauto.
Qed.

(** A payment the case already counted, or whose capture event it has verified. *)
Definition already_counted (c : RecoveryCase) (pid : UUID) (hook : option UUID) : Prop :=
  case_verified_payment_id c = Some pid
  \/ is_some hook = true /\ case_verified_webhook_event_id c = hook.

Lemma duplicate_cases id c pid hook w :
  already_counted c pid hook ->
  (exists e, _duplicate_or_already_counted id c pid hook w = Raise e)
  \/ exists m, _duplicate_or_already_counted id c pid hook w = Ok (Some m) /\ m_matched m = false
       /\ (m_mismatch_reason m = Some MismatchReason.DUPLICATE_EVENT
           \/ m_mismatch_reason m = Some MismatchReason.ALREADY_COUNTED).
Proof.
  intros Hac. unfold _duplicate_or_already_counted.
  destruct (is_some hook && same (case_verified_webhook_event_id c) hook) eqn:Hd.
  { destruct (no_credit_cases id c pid MismatchReason.DUPLICATE_EVENT "same capture event already verified")
      as [[e ->]|(m & -> & Hm & Hr)]; [left; by exists e|right; exists m; auto]. }
  destruct Hac as [Hv|[Hi Hv]]; [|by rewrite Hi, Hv, same_refl in Hd].
  rewrite Hv, same_refl.
  destruct (no_credit_cases id c pid MismatchReason.ALREADY_COUNTED
    "this payment was already counted toward the case")
    as [[e ->]|(m & -> & Hm & Hr)]; [left; by exists e|right; exists m; auto].
Qed.

Lemma audit_no_credit_run id pid d w c :
  w_cases w !! id = Some c ->
  exists w', _audit_no_credit correlation_id actor_type id pid d w = (w', Ok tt)
    /\ w_payments w' = w_payments w
    /\ w_cases w' = <[id := set_case_last_mismatch_reason (value <$> m_mismatch_reason d) c]> (w_cases w).
Proof.
  intros Hc. unfold _audit_no_credit. erewrite bind_run by reflexivity.
  erewrite bind_run.
  2:{ apply get_row_run. simpl. rewrite lookup_alter_eq, Hc. reflexivity. }
  unfold case_audit. rewrite record_audit_run. eexists. split; [reflexivity|]. split; [done|].
  simpl. by rewrite (alter_as_insert _ _ _ _ Hc).
Qed.

(** The store and the result of verifying a payment that already counted. *)
Lemma verify_counted id pid hook w c p w' r :
  w_cases w !! id = Some c -> case_status c <> STOPPED -> w_payments w !! pid = Some p ->
  already_counted c pid hook -> verify_case id (Some pid) hook w = (w', r) ->
  w_payments w' = w_payments w
  /\ (exists reason, w_cases w' = <[id := set_case_last_mismatch_reason reason c]> (w_cases w))
  /\ (forall m, r = Ok m -> m_matched m = false
        /\ (m_mismatch_reason m = Some MismatchReason.DUPLICATE_EVENT
            \/ m_mismatch_reason m = Some MismatchReason.ALREADY_COUNTED)).
Proof.
  intros Hc Hs Hp Hac. rewrite (verify_case_known _ _ _ _ _ _ Hc Hs Hp).
  assert (<[id := set_case_last_mismatch_reason (case_last_mismatch_reason c) c]> (w_cases w) = w_cases w)
    as Hsame by (apply insert_id; rewrite Hc; by destruct c).
  destruct (duplicate_cases id c pid hook w Hac) as [[e He]|(d & Hd & Hm & Hr)].
  - rewrite He. intros [= <- <-]. split; [done|]. split; [by eexists|]. done.
  - rewrite Hd. destruct (audit_no_credit_run id pid d w c Hc) as (w1 & H1 & Hp1 & Hc1).
    change (lift _ ≫= ?f) with (f (Some d)). cbv beta iota.
    rewrite (bind_run _ _ _ _ _ H1). unfold mbind, m_bind. rewrite flush_run.
    destruct (db_checks w1); intros [= <- <-]; (split; [done|]); (split; [by eexists|]).
    + intros m [= <-]. auto.
    + done.
Qed.

(** ** A full match *)

(** The payment can be credited to the case, covers its amount at risk, and has not
    been counted. *)
Record full_match (w : World) (id : UUID) (c : RecoveryCase) (pid : UUID) (p : Payment)
  (hook : option UUID) (at_risk : Decimal) : Prop := {
  fm_creditable : creditable settings w id c pid p;
  fm_at_risk : as_money (case_amount_at_risk c) = Ok at_risk;
  fm_covers : exists captured, as_money (payment_amount p) = Ok captured /\ dec_leb at_risk captured = true;
  fm_new : ~ already_counted c pid hook;
  fm_elsewhere : counted_elsewhere id c pid w = false;
}.

Lemma full_match_not_duplicate w id c pid p hook at_risk :
  full_match w id c pid p hook at_risk -> _duplicate_or_already_counted id c pid hook w = Ok None.
Proof.
  intros [_ _ _ Hn He]. unfold _duplicate_or_already_counted.
  destruct (is_some hook && same (case_verified_webhook_event_id c) hook) eqn:Hd.
  { exfalso. apply Hn. right. apply andb_true_iff in Hd as [? ?%same_eq]. done. }
  destruct (same (case_verified_payment_id c) (Some pid)) eqn:Hv.
  { exfalso. apply Hn. left. by apply same_eq. }
  by rewrite He.
Qed.

Lemma full_match_evaluates w id c pid p hook at_risk m :
  full_match w id c pid p hook at_risk -> _evaluate settings id c pid p w = Ok m ->
  m_matched m = true /\ m_mismatch_reason m = None /\ m_amount_recovered m = at_risk.
Proof.
  intros [Hcr Hrisk (cap & Hcap & Hle) _ _] Hm.
  destruct (evaluate_cases _ _ _ _ _ _ _ Hm) as [Hn|(r & _ & Hr)];
    [|by apply (creditable_no_mismatch _ _ _ _ _ _ r) in Hcr].
  destruct (evaluate_none _ _ _ _ _ _ _ Hm Hn) as (_ & cap' & risk' & Hcap' & Hrisk' & Hmt & Ha & _).
  rewrite Hcap in Hcap'. injection Hcap' as <-. rewrite Hrisk in Hrisk'. injection Hrisk' as <-.
  rewrite Hmt, Ha. split; [done|]. split; [done|].
  symmetry. by apply (dec_min_money _ _ _ _ Hcap Hrisk).
Qed.

(** A case that is ready: waiting for its verification. *)
Definition ready (c : RecoveryCase) : Prop := case_status c = VERIFYING \/ case_status c = ACTION_COMPLETED.

(** Starting the verification of a ready case only moves it to VERIFYING. *)
Lemma returns_ensure_ready id w c :
  w_cases w !! id = Some c -> ready c ->
  returns (_ensure_verifying settings correlation_id actor_type id) w (fun _ w' =>
    exists c', w_cases w' !! id = Some c' /\ case_status c' = VERIFYING
      /\ case_book c' = case_book c).
Proof.
  intros Hc Hr. apply returns_get_row. intros c0 Hc0. simplify_eq.
  destruct Hr as [Hs|Hs]; rewrite Hs.
  { apply returns_ret. by exists c. }
  rewrite !bool_decide_eq_false_2 by done. rewrite bool_decide_eq_true_2 by done.
  change (when false ?m ≫= ?f) with (f tt). cbv beta.
  apply returns_get_row. intros c0 Hc0. simplify_eq. rewrite bool_decide_eq_true_2 by done.
  eapply returns_mono; [by apply returns_transition|]. intros _ w' (_ & Hw' & _).
  eexists. rewrite Hw', lookup_insert_eq. done.
Qed.

Lemma returns_apply_success id pid m hook w c at_risk :
  w_cases w !! id = Some c -> case_status c = VERIFYING -> m_amount_recovered m = at_risk ->
  as_money (case_amount_at_risk c) = Ok at_risk ->
  returns (_apply_success correlation_id actor_type id pid m hook) w (fun _ w' =>
    exists c', w_cases w' !! id = Some c' /\ case_status c' = RECOVERED
      /\ case_identity c' = case_identity c /\ case_amount_recovered c' = at_risk
      /\ case_verified_payment_id c' = Some pid /\ case_verified_webhook_event_id c' = hook).
Proof.
  intros Hc Hs Hm Hrisk. apply returns_get_row. intros c0 Hc0. simplify_eq.
  rewrite bool_decide_eq_true_2 by done. cbn [negb].
  apply returns_lift. intros prev _. apply returns_lift. intros credited Hcred.
  rewrite (as_money_idemp _ _ Hrisk) in Hcred. injection Hcred as <-.
  apply returns_lift. intros risk Hrisk'. rewrite Hrisk in Hrisk'. injection Hrisk' as <-.
  destruct (dec_ltb _ _); [apply returns_throw|].
  set (c1 := set_case_last_mismatch_reason None (credit (m_amount_recovered m) (Some pid) hook c)).
  eapply (returns_bind _ _ _ _ (fun _ w1 => w1 = set_w_cases (<[id := credit (m_amount_recovered m) (Some pid) hook c]> (w_cases w)) w)).
  { intros w1 [] [= <-]. by rewrite (alter_as_insert _ _ _ _ Hc). }
  intros [] w1 ->.
  eapply (returns_bind _ _ _ _ (fun _ w2 => w_cases w2 !! id = Some c1)).
  { intros w2 [] [= <-]. simpl. by rewrite lookup_alter_eq, lookup_insert_eq. }
  intros [] w2 Hw2.
  eapply (returns_bind _ _ _ _ (fun _ w3 => w_cases w3 !! id = Some c1)).
  { intros w3 [] Hw3. destruct (negb _) in Hw3; simpl in Hw3; [|by injection Hw3 as <-].
    unfold case_audit in Hw3. rewrite record_audit_run in Hw3. by injection Hw3 as <-. }
  intros [] w3 Hw3. eapply returns_mono; [by apply returns_transition|].
  intros _ w4 (_ & Hw4 & _). eexists. rewrite Hw4, lookup_insert_eq. done.
Qed.

(** Verifying a full match of a ready case recovers it. *)
Lemma returns_verify_full id pid hook w c p at_risk :
  w_cases w !! id = Some c -> w_payments w !! pid = Some p -> ready c ->
  full_match w id c pid p hook at_risk ->
  returns (verify_case id (Some pid) hook) w (fun m w' =>
    m_matched m = true /\ m_amount_recovered m = at_risk
    /\ exists c', w_cases w' !! id = Some c' /\ case_status c' = RECOVERED
      /\ case_identity c' = case_identity c /\ case_amount_recovered c' = at_risk
      /\ case_verified_payment_id c' = Some pid /\ case_verified_webhook_event_id c' = hook).
Proof.
  intros Hc Hp Hr Hf w' m.
  assert (case_status c <> STOPPED /\ case_status c <> RECOVERED) as [Hns Hnr]
    by (destruct Hr as [-> | ->]; done).
  rewrite (verify_case_known _ _ _ _ _ _ Hc Hns Hp), (full_match_not_duplicate _ _ _ _ _ _ _ Hf).
  change ((lift ?r ≫= ?f) w) with (f (@None RecoveryMatchResult) w). cbv beta iota. revert w' m.
  apply returns_get_row. intros c0 Hc0. apply returns_get_row. intros p0 Hp0. simplify_eq.
  apply returns_get, returns_lift. intros m Hm.
  destruct (full_match_evaluates _ _ _ _ _ _ _ _ Hf Hm) as (Hmt & _ & Hamt).
  rewrite bool_decide_eq_false_2 by done.
  eapply returns_bind; [by apply returns_ensure_ready|]. intros [] w1 (c1 & Hc1 & Hs1 & Hb1).
  simpl. rewrite Hmt. pose proof (book_eqs _ _ Hb1) as (_ & _ & _ & _ & _ & Hrisk & _).
  eapply returns_bind.
  { eapply (returns_apply_success _ _ _ _ _ c1 at_risk); [done..|].
    rewrite Hrisk. apply Hf. }
  intros [] w2 (c2 & Hc2 & Hs2 & Hi2 & Ha2 & Hv2).
  eapply returns_bind; [apply (returns_kept _ w2), kept_flush|]. intros [] w3 (Hc3 & _).
  apply returns_ret. split; [done|]. split; [done|]. exists c2. rewrite Hc3.
  assert (case_identity c1 = case_identity c) by (unfold case_book in Hb1; congruence).
  split; [done|]. split; [done|]. split; [congruence|done].
Qed.

(** The waiting statuses a verification cannot start from. *)
Definition stuck (c : RecoveryCase) : Prop :=
  case_status c ∈ [NOT_RECOVERED; RETRY_SCHEDULED; FAILED; ESCALATED; AWAITING_APPROVAL].

Lemma verify_stuck id pid hook w c p at_risk w' m :
  w_cases w !! id = Some c -> w_payments w !! pid = Some p -> stuck c ->
  full_match w id c pid p hook at_risk ->
  verify_case id (Some pid) hook w = (w', Ok m) -> w' = w /\ m_matched m = true /\ m_amount_recovered m = at_risk.
Proof.
  intros Hc Hp Hst Hf.
  assert (case_status c <> STOPPED) as Hns by (revert Hst; apply (forallb_decide (fun s => s <> STOPPED)); reflexivity).
  assert (case_status c <> RECOVERED) as Hnr by (revert Hst; apply (forallb_decide (fun s => s <> RECOVERED)); reflexivity).
  assert (case_status c <> VERIFYING) as Hnv by (revert Hst; apply (forallb_decide (fun s => s <> VERIFYING)); reflexivity).
  assert (case_status c <> ACTION_COMPLETED) as Hna by (revert Hst; apply (forallb_decide (fun s => s <> ACTION_COMPLETED)); reflexivity).
  assert (case_status c ∈ waiting_statuses) as Hw by (revert Hst; apply (forallb_decide (fun s => s ∈ waiting_statuses)); reflexivity).
  rewrite (verify_case_known _ _ _ _ _ _ Hc Hns Hp), (full_match_not_duplicate _ _ _ _ _ _ _ Hf).
  change ((lift ?r ≫= ?f) w) with (f (@None RecoveryMatchResult) w). cbv beta iota.
  unfold verify_payment. rewrite (bind_run _ _ _ _ _ (get_row_run _ _ _ _ Hc)).
  rewrite (bind_run _ _ _ _ _ (get_row_run _ _ _ _ Hp)).
  change ((get ≫= ?f) w) with (f w w). cbv beta.
  destruct (_evaluate settings id c pid p w) as [r|e] eqn:Hm; [|done].
  destruct (full_match_evaluates _ _ _ _ _ _ _ _ Hf Hm) as (Hmt & _ & Hamt).
  change ((lift _ ≫= ?f) w) with (f r w). cbv beta zeta.
  rewrite bool_decide_eq_false_2 by done.
  assert (_ensure_verifying settings correlation_id actor_type id w = (w, Ok tt)) as He.
  { unfold _ensure_verifying. rewrite (bind_run _ _ _ _ _ (get_row_run _ _ _ _ Hc)).
    rewrite !bool_decide_eq_false_2 by done. cbn [negb when].
    rewrite (bind_run _ _ _ _ _ (process_parked settings correlation_id actor_type id w c Hc
      (orb_true_intro _ _ (or_intror (bool_decide_eq_true_2 _ Hw))))).
    rewrite (bind_run _ _ _ _ _ (get_row_run _ _ _ _ Hc)). by rewrite bool_decide_eq_false_2. }
  rewrite (bind_run _ _ _ _ _ He). simpl. rewrite Hmt.
  assert (_apply_success correlation_id actor_type id pid (set_m_payment_id (Some pid) r) hook w = (w, Ok tt)) as Ha.
  { unfold _apply_success. rewrite (bind_run _ _ _ _ _ (get_row_run _ _ _ _ Hc)).
    by rewrite bool_decide_eq_false_2. }
  rewrite (bind_run _ _ _ _ _ Ha). unfold mbind, m_bind. rewrite flush_run.
  destruct (db_checks w); [|done]. intros [= <- <-]. done.
Qed.
End Service.

(** ** Properties *)


(** Verification is idempotent: a payment the case has already counted, or a
    capture event it has already verified, changes at most the note of the last mismatch,
    and every normal return says so. *)
Theorem counted_payment_credits_nothing settings correlation_id actor_type id pid hook w c p w' r :
  w_cases w !! id = Some c -> case_status c <> STOPPED -> w_payments w !! pid = Some p ->
  already_counted c pid hook ->
  verify_case settings correlation_id actor_type id (Some pid) hook w = (w', r) ->
  w_payments w' = w_payments w
  /\ (exists reason, w_cases w' = <[id := set_case_last_mismatch_reason reason c]> (w_cases w))
  /\ (forall m, r = Ok m -> m_matched m = false
        /\ (m_mismatch_reason m = Some MismatchReason.DUPLICATE_EVENT
            \/ m_mismatch_reason m = Some MismatchReason.ALREADY_COUNTED)).
Proof. apply verify_counted. Qed.


(** The same full match of a case that is NOT_RECOVERED, RETRY_SCHEDULED, FAILED,
    ESCALATED or AWAITING_APPROVAL is reported as matched and recovered, while the store
    is left exactly as it was: nothing is credited to the case. *)
Theorem stuck_case_is_not_credited settings correlation_id actor_type id pid hook w c p at_risk w' m :
  w_cases w !! id = Some c -> w_payments w !! pid = Some p ->
  case_status c ∈ [NOT_RECOVERED; RETRY_SCHEDULED; FAILED; ESCALATED; AWAITING_APPROVAL] ->
  full_match settings w id c pid p hook at_risk ->
  verify_case settings correlation_id actor_type id (Some pid) hook w = (w', Ok m) ->
  w' = w /\ m_matched m = true /\ m_amount_recovered m = at_risk.
Proof. intros Hc Hp Hst Hf. by apply (verify_stuck settings _ _ _ _ _ _ c p). Qed.
