(* ===== verification/ProcessingProps.v ===== *)
(** * Event processing refines the abstract system

    The handlers and [process_webhook_event] as runs of the abstract system,
    under the rely condition that other transactions are runs of it too and do not
    touch the locked webhook row; then what processing does to payments and to the
    webhook row. *)
From S2P Require Import Prelude PyStr Uuid Errors Decimal Json Datetime Enums Rows Store Repositories StateMachine Transitions Config VerificationTypes Events Processing Processor Verification Lifecycle Refinement.
Open Scope stdpp_scope.

(** The statuses a provider event gives a payment. *)
Definition event_statuses : list PaymentStatus.t :=
  [PaymentStatus.FAILED; PaymentStatus.CAPTURED; PaymentStatus.REFUNDED; PaymentStatus.CANCELLED;
   PaymentStatus.AUTHORIZED; PaymentStatus.CREATED].

Lemma apply_event_status event status p :
  payment_status (apply_event event status p) =
    if same status PaymentStatus.CAPTURED then PaymentStatus.CAPTURED
    else if _is_status_downgrade (payment_status p) status then payment_status p else status.
Proof.
  unfold apply_event. cbv zeta.
  by destruct (same status PaymentStatus.CAPTURED), (_is_status_downgrade _ status),
    (same status PaymentStatus.FAILED).
Qed.

Lemma apply_event_evolves event status p :
  status ∈ event_statuses -> payment_evolves p (apply_event event status p).
Proof.
  intros Hs. split.
  - unfold apply_event. cbv zeta.
    by destruct (same status PaymentStatus.CAPTURED), (_is_status_downgrade _ status),
      (same status PaymentStatus.FAILED).
  - rewrite apply_event_status. destruct (payment_status p), status; try done;
      exfalso; revert Hs; apply (bool_decide_eq_false_1 (_ ∈ event_statuses)); reflexivity.
  - destruct (decide (status = PaymentStatus.CAPTURED)) as [->|Hne].
    + right. by rewrite apply_event_status.
    + left. unfold apply_event. cbv zeta.
      assert (same status PaymentStatus.CAPTURED = false) as -> by (by apply bool_decide_eq_false).
      by destruct (_is_status_downgrade _ status), (same status PaymentStatus.FAILED).
Qed.

Section Handlers.
Context (settings : RecoverySettings).
Notation R := (runs settings HANDLER).

Lemma runs_worker_audit m ty s a ci ps ns co md :
  preserves R (worker_audit m ty s a ci ps ns co md).
Proof. apply runs_record_audit; solve_label. Qed.
#[local] Hint Resolve runs_worker_audit : pres.

Lemma runs_add_attempt pid event status : preserves R (_add_attempt pid event status).
Proof.
  intros w. eapply (runs_step _ _ L_attempt); [solve_label|].
  apply step_attempt. by apply next_attempt_free.
Qed.
#[local] Hint Resolve runs_add_attempt : pres.

Lemma runs_update_payment id event status :
  status ∈ event_statuses -> preserves R (update_payment id (apply_event event status)).
Proof.
  intros Hs w. unfold final, update_payment, modify. simpl.
  destruct (w_payments w !! id) as [p|] eqn:Hp.
  - rewrite (alter_as_insert _ _ _ _ Hp). eapply (runs_step _ _ L_payment); [solve_label|].
    eapply step_payment; [done|by apply apply_event_evolves].
  - rewrite alter_None by done. destruct w. reflexivity.
Qed.
#[local] Hint Resolve runs_update_payment : pres.

Lemma runs_find_or_create event status :
  status ∈ event_statuses -> preserves R (_find_or_create_payment event status).
Proof. intros Hs. unfold _find_or_create_payment, _resolve_customer. solve_pres. Qed.
End Handlers.

(** Steps of other transactions may interleave, but the webhook row this one
    has locked stays as it is. *)
Definition locked_runs (settings : RecoverySettings) (hook : UUID) : relation World :=
  fun w w' => runs settings ALL w w' /\ w_webhooks w' !! hook = w_webhooks w !! hook.

#[export] Instance locked_preorder settings hook : PreOrder (locked_runs settings hook).
Proof.
  split; [by intros w|]. intros x y z [H1 E1] [H2 E2].
  split; [by transitivity y|congruence].
Qed.

Lemma handler_webhooks settings w w' :
  runs settings HANDLER w w' -> w_webhooks w' = w_webhooks w.
Proof.
  apply (runs_ind _ _ (unchanged w_webhooks)).
  intros l x y Hl Hs. destruct Hs; try done; refute_label Hl.
Qed.

Lemma handler_in_all : HANDLER ⊆ ALL.
Proof. unfold HANDLER, ALL, VERIFIER, PROCESSOR. set_solver. Qed.

Lemma preserves_locked {E A} settings hook (m : M World E A) :
  preserves (runs settings HANDLER) m -> preserves (locked_runs settings hook) m.
Proof.
  intros Hm w. split; [eapply runs_mono; [apply handler_in_all|apply Hm]|].
  by rewrite (handler_webhooks settings w (final m w)).
Qed.

Lemma from_try {E A} (R : relation World) `{!PreOrder R} (m : M World E A) h w :
  preserves_from R m w ->
  (forall e w', m w = (w', Raise e) -> preserves_from R (h e) w') ->
  preserves_from R (try_except m h) w.
Proof.
  unfold preserves_from, final, try_except. intros Hm Hh.
  destruct (m w) as [w' [a|e]] eqn:H; simpl in *; [done|]. etrans; [exact Hm|]. by apply Hh.
Qed.

Section Hook.
Context (settings : RecoverySettings) (hook : UUID).

(** ** The webhook row *)

(** Assigning a row that is not final, its identity kept. *)
Lemma runs_update_webhook row f w :
  w_webhooks w !! hook = Some row -> hook_final row = false ->
  hook_identity (f row) = hook_identity row ->
  runs settings ALL w (final (update_webhook hook f) w).
Proof using.
  intros Hr Hf Hi. unfold final, update_webhook, modify. simpl.
  rewrite (alter_as_insert _ _ _ _ Hr). eapply (runs_step _ _ L_webhook); [|by eapply step_webhook].
  unfold ALL, VERIFIER, PROCESSOR. set_solver.
Qed.

Lemma runs_all_audit m ty s a w : runs settings ALL w (final (record_audit m ty s a) w).
Proof using settings.
  apply runs_record_audit; unfold ALL, VERIFIER, PROCESSOR; set_solver.
Qed.

Lemma runs_mark_failure exc dead row w :
  w_webhooks w !! hook = Some row -> hook_final row = false ->
  preserves_from (runs settings ALL) (_mark_failure hook exc dead) w.
Proof using.
  intros Hr Hf. unfold _mark_failure. apply from_bind; [apply _| |].
  - by eapply runs_update_webhook.
  - intros [] w' _. apply from_get_row; [apply _|]. intros r _. apply runs_all_audit.
Qed.

Lemma runs_finish row r jobs w :
  w_webhooks w !! hook = Some row -> hook_final row = false ->
  preserves_from (runs settings ALL) (finish_processing hook r jobs) w.
Proof using.
  intros Hr Hf. unfold finish_processing. apply from_bind; [apply _| |].
  - apply runs_utcnow. unfold ALL, VERIFIER, PROCESSOR. set_solver.
  - intros t w1 [= <- <-]. apply from_bind; [apply _|by eapply runs_update_webhook|].
    intros [] w2 _. apply from_bind; [apply _|apply runs_all_audit|].
    intros [] w3 _. by apply from_ret, _.
Qed.

(** [finish_processing] always returns. *)
Lemma finish_returns r jobs w :
  outcome (finish_processing hook r jobs) w = Ok (mk_ProcessResult "processed" hook (map as_dict jobs)).
Proof using. reflexivity. Qed.

Lemma runs_mark_dead_letter error :
  preserves (runs settings ALL) (mark_dead_letter hook error).
Proof using.
  intros w. apply from_gets; [apply _|].
  destruct (w_webhooks w !! hook) as [row|] eqn:Hr; [|apply from_ret, _].
  destruct (hook_status row) eqn:Hst; try (unfold preserves_from; reflexivity);
    (apply from_bind; [apply _|eapply runs_update_webhook;
       [done|unfold hook_final; by rewrite Hst|done]|]; intros [] w' _; apply runs_all_audit).
Qed.
End Hook.

Section Process.
Context (settings : RecoverySettings) (concurrent : World -> World) (hook : UUID).
Context (Hrely : forall w, runs settings ALL w (concurrent w)).
Context (Hlocked : forall w, w_webhooks (concurrent w) !! hook = w_webhooks w !! hook).
Notation R := (locked_runs settings hook).

Lemma runs_concurrent : preserves R (modify concurrent : Op unit).
Proof using All. intros w. split; [apply Hrely|apply Hlocked]. Qed.
#[local] Hint Resolve runs_concurrent : pres.

(** Everything a handler does by itself. *)
#[local] Hint Extern 4 (preserves (locked_runs _ _) _) =>
  (apply preserves_locked; solve [eauto 3 with pres]) : pres.
#[local] Hint Resolve runs_worker_audit runs_find_or_create : pres.

Lemma runs_insert_nested event pid p id now :
  preserves R (insert_case_nested concurrent (new_case event pid p id now)).
Proof using All.
  unfold insert_case_nested. solve_pres. apply preserves_locked. by apply runs_insert_case; try solve_label.
Qed.
#[local] Hint Resolve runs_insert_nested : pres.

Lemma runs_create_or_attach id event pid :
  preserves R (_create_or_attach_recovery_case concurrent id event pid).
Proof using All. unfold _create_or_attach_recovery_case. solve_pres. Qed.
#[local] Hint Resolve runs_create_or_attach : pres.

Lemma runs_dispatch id row e : preserves R (_dispatch concurrent id row e).
Proof using All.
  unfold _dispatch, _handle_payment_failed, _handle_payment_captured, _handle_payment_refunded,
    _handle_payment_status. solve_pres.
Qed.
#[local] Hint Resolve runs_dispatch : pres.

Lemma runs_normalize_and_dispatch id row :
  preserves R (normalize_and_dispatch concurrent id row).
Proof using All. unfold normalize_and_dispatch. solve_pres. Qed.

(** The body of the [try]: a run, which raises only while the row is open. *)
Lemma process_body_runs row w :
  w_webhooks w !! hook = Some row -> hook_final row = false ->
  runs settings ALL w (final (process_body concurrent hook) w)
  /\ forall w' e, process_body concurrent hook w = (w', Raise e) -> w_webhooks w' !! hook = Some row.
Proof using All.
  intros Hr Hf.
  pose proof (runs_normalize_and_dispatch hook row w) as [H1 H2].
  split.
  - apply from_get_row; [apply _|]. intros r Hr'. simplify_eq.
    apply from_bind; [apply _|exact H1|]. intros jobs w1 Hj.
    unfold final in H2. rewrite Hj in H2. eapply runs_finish; [|exact Hf].
    by etransitivity; [exact H2|].
  - intros w' e He. unfold process_body in He.
    rewrite (bind_run _ _ _ _ _ (get_row_run _ _ _ _ Hr)) in He. unfold final in H2.
    destruct (normalize_and_dispatch concurrent hook row w) as [w1 [jobs|e1]] eqn:Hj.
    + exfalso. rewrite (bind_run _ _ _ _ _ Hj) in He.
      pose proof (finish_returns hook row jobs w1) as Ho. unfold outcome in Ho. by rewrite He in Ho.
    + rewrite (bind_raise _ _ _ _ _ Hj) in He. injection He as <- <-. by rewrite <- Hr.
Qed.

Lemma runs_process_webhook_event :
  preserves (runs settings ALL) (process_webhook_event concurrent hook).
Proof using All.
  intros w. apply from_gets; [apply _|].
  destruct (w_webhooks w !! hook) as [row|] eqn:Hr; [|apply from_throw, _].
  assert (hook_final row = false -> preserves_from (runs settings ALL)
    (update_webhook hook (set_hook_status WebhookEventStatus.PROCESSING);; flush;;
     try_except (process_body concurrent hook) (fun exc =>
       if is_domain_error exc && negb (exn_retryable exc)
       then _mark_failure hook exc true;; mret (mk_ProcessResult "dead_letter" hook [])
       else _mark_failure hook exc false;; mthrow exc)) w) as Hopen.
  { intros Hf. apply from_bind; [apply _|by eapply runs_update_webhook|].
    intros [] w1 [= <-]. apply from_bind; [apply _|apply runs_flush|]. intros [] w2 Hfl.
    rewrite flush_run in Hfl. injection Hfl as <- _.
    set (w1 := set_w_webhooks _ w).
    assert (w_webhooks w1 !! hook = Some (set_hook_status WebhookEventStatus.PROCESSING row)) as Hr1.
    { subst w1. simpl. by rewrite lookup_alter_eq, Hr. }
    destruct (process_body_runs _ _ Hr1 eq_refl) as [Hrun Hraise].
    apply from_try; [apply _|exact Hrun|]. intros e w' He. specialize (Hraise _ _ He).
    destruct (is_domain_error e && negb (exn_retryable e));
      (apply from_bind; [apply _|by eapply runs_mark_failure|]; intros [] w3 _;
       unfold preserves_from; reflexivity). }
  destruct (hook_status row) eqn:Hst; try (by apply Hopen; unfold hook_final; rewrite Hst);
    unfold preserves_from; reflexivity.
Qed.

End Process.
