(* ===== verification/ProcessingTheorems.v ===== *)
(** * What processing an event does

    The outcome of an event in terms of the store: finished events are no-ops,
    unknown events have no domain effect, a dead letter leaves no partial work, and
    each kind of payment event does to payments, cases and follow-up jobs what its
    handler promises. *)
From S2P Require Import Prelude PyStr Uuid Errors Decimal Json Datetime Enums Rows Store Repositories StateMachine Transitions Config VerificationTypes Events Processing Processor Verification Lifecycle Refinement ProcessingProps ProcessorProps.
Open Scope stdpp_scope.

(** The tables a handler may write. *)
Definition domain_tables (w : World) :=
  (w_payments w, w_attempts w, w_cases w, w_actions w, w_decisions w, w_approvals w).
Notation tables_kept := (unchanged domain_tables).

(** ** What a computation can raise *)

(** Every exception of [m] is one a worker retries or reports, not a permanent
    domain error. *)
Definition permanent (e : exn) : bool := is_domain_error e && negb (exn_retryable e).
Definition never_permanent {A} (m : Op A) : Prop :=
  forall w w' e, m w = (w', Raise e) -> permanent e = false.

Create HintDb raise discriminated.

Lemma np_ret {A} (a : A) : never_permanent (mret a).
Proof. by intros w w' e. Qed.
Lemma np_gets {A} (f : World -> A) : never_permanent (gets f).
Proof. by intros w w' e. Qed.
Lemma np_get : never_permanent get.
Proof. by intros w w' e. Qed.
Lemma np_modify f : never_permanent (modify f).
Proof. by intros w w' e. Qed.
Lemma np_throw {A} e : permanent e = false -> never_permanent (mthrow e : Op A).
Proof. intros H w w' e' [= <- <-]. done. Qed.
Lemma np_bind {A B} (m : Op A) (f : A -> Op B) :
  never_permanent m -> (forall a, never_permanent (f a)) -> never_permanent (m ≫= f).
Proof.
  intros Hm Hf w w' e. unfold mbind, m_bind. destruct (m w) as [w1 [a|e1]] eqn:H; [apply Hf|].
  intros [= <- <-]. by eapply Hm.
Qed.
(** [f] only needs to behave on the values [m] returns. *)
Lemma np_bind_value {A B} (P : A -> Prop) (m : Op A) (f : A -> Op B) :
  never_permanent m -> (forall w, returns m w (fun a _ => P a)) ->
  (forall a, P a -> never_permanent (f a)) -> never_permanent (m ≫= f).
Proof.
  intros Hm HP Hf w w' e. unfold mbind, m_bind. destruct (m w) as [w1 [a|e1]] eqn:H.
  - apply Hf. by eapply HP.
  - intros [= <- <-]. by eapply Hm.
Qed.
Lemma np_try {A} (m : Op A) h :
  (forall e, permanent e = false -> never_permanent (h e)) -> never_permanent m ->
  never_permanent (try_except m h).
Proof.
  intros Hh Hm w w' e. unfold try_except. destruct (m w) as [w1 [a|e1]] eqn:H; [done|].
  apply Hh. by eapply Hm.
Qed.
Lemma np_get_row {A} (t : World -> gmap UUID A) id : never_permanent (get_row t id).
Proof.
  intros w w' e. unfold get_row, mbind, m_bind, get, lift. destruct (t w !! id); [done|].
  simpl. intros [= <- <-]. done.
Qed.
Lemma np_record_audit m ty s a : never_permanent (record_audit m ty s a).
Proof. by intros w w' e. Qed.
Lemma np_utcnow : never_permanent utcnow.
Proof. by intros w w' e. Qed.
Lemma np_flush : never_permanent flush.
Proof. intros w w' e. rewrite flush_run. destruct (db_checks w); [done|]. intros [= <- <-]. done. Qed.
Lemma np_insert_payment id p : never_permanent (insert_payment id p).
Proof.
  intros w w' e. unfold insert_payment, mbind, m_bind, get, modify. simpl.
  destruct (_ || _); [intros [= <- <-]; done|]. destruct (negb _); [intros [= <- <-]; done|done].
Qed.
Lemma np_insert_case c : never_permanent (insert_case c).
Proof.
  intros w w' e. unfold insert_case, uuid4, mbind, m_bind, get, gets, modify. simpl.
  destruct (_ || _); [intros [= <- <-]; done|]. destruct (negb _); [intros [= <- <-]; done|done].
Qed.
#[export] Hint Resolve np_ret np_gets np_get np_modify np_get_row np_record_audit np_utcnow np_flush
  np_insert_payment np_insert_case : raise.

(** Decompose a computation; every primitive is closed by a lemma of [raise]. *)
Ltac solve_np := repeat match goal with
  | |- forall _, _ => intros
  | |- never_permanent (mbind _ _) => apply np_bind
  | |- never_permanent (try_except _ _) => apply np_try
  | |- never_permanent (mthrow _) => apply np_throw; assumption
  | |- never_permanent (worker_audit _ _ _ _ _ _ _ _ _) => apply np_record_audit
  | |- never_permanent (_add_attempt _ _ _) => by intros ? ? ?
  | |- never_permanent (update_payment _ _) => apply np_modify
  | |- never_permanent _ => solve [eauto with raise]
  | |- never_permanent (match ?x with _ => _ end) => destruct x
  end.

Section Raises.
Context (concurrent : World -> World).

Lemma np_create_or_attach hook event pid :
  never_permanent (_create_or_attach_recovery_case concurrent hook event pid).
Proof.
  unfold _create_or_attach_recovery_case. apply np_bind; [solve_np|intros p].
  apply np_bind; [solve_np|]. intros [|[id c] found]; [|solve_np].
  apply np_bind; [solve_np|intros now].
  apply (np_bind_value (fun r => match r with inl _ => True | inr e => permanent e = false end)).
  - unfold insert_case_nested. solve_np.
  - intros w w' a. unfold try_except.
    match goal with |- context [match ?m with _ => _ end] => destruct m as [w1 [b|e]] eqn:H end.
    + intros [= <- <-]. destruct b; [done|]. unfold mbind, m_bind in H.
      by destruct (insert_case_nested _ _ w) as [? []].
    + destruct e as [| | | | | | | | | | |t msg]; try done. unfold is_integrity_error, is_error_type.
      destruct (String.eqb t "IntegrityError"); [|done]. by intros [= <- <-].
  - intros [id|e] He; solve_np.
Qed.

(** Only the search for the customer raises a permanent error, before anything is
    written. *)
Lemma find_or_create_permanent event status w w' e :
  _find_or_create_payment event status w = (w', Raise e) -> permanent e = true -> w' = w.
Proof.
  unfold _find_or_create_payment. intros H Hp.
  change ((gets ?g ≫= ?f) w) with (f (g w) w) in H. cbv beta in H.
  destruct (PaymentRepository.get_by_provider_payment_id _ _ _ w) as [pid|].
  { exfalso. revert H Hp.
    assert (forall m : Op (UUID * option PaymentStatus.t), never_permanent m ->
      m w = (w', Raise e) -> permanent e = true -> False) as Habs
      by (intros m Hm Hx Hy; specialize (Hm _ _ _ Hx); congruence).
    apply Habs. solve_np. }
  unfold mbind at 1, m_bind at 1 in H. destruct (_resolve_customer event w) as [w1 [cid|e1]] eqn:Hr.
  - exfalso. revert H.
    assert (forall m : Op (UUID * option PaymentStatus.t), never_permanent m ->
      m w1 = (w', Raise e) -> False) as Habs
      by (intros m Hm Hx; specialize (Hm _ _ _ Hx); congruence).
    apply Habs. solve_np.
  - injection H as <- <-. revert Hr. unfold _resolve_customer.
    change ((get ≫= ?f) w) with (f w w). cbv beta.
    destruct (ev_customer_id event); [by intros [= <-]|].
    destruct (or_str _ _); intros [= <-]; done.
Qed.
End Raises.

(** ** Permanent failures leave nothing behind *)

(** A permanent error is raised before anything is written. *)
Definition clean {A} (m : Op A) : Prop :=
  forall w w' e, m w = (w', Raise e) -> permanent e = true -> w' = w.

Lemma clean_never {A} (m : Op A) : never_permanent m -> clean m.
Proof. intros H w w' e He Hp. specialize (H _ _ _ He). congruence. Qed.
Lemma clean_bind {A B} (m : Op A) (f : A -> Op B) :
  clean m -> (forall a, never_permanent (f a)) -> clean (m ≫= f).
Proof.
  intros Hm Hf w w' e. unfold mbind, m_bind. destruct (m w) as [w1 [a|e1]] eqn:H.
  - intros He Hp. specialize (Hf _ _ _ _ He). congruence.
  - intros [= <- <-]. by apply Hm.
Qed.
Lemma clean_reads {A B} (m : Op A) (f : A -> Op B) :
  (forall w, final m w = w) -> clean m -> (forall a, clean (f a)) -> clean (m ≫= f).
Proof.
  intros Hr Hm Hf w w' e. unfold mbind, m_bind. specialize (Hr w). unfold final in Hr.
  destruct (m w) as [w1 [a|e1]] eqn:H; simpl in Hr; subst w1; [apply Hf|by intros [= <- <-]].
Qed.
Lemma clean_lift {A} (r : result exn A) : clean (lift r).
Proof. by intros w w' e [= <- _]. Qed.

Section Clean.
Context (concurrent : World -> World).

Lemma clean_find_or_create event status : clean (_find_or_create_payment event status).
Proof. intros w w' e. apply find_or_create_permanent. Qed.

Lemma clean_dispatch hook row e : clean (_dispatch concurrent hook row e).
Proof.
  pose proof np_create_or_attach. destruct e as [e|u]; simpl; [|apply clean_never; solve_np].
  destruct (ev_event_type e);
    unfold _handle_payment_failed, _handle_payment_captured, _handle_payment_refunded, _handle_payment_status;
    repeat first [apply clean_bind; [|intros; solve_np; fail] | apply clean_find_or_create
                 | apply clean_bind; [|intros []; solve_np]].
Qed.

Lemma clean_normalize_and_dispatch hook row : clean (normalize_and_dispatch concurrent hook row).
Proof.
  unfold normalize_and_dispatch. apply clean_reads; [done|apply clean_never, np_gets|].
  intros [m|]; [|by intros w w' e [= <- <-]].
  apply clean_reads; [done|apply clean_lift|]. intros d. apply clean_dispatch.
Qed.
End Clean.

(** ** The outcome of one event *)

Lemma finish_tables hook row jobs w :
  domain_tables (final (finish_processing hook row jobs) w) = domain_tables w.
Proof. reflexivity. Qed.

Lemma mark_failure_run hook exc dead w row :
  w_webhooks w !! hook = Some row ->
  exists w', _mark_failure hook exc dead w = (w', Ok tt)
    /\ domain_tables w' = domain_tables w
    /\ exists row', w_webhooks w' !! hook = Some row'
       /\ hook_status row' = (if dead then WebhookEventStatus.DEAD_LETTER else WebhookEventStatus.FAILED)
       /\ hook_error_code row' = Some (prefix_n 64 (exn_code exc))
       /\ hook_identity row' = hook_identity row.
Proof.
  intros Hr. unfold _mark_failure. erewrite bind_run by reflexivity.
  erewrite bind_run.
  2:{ apply get_row_run. simpl. rewrite lookup_alter_eq, Hr. reflexivity. }
  unfold worker_audit. rewrite record_audit_run. eexists. split; [reflexivity|]. split; [done|].
  eexists. simpl. rewrite lookup_alter_eq, Hr. split; [reflexivity|]. by destruct dead.
Qed.

Section Outcome.
Context (concurrent : World -> World) (hook : UUID).
Notation process := (process_webhook_event concurrent hook).

(** The two statuses nothing leaves. *)
Lemma process_final w row :
  w_webhooks w !! hook = Some row -> hook_final row = true ->
  process w = (w, Ok (mk_ProcessResult
    (match hook_status row with WebhookEventStatus.PROCESSED => "already_processed" | _ => "dead_letter" end)
    hook [])).
Proof.
  intros Hr Hf. unfold process_webhook_event.
  change ((gets ?g ≫= ?f) w) with (f (g w) w). cbv beta. rewrite Hr.
  unfold hook_final in Hf. by destruct (hook_status row).
Qed.

(** An open row is marked PROCESSING and its body runs. *)
Definition started (w : World) : World :=
  set_w_webhooks (alter (set_hook_status WebhookEventStatus.PROCESSING) hook (w_webhooks w)) w.

Lemma process_open w row :
  w_webhooks w !! hook = Some row -> hook_final row = false -> db_checks (started w) = true ->
  process w = try_except (process_body concurrent hook) (fun exc =>
    if permanent exc
    then _mark_failure hook exc true;; mret (mk_ProcessResult "dead_letter" hook [])
    else _mark_failure hook exc false;; mthrow exc) (started w).
Proof.
  intros Hr Hf Hdb. unfold process_webhook_event.
  change ((gets ?g ≫= ?f) w) with (f (g w) w). cbv beta. rewrite Hr.
  assert (flush (started w) = (started w, Ok tt)) as Hfl by (by rewrite flush_run, Hdb).
  unfold hook_final in Hf. destruct (hook_status row); try done;
    (erewrite bind_run by reflexivity; by rewrite (bind_run _ _ _ _ _ Hfl)).
Qed.

Lemma started_row w row : w_webhooks w !! hook = Some row ->
  w_webhooks (started w) !! hook = Some (set_hook_status WebhookEventStatus.PROCESSING row).
Proof. intros Hr. simpl. by rewrite lookup_alter_eq, Hr. Qed.

Lemma process_unchecked w row w' r :
  w_webhooks w !! hook = Some row -> hook_final row = false -> db_checks (started w) = false ->
  process w = (w', Ok r) -> False.
Proof.
  intros Hr Hf Hdb. unfold process_webhook_event.
  change ((gets ?g ≫= ?f) w) with (f (g w) w). cbv beta. rewrite Hr.
  assert (flush (started w) = (started w, Raise (IntegrityError "CHECK constraint violated"))) as Hfl
    by (by rewrite flush_run, Hdb).
  unfold hook_final in Hf. destruct (hook_status row); try done;
    (erewrite bind_run by reflexivity; by rewrite (bind_raise _ _ _ _ _ Hfl)).
Qed.

(** The body of an event that returns: it was dispatched. *)
Lemma process_body_cases row w :
  w_webhooks w !! hook = Some row ->
  process_body concurrent hook w =
    (jobs ← normalize_and_dispatch concurrent hook row; finish_processing hook row jobs) w.
Proof. intros Hr. unfold process_body. by rewrite (bind_run _ _ _ _ _ (get_row_run _ _ _ _ Hr)). Qed.

Lemma dead_letter_cases w row w' r :
  w_webhooks w !! hook = Some row -> hook_final row = false ->
  process w = (w', Ok r) -> pr_status r = "dead_letter" ->
  domain_tables w' = domain_tables w /\ pr_followups r = []
  /\ exists row', w_webhooks w' !! hook = Some row'
     /\ hook_status row' = WebhookEventStatus.DEAD_LETTER /\ hook_identity row' = hook_identity row.
Proof.
  intros Hr Hf H Hdead.
  destruct (db_checks (started w)) eqn:Hdb; [|by exfalso; eapply process_unchecked].
  rewrite (process_open _ _ Hr Hf Hdb) in H. unfold try_except in H.
  pose proof (started_row _ _ Hr) as Hr1.
  rewrite (process_body_cases _ _ Hr1) in H.
  set (row1 := set_hook_status WebhookEventStatus.PROCESSING row) in *.
  destruct (normalize_and_dispatch concurrent hook row1 (started w)) as [w1 [jobs|e]] eqn:Hn.
  { rewrite (bind_run _ _ _ _ _ Hn) in H. pose proof (finish_returns hook row1 jobs w1) as Ho.
    unfold outcome in Ho. destruct (finish_processing hook row1 jobs w1) as [w2 r2]. simpl in Ho. subst r2.
    by injection H as <- <-. }
  rewrite (bind_raise _ _ _ _ _ Hn) in H.
  destruct (permanent e) eqn:Hp.
  - pose proof (clean_normalize_and_dispatch concurrent hook row1 _ _ _ Hn Hp) as ->.
    destruct (mark_failure_run hook e true _ _ Hr1) as (w2 & H2 & Ht2 & row2 & Hrow2 & Hs2 & _ & Hi2).
    rewrite (bind_run _ _ _ _ _ H2) in H. injection H as <- <-.
    split; [by rewrite Ht2|]. split; [done|]. by exists row2.
  - unfold mbind, m_bind in H. destruct (_mark_failure hook e false w1) as [w2 []]; done.
Qed.
End Outcome.

(** An event of an unknown type: audited and marked PROCESSED. *)
Lemma unknown_run concurrent hook w row m :
  w_webhooks w !! hook = Some row -> hook_final row = false -> db_checks w = true ->
  w_merchants w !! hook_merchant_id row = Some m -> event_type_of (hook_event_type row) = None ->
  exists w', process_webhook_event concurrent hook w = (w', Ok (mk_ProcessResult "processed" hook []))
    /\ domain_tables w' = domain_tables w
    /\ exists row', w_webhooks w' !! hook = Some row'
       /\ hook_status row' = WebhookEventStatus.PROCESSED /\ hook_identity row' = hook_identity row.
Proof.
  intros Hr Hf Hdb Hm Hu. rewrite (process_open _ _ _ _ Hr Hf Hdb). unfold try_except.
  pose proof (started_row _ _ _ Hr) as Hr1. rewrite (process_body_cases _ _ _ _ Hr1).
  set (row1 := set_hook_status WebhookEventStatus.PROCESSING row) in *.
  assert (exists w1, normalize_and_dispatch concurrent hook row1 (started hook w) = (w1, Ok [])
    /\ domain_tables w1 = domain_tables w /\ w_webhooks w1 = w_webhooks (started hook w)) as (w1 & Hn & Ht & Hw).
  { unfold normalize_and_dispatch. change ((gets ?g ≫= ?f) ?w) with (f (g w) w). cbv beta.
    unfold MerchantRepository.get_merchant. simpl in Hm |- *. rewrite Hm.
    unfold normalize_provider_event, provider_event_from_row. simpl. rewrite Hu.
    eexists. split; [reflexivity|]. done. }
  rewrite (bind_run _ _ _ _ _ Hn). eexists. split; [reflexivity|]. split; [exact Ht|].
  eexists. simpl. rewrite Hw, lookup_alter_eq, Hr1. done.
Qed.

(** ** Opening or attaching a case *)

Definition alone (w : World) : World := w.

Lemma insert_case_returns c w :
  returns (insert_case c) w (fun id w' =>
    w_cases w !! id = None /\ w_cases w' = <[id := c]> (w_cases w) /\ w_payments w' = w_payments w).
Proof.
  intros w' id. unfold insert_case, uuid4, mbind, m_bind, get, gets, modify. simpl.
  destruct (_ || _) eqn:Hg; [done|]. destruct (negb _); [done|]. intros [= <- <-].
  apply orb_false_iff in Hg as [Hg%is_some_false _]. done.
Qed.

Lemma returns_flush w : returns flush w (fun _ w' => w' = w).
Proof. intros w' []. rewrite flush_run. by intros [= <- _]. Qed.

Lemma nested_insert_returns c w :
  returns (insert_case_nested alone c) w (fun id w' =>
    w_cases w !! id = None /\ w_cases w' = <[id := c]> (w_cases w)).
Proof.
  unfold insert_case_nested. eapply returns_bind; [apply returns_flush|]. intros [] w1 ->.
  eapply (returns_bind _ _ _ _ (fun _ w2 => w2 = w)); [by intros w2 [] [= <-]|]. intros [] w2 ->.
  eapply returns_mono; [apply insert_case_returns|]. naive_solver.
Qed.

(** What a failed payment does to the cases: it attaches to an open case of the
    payment, or opens exactly one, for the payment's amount. *)
Definition attached_or_opened (hook pid : UUID) (event : DomainPaymentEvent) (p : Payment)
  (w w' : World) (jobs : list FollowUpJob) : Prop :=
  match RecoveryCaseRepository.list_open_for_payment (ev_merchant_id event) pid w with
  | (id, _) :: _ => w_cases w' = w_cases w /\ jobs = verify_if_captured p id pid hook
  | [] => exists id now, w_cases w !! id = None
      /\ w_cases w' = <[id := new_case event pid p hook now]> (w_cases w)
      /\ jobs = process_job id hook :: verify_if_captured p id pid hook
  end.

Lemma nested_insert_raises c w w' e :
  insert_case_nested alone c w = (w', Raise e) -> w_cases w' = w_cases w.
Proof.
  unfold insert_case_nested, mbind, m_bind. rewrite flush_run.
  destruct (db_checks w); [|by intros [= <- _]].
  unfold insert_case, uuid4, mbind, m_bind, get, gets, modify. simpl.
  destruct (_ || _); [by intros [= <- _]|]. destruct (negb _); [by intros [= <- _]|done].
Qed.

Lemma returns_create_or_attach hook event pid p w :
  w_payments w !! pid = Some p ->
  returns (_create_or_attach_recovery_case alone hook event pid) w (fun jobs w' =>
    attached_or_opened hook pid event p w w' jobs).
Proof.
  intros Hp. apply returns_get_row. intros p0 Hp0. simplify_eq. apply returns_gets.
  unfold attached_or_opened.
  destruct (RecoveryCaseRepository.list_open_for_payment _ pid w) as [|[id c] found] eqn:Hopen.
  2:{ eapply returns_bind; [apply returns_kept, kept_record_audit|]. intros [] w1 (Hc & _).
      by apply returns_ret. }
  eapply (returns_bind _ _ _ _ (fun _ w1 => w_cases w1 = w_cases w)).
  { intros w1 t [= <- <-]. done. }
  intros now w1 Hw1.
  eapply (returns_bind _ _ _ _ (fun r w2 =>
    match r with
    | inl id => w_cases w1 !! id = None /\ w_cases w2 = <[id := new_case event pid p hook now]> (w_cases w1)
    | inr _ => w_cases w2 = w_cases w1
    end)).
  - apply returns_try.
    + eapply returns_bind; [apply nested_insert_returns|]. intros id w2 H. by apply returns_ret.
    + intros e w2 He. unfold mbind, m_bind in He.
      destruct (insert_case_nested _ _ w1) as [w3 [id|e1]] eqn:Hn; [done|]. injection He as <- <-.
      apply nested_insert_raises in Hn.
      destruct (is_integrity_error e1); [by apply returns_ret|apply returns_throw].
  - intros [id|e] w2 Hw2.
    + eapply returns_bind; [apply returns_kept, kept_record_audit|]. intros [] w3 (Hc & _).
      apply returns_ret. destruct Hw2 as [Hn Hi]. exists id, now.
      rewrite Hc, Hi, Hw1. rewrite Hw1 in Hn. done.
    + apply returns_gets. unfold RecoveryCaseRepository.list_open_for_payment in Hopen |- *.
      rewrite Hw2, Hw1, Hopen. apply returns_throw.
Qed.

(** ** The cases a capture may recover *)

(** A case is a candidate exactly when it is open, of the payment's merchant, and
    about the payment or its customer. *)
Lemma elem_of_candidates pid p w id :
  id ∈ _candidate_cases pid p w <->
  exists c, w_cases w !! id = Some c /\ case_closed_at c = None
    /\ case_merchant_id c = payment_merchant_id p
    /\ (case_payment_id c = Some pid \/ case_customer_id c = payment_customer_id p).
Proof.
  unfold _candidate_cases. rewrite elem_of_app, list_elem_of_filter, !list_elem_of_fmap.
  unfold RecoveryCaseRepository.list_open_for_payment, RecoveryCaseRepository.list_open_for_customer.
  assert (forall (q : UUID -> RecoveryCase -> bool) k,
    (exists x : UUID * RecoveryCase, k = x.1 /\ x ∈ rows_where q (w_cases w))
    <-> exists c, w_cases w !! k = Some c /\ q k c = true) as Hrows.
  { intros q k. split.
    - intros ([k' c] & -> & H%elem_of_rows_where). by exists c.
    - intros (c & H). exists (k, c). split; [done|]. by apply elem_of_rows_where. }
  rewrite !Hrows. setoid_rewrite andb_true_iff. setoid_rewrite andb_true_iff.
  setoid_rewrite same_true. split.
  - intros [(c & Hc & [? ?] & ?)|[_ (c & Hc & [? ?] & ?)]]; exists c; auto.
  - intros (c & Hc & Hcl & Hm & Hor). destruct (decide (case_payment_id c = Some pid)) as [E|E].
    + left. by exists c.
    + right. split; [|exists c; naive_solver]. intros (c' & Hc' & [_ ?] & _). congruence.
Qed.

Lemma candidates_NoDup pid p w : NoDup (_candidate_cases pid p w).
Proof.
  assert (forall (q : UUID -> RecoveryCase -> bool), NoDup (rows_where q (w_cases w)).*1) as Hnd.
  { intros q. unfold rows_where. pose proof (NoDup_fst_map_to_list (w_cases w)) as H.
    induction (map_to_list (w_cases w)) as [|[k c] l IH]; [constructor|].
    rewrite filter_cons. simpl in H. inversion_clear H as [|? ? Hk Hl]. case_decide; [|by apply IH].
    simpl. constructor; [|by apply IH]. intros Hin. apply Hk.
    apply list_elem_of_fmap in Hin as (x & -> & [_ Hx]%list_elem_of_filter).
    apply list_elem_of_fmap. by exists x. }
  unfold _candidate_cases. apply list.NoDup_app. split; [apply Hnd|]. split; [|apply list.NoDup_filter, Hnd].
  intros x Hx Hf. by apply list_elem_of_filter in Hf as [Hf _].
Qed.

(** Recording a capture: the payment the event names is CAPTURED for its amount. *)
Definition captured_row (event : DomainPaymentEvent) (pid : UUID) (w : World) : Prop :=
  exists p, w_payments w !! pid = Some p
    /\ payment_merchant_id p = ev_merchant_id event
    /\ payment_provider_payment_id p = Some (ev_provider_payment_id event)
    /\ payment_status p = PaymentStatus.CAPTURED
    /\ payment_amount p = ev_amount event
    /\ payment_captured_at p = Some (instant (ev_occurred_at event)).

Lemma apply_capture event p p' :
  p' = apply_event event PaymentStatus.CAPTURED p ->
  payment_identity p' = payment_identity p /\ payment_status p' = PaymentStatus.CAPTURED
  /\ payment_amount p' = ev_amount event
  /\ payment_captured_at p' = Some (instant (ev_occurred_at event)).
Proof.
  intros ->. unfold apply_event. cbv zeta. rewrite same_refl. by destruct (_is_status_downgrade _ _).
Qed.

Lemma returns_insert_payment id p w :
  returns (insert_payment id p) w (fun _ w' => w_payments w' !! id = Some p /\ w_cases w' = w_cases w).
Proof.
  intros w' []. unfold insert_payment, mbind, m_bind, get, modify. simpl.
  destruct (_ || _); [done|]. destruct (negb _); [done|]. intros [= <-]. simpl.
  by rewrite lookup_insert_eq.
Qed.

Lemma add_attempt_run pid event status w :
  returns (_add_attempt pid event status) w (fun _ w' =>
    w_payments w' = w_payments w /\ w_cases w' = w_cases w).
Proof. by intros w' [] [= <-]. Qed.

Lemma returns_capture event w :
  returns (_find_or_create_payment event PaymentStatus.CAPTURED) w (fun r w' =>
    captured_row event r.1 w' /\ w_cases w' = w_cases w).
Proof.
  unfold _find_or_create_payment. apply returns_gets.
  destruct (PaymentRepository.get_by_provider_payment_id _ _ _ w) as [pid|] eqn:Hfound.
  - unfold PaymentRepository.get_by_provider_payment_id in Hfound.
    apply scalar_where_Some in Hfound as (q & Hq & H).
    apply andb_true_iff in H as [[Hm%same_eq _]%andb_true_iff Hpp%same_eq].
    apply returns_get_row. intros p Hp. rewrite Hq in Hp. injection Hp as <-.
    eapply (returns_bind _ _ _ _ (fun _ w1 => captured_row event pid w1 /\ w_cases w1 = w_cases w)).
    { intros w1 [] [= <-]. split; [|done].
      remember (apply_event event PaymentStatus.CAPTURED q) as q' eqn:Hq'. exists q'.
      apply apply_capture in Hq' as Hc. destruct Hc as (Hi & Hs & Ha & Ht).
      split; [simpl; by rewrite lookup_alter_eq, Hq, Hq'|].
      unfold payment_identity in Hi. injection Hi as Hi1 _ _ Hi2 _. by rewrite Hi1, Hi2. }
    intros [] w1 [(p1 & Hp1 & Hrest) Hc1].
    eapply returns_bind; [apply add_attempt_run|]. intros [] w2 [Hp2 Hc2].
    apply returns_ret. split; [exists p1; by rewrite Hp2|congruence].
  - eapply (returns_bind _ _ _ _ (fun _ w1 => w1 = w)).
    { intros w1 c H. unfold _resolve_customer in H. change ((get ≫= ?f) w) with (f w w) in H.
      cbv beta in H. destruct (ev_customer_id event); [by injection H as <- _|].
      destruct (or_str _ _); by injection H as <- _. }
    intros cid w1 ->. eapply returns_bind; [apply returns_insert_payment|].
    intros [] w2 [Hp2 Hc2]. eapply returns_bind; [apply returns_flush|]. intros [] w3 ->.
    eapply returns_bind; [apply add_attempt_run|]. intros [] w4 [Hp4 Hc4].
    apply returns_ret. split; [|congruence]. eexists. simpl. rewrite Hp4. split; [exact Hp2|done].
Qed.

Lemma returns_handle_captured hook event w :
  returns (_handle_payment_captured hook event) w (fun jobs w' =>
    exists pid p, w_payments w' !! pid = Some p /\ captured_row event pid w'
      /\ w_cases w' = w_cases w
      /\ jobs = map (fun id => verify_job id pid hook) (_candidate_cases pid p w')).
Proof.
  unfold _handle_payment_captured. eapply returns_bind; [apply returns_capture|].
  intros [pid prev] w1 [Hrow Hc1]. simpl in Hrow. apply returns_get_row. intros p Hp. apply returns_gets.
  eapply (returns_bind _ _ _ _ (fun _ w2 => w_payments w2 = w_payments w1 /\ w_cases w2 = w_cases w1)).
  { intros w2 [] H. unfold worker_audit in H. rewrite record_audit_run in H. by injection H as <-. }
  intros [] w2 [Hp2 Hc2]. apply returns_ret. exists pid, p.
  unfold captured_row, _candidate_cases, RecoveryCaseRepository.list_open_for_payment,
    RecoveryCaseRepository.list_open_for_customer in *.
  rewrite Hp2, Hc2. split; [done|]. split; [done|]. split; [congruence|done].
Qed.

(** ** Properties *)

(** Delivering a finished event again is a no-op: the store is exactly as before and
    no follow-up job is returned. *)
Theorem finished_event_is_a_noop concurrent hook w row :
  w_webhooks w !! hook = Some row ->
  hook_status row = WebhookEventStatus.PROCESSED \/ hook_status row = WebhookEventStatus.DEAD_LETTER ->
  exists status, process_webhook_event concurrent hook w = (w, Ok (mk_ProcessResult status hook [])).
Proof.
  intros Hr Hs. eexists. apply (process_final _ _ _ _ Hr). unfold hook_final.
  by destruct Hs as [-> | ->].
Qed.

(** Dead-lettering is atomic: when processing an open event answers "dead_letter",
    no payment, attempt, case, action, decision or approval has changed, no follow-up is
    queued, and the row is DEAD_LETTER. *)
Theorem dead_letter_leaves_no_trace concurrent hook w row w' r :
  w_webhooks w !! hook = Some row -> hook_final row = false ->
  process_webhook_event concurrent hook w = (w', Ok r) -> pr_status r = "dead_letter" ->
  domain_tables w' = domain_tables w /\ pr_followups r = []
  /\ exists row', w_webhooks w' !! hook = Some row'
     /\ hook_status row' = WebhookEventStatus.DEAD_LETTER /\ hook_identity row' = hook_identity row.
Proof. apply dead_letter_cases. Qed.

(** An event whose type is not in the table is stored without domain effects:
    processing it succeeds, marks it PROCESSED, queues nothing and changes no payment,
    attempt, case, action, decision or approval. *)
Theorem unknown_event_has_no_effect concurrent hook w row m :
  w_webhooks w !! hook = Some row -> hook_final row = false -> db_checks w = true ->
  w_merchants w !! hook_merchant_id row = Some m -> event_type_of (hook_event_type row) = None ->
  exists w', process_webhook_event concurrent hook w = (w', Ok (mk_ProcessResult "processed" hook []))
    /\ domain_tables w' = domain_tables w
    /\ exists row', w_webhooks w' !! hook = Some row'
       /\ hook_status row' = WebhookEventStatus.PROCESSED /\ hook_identity row' = hook_identity row.
Proof. apply unknown_run. Qed.

(** With no other transaction in between, a failed payment attaches to an open case
    of its merchant and payment when there is one, leaving all cases as they are, and
    otherwise opens exactly one, DETECTED, for the payment's amount, and queues its
    processing; verification is queued exactly when the payment is already captured. *)
Theorem failed_payment_opens_one_case hook event pid p w w' jobs :
  w_payments w !! pid = Some p ->
  _create_or_attach_recovery_case alone hook event pid w = (w', Ok jobs) ->
  attached_or_opened hook pid event p w w' jobs.
Proof. intros Hp. by apply returns_create_or_attach. Qed.

(** A capture event makes the payment it names CAPTURED, for the event's amount and
    at its time, leaves every case as it is, and queues exactly one verification for each
    open case of the payment's merchant that is about the payment or about its customer. *)
Theorem captures_reach_every_open_case hook event w w' jobs :
  _handle_payment_captured hook event w = (w', Ok jobs) ->
  w_cases w' = w_cases w
  /\ exists pid p ids, w_payments w' !! pid = Some p /\ captured_row event pid w'
    /\ jobs = map (fun id => verify_job id pid hook) ids /\ NoDup ids
    /\ forall id, id ∈ ids <->
         exists c, w_cases w' !! id = Some c /\ case_closed_at c = None
           /\ case_merchant_id c = payment_merchant_id p
           /\ (case_payment_id c = Some pid \/ case_customer_id c = payment_customer_id p).
Proof.
  intros H. destruct (returns_handle_captured _ _ _ _ _ H) as (pid & p & Hp & Hrow & Hc & Hj).
  split; [done|]. exists pid, p, (_candidate_cases pid p w').
  split; [done|]. split; [done|]. split; [done|]. split; [apply candidates_NoDup|apply elem_of_candidates].
Qed.

(** The status an event gives a known payment: a capture always makes it CAPTURED,
    with the event's amount, and that includes a REFUNDED payment although
    [_is_status_downgrade] calls that a downgrade; otherwise a REFUNDED payment stays
    REFUNDED, a CAPTURED one only becomes REFUNDED, and any other status follows the
    event; without a capture the amount is kept. *)
Theorem late_events_and_captures event status p :
  status ∈ event_statuses ->
  (status = PaymentStatus.CAPTURED ->
     payment_status (apply_event event status p) = PaymentStatus.CAPTURED
     /\ payment_amount (apply_event event status p) = ev_amount event
     /\ _is_status_downgrade PaymentStatus.REFUNDED PaymentStatus.CAPTURED = true)
  /\ (status <> PaymentStatus.CAPTURED ->
     payment_amount (apply_event event status p) = payment_amount p
     /\ payment_status (apply_event event status p) =
          match payment_status p with
          | PaymentStatus.REFUNDED => PaymentStatus.REFUNDED
          | PaymentStatus.CAPTURED =>
              if same status PaymentStatus.REFUNDED then PaymentStatus.REFUNDED else PaymentStatus.CAPTURED
          | _ => status
          end).
Proof.
  intros Hs. split.
  - intros ->. rewrite apply_event_status, same_refl. split; [done|]. split; [|done].
    unfold apply_event. cbv zeta. rewrite same_refl. reflexivity.
  - intros Hne. rewrite apply_event_status.
    assert (same status PaymentStatus.CAPTURED = false) as Hc by (by apply bool_decide_eq_false).
    split.
    + unfold apply_event. cbv zeta. rewrite Hc.
      by destruct (_is_status_downgrade _ status), (same status PaymentStatus.FAILED).
    + rewrite Hc. revert Hs Hne. destruct (payment_status p), status; try done;
        intros Hs; exfalso; revert Hs; apply (bool_decide_eq_false_1 (_ ∈ event_statuses)); reflexivity.
Qed.
