(* ===== verification/Invariants.v ===== *)
(** * Invariants of the abstract system

    Each by rule induction on [runs settings ALL]; with the refinement lemmas
    they hold of every sequence of operations. The second part is about the tools. *)
From S2P Require Import Prelude PyStr Uuid Errors Decimal Json Datetime Enums Rows Store Repositories StateMachine Transitions Config Events Idempotency VerificationTypes Processing Processor Verification Lifecycle Refinement.
Open Scope stdpp_scope.

(** ** Histories of rows *)

(** [c'] is a later state of [c]: same identity, a legal run between the two
    statuses, and one version per transition of it. *)
Definition case_history (c c' : RecoveryCase) : Prop :=
  case_identity c' = case_identity c
  /\ exists l, path (case_status c) l (case_status c')
               /\ case_version c' = (case_version c + Z.of_nat (length l))%Z.

(** Every row of the table is in the later table, with a related row. *)
Definition rows_evolve {A} (table : World -> gmap UUID A) (Rrow : relation A) : relation World :=
  fun w w' => forall id r, table w !! id = Some r ->
    exists r', table w' !! id = Some r' /\ Rrow r r'.

#[export] Instance rows_evolve_preorder {A} (t : World -> gmap UUID A) (Rrow : relation A) :
  PreOrder Rrow -> PreOrder (rows_evolve t Rrow).
Proof.
  intros HR. split.
  - intros w id r Hr. exists r. by split; [|reflexivity].
  - intros x y z H1 H2 id r Hr. destruct (H1 _ _ Hr) as (r1 & Hr1 & E1).
    destruct (H2 _ _ Hr1) as (r2 & Hr2 & E2). exists r2. split; [done|]. by transitivity r1.
Qed.

#[export] Instance case_history_preorder : PreOrder case_history.
Proof.
  split.
  - intros c. split; [done|]. exists []. split; [constructor|simpl; lia].
  - intros x y z [I1 (l1 & P1 & V1)] [I2 (l2 & P2 & V2)]. split; [congruence|].
    exists (l1 ++ l2). split; [by eapply path_app|]. rewrite length_app. lia.
Qed.

#[export] Instance payment_evolves_preorder : PreOrder payment_evolves.
Proof.
  split; [split; auto|]. intros x y z [I1 S1 A1] [I2 S2 A2]. split; [congruence|auto|].
  destruct A2 as [A2|]; [|by right]. destruct A1 as [A1|A1]; [left; congruence|right; auto].
Qed.

(** A step that inserts [y] over [x], or at a fresh key, evolves the table. *)
Lemma insert_evolves {A} (Rrow : relation A) `{!PreOrder Rrow} (m : gmap UUID A) i y :
  (forall x, m !! i = Some x -> Rrow x y) ->
  forall id r, m !! id = Some r -> exists r', <[i := y]> m !! id = Some r' /\ Rrow r r'.
Proof.
  intros H id r Hr. destruct (decide (id = i)) as [->|Hne].
  - rewrite lookup_insert_eq. eauto.
  - rewrite lookup_insert_ne by done. exists r. by split; [|reflexivity].
Qed.

(** What one step does to the row of a case. *)
Inductive case_change (settings : RecoverySettings) (id : UUID) (w : World) (c : RecoveryCase)
  : RecoveryCase -> Prop :=
  | cc_same : case_change settings id w c c
  | cc_move target now : legal (case_status c) target = true ->
      (target = RECOVERED -> fully_credited c) ->
      case_change settings id w c (moved target now c)
  | cc_note reason : case_change settings id w c (set_case_last_mismatch_reason reason c)
  | cc_credit pid p amount hook : w_payments w !! pid = Some p ->
      creditable settings w id c pid p -> credit_amount c p amount -> case_status c <> RECOVERED ->
      case_verified_payment_id c <> Some pid -> counted_elsewhere id c pid w = false ->
      case_change settings id w c (credit amount (Some pid) hook c).

(** A row after a step is a changed row, or a fresh one. *)
Lemma step_case_row settings l w w' id c' :
  step settings l w w' -> w_cases w' !! id = Some c' ->
  (exists c, w_cases w !! id = Some c /\ case_change settings id w c c')
  \/ (w_cases w !! id = None /\ fresh_case c' /\ case_checks c' = true
      /\ forall id' d, w_cases w !! id' = Some d -> open_case_conflict c' d = false).
Proof.
  assert (forall i c d, w_cases w !! i = Some c -> case_change settings i w c d ->
    <[i := d]> (w_cases w) !! id = Some c' ->
    exists c, w_cases w !! id = Some c /\ case_change settings id w c c') as Hins.
  { intros i c d Hc Hd. destruct (decide (id = i)) as [->|Hne].
    - rewrite lookup_insert_eq. intros [= <-]. eauto.
    - rewrite lookup_insert_ne by done. intros Hc'. exists c'. split; [done|constructor]. }
  intros Hs Hc'. destruct Hs; simpl in Hc';
    try (left; exists c'; split; [done|constructor]);
    try (left; eapply Hins; [done| |done]; by econstructor).
  destruct (decide (id = id0)) as [->|Hne].
  - rewrite lookup_insert_eq in Hc'. injection Hc' as <-. by right.
  - rewrite lookup_insert_ne in Hc' by done. left. exists c'. split; [done|constructor].
Qed.

(** A row before a step is still there after it, changed. *)
Lemma step_case_fwd settings l w w' id c :
  step settings l w w' -> w_cases w !! id = Some c ->
  exists c', w_cases w' !! id = Some c' /\ case_change settings id w c c'.
Proof.
  assert (forall i d e, w_cases w !! i = Some d -> case_change settings i w d e ->
    w_cases w !! id = Some c ->
    exists c', <[i := e]> (w_cases w) !! id = Some c' /\ case_change settings id w c c') as Hins.
  { intros i d e Hd Hch Hc. destruct (decide (id = i)) as [->|Hne].
    - rewrite lookup_insert_eq. simplify_eq. eauto.
    - rewrite lookup_insert_ne by done. exists c. split; [done|constructor]. }
  intros Hs Hc. destruct Hs; simpl;
    try (exists c; split; [done|constructor]);
    try (eapply Hins; [done| |done]; by econstructor).
  rewrite lookup_insert_ne by congruence. exists c. split; [done|constructor].
Qed.

Lemma case_change_history settings id w c c' : case_change settings id w c c' -> case_history c c'.
Proof.
  destruct 1 as [|target now Hl _|reason|]; try reflexivity.
  - split; [done|]. exists [case_status c]. split; [|simpl; lia].
    econstructor; [exact Hl|constructor].
  - split; [done|]. exists []. split; [constructor|simpl; lia].
  - split; [done|]. exists []. split; [constructor|simpl; lia].
Qed.

(** ** Lemmas on runs *)

Section Runs.
Context (settings : RecoverySettings).
Notation R := (runs settings ALL).

Lemma runs_audit_grows w w' : R w w' -> exists l, w_audit w' = w_audit w ++ l.
Proof using.
  induction 1 as [w|w v w' (l & _ & Hs) _ [l' IH]]; [exists []; by rewrite app_nil_r|].
  destruct Hs; try (by exists l'). exists (e :: l'). rewrite IH. simpl. by rewrite <- app_assoc.
Qed.

Lemma runs_case_history w w' : R w w' -> rows_evolve w_cases case_history w w'.
Proof using.
  apply runs_ind; [apply _|]. intros l x y _ Hs id c Hc.
  destruct (step_case_fwd _ _ _ _ _ _ Hs Hc) as (c' & Hc' & Hch).
  exists c'. split; [done|]. by eapply case_change_history.
Qed.

(** A case that was not there has run from a fresh one. *)
Lemma runs_new_case w w' : R w w' -> forall id c', w_cases w !! id = None ->
  w_cases w' !! id = Some c' -> exists c, fresh_case c /\ case_history c c'.
Proof using.
  intros Hr id c' Hn Hc'. revert Hn. induction Hr as [w|w v w' (l & _ & Hs) Hr IH]; [congruence|].
  intros Hn. specialize (IH Hc'). destruct (w_cases v !! id) as [c|] eqn:Hv; [|by apply IH].
  destruct (step_case_row _ _ _ _ _ _ Hs Hv) as [(d & Hd & _)|(_ & Hf & _)]; [congruence|].
  exists c. split; [done|]. destruct (runs_case_history _ _ Hr _ _ Hv) as (d & Hd & Hh).
  congruence.
Qed.

Lemma step_payments l w w' :
  step settings l w w' -> rows_evolve w_payments payment_evolves w w'.
Proof using.
  intros Hs. destruct Hs; try (intros i row Hrow; by exists row);
    unfold rows_evolve; simpl; apply insert_evolves; try apply _; intros q Hq; simplify_eq.
  done.
Qed.

Lemma runs_payments w w' : R w w' -> rows_evolve w_payments payment_evolves w w'.
Proof using. apply runs_ind; [apply _|]. intros l x y _. apply step_payments. Qed.

(** Once processed or dead, a webhook row never changes. *)
Lemma runs_hook_final w w' id e :
  R w w' -> w_webhooks w !! id = Some e -> hook_final e = true -> w_webhooks w' !! id = Some e.
Proof using.
  intros Hr He Hf. revert He. induction Hr as [w|w v w' (l & _ & Hs) _ IH]; [done|].
  intros Hx. apply IH. destruct Hs; simpl; try done.
  - rewrite lookup_insert_ne; [done|congruence].
  - rewrite lookup_insert_ne; [done|]. intros ->. simplify_eq. congruence.
Qed.

(** A recovered case keeps its row, up to the note of the last mismatch. *)
Lemma runs_recovered_final w w' id c :
  R w w' -> w_cases w !! id = Some c -> case_status c = RECOVERED ->
  exists reason, w_cases w' !! id = Some (set_case_last_mismatch_reason reason c).
Proof using.
  intros Hr. revert c. induction Hr as [w|w v w' (l & _ & Hs) _ IH]; intros c Hc Hrec.
  - exists (case_last_mismatch_reason c). rewrite Hc. by destruct c.
  - destruct (step_case_fwd _ _ _ _ _ _ Hs Hc) as (c' & Hc' & Hch).
    destruct Hch as [|target now Hl _|reason|]; try congruence.
    + by apply IH.
    + by rewrite Hrec, (terminal_no_step RECOVERED target eq_refl) in Hl.
    + destruct (IH _ Hc' Hrec) as [r Hr]. exists r. exact Hr.
Qed.
End Runs.

(** ** State invariants *)

(** A case is closed exactly when its status is terminal. *)
Definition closed_iff_terminal (w : World) : Prop := forall id c,
  w_cases w !! id = Some c -> (case_closed_at c = None <-> terminal (case_status c) = false).

(** No two cases are open for one subject of a merchant. *)
Definition one_open_case (w : World) : Prop := forall i j c d,
  w_cases w !! i = Some c -> w_cases w !! j = Some d -> open_case_conflict c d = true -> i = j.

(** A RECOVERED case has its whole amount at risk credited, from a known payment. *)
Definition recovered_in_full (w : World) : Prop := forall id c,
  w_cases w !! id = Some c -> case_status c = RECOVERED -> fully_credited c.

(** What a case has recovered is money, and at most the amount at risk. *)
Definition recovered_bounded (w : World) : Prop := forall id c,
  w_cases w !! id = Some c ->
  case_amount_recovered c = ZERO
  \/ exists m, as_money (case_amount_at_risk c) = Ok m
       /\ as_money (case_amount_recovered c) = Ok (case_amount_recovered c)
       /\ dec_leb (case_amount_recovered c) m = true.

(** Verified payments exist and belong to the merchant of the case. *)
Definition verified_known (w : World) : Prop := forall id c pid,
  w_cases w !! id = Some c -> case_verified_payment_id c = Some pid ->
  exists p, w_payments w !! pid = Some p /\ payment_merchant_id p = case_merchant_id c.

(** No payment counts, with a positive amount, on two cases. *)
Definition counted_once (w : World) : Prop := forall i j c d pid,
  w_cases w !! i = Some c -> w_cases w !! j = Some d ->
  case_verified_payment_id c = Some pid -> case_verified_payment_id d = Some pid ->
  dec_ltb ZERO (case_amount_recovered c) = true -> dec_ltb ZERO (case_amount_recovered d) = true ->
  i = j.

(** The attempts of one payment carry different numbers. *)
Definition attempts_distinct (w : World) : Prop := forall pid,
  NoDup (map attempt_attempt_number
           (List.filter (fun a => same (attempt_payment_id a) pid) (w_attempts w))).

(** The invariants together. *)
Record consistent (w : World) : Prop := {
  inv_closed : closed_iff_terminal w;
  inv_open : one_open_case w;
  inv_full : recovered_in_full w;
  inv_bounded : recovered_bounded w;
  inv_known : verified_known w;
  inv_once : counted_once w;
  inv_attempts : attempts_distinct w;
}.

(** ** Each is kept by every step *)

Lemma conflict_sym c d : open_case_conflict c d = open_case_conflict d c.
Proof.
  assert (forall (f : RecoveryCase -> option UUID),
    is_some (f c) && same (f c) (f d) = is_some (f d) && same (f d) (f c)) as Hf.
  { intros f. unfold same. destruct (f c), (f d); simpl; try done;
      apply bool_decide_ext; split; congruence. }
  unfold open_case_conflict. rewrite !Hf.
  assert (same (case_merchant_id c) (case_merchant_id d)
          = same (case_merchant_id d) (case_merchant_id c)) as ->
    by (unfold same; apply bool_decide_ext; split; congruence).
  by rewrite (andb_comm (same (case_closed_at c) None)).
Qed.

(** The subject of a case and its merchant, which decide conflicts. *)
Lemma conflict_open c c' d :
  case_identity c' = case_identity c ->
  (case_closed_at c' = None -> case_closed_at c = None) ->
  open_case_conflict c' d = true -> open_case_conflict c d = true.
Proof.
  intros Hi Ho. unfold case_identity in Hi. injection Hi as E1 _ E2 E3 E4 _ _ _ _ _.
  unfold open_case_conflict. rewrite E1, E2, E3, E4, !andb_true_iff.
  intros [[[H1%same_eq ->] ->] ->]. rewrite (Ho H1). done.
Qed.

Lemma change_identity settings id w c c' :
  case_change settings id w c c' -> case_identity c' = case_identity c.
Proof. intros H. by apply case_change_history in H as [Hi _]. Qed.

Section Kept.
Context (settings : RecoverySettings).

(** An invariant about single rows is kept by a step when it holds of fresh
    rows and is kept by a change. *)
Lemma step_row_invariant (P : UUID -> RecoveryCase -> Prop) l w w' :
  step settings l w w' ->
  (forall id c, fresh_case c -> P id c) ->
  (forall id c c', w_cases w !! id = Some c -> case_change settings id w c c' -> P id c -> P id c') ->
  (forall id c, w_cases w !! id = Some c -> P id c) ->
  forall id c, w_cases w' !! id = Some c -> P id c.
Proof using.
  intros Hs Hfresh Hch HP id c' Hc'.
  destruct (step_case_row _ _ _ _ _ _ Hs Hc') as [(c & Hc & H)|(_ & Hf & _)]; [|by apply Hfresh].
  eapply Hch; [done..|]. by apply HP.
Qed.

Lemma closed_kept l w w' :
  step settings l w w' -> closed_iff_terminal w -> closed_iff_terminal w'.
Proof using.
  intros Hs Hinv. refine (step_row_invariant (fun _ c =>
    case_closed_at c = None <-> terminal (case_status c) = false) _ _ _ Hs _ _ Hinv).
  - intros _ c [-> _ _ -> _]. done.
  - intros id c c' _ Hch Hc. destruct Hch; simpl; try done.
    by destruct (terminal target).
Qed.

Lemma change_open id w c c' :
  (case_closed_at c = None <-> terminal (case_status c) = false) ->
  case_change settings id w c c' -> case_closed_at c' = None -> case_closed_at c = None.
Proof using.
  intros Hc Hch. destruct Hch as [|target now Hl _|reason|]; simpl; try done.
  intros _. apply Hc. destruct (terminal (case_status c)) eqn:Ht; [|done].
  by rewrite (terminal_no_step _ _ Ht) in Hl.
Qed.

(** A step adds one key to the cases at most. *)
Lemma step_fresh_key l w w' i c' :
  step settings l w w' -> w_cases w !! i = None -> w_cases w' !! i = Some c' ->
  forall j d', w_cases w !! j = None -> w_cases w' !! j = Some d' -> i = j.
Proof using.
  intros Hs Hn Hc' j d' Hn' Hd'. destruct Hs; simpl in *; try congruence;
    apply lookup_insert_Some in Hc' as [[? _]|[_ ?]]; apply lookup_insert_Some in Hd' as [[? _]|[_ ?]];
    congruence.
Qed.

Lemma open_kept l w w' :
  step settings l w w' -> closed_iff_terminal w -> one_open_case w -> one_open_case w'.
Proof using.
  intros Hs Hcl Hone i j c' d' Hc' Hd' Hconf.
  destruct (step_case_row _ _ _ _ _ _ Hs Hc') as [(c & Hc & Hcc)|(Hn & Hf & _ & Hfree)];
    destruct (step_case_row _ _ _ _ _ _ Hs Hd') as [(d & Hd & Hdd)|(Hn' & Hf' & _ & Hfree')].
  - apply (Hone i j c d); [done..|].
    apply (conflict_open c c'); [by eapply change_identity|by eapply change_open; [apply (Hcl i)|]|].
    rewrite conflict_sym. apply (conflict_open d d');
      [by eapply change_identity|by eapply change_open; [apply (Hcl j)|]|].
    by rewrite conflict_sym.
  - exfalso. assert (open_case_conflict d' c = true); [|by rewrite (Hfree' i c) in *].
    rewrite conflict_sym. apply (conflict_open c c'); [by eapply change_identity| |done].
    by eapply change_open; [apply (Hcl i)|].
  - exfalso. assert (open_case_conflict c' d = true); [|by rewrite (Hfree j d) in *].
    rewrite conflict_sym. apply (conflict_open d d'); [by eapply change_identity| |].
    + by eapply change_open; [apply (Hcl j)|].
    + by rewrite conflict_sym.
  - by eapply step_fresh_key.
Qed.

Lemma full_kept l w w' : step settings l w w' -> recovered_in_full w -> recovered_in_full w'.
Proof using.
  intros Hs Hinv. refine (step_row_invariant (fun _ c =>
    case_status c = RECOVERED -> fully_credited c) _ _ _ Hs _ _ Hinv).
  - intros _ c [Hst _ _ _ _]. by rewrite Hst.
  - intros id c c' _ Hch Hc. by destruct Hch.
Qed.

Lemma dec_min_leb x y : dec_leb (dec_min x y) y = true.
Proof using.
  unfold dec_min. destruct (dec_ltb y x) eqn:H; [apply dec_leb_refl|].
  rewrite dec_ltb_leb in H. by apply negb_false_iff in H.
Qed.

Lemma bounded_kept l w w' : step settings l w w' -> recovered_bounded w -> recovered_bounded w'.
Proof using.
  intros Hs Hinv. refine (step_row_invariant (fun _ c => case_amount_recovered c = ZERO
    \/ exists m, as_money (case_amount_at_risk c) = Ok m
       /\ as_money (case_amount_recovered c) = Ok (case_amount_recovered c)
       /\ dec_leb (case_amount_recovered c) m = true) _ _ _ Hs _ _ Hinv).
  - intros _ c [_ _ Hr _ _]. by left.
  - intros id c c' _ Hch Hc. destruct Hch as [| | |pid p amount hook Hp Hcr Ha]; try done.
    right. destruct Ha as (cap & risk & Hcap & Hrisk & -> & _). exists risk. simpl.
    split; [done|]. split; [by eapply as_money_min|apply dec_min_leb].
Qed.

Lemma known_kept l w w' : step settings l w w' -> verified_known w -> verified_known w'.
Proof using.
  intros Hs Hinv id c' pid Hc' Hv.
  assert (forall p, w_payments w !! pid = Some p -> payment_merchant_id p = case_merchant_id c' ->
    exists p, w_payments w' !! pid = Some p /\ payment_merchant_id p = case_merchant_id c') as Hkeep.
  { intros p Hp Hm. destruct (step_payments _ _ _ _ Hs _ _ Hp) as (p' & Hp' & [Hi _ _]).
    exists p'. split; [done|]. unfold payment_identity in Hi. congruence. }
  destruct (step_case_row _ _ _ _ _ _ Hs Hc') as [(c & Hc & Hch)|(_ & [_ _ _ _ Hf] & _)]; [|congruence].
  pose proof (change_identity _ _ _ _ _ Hch) as Hi. unfold case_identity in Hi.
  injection Hi as Hm _ _ _ _ _ _ _ _ _.
  assert (case_verified_payment_id c = Some pid -> exists p,
    w_payments w' !! pid = Some p /\ payment_merchant_id p = case_merchant_id c') as Hold.
  { intros Hvc. destruct (Hinv _ _ _ Hc Hvc) as (p & Hp & Hpm). apply (Hkeep p Hp). congruence. }
  destruct Hch as [| | |pid' p amount hook Hp [Hcm] _ _ _ _]; try (by apply Hold).
  simpl in Hv. injection Hv as ->. by apply (Hkeep p).
Qed.

Lemma step_one_key l w w' i j :
  step settings l w w' -> i <> j ->
  w_cases w' !! i = w_cases w !! i \/ w_cases w' !! j = w_cases w !! j.
Proof using.
  intros Hs Hij. destruct Hs; simpl; try (by left);
    (destruct (decide (i = id)) as [->|]; [right|left]; by rewrite lookup_insert_ne).
Qed.

(** A case counted for [pid] before the step, at another key. *)
Lemma once_one_side l w w' i j c' d pid :
  step settings l w w' -> verified_known w -> counted_once w -> i <> j ->
  w_cases w' !! i = Some c' -> w_cases w !! j = Some d ->
  case_verified_payment_id c' = Some pid -> case_verified_payment_id d = Some pid ->
  dec_ltb ZERO (case_amount_recovered c') = true -> dec_ltb ZERO (case_amount_recovered d) = true ->
  False.
Proof using.
  intros Hs Hk Hone Hij Hc' Hd Hv Hvd Hpos Hposd.
  destruct (step_case_row _ _ _ _ _ _ Hs Hc') as [(c & Hc & Hch)|(_ & [_ _ _ _ Hf] & _)]; [|congruence].
  destruct Hch as [| | |pid' p amount hook Hp [Hcm] _ _ _ Hce];
    try (apply Hij; by eapply (Hone i j c d)).
  simpl in Hv. injection Hv as ->. unfold counted_elsewhere in Hce. rewrite existsb_elem_false in Hce.
  assert (negb (same j i) = false) as Hji; [|by apply negb_false_iff, same_eq in Hji].
  apply (Hce (j, d)). apply elem_of_rows_where. split; [done|].
  destruct (Hk _ _ _ Hd Hvd) as (p' & Hp' & Hpm). simplify_eq.
  by rewrite Hvd, Hposd, <- Hpm, Hcm, !same_refl.
Qed.

Lemma once_kept l w w' :
  step settings l w w' -> verified_known w -> counted_once w -> counted_once w'.
Proof using.
  intros Hs Hk Hone i j c' d' pid Hc' Hd' Hvc Hvd Hpc Hpd.
  destruct (decide (i = j)) as [|Hij]; [done|exfalso].
  destruct (step_one_key _ _ _ i j Hs Hij) as [E|E].
  - rewrite E in Hc'. eapply (once_one_side _ _ _ j i); eauto.
  - rewrite E in Hd'. eapply (once_one_side _ _ _ i j); eauto.
Qed.

Lemma attempts_kept l w w' : step settings l w w' -> attempts_distinct w -> attempts_distinct w'.
Proof using.
  intros Hs Hinv. destruct Hs as [| | | | | | |a w Ha| | | | | | | | | | | | | | | | | | | | | |]; try done.
  intros pid. simpl. rewrite List.filter_app, map_app. simpl.
  destruct (same (attempt_payment_id a) pid) eqn:Hp; [|rewrite app_nil_r; apply Hinv].
  apply same_eq in Hp. subst pid. apply list.NoDup_app. split; [apply Hinv|].
  split; [|apply list.NoDup_singleton]. intros x Hx Ha'.
  apply list_elem_of_singleton in Ha' as ->. apply list_elem_of_fmap in Hx as (b & E & Hb).
  apply list_elem_of_In, filter_In in Hb as [Hb%list_elem_of_In Hid].
  rewrite existsb_elem_false in Ha. specialize (Ha b Hb). unfold attempt_conflict in Ha.
  apply same_eq in Hid. by rewrite Hid, E, !same_refl in Ha.
Qed.

(** Every invariant is kept by every step. *)
Lemma consistent_kept l w w' : step settings l w w' -> consistent w -> consistent w'.
Proof using.
  intros Hs [? ? ? ? ? ? ?].
  split; eauto using closed_kept, open_kept, full_kept, bounded_kept, known_kept, once_kept, attempts_kept.
Qed.

Lemma runs_consistent A w w' : runs settings A w w' -> consistent w -> consistent w'.
Proof using.
  apply (runs_ind _ _ (keeps consistent)). intros l x y _ Hs Hx. by eapply consistent_kept.
Qed.
End Kept.

(** * Invariants of the records of executions

    Idempotency keys are recorded once and keep their request; recorded calls hold no
    sensitive key, recorded agent runs no secret. Each is proved on the steps of the abstract system. *)

(** A key is recorded once for a merchant: [uq_idempotency_keys_merchant_key]. *)
Definition keys_distinct (w : World) : Prop :=
  forall i j k l, w_idempotency w !! i = Some k -> w_idempotency w !! j = Some l ->
    idem_merchant_id k = idem_merchant_id l -> idem_key k = idem_key l -> i = j.

Definition calls_clean (w : World) : Prop := forall id t, w_tool_calls w !! id = Some t -> call_clean t.

(** Recorded agent runs hold no secret key. *)
Definition agent_runs_clean (w : World) : Prop := forall id r, w_agent_runs w !! id = Some r -> run_clean r.

(** The key of a row names the same request for ever. *)
Definition same_request (k k' : IdempotencyKey) : Prop := key_identity k' = key_identity k.

#[export] Instance same_request_preorder : PreOrder same_request.
Proof. split; [done|]. intros x y z. unfold same_request. congruence. Qed.

Section Kept.
Context (settings : RecoverySettings) (A : list label).
Notation R := (runs settings A).

Lemma keys_set m w : w_idempotency (set_w_idempotency m w) = m.
Proof using. done. Qed.
Lemma calls_set m w : w_tool_calls (set_w_tool_calls m w) = m.
Proof using. done. Qed.

Lemma key_identity_names k k' : key_identity k' = key_identity k ->
  idem_merchant_id k' = idem_merchant_id k /\ idem_key k' = idem_key k.
Proof using. destruct k, k'. unfold key_identity. simpl. intros H. by simplify_eq. Qed.

Lemma same_refl' {B} `{EqDecision B} (a : B) : same a a = true.
Proof using. by apply bool_decide_eq_true. Qed.

Lemma keys_kept l w w' : step settings l w w' -> keys_distinct w -> keys_distinct w'.
Proof using.
  intros Hs Hd. destruct Hs as [| | | | | | | | | | | | | | | | | | | |t w Hk Hc Hru|id k w Hnone Hconf|
    id k k' w Hk Hid| | | | | | |]; try exact Hd.
  - unfold keys_distinct. change (w_idempotency (set_w_side t w)) with (t_idempotency t). by rewrite Hk.
  - intros i j a b. rewrite !keys_set, !lookup_insert_Some.
    intros [[<- <-]|[Hi Ha]] [[<- <-]|[Hj Hb]] Hm Hkey; [done| | |by apply (Hd i j a b)].
    + specialize (Hconf j b Hb). unfold key_conflict in Hconf. by rewrite Hm, Hkey, !same_refl' in Hconf.
    + specialize (Hconf i a Ha). unfold key_conflict in Hconf. by rewrite Hm, Hkey, !same_refl' in Hconf.
  - destruct (key_identity_names _ _ Hid) as [Em Ek]. intros i j a b. rewrite !keys_set, !lookup_insert_Some.
    intros [[<- <-]|[Hi Ha]] [[<- <-]|[Hj Hb]] Hm Hkey; [done| | |by apply (Hd i j a b)];
      rewrite ?Em, ?Ek in *; [by apply (Hd _ _ k b)|by apply (Hd _ _ a k)].
Qed.

Lemma runs_keys w w' : R w w' -> keys_distinct w -> keys_distinct w'.
Proof using.
  apply (runs_ind _ _ (keeps keys_distinct)). intros l x y _ Hs Hx. by eapply keys_kept.
Qed.

Lemma step_requests l w w' : step settings l w w' -> rows_evolve w_idempotency same_request w w'.
Proof using.
  intros Hs. destruct Hs as [| | | | | | | | | | | | | | | | | | | |t w Hk Hc Hru|id k w Hnone Hconf|
    id k k' w Hk Hid| | | | | | |]; try (intros i row Hrow; by exists row).
  - intros i r Hr. exists r. split; [|reflexivity].
    change (w_idempotency (set_w_side t w)) with (t_idempotency t). by rewrite Hk.
  - unfold rows_evolve. rewrite keys_set. apply insert_evolves; [apply _|]. intros q Hq. congruence.
  - unfold rows_evolve. rewrite keys_set. apply insert_evolves; [apply _|]. intros q Hq. assert (q = k) as -> by congruence. exact Hid.
Qed.

Lemma runs_requests w w' : R w w' -> rows_evolve w_idempotency same_request w w'.
Proof using. apply runs_ind; [apply _|]. intros l x y _. apply step_requests. Qed.

Lemma calls_kept l w w' : step settings l w w' -> calls_clean w -> calls_clean w'.
Proof using.
  intros Hs Hc. destruct Hs as [| | | | | | | | | | | | | | | | | | | |t w Hk Ht Hru| | |id t w Hnone Hclean|
    id t t' w Ht Hid Hclean| | | | |]; try exact Hc.
  - unfold calls_clean. change (w_tool_calls (set_w_side t w)) with (t_calls t). by rewrite Ht.
  - intros i r. rewrite calls_set. intros [[<- <-]|[_ Hr]]%lookup_insert_Some; [done|by apply (Hc i)].
  - intros i r. rewrite calls_set. intros [[<- <-]|[_ Hr]]%lookup_insert_Some; [by apply Hclean, (Hc id)|by apply (Hc i)].
Qed.

Lemma runs_calls w w' : R w w' -> calls_clean w -> calls_clean w'.
Proof using.
  apply (runs_ind _ _ (keeps calls_clean)). intros l x y _ Hs Hx. by eapply calls_kept.
Qed.

(** Agent runs. *)
Lemma agent_runs_set m w : w_agent_runs (set_w_agent_runs m w) = m.
Proof using. done. Qed.

Lemma summaries_kept l w w' : step settings l w w' -> agent_runs_clean w -> agent_runs_clean w'.
Proof using.
  intros Hs Hc. destruct Hs as [| | | | | | | | | | | | | | | | | | | |t w Hk Ht Hru| | | | |id r w Hnone Hclean|
    id r r' w Hr Hid Hclean| | |]; try exact Hc.
  - unfold agent_runs_clean. change (w_agent_runs (set_w_side t w)) with (t_agent_runs t). by rewrite Hru.
  - intros i q. rewrite agent_runs_set. intros [[<- <-]|[_ Hq]]%lookup_insert_Some; [done|by apply (Hc i)].
  - intros i q. rewrite agent_runs_set. intros [[<- <-]|[_ Hq]]%lookup_insert_Some; [by apply Hclean, (Hc id)|by apply (Hc i)].
Qed.

Lemma runs_summaries w w' : R w w' -> agent_runs_clean w -> agent_runs_clean w'.
Proof using.
  apply (runs_ind _ _ (keeps agent_runs_clean)). intros l x y _ Hs Hx. by eapply summaries_kept.
Qed.
End Kept.
