(* ===== verification/Ingestion.v ===== *)
(** * Ingesting a provider event

    [recoverai_domain/ingestion.py]: an inbound event is validated, stored once
    per provider and event id, and queued for processing. The second part holds its theorems. *)
From S2P Require Import Prelude PyStr Uuid Errors Decimal Json Datetime Enums Rows Store Repositories StateMachine Transitions Config Events VerificationTypes Processing Processor Verification Lifecycle Refinement ProcessorProps ProcessingTheorems.
Open Scope stdpp_scope.

Record IngestResult : Type := mk_IngestResult {
  in_webhook_event_id : UUID;
  in_event_id : string;
  in_status : WebhookEventStatus.t;
  in_duplicate : bool;
  in_queued : bool;
  in_merchant_id : UUID;
  in_correlation_id : option string;
}.

(** Keys that may hold credentials. *)
Definition blocked_keys : list string :=
  ["authorization"; "signature"; "secret"; "api_key"; "key_secret"; "webhook_secret"].
Definition _safe_payload (payload : dict) : dict :=
  List.filter (fun kv => negb (mem_str (lower kv.1) blocked_keys)) payload.

Definition blank (s : string) : bool := negb (nonempty (strip s)).

Definition _validate (event : ProviderEvent) : result exn unit :=
  if blank (pe_event_id event)
  then Raise (IngestionError "INVALID_PROVIDER_EVENT" "event_id is required" 400)
  else if blank (pe_event_type event)
  then Raise (IngestionError "INVALID_PROVIDER_EVENT" "event_type is required" 400)
  else if negb (nonempty (pe_provider_resource_id event))
          && negb (truthy (dict_get "provider_payment_id" (pe_payload event)))
          && mem_str (pe_event_type event)
               ["payment.failed"; "payment.captured"; "payment.refunded"]
  then Raise (IngestionError "INVALID_PAYMENT_REFERENCE"
                "provider_resource_id is required for payment events" 400)
  else Ok tt.

(** The statuses a duplicate is queued again in. *)
Definition requeue_statuses : list WebhookEventStatus.t :=
  [WebhookEventStatus.RECEIVED; WebhookEventStatus.PROCESSING; WebhookEventStatus.FAILED].

Section Ingestion.
(** [queue.enqueue_process_provider_event]: [None] when it raises. *)
Context (enqueue : list UUID -> UUID -> option (list UUID)).
(** What other transactions commit before the insert. *)
Context (concurrent : World -> World).

(** [try: enqueue; queued = True except Exception: log] *)
Definition try_enqueue (queue : list UUID) (id : UUID) : list UUID * bool :=
  match enqueue queue id with Some q => (q, true) | None => (queue, false) end.

Definition system_audit (merchant_id : UUID) (event_type summary action : string)
  (new_state correlation_id idempotency_key : option string) (metadata : dict) : Op unit :=
  record_audit merchant_id event_type summary
    (mk_AuditArgs None (value ActorType.SYSTEM) None (Some action) None new_state
       correlation_id idempotency_key (Some metadata)).

Definition _handle_duplicate (existing : UUID) (queue : list UUID) (correlation_id : option string)
  : Op (IngestResult * list UUID) :=
  e ← get_row w_webhooks existing;
  let should_requeue := bool_decide (hook_status e ∈ requeue_statuses) in
  let correlation := or_str correlation_id (hook_correlation_id e) in
  system_audit (hook_merchant_id e) "DUPLICATE_EVENT_IGNORED"
    "Duplicate provider event ignored; no additional side effects" "ingest_duplicate"
    (Some (value (hook_status e))) correlation
    (Some (hook_provider e +:+ ":" +:+ hook_event_id e))
    [("provider", JStr (hook_provider e)); ("event_id", JStr (hook_event_id e));
     ("webhook_event_id", JStr (uuid_str existing));
     ("existing_status", JStr (value (hook_status e))); ("requeued", JBool should_requeue)];;
  let '(queue, queued) := if should_requeue then try_enqueue queue existing else (queue, false) in
  mret (mk_IngestResult existing (hook_event_id e) (hook_status e) true queued
          (hook_merchant_id e) correlation, queue).

Definition new_webhook (event : ProviderEvent) (merchant_id : UUID) (correlation_id : option string)
  (now : Z) : WebhookEvent :=
  let payload := _safe_payload (pe_payload event) in
  let payload := if has_key "occurred_at" payload then payload
                 else dict_set "occurred_at" (JStr (isoformat (pe_occurred_at event))) payload in
  mk_WebhookEvent merchant_id (if nonempty (pe_provider event) then pe_provider event else "SIMULATOR")
    (pe_event_id event) (pe_event_type event) (pe_signature_valid event)
    WebhookEventStatus.RECEIVED payload now None None None correlation_id.

Definition ingest (event : ProviderEvent) (merchant_id : UUID) (queue : list UUID)
  (request_id : option string) : Op (IngestResult * list UUID) :=
  lift (_validate event);;
  merchant ← gets (MerchantRepository.get_merchant merchant_id);
  match merchant with
  | None => mthrow (IngestionError "MISSING_MERCHANT" "Merchant was not found" 404)
  | Some _ =>
      let correlation_id := or_str (pe_correlation_id event) request_id in
      let lookup := WebhookEventRepository.get_by_provider_event_id (pe_provider event)
                      (pe_event_id event) in
      existing ← gets lookup;
      match existing with
      | Some existing => _handle_duplicate existing queue correlation_id
      | None =>
          now ← utcnow;
          inserted ← try_except
            (flush;; modify concurrent;;
             id ← insert_webhook (new_webhook event merchant_id correlation_id now);
             mret (inl id))
            (fun e => if is_integrity_error e then mret (inr e) else mthrow e);
          match inserted with
          | inr e =>
              duplicate ← gets lookup;
              match duplicate with
              | None => mthrow e
              | Some duplicate => _handle_duplicate duplicate queue correlation_id
              end
          | inl id =>
              system_audit merchant_id "PROVIDER_EVENT_RECEIVED"
                "Provider event received and queued for processing" "ingest"
                (Some (value WebhookEventStatus.RECEIVED)) correlation_id
                (Some (pe_provider event +:+ ":" +:+ pe_event_id event))
                [("provider", JStr (pe_provider event)); ("event_id", JStr (pe_event_id event));
                 ("event_type", JStr (pe_event_type event));
                 ("webhook_event_id", JStr (uuid_str id))];;
              let '(queue, queued) := try_enqueue queue id in
              mret (mk_IngestResult id (pe_event_id event) WebhookEventStatus.RECEIVED false
                      queued merchant_id correlation_id, queue)
          end
      end
  end.
End Ingestion.

(** ** Lemmas *)

Lemma ingestion_in_all : INGESTION ⊆ ALL.
Proof. unfold INGESTION, ALL, VERIFIER, PROCESSOR. set_solver. Qed.

Section Props.
Context (settings : RecoverySettings) (enqueue : list UUID -> UUID -> option (list UUID)).
Context (concurrent : World -> World).
(** Any labels that include those of an ingestion, which the other transactions use too. *)
Context (A : list label) (HA : INGESTION ⊆ A).
Context (Hrely : forall w, runs settings A w (concurrent w)).
Notation R := (runs settings A).

Lemma runs_rely : preserves R (modify concurrent : Op unit).
Proof using All. intros w. apply Hrely. Qed.
#[local] Hint Resolve runs_rely : pres.

Lemma runs_ingestion_time : preserves R utcnow.
Proof using HA. apply (preserves_mono _ INGESTION); [done|]. apply runs_utcnow. solve_label. Qed.
Lemma runs_ingestion_insert e : preserves R (insert_webhook e).
Proof using HA. apply (preserves_mono _ INGESTION); [done|]. apply runs_insert_webhook; solve_label. Qed.
#[local] Hint Resolve runs_ingestion_time runs_ingestion_insert : pres.

Lemma runs_system_audit m ty s a ns co ik md : preserves R (system_audit m ty s a ns co ik md).
Proof using HA.
  apply (preserves_mono _ INGESTION); [done|]. apply runs_record_audit; solve_label.
Qed.
#[local] Hint Resolve runs_system_audit : pres.

Lemma runs_handle_duplicate id q c : preserves R (_handle_duplicate enqueue id q c).
Proof using HA. unfold _handle_duplicate. solve_pres. Qed.
#[local] Hint Resolve runs_handle_duplicate : pres.

(** [ingest] refines the abstract system. *)
Lemma runs_ingest event m q r : preserves R (ingest enqueue concurrent event m q r).
Proof using All. unfold ingest. solve_pres. Qed.
End Props.

(** * What ingestion stores

    One row per provider event, without credentials; duplicates change no row. *)

(** ** Payloads *)

Lemma safe_payload_spec d k v :
  (k, v) ∈ _safe_payload d <-> (k, v) ∈ d /\ mem_str (lower k) blocked_keys = false.
Proof.
  unfold _safe_payload. rewrite !list_elem_of_In, filter_In. simpl.
  by rewrite negb_true_iff.
Qed.

Lemma dict_set_absent k v d : has_key k d = false -> dict_set k v d = d ++ [(k, v)].
Proof.
  unfold has_key. induction d as [|[k' v'] d IH]; simpl; [done|].
  destruct (String.eqb k k'); simpl; [done|]. intros H. by rewrite IH.
Qed.

Lemma has_key_last k v d : has_key k (d ++ [(k, v)]) = true.
Proof.
  unfold has_key. induction d as [|[k' v'] d IH]; cbn [app lookup_key]; [by rewrite String.eqb_refl|].
  by destruct (String.eqb k k').
Qed.

(** ** The store after a request *)

Section Ingest.
Context (enqueue : list UUID -> UUID -> option (list UUID)).

Lemma handle_duplicate_returns id queue c w :
  returns (_handle_duplicate enqueue id queue c) w (fun r w' =>
    exists e, w_webhooks w !! id = Some e
      /\ w_webhooks w' = w_webhooks w /\ domain_tables w' = domain_tables w
      /\ in_duplicate r.1 = true /\ in_webhook_event_id r.1 = id /\ in_status r.1 = hook_status e
      /\ (hook_final e = true -> r.2 = queue /\ in_queued r.1 = false)).
Proof.
  apply returns_get_row. intros e He.
  eapply (returns_bind _ _ _ _ (fun _ w1 => w_webhooks w1 = w_webhooks w /\ domain_tables w1 = domain_tables w)).
  { intros w1 [] H. unfold system_audit in H. rewrite record_audit_run in H. by injection H as <-. }
  intros [] w1 [Hw1 Ht1]. destruct (if bool_decide (hook_status e ∈ requeue_statuses) then try_enqueue enqueue queue id else (queue, false)) as [q queued] eqn:Hq.
  apply returns_ret. exists e. split; [done|]. split; [done|]. split; [done|].
  split; [done|]. split; [done|]. split; [done|]. intros Hf. simpl.
  assert (bool_decide (hook_status e ∈ requeue_statuses) = false) as Hr.
  { unfold hook_final in Hf. by destruct (hook_status e). }
  rewrite Hr in Hq. by injection Hq as <- <-.
Qed.

Lemma insert_webhook_returns e w :
  returns (insert_webhook e) w (fun id w' =>
    w_webhooks w !! id = None /\ w_webhooks w' = <[id := e]> (w_webhooks w)
    /\ domain_tables w' = domain_tables w).
Proof.
  intros w' id. unfold insert_webhook, uuid4, mbind, m_bind, get, gets, modify. simpl.
  destruct (_ || _) eqn:Hg; [done|]. intros [= <- <-].
  apply orb_false_iff in Hg as [Hg%is_some_false _]. done.
Qed.

Lemma insert_webhook_raises e w w' x :
  insert_webhook e w = (w', Raise x) -> w_webhooks w' = w_webhooks w.
Proof.
  unfold insert_webhook, uuid4, mbind, m_bind, get, gets, modify. simpl.
  destruct (_ || _); [by intros [= <- _]|done].
Qed.

(** The row a request finds or stores. *)
Definition ingested (event : ProviderEvent) (merchant_id : UUID) (request_id : option string)
  (queue : list UUID) (w : World) (r : IngestResult * list UUID) (w' : World) : Prop :=
  domain_tables w' = domain_tables w
  /\ match WebhookEventRepository.get_by_provider_event_id (pe_provider event) (pe_event_id event) w with
     | Some id => exists e, w_webhooks w !! id = Some e /\ w_webhooks w' = w_webhooks w
         /\ in_duplicate r.1 = true /\ in_webhook_event_id r.1 = id /\ in_status r.1 = hook_status e
         /\ (hook_final e = true -> r.2 = queue /\ in_queued r.1 = false)
     | None => exists now, w_webhooks w !! in_webhook_event_id r.1 = None
         /\ w_webhooks w' = <[in_webhook_event_id r.1 :=
              new_webhook event merchant_id (or_str (pe_correlation_id event) request_id) now]> (w_webhooks w)
         /\ in_duplicate r.1 = false /\ in_status r.1 = WebhookEventStatus.RECEIVED
     end.

Lemma returns_ingest event merchant_id queue request_id w :
  returns (ingest enqueue alone event merchant_id queue request_id) w (fun r w' =>
    ingested event merchant_id request_id queue w r w').
Proof.
  unfold ingest. apply returns_lift. intros [] _. apply returns_gets.
  destruct (MerchantRepository.get_merchant merchant_id w); [|apply returns_throw].
  apply returns_gets. unfold ingested.
  destruct (WebhookEventRepository.get_by_provider_event_id _ _ w) as [id|] eqn:Hfound.
  { eapply returns_mono; [apply handle_duplicate_returns|]. intros r w' (e & ? & ? & ? & ?). eauto. }
  eapply (returns_bind _ _ _ _ (fun _ w1 => w_webhooks w1 = w_webhooks w /\ domain_tables w1 = domain_tables w)).
  { by intros w1 t [= <- <-]. }
  intros now w1 [Hw1 Ht1].
  set (e := new_webhook event merchant_id _ now).
  eapply (returns_bind _ _ _ _ (fun r w2 => match r with
    | inl id => w_webhooks w1 !! id = None /\ w_webhooks w2 = <[id := e]> (w_webhooks w1)
                /\ domain_tables w2 = domain_tables w1
    | inr _ => w_webhooks w2 = w_webhooks w1
    end)).
  - apply returns_try.
    + eapply returns_bind; [apply returns_flush|]. intros [] w2 ->.
      eapply (returns_bind _ _ _ _ (fun _ w2 => w2 = w1)); [by intros w2 [] [= <-]|]. intros [] w2 ->.
      eapply returns_bind; [apply insert_webhook_returns|]. intros id w2 H. by apply returns_ret.
    + intros x w2 Hx.
      assert (w_webhooks w2 = w_webhooks w1) as Hkeep.
      { unfold mbind, m_bind in Hx. rewrite flush_run in Hx. destruct (db_checks w1); [|by injection Hx as <- _].
        simpl in Hx. destruct (insert_webhook e (alone w1)) as [w3 [id|y]] eqn:Hi; [done|].
        injection Hx as <- <-. by apply insert_webhook_raises in Hi. }
      destruct (is_integrity_error x); [by apply returns_ret|apply returns_throw].
  - intros [id|x] w2 Hw2.
    + eapply (returns_bind _ _ _ _ (fun _ w3 => w_webhooks w3 = w_webhooks w2 /\ domain_tables w3 = domain_tables w2)).
      { intros w3 [] H. unfold system_audit in H. rewrite record_audit_run in H. by injection H as <-. }
      intros [] w3 [Hw3 Ht3]. destruct (try_enqueue enqueue queue id) as [q queued].
      apply returns_ret. destruct Hw2 as (Hn & Hi & Ht2). simpl. split; [congruence|].
      exists now. rewrite Hw3, Hi, Hw1. rewrite Hw1 in Hn. done.
    + apply returns_gets.
      assert (WebhookEventRepository.get_by_provider_event_id (pe_provider event) (pe_event_id event) w2 = None) as ->;
        [|apply returns_throw].
      unfold WebhookEventRepository.get_by_provider_event_id in *. by rewrite Hw2, Hw1.
Qed.
End Ingest.

(** ** Properties *)

(** C36. Ingestion is idempotent: an event whose provider and id are already stored is
    answered with the stored row and its status, changes no row, and is queued again only
    while that row is not finished; any other event is stored in exactly one new row,
    RECEIVED; and no payment, case or action is touched either way. *)
Theorem ingestion_is_idempotent enqueue event merchant_id queue request_id w w' r :
  ingest enqueue alone event merchant_id queue request_id w = (w', Ok r) ->
  ingested event merchant_id request_id queue w r w'.
Proof. apply returns_ingest. Qed.

(** A stored payload carries no credentials: none of its keys is one of the blocked
    names in any capitalisation, every other entry of the event's payload is kept, and it
    always says when the event occurred. *)
Theorem stored_payload_is_safe event merchant_id correlation_id now :
  let payload := hook_payload (new_webhook event merchant_id correlation_id now) in
  (forall k v, (k, v) ∈ payload -> mem_str (lower k) blocked_keys = false)
  /\ (forall k v, (k, v) ∈ pe_payload event -> mem_str (lower k) blocked_keys = false -> (k, v) ∈ payload)
  /\ has_key "occurred_at" payload = true.
Proof.
  cbv zeta. unfold new_webhook. cbn [hook_payload].
  destruct (has_key "occurred_at" (_safe_payload (pe_payload event))) eqn:Hk.
  - split; [|split; [|done]].
    + intros k v H. by apply safe_payload_spec in H as [_ H].
    + intros k v H Hb. by apply safe_payload_spec.
  - rewrite dict_set_absent by done. split; [|split].
    + intros k v [[_ H]%safe_payload_spec|H]%elem_of_app; [done|].
      apply list_elem_of_singleton in H as [= -> ->]. reflexivity.
    + intros k v H Hb. apply elem_of_app. left. by apply safe_payload_spec.
    + apply has_key_last.
Qed.
