(* ===== verification/Worker.v ===== *)
(** * Worker jobs

    [recoverai_domain/followups.py] and [apps/worker/recoverai_worker/jobs.py]:
    each job runs one operation in a transaction of its own, commits it or rolls
    it back, and hands the follow-up jobs to the queue. *)
From S2P Require Import Prelude PyStr Uuid Errors Decimal Json Datetime Enums Rows Store Repositories StateMachine Transitions Config VerificationTypes Events Processing Processor Verification.
Open Scope stdpp_scope.

(** ** Transactions *)

(** The store a rollback leaves: the rows of [w]; clock readings and drawn
    identifiers are not taken back. *)
Definition rolled_back (w w' : World) : World := set_w_ticks (w_ticks w') (set_w_draws (w_draws w') w).

(** [op; session.commit()], rolled back when either raises; the commit flushes,
    so the constraints are checked. *)
Definition transaction {A} (op : Op A) : Op A := fun w =>
  match op w with
  | (w', Ok a) =>
      if db_checks w' then (w', Ok a)
      else (rolled_back w w', Raise (IntegrityError "CHECK constraint violated"))
  | (w', Raise e) => (rolled_back w w', Raise e)
  end.

(** [UUID(text)] *)
Definition parse_uuid (text : string) : result exn UUID :=
  ok_or (ValueError "badly formed hexadecimal UUID string") (uuid_of_str text).

Section Worker.
(** The process environment, and what other transactions commit meanwhile. *)
Context (environ : list (string * string)) (concurrent : World -> World).

(** ** [followups.py] *)

Definition optional_uuid_of (v : json) : result exn (option UUID) :=
  match v with JStr s => u ← parse_uuid s; mret (Some u) | _ => mret None end.

(** One item of the list: the results it appends. *)
Definition apply_followup (item : json) : Op (list dict) :=
  match item with
  | JObj d =>
      match dict_get "case_id" d with
      | JStr case_raw =>
          case_id ← lift (parse_uuid case_raw);
          payment_id ← lift (optional_uuid_of (dict_get "payment_id" d));
          webhook_event_id ← lift (optional_uuid_of (dict_get "webhook_event_id" d));
          match dict_get "name" d with
          | JStr "process_recovery_case" =>
              r ← process_recovery_case environ case_id None; mret [r]
          | JStr "verify_recovery_case" =>
              r ← verify_recovery_case environ case_id payment_id webhook_event_id None; mret [r]
          | _ => mret []
          end
      | _ => mret []
      end
  | _ => mret []
  end.

Definition apply_followups (followups : json) : Op (list dict) :=
  match followups with
  | JList items => results ← map_each apply_followup items; mret (concat results)
  | _ => mret []
  end.

(** ** [jobs.py] *)

(** A job on the queue: the function, its arguments and the retries. *)
Record QueuedJob : Type := mk_QueuedJob {
  q_function : string;
  q_args : list json;
  q_retries : option Z;
}.

(** [settings.database_url is not None]; [queue.enqueue], [None] when it raises;
    [will_retry()], which reads the job RQ is running. *)
Context (database_configured : bool) (worker_max_retries : Z).
Context (enqueue : list QueuedJob -> QueuedJob -> option (list QueuedJob)).
Context (will_retry : bool).

Definition RuntimeError (m : string) : exn := PyError "RuntimeError" m.

Definition require_database (message : string) : Op unit :=
  if database_configured then mret tt else mthrow (RuntimeError message).

Definition process_recovery_case_job (case_id : string) : Op dict :=
  require_database "DATABASE_URL is required to process recovery cases";;
  try_except
    (transaction (id ← lift (parse_uuid case_id); process_recovery_case environ id None))
    (fun exc =>
       if is_domain_error exc && negb (exn_retryable exc)
       then mret [("status", JStr "error"); ("code", JStr (exn_code exc)); ("case_id", JStr case_id)]
       else mthrow exc).

(** [UUID(s) if s else None] *)
Definition uuid_if (s : option string) : result exn (option UUID) :=
  match s with
  | Some s => if nonempty s then u ← parse_uuid s; mret (Some u) else mret None
  | None => mret None
  end.

Definition verify_recovery_case_job (case_id : string) (payment_id webhook_event_id : option string)
  : Op dict :=
  require_database "DATABASE_URL is required to verify recovery cases";;
  try_except
    (transaction
       (id ← lift (parse_uuid case_id);
        pid ← lift (uuid_if payment_id);
        hook ← lift (uuid_if webhook_event_id);
        verify_recovery_case environ id pid hook None))
    (fun exc =>
       if is_domain_error exc && negb (exn_retryable exc)
       then mret [("status", JStr "error"); ("code", JStr (exn_code exc));
                  ("case_id", JStr case_id); ("matched", JBool false)]
       else mthrow exc).

(** What a worker runs for a job of the queue: the module's function of that name,
    on the arguments the queue carries. *)
Definition perform (job : QueuedJob) : Op dict :=
  match q_function job, q_args job with
  | "recoverai_worker.jobs.process_recovery_case", [JStr case_id] =>
      process_recovery_case_job case_id
  | "recoverai_worker.jobs.verify_recovery_case", [JStr case_id; payment_id; webhook_event_id] =>
      verify_recovery_case_job case_id (as_str payment_id) (as_str webhook_event_id)
  | _, _ => mthrow (PyError "TypeError" "unexpected job arguments")
  end.

(** The job a follow-up item is queued as. *)
Definition queued_job (item : json) : option QueuedJob :=
  let retry := if (0 <? worker_max_retries)%Z then Some worker_max_retries else None in
  match item with
  | JObj d =>
      match dict_get "case_id" d, dict_get "name" d with
      | JStr case_id, JStr "process_recovery_case" =>
          Some (mk_QueuedJob "recoverai_worker.jobs.process_recovery_case" [JStr case_id] retry)
      | JStr case_id, JStr "verify_recovery_case" =>
          Some (mk_QueuedJob "recoverai_worker.jobs.verify_recovery_case"
                  [JStr case_id; dict_get "payment_id" d; dict_get "webhook_event_id" d] retry)
      | _, _ => None
      end
  | _ => None
  end.

(** The loop of [_enqueue_followups]: the queue it leaves, and whether it went
    through. *)
Fixpoint enqueue_items (queue : list QueuedJob) (items : list json) : list QueuedJob * bool :=
  match items with
  | [] => (queue, true)
  | item :: items =>
      match queued_job item with
      | None => enqueue_items queue items
      | Some job =>
          match enqueue queue job with
          | Some queue => enqueue_items queue items
          | None => (queue, false)
          end
      end
  end.

Definition _enqueue_followups (queue : list QueuedJob) (followups : json) : list QueuedJob * bool :=
  match followups with JList items => enqueue_items queue items | _ => (queue, true) end.

Definition _apply_followups_now (followups : json) : Op unit :=
  if database_configured then transaction (apply_followups followups);; mret tt else mret tt.

(** [process_provider_event]: the result and the queue. *)
Definition process_provider_event (queue : list QueuedJob) (webhook_event_id : string)
  : Op (ProcessResult * list QueuedJob) :=
  require_database "DATABASE_URL is required to process provider events";;
  result ← try_except
    (transaction (id ← lift (parse_uuid webhook_event_id); process_webhook_event concurrent id))
    (fun exc =>
       when (negb will_retry)
         (transaction (id ← lift (parse_uuid webhook_event_id);
                       mark_dead_letter id "bounded retries exhausted"));;
       mthrow exc);
  let followups := JList (map JObj (pr_followups result)) in
  let '(queue, queued) := _enqueue_followups queue followups in
  when (negb queued) (_apply_followups_now followups);;
  mret (result, queue).
End Worker.
