(* ===== verification/ToolHandlers.v ===== *)
(** * What the tools do

    [recoverai_domain/tools/handlers.py]: a handler per tool, and [apply_case_outcome],
    which moves the case after a success. *)
From S2P Require Import Prelude PyStr Uuid Errors Decimal PyFloat Random Json Datetime Enums Rows Store Repositories StateMachine Transitions OptimizerService Events Providers Simulator Processing Ingestion.
Open Scope stdpp_scope.

Record HandlerResult : Type := mk_HandlerResult {
  h_success : bool;
  h_output : dict;
  h_provider : option string;
  h_provider_reference : option string;
  h_amount : option Decimal;
  h_error_code : option string;
  h_error_message : option string;
  h_case_status : option RecoveryCaseStatus;
  h_simulated : bool;
  h_metadata : dict;
}.

Definition succeeded (output : dict) : HandlerResult :=
  mk_HandlerResult true output None None None None None None true [].
Definition failed (provider : option string) (error_code error_message : string) : HandlerResult :=
  mk_HandlerResult false [] provider None None (Some error_code) (Some error_message) None true [].

(** What a handler uses besides the database: the provider and the queue of events, when
    the service has one. *)
Record Outside (P : Type) : Type := mk_Outside {
  out_provider : P;
  out_queue : option (list UUID);
}.
Arguments mk_Outside {P}. Arguments out_provider {P}. Arguments out_queue {P}.

Record HandlerContext : Type := mk_HandlerContext {
  hc_case : UUID;
  hc_merchant_id : UUID;
  hc_customer : option UUID;
  hc_payment : option UUID;
  hc_payload : dict;
  hc_attempt_number : Z;
  hc_idempotency_key : string;
  hc_actor_id : option string;
  hc_correlation_id : option string;
}.

(** [d.get(k) or default], for text. *)
Definition text_of (k : string) (d : dict) (default : string) : string :=
  match dict_get k d with JStr s => if nonempty s then s else default | _ => default end.

Definition _payment_dict (id : UUID) (p : Payment) : dict := [
  ("payment_id", JStr (uuid_str id));
  ("provider", JStr (payment_provider p));
  ("provider_payment_id", opt_str (payment_provider_payment_id p));
  ("provider_order_id", opt_str (payment_provider_order_id p));
  ("status", JStr (value (payment_status p)));
  ("amount", JStr (dec_str (payment_amount p)));
  ("currency", JStr (payment_currency p));
  ("failure_code", opt_str (payment_failure_code p))].

Section Handlers.
Context {P : Type} `{!PaymentProvider P}.
(** The queue and the races of [EventIngestionService]; the predictor, with the context of a
    case it is given; and pydantic's text of a time. *)
Context (enqueue : list UUID -> UUID -> option (list UUID)) (concurrent : World -> World).
Context (predictor : dict -> string -> result predictor_error RecoveryProbability).
Context (ml_context_of : UUID -> Z -> option UUID -> option UUID -> World -> result predictor_error dict).
Context (datetime_json : datetime -> string).

Notation Handler := (HandlerContext -> Outside P -> Op (HandlerResult * Outside P)).

(** The snapshot as JSON: [snapshot.model_dump(mode="json")]. *)
Definition snapshot_dict (s : PaymentSnapshot) : dict := [
  ("provider", JStr (snap_provider s));
  ("provider_payment_id", JStr (snap_provider_payment_id s));
  ("provider_order_id", opt_str (snap_provider_order_id s));
  ("merchant_reference", JStr (snap_merchant_reference s));
  ("amount", JStr (dec_str (snap_amount s)));
  ("currency", JStr (snap_currency s));
  ("status", JStr (value (snap_status s)));
  ("attempt_number", JInt (snap_attempt_number s));
  ("failure_reason", opt_value (snap_failure_reason s));
  ("payment_method", opt_str (snap_payment_method s));
  ("occurred_at", JStr (datetime_json (snap_occurred_at s)));
  ("metadata", JObj (snap_metadata s))].

(** ** Reading *)

Definition handle_get_customer_history : Handler := fun ctx out =>
  match hc_customer ctx with
  | None => mret (failed None "MISSING_CUSTOMER" "Customer not found", out)
  | Some customer =>
      c ← get_row w_customers customer;
      payments ← gets (PaymentRepository.list_for_customer (hc_merchant_id ctx) customer);
      mret (succeeded
        [("customer_id", JStr (uuid_str customer)); ("email", opt_str (customer_email c));
         ("lifetime_value", JStr (dec_str (customer_lifetime_value c)));
         ("payments", JList (map (fun kv => JObj
            [("id", JStr (uuid_str kv.1)); ("status", JStr (value (payment_status kv.2)));
             ("amount", JStr (dec_str (payment_amount kv.2)));
             ("provider_payment_id", opt_str (payment_provider_payment_id kv.2))]) payments))], out)
  end.

Definition handle_get_payment_details : Handler := fun ctx out =>
  match hc_payment ctx with
  | None => mret (failed None "MISSING_PAYMENT" "Payment not found", out)
  | Some payment =>
      p ← get_row w_payments payment;
      mret (mk_HandlerResult true (_payment_dict payment p) (Some (payment_provider p))
              (payment_provider_payment_id p) None None None None true [], out)
  end.

Definition handle_get_cart_details : Handler := fun ctx out =>
  c ← get_row w_cases (hc_case ctx);
  cart ← gets (fun w => id ← case_cart_id c; r ← w_carts w !! id; Some (id, r));
  match cart with
  | None => mret (succeeded [("cart", JNull)], out)
  | Some (id, r) =>
      mret (succeeded [("cart_id", JStr (uuid_str id)); ("status", JStr (value (cart_status r)));
                       ("total", JStr (dec_str (cart_total r)));
                       ("discount", JStr (dec_str (cart_discount r)));
                       ("currency", JStr (cart_currency r))], out)
  end.

Definition handle_get_subscription_details : Handler := fun ctx out =>
  c ← get_row w_cases (hc_case ctx);
  row ← gets (fun w => id ← case_subscription_id c; r ← w_subscriptions w !! id; Some (id, r));
  match row with
  | None => mret (succeeded [("subscription", JNull)], out)
  | Some (id, r) =>
      mret (succeeded [("subscription_id", JStr (uuid_str id));
                       ("status", JStr (value (subscription_status r)));
                       ("amount", JStr (dec_str (subscription_amount r)));
                       ("provider_subscription_id", opt_str (subscription_provider_subscription_id r))], out)
  end.

Definition handle_get_recovery_case : Handler := fun ctx out =>
  c ← get_row w_cases (hc_case ctx);
  mret (succeeded [("case_id", JStr (uuid_str (hc_case ctx))); ("status", JStr (value (case_status c)));
                   ("amount_at_risk", JStr (dec_str (case_amount_at_risk c)));
                   ("amount_recovered", JStr (dec_str (case_amount_recovered c)));
                   ("currency", JStr (case_currency c)); ("version", JInt (case_version c))], out).

(** The prediction, stored; [inl] is the [InferenceError] the handler catches. *)
Definition score_case (ctx : HandlerContext) (action : string)
  : Op (string * string + RecoveryProbability) :=
  w ← get;
  let scored := context ← ml_context_of (hc_case ctx) (hc_attempt_number ctx) (hc_customer ctx)
                            (hc_payment ctx) w;
                predictor context action in
  match scored with
  | Raise (InferenceError code message) => mret (inl (code, message))
  | Raise (OtherError e) => mthrow e
  | Ok scored =>
      persist_prediction (hc_merchant_id ctx) (hc_case ctx) action (rp_probability scored)
        (rp_model_version scored) (rp_feature_version scored) (rp_source scored)
        (Some (rp_diagnostics scored));;
      mret (inr scored)
  end.

Definition handle_calculate_recovery_probability : Handler := fun ctx out =>
  let action := text_of "action" (hc_payload ctx) (value RecoveryActionType.RETRY_NOW) in
  scored ← score_case ctx action;
  match scored with
  | inl (code, message) => mret (failed None code message, out)
  | inr scored =>
      mret (succeeded [("probability", JFloat (float_repr (rp_probability scored)));
                       ("model_version", JStr (rp_model_version scored));
                       ("feature_version", JStr (rp_feature_version scored));
                       ("source", JStr (rp_source scored)); ("action", JStr action);
                       ("diagnostics", JObj (rp_diagnostics scored))], out)
  end.

(** ** Retrying a payment *)

(** [int(datetime.now(UTC).timestamp())] *)
Definition epoch : Z := (ymd2days 1970 1 1 * DAY)%Z.
Definition timestamp (t : Z) : Z := Z.quot (t - epoch) SECOND.

(** The failure a payment records, as the provider's enumeration. *)
Definition failure_of (p : Payment) : option FailureReason.t :=
  code ← payment_failure_code p;
  if nonempty code then Some (default FailureReason.UNKNOWN (of_value code)) else None.

Definition opt_reason (o : option FailureReason.t) : option string := value <$> o.

Definition retry_payment_row (merchant_id : UUID) (original : Payment) (s : PaymentSnapshot) : Payment :=
  let at_ (status : PaymentStatus.t) :=
    if bool_decide (snap_status s = status) then Some (instant (snap_occurred_at s)) else None in
  mk_Payment merchant_id (payment_customer_id original) (snap_provider s)
    (Some (snap_provider_payment_id s)) (snap_provider_order_id s) None (snap_amount s) None
    (snap_currency s) (snap_status s) (snap_payment_method s) None
    (opt_reason (snap_failure_reason s)) (at_ PaymentStatus.CAPTURED) (at_ PaymentStatus.FAILED).

(** The event of a simulated payment is ingested at once, when there is a queue. *)
Definition send_retry_event (ctx : HandlerContext) (s : PaymentSnapshot) (queue : option (list UUID))
  : Op (option (list UUID)) :=
  match queue with
  | Some queue =>
      if String.eqb (snap_provider s) SIMULATOR then
        now ← utcnow;
        event ← build_provider_event s (timestamp now) (hc_correlation_id ctx)
                  [("source", JStr "retry_payment")] None None;
        '(_, queue) ← ingest enqueue concurrent event (hc_merchant_id ctx) queue None;
        mret (Some queue)
      else mret (Some queue)
  | None => mret None
  end.

(** The attempt number the input names, when it is not zero. *)
Definition named_attempt (payload : dict) : option Z :=
  match dict_get "attempt_number" payload with
  | JInt n => if (n =? 0)%Z then None else Some n
  | _ => None
  end.

(** [try: snapshot = provider.create_payment(...) except ProviderError as exc] *)
Definition catch_provider {A} (m : Op A) : Op (exn + A) :=
  try_except (a ← m; mret (inr a)) (fun e => if is_provider_error e then mret (inl e) else mthrow e).

(** The input model has no [intended_status], so the request carries none. A row added to
    the session is inserted where it is added; the database refuses it at the next flush,
    and what raises then is rolled back either way. *)
Definition handle_retry_payment : Handler := fun ctx out =>
  match hc_payment ctx with
  | None => mret (failed None "MISSING_PAYMENT" "Retry requires a case payment", out)
  | Some original_id =>
      original ← get_row w_payments original_id;
      let original_provider_id := payment_provider_payment_id original in
      next ← gets (PaymentRepository.next_attempt_number original_id);
      let attempt_number := default next (named_attempt (hc_payload ctx)) in
      lifetime ← gets (fun w => c ← hc_customer ctx; r ← w_customers w !! c;
                                Some (customer_lifetime_value r));
      let history := match lifetime with
                     | Some v => mk_CustomerHistory 0 0 v
                     | None => no_history
                     end in
      created ← catch_provider (create_payment
        (mk_CreatePaymentRequest (uuid_str (hc_case ctx)) (payment_amount original)
           (payment_currency original) (Some (uuid_str (payment_customer_id original)))
           (payment_provider_order_id original) attempt_number history None (failure_of original)
           [("recovery_case_id", JStr (uuid_str (hc_case ctx)));
            ("original_provider_payment_id", opt_str original_provider_id);
            ("idempotency_key", JStr (hc_idempotency_key ctx))]) (out_provider out));
      match created with
      | inl exc =>
          mret (failed (Some (provider_name (out_provider out))) (exn_code exc) (exn_message exc), out)
      | inr (snapshot, provider) =>
          let new_id := internal_payment_uuid (hc_merchant_id ctx) (snap_provider snapshot)
                          (snap_provider_payment_id snapshot) in
          insert_payment new_id (retry_payment_row (hc_merchant_id ctx) original snapshot);;
          queue ← send_retry_event ctx snapshot (out_queue out);
          let out := mk_Outside provider queue in
          insert_attempt (mk_PaymentAttempt original_id attempt_number (snap_status snapshot)
            (snap_amount snapshot) (snap_currency snapshot) None
            (opt_reason (snap_failure_reason snapshot)) (instant (snap_occurred_at snapshot)));;
          flush;;
          original ← get_row w_payments original_id;
          if negb (same (payment_provider_payment_id original) original_provider_id)
          then mret (failed None "ORIGINAL_PAYMENT_MUTATED"
                       "Original failed payment must remain historical", out)
          else
            mret (mk_HandlerResult true
              [("original_provider_payment_id", opt_str original_provider_id);
               ("original_status", JStr (value (payment_status original)));
               ("new_provider_payment_id", JStr (snap_provider_payment_id snapshot));
               ("new_payment_id", JStr (uuid_str new_id));
               ("provider_status", JStr (value (snap_status snapshot)));
               ("attempt_number", JInt attempt_number);
               ("provider", JStr (snap_provider snapshot));
               ("simulated", JBool (String.eqb (snap_provider snapshot) SIMULATOR))]
              (Some (snap_provider snapshot)) (Some (snap_provider_payment_id snapshot))
              (Some (snap_amount snapshot)) None None (Some ACTION_COMPLETED) true
              [("new_payment_id", JStr (uuid_str new_id)); ("executed", JBool true)], out)
      end
  end.

(** [datetime.fromisoformat(str(v).replace("Z", "+00:00"))], naive times read as UTC *)
Definition parse_scheduled (v : json) : result exn datetime :=
  d ← ok_or (ValueError "Invalid isoformat string")
            (fromisoformat (replace "Z" "+00:00" (py_str v)));
  mret (mk_datetime (dt_wall d) (Some (default 0%Z (dt_offset d)))).

Definition handle_schedule_retry : Handler := fun ctx out =>
  raw ← lift (ok_or (KeyError "scheduled_for") (lookup_key "scheduled_for" (hc_payload ctx)));
  scheduled_for ← lift (parse_scheduled raw);
  mret (mk_HandlerResult true
    [("scheduled_for", JStr (isoformat scheduled_for)); ("executed", JBool false);
     ("note", JStr "Future workers must re-check payment, case, policy, and idempotency")]
    None None None None None (Some RETRY_SCHEDULED) true
    [("scheduled_for", JStr (isoformat scheduled_for)); ("executed", JBool false)], out).

Definition handle_create_payment_link : Handler := fun ctx out =>
  c ← get_row w_cases (hc_case ctx);
  amount ← lift (as_money (case_amount_at_risk c));
  created ← catch_provider (create_payment_link
    (mk_CreatePaymentLinkRequest (uuid_str (hc_case ctx)) amount (case_currency c)
       (Some (uuid_str (case_customer_id c))) (as_str (dict_get "description" (hc_payload ctx)))
       [("recovery_case_id", JStr (uuid_str (hc_case ctx))); ("simulated", JBool true)])
    (out_provider out));
  match created with
  | inl exc =>
      mret (failed (Some (provider_name (out_provider out))) (exn_code exc) (exn_message exc), out)
  | inr (snapshot, provider) =>
      match hc_payment ctx with
      | Some payment => update_payment payment (set_payment_provider_payment_link_id
                          (Some (plink_provider_payment_link_id snapshot)))
      | None => mret tt
      end;;
      mret (mk_HandlerResult true
        [("provider", JStr (plink_provider snapshot));
         ("provider_payment_link_id", JStr (plink_provider_payment_link_id snapshot));
         ("url", JStr (plink_url snapshot)); ("status", JStr (plink_status snapshot));
         ("simulated", JBool (plink_simulated snapshot))]
        (Some (plink_provider snapshot)) (Some (plink_provider_payment_link_id snapshot))
        (Some (plink_amount snapshot)) None None (Some ACTION_COMPLETED) (plink_simulated snapshot) [],
        mk_Outside provider (out_queue out))
  end.

(** The channel of validated input is a member of its enumeration. *)
Definition channel_of (payload : dict) : result exn NotificationChannel.t :=
  ok_or (ValueError "unknown notification channel")
        (of_value (text_of "channel" payload (value NotificationChannel.EMAIL))).

Definition handle_send_notification : Handler := fun ctx out =>
  match hc_customer ctx with
  | None => mret (failed None "MISSING_CUSTOMER" "Notification requires a customer", out)
  | Some customer =>
      channel ← lift (channel_of (hc_payload ctx));
      now ← utcnow;
      id ← uuid4;
      let reference := "notif_sim_" +:+ prefix_n 24 (hc_idempotency_key ctx) in
      add_notification (mk_Notification (hc_merchant_id ctx) customer (Some (hc_case ctx)) channel
        NotificationStatus.SENT (Some SIMULATOR) (Some reference)
        (Some (text_of "subject" (hc_payload ctx) "Recovery reminder"))
        (Some (text_of "body_preview" (hc_payload ctx) "Simulated recovery reminder"))
        None (Some now) None None
        (Some [("simulated", JBool true); ("idempotency_key", JStr (hc_idempotency_key ctx))]) now);;
      flush;;
      mret (mk_HandlerResult true
        [("notification_id", JStr (uuid_str id)); ("channel", JStr (value channel));
         ("status", JStr (value NotificationStatus.SENT)); ("provider", JStr SIMULATOR);
         ("simulated", JBool true)]
        (Some SIMULATOR) (Some reference) None None None (Some ACTION_COMPLETED) true [], out)
  end.

(** [Decimal(str(v))]; an infinity or a NaN is refused. *)
Definition percent_of (v : json) : result exn Decimal :=
  match dec_of_str (py_str v) with Some (Finite d) => Ok d | _ => Raise InvalidOperation end.

Definition discount_amount (at_risk percent : Decimal) : result exn Decimal :=
  m ← as_money at_risk;
  q ← dec_div (dec_mul m percent) (dec_of_Z 100);
  as_money q.

Definition handle_offer_discount : Handler := fun ctx out =>
  raw ← lift (ok_or (KeyError "discount_percent") (lookup_key "discount_percent" (hc_payload ctx)));
  percent ← lift (percent_of raw);
  c ← get_row w_cases (hc_case ctx);
  amount ← lift (discount_amount (case_amount_at_risk c) percent);
  cart ← gets (fun w => id ← case_cart_id c; r ← w_carts w !! id; Some (id, r));
  match cart with
  | Some (id, r) =>
      discount ← lift (as_money (dec_add (cart_discount r) amount));
      update_cart id (set_cart_discount discount)
  | None => mret tt
  end;;
  mret (mk_HandlerResult true
    [("discount_percent", JStr (dec_str percent)); ("discount_amount", JStr (dec_str amount));
     ("currency", JStr (case_currency c)); ("executed", JBool true)]
    None None (Some amount) None None (Some ACTION_COMPLETED) true
    [("discount_percent", JStr (dec_str percent)); ("executed", JBool true)], out).

(** The payment as this database has it. *)
Definition local_payment_status : Handler := fun ctx out =>
  match hc_payment ctx with
  | None => mret (failed None "MISSING_PAYMENT" "Payment not found", out)
  | Some payment =>
      p ← get_row w_payments payment;
      mret (mk_HandlerResult true (_payment_dict payment p) (Some (payment_provider p)) None None
              None None None true [], out)
  end.

Definition handle_check_payment_status : Handler := fun ctx out =>
  let id := text_of "provider_payment_id" (hc_payload ctx) "" in
  if nonempty id then
    fetched ← catch_provider (fetch_payment id (out_provider out));
    match fetched with
    | inr (snapshot, provider) =>
        mret (mk_HandlerResult true (snapshot_dict snapshot) (Some (snap_provider snapshot))
                (Some (snap_provider_payment_id snapshot)) None None None None true [],
              mk_Outside provider (out_queue out))
    | inl (ProviderNotFoundError _ _) => local_payment_status ctx out
    | inl exc =>
        mret (failed (Some (provider_name (out_provider out))) (exn_code exc) (exn_message exc), out)
    end
  else local_payment_status ctx out.

Definition handle_check_subscription_status : Handler := handle_get_subscription_details.

Definition handle_escalate_to_human : Handler := fun ctx out =>
  mret (mk_HandlerResult true
    [("escalated", JBool true);
     ("reason", JStr (text_of "reason" (hc_payload ctx) "Escalated to a human operator"));
     ("amount_recovered_claimed", JBool false)]
    None None None None None (Some ESCALATED) true [("executed", JBool true)], out).

Definition handle_pause_recovery : Handler := fun ctx out =>
  mret (mk_HandlerResult true
    [("stopped", JBool true);
     ("reason", JStr (text_of "reason" (hc_payload ctx) "Automatic recovery paused"))]
    None None None None None (Some STOPPED) true [("executed", JBool true)], out).

Definition HANDLERS : list (string * Handler) := [
  ("get_customer_history", handle_get_customer_history);
  ("get_payment_details", handle_get_payment_details);
  ("get_cart_details", handle_get_cart_details);
  ("get_subscription_details", handle_get_subscription_details);
  ("get_recovery_case", handle_get_recovery_case);
  ("calculate_recovery_probability", handle_calculate_recovery_probability);
  ("retry_payment", handle_retry_payment);
  ("schedule_retry", handle_schedule_retry);
  ("create_payment_link", handle_create_payment_link);
  ("send_notification", handle_send_notification);
  ("offer_discount", handle_offer_discount);
  ("check_payment_status", handle_check_payment_status);
  ("check_subscription_status", handle_check_subscription_status);
  ("escalate_to_human", handle_escalate_to_human);
  ("pause_recovery", handle_pause_recovery)
].

(** [HANDLERS[name]] *)
Definition handler_for (name : string) : Handler :=
  match find (fun kv => String.eqb kv.1 name) HANDLERS with
  | Some (_, handler) => handler
  | None => fun _ _ => mthrow (KeyError name)
  end.

End Handlers.

(** ** The case after a success *)

Definition tool_move (actor_type : string) (correlation_id : option string) (case_id : UUID)
  (target : RecoveryCaseStatus) (summary : string) (metadata : option dict) : Op unit :=
  transition_case case_id target
    (mk_TransitionArgs actor_type correlation_id (Some summary) metadata None).

Definition status_in (s : RecoveryCaseStatus) (l : list RecoveryCaseStatus) : bool := bool_decide (s ∈ l).

Definition apply_case_outcome (case_id : UUID) (result : HandlerResult) (actor_type : string)
  (correlation_id : option string) : Op unit :=
  let move := tool_move actor_type correlation_id case_id in
  match h_case_status result with
  | None => mret tt
  | Some target =>
      c ← get_row w_cases case_id;
      let current := case_status c in
      if bool_decide (current = target) then mret tt
      else if bool_decide (target = ACTION_COMPLETED) then
        when (status_in current [POLICY_CHECK; AWAITING_APPROVAL])
          (move EXECUTING "Tool execution started" None);;
        c ← get_row w_cases case_id;
        when (bool_decide (case_status c = EXECUTING))
          (move ACTION_COMPLETED
             "Tool execution recorded. Verification still owns recovered revenue." None)
      else if bool_decide (target = RETRY_SCHEDULED) then
        when (bool_decide (current = POLICY_CHECK))
          (move RETRY_SCHEDULED "Retry scheduled; not executed" None)
      else
        when (status_in target [ESCALATED; STOPPED]
              && status_in current [POLICY_CHECK; AWAITING_APPROVAL; FAILED; NOT_RECOVERED])
          (move target (text_of "reason" (h_output result) ("Case moved to " +:+ value target)) None)
  end.
