(* ===== verification/ToolExecution.v ===== *)
(** * Executing a tool

    [recoverai_domain/tools/execution.py]: a request for a tool is validated, made
    idempotent, put to the policy engine, held for approval or run, and recorded. *)
From S2P Require Import Prelude PyStr Uuid Errors Decimal Json Datetime Enums Rows Store Repositories StateMachine Transitions Config PolicyContext PolicyEngine OptimizerService Events Providers Simulator Processing ToolData Idempotency ToolHandlers.
Open Scope stdpp_scope.

Definition SIDE_EFFECT_EXECUTE_STATES : list RecoveryCaseStatus :=
  [POLICY_CHECK; AWAITING_APPROVAL; EXECUTING; ACTION_COMPLETED; RETRY_SCHEDULED; NOT_RECOVERED; FAILED].

Record ToolExecutionResult : Type := mk_ToolExecutionResult {
  x_status : string;
  x_tool_name : string;
  x_allowed : bool;
  x_requires_approval : bool;
  x_reason : string;
  x_action_id : option UUID;
  x_approval_id : option UUID;
  x_tool_call_id : option UUID;
  x_provider : option string;
  x_provider_reference : option string;
  x_simulated : bool;
  x_policy_version : option string;
  x_idempotency_key : option string;
  x_output : dict;
  x_risk_level : option string;
  x_replayed : bool;
}.

Definition set_x_replayed (v : bool) (r : ToolExecutionResult) : ToolExecutionResult :=
  mk_ToolExecutionResult (x_status r) (x_tool_name r) (x_allowed r) (x_requires_approval r) (x_reason r)
    (x_action_id r) (x_approval_id r) (x_tool_call_id r) (x_provider r) (x_provider_reference r)
    (x_simulated r) (x_policy_version r) (x_idempotency_key r) (x_output r) (x_risk_level r) v.
Definition set_x_call (call : UUID) (key : string) (r : ToolExecutionResult) : ToolExecutionResult :=
  mk_ToolExecutionResult (x_status r) (x_tool_name r) (x_allowed r) (x_requires_approval r) (x_reason r)
    (x_action_id r) (x_approval_id r) (Some call) (x_provider r) (x_provider_reference r)
    (x_simulated r) (x_policy_version r) (Some key) (x_output r) (x_risk_level r) (x_replayed r).

(** [ToolExecutionResult.to_public_dict] *)
Definition tool_public_dict (r : ToolExecutionResult) : dict := [
  ("status", JStr (x_status r));
  ("tool_name", JStr (x_tool_name r));
  ("allowed", JBool (x_allowed r));
  ("requires_approval", JBool (x_requires_approval r));
  ("reason", JStr (x_reason r));
  ("action_id", opt_uuid (x_action_id r));
  ("approval_id", opt_uuid (x_approval_id r));
  ("tool_call_id", opt_uuid (x_tool_call_id r));
  ("provider", opt_str (x_provider r));
  ("provider_reference", opt_str (x_provider_reference r));
  ("simulated", JBool (x_simulated r));
  ("policy_version", opt_str (x_policy_version r));
  ("idempotency_key", opt_str (x_idempotency_key r));
  ("output", JObj (x_output r));
  ("risk_level", opt_str (x_risk_level r));
  ("replayed", JBool (x_replayed r))].

(** [UUID(v) if v else None] *)
Definition stored_uuid (v : json) : result exn (option UUID) :=
  if truthy v then
    match v with
    | JStr s => u ← ok_or (ValueError "badly formed hexadecimal UUID string") (uuid_of_str s);
                mret (Some u)
    | _ => Raise (PyError "AttributeError" "UUID of a value that is not text")
    end
  else mret None.

(** [str(stored.get(k) or default)] *)
Definition stored_text (k : string) (d : dict) (default : string) : string :=
  py_str (py_or (dict_get k d) (JStr default)).
(** [bool(stored.get(k, default))] *)
Definition stored_bool (k : string) (d : dict) (default : bool) : bool :=
  match lookup_key k d with Some v => truthy v | None => default end.

Definition _result_from_stored (stored : dict) : result exn ToolExecutionResult :=
  action_id ← stored_uuid (dict_get "action_id" stored);
  approval_id ← stored_uuid (dict_get "approval_id" stored);
  tool_call_id ← stored_uuid (dict_get "tool_call_id" stored);
  mret (mk_ToolExecutionResult (stored_text "status" stored "SUCCEEDED")
    (stored_text "tool_name" stored "") (stored_bool "allowed" stored true)
    (stored_bool "requires_approval" stored false) (stored_text "reason" stored "")
    action_id approval_id tool_call_id (as_str (dict_get "provider" stored))
    (as_str (dict_get "provider_reference" stored)) (stored_bool "simulated" stored true)
    (as_str (dict_get "policy_version" stored)) (as_str (dict_get "idempotency_key" stored))
    (default [] (as_dict (dict_get "output" stored))) (as_str (dict_get "risk_level" stored)) true).

Definition _tool_call_status (status : string) : ToolCallStatus.t :=
  if String.eqb status "SUCCEEDED" then ToolCallStatus.SUCCESS
  else if String.eqb status "FAILED" then ToolCallStatus.FAILED
  else if String.eqb status "BLOCKED" then ToolCallStatus.BLOCKED
  else if String.eqb status "APPROVAL_REQUIRED" then ToolCallStatus.APPROVAL_REQUIRED
  else ToolCallStatus.SUCCESS.

Definition _case_fingerprint (c : RecoveryCase) : dict := [
  ("amount_at_risk", JStr (dec_str (case_amount_at_risk c)));
  ("payment_id", opt_uuid (case_payment_id c));
  ("customer_id", JStr (uuid_str (case_customer_id c)));
  ("last_mismatch_reason", opt_str (case_last_mismatch_reason c));
  ("amount_recovered", JStr (dec_str (case_amount_recovered c)))].

(** [int(max(attempt_number) or 0) + 1] over the case's actions of the type *)
Definition _next_action_attempt (case_id : UUID) (action_type : RecoveryActionType.t) (w : World) : Z :=
  (foldr (fun kv m => Z.max (action_attempt_number kv.2) m) 0
     (rows_where (fun _ a => same (action_recovery_case_id a) case_id
                             && String.eqb (action_action_type a) (value action_type)) (w_actions w)) + 1)%Z.

Definition _proposed_from_payload (action : RecoveryActionType.t) (payload : dict)
  : result exn ProposedAction :=
  percent ← match dict_get "discount_percent" payload with
            | JNull => mret None
            | v => d ← percent_of v; mret (Some d)
            end;
  mret (mk_ProposedAction (value action) percent None (as_str (dict_get "channel" payload)) None payload).

Definition READ_ONLY_RESULT (settings : RecoverySettings) : PolicyEvaluationResult :=
  mk_PolicyEvaluationResult true false GREEN "Read-only tool" ["read_only"] (policy_version settings).

Section Execution.
Context {P : Type} `{!PaymentProvider P}.
(** [self._settings]; the queue; what other transactions commit while this one waits for
    its key and while it ingests an event; the predictor; pydantic's conversions. *)
Context (settings : RecoverySettings).
Context (enqueue : list UUID -> UUID -> option (list UUID)).
Context (race_for_key race_for_event : World -> World).
Context (predictor : dict -> string -> result predictor_error RecoveryProbability).
Context (ml_context_of : UUID -> Z -> option UUID -> option UUID -> World -> result predictor_error dict).
Context (as_int : json -> option Z) (datetime_json : datetime -> string).

(** The keyword arguments of [execute]. *)
Record ExecuteArgs : Type := mk_ExecuteArgs {
  e_tool_name : option string;
  e_action : option string;
  e_payload : dict;
  e_idempotency_key : string;
  e_merchant_id : option UUID;
  e_actor_type : string;
  e_actor_id : option string;
  e_correlation_id : option string;
  e_granted_permissions : option (list string);
  e_existing_action_id : option UUID;
  e_approval_id : option UUID;
  e_approved_execution : bool;
}.

Definition invalid {A} (code message : string) : result exn A := Raise (ToolValidationError code message).

Definition _resolve_tool (tool_name action : option string) : result exn ToolSpec :=
  match or_str tool_name None, or_str action None with
  | Some name, _ => registry_get name
  | None, Some action =>
      match parse_action_type action with
      | None => invalid "UNKNOWN_ACTION" ("Action " +:+ action +:+ " is not valid")
      | Some a => registry_get (TOOL_BY_ACTION a)
      end
  | None, None => invalid "UNKNOWN_TOOL" "A registered tool or closed action type is required"
  end.

Definition _validate_input (spec : ToolSpec) (payload : dict) : result exn dict :=
  ok_or (ToolValidationError "INVALID_TOOL_INPUT"
           "Tool input failed schema validation; unsupported fields are rejected")
        (model_validate as_int (spec_input_model spec) payload).

Definition _assert_merchant (case_id : UUID) (merchant_id : option UUID) : Op unit :=
  c ← get_row w_cases case_id;
  if match merchant_id with Some m => negb (same (case_merchant_id c) m) | None => false end
  then lift (invalid "MERCHANT_MISMATCH" "Case does not belong to the given merchant")
  else
    merchant ← gets (fun w => w_merchants w !! case_merchant_id c);
    match merchant with
    | None => lift (invalid "MISSING_MERCHANT" "Merchant was not found")
    | Some _ => mret tt
    end.

(** ** [evaluate] *)

Definition evaluate (case_id : UUID) (action : string) (payload : dict) (actor_type : string)
  (actor_id correlation_id : option string) (merchant_id : option UUID) : Op PolicyEvaluationResult :=
  case_id ← lock_recovery_case case_id;
  _assert_merchant case_id merchant_id;;
  match parse_action_type action with
  | None => lift (invalid "UNKNOWN_ACTION" ("Action " +:+ action +:+ " is not a valid recovery action"))
  | Some parsed =>
      context ← build_policy_context case_id settings None;
      proposed ← lift (_proposed_from_payload parsed payload);
      evaluate_and_persist context proposed None correlation_id actor_type actor_id
  end.

(** ** Actions and approvals *)

(** An action another request left, by its key or by the key of the request. *)
Definition find_action (merchant_id : UUID) (idempotency_key : string) (existing_action_id : option UUID)
  (w : World) : option UUID :=
  let by_key := scalar_where (fun _ a => same (action_merchant_id a) merchant_id
                  && String.eqb (action_idempotency_key a) idempotency_key) (w_actions w) in
  match existing_action_id with
  | Some id => if is_some (w_actions w !! id) then Some id else by_key
  | None => by_key
  end.

Definition reused_action (status : RecoveryActionStatus.t) (risk_level : RiskLevel)
  (error_code error_message : option string) (metadata : dict) (a : RecoveryAction) : RecoveryAction :=
  let a := set_action_error_message error_message
             (set_action_error_code error_code (set_action_status status a)) in
  let a := match metadata with
           | [] => a
           | _ => set_action_metadata_json
                    (Some (dict_update (default [] (action_metadata_json a)) metadata)) a
           end in
  set_action_risk_level risk_level a.

Definition _upsert_action (case_id : UUID) (action_type : RecoveryActionType.t) (idempotency_key : string)
  (status : RecoveryActionStatus.t) (risk_level : RiskLevel) (existing_action_id : option UUID)
  (error_code error_message : option string) (metadata : dict) : Op UUID :=
  c ← get_row w_cases case_id;
  existing ← gets (find_action (case_merchant_id c) idempotency_key existing_action_id);
  match existing with
  | Some id =>
      update_action id (reused_action status risk_level error_code error_message metadata);; mret id
  | None =>
      attempt ← gets (_next_action_attempt case_id action_type);
      now ← utcnow;
      id ← insert_action (mk_RecoveryAction (case_merchant_id c) case_id (value action_type) status
        idempotency_key attempt risk_level None None (Some (case_amount_at_risk c)) (case_currency c)
        None None error_code error_message
        (Some (match metadata with [] => [("executed", JBool false)] | _ => metadata end)) now);
      flush;;
      record_audit (case_merchant_id c) "ACTION_PLANNED" ("Planned " +:+ value action_type)
        (mk_AuditArgs (Some case_id) (value ActorType.SYSTEM) None (Some (value action_type)) None None
           None (Some idempotency_key)
           (Some [("case_id", JStr (uuid_str case_id)); ("merchant_id", JStr (uuid_str (case_merchant_id c)));
                  ("action_id", JStr (uuid_str id))]));;
      mret id
  end.

Definition _create_approval (case_id action_id : UUID) (actor_id : option string) (ttl_minutes : Z)
  (case_version : Z) (payload : dict) (tool_name idempotency_key : string) : Op UUID :=
  c ← get_row w_cases case_id;
  now ← utcnow;
  approval_id ← insert_approval (mk_Approval (case_merchant_id c) case_id (Some action_id) None
    ApprovalStatus.PENDING actor_id None None None (Some (now + minutes ttl_minutes)%Z) now);
  flush;;
  update_action action_id (fun a => set_action_metadata_json
    (Some (dict_update (default [] (action_metadata_json a))
       [("approval_id", JStr (uuid_str approval_id)); ("case_version", JInt case_version);
        ("case_fingerprint", JObj (_case_fingerprint c)); ("tool_name", JStr tool_name);
        ("payload", JObj payload); ("idempotency_key", JStr idempotency_key)])) a);;
  mret approval_id.

(** The fingerprint taken when the approval was asked for differs from the case's. *)
Definition stale_fingerprint (action_id : option UUID) (c : RecoveryCase) (w : World) : bool :=
  match id ← action_id; w_actions w !! id with
  | Some a =>
      let fingerprint := dict_get "case_fingerprint" (default [] (action_metadata_json a)) in
      truthy fingerprint && negb (bool_decide (fingerprint = JObj (_case_fingerprint c)))
  | None => false
  end.

Definition _assert_usable_approval (case_id : UUID) (approval_id action_id : option UUID) : Op unit :=
  match approval_id with
  | None => lift (invalid "APPROVAL_REQUIRED" "Approved execution requires an approval id")
  | Some id =>
      found ← gets (fun w => w_approvals w !! id);
      match found with
      | Some approval =>
          if negb (same (approval_recovery_case_id approval) case_id)
          then lift (invalid "APPROVAL_NOT_FOUND" "Approval was not found for this case")
          else if negb (same (approval_status approval) ApprovalStatus.APPROVED)
          then lift (invalid "APPROVAL_NOT_APPROVED" "Approval is not in APPROVED status")
          else
            expired ← match approval_expires_at approval with
                      | Some t => now ← utcnow; mret (t <=? now)%Z
                      | None => mret false
                      end;
            if (expired : bool) then
              update_approval id (set_approval_status ApprovalStatus.EXPIRED);;
              lift (invalid "APPROVAL_EXPIRED" "Approval has expired and cannot execute")
            else
              c ← get_row w_cases case_id;
              stale ← gets (stale_fingerprint action_id c);
              if (stale : bool)
              then lift (invalid "STALE_APPROVAL"
                           "The recovery case changed materially after approval was requested")
              else mret tt
      | None => lift (invalid "APPROVAL_NOT_FOUND" "Approval was not found for this case")
      end
  end.

(** ** [_run_after_idempotency] *)

(** What every step of one execution is about. *)
Record Run : Type := mk_Run {
  r_spec : ToolSpec;
  r_case : UUID;
  r_merchant : UUID;
  r_validated : dict;
  r_args : ExecuteArgs;
  r_evaluation : PolicyEvaluationResult;
}.

Definition audit_run (r : Run) (event_type summary action : string) (metadata : dict) : Op unit :=
  record_audit (r_merchant r) event_type summary
    (mk_AuditArgs (Some (r_case r)) (e_actor_type (r_args r)) (e_actor_id (r_args r)) (Some action)
       None None (e_correlation_id (r_args r)) (Some (e_idempotency_key (r_args r)))
       (Some ([("case_id", JStr (uuid_str (r_case r))); ("merchant_id", JStr (uuid_str (r_merchant r)));
               ("policy_version", JStr (result_policy_version (r_evaluation r)))] ++ metadata))).

Definition upsert_for (r : Run) (a : RecoveryActionType.t) (status : RecoveryActionStatus.t)
  (error_code error_message : option string) (metadata : dict) : Op UUID :=
  _upsert_action (r_case r) a (e_idempotency_key (r_args r)) status
    (result_risk_level (r_evaluation r)) (e_existing_action_id (r_args r)) error_code error_message metadata.

Definition move_run (r : Run) (target : RecoveryCaseStatus) (summary : string) (metadata : option dict)
  : Op unit :=
  tool_move (e_actor_type (r_args r)) (e_correlation_id (r_args r)) (r_case r) target summary metadata.

(** The metadata of an action that is held or started. *)
Definition planned_metadata (r : Run) : dict :=
  [("payload", JObj (r_validated r)); ("tool_name", JStr (spec_name (r_spec r))); ("executed", JBool false)].

Definition result_of_run (r : Run) (status : string) (allowed requires_approval : bool) (reason : string)
  (action_id approval_id : option UUID) (provider reference : option string) (simulated : bool)
  (output : dict) : ToolExecutionResult :=
  mk_ToolExecutionResult status (spec_name (r_spec r)) allowed requires_approval reason action_id
    approval_id None provider reference simulated (Some (result_policy_version (r_evaluation r))) None
    output (Some (value (result_risk_level (r_evaluation r)))) false.

(** The policy denies the action. *)
Definition run_blocked (r : Run) (a : RecoveryActionType.t) : Op ToolExecutionResult :=
  action_id ← upsert_for r a RecoveryActionStatus.BLOCKED (Some "POLICY_DENIED")
                (Some (result_reason (r_evaluation r))) [];
  audit_run r "ACTION_BLOCKED" ("Policy blocked " +:+ value a) (value a)
    [("action_id", JStr (uuid_str action_id))];;
  mret (result_of_run r "BLOCKED" false false (result_reason (r_evaluation r)) (Some action_id) None
          None None true []).

(** The policy asks for an approval. *)
Definition run_held (r : Run) (a : RecoveryActionType.t) (ttl_minutes : Z) : Op ToolExecutionResult :=
  action_id ← upsert_for r a RecoveryActionStatus.APPROVAL_REQUIRED None None (planned_metadata r);
  c ← get_row w_cases (r_case r);
  approval_id ← _create_approval (r_case r) action_id (e_actor_id (r_args r)) ttl_minutes
                  (case_version c) (r_validated r) (spec_name (r_spec r)) (e_idempotency_key (r_args r));
  when (bool_decide (case_status c = POLICY_CHECK))
    (move_run r AWAITING_APPROVAL "Policy requires human approval before tool execution" None);;
  audit_run r "APPROVAL_REQUESTED" ("Approval requested for " +:+ value a) (value a)
    [("approval_id", JStr (uuid_str approval_id)); ("action_id", JStr (uuid_str action_id))];;
  mret (result_of_run r "APPROVAL_REQUIRED" true true (result_reason (r_evaluation r)) (Some action_id)
          (Some approval_id) None None true [("approval_id", JStr (uuid_str approval_id))]).

(** Tools that leave the case where it is until they succeed. *)
Definition keeps_status (name : string) : bool :=
  mem_str name ["schedule_retry"; "escalate_to_human"; "pause_recovery"].

(** The action starts; its number among the case's actions of its type is returned. *)
Definition run_started (r : Run) (a : RecoveryActionType.t) : Op (UUID * Z) :=
  action_id ← upsert_for r a RecoveryActionStatus.EXECUTING None None (planned_metadata r);
  c ← get_row w_cases (r_case r);
  when (negb (keeps_status (spec_name (r_spec r)))
        && status_in (case_status c) [POLICY_CHECK; AWAITING_APPROVAL])
    (move_run r EXECUTING "Tool execution started" (Some [("tool_name", JStr (spec_name (r_spec r)))]));;
  row ← get_row w_actions action_id;
  audit_run r "ACTION_STARTED" ("Started " +:+ spec_name (r_spec r)) (value a)
    [("action_id", JStr (uuid_str action_id)); ("attempt_number", JInt (action_attempt_number row))];;
  mret (action_id, action_attempt_number row).

(** The columns of an action the handler's result sets; [now] is read when it was executed. *)
Definition handled_metadata (h : HandlerResult) (a : RecoveryAction) : dict :=
  dict_update (default [] (action_metadata_json a)) (h_metadata h).
Definition was_executed (h : HandlerResult) (a : RecoveryAction) : bool :=
  stored_bool "executed" (handled_metadata h a) (h_success h).
Definition handled_action (h : HandlerResult) (executed_at : option Z) (a : RecoveryAction)
  : RecoveryAction :=
  let meta := dict_set "executed" (JBool (was_executed h a)) (handled_metadata h a) in
  let a := set_action_provider_reference (h_provider_reference h) (set_action_provider (h_provider h) a) in
  let a := match h_amount h with Some m => set_action_amount (Some m) a | None => a end in
  let a := match executed_at with Some t => set_action_executed_at (Some t) a | None => a end in
  let a := set_action_metadata_json (Some meta) a in
  if h_success h
  then set_action_error_message None
         (set_action_error_code None (set_action_status RecoveryActionStatus.SUCCEEDED a))
  else set_action_error_message (h_error_message h)
         (set_action_error_code (h_error_code h) (set_action_status RecoveryActionStatus.FAILED a)).

Definition record_handled (action_id : UUID) (h : HandlerResult) : Op unit :=
  a ← get_row w_actions action_id;
  executed_at ← (if was_executed h a then now ← utcnow; mret (Some now) else mret None);
  update_action action_id (handled_action h executed_at);;
  match lookup_key "scheduled_for" (h_metadata h) with
  | Some v =>
      t ← lift (ok_or (ValueError "Invalid isoformat string") (fromisoformat (py_str v)));
      update_action action_id (set_action_scheduled_for (Some (instant t)))
  | None => mret tt
  end.

Definition action_label (r : Run) : string :=
  match action_for_tool (spec_name (r_spec r)) with Some a => value a | None => spec_name (r_spec r) end.

Definition run_succeeded (r : Run) (action_id : option UUID) (h : HandlerResult) : Op ToolExecutionResult :=
  apply_case_outcome (r_case r) h (e_actor_type (r_args r)) (e_correlation_id (r_args r));;
  when (spec_side_effect (r_spec r))
    (audit_run r "ACTION_SUCCEEDED" (spec_name (r_spec r) +:+ " succeeded") (action_label r)
       [("provider", opt_str (h_provider h)); ("provider_reference", opt_str (h_provider_reference h))]);;
  mret (result_of_run r "SUCCEEDED" true false (result_reason (r_evaluation r)) action_id
          (e_approval_id (r_args r)) (h_provider h) (h_provider_reference h) (h_simulated h) (h_output h)).

Definition run_failed (r : Run) (action_id : option UUID) (h : HandlerResult) : Op ToolExecutionResult :=
  c ← get_row w_cases (r_case r);
  when (spec_side_effect (r_spec r) && bool_decide (case_status c = EXECUTING))
    (move_run r FAILED (str_or (h_error_message h) "Tool execution failed") None);;
  audit_run r "ACTION_FAILED" (str_or (h_error_message h) (spec_name (r_spec r) +:+ " failed"))
    (action_label r) [("error_code", opt_str (h_error_code h))];;
  mret (result_of_run r "FAILED" true false (str_or (h_error_message h) "Tool failed") action_id None
          (h_provider h) None true (h_output h)).

(** The handler runs, and what it did is recorded. *)
Definition run_handler (r : Run) (customer payment : option UUID) (started : option (UUID * Z))
  (out : Outside P) : Op (ToolExecutionResult * Outside P) :=
  let ctx := mk_HandlerContext (r_case r) (r_merchant r) customer payment (r_validated r)
               (match started with Some (_, n) => n | None => 1%Z end)
               (e_idempotency_key (r_args r)) (e_actor_id (r_args r)) (e_correlation_id (r_args r)) in
  '(handled, out) ← handler_for enqueue race_for_event predictor ml_context_of datetime_json
                      (spec_name (r_spec r)) ctx out;
  let action_id := fst <$> started in
  match action_id with Some id => record_handled id handled | None => mret tt end;;
  result ← (if h_success handled then run_succeeded r action_id handled
            else run_failed r action_id handled);
  mret (result, out).

Definition _run_after_idempotency (spec : ToolSpec) (case_id : UUID) (customer payment : option UUID)
  (validated : dict) (a : ExecuteArgs) (out : Outside P) : Op (ToolExecutionResult * Outside P) :=
  let mapped_action := action_for_tool (spec_name spec) in
  proposed ← match mapped_action with
             | Some m => lift (_proposed_from_payload m validated)
             | None => mret (propose "READ_ONLY")
             end;
  context ← build_policy_context case_id settings None;
  evaluation ← match mapped_action with
               | Some _ => evaluate_and_persist context proposed None (e_correlation_id a)
                             (e_actor_type a) (e_actor_id a)
               | None => mret (READ_ONLY_RESULT (ctx_settings context))
               end;
  c ← get_row w_cases case_id;
  if spec_side_effect spec && negb (status_in (case_status c) SIDE_EFFECT_EXECUTE_STATES)
  then lift (invalid "INVALID_CASE_STATE"
               ("Cannot execute " +:+ spec_name spec +:+ " while the case is " +:+ value (case_status c)))
  else
    let r := mk_Run spec case_id (case_merchant_id c) validated a evaluation in
    match mapped_action with
    | Some m =>
        if negb (result_allowed evaluation) then result ← run_blocked r m; mret (result, out)
        else if result_requires_approval evaluation && negb (e_approved_execution a)
        then result ← run_held r m (approval_ttl_minutes (ctx_settings context)); mret (result, out)
        else
          when (e_approved_execution a)
            (_assert_usable_approval case_id (e_approval_id a) (e_existing_action_id a));;
          started ← (if spec_side_effect spec then s ← run_started r m; mret (Some s) else mret None);
          run_handler r customer payment started out
    | None =>
        when (e_approved_execution a)
          (_assert_usable_approval case_id (e_approval_id a) (e_existing_action_id a));;
        run_handler r customer payment None out
    end.

(** ** [execute] *)

(** [started_at]: the reading taken when the execution began. *)
Definition _finish_tool_call (call : UUID) (status : ToolCallStatus.t) (started_at : Z) (response : dict)
  (error_code error_message : option string) : Op unit :=
  now ← utcnow;
  update_call call (fun t =>
    set_call_request_payload
      (Some (dict_update (default [] (call_request_payload t))
         [("started_at", JStr (isoformat (utc started_at)));
          ("completed_at", JStr (isoformat (utc now)))]))
      (set_call_error_message error_message
        (set_call_error_code error_code
          (set_call_response_payload (Some (sanitize_payload response))
            (set_call_status status t))))).

(** What a recorded key answers: a stored result, a refusal, or nothing, when the request
    is to run (again). *)
Definition replay_answer (k : IdempotencyKey) (request_hash : string) (approved_execution : bool)
  : result exn (option ToolExecutionResult) :=
  let stored := as_dict (dict_get "result" (default [] (idem_metadata_json k))) in
  let from_stored := match stored with
                     | Some d => r ← _result_from_stored d; mret (Some (set_x_replayed true r))
                     | None => mret None
                     end in
  match idem_status k with
  | IdempotencyKeyStatus.COMPLETED => from_stored
  | IdempotencyKeyStatus.IN_PROGRESS =>
      if approved_execution && String.eqb (idem_request_hash k) request_hash then mret None
      else match stored with
           | Some _ => from_stored
           | None => Raise (DomainError "IDEMPOTENCY_IN_PROGRESS"
                              "A matching side-effecting request is already executing" true)
           end
  | _ => from_stored
  end.

Definition request_hash_of (spec : ToolSpec) (action : option string) (validated : dict) : string :=
  canonical_request_hash
    [("tool_name", JStr (spec_name spec));
     ("action", JStr (match action_for_tool (spec_name spec) with
                      | Some a => value a
                      | None => str_or action (spec_name spec)
                      end));
     ("input", JObj validated)].

Definition check_permission (spec : ToolSpec) (granted : option (list string)) : result exn unit :=
  match granted with
  | Some allowed =>
      if mem_str (value (spec_required_permission spec)) allowed then mret tt
      else invalid "PERMISSION_DENIED" ("Permission " +:+ value (spec_required_permission spec)
             +:+ " is required for " +:+ spec_name spec)
  | None => mret tt
  end.

(** The call is recorded, [run], and its result stored under the key. *)
Definition record_run (run : Outside P -> Op (ToolExecutionResult * Outside P)) (spec : ToolSpec)
  (case_id : UUID) (validated : dict) (record : UUID) (started_at : Z) (a : ExecuteArgs) (out : Outside P)
  : Op (ToolExecutionResult * Outside P) :=
  c ← get_row w_cases case_id;
  call ← insert_call (mk_ToolCall (case_merchant_id c) (Some case_id) (spec_name spec) (spec_version spec)
    ToolCallStatus.PENDING
    (Some (sanitize_payload (dict_update validated
       [("required_permission", JStr (value (spec_required_permission spec)));
        ("actor_type", JStr (e_actor_type a)); ("actor_id", opt_str (e_actor_id a))])))
    None (Some (e_idempotency_key a)) (e_correlation_id a) None None);
  flush;;
  '(result, out) ← try_except (run out)
    (fun exc =>
       match exc with
       | IdempotencyConflictError _ => mthrow exc
       | _ =>
           when (is_domain_error exc)
             (fail_idempotent_operation record (exn_code exc);;
              _finish_tool_call call ToolCallStatus.FAILED started_at [("error", JStr (exn_message exc))]
                (Some (exn_code exc)) (Some (exn_message exc)));;
           mthrow exc
       end);
  (if String.eqb (x_status result) "APPROVAL_REQUIRED"
   then update_key record (fun k => set_idem_metadata_json
          (Some (dict_set "result" (JObj (tool_public_dict result)) (default [] (idem_metadata_json k)))) k)
   else complete_idempotent_operation record (tool_public_dict result)
          (Some (uuid_str (default call (x_action_id result)))));;
  let has_failed := String.eqb (x_status result) "FAILED" in
  _finish_tool_call call (_tool_call_status (x_status result)) started_at (tool_public_dict result)
    (if has_failed then Some "TOOL_FAILED" else None)
    (if has_failed then Some (x_reason result) else None);;
  mret (set_x_call call (e_idempotency_key a) result, out).

Definition run_recorded (spec : ToolSpec) (case_id : UUID) (customer payment : option UUID)
  (validated : dict) (record : UUID) (started_at : Z) (a : ExecuteArgs) (out : Outside P)
  : Op (ToolExecutionResult * Outside P) :=
  record_run (_run_after_idempotency spec case_id customer payment validated a) spec case_id validated record
    started_at a out.

(** The checks and the key of a request, around what runs it. *)
Definition execute_with
  (run : ToolSpec -> UUID -> option UUID -> option UUID -> dict -> UUID -> Z -> ExecuteArgs -> Outside P
         -> Op (ToolExecutionResult * Outside P))
  (case_id : UUID) (a : ExecuteArgs) (out : Outside P) : Op (ToolExecutionResult * Outside P) :=
  started_at ← utcnow;
  spec ← lift (_resolve_tool (e_tool_name a) (e_action a));
  validated ← lift (_validate_input spec (e_payload a));
  case_id ← lock_recovery_case case_id;
  _assert_merchant case_id (e_merchant_id a);;
  lift (check_permission spec (e_granted_permissions a));;
  c ← get_row w_cases case_id;
  if terminal (case_status c)
  then lift (invalid "CASE_TERMINAL"
               "Tools cannot run on a terminal recovery case and cannot bypass verification")
  else
    customer ← gets (fun w => if is_some (w_customers w !! case_customer_id c)
                              then Some (case_customer_id c) else None);
    payment ← gets (fun w => p ← case_payment_id c; if is_some (w_payments w !! p) then Some p else None);
    let request_hash := request_hash_of spec (e_action a) validated in
    '(record, replay) ← begin_idempotent_operation race_for_key (case_merchant_id c)
                          (e_idempotency_key a) (spec_name spec) request_hash;
    k ← get_row w_idempotency record;
    answer ← (if (replay : bool) then lift (replay_answer k request_hash (e_approved_execution a))
              else mret None);
    match answer with
    | Some result => mret (result, out)
    | None => run spec case_id customer payment validated record started_at a out
    end.

Definition execute : UUID -> ExecuteArgs -> Outside P -> Op (ToolExecutionResult * Outside P) :=
  execute_with run_recorded.
End Execution.
