(* ===== verification/Approvals.v ===== *)
(** * Approvals, and the recovery API

    [recoverai_domain/tools/approvals.py]: an operator approves a held action, which is then
    executed, or rejects it. The operations of [apps/api/recoverai_api/recovery/router.py]
    follow, as the API commits them ([deps.py]). *)
From S2P Require Import Prelude PyStr Uuid Errors Decimal Sorting Json Datetime Enums Rows Store Repositories StateMachine Transitions Config PolicyContext PolicyEngine Optimizer OptimizerService Events Providers Simulator Processing Processor Verification Worker ToolData Idempotency ToolHandlers ToolExecution.
Open Scope stdpp_scope.

Definition _load_action (merchant_id action_id : UUID) : Op RecoveryAction :=
  found ← gets (fun w => w_actions w !! action_id);
  match found with
  | Some a =>
      if same (action_merchant_id a) merchant_id then mret a
      else lift (invalid "ACTION_NOT_FOUND" "Recovery action was not found")
  | None => lift (invalid "ACTION_NOT_FOUND" "Recovery action was not found")
  end.

(** The newest approval of the action. *)
Definition newest_approval : UUID * Approval -> UUID * Approval -> comparison :=
  reversed (on_key Z.compare (fun kv => approval_created_at kv.2)).

Definition _pending_approval (case_id action_id : UUID) : Op UUID :=
  found ← gets (fun w => fst <$> head (sort_by newest_approval (rows_where (fun _ a =>
    same (approval_recovery_case_id a) case_id && same (approval_recovery_action_id a) (Some action_id))
    (w_approvals w))));
  lift (ok_or (ToolValidationError "APPROVAL_NOT_FOUND" "No approval exists for this action") found).

Definition _expire_if_needed (approval_id : UUID) : Op unit :=
  approval ← get_row w_approvals approval_id;
  match approval_status approval, approval_expires_at approval with
  | ApprovalStatus.PENDING, Some t =>
      now ← utcnow;
      if (t <=? now)%Z then
        update_approval approval_id (set_approval_status ApprovalStatus.EXPIRED);; flush
      else mret tt
  | _, _ => mret tt
  end.

Definition check_merchant (c : RecoveryCase) (merchant_id : option UUID) : result exn unit :=
  match merchant_id with
  | Some m => if same (case_merchant_id c) m then mret tt
              else invalid "MERCHANT_MISMATCH" "Case does not belong to the given merchant"
  | None => mret tt
  end.

(** An audit event about an action and its approval. *)
Definition approval_audit (case_id : UUID) (c : RecoveryCase) (a : RecoveryAction) (event_type summary : string)
  (actor_type : string) (actor_id correlation_id : option string) (metadata : dict) : Op unit :=
  record_audit (case_merchant_id c) event_type summary
    (mk_AuditArgs (Some case_id) actor_type actor_id (Some (action_action_type a)) None None
       correlation_id (Some (action_idempotency_key a))
       (Some ([("case_id", JStr (uuid_str case_id));
               ("merchant_id", JStr (uuid_str (case_merchant_id c)))] ++ metadata))).

Definition approvable : list RecoveryActionStatus.t :=
  [RecoveryActionStatus.APPROVAL_REQUIRED; RecoveryActionStatus.APPROVED; RecoveryActionStatus.PENDING].

Section Approvals.
Context {P : Type} `{!PaymentProvider P}.
Context (settings : RecoverySettings).
Context (enqueue : list UUID -> UUID -> option (list UUID)).
Context (race_for_key race_for_event : World -> World).
Context (predictor : dict -> string -> result predictor_error RecoveryProbability).
Context (ml_context_of : UUID -> Z -> option UUID -> option UUID -> World -> result predictor_error dict).
Context (as_int : json -> option Z) (datetime_json : datetime -> string).

(** The service made by [approve_action] has no queue. *)
Definition approve_action (case_id action_id : UUID) (actor_id : option string) (actor_type : string)
  (correlation_id : option string) (merchant_id : option UUID) (provider : P)
  : Op (ToolExecutionResult * Outside P) :=
  case_id ← lock_recovery_case case_id;
  c ← get_row w_cases case_id;
  lift (check_merchant c merchant_id);;
  _load_action (case_merchant_id c) action_id;;
  approval_id ← _pending_approval case_id action_id;
  _expire_if_needed approval_id;;
  approval ← get_row w_approvals approval_id;
  if same (approval_status approval) ApprovalStatus.EXPIRED
  then lift (invalid "APPROVAL_EXPIRED" "Approval has expired and cannot execute")
  else if negb (same (approval_status approval) ApprovalStatus.PENDING)
  then lift (invalid "APPROVAL_NOT_PENDING" ("Approval is " +:+ value (approval_status approval)))
  else
    a ← get_row w_actions action_id;
    if negb (bool_decide (action_status a ∈ approvable))
    then lift (invalid "ACTION_NOT_APPROVABLE"
                 ("Action in status " +:+ value (action_status a) +:+ " cannot be approved"))
    else
      update_approval approval_id (set_approval_status ApprovalStatus.APPROVED);;
      update_approval approval_id (set_approval_decided_by actor_id);;
      now ← utcnow;
      update_approval approval_id (set_approval_decided_at (Some now));;
      update_action action_id (set_action_status RecoveryActionStatus.APPROVED);;
      approval_audit case_id c a "APPROVAL_APPROVED"
        "Operator approved recovery action; re-entering ToolExecutionService" actor_type actor_id
        correlation_id
        [("approval_id", JStr (uuid_str approval_id)); ("action_id", JStr (uuid_str action_id))];;
      flush;;
      let meta := default [] (action_metadata_json a) in
      let tool_name := text_of "tool_name" meta "" in
      let payload := default [] (as_dict (dict_get "payload" meta)) in
      execute settings enqueue race_for_key race_for_event predictor ml_context_of as_int datetime_json
        case_id
        (mk_ExecuteArgs (Some tool_name) (Some (action_action_type a)) payload (action_idempotency_key a)
           (Some (case_merchant_id c)) actor_type actor_id correlation_id None (Some action_id)
           (Some approval_id) true)
        (mk_Outside provider None).

Definition reject_action (case_id action_id : UUID) (actor_id : option string) (actor_type : string)
  (reason : option string) (merchant_id : option UUID) (correlation_id : option string) : Op dict :=
  case_id ← lock_recovery_case case_id;
  c ← get_row w_cases case_id;
  lift (check_merchant c merchant_id);;
  a ← _load_action (case_merchant_id c) action_id;
  approval_id ← _pending_approval case_id action_id;
  _expire_if_needed approval_id;;
  update_approval approval_id (set_approval_status ApprovalStatus.REJECTED);;
  update_approval approval_id (set_approval_decided_by actor_id);;
  now ← utcnow;
  update_approval approval_id (set_approval_decided_at (Some now));;
  let decision_reason := str_or reason "Rejected by operator" in
  update_approval approval_id (set_approval_decision_reason (Some decision_reason));;
  update_action action_id (set_action_status RecoveryActionStatus.CANCELLED);;
  key ← gets (key_row (case_merchant_id c) (action_idempotency_key a));
  match key with
  | Some id => fail_idempotent_operation id "APPROVAL_REJECTED"
  | None => mret tt
  end;;
  approval_audit case_id c a "APPROVAL_REJECTED" decision_reason actor_type actor_id correlation_id
    [("approval_id", JStr (uuid_str approval_id)); ("action_id", JStr (uuid_str action_id))];;
  approval_audit case_id c a "ACTION_CANCELLED" "Pending action cancelled after approval rejection"
    actor_type actor_id correlation_id [];;
  when (bool_decide (case_status c = AWAITING_APPROVAL))
    (tool_move actor_type correlation_id case_id ESCALATED
       "Approval rejected; case escalated without claiming recovery" None);;
  flush;;
  c' ← get_row w_cases case_id;
  mret [("status", JStr "REJECTED"); ("action_id", JStr (uuid_str action_id));
        ("approval_id", JStr (uuid_str approval_id)); ("case_status", JStr (value (case_status c')))].

Definition cancel_action (case_id action_id : UUID) (actor_id reason : option string)
  (merchant_id : option UUID) (correlation_id : option string) : Op dict :=
  reject_action case_id action_id actor_id (value ActorType.USER)
    (Some (str_or reason "Cancelled by merchant operator")) merchant_id correlation_id.

End Approvals.

(** ** [recovery/router.py]

    A [DomainError] becomes the response, so [get_db_session] commits what was done before
    it; any other exception rolls the transaction back. *)

Inductive response (A : Type) : Type :=
  | Answer (a : A)
  | Refusal (e : exn).
Arguments Answer {A} a.
Arguments Refusal {A} e.

Definition respond_to {A} (caught : exn -> bool) (op : Op A) : Op (response A) :=
  try_except (a ← op; mret (Answer a)) (fun e => if caught e then mret (Refusal e) else mthrow e).
Definition respond {A} : Op A -> Op (response A) := respond_to is_domain_error.

Definition api_request {A} (op : Op A) : Op (response A) := transaction (respond op).

Section Router.
(** The process environment, what other transactions commit meanwhile, and the code
    outside the repository. *)
Context (environ : list (string * string)).
Context (enqueue : list UUID -> UUID -> option (list UUID)) (race_for_key : World -> World).
Context (predictor : dict -> string -> result predictor_error RecoveryProbability).
Context (ml_context_of : UUID -> Z -> option UUID -> option UUID -> World -> result predictor_error dict).
Context (as_int : json -> option Z) (datetime_json : datetime -> string).

Definition api_process_case (case_id : UUID) : Op (response dict) :=
  api_request (process_recovery_case environ case_id None).

Definition api_verify_case (case_id : UUID) : Op (response dict) :=
  api_request (verify_recovery_case environ case_id None None None).

Definition api_optimize_case (settings : OptimizerSettings) (context_of : UUID -> World -> dict)
  (case_id : UUID) : Op (response OptimizationResult) :=
  api_request (optimize_case predictor settings environ None context_of case_id true None None None None).

Definition _prepare_policy_check (case_id : UUID) : Op unit :=
  case_id ← lock_recovery_case case_id;
  lift (load_recovery_settings environ);;
  walk_to_policy_check None (value ActorType.WORKER) case_id;;
  flush.

Definition api_evaluate_action (case_id : UUID) (action : string) (merchant_id : option UUID)
  (input : dict) : Op (response PolicyEvaluationResult) :=
  api_request
    (_prepare_policy_check case_id;;
     settings ← lift (load_recovery_settings environ);
     evaluate settings case_id action input (value ActorType.SYSTEM) (Some "demo-operator") None merchant_id).

(** [ToolExecutionService(session)]: no queue, and a provider made for the request. *)
Notation service_execute settings case_id a :=
  (provider ← lift (get_payment_provider None 42);
   '(result, _) ← execute settings enqueue race_for_key id predictor ml_context_of as_int datetime_json
                    case_id a (mk_Outside provider None);
   mret result).

(** The body of the request, with the action its path may name. *)
Definition api_execute_action (case_id : UUID) (idempotency_key : string) (tool_name action : option string)
  (merchant_id : option UUID) (input : dict) (actor_id : option string) (action_id : option UUID)
  : Op (response ToolExecutionResult) :=
  api_request
    (_prepare_policy_check case_id;;
     settings ← lift (load_recovery_settings environ);
     service_execute settings case_id
       (mk_ExecuteArgs tool_name action input idempotency_key merchant_id (value ActorType.SYSTEM) actor_id
          None None action_id None false)).

Definition api_approve_action (case_id action_id : UUID) (merchant_id : option UUID)
  (actor_id : option string) : Op (response ToolExecutionResult) :=
  api_request
    (settings ← lift (load_recovery_settings environ);
     provider ← lift (get_payment_provider None 42);
     '(result, _) ← approve_action settings enqueue race_for_key id predictor ml_context_of as_int
                      datetime_json case_id action_id actor_id (value ActorType.USER) None merchant_id provider;
     mret result).

Definition api_reject_action (case_id action_id : UUID) (merchant_id : option UUID)
  (reason actor_id : option string) : Op (response dict) :=
  api_request
    (lift (load_recovery_settings environ);;
     reject_action case_id action_id actor_id (value ActorType.USER) reason merchant_id None).

Definition api_cancel_action (case_id action_id : UUID) (merchant_id : option UUID)
  (reason actor_id : option string) : Op (response dict) :=
  api_request
    (lift (load_recovery_settings environ);;
     cancel_action case_id action_id actor_id reason merchant_id None).
End Router.
