(* ===== verification/EventService.v ===== *)
(** * Receiving and simulating provider events

    [src/apps/api/recoverai_api/events]: [service.py] and [router.py]. A webhook body becomes
    a provider event of its merchant; simulated payments and the demonstration scenarios send
    events of the local simulator. Each request runs in its transaction. *)
From S2P Require Import Prelude PyStr Uuid Errors Decimal Sorting PyFloat Json Datetime Enums Rows Store Repositories Config Events Providers Simulator VerificationTypes Processing Lifecycle Refinement Ingestion Worker Approvals Fixtures.
Open Scope stdpp_scope.

(** ** [service.py] *)

Definition KNOWN_PAYMENT_EVENT_TYPES : list string :=
  ["payment.created"; "payment.authorized"; "payment.captured"; "payment.failed"; "payment.refunded";
   "payment.cancelled"].
Definition _DEMO_SLUGS : list string := [SIMULATOR_MERCHANT_SLUG; LEGACY_SIMULATOR_MERCHANT_SLUG].

(** A merchant and a customer, who may be unknown or known by the provider's name alone. *)
Record Parties : Type := mk_Parties {
  p_merchant_id : UUID;
  p_customer_id : option UUID;
  p_customer_external_id : option string;
}.

(** A slug that is given and not empty. *)
Definition given (slug : option string) : bool := nonempty (default "" slug).

(** [SimulatorWebhookRequest], after the conversions of pydantic. *)
Record WebhookBody : Type := mk_WebhookBody {
  wb_event_id : option string;
  wb_event_type : string;
  wb_occurred_at : option datetime;
  wb_provider_resource_id : option string;
  wb_provider_payment_id : option string;
  wb_provider_order_id : option string;
  wb_merchant_slug : option string;
  wb_merchant_id : option UUID;
  wb_merchant_reference : option string;
  wb_customer_id : option UUID;
  wb_customer_external_id : option string;
  wb_amount : option Decimal;
  wb_currency : string;
  wb_status : option string;
  wb_failure_reason : option string;
  wb_attempt_number : Z;
  wb_payment_method : option string;
  wb_correlation_id : option string;
  wb_payload : dict;
}.

Definition is_none {A} (o : option A) : bool := negb (is_some o).

(** The entries of a body, and what they make of its payload. *)
Definition body_entries (b : WebhookBody) (p : Parties) (resource_id : option string) (noted : datetime) : dict :=
  [("provider_payment_id", opt_str resource_id);
   ("provider_order_id", opt_str (wb_provider_order_id b));
   ("amount", match wb_amount b with
              | Some a => JStr (dec_str a)
              | None => dict_get "amount" (wb_payload b)
              end);
   ("currency", JStr (wb_currency b));
   ("status", opt_str (wb_status b));
   ("failure_reason", opt_str (wb_failure_reason b));
   ("attempt_number", JInt (wb_attempt_number b));
   ("payment_method", opt_str (wb_payment_method b));
   ("customer_id", opt_str (uuid_str <$> p_customer_id p));
   ("customer_external_id", opt_str (p_customer_external_id p));
   ("merchant_id", JStr (uuid_str (p_merchant_id p)));
   ("merchant_reference", JStr (default "" (or_str (wb_merchant_reference b) (Some (uuid_str (p_merchant_id p))))));
   ("occurred_at", JStr (isoformat noted))].
Definition merged_payload (b : WebhookBody) (p : Parties) (resource_id : option string) (noted : datetime) : dict :=
  dict_update (wb_payload b) (body_entries b p resource_id noted).

Definition without_nulls (d : dict) : dict :=
  List.filter (fun kv => negb (match kv.2 with JNull => true | _ => false end)) d.

(** The parties are those resolved before; the body's own are not looked at. *)
Definition webhook_to_provider_event (b : WebhookBody) (p : Parties) : Op ProviderEvent :=
  if blank (wb_event_type b) then mthrow (invalid_event "event_type is required")
  else match wb_event_id b with
  | None => mthrow (invalid_event "event_id is required")
  | Some event_id =>
      if blank event_id then mthrow (invalid_event "event_id is required")
      else
        let resource_id := or_str (wb_provider_resource_id b) (wb_provider_payment_id b) in
        if is_none resource_id && mem_str (strip (wb_event_type b)) KNOWN_PAYMENT_EVENT_TYPES
        then mthrow (IngestionError "INVALID_PAYMENT_REFERENCE" "provider_resource_id is required" 400)
        else
          noted ← time_or_now (wb_occurred_at b);
          let cleaned := without_nulls (merged_payload b p resource_id noted) in
          if mem_str (wb_event_type b) ["payment.failed"; "payment.captured"; "payment.refunded"]
             && negb (has_key "amount" cleaned)
          then mthrow (invalid_event "amount is required")
          else
            occurred ← time_or_now (wb_occurred_at b);
            mret (mk_ProviderEvent SIMULATOR (strip event_id) (strip (wb_event_type b)) occurred
                    (default "" resource_id)
                    (py_str (py_or (dict_get "merchant_reference" cleaned) (JStr (uuid_str (p_merchant_id p)))))
                    cleaned (Some true) (wb_correlation_id b))
  end.

Section Service.
(** The queue, and what other transactions commit before an event or a party is inserted. *)
Context (enqueue : list UUID -> UUID -> option (list UUID)) (race_for_event race_for_party : World -> World).
Notation fixtures := (ensure_simulator_fixtures race_for_party).

Definition resolve_merchant_id (merchant_id : option UUID) (merchant_slug : option string)
  (allow_fixture : bool) : Op UUID :=
  match merchant_id with
  | Some id =>
      merchant ← gets (MerchantRepository.get_merchant id);
      if is_some merchant then mret id
      else mthrow (IngestionError "MISSING_MERCHANT" "Merchant was not found" 404)
  | None =>
      let demo := ('(merchant, _) ← fixtures; mret merchant) in
      if given merchant_slug
      then
        let slug := default "" merchant_slug in
        if allow_fixture && mem_str slug _DEMO_SLUGS then demo
        else
          merchant ← gets (MerchantRepository.get_by_slug slug);
          match merchant with
          | Some id => mret id
          | None => mthrow (IngestionError "MISSING_MERCHANT" ("Merchant slug " +:+ slug +:+ " was not found") 404)
          end
      else if allow_fixture then demo
      else mthrow (IngestionError "MISSING_MERCHANT" "merchant_id or merchant_slug is required" 400)
  end.

(** The simulator's parties, where the request names none of its own. *)
Definition demo_parties (merchant customer : UUID) (customer_id : option UUID)
  (external_id : option string) : Op Parties :=
  row ← get_row w_customers customer;
  mret (mk_Parties merchant (Some (default customer customer_id))
          (or_str external_id (customer_external_id row))).

Definition resolve_webhook_parties (merchant_id : option UUID) (merchant_slug : option string)
  (customer_id : option UUID) (external_id : option string) : Op Parties :=
  if is_none merchant_id && negb (given merchant_slug)
  then
    '(merchant, customer) ← fixtures;
    demo_parties merchant customer customer_id external_id
  else
    merchant ← resolve_merchant_id merchant_id merchant_slug
                 (given merchant_slug && mem_str (default "" merchant_slug) _DEMO_SLUGS);
    mret (mk_Parties merchant customer_id external_id).

Definition resolve_simulation_parties (merchant_id : option UUID) (merchant_slug : option string)
  (customer_id : option UUID) (external_id : option string) : Op Parties :=
  '(demo_merchant, demo_customer) ← fixtures;
  if is_none merchant_id && negb (given merchant_slug)
  then demo_parties demo_merchant demo_customer customer_id external_id
  else
    merchant ← resolve_merchant_id merchant_id merchant_slug
                 (if given merchant_slug then mem_str (default "" merchant_slug) _DEMO_SLUGS else true);
    if is_some customer_id || given external_id then mret (mk_Parties merchant customer_id external_id)
    else if same merchant demo_merchant
    then
      row ← get_row w_customers demo_customer;
      mret (mk_Parties merchant (Some demo_customer) (customer_external_id row))
    else mthrow (IngestionError "MISSING_CUSTOMER"
                   "customer_id or customer_external_id is required for a non-demo merchant" 400).

(** A payment of the simulator, and the event it sends. *)
Record SimulatedPayment : Type := mk_SimulatedPayment {
  sp_amount : Decimal;
  sp_currency : string;
  sp_seed : Z;
  sp_event_type : string;
  sp_failure_reason : option string;
  sp_intended_status : option string;
  sp_attempt_number : Z;
  sp_correlation_id : option string;
  sp_provider_payment_id : option string;
}.

Definition set_snap_provider_payment_id (v : string) (r : PaymentSnapshot) : PaymentSnapshot :=
  mk_PaymentSnapshot (snap_provider r) v (snap_provider_order_id r) (snap_merchant_reference r) (snap_amount r)
    (snap_currency r) (snap_status r) (snap_attempt_number r) (snap_failure_reason r) (snap_payment_method r)
    (snap_occurred_at r) (snap_metadata r).

(** [FailureReason(text)], of a text that is not empty *)
Definition failure_reason_of (text : option string) : result exn (option FailureReason.t) :=
  match text with
  | Some t =>
      if nonempty t
      then reason ← ok_or (invalid_event "Unknown failure_reason") (of_value t); mret (Some reason)
      else Ok None
  | None => Ok None
  end.

(** The simulator is given [CREATED] for a status outside the enumeration: like it, it has no
    failure reason, and the event carries the text itself. *)
Definition ingest_simulated_payment (p : Parties) (x : SimulatedPayment) (queue : list UUID)
  : Op (IngestResult * list UUID) :=
  failure ← lift (failure_reason_of (sp_failure_reason x));
  provider ← lift (get_payment_provider (Some SIMULATOR) (sp_seed x));
  '(snapshot, _) ← create_payment
    (mk_CreatePaymentRequest (uuid_str (p_merchant_id p)) (sp_amount x) (sp_currency x)
       (Some (default "" (or_str (uuid_str <$> p_customer_id p) (p_customer_external_id p)))) None
       (sp_attempt_number x) no_history
       ((fun s => default PaymentStatus.CREATED (of_value s)) <$> sp_intended_status x) failure []) provider;
  let snapshot := match sp_provider_payment_id x with
                  | Some id => if nonempty id then set_snap_provider_payment_id id snapshot else snapshot
                  | None => snapshot
                  end in
  event ← build_event_with_status (default (value (snap_status snapshot)) (sp_intended_status x)) snapshot
            (sp_seed x) (sp_correlation_id x)
            ([("merchant_id", JStr (uuid_str (p_merchant_id p)))]
             ++ match p_customer_id p with Some id => [("customer_id", JStr (uuid_str id))] | None => [] end
             ++ (if given (p_customer_external_id p)
                 then [("customer_external_id", JStr (default "" (p_customer_external_id p)))] else []))
            None (Some (sp_event_type x));
  ingest enqueue race_for_event event (p_merchant_id p) queue (sp_correlation_id x).

(** An event written out, not simulated. *)
Record ExplicitEvent : Type := mk_ExplicitEvent {
  xe_event_id : string;
  xe_provider_payment_id : string;
  xe_provider_order_id : option string;
  xe_event_type : string;
  xe_status : string;
  xe_failure_reason : option string;
  xe_occurred_at : option datetime;
}.

Definition _ingest_explicit (merchant_id : UUID) (customer_id : option UUID) (amount : Decimal)
  (x : ExplicitEvent) (queue : list UUID) : Op (IngestResult * list UUID) :=
  event ← webhook_to_provider_event
    (mk_WebhookBody (Some (xe_event_id x)) (xe_event_type x) (xe_occurred_at x)
       (Some (xe_provider_payment_id x)) None (xe_provider_order_id x) None None None None None (Some amount)
       "INR" (Some (xe_status x)) (xe_failure_reason x) 1 (Some "card") None [])
    (mk_Parties merchant_id customer_id None);
  ingest enqueue race_for_event event merchant_id queue None.

(** ** Scenarios *)

Definition failed_event_of (event_id payment_id order_id reason : string) : ExplicitEvent :=
  mk_ExplicitEvent event_id payment_id (Some order_id) "payment.failed" "FAILED" (Some reason) None.
Definition capture_event_of (event_id payment_id order_id : string) (at_ : option datetime) : ExplicitEvent :=
  mk_ExplicitEvent event_id payment_id (Some order_id) "payment.captured" "CAPTURED" None at_.

(** [str(raw) if raw else None] of an entry of a stored payload *)
Definition payload_text (k : string) (row : option WebhookEvent) : option string :=
  r ← row;
  let raw := dict_get k (hook_payload r) in
  if truthy raw then Some (py_str raw) else None.

Definition is_key (key letter name : string) : bool := mem_str key [letter; name].

Section Scenario.
(** The parties, the seed and the amount a scenario is run with. *)
Context (p : Parties) (seed : Z) (amount : Decimal).
Notation merchant := (p_merchant_id p).
Notation seeded prefix := (prefix +:+ str_int seed).

Definition emit (event_type intended_status : string) (failure_reason : option string) (event_seed : Z)
  (provider_payment_id : option string) : list UUID -> Op (IngestResult * list UUID) :=
  ingest_simulated_payment p
    (mk_SimulatedPayment amount "INR" event_seed event_type failure_reason (Some intended_status) 1 None
       provider_payment_id).

Definition explicit (customer_id : option UUID) := _ingest_explicit merchant customer_id.

Definition emit_failed : list UUID -> Op (IngestResult * list UUID) :=
  emit "payment.failed" "FAILED" (Some "TEMPORARY_BANK_ERROR") seed None.

(** Two events, the second of which may look at the first. *)
Definition then_ (first : list UUID -> Op (IngestResult * list UUID))
  (second : IngestResult -> list UUID -> Op (IngestResult * list UUID)) (queue : list UUID)
  : Op (list IngestResult * list UUID) :=
  '(a, queue) ← first queue;
  '(b, queue) ← second a queue;
  mret ([a; b], queue).

Definition scenario_a (queue : list UUID) : Op (list IngestResult * list UUID) :=
  '(a, queue) ← emit_failed queue;
  mret ([a], queue).

(** The event of the first is delivered again. *)
Definition scenario_b : list UUID -> Op (list IngestResult * list UUID) :=
  then_ emit_failed (fun first queue =>
    row ← gets (fun w => w_webhooks w !! in_webhook_event_id first);
    match row with
    | None => mthrow (invalid_event "Scenario B source event missing")
    | Some row => ingest enqueue race_for_event (provider_event_from_row row) merchant queue None
    end).

Definition scenario_c : list UUID -> Op (list IngestResult * list UUID) :=
  then_ emit_failed (fun failed queue =>
    row ← gets (fun w => w_webhooks w !! in_webhook_event_id failed);
    emit "payment.captured" "CAPTURED" None (seed + 1) (payload_text "provider_payment_id" row) queue).

Definition scenario_e (queue : list UUID) : Op (list IngestResult * list UUID) :=
  '(a, queue) ← emit "payment.unknown_custom_type" "FAILED" (Some "UNKNOWN") seed None queue;
  mret ([a], queue).

Definition valid_recovery : list UUID -> Op (list IngestResult * list UUID) :=
  then_ emit_failed (fun failed queue =>
    row ← gets (fun w => w_webhooks w !! in_webhook_event_id failed);
    explicit (p_customer_id p) amount
      (mk_ExplicitEvent (seeded "evt_valid_capture_")
         (default "" (or_str (payload_text "provider_payment_id" row) (Some (seeded "pay_sim_valid_"))))
         (payload_text "provider_order_id" row) "payment.captured" "CAPTURED" None None) queue).

Definition wrong_order : list UUID -> Op (list IngestResult * list UUID) :=
  then_
    (explicit (p_customer_id p) amount
       (failed_event_of (seeded "evt_wrong_order_fail_") (seeded "pay_sim_order_a_") (seeded "order_sim_a_")
          "TEMPORARY_BANK_ERROR"))
    (fun _ => explicit (p_customer_id p) amount
       (capture_event_of (seeded "evt_wrong_order_cap_") (seeded "pay_sim_order_b_") (seeded "order_sim_b_") None)).

Definition wrong_customer (queue : list UUID) : Op (list IngestResult * list UUID) :=
  alt ← ensure_alt_simulator_customer race_for_party;
  then_
    (explicit (p_customer_id p) amount
       (failed_event_of (seeded "evt_wrong_cust_fail_") (seeded "pay_sim_cust_a_") (seeded "order_sim_cust_a_")
          "DECLINED"))
    (fun _ => explicit (Some alt) amount
       (capture_event_of (seeded "evt_wrong_cust_cap_") (seeded "pay_sim_cust_b_") (seeded "order_sim_cust_a_")
          None)) queue.

Definition wrong_merchant (queue : list UUID) : Op (list IngestResult * list UUID) :=
  '(alt_merchant, alt_customer) ← ensure_alt_simulator_merchant race_for_party;
  then_
    (explicit (p_customer_id p) amount
       (failed_event_of (seeded "evt_wrong_merch_fail_") (seeded "pay_sim_merch_a_") (seeded "order_sim_merch_a_")
          "DECLINED"))
    (fun _ => _ingest_explicit alt_merchant (Some alt_customer) amount
       (capture_event_of (seeded "evt_wrong_merch_cap_") (seeded "pay_sim_merch_b_")
          (seeded "order_sim_merch_a_") None)) queue.

Definition partial_capture (queue : list UUID) : Op (list IngestResult * list UUID) :=
  then_
    (explicit (p_customer_id p) amount
       (failed_event_of (seeded "evt_partial_fail_") (seeded "pay_sim_partial_") (seeded "order_sim_partial_")
          "INSUFFICIENT_FUNDS"))
    (fun _ queue =>
       half ← lift (dec_div amount (dec_of_Z 2));
       explicit (p_customer_id p) half
         (capture_event_of (seeded "evt_partial_cap_") (seeded "pay_sim_partial_") (seeded "order_sim_partial_")
            None) queue) queue.

Definition duplicate_capture (queue : list UUID) : Op (list IngestResult * list UUID) :=
  let capture event_id := explicit (p_customer_id p) amount
    (capture_event_of event_id (seeded "pay_sim_dupcap_") (seeded "order_sim_dupcap_") None) in
  '(failed, queue) ← explicit (p_customer_id p) amount
    (failed_event_of (seeded "evt_dupcap_fail_") (seeded "pay_sim_dupcap_") (seeded "order_sim_dupcap_")
       "NETWORK_TIMEOUT") queue;
  '(first, queue) ← capture (seeded "evt_dupcap_ok_") queue;
  '(second, queue) ← capture (seeded "evt_dupcap_again_") queue;
  mret ([failed; first; second], queue).

Definition delayed_capture : list UUID -> Op (list IngestResult * list UUID) :=
  then_
    (explicit (p_customer_id p) amount
       (failed_event_of (seeded "evt_delay_fail_") (seeded "pay_sim_delay_") (seeded "order_sim_delay_")
          "TEMPORARY_BANK_ERROR"))
    (fun _ queue =>
       now ← utcnow;
       explicit (p_customer_id p) amount
         (capture_event_of (seeded "evt_delay_cap_") (seeded "pay_sim_delay_") (seeded "order_sim_delay_")
            (Some (utc (now + hours 200)%Z))) queue).

Definition capture_before_case : list UUID -> Op (list IngestResult * list UUID) :=
  then_
    (explicit (p_customer_id p) amount
       (capture_event_of (seeded "evt_before_cap_") (seeded "pay_sim_before_") (seeded "order_sim_before_") None))
    (fun _ => explicit (p_customer_id p) amount
       (failed_event_of (seeded "evt_before_fail_") (seeded "pay_sim_before_") (seeded "order_sim_before_")
          "TEMPORARY_BANK_ERROR")).

Definition play (key : string) (queue : list UUID) : Op (list IngestResult * list UUID) :=
  if is_key key "A" "SCENARIO_A" then scenario_a queue
  else if is_key key "B" "SCENARIO_B" then scenario_b queue
  else if is_key key "C" "SCENARIO_C" then scenario_c queue
  else if is_key key "E" "SCENARIO_E" then scenario_e queue
  else if is_key key "G" "VALID_RECOVERY" then valid_recovery queue
  else if is_key key "H" "WRONG_ORDER" then wrong_order queue
  else if is_key key "I" "WRONG_CUSTOMER" then wrong_customer queue
  else if is_key key "J" "WRONG_MERCHANT" then wrong_merchant queue
  else if is_key key "K" "PARTIAL_CAPTURE" then partial_capture queue
  else if is_key key "L" "DUPLICATE_CAPTURE" then duplicate_capture queue
  else if is_key key "M" "DELAYED_CAPTURE" then delayed_capture queue
  else if is_key key "N" "CAPTURE_BEFORE_CASE" then capture_before_case queue
  else mthrow (invalid_event
    ("Unknown scenario. Supported: A, B, C, E, G-O. "
     +:+ "D is a malformed webhook body. F is processed by running the worker job twice.")).
End Scenario.

(** The scenario ["G"] a second time resolves its parties again. *)
Definition run_scenario (simulation_seed : Z) (scenario : string) (merchant_slug : option string)
  (seed : option Z) (amount : option Decimal) (queue : list UUID) : Op (list IngestResult * list UUID) :=
  let run key :=
    parties ← resolve_simulation_parties None merchant_slug None None;
    play parties (default simulation_seed seed)
      (match amount with
       | Some a => if (d_int a =? 0)%Z then mkDec 49900 (-2) else a
       | None => mkDec 49900 (-2)
       end) key queue in
  let key := upper (strip scenario) in
  if is_key key "O" "ALREADY_COUNTED"
  then resolve_simulation_parties None merchant_slug None None;; run "G"
  else run key.
End Service.

(** ** [router.py]

    [get_db_session] commits when an [IngestionError] was answered, and rolls back on any
    other exception. *)
Section Router.
Context (enqueue : list UUID -> UUID -> option (list UUID)) (race_for_event race_for_party : World -> World).
(** [Settings.simulation_seed] *)
Context (simulation_seed : Z).

Definition events_request {A} (op : Op A) : Op (response A) := transaction (respond_to is_ingestion_error op).

Definition ingest_simulator_webhook (b : WebhookBody) (request_id : option string) (queue : list UUID)
  : Op (response (IngestResult * list UUID)) :=
  events_request
    (parties ← resolve_webhook_parties race_for_party (wb_merchant_id b) (wb_merchant_slug b) (wb_customer_id b)
                 (wb_customer_external_id b);
     event ← webhook_to_provider_event b parties;
     ingest enqueue race_for_event event (p_merchant_id parties) queue request_id).

(** [SimulationEventRequest], after the conversions of pydantic. *)
Record SimulationBody : Type := mk_SimulationBody {
  sb_event_type : string;
  sb_failure_reason : option string;
  sb_amount : Decimal;
  sb_currency : string;
  sb_merchant_slug : option string;
  sb_merchant_id : option UUID;
  sb_customer_id : option UUID;
  sb_customer_external_id : option string;
  sb_seed : option Z;
  sb_intended_status : option string;
  sb_attempt_number : Z;
  sb_correlation_id : option string;
}.

Definition simulate_event (b : SimulationBody) (request_id : option string) (queue : list UUID)
  : Op (response (IngestResult * list UUID)) :=
  events_request
    (parties ← resolve_simulation_parties race_for_party (sb_merchant_id b) (sb_merchant_slug b)
                 (sb_customer_id b) (sb_customer_external_id b);
     ingest_simulated_payment enqueue race_for_event parties
       (mk_SimulatedPayment (sb_amount b) (sb_currency b) (default simulation_seed (sb_seed b))
          (sb_event_type b) (sb_failure_reason b) (sb_intended_status b) (sb_attempt_number b)
          (or_str (sb_correlation_id b) request_id) None) queue).

Definition simulate_scenario (scenario : string) (merchant_slug : option string) (seed : option Z)
  (amount : option Decimal) (queue : list UUID) : Op (response (list IngestResult * list UUID)) :=
  events_request
    (run_scenario enqueue race_for_event race_for_party simulation_seed scenario merchant_slug seed amount queue).

(** [WebhookEventRepository.list_recent]; the response leaves the payload out. *)
Definition list_recent (merchant_id : option UUID) (limit : nat) (w : World) : list (UUID * WebhookEvent) :=
  take limit (sort_by (reversed (on_key Z.compare (fun kv => hook_received_at kv.2)))
    (rows_where (fun _ e => match merchant_id with
                            | Some m => same (hook_merchant_id e) m
                            | None => true
                            end) (w_webhooks w))).

Definition list_events (merchant_slug : option string) (limit : nat)
  : Op (response (list (UUID * WebhookEvent))) :=
  events_request
    (merchant ← (if given merchant_slug
                 then id ← resolve_merchant_id race_for_party None merchant_slug false; mret (Some id)
                 else mret None);
     gets (list_recent merchant limit)).
End Router.

(** ** The event routes refine the abstract system *)

Section Refines.
Context (cfg : RecoverySettings) (A : list label).
Context (HA : INGESTION ⊆ A) (Hparty : L_party ∈ A).
Context (enqueue : list UUID -> UUID -> option (list UUID)) (race_for_event race_for_party : World -> World).
Context (Hevent : forall w, runs cfg A w (race_for_event w)) (Hrace : forall w, runs cfg A w (race_for_party w)).
Notation R := (runs cfg A).

Lemma fixture_labels : [L_time; L_party] ⊆ A.
Proof using HA Hparty.
  intros l [->|[->|[]%elem_of_nil]%elem_of_cons]%elem_of_cons; [apply HA; solve_label|done].
Qed.

Lemma runs_utcnow_here : preserves R utcnow.
Proof using HA. apply runs_utcnow. apply HA. solve_label. Qed.
Lemma runs_fixtures_here : preserves R (ensure_simulator_fixtures race_for_party).
Proof using All. apply runs_fixtures; [apply fixture_labels|done]. Qed.
Lemma runs_alt_customer_here : preserves R (ensure_alt_simulator_customer race_for_party).
Proof using All. apply runs_alt_customer; [apply fixture_labels|done]. Qed.
Lemma runs_alt_merchant_here : preserves R (ensure_alt_simulator_merchant race_for_party).
Proof using All. apply runs_alt_merchant; [apply fixture_labels|done]. Qed.
Lemma runs_ingest_here event m q r : preserves R (ingest enqueue race_for_event event m q r).
Proof using All. by apply runs_ingest. Qed.
#[local] Hint Resolve runs_utcnow_here runs_fixtures_here runs_alt_customer_here runs_alt_merchant_here
  runs_ingest_here runs_get_row : pres.

Lemma runs_time_or_now o : preserves R (time_or_now o).
Proof using HA. unfold time_or_now. solve_pres. Qed.
#[local] Hint Resolve runs_time_or_now : pres.

Lemma runs_webhook_event b p : preserves R (webhook_to_provider_event b p).
Proof using HA. unfold webhook_to_provider_event. solve_pres. Qed.
Lemma runs_resolve_merchant m s x : preserves R (resolve_merchant_id race_for_party m s x).
Proof using All. unfold resolve_merchant_id. solve_pres. Qed.
#[local] Hint Resolve runs_webhook_event runs_resolve_merchant : pres.

Lemma runs_demo_parties m c i x : preserves R (demo_parties m c i x).
Proof using. unfold demo_parties. solve_pres. Qed.
#[local] Hint Resolve runs_demo_parties : pres.

Lemma runs_webhook_parties m s c x : preserves R (resolve_webhook_parties race_for_party m s c x).
Proof using All. unfold resolve_webhook_parties. solve_pres. Qed.
Lemma runs_simulation_parties m s c x : preserves R (resolve_simulation_parties race_for_party m s c x).
Proof using All. unfold resolve_simulation_parties. solve_pres. Qed.
#[local] Hint Resolve runs_webhook_parties runs_simulation_parties : pres.

Lemma only_time_runs w w' : only_time w w' -> R w w'.
Proof using HA.
  intros (n & Hn & ->). assert (set_w_ticks n w = set_w_ticks n (set_w_draws (w_draws w) w)) as -> by (by destruct w).
  apply runs_later; [apply HA; solve_label|done|done].
Qed.

Lemma builds_status_event s x seed c e o t : preserves R (build_event_with_status s x seed c e o t).
Proof using HA. unfold build_event_with_status. solve_pres. Qed.
Lemma creates_local_payment r (p : LocalSimulationProvider) : preserves R (create_payment r p).
Proof using HA. intros w. apply only_time_runs, create_payment_law. Qed.
#[local] Hint Resolve builds_status_event creates_local_payment : pres.

Lemma runs_simulated p x q : preserves R (ingest_simulated_payment enqueue race_for_event p x q).
Proof using All. unfold ingest_simulated_payment. solve_pres. Qed.
Lemma runs_explicit m c a x q : preserves R (_ingest_explicit enqueue race_for_event m c a x q).
Proof using All. unfold _ingest_explicit. solve_pres. Qed.
#[local] Hint Resolve runs_simulated runs_explicit : pres.

Lemma runs_then first second q :
  (forall q, preserves R (first q)) -> (forall r q, preserves R (second r q)) -> preserves R (then_ first second q).
Proof using. intros H1 H2. unfold then_. solve_pres. Qed.

Lemma runs_play p seed amount key q : preserves R (play enqueue race_for_event race_for_party p seed amount key q).
Proof using All.
  unfold play, scenario_a, scenario_b, scenario_c, scenario_e, valid_recovery, wrong_order, wrong_customer,
    wrong_merchant, partial_capture, duplicate_capture, delayed_capture, capture_before_case, emit_failed, emit,
    explicit.
  repeat (apply runs_then; [intros; solve_pres|intros; solve_pres] || pres_step).
Qed.
#[local] Hint Resolve runs_play : pres.

Lemma runs_scenario d s m seed a q :
  preserves R (run_scenario enqueue race_for_event race_for_party d s m seed a q).
Proof using All. unfold run_scenario. solve_pres. Qed.
End Refines.
