(* ===== verification/WorkerTheorems.v ===== *)
(** * What a worker job leaves behind

    Each job is all or nothing; a follow-up survives its trip through the queue;
    an event whose retries are used up ends in the dead letter state. *)
From S2P Require Import Prelude PyStr Uuid Errors Decimal Json Datetime Enums Rows Store Repositories StateMachine Transitions Config VerificationTypes Events Processing Processor Verification Lifecycle Refinement ProcessingProps ProcessorProps ProcessingTheorems Worker.
Open Scope stdpp_scope.

(** [w'] differs from [w] only in the clock readings and identifiers used up. *)
Definition same_rows (w w' : World) : Prop := exists t d, w' = set_w_ticks t (set_w_draws d w).

(** ** Transactions *)

(** The ways a transaction ends. *)
Lemma transaction_cases {A} (op : Op A) w w' r :
  transaction op w = (w', r) ->
  (exists a, r = Ok a /\ op w = (w', Ok a) /\ db_checks w' = true)
  \/ (exists e, r = Raise e /\ same_rows w w').
Proof.
  unfold transaction. destruct (op w) as [w1 [a|e]] eqn:Hop.
  - destruct (db_checks w1) eqn:Hdb; intros [= <- <-]; [left; by exists a|].
    right. eexists. split; [done|]. by eexists _, _.
  - intros [= <- <-]. right. exists e. split; [done|]. by eexists _, _.
Qed.

(** A job that answers permanent failures and re-raises the others. *)
Lemma answered_cases {A} (op : Op A) (answer : exn -> A) w w' r :
  try_except (transaction op) (fun exc =>
    if is_domain_error exc && negb (exn_retryable exc) then mret (answer exc) else mthrow exc) w = (w', r) ->
  (exists a, r = Ok a /\ op w = (w', Ok a) /\ db_checks w' = true)
  \/ (exists e, same_rows w w' /\ r = if permanent e then Ok (answer e) else Raise e).
Proof.
  unfold try_except. destruct (transaction op w) as [w1 r1] eqn:Ht.
  apply transaction_cases in Ht as [(a & -> & Hop & Hdb)|(e & -> & Hs)].
  - intros [= <- <-]. left. by exists a.
  - intros H. right. exists e. unfold permanent.
    destruct (is_domain_error e && negb (exn_retryable e)); by injection H as <- <-.
Qed.

(** ** Follow-up items *)

(** What [_queue_verify] and the handlers append. *)
Definition plain_job (j : FollowUpJob) : Prop :=
  job_extra j = []
  /\ (job_name j = "process_recovery_case" /\ job_payment_id j = None
      \/ job_name j = "verify_recovery_case").

Definition valid_uuid (u : UUID) : Prop := (u < 2 ^ 128)%N.
Definition valid_job (j : FollowUpJob) : Prop :=
  valid_uuid (job_case_id j)
  /\ (forall p, job_payment_id j = Some p -> valid_uuid p)
  /\ (forall h, job_webhook_event_id j = Some h -> valid_uuid h).

Lemma as_dict_fields j : job_extra j = [] ->
  dict_get "name" (VerificationTypes.as_dict j) = JStr (job_name j)
  /\ dict_get "case_id" (VerificationTypes.as_dict j) = JStr (uuid_str (job_case_id j))
  /\ dict_get "payment_id" (VerificationTypes.as_dict j) = opt_uuid (job_payment_id j)
  /\ dict_get "webhook_event_id" (VerificationTypes.as_dict j) = opt_uuid (job_webhook_event_id j).
Proof.
  destruct j as [name case_id pid hook extra]. simpl. intros ->.
  unfold VerificationTypes.as_dict, opt_uuid. simpl.
  generalize (uuid_str case_id). intros s.
  destruct pid as [p|], hook as [h|];
    try generalize (uuid_str p); try generalize (uuid_str h); repeat split.
Qed.

Lemma parse_uuid_str u : valid_uuid u -> parse_uuid (uuid_str u) = Ok u.
Proof. intros H. unfold parse_uuid. rewrite (uuid_of_str_uuid_str _ H). reflexivity. Qed.

Lemma optional_uuid_roundtrip o : (forall p, o = Some p -> valid_uuid p) ->
  optional_uuid_of (opt_uuid o) = Ok o.
Proof.
  intros H. destruct o as [p|]; [|reflexivity].
  unfold optional_uuid_of, opt_uuid. rewrite (parse_uuid_str p (H p eq_refl)). reflexivity.
Qed.

(** ** The queue *)

Section Queue.
Context (environ : list (string * string)) (worker_max_retries : Z).

(** What a follow-up asks for. *)
Definition follow (j : FollowUpJob) : Op dict :=
  if String.eqb (job_name j) "process_recovery_case"
  then process_recovery_case environ (job_case_id j) None
  else verify_recovery_case environ (job_case_id j) (job_payment_id j) (job_webhook_event_id j) None.

(** The answer to a permanent failure. *)
Definition failure_answer (j : FollowUpJob) (e : exn) : dict :=
  [("status", JStr "error"); ("code", JStr (exn_code e)); ("case_id", JStr (uuid_str (job_case_id j)))]
  ++ if String.eqb (job_name j) "process_recovery_case" then [] else [("matched", JBool false)].

(** Running an operation as a job: one transaction, permanent failures answered. *)
Definition as_job (op : Op dict) (answer : exn -> dict) : Op dict :=
  try_except (transaction op) (fun exc => if permanent exc then mret (answer exc) else mthrow exc).

Lemma apply_followup_run j w : plain_job j -> valid_job j ->
  apply_followup environ (JObj (VerificationTypes.as_dict j)) w = (follow j ≫= fun r => mret [r]) w.
Proof.
  intros [He Hname] (Hc & Hp & Hh). destruct (as_dict_fields j He) as (En & Ec & Ep & Eh).
  unfold apply_followup. rewrite Ec, Ep, Eh, En.
  rewrite (parse_uuid_str _ Hc), (optional_uuid_roundtrip _ Hp), (optional_uuid_roundtrip _ Hh).
  unfold follow. by destruct Hname as [[-> _] | ->].
Qed.

Lemma uuid_if_roundtrip o : (forall p, o = Some p -> valid_uuid p) ->
  uuid_if (as_str (opt_uuid o)) = Ok o.
Proof.
  intros H. destruct o as [p|]; [|reflexivity].
  pose proof (uuid_of_str_uuid_str p (H p eq_refl)) as Hp. unfold uuid_if, parse_uuid.
  cbn [as_str opt_uuid]. destruct (uuid_str p) as [|c s] eqn:Hs; [discriminate Hp|].
  cbn [nonempty]. rewrite Hp. reflexivity.
Qed.

(** Arguments that parse make the job the transaction on them. *)
Lemma transaction_ext {A} (f g : Op A) w : f w = g w -> transaction f w = transaction g w.
Proof. unfold transaction. by intros ->. Qed.

Lemma as_job_ext f g answer w : f w = g w -> as_job f answer w = as_job g answer w.
Proof. intros H. unfold as_job, try_except. by rewrite (transaction_ext _ _ _ H). Qed.

Lemma process_job_run text id w : parse_uuid text = Ok id ->
  process_recovery_case_job environ true text w
  = as_job (process_recovery_case environ id None)
      (fun e => [("status", JStr "error"); ("code", JStr (exn_code e)); ("case_id", JStr text)]) w.
Proof.
  intros H. etrans; [|apply (as_job_ext (id ← lift (parse_uuid text); process_recovery_case environ id None))].
  - reflexivity.
  - by rewrite H.
Qed.

Lemma verify_job_run text id p pid h hook w :
  parse_uuid text = Ok id -> uuid_if p = Ok pid -> uuid_if h = Ok hook ->
  verify_recovery_case_job environ true text p h w
  = as_job (verify_recovery_case environ id pid hook None)
      (fun e => [("status", JStr "error"); ("code", JStr (exn_code e)); ("case_id", JStr text);
                 ("matched", JBool false)]) w.
Proof.
  intros H Hp Hh. etrans; [|apply (as_job_ext (id ← lift (parse_uuid text); pid ← lift (uuid_if p);
     hook ← lift (uuid_if h); verify_recovery_case environ id pid hook None))].
  - reflexivity.
  - by rewrite H, Hp, Hh.
Qed.

Lemma queued_job_run j w : plain_job j -> valid_job j ->
  exists job, queued_job worker_max_retries (JObj (VerificationTypes.as_dict j)) = Some job
    /\ perform environ true job w = as_job (follow j) (failure_answer j) w.
Proof.
  intros [He Hname] (Hc & Hp & Hh). destruct (as_dict_fields j He) as (En & Ec & Ep & Eh).
  unfold queued_job. rewrite Ec, Ep, Eh, En. unfold follow, failure_answer.
  destruct Hname as [[-> _] | ->]; eexists; (split; [reflexivity|]).
  - apply (process_job_run (uuid_str (job_case_id j))). by apply parse_uuid_str.
  - apply (verify_job_run (uuid_str (job_case_id j)) _ (as_str _) _ (as_str _));
      [by apply parse_uuid_str|by apply uuid_if_roundtrip..].
Qed.
End Queue.

(** ** The event job *)

Lemma checks_rolled_back w w' : db_checks (rolled_back w w') = db_checks w.
Proof. reflexivity. Qed.

Lemma mark_dead_letter_run hook error w row :
  w_webhooks w !! hook = Some row -> hook_final row = false ->
  exists w', mark_dead_letter hook error w = (w', Ok tt)
    /\ domain_tables w' = domain_tables w /\ db_checks w' = db_checks w
    /\ exists row', w_webhooks w' !! hook = Some row'
       /\ hook_status row' = WebhookEventStatus.DEAD_LETTER /\ hook_identity row' = hook_identity row.
Proof.
  intros Hr Hf. unfold mark_dead_letter. erewrite bind_run by reflexivity. rewrite Hr.
  unfold hook_final in Hf. destruct (hook_status row); try discriminate Hf.
  all: erewrite bind_run by reflexivity; unfold worker_audit; rewrite record_audit_run; eexists;
    (split; [reflexivity|]); (split; [done|]); (split; [done|]); eexists; simpl;
    rewrite lookup_alter_eq, Hr; by split.
Qed.

Lemma event_job_raises environ concurrent worker_max_retries enqueue will_retry queue text hook row w e :
  uuid_of_str text = Some hook -> w_webhooks w !! hook = Some row -> hook_final row = false ->
  db_checks w = true -> outcome (transaction (process_webhook_event concurrent hook)) w = Raise e ->
  exists w', process_provider_event environ concurrent true worker_max_retries enqueue will_retry
               queue text w = (w', Raise e)
    /\ (if will_retry then same_rows w w'
        else domain_tables w' = domain_tables w
          /\ exists row', w_webhooks w' !! hook = Some row'
             /\ hook_status row' = WebhookEventStatus.DEAD_LETTER /\ hook_identity row' = hook_identity row).
Proof.
  intros Hid Hr Hf Hdb Ho.
  assert (parse_uuid text = Ok hook) as Hp by (unfold parse_uuid; by rewrite Hid).
  destruct (transaction (process_webhook_event concurrent hook) w) as [w1 r1] eqn:Ht.
  unfold outcome in Ho. rewrite Ht in Ho. simpl in Ho. subst r1.
  destruct (transaction_cases _ _ _ _ Ht) as [(a & [=] & _)|(e' & [= <-] & t & d & Hs)].
  assert (transaction (id ← lift (parse_uuid text); process_webhook_event concurrent id) w
          = (w1, Raise e)) as Ht'.
  { etrans; [|exact Ht]. apply transaction_ext. by rewrite Hp. }
  unfold process_provider_event. erewrite bind_run by reflexivity.
  destruct will_retry.
  { exists w1. split; [|by exists t, d]. unfold mbind at 1, m_bind at 1, try_except. by rewrite Ht'. }
  assert (w_webhooks w1 !! hook = Some row) as Hr1 by (by rewrite Hs).
  destruct (mark_dead_letter_run hook "bounded retries exhausted" w1 row Hr1 Hf) as (w2 & H2 & Hd2 & Hc2 & Hrow).
  assert (transaction (id ← lift (parse_uuid text); mark_dead_letter id "bounded retries exhausted") w1
          = (w2, Ok tt)) as Ht2.
  { unfold transaction. rewrite Hp. change ((lift (Ok hook) ≫= ?f) w1) with (f hook w1). cbv beta.
    rewrite H2, Hc2, Hs. change (db_checks (set_w_ticks t (set_w_draws d w))) with (db_checks w).
    by rewrite Hdb. }
  exists w2. split.
  { unfold mbind at 1, m_bind at 1, try_except. rewrite Ht'. cbn [negb when].
    unfold mbind at 1, m_bind at 1. by rewrite Ht2. }
  split; [|done]. rewrite Hd2, Hs. done.
Qed.

(** ** Properties *)

(** A follow-up survives the queue: a job the domain code returns, written as a
    JSON item, is queued as the worker function that runs exactly that operation on
    exactly those identifiers, in one transaction with permanent failures answered; when
    the queue is down, applying the item at once runs the same operation. *)
Theorem followup_survives_the_queue environ worker_max_retries j w :
  plain_job j -> valid_job j ->
  (exists job, queued_job worker_max_retries (JObj (VerificationTypes.as_dict j)) = Some job
     /\ perform environ true job w = as_job (follow environ j) (failure_answer j) w)
  /\ apply_followup environ (JObj (VerificationTypes.as_dict j)) w
     = (follow environ j ≫= fun r => mret [r]) w.
Proof. intros Hp Hv. split; [by apply queued_job_run|by apply apply_followup_run]. Qed.

(** A recovery job is all or nothing: it commits what processing the case did, with
    its answer, or, when processing raises or a constraint is broken at commit, leaves
    every row as it was and answers a permanent domain error by its code, any other
    failure by raising it, for the queue to retry. *)
Theorem recovery_job_is_all_or_nothing environ text id w w' r :
  uuid_of_str text = Some id ->
  process_recovery_case_job environ true text w = (w', r) ->
  (exists d, r = Ok d /\ process_recovery_case environ id None w = (w', Ok d) /\ db_checks w' = true)
  \/ (exists e, same_rows w w'
      /\ r = if permanent e
             then Ok [("status", JStr "error"); ("code", JStr (exn_code e)); ("case_id", JStr text)]
             else Raise e).
Proof.
  intros Hid H. rewrite (process_job_run _ text id) in H by (unfold parse_uuid; by rewrite Hid).
  by apply answered_cases in H.
Qed.

(** C35. An event whose processing raises leaves nothing half done: while the queue will
    retry, every row is as before and the error is raised again, so the row is still
    open; on the last attempt the row becomes DEAD_LETTER, keeps its payload and
    identity, and no payment, attempt, case, action, decision or approval changes. *)
Theorem failed_event_job_is_atomic environ concurrent worker_max_retries enqueue will_retry queue
    text hook row w e :
  uuid_of_str text = Some hook -> w_webhooks w !! hook = Some row -> hook_final row = false ->
  db_checks w = true -> outcome (transaction (process_webhook_event concurrent hook)) w = Raise e ->
  exists w', process_provider_event environ concurrent true worker_max_retries enqueue will_retry
               queue text w = (w', Raise e)
    /\ (if will_retry then same_rows w w'
        else domain_tables w' = domain_tables w
          /\ exists row', w_webhooks w' !! hook = Some row'
             /\ hook_status row' = WebhookEventStatus.DEAD_LETTER /\ hook_identity row' = hook_identity row).
Proof. apply event_job_raises. Qed.
