(* ===== verification/ToolRefinement.v ===== *)
(** * The tools refine the abstract system

    Every operation of the optimizer, of the tools and of the approvals is a run of the
    steps labelled [OPTIMIZER] and [TOOLS]: it credits nothing, moves cases along legal
    transitions only, and keeps the identity of every row. *)
From S2P Require Import Prelude PyStr Uuid Errors Decimal Json Datetime Enums Rows Store Repositories StateMachine Transitions Config PolicyContext PolicyEngine Optimizer OptimizerService Events Providers Simulator VerificationTypes Processing Processor Verification Lifecycle Refinement VerificationProps ProcessingProps Invariants Ingestion Worker ToolData Idempotency ToolHandlers ToolExecution Approvals.
Open Scope stdpp_scope.

Lemma tools_in_all : TOOLS ⊆ ALL.
Proof. unfold ALL, AGENTS. set_solver. Qed.
Lemma optimizer_in_all : OPTIMIZER ⊆ ALL.
Proof. unfold ALL. set_solver. Qed.
Lemma ingestion_in_tools : INGESTION ⊆ TOOLS.
Proof. unfold INGESTION, TOOLS. set_solver. Qed.

(** ** Primitives *)

Section Primitives.
Context (cfg : RecoverySettings) (A : list label).
Notation R := (runs cfg A).

Lemma runs_side (f : World -> SideTables) :
  L_side ∈ A -> (forall w, t_idempotency (f w) = w_idempotency w) -> (forall w, t_calls (f w) = w_tool_calls w) ->
  (forall w, t_agent_runs (f w) = w_agent_runs w) ->
  preserves R (modify (fun w => set_w_side (f w) w) : Op unit).
Proof using. intros H Hk Hc Hr w. eapply runs_step; [exact H|by apply step_side]. Qed.

Lemma runs_update_cart id f : L_side ∈ A -> preserves R (update_cart id f).
Proof using. intros H. by apply (runs_side (fun w => set_t_carts _ (w_side w))). Qed.
Lemma runs_update_predictions (f : World -> gmap UUID ModelPrediction) :
  L_side ∈ A -> preserves R (modify (fun w => set_w_predictions (f w) w) : Op unit).
Proof using. intros H. by apply (runs_side (fun w => set_t_predictions (f w) (w_side w))). Qed.

Lemma runs_update_key id f :
  L_key ∈ A -> (forall k, key_identity (f k) = key_identity k) -> preserves R (update_key id f).
Proof using.
  intros H Hf w. unfold final, update_key, modify. simpl.
  destruct (w_idempotency w !! id) as [k|] eqn:Hk.
  - rewrite (alter_as_insert _ _ _ _ Hk). eapply runs_step; [exact H|by eapply step_key].
  - rewrite alter_None by done. destruct w as [? ? ? ? ? ? ? ? ? ? ? ? []]. reflexivity.
Qed.

Lemma runs_update_call id f :
  L_call ∈ A -> (forall t, call_identity (f t) = call_identity t) -> (forall t, call_clean t -> call_clean (f t)) ->
  preserves R (update_call id f).
Proof using.
  intros H Hf Hc w. unfold final, update_call, modify. simpl.
  destruct (w_tool_calls w !! id) as [t|] eqn:Ht.
  - rewrite (alter_as_insert _ _ _ _ Ht). eapply runs_step; [exact H|by eapply step_call; [|apply Hf|apply Hc]].
  - rewrite alter_None by done. destruct w as [? ? ? ? ? ? ? ? ? ? ? ? []]. reflexivity.
Qed.

Lemma runs_insert_key k : L_time ∈ A -> L_key ∈ A -> preserves R (insert_key k).
Proof using.
  intros Ht H. unfold insert_key. apply preserves_bind; [apply _|by apply runs_uuid4|]. intros id w.
  apply from_get; [apply _|].
  destruct (is_some (w_idempotency w !! id)) eqn:Hid; simpl; [unfold preserves_from; reflexivity|].
  destruct (existsb _ _) eqn:Hc; [unfold preserves_from; reflexivity|].
  eapply runs_step; [exact H|]. apply step_key_new.
  - by destruct (w_idempotency w !! id).
  - intros id' k' Hk'. rewrite existsb_elem_false in Hc. apply (Hc (id', k')). by apply elem_of_map_to_list.
Qed.

Lemma runs_insert_call c : L_time ∈ A -> L_call ∈ A -> call_clean c -> preserves R (insert_call c).
Proof using.
  intros Ht H Hclean. unfold insert_call. apply preserves_bind; [apply _|by apply runs_uuid4|]. intros id w.
  apply from_get; [apply _|].
  destruct (is_some (w_tool_calls w !! id)) eqn:Hid; [unfold preserves_from; reflexivity|].
  eapply runs_step; [exact H|]. apply step_call_new; [|done]. by destruct (w_tool_calls w !! id).
Qed.

Lemma runs_add_notification n : L_notification ∈ A -> preserves R (add_notification n).
Proof using. intros H w. eapply runs_step; [exact H|apply step_notification]. Qed.

Lemma runs_insert_attempt a : L_attempt ∈ A -> preserves R (insert_attempt a).
Proof using.
  intros H w. apply from_get; [apply _|].
  destruct (existsb _ _) eqn:Hc; [unfold preserves_from; reflexivity|].
  destruct (attempt_checks a); simpl; [|unfold preserves_from; reflexivity].
  eapply runs_step; [exact H|by apply step_attempt].
Qed.

Lemma runs_update_action id f :
  L_action_update ∈ A -> (forall a, action_identity (f a) = action_identity a) ->
  preserves R (update_action id f).
Proof using.
  intros H Hf w. unfold final, update_action, modify. simpl.
  destruct (w_actions w !! id) as [a|] eqn:Ha.
  - rewrite (alter_as_insert _ _ _ _ Ha). eapply runs_step; [exact H|by eapply step_action_update].
  - rewrite alter_None by done. destruct w. reflexivity.
Qed.

Lemma runs_update_approval id f :
  L_approval_update ∈ A -> (forall a, approval_identity (f a) = approval_identity a) ->
  preserves R (update_approval id f).
Proof using.
  intros H Hf w. unfold final, update_approval, modify. simpl.
  destruct (w_approvals w !! id) as [a|] eqn:Ha.
  - rewrite (alter_as_insert _ _ _ _ Ha). eapply runs_step; [exact H|by eapply step_approval_update].
  - rewrite alter_None by done. destruct w. reflexivity.
Qed.

Lemma runs_update_link id link :
  L_payment ∈ A -> preserves R (update_payment id (set_payment_provider_payment_link_id link)).
Proof using.
  intros H w. unfold final, update_payment, modify. simpl.
  destruct (w_payments w !! id) as [p|] eqn:Hp.
  - rewrite (alter_as_insert _ _ _ _ Hp). eapply runs_step; [exact H|eapply step_payment; [done|]].
    split; [done..|]. by left.
  - rewrite alter_None by done. destruct w. reflexivity.
Qed.

Lemma runs_only_time {B} (m : Op B) : L_time ∈ A -> preserves only_time m -> preserves R m.
Proof using.
  intros H Hm w. destruct (Hm w) as (n & Hn & ->).
  pose proof (runs_later cfg A w n (w_draws w) H Hn (le_n _)) as Hr.
  by destruct w.
Qed.
End Primitives.

#[export] Hint Resolve runs_update_cart runs_update_predictions runs_insert_key runs_add_notification runs_insert_attempt runs_update_link : pres.

(** An update that keeps the columns a row is recorded with. *)
#[export] Hint Extern 2 (preserves (runs _ _) (update_action _ _)) =>
  apply runs_update_action; [|by intros []] : pres.
#[export] Hint Extern 2 (preserves (runs _ _) (update_approval _ _)) =>
  apply runs_update_approval; [|by intros []] : pres.

#[export] Hint Extern 2 (preserves (runs _ _) (update_key _ _)) =>
  apply runs_update_key; [|by intros []] : pres.

(** Payloads without sensitive keys. *)
Lemma clean_dict_set k v d :
  sensitive k = false -> clean_json v = true -> clean_json (JObj d) = true ->
  clean_json (JObj (dict_set k v d)) = true.
Proof.
  intros Hk Hv. induction d as [|[j x] d IH]; simpl; [by rewrite Hk, Hv|].
  rewrite !andb_true_iff. intros [Hj [Hx Hd]]. destruct (String.eqb k j); simpl.
  - by rewrite Hk, Hv, Hd.
  - rewrite Hj, Hx. by apply IH.
Qed.

(** ** The optimizer *)

Section Optimizer.
Context (cfg : RecoverySettings) (A : list label) (HA : OPTIMIZER ⊆ A).
Notation R := (runs cfg A).
#[local] Hint Extern 1 (_ ∈ A) => apply HA; solve_label : pres.

Lemma runs_upsert row : preserves R (ModelPredictionRepository.upsert row).
Proof using HA. unfold ModelPredictionRepository.upsert. solve_pres. Qed.
#[local] Hint Resolve runs_upsert : pres.

Lemma runs_persist_prediction m c a p mv fv s d : preserves R (persist_prediction m c a p mv fv s d).
Proof using HA. unfold persist_prediction. solve_pres. Qed.
#[local] Hint Resolve runs_persist_prediction : pres.

Lemma runs_tool_evaluate c p i ci at' ai : preserves R (evaluate_and_persist c p i ci at' ai).
Proof using HA. unfold evaluate_and_persist, persist_policy_evaluation. solve_pres. Qed.
#[local] Hint Resolve runs_tool_evaluate : pres.

Lemma runs_policy_context case_id base now : preserves R (build_policy_context case_id base now).
Proof using HA. unfold build_policy_context. solve_pres. Qed.
#[local] Hint Resolve runs_policy_context : pres.

Context (predictor : dict -> string -> result predictor_error RecoveryProbability).
Context (settings : OptimizerSettings).

Lemma runs_resolve_probability a m o n s mi ci :
  preserves R (resolve_probability predictor settings a m o n s mi ci).
Proof using HA. unfold resolve_probability. solve_pres. Qed.
#[local] Hint Resolve runs_resolve_probability : pres.

Lemma runs_optimize c a : preserves R (optimize predictor settings c a).
Proof using HA.
  unfold optimize, OptimizerService.score_action, _evaluate_policy, persist_optimization_decision. solve_pres.
Qed.
#[local] Hint Resolve runs_optimize : pres.

Lemma runs_optimize_case environ s ml case_id p pr n ci ca :
  preserves R (optimize_case predictor settings environ s ml case_id p pr n ci ca).
Proof using HA. unfold optimize_case. solve_pres. Qed.
End Optimizer.

(** ** The tools *)

Section Tools.
Context {P : Type} `{!PaymentProvider P} `{!ProviderLaws P}.
Context (cfg : RecoverySettings) (A : list label) (HA : TOOLS ⊆ A).
Notation R := (runs cfg A).
#[local] Hint Extern 1 (_ ∈ A) => apply HA; solve_label : pres.

Context (enqueue : list UUID -> UUID -> option (list UUID)).
Context (race_for_key race_for_event : World -> World).
Context (Hkey : forall w, R w (race_for_key w)) (Hevent : forall w, R w (race_for_event w)).
Context (predictor : dict -> string -> result predictor_error RecoveryProbability).
Context (ml_context_of : UUID -> Z -> option UUID -> option UUID -> World -> result predictor_error dict).
Context (as_int : json -> option Z) (datetime_json : datetime -> string).

Lemma runs_tool_time {B} (m : Op B) : preserves only_time m -> preserves R m.
Proof using All. apply runs_only_time. apply HA. solve_label. Qed.

Lemma runs_race_for_key : preserves R (modify race_for_key : Op unit).
Proof using All. exact Hkey. Qed.
#[local] Hint Resolve runs_race_for_key : pres.

Lemma runs_tool_ingest event m q r : preserves R (ingest enqueue race_for_event event m q r).
Proof using All.
  apply (runs_ingest cfg enqueue race_for_event A); [|done]. etrans; [apply ingestion_in_tools|done].
Qed.
#[local] Hint Resolve runs_tool_ingest : pres.

Lemma runs_create_payment r (p : P) : preserves R (create_payment r p).
Proof using All. apply runs_tool_time, create_payment_law. Qed.
Lemma runs_create_payment_link r (p : P) : preserves R (create_payment_link r p).
Proof using All. apply runs_tool_time, create_payment_link_law. Qed.
Lemma runs_fetch_payment r (p : P) : preserves R (fetch_payment r p).
Proof using All. apply runs_tool_time, fetch_payment_law. Qed.
#[local] Hint Resolve runs_create_payment runs_create_payment_link runs_fetch_payment : pres.

Lemma runs_catch_provider {B} (m : Op B) : preserves R m -> preserves R (catch_provider m).
Proof using. intros H. unfold catch_provider. solve_pres. Qed.
#[local] Hint Resolve runs_catch_provider : pres.

Lemma runs_build_event s seed c x o t : preserves R (build_provider_event s seed c x o t).
Proof using All. unfold build_provider_event, build_event_with_status, time_or_now. solve_pres. Qed.
#[local] Hint Resolve runs_build_event : pres.

Lemma runs_tool_prediction m c a p mv fv s d : preserves R (persist_prediction m c a p mv fv s d).
Proof using All. unfold persist_prediction, ModelPredictionRepository.upsert. solve_pres. Qed.
Lemma runs_tool_context case_id base now : preserves R (build_policy_context case_id base now).
Proof using All. unfold build_policy_context. solve_pres. Qed.
Lemma runs_tool_evaluation c p i ci at' ai : preserves R (evaluate_and_persist c p i ci at' ai).
Proof using All. unfold evaluate_and_persist, persist_policy_evaluation. solve_pres. Qed.
#[local] Hint Resolve runs_tool_prediction runs_tool_context runs_tool_evaluation : pres.

(** The moves a tool makes. *)
Definition tool_targets : list RecoveryCaseStatus :=
  [AWAITING_APPROVAL; EXECUTING; ACTION_COMPLETED; RETRY_SCHEDULED; FAILED; ESCALATED; STOPPED].

Lemma runs_tool_move at' ci case_id target s m :
  target ∈ tool_targets -> preserves R (tool_move at' ci case_id target s m).
Proof using All.
  intros Ht. apply runs_transition_case.
  - apply HA. solve_label.
  - apply HA. solve_label.
  - apply HA. revert target Ht.
    assert (forall t, t ∈ tool_targets -> L_case_move t ∈ TOOLS) as H; [|exact H].
    intros t Ht. apply (bool_decide_eq_true (L_case_move t ∈ TOOLS)). revert t Ht.
    apply forallb_elem. vm_compute. reflexivity.
  - intros ->. revert Ht. apply (bool_decide_eq_false_1 (_ ∈ tool_targets)). reflexivity.
Qed.
#[local] Hint Extern 1 (_ ∈ tool_targets) => solve_label : pres.
#[local] Hint Resolve runs_tool_move : pres.

Lemma runs_apply_case_outcome case_id h at' ci : preserves R (apply_case_outcome case_id h at' ci).
Proof using All.
  unfold apply_case_outcome. destruct (h_case_status h) as [target|]; [|solve_pres].
  apply preserves_bind; [apply _|solve_pres|]. intros c.
  destruct (bool_decide (_ = target)); [solve_pres|].
  destruct (bool_decide (target = ACTION_COMPLETED)); [solve_pres|].
  destruct (bool_decide (target = RETRY_SCHEDULED)); [solve_pres|].
  destruct (status_in target _) eqn:Ht; simpl; [|apply preserves_ret; apply _].
  apply preserves_when; [apply _|]. apply runs_tool_move.
  apply bool_decide_eq_true in Ht. unfold tool_targets. set_solver.
Qed.
#[local] Hint Resolve runs_apply_case_outcome : pres.

Lemma runs_score_case ctx action : preserves R (score_case predictor ml_context_of ctx action).
Proof using All. unfold score_case. solve_pres. Qed.
#[local] Hint Resolve runs_score_case : pres.

Lemma runs_send_event ctx s q : preserves R (send_retry_event enqueue race_for_event ctx s q).
Proof using All. unfold send_retry_event. solve_pres. Qed.
#[local] Hint Resolve runs_send_event : pres.

Lemma runs_retry ctx (out : Outside P) : preserves R (handle_retry_payment enqueue race_for_event ctx out).
Proof using All. unfold handle_retry_payment. solve_pres. Qed.
Lemma runs_payment_link ctx (out : Outside P) : preserves R (handle_create_payment_link ctx out).
Proof using All. unfold handle_create_payment_link. solve_pres. Qed.
Lemma runs_notification ctx (out : Outside P) : preserves R (handle_send_notification ctx out).
Proof using All. unfold handle_send_notification. solve_pres. Qed.
Lemma runs_discount ctx (out : Outside P) : preserves R (handle_offer_discount ctx out).
Proof using All. unfold handle_offer_discount. solve_pres. Qed.
Lemma runs_local_status ctx (out : Outside P) : preserves R (local_payment_status ctx out).
Proof using All. unfold local_payment_status. solve_pres. Qed.
#[local] Hint Resolve runs_local_status : pres.
Lemma runs_check_status ctx (out : Outside P) :
  preserves R (handle_check_payment_status datetime_json ctx out).
Proof using All. unfold handle_check_payment_status. solve_pres. Qed.
#[local] Hint Resolve runs_retry runs_payment_link runs_notification runs_discount runs_check_status : pres.

Lemma runs_handler name ctx (out : Outside P) :
  preserves R (handler_for enqueue race_for_event predictor ml_context_of datetime_json name ctx out).
Proof using All.
  unfold handler_for. destruct (find _ _) as [[n h]|] eqn:Hf; [|solve_pres].
  apply find_some in Hf as [Hin _]. apply list_elem_of_In in Hin. revert n h Hin ctx out.
  cut (Forall (fun kv => forall ctx (out : Outside P), preserves R (kv.2 ctx out))
         (HANDLERS enqueue race_for_event predictor ml_context_of datetime_json)).
  { intros H n h Hin. rewrite list.Forall_forall in H. exact (H (n, h) Hin). }
  unfold HANDLERS. repeat (apply list.Forall_cons; split); try apply list.Forall_nil; try done;
    intros ctx out; simpl.
  all: unfold handle_get_customer_history, handle_get_payment_details, handle_check_subscription_status,
    handle_get_cart_details, handle_get_subscription_details, handle_get_recovery_case,
    handle_calculate_recovery_probability, handle_schedule_retry, handle_escalate_to_human,
    handle_pause_recovery; solve_pres.
Qed.
#[local] Hint Resolve runs_handler : pres.

(** ** Execution *)

Context (settings : RecoverySettings).

Lemma runs_tool_lock case_id : preserves R (lock_recovery_case case_id).
Proof using All. apply runs_lock. Qed.
#[local] Hint Resolve runs_tool_lock : pres.

Lemma runs_assert_merchant case_id m : preserves R (_assert_merchant case_id m).
Proof using All. unfold _assert_merchant. solve_pres. Qed.
#[local] Hint Resolve runs_assert_merchant : pres.

Lemma runs_evaluate case_id a p at' ai ci m : preserves R (evaluate settings case_id a p at' ai ci m).
Proof using All. unfold evaluate. solve_pres. Qed.

Lemma runs_begin m k o h : preserves R (begin_idempotent_operation race_for_key m k o h).
Proof using All. unfold begin_idempotent_operation, replayed_key. solve_pres. Qed.
Lemma runs_complete id d ref : preserves R (complete_idempotent_operation id d ref).
Proof using All. unfold complete_idempotent_operation. solve_pres. Qed.
Lemma runs_fail id code : preserves R (fail_idempotent_operation id code).
Proof using All. unfold fail_idempotent_operation. solve_pres. Qed.
Lemma runs_finish_call id s t d c m : preserves R (_finish_tool_call id s t d c m).
Proof using All.
  unfold _finish_tool_call. solve_pres. apply runs_update_call; [apply HA; solve_label|by intros []|].
  intros [] [Hreq _]. split; [|apply sanitize_payload_clean]. unfold dict_update. simpl in *.
  do 2 (apply clean_dict_set; [done..|]). by destruct (call_request_payload).
Qed.
#[local] Hint Resolve runs_begin runs_complete runs_fail runs_finish_call : pres.

Lemma reused_action_identity s r c m d a :
  action_identity (reused_action s r c m d a) = action_identity a.
Proof using. by destruct a, d. Qed.

Lemma runs_upsert_action case_id t k s r e c m d : preserves R (_upsert_action case_id t k s r e c m d).
Proof using All.
  unfold _upsert_action. solve_pres. apply runs_update_action; [apply HA; solve_label|].
  apply reused_action_identity.
Qed.
#[local] Hint Resolve runs_upsert_action : pres.

Lemma runs_create_approval c a ai t v p n k : preserves R (_create_approval c a ai t v p n k).
Proof using All. unfold _create_approval. solve_pres. Qed.
Lemma runs_usable_approval c i a : preserves R (_assert_usable_approval c i a).
Proof using All. unfold _assert_usable_approval. solve_pres. Qed.
#[local] Hint Resolve runs_create_approval runs_usable_approval : pres.

Lemma runs_audit_run r t s a d : preserves R (audit_run r t s a d).
Proof using All. unfold audit_run. solve_pres. Qed.
#[local] Hint Resolve runs_audit_run : pres.

Lemma runs_run_blocked r a : preserves R (run_blocked r a).
Proof using All. unfold run_blocked, upsert_for. solve_pres. Qed.
Lemma runs_run_held r a t : preserves R (run_held r a t).
Proof using All. unfold run_held, upsert_for, move_run. solve_pres. Qed.
Lemma runs_run_started r a : preserves R (run_started r a).
Proof using All. unfold run_started, upsert_for, move_run. solve_pres. Qed.
#[local] Hint Resolve runs_run_blocked runs_run_held runs_run_started : pres.

Lemma handled_action_identity h t a : action_identity (handled_action h t a) = action_identity a.
Proof using. destruct a. unfold handled_action. by destruct (h_amount h), t, (h_success h). Qed.

Lemma runs_record_handled id h : preserves R (record_handled id h).
Proof using All.
  unfold record_handled. solve_pres; apply runs_update_action; try (apply HA; solve_label);
    apply handled_action_identity.
Qed.
Lemma runs_run_succeeded r i h : preserves R (run_succeeded r i h).
Proof using All. unfold run_succeeded. solve_pres. Qed.
Lemma runs_run_failed r i h : preserves R (run_failed r i h).
Proof using All. unfold run_failed, move_run. solve_pres. Qed.
#[local] Hint Resolve runs_record_handled runs_run_succeeded runs_run_failed : pres.

Notation handler r c p s out := (run_handler enqueue race_for_event predictor ml_context_of datetime_json
                                   r c p s out).
Lemma runs_run_handler r c p s (out : Outside P) : preserves R (handler r c p s out).
Proof using All. unfold run_handler. solve_pres. Qed.
#[local] Hint Resolve runs_run_handler : pres.

Lemma runs_after_idempotency spec case_id c p v a (out : Outside P) :
  preserves R (_run_after_idempotency settings enqueue race_for_event predictor ml_context_of
                 datetime_json spec case_id c p v a out).
Proof using All. unfold _run_after_idempotency. solve_pres. Qed.
#[local] Hint Resolve runs_after_idempotency : pres.

Lemma runs_record_run run spec case_id v k t a (out : Outside P) :
  (forall out, preserves R (run out)) -> preserves R (record_run run spec case_id v k t a out).
Proof using All.
  intros Hrun. unfold record_run. solve_pres. apply runs_insert_call; [apply HA; solve_label..|].
  split; [apply sanitize_payload_clean|done].
Qed.
#[local] Hint Resolve runs_record_run : pres.

Lemma runs_run_recorded spec case_id c p v k t a (out : Outside P) :
  preserves R (run_recorded settings enqueue race_for_event predictor ml_context_of datetime_json
                 spec case_id c p v k t a out).
Proof using All. unfold run_recorded. solve_pres. Qed.
#[local] Hint Resolve runs_run_recorded : pres.

Lemma runs_execute_with run case_id a (out : Outside P) :
  (forall spec id c p v k t a out, preserves R (run spec id c p v k t a out)) ->
  preserves R (execute_with race_for_key as_int run case_id a out).
Proof using All. intros Hrun. unfold execute_with. solve_pres. Qed.
#[local] Hint Resolve runs_execute_with : pres.

Lemma runs_execute case_id a (out : Outside P) :
  preserves R (execute settings enqueue race_for_key race_for_event predictor ml_context_of as_int
                 datetime_json case_id a out).
Proof using All. apply runs_execute_with. intros. apply runs_run_recorded. Qed.
#[local] Hint Resolve runs_execute : pres.

(** ** Approvals *)

Lemma runs_expire id : preserves R (_expire_if_needed id).
Proof using All. unfold _expire_if_needed. solve_pres. Qed.
Lemma runs_approval_audit ci c a t s at' ai co d : preserves R (approval_audit ci c a t s at' ai co d).
Proof using All. unfold approval_audit. solve_pres. Qed.
Lemma runs_load_action m i : preserves R (_load_action m i).
Proof using All. unfold _load_action. solve_pres. Qed.
Lemma runs_pending_approval c i : preserves R (_pending_approval c i).
Proof using All. unfold _pending_approval. solve_pres. Qed.
#[local] Hint Resolve runs_expire runs_approval_audit runs_load_action runs_pending_approval : pres.

Lemma runs_approve_action c i ai at' co m (p : P) :
  preserves R (approve_action settings enqueue race_for_key race_for_event predictor ml_context_of as_int
                 datetime_json c i ai at' co m p).
Proof using All. unfold approve_action. solve_pres. Qed.

Lemma runs_reject_action c i ai at' r m co : preserves R (reject_action c i ai at' r m co).
Proof using All. unfold reject_action. solve_pres. Qed.
End Tools.
