(* ===== verification/ToolProps.v ===== *)
(** * Lemmas on the execution of tools

    What consulting the policy, recording a call and holding an action leave alone, and
    [_run_after_idempotency] read forwards: blocked, held, or handled. The second part says
    what each of these steps may change. *)
From S2P Require Import Prelude PyStr Uuid Errors Decimal Json Datetime Enums Rows Store Repositories StateMachine Transitions Config PolicyContext PolicyEngine OptimizerService Events Providers Simulator ToolData Idempotency Processing Lifecycle VerificationProps ProcessorProps Ingestion Worker ToolHandlers ToolExecution Approvals.
Open Scope stdpp_scope.

(** The clock is the same, and has not been turned back. *)
Definition clock_kept : relation World := fun w w' =>
  w_clock w' = w_clock w /\ w_uuids w' = w_uuids w /\ (w_ticks w <= w_ticks w')%nat.

(** What an execution can do besides keeping its records: move money or a case, reach the
    customer, decide about an action. *)
Definition effects (w : World) :=
  (w_payments w, w_attempts w, w_webhooks w, w_notifications w, w_carts w).
Definition business (w : World) := (effects w, w_cases w, w_actions w, w_approvals w).

(** Consulting the policy, or recording a call. *)
Definition consults : relation World := fun w w' => business w' = business w /\ clock_kept w w'.
(** Holding or blocking an action. *)
Definition no_effect : relation World := fun w w' => effects w' = effects w /\ clock_kept w w'.

#[export] Instance clock_kept_preorder : PreOrder clock_kept.
Proof. split; [done|]. intros x y z (? & ? & ?) (? & ? & ?). split; [congruence|split; [congruence|lia]]. Qed.
#[export] Instance consults_preorder : PreOrder consults.
Proof.
  split; [by split|]. intros x y z [H1 H2] [H3 H4]. split; [congruence|by etrans].
Qed.
#[export] Instance no_effect_preorder : PreOrder no_effect.
Proof.
  split; [by split|]. intros x y z [H1 H2] [H3 H4]. split; [congruence|by etrans].
Qed.

Lemma consults_rows w w' : consults w w' ->
  w_cases w' = w_cases w /\ w_actions w' = w_actions w /\ w_approvals w' = w_approvals w.
Proof. intros [H _]. unfold business in H. by simplify_eq. Qed.

Lemma consults_no_effect w w' : consults w w' -> no_effect w w'.
Proof. intros [H Hc]. split; [|done]. unfold business in H. congruence. Qed.

Lemma consults_tick w : consults w (set_w_ticks (S (w_ticks w)) w).
Proof. split; [done|]. split; [done|]. split; [done|]. simpl. lia. Qed.

(** ** Primitives *)

(** An operation that computes: it reads the clock, draws identifiers, or assigns to tables
    the relation does not mention. *)
Ltac by_computation :=
  intros ?w; unfold final, clock_kept; simpl; repeat split; simpl; lia || reflexivity.

#[export] Hint Extern 3 (preserves consults _) => by_computation : pres.
#[export] Hint Extern 3 (preserves no_effect _) => by_computation : pres.

Lemma flush_preserves (R : relation World) `{!PreOrder R} : preserves R flush.
Proof. intros w. unfold final. rewrite flush_run. reflexivity. Qed.
#[export] Hint Resolve flush_preserves : pres.

(** Inserts draw a key, check it, and assign to their table. *)
Ltac insert_computes :=
  intros ?w; unfold final, mbind, m_bind, get, uuid4, gets, modify, clock_kept; simpl;
  repeat match goal with |- context [if ?b then _ else _] => destruct b; simpl end;
  repeat split; simpl; lia || reflexivity.

Lemma consults_insert_evaluation e : preserves consults (insert_evaluation e).
Proof. unfold insert_evaluation. insert_computes. Qed.
Lemma consults_insert_call c : preserves consults (insert_call c).
Proof. unfold insert_call. insert_computes. Qed.
Lemma no_effect_insert_action a : preserves no_effect (insert_action a).
Proof. unfold insert_action. insert_computes. Qed.
Lemma no_effect_insert_approval a : preserves no_effect (insert_approval a).
Proof. unfold insert_approval. insert_computes. Qed.
#[export] Hint Resolve consults_insert_evaluation consults_insert_call no_effect_insert_action
  no_effect_insert_approval : pres.

Lemma consults_context case_id base now : preserves consults (build_policy_context case_id base now).
Proof. unfold build_policy_context. solve_pres. Qed.
Lemma consults_evaluate c p i ci at' ai : preserves consults (evaluate_and_persist c p i ci at' ai).
Proof. unfold evaluate_and_persist, persist_policy_evaluation. solve_pres. Qed.
#[export] Hint Resolve consults_context consults_evaluate : pres.

(** ** What the policy says *)

(** [evaluation] is the verdict on action [m] with the input [validated], in the store [w]. *)
Definition verdict_on (settings : RecoverySettings) (case_id : UUID) (m : RecoveryActionType.t)
  (validated : dict) (w : World) (context : PolicyContext) (evaluation : PolicyEvaluationResult) : Prop :=
  outcome (build_policy_context case_id settings None) w = Ok context
  /\ exists proposed, _proposed_from_payload m validated = Ok proposed
     /\ evaluate_action context proposed = Ok evaluation.

Lemma returns_outcome {A} (R : relation World) (op : Op A) w :
  preserves R op -> returns op w (fun a w' => outcome op w = Ok a /\ R w w').
Proof.
  intros HR w' a H. unfold outcome. split; [by rewrite H|].
  pose proof (HR w) as Hw. unfold final in Hw. by rewrite H in Hw.
Qed.

Lemma returns_verdict c p i ci at' ai w :
  returns (evaluate_and_persist c p i ci at' ai) w
    (fun r w' => evaluate_action c p = Ok r /\ consults w w').
Proof.
  unfold evaluate_and_persist. apply returns_lift. intros r Hr.
  eapply returns_bind; [apply (returns_preserves consults); unfold persist_policy_evaluation; solve_pres|].
  intros u w' Hw. by apply returns_ret.
Qed.

(** ** Approvals that can be used *)

(** An APPROVED approval of the case, not expired, asked for when the case had the same
    fingerprint. *)
Definition usable_approval (case_id : UUID) (approval_id action_id : option UUID) (w : World) : Prop :=
  exists id approval c, approval_id = Some id /\ w_approvals w !! id = Some approval
    /\ approval_recovery_case_id approval = case_id
    /\ approval_status approval = ApprovalStatus.APPROVED
    /\ (forall t, approval_expires_at approval = Some t ->
          exists n, (w_ticks w <= n)%nat /\ (w_clock w n < t)%Z)
    /\ w_cases w !! case_id = Some c /\ stale_fingerprint action_id c w = false.

Lemma usable_approval_earlier case_id p a w w' :
  consults w w' -> usable_approval case_id p a w' -> usable_approval case_id p a w.
Proof.
  intros Hw (id & ap & c & -> & Hid & Hcase & Hst & Hexp & Hc & Hstale).
  destruct (consults_rows _ _ Hw) as (E1 & E2 & E3), Hw as [_ (Hck & _ & Ht)].
  unfold stale_fingerprint in Hstale. rewrite E1 in Hc. rewrite E3 in Hid. rewrite E2 in Hstale.
  exists id, ap, c. split; [done|]. split; [done|]. split; [done|].
  split; [done|]. split.
  - intros t Ht'. destruct (Hexp t Ht') as (n & Hn & Hlt). exists n. rewrite <- Hck. split; [lia|done].
  - by split.
Qed.

Lemma returns_usable case_id p a w :
  returns (_assert_usable_approval case_id p a) w
    (fun _ w' => consults w w' /\ usable_approval case_id p a w).
Proof.
  unfold _assert_usable_approval. destruct p as [id|]; [|by intros ? ?].
  apply returns_gets. destruct (w_approvals w !! id) as [ap|] eqn:Hap; [|by intros ? ?].
  destruct (same _ case_id) eqn:Hcase; simpl; [|by intros ? ?].
  destruct (same _ ApprovalStatus.APPROVED) eqn:Hst; simpl; [|by intros ? ?].
  apply bool_decide_eq_true in Hcase, Hst.
  eapply (returns_bind _ _ _ _ (fun expired w1 => consults w w1 /\
            (expired = false -> forall t, approval_expires_at ap = Some t ->
               exists n, (w_ticks w <= n)%nat /\ (w_clock w n < t)%Z))).
  { destruct (approval_expires_at ap) as [t|]; [|by apply returns_ret].
    intros w1 b [= <- <-]. split; [apply consults_tick|].
    intros Hle%Z.leb_gt t' [= <-]. by exists (w_ticks w). }
  intros [] w1 [Hw1 Hexp]; [by intros ? ?|].
  apply returns_get_row. intros c Hc. apply returns_gets.
  destruct (stale_fingerprint a c w1) eqn:Hstale; [by intros ? ?|]. apply returns_ret.
  split; [done|]. destruct (consults_rows _ _ Hw1) as (E1 & E2 & _).
  unfold stale_fingerprint in Hstale. rewrite E1 in Hc. rewrite E2 in Hstale.
  exists id, ap, c. split; [done|]. split; [done|]. split; [done|]. split; [done|].
  split; [by apply Hexp|]. by split.
Qed.

(** ** Recording what becomes of an action *)

(** The row of [id] exists and satisfies [Q]. *)
Definition action_at (id : UUID) (Q : RecoveryAction -> Prop) (w : World) : Prop :=
  exists a, w_actions w !! id = Some a /\ Q a.
Definition approval_at (id : UUID) (Q : Approval -> Prop) (w : World) : Prop :=
  exists a, w_approvals w !! id = Some a /\ Q a.

Lemma returns_update_action id f w (Q : RecoveryAction -> Prop) :
  action_at id (fun a => Q (f a)) w ->
  returns (update_action id f) w (fun _ w' =>
    no_effect w w' /\ w_cases w' = w_cases w /\ w_approvals w' = w_approvals w /\ action_at id Q w').
Proof.
  intros (a & Ha & HQ) w' [] [= <-]. split; [by repeat split|]. split; [done|]. split; [done|].
  exists (f a). split; [|done]. simpl. by rewrite lookup_alter_eq, Ha.
Qed.

Lemma returns_insert_action a w (Q : RecoveryAction -> Prop) : Q a ->
  returns (insert_action a) w (fun id w' =>
    no_effect w w' /\ w_cases w' = w_cases w /\ w_approvals w' = w_approvals w /\ action_at id Q w').
Proof.
  intros HQ w' id H. pose proof (no_effect_insert_action a w) as Hn. unfold final in Hn. rewrite H in Hn.
  split; [exact Hn|]. revert H. unfold insert_action, mbind, m_bind, get, uuid4, gets, modify. simpl.
  destruct (_ || _); [done|]. destruct (negb _); [done|]. simpl. intros [= <- <-].
  split; [done|]. split; [done|]. exists a. split; [|done]. simpl. by rewrite lookup_insert_eq.
Qed.

Lemma find_action_Some m k e w id : find_action m k e w = Some id -> exists a, w_actions w !! id = Some a.
Proof.
  unfold find_action. destruct e as [i|]; [destruct (w_actions w !! i) as [a|] eqn:Ha; simpl|];
    [intros [= <-]; by exists a|..]; intros (r & H & _)%scalar_where_Some; by exists r.
Qed.

(** The rest of an operation keeps the row of an action, because it only consults. *)
Lemma action_at_consults id Q w w' : consults w w' -> action_at id Q w -> action_at id Q w'.
Proof. intros (_ & E & _)%consults_rows (a & Ha & HQ). exists a. by rewrite E. Qed.

(** What [_upsert_action] leaves: the row of the request, with its status and its metadata. *)
Definition recorded_as (status : RecoveryActionStatus.t) (metadata : dict) (a : RecoveryAction) : Prop :=
  action_status a = status
  /\ forall k v, (k, v) ∈ metadata -> dict_get k (default [] (action_metadata_json a)) = v.

(** Only the action rows and the records of the request differ. *)
Definition recorded_at (id : UUID) (Q : RecoveryAction -> Prop) (w w' : World) : Prop :=
  no_effect w w' /\ w_cases w' = w_cases w /\ w_approvals w' = w_approvals w /\ action_at id Q w'.

Lemma recorded_at_consults id Q w w1 w2 : recorded_at id Q w w1 -> consults w1 w2 -> recorded_at id Q w w2.
Proof.
  intros (H & Hc & Ha & HQ) Hw. destruct (consults_rows _ _ Hw) as (E1 & _ & E3).
  split; [by etrans; [|apply consults_no_effect]|]. split; [congruence|]. split; [congruence|].
  by eapply action_at_consults.
Qed.

Lemma returns_upsert case_id m k st risk e ec em md w (Q : RecoveryAction -> Prop) :
  (forall a, Q (reused_action st risk ec em md a)) ->
  (forall c n now, Q (mk_RecoveryAction (case_merchant_id c) case_id (value m) st k n risk None None
     (Some (case_amount_at_risk c)) (case_currency c) None None ec em
     (Some (match md with [] => [("executed", JBool false)] | _ => md end)) now)) ->
  returns (_upsert_action case_id m k st risk e ec em md) w (fun id w' => recorded_at id Q w w').
Proof.
  intros Hreused Hnew. unfold _upsert_action. apply returns_get_row. intros c Hc. apply returns_gets.
  destruct (find_action _ _ _ w) as [id|] eqn:Hf.
  - destruct (find_action_Some _ _ _ _ _ Hf) as (a & Ha).
    eapply returns_bind; [apply (returns_update_action _ _ _ Q); by exists a|].
    intros [] w1 H1. by apply returns_ret.
  - apply returns_gets. eapply returns_bind; [apply (returns_preserves consults); solve_pres|].
    intros now w1 H1. eapply returns_bind; [apply (returns_insert_action _ _ Q); apply Hnew|].
    intros id w2 H2. apply (returns_mono _ _ (fun i w3 => i = id /\ consults w2 w3)).
    + eapply returns_bind; [apply (returns_preserves consults); solve_pres|]. intros [] w3 H3.
      eapply returns_bind; [apply (returns_preserves consults); solve_pres|]. intros [] w4 H4.
      apply returns_ret. split; [done|]. by etrans.
    + intros i w3 [-> H3]. apply (recorded_at_consults _ _ _ w2); [|done].
      destruct (consults_rows _ _ H1) as (E1 & _ & E3), H2 as (H2 & Hc2 & Ha2 & HQ).
      split; [apply consults_no_effect in H1; by transitivity w1|]. split; [congruence|]. split; [congruence|done].
Qed.

(** The metadata of a held or started action is found in its row. *)
Lemma planned_recorded r st risk ec em a :
  recorded_as st (planned_metadata r) (reused_action st risk ec em (planned_metadata r) a).
Proof.
  split; [by destruct a|]. intros k v. destruct a. simpl. unfold dict_update. simpl.
  rewrite list_elem_of_In. intros [[= <- <-]|[[= <- <-]|[[= <- <-]|[]]]]; by rewrite !dict_get_set.
Qed.

Lemma returns_upsert_for r m st ec em w :
  returns (upsert_for r m st ec em (planned_metadata r)) w
    (fun id w' => recorded_at id (recorded_as st (planned_metadata r)) w w').
Proof.
  apply returns_upsert; [intros a; apply planned_recorded|].
  intros c n now. split; [done|]. intros k v. rewrite list_elem_of_In.
  by intros [[= <- <-]|[[= <- <-]|[[= <- <-]|[]]]].
Qed.

Lemma returns_blocked r m w :
  returns (run_blocked r m) w (fun x w' =>
    x_status x = "BLOCKED" /\ x_allowed x = false /\ exists id, x_action_id x = Some id
    /\ recorded_at id (fun a => action_status a = RecoveryActionStatus.BLOCKED
                                /\ action_error_code a = Some "POLICY_DENIED") w w').
Proof.
  unfold run_blocked.
  eapply returns_bind.
  { apply (returns_upsert _ _ _ _ _ _ _ _ _ _ (fun a => action_status a = RecoveryActionStatus.BLOCKED
             /\ action_error_code a = Some "POLICY_DENIED")); by intros []. }
  intros id w1 H1.
  eapply returns_bind; [apply (returns_preserves consults); unfold audit_run; solve_pres|]. intros [] w2 H2.
  apply returns_ret. split; [done|]. split; [done|]. exists id. split; [done|].
  eapply recorded_at_consults; [exact H1|exact H2].
Qed.

(** An action held for the approval [pid]: its row and the approval's. *)
Record held (r : Run) (ttl_minutes : Z) (w : World) (x : ToolExecutionResult) (aid pid : UUID) (w' : World)
  : Prop := {
  held_result : x_action_id x = Some aid /\ x_approval_id x = Some pid;
  held_effect : no_effect w w';
  held_case : exists c, w_cases w !! r_case r = Some c
    /\ (w_cases w' = w_cases w
        \/ case_status c = POLICY_CHECK
           /\ exists now, w_cases w' = <[r_case r := moved AWAITING_APPROVAL now c]> (w_cases w));
  held_action : action_at aid (fun a => action_status a = RecoveryActionStatus.APPROVAL_REQUIRED
    /\ dict_get "payload" (default [] (action_metadata_json a)) = JObj (r_validated r)
    /\ dict_get "tool_name" (default [] (action_metadata_json a)) = JStr (spec_name (r_spec r))) w';
  held_approval : approval_at pid (fun a => approval_status a = ApprovalStatus.PENDING
    /\ approval_recovery_case_id a = r_case r /\ approval_recovery_action_id a = Some aid
    /\ exists n, (w_ticks w <= n)%nat
                 /\ approval_expires_at a = Some (w_clock w n + minutes ttl_minutes)%Z) w';
}.

Lemma returns_create_approval case_id aid ai ttl v payload name key w :
  action_at aid (fun a => action_status a = RecoveryActionStatus.APPROVAL_REQUIRED) w ->
  returns (_create_approval case_id aid ai ttl v payload name key) w (fun pid w' =>
    no_effect w w' /\ w_cases w' = w_cases w
    /\ action_at aid (fun a => action_status a = RecoveryActionStatus.APPROVAL_REQUIRED
         /\ dict_get "payload" (default [] (action_metadata_json a)) = JObj payload
         /\ dict_get "tool_name" (default [] (action_metadata_json a)) = JStr name) w'
    /\ approval_at pid (fun a => approval_status a = ApprovalStatus.PENDING
         /\ approval_recovery_case_id a = case_id /\ approval_recovery_action_id a = Some aid
         /\ approval_expires_at a = Some (w_clock w (w_ticks w) + minutes ttl)%Z) w').
Proof.
  intros (a & Ha & Hst). unfold _create_approval. apply returns_get_row. intros c Hc.
  intros w' pid. unfold utcnow, insert_approval, uuid4, mbind, m_bind, gets, modify, get.
  cbn -[flush update_action lookup]. destruct (is_some _); [done|].
  cbn -[flush update_action lookup]. rewrite flush_run. destruct (db_checks _); [|done].
  cbn -[lookup]. intros [= <- <-]. split; [split; [done|]; repeat split; simpl; lia|]. split; [done|].
  split.
  - eexists. cbn -[lookup]. split; [by rewrite lookup_alter_eq, Ha|]. destruct a. simpl in *.
    split; [done|]. by rewrite !dict_get_set.
  - eexists. cbn -[lookup]. split; [apply lookup_insert_eq|done].
Qed.

(** A move keeps everything but the case. *)
Lemma returns_move at' ci case_id target s md w c :
  w_cases w !! case_id = Some c ->
  returns (tool_move at' ci case_id target s md) w (fun _ w' =>
    no_effect w w' /\ w_cases w' = <[case_id := moved target (w_clock w (w_ticks w)) c]> (w_cases w)
    /\ w_actions w' = w_actions w /\ w_approvals w' = w_approvals w).
Proof.
  intros Hc w' []. unfold tool_move. rewrite (transition_case_run _ _ _ _ _ Hc).
  destruct (version_mismatch c _); [done|]. destruct (legal _ _); [|done].
  cbn zeta. destruct (db_checks _); [|done]. intros [= <-].
  split; [|done]. split; [done|]. repeat split. simpl. lia.
Qed.

Lemma returns_held r m ttl w :
  returns (run_held r m ttl) w (fun x w' =>
    x_status x = "APPROVAL_REQUIRED" /\ exists aid pid, held r ttl w x aid pid w').
Proof.
  unfold run_held. eapply returns_bind; [apply returns_upsert_for|].
  intros aid w1 (Hn1 & Hc1 & Hp1 & a & Ha & Hst & _).
  apply returns_get_row. intros c Hc. rewrite Hc1 in Hc.
  eapply returns_bind; [apply returns_create_approval; by exists a|].
  intros pid w2 (Hn2 & Hc2 & Ha2 & Hp2).
  apply (returns_bind _ _ _ _ (fun _ w3 => no_effect w2 w3 /\ w_actions w3 = w_actions w2
    /\ w_approvals w3 = w_approvals w2 /\ (w_cases w3 = w_cases w \/ case_status c = POLICY_CHECK
       /\ exists now, w_cases w3 = <[r_case r := moved AWAITING_APPROVAL now c]> (w_cases w)))).
  { destruct (bool_decide _) eqn:Hpc; simpl.
    - apply bool_decide_eq_true in Hpc. eapply returns_mono.
      + apply returns_move. rewrite Hc2, Hc1. exact Hc.
      + intros [] w3 (Hn3 & Hc3 & Ha3 & Hp3). rewrite Hc2, Hc1 in Hc3.
        split; [done|]. split; [done|]. split; [done|]. right. split; [done|]. by eexists.
    - apply returns_ret. split; [reflexivity|]. split; [done|]. split; [done|]. left. congruence. }
  intros [] w3 (Hn3 & Ha3 & Hp3 & Hc3).
  eapply returns_bind; [apply (returns_preserves consults); unfold audit_run; solve_pres|]. intros [] w4 H4.
  apply returns_ret. split; [done|]. exists aid, pid. destruct (consults_rows _ _ H4) as (E1 & E2 & E3).
  destruct Hn1 as [He1 (Hk1 & Hu1 & Ht1)].
  split; [done|..].
  - apply consults_no_effect in H4. transitivity w3; [|done]. transitivity w2; [|done].
    transitivity w1; [by split|done].
  - exists c. rewrite E1. by split.
  - destruct Ha2 as (b & Hb & HQ). exists b. by rewrite E2, Ha3.
  - destruct Hp2 as (b & Hb & Hb1 & Hb2 & Hb3 & Hexp). exists b. rewrite E3, Hp3. split; [done|].
    split; [done|]. split; [done|]. split; [done|]. exists (w_ticks w1). by rewrite <- Hk1.
Qed.

(** ** The three ways an execution ends *)

Lemma returns_true {A} (op : Op A) w : returns op w (fun _ _ => True).
Proof. by intros w' a _. Qed.

Section Ends.
Context {P : Type} `{!PaymentProvider P}.
Context (settings : RecoverySettings) (enqueue : list UUID -> UUID -> option (list UUID)).
Context (race_for_event : World -> World).
Context (predictor : dict -> string -> result predictor_error RecoveryProbability).
Context (ml_context_of : UUID -> Z -> option UUID -> option UUID -> World -> result predictor_error dict).
Context (datetime_json : datetime -> string).
Notation run_tool := (_run_after_idempotency settings enqueue race_for_event predictor ml_context_of datetime_json).
Notation handler := (run_handler enqueue race_for_event predictor ml_context_of datetime_json).

(** The statuses of a result a handler has produced. *)
Definition handled_statuses : list string := ["SUCCEEDED"; "FAILED"].

Lemma returns_handled r c p s (out : Outside P) w :
  returns (handler r c p s out) w (fun ro _ => x_status ro.1 ∈ handled_statuses).
Proof.
  unfold run_handler. eapply returns_bind; [apply returns_true|]. intros [h out1] w1 _.
  eapply returns_bind; [apply returns_true|]. intros [] w2 _.
  apply (returns_bind _ _ _ _ (fun x _ => x_status x ∈ handled_statuses)); [|intros x w3 Hx; by apply returns_ret].
  destruct (h_success h); [unfold run_succeeded|unfold run_failed].
  - eapply returns_bind; [apply returns_true|]. intros [] w3 _.
    eapply returns_bind; [apply returns_true|]. intros [] w4 _. apply returns_ret. left.
  - eapply returns_bind; [apply returns_true|]. intros ? w3 _.
    eapply returns_bind; [apply returns_true|]. intros [] w4 _.
    eapply returns_bind; [apply returns_true|]. intros [] w5 _. apply returns_ret. right. left.
Qed.

(** The end of a run of the tool of action [m], and what the policy said in [w]. *)
Inductive ends (case_id : UUID) (m : RecoveryActionType.t) (spec : ToolSpec) (validated : dict)
  (a : ExecuteArgs) (w : World) (out : Outside P) : ToolExecutionResult -> Outside P -> World -> Prop :=
  | ends_blocked context evaluation w1 x id w' :
      consults w w1 -> verdict_on settings case_id m validated w context evaluation ->
      result_allowed evaluation = false ->
      x_status x = "BLOCKED" -> x_allowed x = false -> x_action_id x = Some id ->
      recorded_at id (fun row => action_status row = RecoveryActionStatus.BLOCKED
                                 /\ action_error_code row = Some "POLICY_DENIED") w1 w' ->
      ends case_id m spec validated a w out x out w'
  | ends_held context evaluation r w1 x aid pid w' :
      consults w w1 -> verdict_on settings case_id m validated w context evaluation ->
      result_allowed evaluation = true -> result_requires_approval evaluation = true ->
      e_approved_execution a = false ->
      r_case r = case_id -> r_spec r = spec -> r_validated r = validated ->
      x_status x = "APPROVAL_REQUIRED" ->
      held r (approval_ttl_minutes (ctx_settings context)) w1 x aid pid w' ->
      ends case_id m spec validated a w out x out w'
  | ends_handled context evaluation x out' w' :
      verdict_on settings case_id m validated w context evaluation ->
      result_allowed evaluation = true ->
      (result_requires_approval evaluation = true -> e_approved_execution a = true) ->
      (e_approved_execution a = true ->
         usable_approval case_id (e_approval_id a) (e_existing_action_id a) w) ->
      x_status x ∈ handled_statuses ->
      ends case_id m spec validated a w out x out' w'.

Lemma returns_run spec case_id customer payment validated a (out : Outside P) w m :
  action_for_tool (spec_name spec) = Some m ->
  returns (run_tool spec case_id customer payment validated a out) w (fun ro w' =>
    ends case_id m spec validated a w out ro.1 ro.2 w').
Proof.
  intros Hm. unfold _run_after_idempotency. rewrite Hm. apply returns_lift. intros proposed Hp.
  eapply returns_bind; [apply (returns_outcome consults); solve_pres|]. intros context w1 [Hctx H1].
  eapply returns_bind; [apply returns_verdict|]. intros ev w2 [Hev H2].
  assert (verdict_on settings case_id m validated w context ev) as Hv by (split; [done|by exists proposed]).
  assert (consults w w2) as Hw by (by etrans).
  apply returns_get_row. intros c Hc. destruct (_ && negb (status_in _ _)); [apply returns_throw|].
  destruct (result_allowed ev) eqn:Hal; simpl.
  - destruct (result_requires_approval ev && negb (e_approved_execution a)) eqn:Hra.
    + apply andb_true_iff in Hra as [Hra Hap%negb_true_iff].
      eapply returns_bind; [apply returns_held|]. intros x w3 (Hx & aid & pid & Hh).
      apply returns_ret. eapply ends_held; [exact Hw|exact Hv|done|done|done|..|exact Hh]; done.
    + apply (returns_bind _ _ _ _ (fun _ w3 => e_approved_execution a = true ->
        usable_approval case_id (e_approval_id a) (e_existing_action_id a) w)).
      { destruct (e_approved_execution a); simpl; [|by apply returns_ret].
        eapply returns_mono; [apply returns_usable|]. intros [] w3 [_ Hu] _.
        eapply usable_approval_earlier; [exact Hw|exact Hu]. }
      intros [] w3 Hu. eapply returns_bind; [apply returns_true|]. intros s w4 _.
      eapply returns_mono; [apply returns_handled|]. intros [x out'] w5 Hx.
      eapply ends_handled; [exact Hv|done| |exact Hu|exact Hx].
      intros Hr. rewrite Hr in Hra. by apply negb_false_iff in Hra.
  - eapply returns_bind; [apply returns_blocked|]. intros x w3 (Hx & Hxa & id & Hid & Hrec).
    apply returns_ret. eapply ends_blocked; [exact Hw|exact Hv|done|exact Hx|exact Hxa|exact Hid|exact Hrec].
Qed.

(** Storing the answer and finishing the call touch no row of the business. *)
Lemma consults_update_key id f : preserves consults (update_key id f).
Proof. by_computation. Qed.
Lemma consults_update_call id f : preserves consults (update_call id f).
Proof. by_computation. Qed.
#[local] Hint Resolve consults_update_key consults_update_call : pres.

Lemma consults_complete id d ref : preserves consults (complete_idempotent_operation id d ref).
Proof. unfold complete_idempotent_operation. solve_pres. Qed.
Lemma consults_fail id code : preserves consults (fail_idempotent_operation id code).
Proof. unfold fail_idempotent_operation. solve_pres. Qed.
Lemma consults_finish id s t d c m : preserves consults (_finish_tool_call id s t d c m).
Proof. unfold _finish_tool_call. solve_pres. Qed.
#[local] Hint Resolve consults_complete consults_fail consults_finish : pres.

Notation run_call := (run_recorded settings enqueue race_for_event predictor ml_context_of datetime_json).

(** A recorded run is a run between records. *)
Lemma returns_recorded spec case_id customer payment validated record started_at a (out : Outside P) w m :
  action_for_tool (spec_name spec) = Some m ->
  returns (run_call spec case_id customer payment validated record started_at a out) w
    (fun ro w' => exists x call w1 w2, consults w w1 /\ consults w2 w'
       /\ ro.1 = set_x_call call (e_idempotency_key a) x
       /\ ends case_id m spec validated a w1 out x ro.2 w2).
Proof.
  intros Hm. unfold run_recorded, record_run. apply returns_get_row. intros c Hc.
  eapply returns_bind; [apply (returns_preserves consults); solve_pres|]. intros call w1 H1.
  eapply returns_bind; [apply (returns_preserves consults); solve_pres|]. intros [] w2 H2.
  eapply returns_bind.
  { apply returns_try; [by apply returns_run|]. intros e w3 _.
    destruct e; try apply returns_throw;
      (eapply returns_bind; [apply returns_true|]; intros [] w4 _; apply returns_throw). }
  intros [x out'] w3 H3.
  eapply returns_bind; [apply (returns_preserves consults);
    destruct (String.eqb _ "APPROVAL_REQUIRED"); solve_pres|]. intros [] w4 H4.
  eapply returns_bind; [apply (returns_preserves consults); solve_pres|]. intros [] w5 H5.
  apply returns_ret. exists x, call, w2, w3.
  split; [by transitivity w1|]. split; [by transitivity w4|]. by split.
Qed.
End Ends.

(** * The records of an execution are its own

    What a handler does, and what the policy and the approvals record, leaves the
    idempotency keys and the tool calls alone: those are written by [execute] only. *)

(** The records of executions: the keys and the calls. *)
Definition records (w : World) := (w_idempotency w, w_tool_calls w).
Notation R := (unchanged records).

(** Computations that assign to other tables, and the inserts among them. *)
#[export] Hint Extern 3 (preserves (unchanged records) _) => (intros ?w; reflexivity) : pres.

Ltac insert_elsewhere :=
  intros ?w; unfold final, mbind, m_bind, get, uuid4, gets, modify; simpl;
  repeat match goal with |- context [if ?b then _ else _] => destruct b; simpl end; reflexivity.

Lemma records_insert_evaluation e : preserves R (insert_evaluation e).
Proof. unfold insert_evaluation. insert_elsewhere. Qed.
Lemma records_insert_action a : preserves R (insert_action a).
Proof. unfold insert_action. insert_elsewhere. Qed.
Lemma records_insert_approval a : preserves R (insert_approval a).
Proof. unfold insert_approval. insert_elsewhere. Qed.
Lemma records_insert_payment id p : preserves R (insert_payment id p).
Proof. unfold insert_payment. insert_elsewhere. Qed.
Lemma records_insert_attempt a : preserves R (insert_attempt a).
Proof. unfold insert_attempt. insert_elsewhere. Qed.
Lemma records_insert_webhook e : preserves R (insert_webhook e).
Proof. unfold insert_webhook. insert_elsewhere. Qed.
#[export] Hint Resolve records_insert_evaluation records_insert_action records_insert_approval
  records_insert_payment records_insert_attempt records_insert_webhook : pres.

Lemma records_transition id t a : preserves R (transition_case id t a).
Proof. unfold transition_case, record_rejection. solve_pres. Qed.
Lemma records_prediction m c a p mv fv s d : preserves R (persist_prediction m c a p mv fv s d).
Proof. unfold persist_prediction, ModelPredictionRepository.upsert. solve_pres. Qed.
Lemma records_context case_id base now : preserves R (build_policy_context case_id base now).
Proof. unfold build_policy_context. solve_pres. Qed.
Lemma records_evaluate c p i ci at' ai : preserves R (evaluate_and_persist c p i ci at' ai).
Proof. unfold evaluate_and_persist, persist_policy_evaluation. solve_pres. Qed.
Lemma records_build_event s seed c x o t : preserves R (build_provider_event s seed c x o t).
Proof. unfold build_provider_event, build_event_with_status, time_or_now. solve_pres. Qed.
Lemma records_catch {B} (m : Op B) : preserves R m -> preserves R (catch_provider m).
Proof. intros H. unfold catch_provider. solve_pres. Qed.
Lemma records_outcome case_id h at' ci : preserves R (apply_case_outcome case_id h at' ci).
Proof. unfold apply_case_outcome, tool_move. solve_pres; apply records_transition. Qed.
#[export] Hint Resolve records_transition records_prediction records_context records_evaluate
  records_build_event records_catch records_outcome : pres.

Lemma records_only_time {B} (m : Op B) : preserves only_time m -> preserves R m.
Proof. intros Hm w. destruct (Hm w) as (n & _ & ->). reflexivity. Qed.

Section Handlers.
Context {P : Type} `{!PaymentProvider P} `{!ProviderLaws P}.
Context (settings : RecoverySettings) (enqueue : list UUID -> UUID -> option (list UUID)).
Context (race_for_event : World -> World) (Hevent : forall w, R w (race_for_event w)).
Context (predictor : dict -> string -> result predictor_error RecoveryProbability).
Context (ml_context_of : UUID -> Z -> option UUID -> option UUID -> World -> result predictor_error dict).
Context (datetime_json : datetime -> string).

Lemma records_race : preserves R (modify race_for_event : Op unit).
Proof using Hevent. exact Hevent. Qed.
Lemma records_create_payment r (p : P) : preserves R (create_payment r p).
Proof using All. apply records_only_time, create_payment_law. Qed.
Lemma records_create_link r (p : P) : preserves R (create_payment_link r p).
Proof using All. apply records_only_time, create_payment_link_law. Qed.
Lemma records_fetch r (p : P) : preserves R (fetch_payment r p).
Proof using All. apply records_only_time, fetch_payment_law. Qed.
#[local] Hint Resolve records_race records_create_payment records_create_link records_fetch : pres.

Lemma records_ingest event m q r : preserves R (ingest enqueue race_for_event event m q r).
Proof using All. unfold ingest, _handle_duplicate, system_audit. solve_pres. Qed.
#[local] Hint Resolve records_ingest : pres.

Lemma records_handler name ctx (out : Outside P) :
  preserves R (handler_for enqueue race_for_event predictor ml_context_of datetime_json name ctx out).
Proof using All.
  unfold handler_for. destruct (find _ _) as [[n h]|] eqn:Hf; [|solve_pres].
  apply find_some in Hf as [Hin _]. apply list_elem_of_In in Hin. revert n h Hin ctx out.
  cut (Forall (fun kv => forall ctx (out : Outside P), preserves R (kv.2 ctx out))
         (HANDLERS enqueue race_for_event predictor ml_context_of datetime_json)).
  { intros H n h Hin. rewrite list.Forall_forall in H. exact (H (n, h) Hin). }
  unfold HANDLERS. repeat (apply list.Forall_cons; split); try apply list.Forall_nil; try done;
    intros ctx out; simpl.
  all: unfold handle_get_customer_history, handle_get_payment_details, handle_check_subscription_status,
    handle_get_cart_details, handle_get_subscription_details, handle_get_recovery_case,
    handle_calculate_recovery_probability, score_case, handle_retry_payment, send_retry_event,
    handle_create_payment_link, handle_send_notification, handle_offer_discount,
    handle_check_payment_status, local_payment_status,
    handle_schedule_retry, handle_escalate_to_human, handle_pause_recovery; solve_pres.
Qed.
#[local] Hint Resolve records_handler : pres.

Lemma records_run spec case_id c p v a (out : Outside P) :
  preserves R (_run_after_idempotency settings enqueue race_for_event predictor ml_context_of
                 datetime_json spec case_id c p v a out).
Proof using All.
  unfold _run_after_idempotency, run_blocked, run_held, run_started, run_handler, run_succeeded, run_failed,
    upsert_for, _upsert_action, _create_approval, _assert_usable_approval, move_run, tool_move, audit_run,
    record_handled.
  solve_pres.
Qed.
End Handlers.
