(* ===== verification/ToolTheorems.v ===== *)
(** * What tools do to a case

    The policy decides what runs; a request runs once; approvals resume the request they
    were asked for; and no tool credits money. *)
From S2P Require Import Prelude PyStr Uuid Errors Decimal Json Datetime Enums Rows Store Repositories StateMachine Transitions Config PolicyContext PolicyEngine OptimizerService Events Providers Simulator ToolData Idempotency Processing Lifecycle VerificationProps ProcessorProps VerificationTheorems Invariants Worker ToolHandlers ToolExecution Approvals WorkerTheorems ToolRefinement ToolProps.
Open Scope stdpp_scope.

Section Policy.
Context {P : Type} `{!PaymentProvider P}.
Context (settings : RecoverySettings) (enqueue : list UUID -> UUID -> option (list UUID)).
Context (race_for_event : World -> World).
Context (predictor : dict -> string -> result predictor_error RecoveryProbability).
Context (ml_context_of : UUID -> Z -> option UUID -> option UUID -> World -> result predictor_error dict).
Context (datetime_json : datetime -> string).
Notation run_call := (run_recorded settings enqueue race_for_event predictor ml_context_of datetime_json).

(** ** The policy decides *)

Lemma call_ends {spec case_id customer payment validated record started_at a} {out : Outside P} {w w' r out' m} :
  action_for_tool (spec_name spec) = Some m ->
  run_call spec case_id customer payment validated record started_at a out w = (w', Ok (r, out')) ->
  exists x call w1 w2, consults w w1 /\ consults w2 w' /\ r = set_x_call call (e_idempotency_key a) x
    /\ ends settings case_id m spec validated a w1 out x out' w2.
Proof.
  intros Hm Hrun. exact (returns_recorded settings enqueue race_for_event predictor ml_context_of
    datetime_json spec case_id customer payment validated record started_at a out w m Hm _ _ Hrun).
Qed.

(** C3. A tool of the policy's actions runs only when the policy allows its action in the store
    it runs from, which differs from [w] in the records of the call alone; and when the
    policy asks for an approval, only with an APPROVED one of the same case, not expired,
    asked for when the case had the same fingerprint. *)
Theorem no_execution_without_permission spec case_id customer payment validated record started_at a
  (out : Outside P) w w' r out' m :
  action_for_tool (spec_name spec) = Some m ->
  run_call spec case_id customer payment validated record started_at a out w = (w', Ok (r, out')) ->
  x_status r ∈ ["SUCCEEDED"; "FAILED"] ->
  exists w1 context verdict, consults w w1
    /\ verdict_on settings case_id m validated w1 context verdict
    /\ result_allowed verdict = true
    /\ (result_requires_approval verdict = true -> e_approved_execution a = true)
    /\ (e_approved_execution a = true ->
          usable_approval case_id (e_approval_id a) (e_existing_action_id a) w).
Proof.
  intros Hm Hrun Hst.
  destruct (call_ends Hm Hrun) as (x & call & w1 & w2 & H1 & _ & -> & Hends).
  destruct Hends as [c v w3 x id w4 _ _ _ Hx| c v rr w3 x aid pid w4 _ _ _ _ _ _ _ _ Hx|c v x out2 w4 Hv Ha Hr Hu _];
    simpl in Hst; [rewrite Hx in Hst; set_solver..|].
  exists w1, c, v. split; [done|]. split; [done|]. split; [done|]. split; [done|].
  intros Hap. eapply usable_approval_earlier; [exact H1|by apply Hu].
Qed.

(** A BLOCKED request is one the policy denies; it records the denial in an action, and has
    no other effect: no payment, attempt, event, notification or cart, no case and no
    approval differs, and the provider is not called. *)
Theorem denied_tools_do_nothing spec case_id customer payment validated record started_at a
  (out : Outside P) w w' r out' m :
  action_for_tool (spec_name spec) = Some m ->
  run_call spec case_id customer payment validated record started_at a out w = (w', Ok (r, out')) ->
  x_status r = "BLOCKED" ->
  (exists w1 context verdict, consults w w1 /\ verdict_on settings case_id m validated w1 context verdict
     /\ result_allowed verdict = false)
  /\ out' = out /\ effects w' = effects w /\ w_cases w' = w_cases w /\ w_approvals w' = w_approvals w
  /\ exists id, x_action_id r = Some id
       /\ action_at id (fun row => action_status row = RecoveryActionStatus.BLOCKED
                                   /\ action_error_code row = Some "POLICY_DENIED") w'.
Proof.
  intros Hm Hrun Hst.
  destruct (call_ends Hm Hrun) as (x & call & w1 & w2 & H1 & H2 & -> & Hends).
  simpl in Hst. inversion Hends as [c v w3 x' id w4 Hw3 Hv Ha Hx Hxa Hid Hrec|
    c v rr w3 x' aid pid w4 _ _ _ _ _ _ _ _ Hx|c v x' out2 w4 _ _ _ _ Hx]; subst;
    [|rewrite Hx in Hst; done|rewrite Hst in Hx; set_solver].
  pose proof (recorded_at_consults _ _ _ _ _ Hrec H2) as ([He _] & Hc & Hp & Hact).
  assert (consults w w3) as Hw by (by transitivity w1).
  destruct (consults_rows _ _ Hw) as (E1 & _ & E3). apply consults_no_effect in Hw as [Ew _].
  split; [by exists w1, c, v|]. split; [done|]. split; [congruence|]. split; [congruence|].
  split; [congruence|]. by exists id.
Qed.

(** C22. A request held for approval is one the policy allows with an approval that the request
    does not bring. It has no effect either, but that the case may move from POLICY_CHECK
    to AWAITING_APPROVAL; it leaves the action with what an approval needs to resume it, and
    a PENDING approval that expires [approval_ttl_minutes] after it was made. *)
Theorem held_tools_do_nothing_yet spec case_id customer payment validated record started_at a
  (out : Outside P) w w' r out' m :
  action_for_tool (spec_name spec) = Some m ->
  run_call spec case_id customer payment validated record started_at a out w = (w', Ok (r, out')) ->
  x_status r = "APPROVAL_REQUIRED" ->
  exists w1 context verdict aid pid c, consults w w1
  /\ verdict_on settings case_id m validated w1 context verdict
  /\ result_allowed verdict = true /\ result_requires_approval verdict = true
  /\ e_approved_execution a = false
  /\ out' = out /\ effects w' = effects w /\ w_cases w !! case_id = Some c
  /\ (w_cases w' = w_cases w
      \/ case_status c = POLICY_CHECK
         /\ exists now, w_cases w' = <[case_id := moved AWAITING_APPROVAL now c]> (w_cases w))
  /\ x_action_id r = Some aid /\ x_approval_id r = Some pid
  /\ action_at aid (fun row => action_status row = RecoveryActionStatus.APPROVAL_REQUIRED
       /\ dict_get "payload" (default [] (action_metadata_json row)) = JObj validated
       /\ dict_get "tool_name" (default [] (action_metadata_json row)) = JStr (spec_name spec)) w'
  /\ approval_at pid (fun row => approval_status row = ApprovalStatus.PENDING
       /\ approval_recovery_case_id row = case_id /\ approval_recovery_action_id row = Some aid
       /\ exists n, (w_ticks w <= n)%nat /\ approval_expires_at row
            = Some (w_clock w n + minutes (approval_ttl_minutes (ctx_settings context)))%Z) w'.
Proof.
  intros Hm Hrun Hst.
  destruct (call_ends Hm Hrun) as (x & call & w1 & w2 & H1 & H2 & -> & Hends).
  simpl in Hst. inversion Hends as [c v w3 x' id w4 _ _ _ Hx|
    c v rr w3 x' aid pid w4 Hw3 Hv Ha Hra Hap Hrc Hrs Hrv Hx Hh|c v x' out2 w4 _ _ _ _ Hx]; subst;
    [rewrite Hx in Hst; done| |rewrite Hst in Hx; set_solver].
  destruct Hh as [[Hid Hpid] Heff (c0 & Hc0 & Hcase) (row & Hrow & HQ) (ap & Hapr & Hst' & Hapc & Hapa & n & Hn & Hexp)].
  assert (consults w w3) as Hw by (by transitivity w1).
  destruct (consults_rows _ _ Hw) as (E1 & E2 & E3), (consults_rows _ _ H2) as (F1 & F2 & F3).
  apply consults_no_effect in Hw as [Ew (Ek & _ & Et)], H2 as [Ew2 _]. destruct Heff as [Ee _].
  exists w1, c, v, aid, pid, c0. rewrite E1 in Hc0, Hcase.
  repeat match goal with |- _ /\ _ => split end; try done; try congruence.
  - rewrite F1. done.
  - exists row. by rewrite F2.
  - exists ap. rewrite F3. split; [done|]. split; [done|]. split; [done|]. split; [done|].
    exists n. rewrite <- Ek. split; [lia|done].
Qed.
End Policy.

(** ** A request runs once *)

(** Tick of the clock that [execute] starts with. *)
Notation tick w := (set_w_ticks (S (w_ticks w)) w).

(** The identifiers of an answer have 128 bits, and it has a status. *)
Definition well_formed (r : ToolExecutionResult) : Prop :=
  x_status r <> ""
  /\ Forall (fun o => forall u, o = Some u -> valid_uuid u) [x_action_id r; x_approval_id r; x_tool_call_id r].

Lemma stored_uuid_back o : (forall u, o = Some u -> valid_uuid u) -> stored_uuid (opt_uuid o) = Ok o.
Proof.
  intros H. destruct o as [u|]; [|done]. unfold stored_uuid, opt_uuid.
  assert (truthy (JStr (uuid_str u)) = true) as -> by done.
  by rewrite uuid_of_str_uuid_str by (by apply H).
Qed.

(** What is stored under a key reads back as the same answer, marked as a replay. *)
Theorem stored_answer_reads_back r :
  well_formed r -> _result_from_stored (tool_public_dict r) = Ok (set_x_replayed true r).
Proof.
  unfold well_formed. rewrite !list.Forall_cons. intros (Hs & H1 & H2 & H3 & _).
  destruct r as [st name al ra reason aid pid cid prov ref sim pv key out risk rep]. simpl in *.
  unfold _result_from_stored. set (d := tool_public_dict _).
  change (dict_get "action_id" d) with (opt_uuid aid). change (dict_get "approval_id" d) with (opt_uuid pid).
  change (dict_get "tool_call_id" d) with (opt_uuid cid). subst d. unfold tool_public_dict.
  rewrite (stored_uuid_back aid), (stored_uuid_back pid), (stored_uuid_back cid) by done. simpl.
  unfold stored_text, stored_bool, py_or, set_x_replayed. simpl.
  destruct st as [|ch st]; [done|].
  f_equal; f_equal; first [reflexivity|by destruct name|by destruct reason|by destruct prov
    |by destruct ref|by destruct pv|by destruct key|by destruct risk].
Qed.

Section Requests.
Context {P : Type} `{!PaymentProvider P}.
Context (settings : RecoverySettings) (enqueue : list UUID -> UUID -> option (list UUID)).
Context (race_for_key race_for_event : World -> World).
Context (predictor : dict -> string -> result predictor_error RecoveryProbability).
Context (ml_context_of : UUID -> Z -> option UUID -> option UUID -> World -> result predictor_error dict).
Context (as_int : json -> option Z) (datetime_json : datetime -> string).
Notation call_tool := (execute settings enqueue race_for_key race_for_event predictor ml_context_of as_int datetime_json).
Notation run_call := (run_recorded settings enqueue race_for_event predictor ml_context_of datetime_json).

(** The request of [a] about the open case [c] passes the checks made before its key is
    looked at. *)
Record admitted (case_id : UUID) (a : ExecuteArgs) (w : World) (spec : ToolSpec) (validated : dict)
  (c : RecoveryCase) : Prop := {
  admitted_tool : _resolve_tool (e_tool_name a) (e_action a) = Ok spec;
  admitted_input : _validate_input as_int spec (e_payload a) = Ok validated;
  admitted_case : w_cases w !! case_id = Some c;
  admitted_merchant : (forall m, e_merchant_id a = Some m -> case_merchant_id c = m)
    /\ is_Some (w_merchants w !! case_merchant_id c);
  admitted_permission : check_permission spec (e_granted_permissions a) = Ok tt;
  admitted_open : terminal (case_status c) = false;
}.

(** The rows of the customer and of the payment of a case. *)
Definition customer_of (c : RecoveryCase) (w : World) : option UUID :=
  if is_some (w_customers w !! case_customer_id c) then Some (case_customer_id c) else None.
Definition payment_of (c : RecoveryCase) (w : World) : option UUID :=
  p ← case_payment_id c; if is_some (w_payments w !! p) then Some p else None.

(** The request after its checks: its key, then the answer stored or a run. *)
Definition keyed (case_id : UUID) (a : ExecuteArgs) (spec : ToolSpec) (validated : dict) (c : RecoveryCase)
  (started_at : Z) (out : Outside P) (w : World) : Op (ToolExecutionResult * Outside P) :=
  '(record, replay) ← begin_idempotent_operation race_for_key (case_merchant_id c)
                        (e_idempotency_key a) (spec_name spec) (request_hash_of spec (e_action a) validated);
  k ← get_row w_idempotency record;
  answer ← (if (replay : bool)
            then lift (replay_answer k (request_hash_of spec (e_action a) validated) (e_approved_execution a))
            else mret None);
  match answer with
  | Some result => mret (result, out)
  | None => run_call spec case_id (customer_of c w) (payment_of c w) validated record started_at a out
  end.

Lemma assert_merchant_run case_id m w c :
  w_cases w !! case_id = Some c -> (forall m', m = Some m' -> case_merchant_id c = m') ->
  is_Some (w_merchants w !! case_merchant_id c) -> _assert_merchant case_id m w = (w, Ok tt).
Proof using.
  intros Hc Hm [row Hrow]. unfold _assert_merchant. rewrite (bind_run _ _ _ _ _ (get_row_run _ _ _ _ Hc)).
  assert (match m with Some m => negb (same (case_merchant_id c) m) | None => false end = false) as ->.
  { destruct m as [m|]; [|done]. rewrite (Hm m eq_refl). apply negb_false_iff. by apply bool_decide_eq_true. }
  unfold mbind, m_bind, gets. by rewrite Hrow.
Qed.

Lemma execute_admitted case_id a w spec validated c (out : Outside P) :
  admitted case_id a w spec validated c ->
  call_tool case_id a out w = keyed case_id a spec validated c (w_clock w (w_ticks w)) out w (tick w).
Proof using.
  intros [Ht Hi Hc [Hm Hrow] Hp Ho]. unfold execute, execute_with.
  rewrite (bind_run utcnow _ w (tick w) (w_clock w (w_ticks w)) eq_refl).
  rewrite Ht, (bind_run (lift (Ok spec)) _ (tick w) (tick w) spec eq_refl).
  rewrite Hi, (bind_run (lift (Ok validated)) _ (tick w) (tick w) validated eq_refl).
  rewrite (bind_run _ _ _ _ _ (lock_run case_id (tick w) c Hc)).
  rewrite (bind_run _ _ _ _ _ (assert_merchant_run case_id _ (tick w) c Hc Hm Hrow)).
  rewrite Hp, (bind_run (lift (Ok tt)) _ (tick w) (tick w) tt eq_refl).
  rewrite (bind_run _ _ _ _ _ (get_row_run w_cases case_id c (tick w) Hc)), Ho.
  reflexivity.
Qed.

Lemma assert_merchant_keeps case_id m w : (_assert_merchant case_id m w).1 = w.
Proof using.
  unfold _assert_merchant, get_row, mbind, m_bind, get, gets, lift.
  destruct (w_cases w !! case_id) as [c|]; simpl; [|done].
  destruct (match m with Some m => negb (same (case_merchant_id c) m) | None => false end); [done|].
  by destruct (w_merchants w !! case_merchant_id c).
Qed.

(** A finished case refuses every tool, and nothing but the clock moves. *)
Theorem terminal_case_runs_no_tool case_id a (out : Outside P) w c :
  w_cases w !! case_id = Some c -> terminal (case_status c) = true ->
  exists e, call_tool case_id a out w = (tick w, Raise e).
Proof using.
  intros Hc Ho. unfold execute, execute_with. rewrite (bind_run utcnow _ w (tick w) (w_clock w (w_ticks w)) eq_refl).
  destruct (_resolve_tool _ _) as [spec|e]; [|by exists e].
  rewrite (bind_run (lift (Ok spec)) _ (tick w) (tick w) spec eq_refl).
  destruct (_validate_input _ _ _) as [validated|e]; [|by exists e].
  rewrite (bind_run (lift (Ok validated)) _ (tick w) (tick w) validated eq_refl).
  rewrite (bind_run _ _ _ _ _ (lock_run case_id (tick w) c Hc)).
  destruct (_assert_merchant case_id (e_merchant_id a) (tick w)) as [w1 [[]|e]] eqn:Hm;
    pose proof (f_equal fst Hm) as Hw1; rewrite assert_merchant_keeps in Hw1; simpl in Hw1; subst w1.
  - rewrite (bind_run _ _ _ _ _ Hm). destruct (check_permission _ _) as [[]|e]; [|by exists e].
    rewrite (bind_run (lift (Ok tt)) _ (tick w) (tick w) tt eq_refl).
    rewrite (bind_run _ _ _ _ _ (get_row_run w_cases case_id c (tick w) Hc)), Ho. by eexists.
  - exists e. by rewrite (bind_raise _ _ _ _ _ Hm).
Qed.

(** ** Keys *)

(** The row of a key that was recorded for another request. *)
Lemma begin_recorded m key op hash w id k :
  key_row m key w = Some id -> w_idempotency w !! id = Some k ->
  begin_idempotent_operation race_for_key m key op hash w =
    (w, if String.eqb (idem_request_hash k) hash then Ok (id, true) else Raise (IdempotencyConflictError key)).
Proof using.
  intros Hid Hk. unfold begin_idempotent_operation. unfold mbind at 1, m_bind at 1, gets at 1. rewrite Hid.
  unfold replayed_key. rewrite (bind_run _ _ _ _ _ (get_row_run _ _ _ _ Hk)).
  by destruct (String.eqb _ _).
Qed.

(** A key that was recorded for another request is refused; nothing but the clock moves. *)
Theorem conflicting_request_refused case_id a w spec validated c (out : Outside P) id k :
  admitted case_id a w spec validated c ->
  key_row (case_merchant_id c) (e_idempotency_key a) w = Some id -> w_idempotency w !! id = Some k ->
  idem_request_hash k <> request_hash_of spec (e_action a) validated ->
  call_tool case_id a out w = (tick w, Raise (IdempotencyConflictError (e_idempotency_key a))).
Proof using.
  intros Hadm Hid Hk Hh. rewrite (execute_admitted _ _ _ _ _ _ _ Hadm). unfold keyed.
  apply bind_raise. rewrite (begin_recorded _ _ _ _ (tick w) id k Hid Hk).
  by rewrite (proj2 (String.eqb_neq _ _) Hh).
Qed.

Lemma replay_answer_marked k hash approved x :
  replay_answer k hash approved = Ok (Some x) -> x_replayed x = true.
Proof using.
  unfold replay_answer. destruct (as_dict _) as [d|]; [destruct (_result_from_stored d)|];
    destruct (idem_status k); simpl; try destruct (_ && _); intros H; try discriminate H; by injection H as <-.
Qed.

(** A key whose request completed answers what is stored, runs nothing, and calls no
    provider. *)
Lemma completed_key_answers case_id a w spec validated c (out : Outside P) id k d r :
  admitted case_id a w spec validated c ->
  key_row (case_merchant_id c) (e_idempotency_key a) w = Some id -> w_idempotency w !! id = Some k ->
  idem_request_hash k = request_hash_of spec (e_action a) validated ->
  idem_status k = IdempotencyKeyStatus.COMPLETED ->
  dict_get "result" (default [] (idem_metadata_json k)) = JObj d -> _result_from_stored d = Ok r ->
  call_tool case_id a out w = (tick w, Ok (set_x_replayed true r, out)).
Proof using.
  intros Hadm Hid Hk Hh Hst Hd Hr. rewrite (execute_admitted _ _ _ _ _ _ _ Hadm). unfold keyed.
  pose proof (begin_recorded (case_merchant_id c) (e_idempotency_key a) (spec_name spec)
    (request_hash_of spec (e_action a) validated) (tick w) id k Hid Hk) as Hb.
  rewrite Hh, String.eqb_refl in Hb. rewrite (bind_run _ _ _ _ _ Hb).
  rewrite (bind_run _ _ _ _ _ (get_row_run w_idempotency id k (tick w) Hk)).
  unfold replay_answer. rewrite Hst, Hd. simpl. rewrite Hr. reflexivity.
Qed.
(** The row of a request: its merchant, its key and its hash. *)
Definition key_of (m : UUID) (key hash : string) (id : UUID) (w : World) : Prop :=
  exists k, w_idempotency w !! id = Some k /\ idem_merchant_id k = m /\ idem_key k = key
    /\ idem_request_hash k = hash.

Lemma returns_replayed m key hash id w : key_row m key w = Some id ->
  returns (replayed_key id key hash) w (fun ib w' => key_of m key hash ib.1 w').
Proof using.
  intros (k & Hk & [H1%bool_decide_eq_true H2%bool_decide_eq_true]%andb_true_iff)%scalar_where_Some.
  unfold replayed_key. apply returns_get_row. intros k' Hk'. rewrite Hk in Hk'. injection Hk' as <-.
  destruct (String.eqb_spec (idem_request_hash k) hash); simpl; [|apply returns_throw].
  apply returns_ret. by exists k.
Qed.

Lemma returns_insert_key k w :
  returns (insert_key k) w (fun id w' =>
    key_of (idem_merchant_id k) (idem_key k) (idem_request_hash k) id w').
Proof using.
  intros w' id. unfold insert_key, uuid4, mbind, m_bind, gets, get, modify. cbn -[lookup existsb].
  destruct (_ || _); [done|]. intros [= <- <-]. exists k. split; [|done]. apply lookup_insert_eq.
Qed.

Lemma returns_begin m key op hash w :
  returns (begin_idempotent_operation race_for_key m key op hash) w
    (fun ib w' => key_of m key hash ib.1 w').
Proof using.
  unfold begin_idempotent_operation. apply returns_gets.
  destruct (key_row m key w) as [id|] eqn:Hid; [by apply returns_replayed|].
  eapply returns_bind; [apply returns_true|]. intros now w1 _.
  apply (returns_bind _ _ _ _ (fun inserted w' =>
    match inserted with inl id => key_of m key hash id w' | inr _ => True end)).
  - apply returns_try.
    + eapply returns_bind; [apply returns_true|]. intros [] w2 _.
      eapply returns_bind; [apply returns_true|]. intros [] w3 _.
      eapply returns_bind; [apply returns_insert_key|]. intros id w4 H4. by apply returns_ret.
    + intros e w2 _. destruct (is_integrity_error e); [by apply returns_ret|apply returns_throw].
  - intros [id|e] w2 H2; [by apply returns_ret|]. apply returns_gets.
    destruct (key_row m key w2) as [id|] eqn:Hid2; [by apply returns_replayed|apply returns_throw].
Qed.

(** A run does not name its call: [execute] does. *)
#[local] Ltac skip := eapply returns_bind; [apply returns_true|]; intros ? ? _.
Notation unnamed := (fun x _ => x_tool_call_id x = None).

Lemma returns_unnamed_handler r c p s (out : Outside P) w :
  returns (run_handler enqueue race_for_event predictor ml_context_of datetime_json r c p s out) w
    (fun ro _ => x_tool_call_id ro.1 = None).
Proof using.
  unfold run_handler. eapply returns_bind; [apply returns_true|]. intros [h out1] w1 _. skip.
  apply (returns_bind _ _ _ _ unnamed); [|intros x w3 Hx; by apply returns_ret].
  destruct (h_success h); [unfold run_succeeded|unfold run_failed]; repeat skip; by apply returns_ret.
Qed.

Lemma returns_unnamed spec case_id customer payment validated a (out : Outside P) w :
  returns (_run_after_idempotency settings enqueue race_for_event predictor ml_context_of datetime_json
             spec case_id customer payment validated a out) w
    (fun ro _ => x_tool_call_id ro.1 = None).
Proof using.
  unfold _run_after_idempotency. do 4 skip. destruct (_ && negb (status_in _ _)); [apply returns_throw|].
  destruct (action_for_tool _) as [m|]; [|skip; apply returns_unnamed_handler].
  destruct (result_allowed _); simpl; [destruct (_ && negb (e_approved_execution a))|].
  - apply (returns_bind _ _ _ _ unnamed); [|intros x w5 Hx; by apply returns_ret].
    unfold run_held. repeat skip. by apply returns_ret.
  - do 2 skip. apply returns_unnamed_handler.
  - apply (returns_bind _ _ _ _ unnamed); [|intros x w5 Hx; by apply returns_ret].
    unfold run_blocked. repeat skip. by apply returns_ret.
Qed.

(** A request that has completed: its key holds the answer. *)
Definition completed (m : UUID) (key hash : string) (x : ToolExecutionResult) (w : World) : Prop :=
  exists id k, w_idempotency w !! id = Some k /\ idem_merchant_id k = m /\ idem_key k = key
    /\ idem_request_hash k = hash /\ idem_status k = IdempotencyKeyStatus.COMPLETED
    /\ dict_get "result" (default [] (idem_metadata_json k)) = JObj (tool_public_dict x).

Lemma returns_complete m key hash id x ref w :
  key_of m key hash id w ->
  returns (complete_idempotent_operation id (tool_public_dict x) ref) w (fun _ w' => completed m key hash x w').
Proof using.
  intros (k & Hk & Hm & Hkey & Hh) w' [] [= <-].
  eexists id, _. split.
  { etrans; [apply lookup_alter_eq|]. etrans; [exact (f_equal (fmap _) Hk)|]. reflexivity. }
  destruct k. cbn -[dict_set tool_public_dict dict_get] in *. rewrite dict_get_set. by rewrite String.eqb_refl.
Qed.

Context `{!ProviderLaws P}.
(** What commits while an event is ingested does not touch these records: the service the
    API makes has no queue and ingests nothing. *)
Context (Hevent : forall w, unchanged records w (race_for_event w)).

Lemma key_of_records m key hash id w w' : unchanged records w w' -> key_of m key hash id w -> key_of m key hash id w'.
Proof using. intros [= H _] (k & Hk & Hrest). exists k. by rewrite H. Qed.
Lemma returns_insert_call m key hash id c w : key_of m key hash id w ->
  returns (insert_call c) w (fun _ w' => key_of m key hash id w').
Proof using.
  intros Hk w' call. unfold insert_call, uuid4, mbind, m_bind, gets, get, modify. cbn -[lookup].
  destruct (is_some _); [done|]. by intros [= <- <-].
Qed.
Lemma returns_flush_keeps w (Q : World -> Prop) : Q w -> returns flush w (fun _ w' => Q w').
Proof using. intros HQ w' [] H. rewrite flush_run in H. destruct (db_checks w); by injection H as <-. Qed.

(** A run that is not held leaves its answer under its key. *)
Lemma returns_completed m key hash spec case_id customer payment validated record started_at a (out : Outside P) w :
  key_of m key hash record w ->
  returns (run_call spec case_id customer payment validated record started_at a out) w (fun ro w' =>
    x_status ro.1 <> "APPROVAL_REQUIRED" -> exists call x,
      ro.1 = set_x_call call (e_idempotency_key a) x /\ x_tool_call_id x = None /\ completed m key hash x w').
Proof using All.
  intros Hkey. unfold run_recorded, record_run. apply returns_get_row. intros c Hc.
  eapply returns_bind; [by apply returns_insert_call|]. intros call w1 H1.
  eapply returns_bind; [apply (returns_flush_keeps w1 (key_of m key hash record)); exact H1|]. intros [] w2 H2.
  apply (returns_bind _ _ _ _ (fun ro w3 => key_of m key hash record w3 /\ x_tool_call_id ro.1 = None)).
  { apply returns_try.
    - apply returns_and; [|apply returns_unnamed].
      eapply returns_mono; [apply (returns_preserves (unchanged records)); by apply records_run|].
      intros ro w3 H3. eapply key_of_records; [exact H3|exact H2].
    - intros e w3 _. destruct e; try apply returns_throw; skip; apply returns_throw. }
  intros [x out'] w3 [H3 Hx]. destruct (String.eqb (x_status x) "APPROVAL_REQUIRED") eqn:Hs.
  - do 2 skip. apply returns_ret. apply String.eqb_eq in Hs. done.
  - eapply returns_bind; [by apply returns_complete|]. intros [] w4 H4.
    apply (returns_bind _ _ _ _ (fun _ w5 => completed m key hash x w5)).
    { unfold _finish_tool_call. intros w5 [] [= <-]. exact H4. }
    intros [] w5 H5. apply returns_ret. intros _. by exists call, x.
Qed.
(** ** Completed requests *)

Lemma key_row_found m key w id k :
  keys_distinct w -> w_idempotency w !! id = Some k -> idem_merchant_id k = m -> idem_key k = key ->
  key_row m key w = Some id.
Proof using.
  intros Hd Hk Hm Hkey. destruct (key_row m key w) as [j|] eqn:Hj.
  - apply scalar_where_Some in Hj as (l & Hl & [H1%bool_decide_eq_true H2%bool_decide_eq_true]%andb_true_iff).
    f_equal. apply (Hd j id l k); congruence.
  - pose proof (proj1 (scalar_where_None _ _) Hj id k Hk) as Hf. simpl in Hf.
    unfold same in Hf. rewrite Hm, Hkey in Hf. by rewrite !bool_decide_eq_true_2 in Hf.
Qed.

Lemma returns_executed case_id a w spec validated c (out : Outside P) :
  admitted case_id a w spec validated c ->
  returns (call_tool case_id a out) w (fun ro w' => x_replayed ro.1 = false ->
    x_status ro.1 <> "APPROVAL_REQUIRED" -> exists call x,
      ro.1 = set_x_call call (e_idempotency_key a) x /\ x_tool_call_id x = None
      /\ completed (case_merchant_id c) (e_idempotency_key a)
           (request_hash_of spec (e_action a) validated) x w').
Proof using All.
  intros Hadm w' ro Hro. rewrite (execute_admitted _ _ _ _ _ _ _ Hadm) in Hro. revert w' ro Hro.
  match goal with |- forall w' ro, _ -> @?Q ro w' =>
    change (returns (keyed case_id a spec validated c (w_clock w (w_ticks w)) out w) (tick w) Q) end.
  unfold keyed. eapply returns_bind; [apply returns_begin|]. intros [record replay] w3 H3.
  apply returns_get_row. intros k Hk.
  apply (returns_bind _ _ _ _ (fun answer w4 => w4 = w3 /\ forall x, answer = Some x -> x_replayed x = true)).
  { destruct replay; [|by apply returns_ret]. intros w4 answer [= <- Hans]. split; [done|].
    intros x ->. by eapply replay_answer_marked. }
  intros answer w4 [-> Hans]. destruct answer as [x|].
  - apply returns_ret. simpl. intros Hx. by rewrite Hans in Hx.
  - eapply returns_mono; [apply returns_completed; exact H3|]. intros ro w5 H5 _. exact H5.
Qed.

End Requests.
