(* ===== verification/ApprovalTheorems.v ===== *)
(** * What approvals and tools never do

    An approval resumes the request it was asked for; a rejection ends it without any
    effect; and no tool, approval or rejection credits money to a case. *)
From S2P Require Import Prelude PyStr Uuid Errors Decimal Sorting Json Datetime Enums Rows Store Repositories StateMachine Transitions Config PolicyContext PolicyEngine OptimizerService Events Providers Simulator Processing Lifecycle VerificationProps VerificationTheorems ProcessorProps Worker WorkerTheorems ToolData Idempotency ToolHandlers ToolExecution Approvals ToolRefinement ToolProps ToolTheorems.
Open Scope stdpp_scope.

(** ** The request an approval resumes *)

Lemma registered_tool_resolves spec action :
  spec ∈ TOOL_SPECS -> _resolve_tool (Some (spec_name spec)) action = Ok spec.
Proof.
  rewrite list_elem_of_In. unfold TOOL_SPECS. simpl. intros H.
  by repeat (destruct H as [<-|H]; [reflexivity|]).
Qed.

(** C23. [approve_action] executes the tool and the input that the held action recorded. They
    name the same tool, validate to the same input, and have the hash of the request that
    was held, so that its idempotency key is taken up again and not refused. *)
Theorem approval_resumes_the_request as_int tool_name action payload spec validated m action' :
  (forall n, as_int (JInt n) = Some n) ->
  _resolve_tool tool_name action = Ok spec -> action_for_tool (spec_name spec) = Some m ->
  _validate_input as_int spec payload = Ok validated ->
  _resolve_tool (Some (spec_name spec)) action' = Ok spec
  /\ _validate_input as_int spec validated = Ok validated
  /\ request_hash_of spec action' validated = request_hash_of spec action validated.
Proof.
  intros Hint Hres Hm Hval.
  assert (spec ∈ TOOL_SPECS) as Hin.
  { unfold _resolve_tool in Hres. destruct (or_str tool_name None) as [name|].
    - exact (proj1 (registry_get_name _ _ Hres)).
    - destruct (or_str action None) as [act|]; [|done].
      destruct (parse_action_type act); [|done]. exact (proj1 (registry_get_name _ _ Hres)). }
  split; [|split].
  - by apply registered_tool_resolves.
  - unfold _validate_input in *. destruct (model_validate _ _ payload) as [d|] eqn:Hd; [|done].
    injection Hval as ->. by rewrite (model_validate_again _ _ _ _ Hint (input_models_nodup _ Hin) Hd).
  - unfold request_hash_of. by rewrite Hm.
Qed.

(** ** Rejection *)

Lemma returns_lock case_id w :
  returns (lock_recovery_case case_id) w (fun id w' => id = case_id /\ w' = w).
Proof.
  intros w' id. unfold lock_recovery_case, mbind, m_bind, get, lift, RecoveryCaseRepository.get_case_for_update.
  destruct (w_cases w !! case_id); simpl; [|done]. by intros [= <- <-].
Qed.

(** An approval is updated: nothing else is. *)
Lemma returns_update_approval id f w (Q : Approval -> Prop) :
  approval_at id (fun a => Q (f a)) w ->
  returns (update_approval id f) w (fun _ w' => no_effect w w' /\ w_cases w' = w_cases w
    /\ w_actions w' = w_actions w /\ approval_at id Q w').
Proof.
  intros (a & Ha & HQ) w' [] [= <-]. split; [by repeat split|]. split; [done|]. split; [done|].
  exists (f a). split; [|done]. simpl. by rewrite lookup_alter_eq, Ha.
Qed.

(** What is decided about the approval [id] of an action, the clock aside. *)
Definition deciding (id : UUID) (Q : Approval -> Prop) (w w' : World) : Prop :=
  no_effect w w' /\ w_cases w' = w_cases w /\ w_actions w' = w_actions w /\ approval_at id Q w'.

Lemma deciding_consults id Q w w' w1 : deciding id Q w w' -> consults w' w1 -> deciding id Q w w1.
Proof.
  intros (H & Hc & Ha & a & Hp & HQ) Hw. destruct (consults_rows _ _ Hw) as (E1 & E2 & E3).
  split; [transitivity w'; [done|by apply consults_no_effect]|]. split; [congruence|]. split; [congruence|].
  exists a. by rewrite E3.
Qed.

Lemma deciding_update id f (Q Q' : Approval -> Prop) w w' :
  deciding id Q w w' -> (forall a, Q a -> Q' (f a)) ->
  returns (update_approval id f) w' (fun _ w1 => deciding id Q' w w1).
Proof.
  intros (H & Hc & Ha & a & Hp & HQ) Himp.
  eapply returns_mono; [apply (returns_update_approval _ _ _ Q'); exists a; split; [exact Hp|auto]|].
  intros [] w1 (H1 & Hc1 & Ha1 & Hp1). split; [by transitivity w'|]. split; [congruence|].
  split; [congruence|done].
Qed.

(** The approval of an action that a decision is about. *)
Definition about (case_id action_id : UUID) (a : Approval) : Prop :=
  approval_recovery_case_id a = case_id /\ approval_recovery_action_id a = Some action_id.

Lemma returns_pending case_id action_id w :
  returns (_pending_approval case_id action_id) w (fun id w' =>
    w' = w /\ approval_at id (about case_id action_id) w).
Proof.
  intros w' id. unfold _pending_approval, mbind, m_bind, gets, lift.
  destruct (sort_by newest_approval _) as [|[i a] l] eqn:Hs; simpl; [done|]. intros [= <- <-].
  split; [done|]. apply sort_by_head in Hs as [Hin _]; [|apply _..].
  apply elem_of_rows_where in Hin as [Ha [H1%bool_decide_eq_true H2%bool_decide_eq_true]%andb_true_iff].
  by exists a.
Qed.

Lemma returns_expire id Q w : (forall a, Q a -> Q (set_approval_status ApprovalStatus.EXPIRED a)) ->
  approval_at id Q w -> returns (_expire_if_needed id) w (fun _ w' => deciding id Q w w').
Proof.
  intros HQ Hid. assert (deciding id Q w w) as H0 by (by split; [reflexivity|]).
  unfold _expire_if_needed. apply returns_get_row. intros a _.
  destruct (approval_status a), (approval_expires_at a); try by apply returns_ret.
  eapply returns_bind; [apply (returns_preserves consults); solve_pres|]. intros now w1 H1.
  pose proof (deciding_consults _ _ _ _ _ H0 H1) as H2.
  destruct (_ <=? now)%Z; [|by apply returns_ret].
  eapply returns_bind; [by apply (deciding_update _ _ Q Q w)|]. intros [] w2 H3.
  eapply returns_mono; [apply (returns_preserves consults); solve_pres|]. intros [] w3 H4.
  by eapply deciding_consults.
Qed.

Lemma returns_load merchant_id action_id w :
  returns (_load_action merchant_id action_id) w (fun a w' => w' = w /\ w_actions w !! action_id = Some a).
Proof.
  unfold _load_action. apply returns_gets. destruct (w_actions w !! action_id) as [a|]; [|by intros ? ?].
  destruct (same _ _); [by apply returns_ret|by intros ? ?].
Qed.

Definition rejected_by (case_id action_id : UUID) (actor_id : option string) (a : Approval) : Prop :=
  about case_id action_id a /\ approval_status a = ApprovalStatus.REJECTED /\ approval_decided_by a = actor_id.

(** A case that waits for the approval is escalated. *)
Lemma returns_escalated text actor_type correlation_id case_id c w :
  w_cases w !! case_id = Some c ->
  returns (when (bool_decide (case_status c = AWAITING_APPROVAL))
             (tool_move actor_type correlation_id case_id ESCALATED text None)) w (fun _ w' =>
    no_effect w w'
    /\ (if bool_decide (case_status c = AWAITING_APPROVAL)
        then exists now, w_cases w' = <[case_id := moved ESCALATED now c]> (w_cases w)
        else w_cases w' = w_cases w)
    /\ w_actions w' = w_actions w /\ w_approvals w' = w_approvals w).
Proof.
  intros Hc. destruct (bool_decide _); simpl; [|by apply returns_ret].
  eapply returns_mono; [by apply (returns_move _ _ _ _ _ _ _ c)|]. intros [] w' (H & Hc' & Ha & Hp).
  split; [done|]. split; [by eexists|done].
Qed.

(** A step that only consults. *)
#[local] Ltac consulted w H :=
  eapply returns_bind; [apply (returns_preserves consults);
    repeat match goal with |- preserves _ (match ?x with _ => _ end) => destruct x end;
    unfold approval_audit; solve_pres|]; intros ? w H.


(** ** No money *)

(** A row is not made; a row that is there is not credited, nor moved to RECOVERED. *)
Definition credit_kept (o o' : option RecoveryCase) : Prop :=
  match o with
  | None => o' = None
  | Some c => exists c', o' = Some c' /\ case_amount_recovered c' = case_amount_recovered c
      /\ case_verified_payment_id c' = case_verified_payment_id c
      /\ case_verified_webhook_event_id c' = case_verified_webhook_event_id c
      /\ (case_status c' = RECOVERED -> case_status c = RECOVERED)
  end.

(** No case is opened, credited, or moved to RECOVERED. *)
Definition uncredited : relation World := fun w w' =>
  forall id, credit_kept (w_cases w !! id) (w_cases w' !! id).

Lemma credit_kept_refl o : credit_kept o o.
Proof. destruct o as [c|]; [by exists c|done]. Qed.

#[export] Instance uncredited_preorder : PreOrder uncredited.
Proof.
  split; [intros w id; apply credit_kept_refl|].
  intros x y z Hxy Hyz id. specialize (Hxy id). specialize (Hyz id).
  unfold credit_kept in *. destruct (w_cases x !! id) as [c|].
  - destruct Hxy as (c' & Hc' & H1 & H2 & H3 & H4). rewrite Hc' in Hyz.
    destruct Hyz as (c2 & Hc2 & G1 & G2 & G3 & G4). exists c2.
    split; [done|]. split; [congruence|]. split; [congruence|]. split; [congruence|]. auto.
  - by rewrite Hxy in Hyz.
Qed.

(** Nor do the agents, which also walk a case and optimize. *)
Lemma agent_runs_credit_nothing settings w w' : runs settings AGENTS w w' -> uncredited w w'.
Proof.
  apply (runs_ind _ _ uncredited). intros l v v' Hl Hs i.
  destruct Hs as [| | | | | | | |id c v Hnone|id c target now v Hc Hleg Hrec|id c reason v Hc|
    id c pid p amount hook v Hc| | | | | | | | | | | | | | | | | |]; try apply credit_kept_refl; try refute_label Hl.
  simpl. destruct (decide (i = id)) as [->|Hne].
  - rewrite Hc, lookup_insert_eq. exists (moved target now c).
    split; [done|]. split; [by destruct c|]. split; [by destruct c|]. split; [by destruct c|].
    destruct c. simpl. intros ->. refute_label Hl.
  - rewrite lookup_insert_ne by done. apply credit_kept_refl.
Qed.

Lemma tool_runs_credit_nothing settings w w' : runs settings TOOLS w w' -> uncredited w w'.
Proof.
  intros H. eapply agent_runs_credit_nothing, runs_mono; [|exact H]. unfold AGENTS. set_solver.
Qed.

(** ** The entry points *)

Section EntryPoints.
Context {P : Type} `{!PaymentProvider P} `{!ProviderLaws P}.
Context (settings : RecoverySettings) (enqueue : list UUID -> UUID -> option (list UUID)).
Context (race_for_key race_for_event : World -> World).
Context (predictor : dict -> string -> result predictor_error RecoveryProbability).
Context (ml_context_of : UUID -> Z -> option UUID -> option UUID -> World -> result predictor_error dict).
Context (as_int : json -> option Z) (datetime_json : datetime -> string).

(** Executing a tool, approving an action and rejecting one credit nothing, whether they
    return or raise: no case is opened, no amount recovered and no verified payment of a
    case changes, and no case becomes RECOVERED. What other transactions commit meanwhile
    is of the same kind. *)
Theorem tools_credit_nothing case_id action_id a (out : Outside P) (provider : P)
  actor_id actor_type correlation_id reason merchant_id w :
  (forall v, runs settings TOOLS v (race_for_key v)) ->
  (forall v, runs settings TOOLS v (race_for_event v)) ->
  uncredited w (final (execute settings enqueue race_for_key race_for_event predictor ml_context_of
                         as_int datetime_json case_id a out) w)
  /\ uncredited w (final (approve_action settings enqueue race_for_key race_for_event predictor ml_context_of
       as_int datetime_json case_id action_id actor_id actor_type correlation_id merchant_id provider) w)
  /\ uncredited w (final (reject_action case_id action_id actor_id actor_type reason merchant_id
                            correlation_id) w).
Proof using All.
  intros Hkey Hevent. split; [|split]; apply (tool_runs_credit_nothing settings).
  - by apply runs_execute.
  - by apply runs_approve_action.
  - by eapply runs_reject_action.
Qed.
End EntryPoints.
