(* ===== verification/HandlerTheorems.v ===== *)
(** * What handlers and the simulator do

    A success moves its case legally or leaves it; the chance of a simulated capture is a
    probability; and a simulator made for one request repeats the identifiers of another. *)
From S2P Require Import Prelude PyStr Uuid Errors Decimal Rounding Json Datetime Enums Rows Store Repositories StateMachine Transitions OptimizerService Events Providers Simulator Processing Ingestion VerificationProps ProcessorProps ToolData Idempotency ToolHandlers ToolExecution.
Open Scope stdpp_scope.

(** ** The case after a success *)

(** The status a success with [target] takes a case in [current] to. *)
Definition status_after (current : RecoveryCaseStatus) (target : option RecoveryCaseStatus)
  : RecoveryCaseStatus :=
  match target with
  | Some ACTION_COMPLETED =>
      if status_in current [POLICY_CHECK; AWAITING_APPROVAL; EXECUTING] then ACTION_COMPLETED else current
  | Some RETRY_SCHEDULED => if bool_decide (current = POLICY_CHECK) then RETRY_SCHEDULED else current
  | Some (ESCALATED as t) | Some (STOPPED as t) =>
      if status_in current [POLICY_CHECK; AWAITING_APPROVAL; FAILED; NOT_RECOVERED] then t else current
  | _ => current
  end.

(** A case that keeps its checked columns can be written back. *)
Lemma db_checks_case id c c' w :
  db_checks w = true -> w_cases w !! id = Some c -> case_checks c' = case_checks c ->
  db_checks (set_w_cases (<[id := c']> (w_cases w)) w) = true.
Proof.
  unfold db_checks. simpl. rewrite !andb_true_iff. intros [[[[[[H1 H2] H3] H4] H5] H6] H7] Hc Hk.
  split_and!; try done.
  rewrite forallb_elem in *. intros [i d] [[<- <-]|[_ Hd]]%elem_of_map_to_list%lookup_insert_Some.
  - simpl. rewrite Hk. apply (H3 (id, c)). by apply elem_of_map_to_list.
  - apply (H3 (i, d)). by apply elem_of_map_to_list.
Qed.

Lemma tool_move_run at' ci id target s md w c :
  db_checks w = true -> w_cases w !! id = Some c -> legal (case_status c) target = true ->
  exists w' c', tool_move at' ci id target s md w = (w', Ok tt) /\ db_checks w' = true
    /\ w_cases w' !! id = Some c' /\ case_status c' = target.
Proof.
  intros Hdb Hc Hl. unfold tool_move. rewrite (transition_case_run _ _ _ _ _ Hc). simpl. rewrite Hl.
  set (w' := after_move _ _ _ _ _). assert (db_checks w' = true) as Hw'.
  { apply (db_checks_case id c _ w Hdb Hc). by destruct c. }
  exists w'. eexists. rewrite Hw'. split; [done|]. split; [done|]. split; [apply lookup_insert_eq|].
  by destruct c.
Qed.

(** A case in [s] moves from any of the statuses [l] when it is in one of them. *)
Lemma conditional_move at' ci id target s md w c l :
  db_checks w = true -> w_cases w !! id = Some c -> forallb (fun s => legal s target) l = true ->
  exists w' c', when (status_in (case_status c) l) (tool_move at' ci id target s md) w = (w', Ok tt)
    /\ db_checks w' = true /\ w_cases w' !! id = Some c'
    /\ case_status c' = if status_in (case_status c) l then target else case_status c.
Proof.
  intros Hdb Hc Hl. destruct (status_in (case_status c) l) eqn:Hin; simpl; [|by exists w, c].
  apply bool_decide_eq_true in Hin. apply (tool_move_run _ _ _ _ _ _ _ c); [done..|].
  by apply (proj1 (forallb_elem _ _) Hl).
Qed.

(** After a success the case is where [status_after] says: the moves it takes are legal, so
    that the outcome of a tool never fails, and a case that waits for nothing stays. *)
Theorem success_moves_the_case case_id h actor_type correlation_id w c :
  db_checks w = true -> w_cases w !! case_id = Some c ->
  exists w' c', apply_case_outcome case_id h actor_type correlation_id w = (w', Ok tt)
    /\ w_cases w' !! case_id = Some c' /\ case_status c' = status_after (case_status c) (h_case_status h).
Proof.
  intros Hdb Hc. unfold apply_case_outcome. destruct (h_case_status h) as [t|]; [|by exists w, c].
  rewrite (bind_run _ _ _ _ _ (get_row_run _ _ _ _ Hc)).
  destruct (bool_decide_reflect (case_status c = t)) as [Ht|Hne].
  { exists w, c. split; [done|]. split; [done|]. rewrite <- Ht. by destruct (case_status c). }
  destruct (bool_decide_reflect (t = ACTION_COMPLETED)) as [->|Hac].
  { edestruct (conditional_move actor_type correlation_id case_id EXECUTING "Tool execution started" None w c
      [POLICY_CHECK; AWAITING_APPROVAL] Hdb Hc eq_refl) as (w1 & c1 & Hm1 & Hdb1 & Hc1 & Hs1).
    rewrite (bind_run _ _ _ _ _ Hm1), (bind_run _ _ _ _ _ (get_row_run _ _ _ _ Hc1)).
    edestruct (conditional_move actor_type correlation_id case_id ACTION_COMPLETED
      "Tool execution recorded. Verification still owns recovered revenue." None w1 c1 [EXECUTING] Hdb1 Hc1 eq_refl)
      as (w2 & c2 & Hm2 & _ & Hc2 & Hs2).
    exists w2, c2. split; [|split; [done|]].
    - rewrite <- Hm2. f_equal. unfold status_in. by destruct (case_status c1).
    - rewrite Hs2, Hs1. by destruct (case_status c). }
  destruct (bool_decide_reflect (t = RETRY_SCHEDULED)) as [->|Hrs].
  { edestruct (conditional_move actor_type correlation_id case_id RETRY_SCHEDULED
      "Retry scheduled; not executed" None w c [POLICY_CHECK] Hdb Hc eq_refl) as (w1 & c1 & Hm1 & _ & Hc1 & Hs1).
    exists w1, c1. split; [|split; [done|]].
    - rewrite <- Hm1. f_equal. unfold status_in. by destruct (case_status c).
    - rewrite Hs1. by destruct (case_status c). }
  destruct (status_in t [ESCALATED; STOPPED]) eqn:Ht; simpl.
  - edestruct (conditional_move actor_type correlation_id case_id t
      (text_of "reason" (h_output h) ("Case moved to " +:+ value t)) None w c
      [POLICY_CHECK; AWAITING_APPROVAL; FAILED; NOT_RECOVERED] Hdb Hc) as (w1 & c1 & Hm1 & _ & Hc1 & Hs1);
      [by destruct t|].
    exists w1, c1. split; [done|]. split; [done|]. rewrite Hs1. by destruct t.
  - exists w, c. split; [done|]. split; [done|]. by destruct t.
Qed.

(** ** The simulator *)

Lemma fix_prec_nonneg x : 0 <= d_int x -> 0 <= d_int (fix_prec x).
Proof.
  intros Hx. unfold fix_prec. destruct (Z.leb_spec (ndigits (d_int x)) prec) as [|Hgt]; [done|].
  assert (0 <= div_half_even (d_int x) (10 ^ (ndigits (d_int x) - prec))) as Hd
    by (apply div_half_even_nonneg; [apply pow10_pos; lia|done]).
  destruct (_ <=? prec); simpl; [done|]. by apply Z.div_pos.
Qed.
Lemma dec_add_nonneg x y : 0 <= d_int x -> 0 <= d_int y -> 0 <= d_int (dec_add x y).
Proof.
  intros Hx Hy. apply fix_prec_nonneg. cbn [d_int]. unfold coeff_at.
  apply Z.add_nonneg_nonneg; apply Z.mul_nonneg_nonneg; try done; apply Z.lt_le_incl, pow10_pos; lia.
Qed.
Lemma dec_mul_nonneg x y : 0 <= d_int x -> 0 <= d_int y -> 0 <= d_int (dec_mul x y).
Proof. intros Hx Hy. apply fix_prec_nonneg. cbn [d_int]. by apply Z.mul_nonneg_nonneg. Qed.

(** The smaller of a nonnegative number and a bound. *)
Lemma capped x bound : 0 <= d_int x -> 0 <= d_int bound ->
  0 <= d_int (dec_min x bound) /\ dec_leb (dec_min x bound) bound = true.
Proof.
  intros Hx Hb. unfold dec_min. rewrite dec_ltb_leb. destruct (dec_leb x bound) eqn:Hle; simpl; [done|].
  split; [done|apply dec_leb_refl].
Qed.
Lemma floored x bound : 0 <= d_int bound -> 0 <= d_int (dec_max x bound).
Proof.
  intros Hb. unfold dec_max. destruct (dec_ltb x bound) eqn:Hlt; [done|].
  rewrite dec_ltb_leb in Hlt. apply negb_false_iff in Hlt.
  set (m := Z.min (d_exp bound) (d_exp x)). rewrite (dec_leb_at m) in Hlt by (unfold m; lia).
  apply Z.leb_le in Hlt. unfold coeff_at in Hlt.
  pose proof (pow10_pos (d_exp bound - m) ltac:(unfold m; lia)).
  pose proof (pow10_pos (d_exp x - m) ltac:(unfold m; lia)). nia.
Qed.

(** Whatever the reason, the attempt and the history, the chance of a simulated capture is
    between 0 and 0.80; a cancelled customer or a failed mandate never captures. *)
Theorem capture_probability_bounds failure_reason attempt_number history :
  let p := capture_probability failure_reason attempt_number history in
  0 <= d_int p /\ dec_leb p (cents 80) = true
  /\ (forall r, failure_reason = Some r -> r ∈ _NEVER_CAPTURE -> p = cents 0).
Proof.
  set (p := capture_probability _ _ _). cbn zeta.
  cut (0 <= d_int p /\ dec_leb p (cents 80) = true).
  { intros [H1 H2]. split; [done|]. split; [done|]. intros r -> Hr. unfold p.
    unfold _NEVER_CAPTURE in Hr. rewrite list_elem_of_In in Hr. by destruct Hr as [<-|[<-|[]]]. }
  assert (forall x b, 0 <= d_int x -> 0 <= d_int b -> dec_leb b (cents 80) = true ->
            0 <= d_int (dec_min x b) /\ dec_leb (dec_min x b) (cents 80) = true) as Hcap.
  { intros x b Hx Hb Hle. destruct (capped x b Hx Hb) as [H1 H2]. split; [done|]. by eapply dec_leb_trans. }
  assert (forall n k, 0 <= n -> 0 <= k -> 0 <= d_int (dec_mul (cents n) (dec_of_Z k))) as Hmul
    by (intros; by apply dec_mul_nonneg).
  unfold p, capture_probability. destruct failure_reason as [[]|]; try (by split);
    apply Hcap; try done; try (apply floored; done); apply dec_add_nonneg; try done; apply Hmul; lia.
Qed.

(** The identifier of the first payment a new simulator makes for a case. *)
Definition first_payment_id (seed : Z) (case_id : UUID) : string :=
  deterministic_payment_id seed (uuid_str case_id) 1.

Lemma first_payment r seed w :
  exists s p, catch_provider (create_payment r (new_simulator seed)) w
      = (set_w_ticks (S (w_ticks w)) w, Ok (inr (s, p)))
    /\ snap_provider s = SIMULATOR
    /\ snap_provider_payment_id s = deterministic_payment_id seed (req_merchant_reference r) 1.
Proof.
  simpl. unfold catch_provider, sim_create_payment. simpl.
  destruct (order_for r _) as [order_id p]. destruct (roll_attempt_outcome _ _ _ _ _) as [st fr].
  by eexists _, _.
Qed.

Lemma insert_payment_taken id q p w :
  w_payments w !! id = Some p -> insert_payment id q w = (w, Raise unique_violation).
Proof. intros H. unfold insert_payment, mbind, m_bind, get. by rewrite H. Qed.

(** A tool execution service makes its own simulator, whose payments are numbered from one:
    its first retry of a case always has the same identifier. Once a payment of the case
    bears it, every retry through a new simulator ends in the integrity error of the
    database, whatever the attempt number. *)
Theorem repeated_retry_collides enqueue race_for_event ctx seed queue w original_id original p :
  hc_payment ctx = Some original_id -> w_payments w !! original_id = Some original ->
  w_payments w !! internal_payment_uuid (hc_merchant_id ctx) SIMULATOR (first_payment_id seed (hc_case ctx))
    = Some p ->
  outcome (handle_retry_payment enqueue race_for_event ctx (mk_Outside (new_simulator seed) queue)) w
    = Raise unique_violation.
Proof.
  intros Hp Ho Hrow. unfold outcome, handle_retry_payment. rewrite Hp.
  rewrite (bind_run _ _ _ _ _ (get_row_run _ _ _ _ Ho)).
  unfold mbind at 1, m_bind at 1, gets at 1. unfold mbind at 1, m_bind at 1, gets at 1.
  match goal with |- context [create_payment ?r _] =>
    destruct (first_payment r seed w) as (s & q & Hc & Hs & Hid) end.
  rewrite (bind_run _ _ _ _ _ Hc).
  rewrite Hs, Hid. erewrite bind_raise; [reflexivity|].
  apply (insert_payment_taken _ _ p). exact Hrow.
Qed.
