(* ===== verification/Orchestrator.v ===== *)
(** * Agents at work

    [recoverai_domain/agents]: [persist.py], [gateway.py], [orchestrator.py] and
    [service.py], with the routes of [recovery/router.py] that run them. The orchestrator
    takes a case through its stages, lets the optimizer select an action and executes it
    through the tools; a budget bounds its steps and calls. The second part relates its
    runs to the abstract system. *)
From S2P Require Import Prelude PyStr Uuid Errors Decimal Json Datetime Enums Rows Store Repositories StateMachine Transitions Config Optimizer PolicyContext PolicyEngine OptimizerService Events Providers Simulator ToolData Idempotency AgentData VerificationTypes Processing Processor Verification Lifecycle Refinement Invariants ToolHandlers ToolExecution Approvals Agents ToolRefinement.
Open Scope stdpp_scope.

(** ** [persist.py] *)

(** [latency_ms], a difference of two readings of the performance counter, is left out of
    the row and of its audit event. *)
Definition start_agent_run (merchant_id : UUID) (case_id : option UUID) (agent_name agent_version : string)
  (input_summary : dict) (correlation_id : option string) : Op UUID :=
  now ← utcnow;
  row ← insert_agent_run (mk_AgentRun merchant_id case_id agent_name agent_version AgentRunStatus.RUNNING
          (Some (strip_secrets input_summary)) None None None now None);
  flush;;
  record_audit merchant_id "AGENT_RUN_RECORDED" ("Started " +:+ agent_name +:+ " " +:+ agent_version)
    (mk_AuditArgs case_id (value ActorType.AGENT) None (Some agent_name) None None correlation_id None
       (Some [("agent_run_id", JStr (uuid_str row)); ("agent_version", JStr agent_version)]));;
  mret row.

(** The columns of a run that is over. *)
Definition finished_run (now : Z) (output_summary : dict) (source : string) (status : AgentRunStatus.t)
  (error_message : option string) (r : AgentRun) : AgentRun :=
  mk_AgentRun (run_merchant_id r) (run_recovery_case_id r) (run_agent_name r) (run_agent_version r) status
    (run_input_summary r) (Some (strip_secrets output_summary))
    (Some [("source", JStr source); ("agent_version", JStr (run_agent_version r))]) error_message
    (run_started_at r) (Some now).

Definition complete_agent_run (row : UUID) (output_summary : dict) (source : string)
  (status : AgentRunStatus.t) (error_message correlation_id : option string) : Op unit :=
  now ← utcnow;
  update_agent_run row (finished_run now output_summary source status error_message);;
  flush;;
  r ← get_row w_agent_runs row;
  record_audit (run_merchant_id r) "AGENT_RUN_RECORDED"
    ("Finished " +:+ run_agent_name r +:+ " source=" +:+ source +:+ " status=" +:+ value status)
    (mk_AuditArgs (run_recovery_case_id r) (value ActorType.AGENT) None (Some (run_agent_name r)) None None
       correlation_id None
       (Some [("agent_run_id", JStr (uuid_str row)); ("source", JStr source); ("status", JStr (value status))])).

(** ** [orchestrator.py] *)

Definition stage_version (name : string) : string :=
  if String.eqb name "triage" then TRIAGE_VERSION
  else if String.eqb name "diagnosis" then DIAGNOSIS_VERSION
  else if String.eqb name "strategy" then STRATEGY_VERSION
  else if String.eqb name "decision_explainer" then EXPLAINER_VERSION
  else ORCHESTRATOR_VERSION.

Definition _STAGE_ORDER : list RecoveryCaseStatus :=
  [DETECTED; TRIAGED; INVESTIGATING; DIAGNOSED; SCORING; STRATEGY_SELECTED; POLICY_CHECK].

Fixpoint index_of (s : RecoveryCaseStatus) (l : list RecoveryCaseStatus) : option nat :=
  match l with
  | [] => None
  | x :: l => if decide (x = s) then Some O else S <$> index_of s l
  end.

Definition _already_past (current target : RecoveryCaseStatus) : bool :=
  match index_of current _STAGE_ORDER, index_of target _STAGE_ORDER with
  | Some i, Some j => (j <? i)%nat
  | _, _ => false
  end.

Definition _advance (case_id : UUID) (target : RecoveryCaseStatus) (summary : string)
  (correlation_id : option string) : Op unit :=
  c ← get_row w_cases case_id;
  let current := case_status c in
  if bool_decide (current = target) || _already_past current target then mret tt
  else if status_in current [POLICY_CHECK; AWAITING_APPROVAL; EXECUTING; ACTION_COMPLETED] then mret tt
  else transition_case case_id target
         (mk_TransitionArgs (value ActorType.AGENT) correlation_id (Some summary) None None).

Definition _payload_for_action (action : string) (r : OptimizationResult) : Op dict :=
  if String.eqb action "RETRY_LATER"
  then now ← utcnow; mret [("scheduled_for", JStr (isoformat (utc (now + hours 1)%Z)))]
  else mret
    (if String.eqb action "OFFER_DISCOUNT"
     then let percent := c ← find (fun c => String.eqb (cand_action c) action) (opt_candidate_actions r);
                         cand_discount_percent c in
          [("discount_percent", JStr (match percent with
                                      | Some p => if (d_int p =? 0)%Z then "5" else dec_str p
                                      | None => "5"
                                      end))]
     else if String.eqb action "SEND_REMINDER"
     then [("channel", JStr "EMAIL"); ("subject", JStr "Payment reminder")]
     else if String.eqb action "ESCALATE" then [("reason", JStr "Orchestrator selected ESCALATE")]
     else if String.eqb action "DO_NOTHING" then [("reason", JStr "Orchestrator selected DO_NOTHING")]
     else []).

Definition _fail_closed (case_id : UUID) (correlation_id : option string) : Op unit :=
  c ← get_row w_cases case_id;
  when (bool_decide (case_status c = POLICY_CHECK))
    (transition_case case_id ESCALATED
       (mk_TransitionArgs (value ActorType.AGENT) correlation_id
          (Some "Agent limits exceeded; case escalated") None None)).

Definition LIMIT_CODES : list string :=
  ["AGENT_STEP_LIMIT"; "AGENT_TOOL_LIMIT"; "AGENT_REPEATED_TOOL_LIMIT"].

Section Orchestrator.
Context {P : Type} `{!PaymentProvider P} {L : Type} `{!LlmClient L}.
(** The services the orchestrator is made with: the tools and the optimizer, with what
    other transactions commit meanwhile and the code outside the repository. *)
Context (environ : list (string * string)) (settings : RecoverySettings).
Context (enqueue : list UUID -> UUID -> option (list UUID)) (race_for_key race_for_event : World -> World).
Context (predictor : dict -> string -> result predictor_error RecoveryProbability).
Context (optimizer_settings : OptimizerSettings) (context_of : UUID -> World -> dict).
Context (tool_context_of : UUID -> Z -> option UUID -> option UUID -> World -> result predictor_error dict).
Context (as_int : json -> option Z) (datetime_json : datetime -> string).
Context (json_loads : string -> option json) (as_bool : json -> option bool) (as_float : json -> option string).
Context (agent_settings : AgentSettings).

(** A question to the language model. *)
Definition consult {A} (m : M L exn A) (llm : L) : Op (A * L) :=
  match m llm with
  | (llm, Ok a) => mret (a, llm)
  | (_, Raise e) => mthrow e
  end.

Definition is_fallback (source : AgentSource.t) : bool := bool_decide (source = AgentSource.DETERMINISTIC_FALLBACK).

(** [fn] answers, and [dump] is what is recorded of its answer. *)
Definition _persist_stage {A} (case_id : UUID) (name : string) (dump : A -> dict)
  (correlation_id : option string) (fn : M L exn A) (llm : L) : Op (A * L) :=
  c ← get_row w_cases case_id;
  row ← start_agent_run (case_merchant_id c) (Some case_id) name (stage_version name)
          [("case_id", JStr (uuid_str case_id))] correlation_id;
  '(output, llm) ← consult fn llm;
  let payload := dump output in
  complete_agent_run row payload (py_str (py_or (dict_get "source" payload) (JStr SOURCE_FALLBACK)))
    AgentRunStatus.COMPLETED None correlation_id;;
  mret (output, llm).

(** [AgentToolGateway.execute] *)
Definition gateway_execute (case_id : UUID) (tool_name : string) (action : option string) (payload : dict)
  (idempotency_key : string) (merchant_id : UUID) (correlation_id : option string) (allow_side_effect : bool)
  (budget : ExecutionBudget) (out : Outside P)
  : Op (ToolExecutionResult * (ExecutionBudget * Outside P)) :=
  if negb allow_side_effect && negb (mem_str tool_name READ_TOOLS)
  then mthrow (AgentError "TOOL_NOT_ALLOWED"
                 ("Agent cannot call side-effect tool " +:+ tool_name +:+ " in this stage") false)
  else
    budget ← lift (add_tool agent_settings tool_name budget);
    '(result, out) ← execute settings enqueue race_for_key race_for_event predictor tool_context_of as_int
                       datetime_json case_id
                       (mk_ExecuteArgs (Some tool_name) action payload idempotency_key (Some merchant_id)
                          (value ActorType.AGENT) (Some "recovery-orchestrator") correlation_id None None None
                          false) out;
    mret (result, (budget, out)).

Definition agent_key (run : UUID) (action : string) : string :=
  "agent:" +:+ uuid_str run +:+ ":" +:+ action.

Definition _execute_selected (case_id : UUID) (r : OptimizationResult) (run : UUID)
  (correlation_id : option string) (budget : ExecutionBudget) (out : Outside P)
  : Op (ToolExecutionResult * (ExecutionBudget * Outside P)) :=
  match opt_selected_action r with
  | None => mthrow (AgentError "NO_SELECTED_ACTION" "Optimizer did not select an action" false)
  | Some action =>
      match tool_for_action action with
      | None => mthrow (AgentError "UNKNOWN_TOOL" ("No tool for " +:+ action) false)
      | Some tool_name =>
          payload ← _payload_for_action action r;
          c ← get_row w_cases case_id;
          gateway_execute case_id tool_name (Some action) payload (agent_key run action) (case_merchant_id c)
            correlation_id true budget out
      end
  end.

(** What the stages have found. *)
Record Findings : Type := mk_Findings {
  f_context : RecoveryAgentContext;
  f_triage : TriageResult;
  f_diagnosis : DiagnosisResult;
  f_strategy : StrategyResult;
}.

(** Triage, diagnosis and strategy. *)
Definition run_analysis (case_id : UUID) (correlation_id : option string) (budget : ExecutionBudget) (llm : L)
  : Op (Findings * (ExecutionBudget * L)) :=
  context ← build_agent_context environ case_id;
  budget ← lift (add_step agent_settings "triage" budget);
  '(triage, llm) ← _persist_stage case_id "triage" triage_dict correlation_id
                     (run_triage json_loads as_bool agent_settings context) llm;
  _advance case_id TRIAGED "Triage complete" correlation_id;;
  budget ← lift (add_step agent_settings "diagnosis" budget);
  '(diagnosis, llm) ← _persist_stage case_id "diagnosis" diagnosis_dict correlation_id
                        (run_diagnosis json_loads as_float agent_settings context) llm;
  _advance case_id INVESTIGATING "Investigating" correlation_id;;
  _advance case_id DIAGNOSED "Diagnosis recorded" correlation_id;;
  budget ← lift (add_step agent_settings "strategy" budget);
  '(strategy, llm) ← _persist_stage case_id "strategy" strategy_dict correlation_id
                       (run_strategy json_loads agent_settings context diagnosis) llm;
  mret (mk_Findings context triage diagnosis strategy, (budget, llm)).

(** The optimizer selects among the candidates, and the selection is explained. *)
Definition run_decision (case_id : UUID) (correlation_id : option string) (f : Findings)
  (budget : ExecutionBudget) (llm : L)
  : Op (OptimizationResult * DecisionExplanation * (ExecutionBudget * L)) :=
  budget ← lift (add_step agent_settings "optimize" budget);
  optimization ← optimize_case predictor optimizer_settings environ None context_of case_id true None None
                   correlation_id (Some (strat_candidate_actions (f_strategy f)));
  _advance case_id SCORING "ERV scoring" correlation_id;;
  _advance case_id STRATEGY_SELECTED "Strategy selected" correlation_id;;
  _advance case_id POLICY_CHECK "Policy check" correlation_id;;
  budget ← lift (add_step agent_settings "explain" budget);
  let explain := run_explainer json_loads agent_settings (f_context f) optimization in
  '(explanation, llm) ← consult explain llm;
  '(explanation, llm) ← (if negb (same (expl_selected_action explanation) (opt_selected_action optimization))
                         then consult explain llm else mret (explanation, llm));
  '(_, llm) ← _persist_stage case_id "decision_explainer" explanation_dict correlation_id (mret explanation) llm;
  mret (optimization, explanation, (budget, llm)).

(** The selected action is executed when it is asked for and there is one. *)
Definition run_selected (case_id : UUID) (execute : bool) (r : OptimizationResult) (run : UUID)
  (correlation_id : option string) (budget : ExecutionBudget) (out : Outside P)
  : Op (option ToolExecutionResult * (ExecutionBudget * Outside P)) :=
  if execute && nonempty (default "" (opt_selected_action r))
  then
    budget ← lift (add_step agent_settings "execute" budget);
    '(result, bo) ← _execute_selected case_id r run correlation_id budget out;
    mret (Some result, bo)
  else mret (None, (budget, out)).

Definition fallbacks_of (f : Findings) (e : DecisionExplanation) : list string :=
  (if is_fallback (tri_source (f_triage f)) then ["triage"] else [])
  ++ (if is_fallback (diag_source (f_diagnosis f)) then ["diagnosis"] else [])
  ++ (if is_fallback (strat_source (f_strategy f)) then ["strategy"] else [])
  ++ (if is_fallback (expl_source e) then ["explainer"] else []).

Definition orchestration_of (case_id : UUID) (c : RecoveryCase) (f : Findings) (r : OptimizationResult)
  (e : DecisionExplanation) (executed : option ToolExecutionResult) (budget : ExecutionBudget) (run : UUID)
  : OrchestrationResult :=
  mk_OrchestrationResult (uuid_str case_id) (uuid_str (case_merchant_id c)) (value (case_status c)) (f_triage f)
    (f_diagnosis f) (f_strategy f) (opt_selected_action r) (dec_str <$> opt_selected_expected_value r)
    (opt_requires_approval r) e (x_status <$> executed) (uuid_str <$> (x ← executed; x_approval_id x))
    (optimization_dict r) None (budget_steps budget) (budget_tool_calls budget) (Some (uuid_str run))
    (dec_str (case_amount_recovered c)) (fallbacks_of f e).

(** The body of [run_case] after its run is recorded. The row of the case is refreshed when
    nothing is pending: every assignment has been flushed. *)
Definition run_stages (case_id : UUID) (execute : bool) (recovered_before : Decimal) (run : UUID)
  (correlation_id : option string) (llm : L) (out : Outside P)
  : Op (OrchestrationResult * (L * Outside P)) :=
  '(found, (budget, llm)) ← run_analysis case_id correlation_id new_budget llm;
  '(optimization, explanation, (budget, llm)) ← run_decision case_id correlation_id found budget llm;
  '(executed, (budget, out)) ← run_selected case_id execute optimization run correlation_id budget out;
  c ← get_row w_cases case_id;
  if negb (dec_eqb (case_amount_recovered c) recovered_before)
  then mthrow (AgentError "AGENT_MUTATED_RECOVERY" "Agents must not write amount_recovered" false)
  else
    let result := orchestration_of case_id c found optimization explanation executed budget run in
    complete_agent_run run (orchestration_dict result)
      (match orc_fallbacks result with [] => "LLM" | _ => SOURCE_FALLBACK end)
      AgentRunStatus.COMPLETED None correlation_id;;
    mret (result, (llm, out)).

(** [except AgentError]: the run is recorded as failed, and a limit that was passed
    escalates a case at the policy check. *)
Definition run_failed_closed {A} (case_id merchant_id run : UUID) (correlation_id : option string) (e : exn)
  : Op A :=
  match e with
  | AgentError code message _ =>
      complete_agent_run run [("error", JStr code)] SOURCE_FALLBACK AgentRunStatus.FAILED (Some message)
        correlation_id;;
      when (mem_str code LIMIT_CODES)
        (record_audit merchant_id "AGENT_LIMIT_EXCEEDED" message
           (mk_AuditArgs (Some case_id) (value ActorType.AGENT) None None None None correlation_id None
              (Some [("code", JStr code)]));;
         _fail_closed case_id correlation_id);;
      mthrow e
  | _ => mthrow e
  end.

Definition run_case (case_id : UUID) (merchant_id : option UUID) (execute : bool)
  (correlation_id : option string) (llm : L) (out : Outside P)
  : Op (OrchestrationResult * (L * Outside P)) :=
  case_id ← lock_recovery_case case_id;
  c ← get_row w_cases case_id;
  if match merchant_id with Some m => negb (same (case_merchant_id c) m) | None => false end
  then mthrow (DomainError "MERCHANT_MISMATCH" "Case does not belong to this merchant" false)
  else if terminal (case_status c)
  then mthrow (AgentError "CASE_TERMINAL" "Terminal cases are not orchestrated" false)
  else
    run ← start_agent_run (case_merchant_id c) (Some case_id) "orchestrator" ORCHESTRATOR_VERSION
            [("execute", JBool execute)] correlation_id;
    try_except (run_stages case_id execute (case_amount_recovered c) run correlation_id llm out)
      (run_failed_closed case_id (case_merchant_id c) run correlation_id).
End Orchestrator.

(** ** [service.py], and the routes: the language model is the stub *)

Section Router.
Context (environ : list (string * string)).
Context (enqueue : list UUID -> UUID -> option (list UUID)) (race_for_key : World -> World).
Context (predictor : dict -> string -> result predictor_error RecoveryProbability).
Context (optimizer_settings : OptimizerSettings) (context_of : UUID -> World -> dict).
Context (tool_context_of : UUID -> Z -> option UUID -> option UUID -> World -> result predictor_error dict).
Context (as_int : json -> option Z) (datetime_json : datetime -> string).
Context (json_loads : string -> option json) (as_bool : json -> option bool) (as_float : json -> option string).

Definition api_run_agents (case_id : UUID) (merchant_id : option UUID) (execute : bool)
  : Op (response OrchestrationResult) :=
  api_request
    (agent_settings ← lift (load_agent_settings environ);
     settings ← lift (load_recovery_settings environ);
     provider ← lift (get_payment_provider None 42);
     '(result, _) ← run_case environ settings enqueue race_for_key id predictor optimizer_settings context_of
                      tool_context_of as_int datetime_json json_loads as_bool as_float agent_settings case_id
                      merchant_id execute None stub_client (mk_Outside provider None);
     mret result).

Definition api_ask_analyst (merchant_id : UUID) (question : string) : Op (response AnalystAnswer) :=
  api_request
    (agent_settings ← lift (load_agent_settings environ);
     lift (load_recovery_settings environ);;
     '(answer, _) ← answer_analyst json_loads agent_settings merchant_id question stub_client;
     mret answer).
End Router.

(** * The agents refine the abstract system

    A run of the orchestrator is a run of the steps labelled [AGENTS], whatever the language
    model answers. *)

Lemma agents_in_all : AGENTS ⊆ ALL.
Proof. unfold ALL. set_solver. Qed.
Lemma tools_in_agents : TOOLS ⊆ AGENTS.
Proof. unfold AGENTS. set_solver. Qed.
Lemma optimizer_in_agents : OPTIMIZER ⊆ AGENTS.
Proof. unfold AGENTS. set_solver. Qed.

(** ** Recorded runs *)

Section Primitives.
Context (cfg : RecoverySettings) (A : list label).
Notation R := (runs cfg A).

Lemma runs_insert_agent_run r : L_time ∈ A -> L_run ∈ A -> run_clean r -> preserves R (insert_agent_run r).
Proof using.
  intros Ht H Hclean. unfold insert_agent_run. apply preserves_bind; [apply _|by apply runs_uuid4|]. intros id w.
  apply from_get; [apply _|].
  destruct (is_some (w_agent_runs w !! id)) eqn:Hid; [unfold preserves_from; reflexivity|].
  eapply runs_step; [exact H|]. apply step_run_new; [|done]. by destruct (w_agent_runs w !! id).
Qed.

Lemma runs_update_agent_run id f :
  L_run ∈ A -> (forall r, run_identity (f r) = run_identity r) -> (forall r, run_clean r -> run_clean (f r)) ->
  preserves R (update_agent_run id f).
Proof using.
  intros H Hf Hc w. unfold final, update_agent_run, modify. simpl.
  destruct (w_agent_runs w !! id) as [r|] eqn:Hr.
  - rewrite (alter_as_insert _ _ _ _ Hr). eapply runs_step; [exact H|by eapply step_run; [|apply Hf|apply Hc]].
  - rewrite alter_None by done. destruct w as [? ? ? ? ? ? ? ? ? ? ? ? []]. reflexivity.
Qed.
End Primitives.

Section Agents.
Context {P : Type} `{!PaymentProvider P} `{!ProviderLaws P} {L : Type} `{!LlmClient L}.
Context (cfg : RecoverySettings) (A : list label) (HA : AGENTS ⊆ A).
Notation R := (runs cfg A).
#[local] Hint Extern 1 (_ ∈ A) => apply HA; solve_label : pres.

Context (environ : list (string * string)) (settings : RecoverySettings).
Context (enqueue : list UUID -> UUID -> option (list UUID)) (race_for_key race_for_event : World -> World).
Context (Hkey : forall w, R w (race_for_key w)) (Hevent : forall w, R w (race_for_event w)).
Context (predictor : dict -> string -> result predictor_error RecoveryProbability).
Context (optimizer_settings : OptimizerSettings) (context_of : UUID -> World -> dict).
Context (tool_context_of : UUID -> Z -> option UUID -> option UUID -> World -> result predictor_error dict).
Context (as_int : json -> option Z) (datetime_json : datetime -> string).
Context (json_loads : string -> option json) (as_bool : json -> option bool) (as_float : json -> option string).
Context (agent_settings : AgentSettings).

Lemma runs_start_agent_run m c n v i co : preserves R (start_agent_run m c n v i co).
Proof using HA.
  unfold start_agent_run. apply preserves_bind; [apply _|solve_pres|]. intros now.
  apply preserves_bind; [apply _| |solve_pres].
  apply runs_insert_agent_run; [apply HA; solve_label|apply HA; solve_label|].
  split; [apply strip_secrets_free|exact I].
Qed.

Lemma runs_complete_agent_run r o s st e co : preserves R (complete_agent_run r o s st e co).
Proof using HA.
  unfold complete_agent_run. apply preserves_bind; [apply _|solve_pres|]. intros now.
  apply preserves_bind; [apply _| |solve_pres].
  apply runs_update_agent_run; [apply HA; solve_label|done|].
  intros q [Hi _]. split; [exact Hi|apply strip_secrets_free].
Qed.
#[local] Hint Resolve runs_start_agent_run runs_complete_agent_run : pres.

(** The moves an agent makes. *)
Definition agent_targets : list RecoveryCaseStatus :=
  [TRIAGED; INVESTIGATING; DIAGNOSED; SCORING; STRATEGY_SELECTED; POLICY_CHECK; ESCALATED].

Lemma runs_agent_move case_id target a :
  target ∈ agent_targets -> preserves R (transition_case case_id target a).
Proof using HA.
  intros Ht. apply runs_transition_case.
  - apply HA. solve_label.
  - apply HA. solve_label.
  - apply HA. revert target Ht.
    assert (forall t, t ∈ agent_targets -> L_case_move t ∈ AGENTS) as H; [|exact H].
    intros t Ht. apply (bool_decide_eq_true (L_case_move t ∈ AGENTS)). revert t Ht.
    apply forallb_elem. vm_compute. reflexivity.
  - intros ->. revert Ht. apply (bool_decide_eq_false_1 (_ ∈ agent_targets)). reflexivity.
Qed.
#[local] Hint Extern 1 (_ ∈ agent_targets) => solve_label : pres.
#[local] Hint Resolve runs_agent_move : pres.

Lemma runs_advance case_id target s co : target ∈ agent_targets -> preserves R (_advance case_id target s co).
Proof using HA. intros Ht. unfold _advance. solve_pres. Qed.
#[local] Hint Resolve runs_advance : pres.

Lemma runs_fail_closed case_id co : preserves R (_fail_closed case_id co).
Proof using HA. unfold _fail_closed. solve_pres. Qed.
#[local] Hint Resolve runs_fail_closed : pres.

Lemma runs_consult {B} (m : M L exn B) (llm : L) : preserves R (consult m llm).
Proof using. unfold consult. destruct (m llm) as [llm' [b|e]]; solve_pres. Qed.
#[local] Hint Resolve runs_consult : pres.

Lemma runs_persist_stage {B} case_id n (d : B -> dict) co fn (llm : L) :
  preserves R (_persist_stage case_id n d co fn llm).
Proof using HA. unfold _persist_stage. solve_pres. Qed.
#[local] Hint Resolve runs_persist_stage : pres.

Lemma runs_agent_context case_id : preserves R (build_agent_context environ case_id).
Proof using HA.
  assert (OPTIMIZER ⊆ A) by (etrans; [apply optimizer_in_agents|done]).
  pose proof (runs_policy_context cfg A ltac:(done)). unfold build_agent_context. solve_pres.
Qed.
#[local] Hint Resolve runs_agent_context : pres.

Lemma runs_agent_optimize case_id p pr n ci ca :
  preserves R (optimize_case predictor optimizer_settings environ None context_of case_id p pr n ci ca).
Proof using HA. apply runs_optimize_case. etrans; [apply optimizer_in_agents|done]. Qed.
#[local] Hint Resolve runs_agent_optimize : pres.

Lemma runs_agent_execute case_id a (out : Outside P) :
  preserves R (execute settings enqueue race_for_key race_for_event predictor tool_context_of as_int
                 datetime_json case_id a out).
Proof using All. apply runs_execute; [etrans; [apply tools_in_agents|done]|done..]. Qed.
#[local] Hint Resolve runs_agent_execute : pres.

Lemma runs_analysis case_id co b (llm : L) :
  preserves R (run_analysis environ json_loads as_bool as_float agent_settings case_id co b llm).
Proof using All. unfold run_analysis. solve_pres. Qed.
#[local] Hint Resolve runs_analysis : pres.

Lemma runs_decision case_id co f b (llm : L) :
  preserves R (run_decision environ predictor optimizer_settings context_of json_loads agent_settings
                 case_id co f b llm).
Proof using All. unfold run_decision. solve_pres. Qed.
#[local] Hint Resolve runs_decision : pres.

Lemma runs_selected case_id x r run co b (out : Outside P) :
  preserves R (run_selected settings enqueue race_for_key race_for_event predictor tool_context_of as_int
                 datetime_json agent_settings case_id x r run co b out).
Proof using All.
  unfold run_selected, _execute_selected, gateway_execute, _payload_for_action. solve_pres.
Qed.
#[local] Hint Resolve runs_selected : pres.

Lemma runs_run_case case_id m x co (llm : L) (out : Outside P) :
  preserves R (run_case environ settings enqueue race_for_key race_for_event predictor optimizer_settings
                 context_of tool_context_of as_int datetime_json json_loads as_bool as_float agent_settings
                 case_id m x co llm out).
Proof using All. unfold run_case, run_stages, run_failed_closed. solve_pres. Qed.
End Agents.
