(* ===== verification/BatchEvaluation.v ===== *)
(** * Comparing strategies on a batch of cases

    [recoverai_eval/batch_evaluation.py]: every case is played twice, doing nothing and
    with the action of the highest expected net value, against one draw per case.  The
    cases are an argument: [generate_cases] samples them from distributions of
    [random] that go through the floating-point library of C.  Floats are represented as
    in [PyFloat]. *)
From S2P Require Import Prelude PyStr Uuid Errors Decimal Rounding PyFloat Random Json Enums Providers Simulator Interventions OptimizerService Inference AgentData.
From Stdlib Require Import Ascii.
Open Scope stdpp_scope.

(** ** Cases *)

(** A row of [generate_cases]. *)
Record GeneratedCase : Type := mk_GeneratedCase {
  gc_case_id : string;
  gc_customer_id : string;
  gc_merchant_category : string;
  gc_amount : Decimal;
  gc_payment_method : string;
  gc_bank : string;
  gc_failure_reason : string;
  gc_attempt_number : Z;
  gc_historical_success_rate : Decimal;
  gc_historical_recovery_rate : Decimal;
  gc_customer_lifetime_value : Decimal;
  gc_days_since_last_purchase : Decimal;
  gc_cart_age_hours : option Decimal;
  gc_cart_value : option Decimal;
  gc_subscription_state : string;
  gc_communication_count : Z;
  gc_days_since_last_contact : Decimal;
  gc_previous_discount_usage : Decimal;
  gc_hour_of_day : Z;
  gc_day_of_week : Z;
  gc_customer_segment : string;
  gc_case_type : string;
  gc_prior_failures : Z;
  gc_prior_captures : Z;
}.

Definition case_fields (c : GeneratedCase) : dict := [
  ("case_id", JStr (gc_case_id c)); ("customer_id", JStr (gc_customer_id c));
  ("merchant_category", JStr (gc_merchant_category c)); ("amount", JNum (gc_amount c));
  ("payment_method", JStr (gc_payment_method c)); ("bank", JStr (gc_bank c));
  ("failure_reason", JStr (gc_failure_reason c)); ("attempt_number", JInt (gc_attempt_number c));
  ("historical_success_rate", JNum (gc_historical_success_rate c));
  ("historical_recovery_rate", JNum (gc_historical_recovery_rate c));
  ("customer_lifetime_value", JNum (gc_customer_lifetime_value c));
  ("days_since_last_purchase", JNum (gc_days_since_last_purchase c));
  ("cart_age_hours", json_of JNum (gc_cart_age_hours c)); ("cart_value", json_of JNum (gc_cart_value c));
  ("subscription_state", JStr (gc_subscription_state c)); ("communication_count", JInt (gc_communication_count c));
  ("days_since_last_contact", JNum (gc_days_since_last_contact c));
  ("previous_discount_usage", JNum (gc_previous_discount_usage c));
  ("hour_of_day", JInt (gc_hour_of_day c)); ("day_of_week", JInt (gc_day_of_week c));
  ("customer_segment", JStr (gc_customer_segment c)); ("case_type", JStr (gc_case_type c));
  ("prior_failures", JInt (gc_prior_failures c)); ("prior_captures", JInt (gc_prior_captures c))].

(** [CaseContext.model_fields] *)
Definition model_fields : list string := [
  "amount"; "failure_reason"; "attempt_number"; "merchant_category"; "payment_method"; "bank";
  "historical_success_rate"; "historical_recovery_rate"; "customer_lifetime_value"; "days_since_last_purchase";
  "cart_age_hours"; "cart_value"; "subscription_state"; "communication_count"; "days_since_last_contact";
  "previous_discount_usage"; "hour_of_day"; "day_of_week"; "customer_segment"; "case_type"; "prior_failures";
  "prior_captures"; "merchant_id"; "recovery_case_id"; "customer_id"].

Example model_fields_are_dumped c : (model_dump c).*1 = model_fields.
Proof. reflexivity. Qed.

Definition _intervention_context_from_case (c : GeneratedCase) : result exn InterventionContext :=
  match of_value (gc_failure_reason c) with
  | None => Raise (ValueError (repr (JStr (gc_failure_reason c)) +:+ " is not a valid FailureReason"))
  | Some failure =>
      mret (mk_InterventionContext (Some failure) (gc_attempt_number c)
        (mk_CustomerHistory (gc_prior_failures c) (gc_prior_captures c) (gc_customer_lifetime_value c))
        (gc_historical_success_rate c) (gc_historical_recovery_rate c) (gc_communication_count c)
        (gc_previous_discount_usage c)
        (match gc_cart_age_hours c with Some age => if (d_int age =? 0)%Z then None else Some age | None => None end)
        (gc_customer_lifetime_value c) (gc_amount c) (gc_hour_of_day c) (gc_case_type c))
  end.

(** The draw of a case: the same for every strategy. *)
Definition _deterministic_rng (seed : Z) (case_id : string) : Z :=
  random_draw_of_int (be_value (take 8 (sha256 (bytes_of_string (str_int seed +:+ ":" +:+ case_id)))) 0).

(** ** Strategies *)

Definition action_costs (action : RecoveryActionType.t) : Decimal :=
  match action with
  | RecoveryActionType.RETRY_NOW => cents 500
  | RecoveryActionType.RETRY_LATER => cents 200
  | RecoveryActionType.SEND_PAYMENT_LINK => cents 300
  | RecoveryActionType.SEND_REMINDER => cents 50
  | RecoveryActionType.OFFER_DISCOUNT => cents 100
  | RecoveryActionType.ESCALATE => cents 25000
  | RecoveryActionType.DO_NOTHING => cents 0
  end.
Definition risk_penalties (action : RecoveryActionType.t) : Decimal :=
  match action with
  | RecoveryActionType.RETRY_NOW => cents 1500
  | RecoveryActionType.RETRY_LATER => cents 400
  | RecoveryActionType.SEND_PAYMENT_LINK => cents 800
  | RecoveryActionType.SEND_REMINDER => cents 1200
  | RecoveryActionType.OFFER_DISCOUNT => cents 4000
  | RecoveryActionType.ESCALATE => cents 3000
  | RecoveryActionType.DO_NOTHING => cents 0
  end.

Definition _action_cost (action : string) (amount : Decimal) : Decimal :=
  let base_cost := match of_value action with Some a => action_costs a | None => cents 0 end in
  let risk_penalty := match of_value action with Some a => risk_penalties a | None => cents 0 end in
  let discount_cost := if String.eqb action "OFFER_DISCOUNT" then dec_mul amount (cents 5) else cents 0 in
  let communication_cost :=
    if mem_str action ["SEND_PAYMENT_LINK"; "SEND_REMINDER"; "OFFER_DISCOUNT"] then cents 150 else cents 0 in
  dec_add (dec_add (dec_add base_cost discount_cost) communication_cost) risk_penalty.

Definition _baseline_strategy : string := value RecoveryActionType.DO_NOTHING.

Fixpoint each_action {A} (f : string -> result exn A) (actions : list string) : result exn (list (string * A)) :=
  match actions with
  | [] => mret []
  | a :: actions => x ← f a; rest ← each_action f actions; mret ((a, x) :: rest)
  end.

Definition expected_net_value (amount : Decimal) (scored : string * Decimal) : Decimal :=
  dec_sub (dec_mul scored.2 amount) (_action_cost scored.1 amount).

(** One turn of the loop, with [best_erv] and [best_action]. *)
Definition better (amount : Decimal) (best : Decimal * option string) (scored : string * Decimal)
  : Decimal * option string :=
  let erv := expected_net_value amount scored in
  if dec_ltb best.1 erv then (erv, Some scored.1) else best.
Definition best_action (amount : Decimal) (probs : list (string * Decimal)) : option string :=
  (fold_left (better amount) probs (dec_of_Z (-999999), None)).2.

Section Strategy.
(** [predict_recovery_probability] of the fields of a case. *)
Context (predictor : dict -> string -> result predictor_error RecoveryProbability).

(** The probability of an action, and whether the model gave it. *)
Definition predicted (c : GeneratedCase) (ctx : InterventionContext) (action : string) : result exn (Decimal * bool) :=
  match predictor (List.filter (fun kv => mem_str kv.1 model_fields) (case_fields c)) action with
  | Raise (InferenceError code message) => Raise (PyError code message)
  | Raise (OtherError e) => Raise e
  | Ok pred =>
      if String.eqb (rp_source pred) "ml" then mret (round6 (rp_probability pred), true)
      else p ← intervention_recovery_probability ctx action; mret (p, false)
  end.

Definition heuristic_probabilities (ctx : InterventionContext) : result exn (list (string * Decimal)) :=
  each_action (intervention_recovery_probability ctx) SCORABLE_ACTIONS.

(** The probabilities of the actions and [used_source]. *)
Definition strategy_probabilities (c : GeneratedCase) (ctx : InterventionContext) (mode : string)
  : result exn (list (string * Decimal) * string) :=
  if String.eqb mode "ml" then
    match each_action (predicted c ctx) SCORABLE_ACTIONS with
    | Ok l => mret (map (fun x => (x.1, x.2.1)) l,
                    if forallb (fun x => x.2.2) l then "ml" else "heuristic_fallback")
    | Raise _ => probs ← heuristic_probabilities ctx; mret (probs, "heuristic_fallback")
    end
  else probs ← heuristic_probabilities ctx; mret (probs, "heuristic").

Definition _revivex_strategy (c : GeneratedCase) (mode : string) : result exn (string * string) :=
  ctx ← _intervention_context_from_case c;
  '(probs, source) ← strategy_probabilities c ctx mode;
  mret (default (value RecoveryActionType.DO_NOTHING) (best_action (iv_amount ctx) probs), source).

(** ** Outcomes *)

(** Whether the draw recovers the case, the amount recovered and the final status. *)
Definition _simulate_outcome (c : GeneratedCase) (action : string) (draw : Z) : result exn (bool * Decimal * string) :=
  ctx ← _intervention_context_from_case c;
  prob ← intervention_recovery_probability ctx action;
  let recovered := draw_below draw prob in
  mret (recovered, (if recovered then iv_amount ctx else cents 0),
        if recovered then value RECOVERED
        else if String.eqb action "ESCALATE" then value ESCALATED
        else if String.eqb action "DO_NOTHING" then value STOPPED
        else value FAILED).

Record CaseEvaluationResult : Type := mk_CaseEvaluationResult {
  ev_case_id : string;
  ev_amount_at_risk : Decimal;
  ev_action : string;
  ev_recovered : bool;
  ev_recovered_amount : Decimal;
  ev_cost : Decimal;
  ev_final_status : string;
  ev_probability_source : option string;
}.

Definition _evaluate_case (c : GeneratedCase) (strategy : string) (seed : Z) (mode : string)
  : result exn CaseEvaluationResult :=
  let draw := _deterministic_rng seed (gc_case_id c) in
  '(action, source) ←
    (if String.eqb strategy "baseline" then mret (_baseline_strategy, None)
     else if String.eqb strategy "revivex"
     then '(action, source) ← _revivex_strategy c mode; mret (action, Some source)
     else Raise (ValueError ("Unknown strategy: " +:+ strategy)));
  '(recovered, amount, status) ← _simulate_outcome c action draw;
  mret (mk_CaseEvaluationResult (gc_case_id c) (gc_amount c) action recovered amount
          (_action_cost action (gc_amount c)) status source).

(** ** Metrics *)

Record BatchEvaluationMetrics : Type := mk_BatchEvaluationMetrics {
  bm_total_revenue_at_risk : Decimal;
  bm_total_recovered : Decimal;
  bm_recovery_rate : Decimal;
  bm_cases_recovered : nat;
  bm_total_cases : nat;
  bm_total_cost : Decimal;
  bm_net_recovery : Decimal;
  bm_cases_escalated : nat;
  bm_cases_stopped : nat;
}.

(** [sum(...)] of decimals, from the integer 0. *)
Definition dec_sum (l : list Decimal) : Decimal := fold_left dec_add l (dec_of_Z 0).
Definition count_if {A} (f : A -> bool) (l : list A) : nat := length (List.filter f l).

Definition _compute_metrics (results : list CaseEvaluationResult) : result exn BatchEvaluationMetrics :=
  let total_at_risk := dec_sum (map ev_amount_at_risk results) in
  let total_recovered := dec_sum (map ev_recovered_amount results) in
  let total_cost := dec_sum (map ev_cost results) in
  recovery_rate ← (if dec_ltb (dec_of_Z 0) total_at_risk then dec_div total_recovered total_at_risk
                   else mret (cents 0));
  mret (mk_BatchEvaluationMetrics total_at_risk total_recovered recovery_rate
          (count_if ev_recovered results) (length results) total_cost (dec_sub total_recovered total_cost)
          (count_if (fun r => String.eqb (ev_final_status r) (value ESCALATED)) results)
          (count_if (fun r => String.eqb (ev_final_status r) (value STOPPED)) results)).

Record BatchComparisonResult : Type := mk_BatchComparisonResult {
  bc_n_cases : Z;
  bc_seed : Z;
  bc_total_revenue_at_risk : Decimal;
  bc_baseline_metrics : BatchEvaluationMetrics;
  bc_revivex_metrics : BatchEvaluationMetrics;
  bc_incremental_revenue : Decimal;
  bc_recovery_uplift_percent : Decimal;
  bc_revivex_mode : string;
  bc_ml_prediction_count : nat;
  bc_heuristic_fallback_count : nat;
  bc_case_results : list dict;
}.

Definition case_result (c : GeneratedCase) (baseline revivex : CaseEvaluationResult) : dict := [
  ("case_id", JStr (gc_case_id c)); ("amount_at_risk", JStr (float_str (gc_amount c)));
  ("baseline_action", JStr (ev_action baseline)); ("revivex_action", JStr (ev_action revivex));
  ("baseline_outcome", JStr (ev_final_status baseline)); ("revivex_outcome", JStr (ev_final_status revivex));
  ("baseline_recovered_amount", JStr (dec_str (ev_recovered_amount baseline)));
  ("revivex_recovered_amount", JStr (dec_str (ev_recovered_amount revivex)));
  ("incremental_recovered_amount",
     JStr (dec_str (dec_sub (ev_recovered_amount revivex) (ev_recovered_amount baseline))));
  ("baseline_cost", JStr (dec_str (ev_cost baseline))); ("revivex_cost", JStr (dec_str (ev_cost revivex)));
  ("probability_source", opt_str (ev_probability_source revivex))].

Fixpoint case_results (cases : list GeneratedCase) (baseline revivex : list CaseEvaluationResult) : list dict :=
  match cases, baseline, revivex with
  | c :: cases, b :: baseline, r :: revivex => case_result c b r :: case_results cases baseline revivex
  | _, _, _ => []
  end.

Fixpoint evaluate_cases (strategy : string) (seed : Z) (mode : string) (cases : list GeneratedCase)
  : result exn (list CaseEvaluationResult) :=
  match cases with
  | [] => mret []
  | c :: cases =>
      r ← _evaluate_case c strategy seed mode; rest ← evaluate_cases strategy seed mode cases; mret (r :: rest)
  end.

Definition is_source (sources : list string) (r : CaseEvaluationResult) : bool :=
  match ev_probability_source r with Some s => mem_str s sources | None => false end.

(** [cases] are those [generate_cases] returns for the seed. *)
Definition evaluate_batch (n_cases seed : Z) (mode : string) (cases : list GeneratedCase)
  : result exn BatchComparisonResult :=
  baseline_results ← evaluate_cases "baseline" seed mode cases;
  baseline ← _compute_metrics baseline_results;
  revivex_results ← evaluate_cases "revivex" seed mode cases;
  revivex ← _compute_metrics revivex_results;
  let incremental := dec_sub (bm_total_recovered revivex) (bm_total_recovered baseline) in
  uplift ← (if dec_ltb (dec_of_Z 0) (bm_total_recovered baseline)
            then q ← dec_div incremental (bm_total_recovered baseline); mret (dec_mul q (dec_of_Z 100))
            else mret (cents 0));
  mret (mk_BatchComparisonResult n_cases seed (bm_total_revenue_at_risk baseline) baseline revivex incremental uplift
          mode (count_if (is_source ["ml"]) revivex_results)
          (count_if (is_source ["heuristic"; "heuristic_fallback"]) revivex_results)
          (case_results cases baseline_results revivex_results)).
End Strategy.

(** ** The report *)

(** [s.upper()] of ASCII text. *)
Definition upper_char (c : ascii) : ascii :=
  let n := N_of_ascii c in
  if ((97 <=? n) && (n <=? 122))%N then ascii_of_N (n - 32) else c.
Fixpoint upper (s : string) : string :=
  match s with EmptyString => EmptyString | String c s => String (upper_char c) (upper s) end.

(** The digits of a number in groups of three. *)
Fixpoint grouped (digits : string) : string :=
  match digits with
  | EmptyString => EmptyString
  | String c rest =>
      String c (if nonempty rest && (String.length rest mod 3 =? 0)%nat then "," +:+ grouped rest else grouped rest)
  end.

(** [f"{x:,.2f}"], and [f"{x:.2f}"] without the groups. *)
Definition two_places (commas : bool) (x : Decimal) : string :=
  let n := Z.abs (if (-2 <=? d_exp x)%Z then coeff_at (-2) x
                  else div_half_even (d_int x) (10 ^ (-2 - d_exp x))) in
  let digits := str_int (n / 100) in
  (if (d_int x <? 0)%Z then "-" else "") +:+ (if commas then grouped digits else digits) +:+ "."
  +:+ (if (n mod 100 <? 10)%Z then "0" else "") +:+ str_int (n mod 100).

Definition rupees (x : Decimal) : string := "₹" +:+ two_places true x.
Definition percent (x : Decimal) : string := two_places false (dec_mul x (dec_of_Z 100)) +:+ "%".

Definition format_report (r : BatchComparisonResult) : string :=
  let b := bc_baseline_metrics r in
  let x := bc_revivex_metrics r in
  join newline [
    "ReviveX Revenue Recovery Evaluation"; "===================================="; "";
    "Cases: " +:+ str_int (bc_n_cases r); "Seed: " +:+ str_int (bc_seed r);
    "ReviveX Mode: " +:+ upper (bc_revivex_mode r) +:+ " (ML Predictions: "
      +:+ str_int (Z.of_nat (bc_ml_prediction_count r)) +:+ ", Fallbacks: "
      +:+ str_int (Z.of_nat (bc_heuristic_fallback_count r)) +:+ ")";
    "Revenue at risk: " +:+ rupees (bc_total_revenue_at_risk r); "";
    "Baseline recovered: " +:+ rupees (bm_total_recovered b);
    "ReviveX recovered: " +:+ rupees (bm_total_recovered x); "";
    "Incremental recovered revenue: " +:+ rupees (bc_incremental_revenue r);
    "Recovery uplift: " +:+ two_places false (bc_recovery_uplift_percent r) +:+ "%"; "";
    "Baseline recovery rate: " +:+ percent (bm_recovery_rate b);
    "ReviveX recovery rate: " +:+ percent (bm_recovery_rate x); "";
    "Baseline net recovery: " +:+ rupees (bm_net_recovery b);
    "ReviveX net recovery: " +:+ rupees (bm_net_recovery x); "";
    "Recovered cases:"; "  Baseline: " +:+ str_int (Z.of_nat (bm_cases_recovered b));
    "  ReviveX: " +:+ str_int (Z.of_nat (bm_cases_recovered x)); "";
    "Escalated: " +:+ str_int (Z.of_nat (bm_cases_escalated x));
    "Stopped: " +:+ str_int (Z.of_nat (bm_cases_stopped x))].
