(* ===== verification/BatchTheorems.v ===== *)
(** * The strategies compared

    Within the precision of the arithmetic the batch evaluation chooses an action that is
    at least as likely to recover as doing nothing, and since both are played against one
    draw it never recovers less. *)
From S2P Require Import Prelude PyStr Uuid Errors Decimal Rounding PyFloat Random Json Enums Providers Simulator Interventions OptimizerService Inference BatchEvaluation.
Open Scope stdpp_scope.
Open Scope Z_scope.

(** ** Exact arithmetic at a common exponent *)

Lemma coeff_at_mk e c d : coeff_at e (mkDec c d) = c * 10 ^ (d - e).
Proof. done. Qed.

(** A coefficient is no greater at its own exponent than at a smaller one. *)
Lemma abs_le_coeff e c d : e <= d -> Z.abs c <= Z.abs (c * 10 ^ (d - e)).
Proof. intros H. pose proof (pow10_pos (d - e) ltac:(lia)). nia. Qed.

Lemma dec_add_at e x y : e <= d_exp x -> e <= d_exp y -> in_prec (coeff_at e x + coeff_at e y) ->
  d_exp (dec_add x y) = Z.min (d_exp x) (d_exp y) /\ coeff_at e (dec_add x y) = coeff_at e x + coeff_at e y.
Proof.
  intros Hx Hy Hp. unfold dec_add. set (m := Z.min (d_exp x) (d_exp y)).
  assert ((coeff_at m x + coeff_at m y) * 10 ^ (m - e) = coeff_at e x + coeff_at e y) as E.
  { rewrite (coeff_at_shift m e x), (coeff_at_shift m e y) by (unfold m; lia). ring. }
  rewrite fix_prec_small; [split; [done|exact E]|]. cbn [d_int].
  unfold in_prec in Hp. rewrite <- E in Hp. pose proof (abs_le_coeff e (coeff_at m x + coeff_at m y) m ltac:(unfold m; lia)). lia.
Qed.

Lemma dec_sub_at e x y : e <= d_exp x -> e <= d_exp y -> in_prec (coeff_at e x - coeff_at e y) ->
  d_exp (dec_sub x y) = Z.min (d_exp x) (d_exp y) /\ coeff_at e (dec_sub x y) = coeff_at e x - coeff_at e y.
Proof.
  intros Hx Hy Hp. unfold dec_sub. set (m := Z.min (d_exp x) (d_exp y)).
  assert ((coeff_at m x - coeff_at m y) * 10 ^ (m - e) = coeff_at e x - coeff_at e y) as E.
  { rewrite (coeff_at_shift m e x), (coeff_at_shift m e y) by (unfold m; lia). ring. }
  rewrite fix_prec_small; [split; [done|exact E]|]. cbn [d_int].
  unfold in_prec in Hp. rewrite <- E in Hp. pose proof (abs_le_coeff e (coeff_at m x - coeff_at m y) m ltac:(unfold m; lia)). lia.
Qed.

Lemma dec_mul_at e f x y : e <= d_exp x -> f <= d_exp y -> in_prec (coeff_at e x * coeff_at f y) ->
  d_exp (dec_mul x y) = d_exp x + d_exp y /\ coeff_at (e + f) (dec_mul x y) = coeff_at e x * coeff_at f y.
Proof.
  intros Hx Hy Hp. unfold dec_mul.
  assert (d_int x * d_int y * 10 ^ (d_exp x + d_exp y - (e + f)) = coeff_at e x * coeff_at f y) as E.
  { unfold coeff_at. replace (d_exp x + d_exp y - (e + f)) with ((d_exp x - e) + (d_exp y - f)) by lia.
    rewrite Z.pow_add_r by lia. ring. }
  rewrite fix_prec_small; [split; [done|exact E]|]. cbn [d_int].
  unfold in_prec in Hp. rewrite <- E in Hp.
  pose proof (abs_le_coeff (e + f) (d_int x * d_int y) (d_exp x + d_exp y) ltac:(lia)). lia.
Qed.

(** ** Amounts, costs and probabilities *)

(** An amount of cents as a float prints it, below [10 ^ 15]. *)
Definition money_like (a : Decimal) : bool :=
  ((-2 <=? d_exp a) && (d_exp a <=? 0) && (0 <=? d_int a) && (d_int a <? 10 ^ 15))%Z.

Lemma money_like_spec a : money_like a = true ->
  -2 <= d_exp a <= 0 /\ 0 <= coeff_at (-2) a < 10 ^ 17.
Proof.
  unfold money_like. rewrite !andb_true_iff, !Z.leb_le, Z.ltb_lt. intros [[[H1 H2] H3] H4].
  split; [done|]. unfold coeff_at. pose proof (pow10_pos (d_exp a - -2) ltac:(lia)).
  assert (10 ^ (d_exp a - -2) <= 10 ^ 2) by (apply Z.pow_le_mono_r; lia). nia.
Qed.

(** The cost of an action other than a discount does not depend on the amount. *)
Definition flat_cost (a : RecoveryActionType.t) : Z :=
  match a with
  | RecoveryActionType.RETRY_NOW => 2000
  | RecoveryActionType.RETRY_LATER => 600
  | RecoveryActionType.SEND_PAYMENT_LINK => 1250
  | RecoveryActionType.SEND_REMINDER => 1400
  | RecoveryActionType.ESCALATE => 28000
  | _ => 0
  end.
Lemma flat_cost_is a amount : a <> RecoveryActionType.OFFER_DISCOUNT ->
  _action_cost (value a) amount = cents (flat_cost a).
Proof. intros H. destruct a; first [by destruct H | vm_compute; reflexivity]. Qed.

(** Every intervention costs something, doing nothing does not. *)
Lemma action_cost_at (a : RecoveryActionType.t) amount : money_like amount = true ->
  -4 <= d_exp (_action_cost (value a) amount) <= 0
  /\ (a <> RecoveryActionType.DO_NOTHING -> 0 < coeff_at (-4) (_action_cost (value a) amount) < 10 ^ 20)
  /\ (a = RecoveryActionType.DO_NOTHING -> coeff_at (-4) (_action_cost (value a) amount) = 0).
Proof.
  intros Hm. destruct (decide (a = RecoveryActionType.OFFER_DISCOUNT)) as [->|Hne].
  - apply money_like_spec in Hm as [He Hc].
    unfold _action_cost. rewrite of_value_value. change (if mem_str _ _ then cents 150 else cents 0) with (cents 150).
    cbn [action_costs risk_penalties String.eqb]. change (if String.eqb _ _ then ?x else _) with x.
    assert (coeff_at (-2) (cents 5) = 5) as E5 by done.
    destruct (dec_mul_at (-2) (-2) amount (cents 5)) as [Hd Hdc]; [lia|simpl; lia| |].
    { rewrite E5. unfold in_prec, prec. lia. }
    rewrite E5 in Hdc. change (-2 + -2) with (-4) in Hdc. set (discount := dec_mul amount (cents 5)) in *. change (d_exp (cents 5)) with (-2) in Hd.
    assert (coeff_at (-4) (cents 100) = 10000) as E1 by done. assert (coeff_at (-4) (cents 150) = 15000) as E2 by done.
    assert (coeff_at (-4) (cents 4000) = 400000) as E3 by done.
    destruct (dec_add_at (-4) (cents 100) discount) as [Ha Hac]; [simpl; lia|lia|unfold in_prec, prec; lia|].
    set (x := dec_add (cents 100) discount) in *. change (d_exp (cents 100)) with (-2) in Ha.
    destruct (dec_add_at (-4) x (cents 150)) as [Hb Hbc]; [lia|simpl; lia|unfold in_prec, prec; lia|].
    set (y := dec_add x (cents 150)) in *. change (d_exp (cents 150)) with (-2) in Hb.
    destruct (dec_add_at (-4) y (cents 4000)) as [Hf Hfc]; [lia|simpl; lia|unfold in_prec, prec; lia|].
    change (d_exp (cents 4000)) with (-2) in Hf. split_and!; [lia|lia|intros _; lia|discriminate].
  - rewrite flat_cost_is by done. unfold coeff_at, cents. cbn [d_int d_exp].
    split_and!; [lia|lia| |intros ->; reflexivity]. intros Hn. destruct a; first [by destruct Hn|by destruct Hne|simpl; lia].
Qed.

Definition probability_like (p : Decimal) : Prop := -4 <= d_exp p <= 0 /\ 0 <= coeff_at (-4) p <= 9500.

Lemma cents_like n : 0 <= n <= 95 -> probability_like (cents n).
Proof. intros H. unfold probability_like, coeff_at, cents. simpl. lia. Qed.

Lemma clip_like v : exists p, _clip_prob v = Ok p /\ probability_like p.
Proof.
  destruct (clip_bounded v) as (p & E & Hlo & Hhi). exists p. split; [done|].
  assert (-4 <= d_exp p <= 0) as He.
  { revert E. unfold _clip_prob. destruct (dec_ltb v _); [by intros [= <-]|]. destruct (dec_ltb _ v); [by intros [= <-]|].
    intros [-> _]%quantize_exp. lia. }
  split; [done|]. rewrite (dec_leb_at (-4)) in Hlo, Hhi by (simpl; lia). apply Z.leb_le in Hlo, Hhi.
  unfold coeff_at at 1 in Hlo. unfold coeff_at at 2 in Hhi. simpl in Hlo, Hhi. lia.
Qed.

Lemma probability_of ctx (a : RecoveryActionType.t) : exists p, intervention_recovery_probability ctx (value a) = Ok p /\ probability_like p.
Proof.
  unfold intervention_recovery_probability. rewrite (of_value_value a).
  destruct (intervention_terms_total ctx) as (t & -> & _). simpl.
  destruct (in_hard_failures _); [|apply clip_like]. unfold hard_probability.
  assert (exists p, (Ok (cents 1) : result exn Decimal) = Ok p /\ probability_like p) as Hone.
  { exists (cents 1). split; [done|]. apply cents_like. lia. }
  destruct a; try exact Hone; [|apply clip_like]. case_match; [apply clip_like|exact Hone].
Qed.

(** ** The chosen action *)

Lemma each_action_total {A} (f : string -> result exn A) (P : A -> Prop) actions :
  (forall a, a ∈ actions -> exists x, f a = Ok x /\ P x) ->
  exists l, each_action f actions = Ok l /\ l.*1 = actions /\ Forall (fun x => f x.1 = Ok x.2 /\ P x.2) l.
Proof.
  induction actions as [|a actions IH]; intros H; [by exists []|].
  destruct (H a ltac:(left)) as (x & E & Hx). destruct IH as (l & El & Hl & HF); [intros b Hb; apply H; by right|].
  exists ((a, x) :: l). simpl. rewrite E. simpl. rewrite El. split_and!; [done|by simpl; f_equal|by constructor].
Qed.

(** The loop keeps the highest value seen and the action it is of. *)
Lemma best_invariant amount probs best :
  let result := fold_left (better amount) probs best in
  dec_leb best.1 result.1 = true
  /\ Forall (fun x => dec_leb (expected_net_value amount x) result.1 = true) probs
  /\ (result = best \/ exists x, x ∈ probs /\ result = (expected_net_value amount x, Some x.1)).
Proof.
  revert best. induction probs as [|x probs IH]; intros best; simpl; [split_and!; [apply dec_leb_refl|done|by left]|].
  destruct (IH (better amount best x)) as (H1 & H2 & H3).
  assert (dec_leb best.1 (better amount best x).1 = true
    /\ dec_leb (expected_net_value amount x) (better amount best x).1 = true) as [Hb Hx].
  { unfold better. destruct (dec_ltb best.1 (expected_net_value amount x)) eqn:E; simpl; rewrite dec_ltb_leb in E.
    - split; [|apply dec_leb_refl]. apply negb_true_iff in E. destruct (dec_leb_total best.1 (expected_net_value amount x)); [done|congruence].
    - split; [apply dec_leb_refl|]. by apply negb_false_iff in E. }
  split_and!; [by eapply dec_leb_trans| |].
  - constructor; [by eapply dec_leb_trans|done].
  - destruct H3 as [->|(y & Hy & ->)]; [|right; exists y; split; [by right|done]].
    unfold better. destruct (dec_ltb _ _); [right; exists x; split; [left|done]|by left].
Qed.

(** The value of an action in units of [10 ^ -6]. *)
Lemma net_value_at (a : RecoveryActionType.t) p amount : money_like amount = true -> probability_like p ->
  -6 <= d_exp (expected_net_value amount (value a, p)) <= 0
  /\ coeff_at (-6) (expected_net_value amount (value a, p))
     = coeff_at (-4) p * coeff_at (-2) amount - 100 * coeff_at (-4) (_action_cost (value a) amount).
Proof.
  intros Hm [Hpe Hp]. destruct (action_cost_at a amount Hm) as (Hce & Hpos & Hzero).
  apply money_like_spec in Hm as [He Hc].
  assert (0 <= coeff_at (-4) (_action_cost (value a) amount) < 10 ^ 20) as Hcost.
  { destruct (decide (a = RecoveryActionType.DO_NOTHING)) as [E|E]; [rewrite (Hzero E); lia|specialize (Hpos E); lia]. }
  assert (0 <= coeff_at (-4) p * coeff_at (-2) amount <= 9500 * 10 ^ 17) as Hprod by nia.
  unfold expected_net_value. cbn [fst snd].
  destruct (dec_mul_at (-4) (-2) p amount) as [Hd Hv]; [lia|lia|unfold in_prec, prec; lia|].
  change (-4 + -2) with (-6) in Hv. set (gain := dec_mul p amount) in *. set (cost := _action_cost (value a) amount) in *.
  assert (coeff_at (-6) cost = 100 * coeff_at (-4) cost) as Ec.
  { rewrite (coeff_at_shift (-4) (-6)) by lia. change (10 ^ (-4 - -6)) with 100. lia. }
  destruct (dec_sub_at (-6) gain cost) as [Hs Hsv]; [lia|lia|unfold in_prec, prec; lia|].
  split; [lia|]. by rewrite Hsv, Hv, Ec.
Qed.

(** The probabilities the heuristic mode scores the actions with. *)
Lemma heuristics_total ctx :
  exists l, heuristic_probabilities ctx = Ok l /\ l.*1 = SCORABLE_ACTIONS
    /\ Forall (fun x => intervention_recovery_probability ctx x.1 = Ok x.2 /\ probability_like x.2) l.
Proof.
  apply each_action_total. intros action Ha. apply list_elem_of_fmap in Ha as (a & -> & _). apply probability_of.
Qed.

(** The strategy takes an action with at least the chance of doing nothing. *)
Lemma chosen_is_likelier ctx l : money_like (iv_amount ctx) = true -> heuristic_probabilities ctx = Ok l ->
  exists (a : RecoveryActionType.t) p q, best_action (iv_amount ctx) l = Some (value a)
    /\ intervention_recovery_probability ctx (value a) = Ok p /\ probability_like p
    /\ intervention_recovery_probability ctx _baseline_strategy = Ok q /\ probability_like q
    /\ coeff_at (-4) q <= coeff_at (-4) p.
Proof.
  intros Hm El. destruct (heuristics_total ctx) as (l' & El' & Hnames & Hall). rewrite El in El'. injection El' as <-.
  set (amount := iv_amount ctx) in *. rewrite list.Forall_forall in Hall.
  assert (_baseline_strategy ∈ l.*1) as Hin by (rewrite Hnames; apply (bool_decide_unpack _); by vm_compute).
  apply list_elem_of_fmap in Hin as ([b q] & Hb & Hbl). cbn [fst] in Hb. subst b.
  destruct (Hall _ Hbl) as [Hq Hql]. cbn [fst snd] in Hq, Hql.
  pose proof (best_invariant amount l (dec_of_Z (-999999), None)) as (_ & Hge & Hres).
  rewrite list.Forall_forall in Hge. pose proof (Hge _ Hbl) as Hbest. unfold best_action.
  destruct (net_value_at RecoveryActionType.DO_NOTHING q amount Hm Hql) as [Hqe Hqv].
  destruct (action_cost_at RecoveryActionType.DO_NOTHING amount Hm) as (_ & _ & Hfree).
  rewrite (Hfree eq_refl) in Hqv. destruct (money_like_spec amount Hm) as [_ Hamount].
  destruct Hql as [Hql1 Hql2]. unfold _baseline_strategy in *.
  destruct Hres as [Eres|(x & Hx & Eres)]; rewrite Eres in Hbest |- *; cbn [fst snd] in *.
  - exfalso. rewrite (dec_leb_at (-6)) in Hbest by first [lia|done]. apply Z.leb_le in Hbest.
    change (coeff_at (-6) (dec_of_Z (-999999))) with (-999999000000) in Hbest. nia.
  - destruct (Hall _ Hx) as [Hp Hpl]. assert (x.1 ∈ SCORABLE_ACTIONS) as Hs by (rewrite <- Hnames; by apply list_elem_of_fmap_2).
    apply list_elem_of_fmap in Hs as (a & Ea & _). destruct x as [name p]. cbn [fst snd] in Ea, Hp, Hpl. subst name.
    exists a, p, q. split_and!; [done..|].
    destruct (net_value_at a p amount Hm Hpl) as [Hpe Hpv]. destruct (action_cost_at a amount Hm) as (_ & Hcost & _).
    destruct (decide (a = RecoveryActionType.DO_NOTHING)) as [->|Hne].
    { rewrite Hp in Hq. injection Hq as ->. lia. }
    specialize (Hcost Hne). rewrite (dec_leb_at (-6)) in Hbest by lia.
    apply Z.leb_le in Hbest. rewrite Hqv, Hpv in Hbest.
    assert (coeff_at (-4) q * coeff_at (-2) amount < coeff_at (-4) p * coeff_at (-2) amount) by lia. nia.
Qed.

(** ** One case *)

(** A case of [generate_cases] as far as the evaluation depends on it. *)
Definition well_formed (c : GeneratedCase) : bool :=
  match of_value (A := FailureReason.t) (gc_failure_reason c) with Some _ => money_like (gc_amount c) | None => false end.

Lemma context_of_case c : well_formed c = true ->
  exists ctx, _intervention_context_from_case c = Ok ctx /\ iv_amount ctx = gc_amount c /\ money_like (gc_amount c) = true.
Proof.
  unfold well_formed, _intervention_context_from_case. destruct (of_value _); [|done]. intros H. eexists. done.
Qed.

Lemma draw_below_likelier draw p q : 0 <= draw -> probability_like p -> probability_like q ->
  coeff_at (-4) q <= coeff_at (-4) p -> draw_below draw q = true -> draw_below draw p = true.
Proof.
  intros Hd [Hpe Hp] [Hqe Hq] Hle. apply draw_below_mono; [done| | |].
  - unfold coeff_at in Hq. pose proof (pow10_pos (d_exp q - -4) ltac:(lia)). nia.
  - rewrite (dec_leb_at (-4)) by lia. by apply Z.leb_le.
  - rewrite (dec_leb_at (-4)) by (simpl; lia). apply Z.leb_le. unfold coeff_at at 2. simpl. lia.
Qed.

(** What the two strategies do with a case. *)
Definition outdone (b r : CaseEvaluationResult) : Prop :=
  (ev_recovered b = true -> ev_recovered r = true)
  /\ money_like (ev_amount_at_risk b) = true
  /\ ev_recovered_amount b = (if ev_recovered b then ev_amount_at_risk b else cents 0)
  /\ ev_recovered_amount r = (if ev_recovered r then ev_amount_at_risk b else cents 0).

Lemma simulated c ctx action p draw :
  _intervention_context_from_case c = Ok ctx -> intervention_recovery_probability ctx action = Ok p ->
  exists status, _simulate_outcome c action draw
    = Ok (draw_below draw p, if draw_below draw p then iv_amount ctx else cents 0, status).
Proof. intros Ectx Ep. unfold _simulate_outcome, mbind, result_bind. rewrite Ectx, Ep. by eexists. Qed.

Lemma case_outdone predictor seed c : well_formed c = true -> exists b r,
  _evaluate_case predictor c "baseline" seed "heuristic" = Ok b
  /\ _evaluate_case predictor c "revivex" seed "heuristic" = Ok r /\ outdone b r.
Proof.
  intros (ctx & Ectx & Eamount & Hm)%context_of_case. set (draw := _deterministic_rng seed (gc_case_id c)).
  destruct (heuristics_total ctx) as (l & El & _). pose proof Hm as Hm'. rewrite <- Eamount in Hm'.
  destruct (chosen_is_likelier ctx l Hm' El) as (a & p & q & Ebest & Ep & Hp & Eq & Hq & Hle).
  assert (0 <= draw) as Hdraw by (apply N2Z.is_nonneg).
  pose proof (draw_below_likelier draw p q Hdraw Hp Hq Hle) as Hmono.
  destruct (simulated c ctx (value a) p draw Ectx Ep) as [sa Ea].
  destruct (simulated c ctx _baseline_strategy q draw Ectx Eq) as [sb Eb].
  assert (_revivex_strategy predictor c "heuristic" = Ok (value a, "heuristic")) as Estrategy.
  { unfold _revivex_strategy, strategy_probabilities, mbind, result_bind. rewrite Ectx.
    change (String.eqb "heuristic" "ml") with false. cbv iota. rewrite El.
    unfold mret, result_ret. cbv beta iota. by rewrite Ebest. }
  unfold _evaluate_case, mbind, result_bind. fold draw. rewrite Estrategy.
  change (String.eqb "baseline" "baseline") with true. change (String.eqb "revivex" "baseline") with false.
  change (String.eqb "revivex" "revivex") with true. cbv iota beta. unfold mret, result_ret. rewrite Ea, Eb.
  eexists _, _. split; [reflexivity|]. split; [reflexivity|]. unfold outdone.
  cbn [ev_recovered ev_recovered_amount ev_amount_at_risk]. by rewrite Eamount.
Qed.

Lemma cases_outdone predictor seed cases : forallb well_formed cases = true -> exists bs rs,
  evaluate_cases predictor "baseline" seed "heuristic" cases = Ok bs
  /\ evaluate_cases predictor "revivex" seed "heuristic" cases = Ok rs
  /\ Forall2 outdone bs rs /\ length bs = length cases.
Proof.
  induction cases as [|c cases IH]; cbn [forallb]; [intros _; by exists [], []|].
  intros [Hc H]%andb_true_iff. destruct (case_outdone predictor seed c Hc) as (b & r & Eb & Er & Hbr).
  destruct (IH H) as (bs & rs & Ebs & Ers & Hall & Hlen). exists (b :: bs), (r :: rs). cbn [evaluate_cases].
  rewrite Eb, Er. simpl. rewrite Ebs, Ers. simpl. split_and!; [done|done|by constructor|by f_equal].
Qed.

(** ** Totals *)

Definition total_cents (l : list Decimal) : Z := foldr (fun a n => coeff_at (-2) a + n) 0 l.

Lemma dec_sum_from l acc n : -2 <= d_exp acc <= 0 -> 0 <= coeff_at (-2) acc <= n * 10 ^ 17 -> 0 <= n ->
  n + Z.of_nat (length l) <= 10 ^ 10 -> Forall (fun a => money_like a = true) l ->
  -2 <= d_exp (fold_left dec_add l acc) <= 0
  /\ coeff_at (-2) (fold_left dec_add l acc) = coeff_at (-2) acc + total_cents l.
Proof.
  intros He Hc Hn Hlen Hall. revert acc n He Hc Hn Hlen. induction Hall as [|a l Ha _ IH]; intros acc n He Hc Hn Hlen; simpl; [lia|].
  apply money_like_spec in Ha as [Hae Hac]. cbn [length] in Hlen.
  destruct (dec_add_at (-2) acc a) as [Hd Hv]; [lia|lia|unfold in_prec, prec; nia|].
  destruct (IH (dec_add acc a) (n + 1)) as [H1 H2]; [lia|nia|lia|lia|]. split; [done|]. rewrite H2, Hv. lia.
Qed.

Lemma dec_sum_cents l : Forall (fun a => money_like a = true) l -> Z.of_nat (length l) <= 10 ^ 10 ->
  -2 <= d_exp (dec_sum l) <= 0 /\ coeff_at (-2) (dec_sum l) = total_cents l.
Proof.
  intros H Hl. destruct (dec_sum_from l (dec_of_Z 0) 0) as [H1 H2]; [simpl; lia|done|lia|lia|done|].
  split; [exact H1|]. exact H2.
Qed.

Lemma total_cents_bound l : Forall (fun a => money_like a = true) l -> 0 <= total_cents l <= Z.of_nat (length l) * 10 ^ 17.
Proof.
  induction 1 as [|a l Ha _ IH]; [simpl; lia|]. apply money_like_spec in Ha as [_ Ha]. cbn [total_cents foldr length].
  fold (total_cents l). lia.
Qed.

Lemma recovered_like (rec : bool) a : money_like a = true -> money_like (if rec then a else cents 0) = true.
Proof. intros H. by destruct rec. Qed.

Lemma totals_outdone bs rs : Forall2 outdone bs rs ->
  Forall (fun a => money_like a = true) (map ev_recovered_amount bs)
  /\ Forall (fun a => money_like a = true) (map ev_recovered_amount rs)
  /\ total_cents (map ev_recovered_amount bs) <= total_cents (map ev_recovered_amount rs)
  /\ (count_if ev_recovered bs <= count_if ev_recovered rs)%nat.
Proof.
  induction 1 as [|b r bs rs (Hrec & Hm & Eb & Er) _ (IH1 & IH2 & IH3 & IH4)]; [by split_and!|].
  cbn [map total_cents foldr]. fold (total_cents (map ev_recovered_amount bs)). fold (total_cents (map ev_recovered_amount rs)).
  rewrite Eb, Er. split_and!; [constructor; [by apply recovered_like|done]..| |].
  - apply Z.add_le_mono; [|done]. destruct (ev_recovered b).
    + by rewrite Hrec.
    + change (coeff_at (-2) (cents 0)) with 0. apply (money_like_spec _ (recovered_like (ev_recovered r) _ Hm)).
  - unfold count_if in *. cbn [List.filter]. destruct (ev_recovered b) eqn:E; [rewrite (Hrec eq_refl); simpl; lia|].
    destruct (ev_recovered r); simpl; lia.
Qed.

Lemma metrics_total results : exists m, _compute_metrics results = Ok m
  /\ bm_total_recovered m = dec_sum (map ev_recovered_amount results)
  /\ bm_cases_recovered m = count_if ev_recovered results.
Proof.
  unfold _compute_metrics. destruct (dec_ltb _ (dec_sum (map ev_amount_at_risk results))) eqn:E.
  - destruct (dec_div_total (dec_sum (map ev_recovered_amount results)) _ (positive_nonzero _ E)) as [q ->]. by eexists.
  - by eexists.
Qed.

(** C19. In the heuristic mode the comparison always completes, and ReviveX never recovers less
    than doing nothing: the action it takes is at least as likely to recover the case, and
    both are decided by the same draw. So its recovered cases are at least as many, its
    recovered total at least as high, and the incremental revenue never negative. *)
Theorem heuristic_never_recovers_less predictor n_cases seed cases :
  forallb well_formed cases = true -> Z.of_nat (length cases) <= 10 ^ 10 ->
  exists r, evaluate_batch predictor n_cases seed "heuristic" cases = Ok r
    /\ dec_leb (bm_total_recovered (bc_baseline_metrics r)) (bm_total_recovered (bc_revivex_metrics r)) = true
    /\ (bm_cases_recovered (bc_baseline_metrics r) <= bm_cases_recovered (bc_revivex_metrics r))%nat
    /\ dec_leb (dec_of_Z 0) (bc_incremental_revenue r) = true.
Proof.
  intros Hall Hlen. destruct (cases_outdone predictor seed cases Hall) as (bs & rs & Eb & Er & H2 & Hbs).
  destruct (totals_outdone bs rs H2) as (Hb & Hr & Htotal & Hcount). pose proof (Forall2_length H2) as Hrs.
  destruct (metrics_total bs) as (mb & Emb & Etb & Ecb). destruct (metrics_total rs) as (mr & Emr & Etr & Ecr).
  unfold evaluate_batch. rewrite Eb. simpl. rewrite Emb. simpl. rewrite Er. simpl. rewrite Emr. simpl.
  destruct (dec_sum_cents _ Hb) as [Heb Hvb]; [rewrite length_map; lia|].
  destruct (dec_sum_cents _ Hr) as [Her Hvr]; [rewrite length_map; lia|]. rewrite <- Etb in Heb, Hvb. rewrite <- Etr in Her, Hvr.
  pose proof (total_cents_bound _ Hb) as Bb. pose proof (total_cents_bound _ Hr) as Br. rewrite length_map in Bb, Br.
  destruct (dec_sub_at (-2) (bm_total_recovered mr) (bm_total_recovered mb)) as [Hde Hdv];
    [lia|lia|unfold in_prec, prec; nia|].
  set (gain := dec_sub (bm_total_recovered mr) (bm_total_recovered mb)) in *.
  assert (dec_leb (bm_total_recovered mb) (bm_total_recovered mr) = true
    /\ dec_leb (dec_of_Z 0) gain = true) as [H3 H4].
  { rewrite !(dec_leb_at (-2)) by first [lia|done]. rewrite !Z.leb_le. change (coeff_at (-2) (dec_of_Z 0)) with 0. lia. }
  assert ((bm_cases_recovered mb <= bm_cases_recovered mr)%nat) as H5 by (rewrite Ecb, Ecr; done).
  destruct (dec_ltb (dec_of_Z 0) (bm_total_recovered mb)) eqn:E.
  - destruct (dec_div_total gain _ (positive_nonzero _ E)) as [q ->]. simpl. by eexists.
  - simpl. by eexists.
Qed.

(** ** A batch evaluated *)

Definition some_case (n : Z) (reason : string) (amount : Decimal) : GeneratedCase :=
  mk_GeneratedCase ("case_42_" +:+ str_int n) ("cust_42_" +:+ str_int n) "RETAIL" amount "CARD" "HDFC" reason 1
    (mkDec 75 (-2)) (mkDec 4 (-1)) (mkDec 120005 (-1)) (mkDec 35 (-1)) None None "NONE" 2 (mkDec 15 (-1)) (mkDec 2 (-1))
    12 3 "LOYAL" "FAILED_PAYMENT" 1 3.
Definition some_batch : list GeneratedCase :=
  [some_case 0 "TEMPORARY_BANK_ERROR" (mkDec 14995 (-1)); some_case 1 "EXPIRED_CARD" (mkDec 25005 (-1));
   some_case 2 "INSUFFICIENT_FUNDS" (mkDec 4200 (-1)); some_case 3 "CUSTOMER_CANCELLED" (mkDec 9000 (-1))].
Definition no_model (fields : dict) (action : string) : result predictor_error RecoveryProbability :=
  Raise (InferenceError "MODEL_UNAVAILABLE" "No trained recovery model is available").

Lemma heuristic_never_recovers_less_witness : exists r,
  evaluate_batch no_model 4 42 "heuristic" some_batch = Ok r
  /\ dec_leb (bm_total_recovered (bc_baseline_metrics r)) (bm_total_recovered (bc_revivex_metrics r)) = true.
Proof.
  destruct (heuristic_never_recovers_less no_model 4 42 some_batch eq_refl ltac:(vm_compute; discriminate)) as (r & E & H & _).
  exists r. exact (conj E H).
Defined.

(** Without a model the rules decide in the [ml] mode too. *)
Example batch_without_a_model :
  match evaluate_batch no_model 4 42 "ml" some_batch with
  | Ok r => Some (map (fun d => (dict_get "revivex_action" d, dict_get "revivex_outcome" d, dict_get "baseline_outcome" d))
                    (bc_case_results r),
                  two_places true (bc_incremental_revenue r), bc_heuristic_fallback_count r)
  | Raise _ => None
  end
  = Some ([(JStr "RETRY_NOW", JStr "RECOVERED", JStr "STOPPED"); (JStr "SEND_PAYMENT_LINK", JStr "RECOVERED", JStr "STOPPED");
           (JStr "SEND_PAYMENT_LINK", JStr "FAILED", JStr "STOPPED"); (JStr "DO_NOTHING", JStr "STOPPED", JStr "STOPPED")],
          "4,000.00", 4%nat).
Proof. vm_compute. reflexivity. Qed.
