(* ===== verification/DataSplit.v ===== *)
(** * Splitting cases by customer

    [recoverai_eval/data/split.py]: the customers are shuffled by a seeded generator and
    dealt to training, validation and test, and each row goes where its customer is.  The
    generator is Python's, with the rejection of [randrange]: the number of rejections in a
    row is bounded, and the shuffle has no answer when it is exceeded. *)
From S2P Require Import Prelude PyStr Uuid Errors Decimal Sorting Rounding PyFloat Random Json Inference Agents.
From Stdlib Require Import Sorted.
Open Scope stdpp_scope.

(** ** The generator beyond its first outputs *)

Definition temper (x : N) : N :=
  let x := N.lxor x (N.shiftr x 11) in
  let x := N.lxor x (N.land (N.shiftl x 7) 0x9D2C5680) in
  let x := N.lxor x (N.land (N.shiftl x 15) 0xEFC60000) in
  N.lxor x (N.shiftr x 18).

(** A word of the next state, from two neighbours of the old one and the word 397 ahead. *)
Definition twisted (old next ahead : N) : N :=
  let y := N.lor (N.land old 0x80000000) (N.land next 0x7FFFFFFF) in
  N.lxor (N.lxor ahead (N.shiftr y 1)) (if N.odd y then 0x9908B0DF else 0)%N.

(** The words from those of the old state and those ahead, as far as both go. *)
Fixpoint twist_along (old ahead : list N) : list N :=
  match old, ahead with
  | x :: ((y :: _) as old), a :: ahead => twisted x y a :: twist_along old ahead
  | _, _ => []
  end.

(** The next 624 words: the last 397 are made of the first ones. *)
Definition twist (mt : list N) : list N :=
  let first := twist_along mt (drop 397 mt) in
  let second := twist_along (drop 227 mt) first in
  let third := twist_along (drop 454 mt) second in
  let words := first ++ second ++ third in
  words ++ [twisted (nthw mt 623) (nthw words 0) (nthw words 396)].

(** The words of the state, and those not yet given out. *)
Record Twister : Type := mk_Twister { tw_words : list N; tw_rest : list N }.
Definition seeded (seed : Z) : Twister := mk_Twister (init_by_array (int_seed_words (Z.abs_N seed))) [].

Definition genrand (g : Twister) : N * Twister :=
  match tw_rest g with
  | x :: rest => (temper x, mk_Twister (tw_words g) rest)
  | [] => let words := twist (tw_words g) in (temper (nthw words 0), mk_Twister words (tail words))
  end.

(** [getrandbits(k)] for [k <= 32]. *)
Definition getrandbits (k : N) (g : Twister) : N * Twister :=
  let '(x, g) := genrand g in (N.shiftr x (32 - k), g).

(** [_randbelow(n)], with so many draws. *)
Fixpoint randbelow (draws : nat) (n : N) (g : Twister) : option (N * Twister) :=
  match draws with
  | O => None
  | S draws =>
      let '(r, g) := getrandbits (N.size n) g in
      if (r <? n)%N then Some (r, g) else randbelow draws n g
  end.
Definition max_draws : nat := 256.

Section Shuffle.
Context {A : Type}.

Definition swap (i j : nat) (l : list A) : list A :=
  match l !! i, l !! j with Some x, Some y => <[j:=x]> (<[i:=y]> l) | _, _ => l end.

(** [for i in reversed(range(1, i + 1)): ...] *)
Fixpoint shuffle_from (i : nat) (l : list A) (g : Twister) : option (list A) :=
  match i with
  | O => Some l
  | S i' =>
      '(j, g) ← randbelow max_draws (N.of_nat (S i)) g;
      shuffle_from i' (swap i (N.to_nat j) l) g
  end.

(** [random.Random(seed).shuffle(l)] *)
Definition shuffle (seed : Z) (l : list A) : option (list A) := shuffle_from (length l - 1) l (seeded seed).

Lemma swap_perm i j l : swap i j l ≡ₚ l.
Proof. unfold swap. destruct (l !! i) eqn:Hi; [|done]. destruct (l !! j) eqn:Hj; [|done]. by apply Permutation_insert_swap. Qed.

Lemma shuffle_from_perm i l g l' : shuffle_from i l g = Some l' -> l' ≡ₚ l.
Proof.
  revert l g. induction i as [|i IH]; intros l g; [by intros [= ->]|]. cbn [shuffle_from].
  destruct (randbelow _ _ g) as [[j g']|]; [|done]. intros H. etrans; [by eapply IH|apply swap_perm].
Qed.

Lemma shuffle_perm seed l l' : shuffle seed l = Some l' -> l' ≡ₚ l.
Proof. apply shuffle_from_perm. Qed.
End Shuffle.

Example shuffle_ex : shuffle 42 (seq 0 10) = Some [7; 3; 2; 8; 5; 6; 9; 4; 0; 1]%nat.
Proof. vm_compute. reflexivity. Qed.
(** Enough draws to twist the state again. *)
Example shuffle_long : take 10 <$> shuffle 7 (seq 0 1000) = Some [878; 857; 349; 313; 382; 850; 927; 194; 261; 946]%nat.
Proof. vm_compute. reflexivity. Qed.

(** ** [split_by_customer] *)

(** [int(n * ratio)] of an integer and a float that is not negative. *)
Definition int_times (n : Z) (ratio : Decimal) : Z :=
  if ((n =? 0) || (d_int ratio =? 0))%Z then 0%Z
  else
    let x := double_of (dec_of_Z n) in
    let y := double_of ratio in
    let p := nearest_double (numerator x * numerator y) (denominator x * denominator y) in
    (numerator p / denominator p)%Z.

Example int_times_ex : map (fun n => (int_times n (mkDec 7 (-1)), int_times n (mkDec 15 (-2)))) [3; 4; 7; 10; 100; 1000]%Z
  = [(2, 0); (2, 0); (4, 1); (7, 1); (70, 15); (700, 150)]%Z.
Proof. vm_compute. reflexivity. Qed.

Definition train_ratio : Decimal := mkDec 7 (-1).
Definition val_ratio : Decimal := mkDec 15 (-2).

Record Buckets : Type := mk_Buckets {
  bucket_train : list dict;
  bucket_validation : list dict;
  bucket_test : list dict;
}.

(** [str(row["customer_id"])] *)
Definition customer_of (row : dict) : result exn string := v ← item "customer_id" row; mret (py_str v).

Fixpoint customers_of (rows : list dict) : result exn (list string) :=
  match rows with
  | [] => mret []
  | row :: rows => c ← customer_of row; cs ← customers_of rows; mret (c :: cs)
  end.

(** [sorted({...})] *)
Definition sorted_set (l : list string) : list string := sort_by String.compare (remove_dups l).

(** [copied["split"] = split] for the rows of a side. *)
Definition bucket_of (side : string -> string) (name : string) (rows : list dict) : list dict :=
  map (dict_set "split" (JStr name))
    (List.filter (fun row => match customer_of row with Ok c => String.eqb (side c) name | Raise _ => false end) rows).

Definition INVALID_SPLIT (message : string) : exn := ModelQualityError "INVALID_SPLIT" message.

Definition split_by_customer (rows : list dict) (seed : Z) (train_ratio val_ratio : Decimal)
  : option (result exn Buckets) :=
  match customers_of rows with
  | Raise e => Some (Raise e)
  | Ok names =>
      let customers := sorted_set names in
      if (length customers <? 3)%nat
      then Some (Raise (INVALID_SPLIT "Need at least 3 customers to split without leakage"))
      else
        rng_customers ← shuffle seed customers;
        let n := Z.of_nat (length rng_customers) in
        let n_train := Z.max 1 (int_times n train_ratio) in
        let n_val := Z.max 1 (int_times n val_ratio) in
        let n_val := if (n <=? n_train + n_val)%Z then Z.max 1 (n - n_train - 1) else n_val in
        let train_set := take (Z.to_nat n_train) rng_customers in
        let val_set := take (Z.to_nat n_val) (drop (Z.to_nat n_train) rng_customers) in
        let test_set := drop (Z.to_nat (n_train + n_val)) rng_customers in
        Some
          (match test_set with
           | [] => Raise (INVALID_SPLIT "Held-out customer set is empty")
           | _ =>
               if existsb (fun c => mem_str c val_set || mem_str c test_set) train_set
                  || existsb (fun c => mem_str c test_set) val_set
               then Raise (INVALID_SPLIT "Customer overlap across splits")
               else
                 let side c := if mem_str c train_set then "train"
                               else if mem_str c val_set then "validation" else "test" in
                 let buckets := mk_Buckets (bucket_of side "train" rows) (bucket_of side "validation" rows)
                                  (bucket_of side "test" rows) in
                 match bucket_train buckets, bucket_validation buckets, bucket_test buckets with
                 | _ :: _, _ :: _, _ :: _ => Ok buckets
                 | _, _, _ => Raise (INVALID_SPLIT "A split received zero rows")
                 end
           end)
  end.

(** The identifiers of the cases of a bucket; [split_ids] has those of the three. *)
Definition ids_of (rows : list dict) : result exn (list string) :=
  ids ← foldr (fun row acc => v ← item "case_id" row; ids ← acc; mret (py_str v :: ids)) (mret []) rows;
  mret (sorted_set ids).
Definition split_ids (b : Buckets) : result exn (list (string * list string)) :=
  train ← ids_of (bucket_train b); validation ← ids_of (bucket_validation b); test ← ids_of (bucket_test b);
  mret [("train", train); ("validation", validation); ("test", test)].

Definition row_of (case customer : string) : dict := [("case_id", JStr case); ("customer_id", JStr customer)].

Example four_customers :
  (fun r => b ← r; split_ids b) <$> split_by_customer
     [row_of "a" "w"; row_of "b" "x"; row_of "c" "y"; row_of "d" "z"; row_of "e" "w"] 42 train_ratio val_ratio
  = Some (Ok [("train", ["b"; "c"]); ("validation", ["d"]); ("test", ["a"; "e"])]).
Proof. vm_compute. reflexivity. Qed.

(** ** How many customers train *)

Lemma le_div_mul a b q : (0 < b)%Z -> (q <= a / b)%Z -> (q * b <= a)%Z.
Proof. intros Hb Hq. pose proof (Z.mul_div_le a b Hb). nia. Qed.

(** Rounding to a double adds at most one part in [2 ^ 53]. *)
Lemma nearest_double_upper n m : (0 < n)%Z -> (0 < m)%Z ->
  (numerator (nearest_double n m) * m * 2 ^ 53 <= n * denominator (nearest_double n m) * (2 ^ 53 + 1))%Z.
Proof.
  intros Hn Hm. pose proof (Z.log2_spec n Hn) as Hln. pose proof (Z.log2_spec m Hm) as Hlm.
  pose proof (Z.log2_nonneg n) as Hn0. pose proof (Z.log2_nonneg m) as Hm0.
  unfold nearest_double. set (s := (53 + Z.log2 m - Z.log2 n)%Z).
  set (a := fun s => (n * 2 ^ Z.max s 0)%Z). set (b := fun s => (m * 2 ^ Z.max (- s) 0)%Z).
  assert (forall s, (if (0 <=? s)%Z then (n * 2 ^ s, m)%Z else (n, m * 2 ^ (- s))%Z) = (a s, b s)) as Hscaled.
  { intros t. unfold a, b. destruct (Z.leb_spec 0 t).
    - rewrite (Z.max_l t 0), (Z.max_r (- t) 0), Z.mul_1_r by lia. done.
    - rewrite (Z.max_r t 0), (Z.max_l (- t) 0), Z.mul_1_r by lia. done. }
  rewrite !Hscaled. cbv zeta iota beta.
  assert (forall s, (0 < b s)%Z) as Hb by (intros t; unfold b; pose proof (Z.pow_pos_nonneg 2 (Z.max (- t) 0)); nia).
  assert (2 ^ 52 * b s <= a s)%Z as Hfirst.
  { unfold a, b. assert (2 ^ Z.log2 n * 2 ^ Z.max s 0 = 2 ^ 52 * 2 ^ Z.succ (Z.log2 m) * 2 ^ Z.max (- s) 0)%Z as E
      by (rewrite <- !Z.pow_add_r by lia; f_equal; unfold s; lia).
    pose proof (Z.pow_pos_nonneg 2 (Z.max s 0)). pose proof (Z.pow_pos_nonneg 2 (Z.max (- s) 0)). nia. }
  set (t := if (2 ^ 53 <=? a s / b s)%Z then (s - 1)%Z else s).
  assert (2 ^ 52 * b t <= a t)%Z as Hlow.
  { unfold t. destruct (Z.leb_spec (2 ^ 53) (a s / b s)) as [Hbig|]; [|done].
    assert (2 ^ 53 * b s <= a s)%Z as Hge by (by apply le_div_mul).
    unfold a, b in *. destruct (Z.le_gt_cases 1 s).
    - rewrite (Z.max_l s 0), (Z.max_r (- s) 0) in Hge by lia. rewrite (Z.max_l (s - 1) 0), (Z.max_r (- (s - 1)) 0) by lia.
      replace (2 ^ s)%Z with (2 * 2 ^ (s - 1))%Z in Hge by (rewrite <- Z.pow_succ_r by lia; f_equal; lia). lia.
    - rewrite (Z.max_r s 0), (Z.max_l (- s) 0) in Hge by lia. rewrite (Z.max_r (s - 1) 0), (Z.max_l (- (s - 1)) 0) by lia.
      replace (2 ^ (- (s - 1)))%Z with (2 * 2 ^ (- s))%Z by (rewrite <- Z.pow_succ_r by lia; f_equal; lia). lia. }
  unfold numerator, denominator. cbn [fl_mantissa fl_shift].
  destruct (div_half_even_spec (a t) (b t) (Hb t)) as [Hround _]. set (q := div_half_even (a t) (b t)) in *.
  assert (q * b t * 2 ^ 53 <= a t * (2 ^ 53 + 1))%Z as Hq.
  { assert (2 * (b t * q) <= 2 * a t + b t)%Z by lia. lia. }
  unfold a, b in Hq. pose proof (Z.pow_pos_nonneg 2 (Z.max t 0)). pose proof (Z.pow_pos_nonneg 2 (Z.max (- t) 0)). lia.
Qed.

Lemma double_pos n m : (0 < n)%Z -> (0 < m)%Z -> (0 <= numerator (nearest_double n m))%Z /\ (0 < denominator (nearest_double n m))%Z.
Proof. intros Hn Hm. split; [apply numerator_nonneg, nearest_double_nonneg; lia|apply denominator_pos]. Qed.

Lemma product_below nx dx ny dy np dp n : (0 < dx)%Z -> (0 < dy)%Z -> (0 < dp)%Z -> (0 <= nx)%Z -> (0 <= ny)%Z -> (4 <= n)%Z ->
  (nx * 2 ^ 53 <= n * dx * (2 ^ 53 + 1))%Z -> (10 * ny <= 7 * dy)%Z ->
  (np * (dx * dy) * 2 ^ 53 <= nx * ny * dp * (2 ^ 53 + 1))%Z -> (np < (n - 1) * dp)%Z.
Proof.
  intros Hdx Hdy Hdp Hnx Hny Hn H1 H2 H3. set (K := (dx * dy)%Z) in *. assert (0 < K)%Z by (unfold K; nia).
  assert (nx * ny * 10 * 2 ^ 53 <= 7 * n * K * (2 ^ 53 + 1))%Z as H4.
  { assert (nx * 2 ^ 53 * (10 * ny) <= n * dx * (2 ^ 53 + 1) * (7 * dy))%Z by (apply Z.mul_le_mono_nonneg; lia).
    unfold K. lia. }
  assert (np * K * 10 * 2 ^ 106 <= 7 * n * K * dp * (2 ^ 53 + 1) ^ 2)%Z as H5.
  { assert (nx * ny * 10 * 2 ^ 53 * (dp * (2 ^ 53 + 1)) <= 7 * n * K * (2 ^ 53 + 1) * (dp * (2 ^ 53 + 1)))%Z
      by (apply Z.mul_le_mono_nonneg_r; lia). lia. }
  assert (7 * n * (2 ^ 53 + 1) ^ 2 < 10 * (n - 1) * 2 ^ 106)%Z as H6 by lia.
  assert (7 * n * (2 ^ 53 + 1) ^ 2 * (K * dp) < 10 * (n - 1) * 2 ^ 106 * (K * dp))%Z as H7 by (apply Z.mul_lt_mono_pos_r; nia).
  assert (np * K < (n - 1) * dp * K)%Z by lia. nia.
Qed.

Lemma nearest_double_zero m : (0 < m)%Z -> numerator (nearest_double 0 m) = 0%Z.
Proof.
  intros Hm. assert (forall b, (0 < b)%Z -> div_half_even 0 b = 0%Z) as H0.
  { intros b Hb. pose proof (div_half_even_exact 0 b Hb) as H. by rewrite Z.mul_0_l in H. }
  unfold nearest_double. set (s := (53 + Z.log2 m - Z.log2 0)%Z). rewrite !Z.mul_0_l.
  assert (0 <= s)%Z as Hs by (unfold s; pose proof (Z.log2_nonneg m); simpl; lia).
  rewrite (proj2 (Z.leb_le 0 s) Hs). cbv zeta iota beta. rewrite Z.div_0_l by lia.
  change (2 ^ 53 <=? 0)%Z with false. cbv iota. rewrite (proj2 (Z.leb_le 0 s) Hs), H0 by done. done.
Qed.

(** Of four customers or more at least two are left for the other sides. *)
Lemma training_leaves_two n : (4 <= n)%Z -> (int_times n train_ratio <= n - 2)%Z.
Proof.
  intros Hn. unfold int_times. rewrite (proj2 (Z.eqb_neq n 0)) by lia. change (d_int train_ratio =? 0)%Z with false.
  cbn [orb]. cbv zeta. set (y := double_of train_ratio).
  assert (double_of (dec_of_Z n) = nearest_double n 1) as ->.
  { unfold double_of. cbn [d_int d_exp dec_of_Z]. rewrite (proj2 (Z.eqb_neq n 0)) by lia. unfold scale10. simpl.
    by rewrite Z.mul_1_r. }
  set (x := nearest_double n 1). set (p := nearest_double (numerator x * numerator y) (denominator x * denominator y)).
  assert (0 < numerator y)%Z as Hny by (vm_compute; reflexivity). assert (10 * numerator y <= 7 * denominator y)%Z as Hy by (vm_compute; discriminate).
  assert (0 < denominator y)%Z as Hdy by apply denominator_pos. assert (0 < denominator x)%Z as Hdx by apply denominator_pos.
  pose proof (nearest_double_upper n 1 ltac:(lia) ltac:(lia)) as Hx. fold x in Hx. rewrite Z.mul_1_r in Hx.
  assert (0 <= numerator x)%Z as Hnx by (apply double_pos; lia).
  destruct (Z.eq_dec (numerator x) 0) as [E|E].
  { unfold p. rewrite E, Z.mul_0_l, nearest_double_zero, Z.div_0_l by (pose proof (denominator_pos (nearest_double 0 (denominator x * denominator y))); nia). lia. }
  assert (0 < denominator p)%Z as Hdp by apply denominator_pos.
  pose proof (nearest_double_upper (numerator x * numerator y) (denominator x * denominator y) ltac:(nia) ltac:(nia)) as Hp. fold p in Hp.
  pose proof (product_below (numerator x) (denominator x) (numerator y) (denominator y) (numerator p) (denominator p) n
    Hdx Hdy Hdp Hnx ltac:(lia) Hn Hx Hy Hp) as Hlt.
  enough (numerator p / denominator p < n - 1)%Z by lia. apply Z.div_lt_upper_bound; [done|]. lia.
Qed.

(** ** The split *)

(** No customer has rows on both sides. *)
Definition apart (l l' : list dict) : Prop := forall x y, x ∈ l -> y ∈ l' -> customer_of x <> customer_of y.

(** Every row is on one side, labelled with it, and the sides share no customer. *)
Definition separated (rows : list dict) (b : Buckets) : Prop :=
  (exists split : dict -> string, bucket_train b ++ bucket_validation b ++ bucket_test b
     ≡ₚ map (fun row => dict_set "split" (JStr (split row)) row) rows)
  /\ (bucket_train b <> [] /\ bucket_validation b <> [] /\ bucket_test b <> [])
  /\ apart (bucket_train b) (bucket_validation b) /\ apart (bucket_train b) (bucket_test b)
  /\ apart (bucket_validation b) (bucket_test b).

Lemma customer_of_labelled name row : customer_of (dict_set "split" (JStr name) row) = customer_of row.
Proof. unfold customer_of, item. by rewrite lookup_key_set. Qed.

Lemma customers_found rows names : customers_of rows = Ok names ->
  (forall row, row ∈ rows -> exists c, customer_of row = Ok c /\ c ∈ names)
  /\ (forall c, c ∈ names -> exists row, row ∈ rows /\ customer_of row = Ok c).
Proof.
  revert names. induction rows as [|row rows IH]; intros names; simpl.
  { intros [= <-]. split; intros x Hx; by apply elem_of_nil in Hx. }
  destruct (customer_of row) as [c|] eqn:Ec; [|done]. simpl. destruct (customers_of rows) as [cs|]; [|done].
  intros [= <-]. destruct (IH cs eq_refl) as [H1 H2]. split.
  - intros r [->|Hr]%elem_of_cons; [exists c; split; [done|left]|]. destruct (H1 r Hr) as (d & Hd & Hin). exists d. split; [done|by right].
  - intros d [->|Hd]%elem_of_cons; [exists row; split; [left|done]|]. destruct (H2 d Hd) as (r & Hr & E). exists r. split; [by right|done].
Qed.

Lemma elem_of_bucket side name rows x : x ∈ bucket_of side name rows ->
  exists row c, row ∈ rows /\ x = dict_set "split" (JStr name) row /\ customer_of row = Ok c /\ side c = name.
Proof.
  unfold bucket_of. intros (row & -> & Hrow)%list_elem_of_fmap. apply list_elem_of_In, filter_In in Hrow as [Hin Hside].
  apply list_elem_of_In in Hin. destruct (customer_of row) as [c|] eqn:E; [|done]. apply String.eqb_eq in Hside. by exists row, c.
Qed.

Lemma buckets_apart side n m rows : n <> m -> apart (bucket_of side n rows) (bucket_of side m rows).
Proof.
  intros Hnm x y (r & c & _ & -> & Er & Hc)%elem_of_bucket (r' & c' & _ & -> & Er' & Hc')%elem_of_bucket.
  rewrite !customer_of_labelled, Er, Er'. intros [= E]. apply Hnm. by rewrite <- Hc, <- Hc', E.
Qed.

Lemma bucket_not_empty side name rows names c : customers_of rows = Ok names -> c ∈ names -> side c = name ->
  bucket_of side name rows <> [].
Proof.
  intros Hn Hc Hside. destruct (proj2 (customers_found rows names Hn) c Hc) as (row & Hrow & E). unfold bucket_of.
  intros Hnil. apply map_eq_nil in Hnil. assert (row ∈ @nil dict) as H; [|by apply elem_of_nil in H].
  rewrite <- Hnil. apply list_elem_of_In, filter_In. split; [by apply list_elem_of_In|]. rewrite E. by apply String.eqb_eq.
Qed.

(** Three sides take every row once. *)
Lemma buckets_cover side rows names : customers_of rows = Ok names ->
  (forall c, side c = "train" \/ side c = "validation" \/ side c = "test") ->
  exists split, bucket_of side "train" rows ++ bucket_of side "validation" rows ++ bucket_of side "test" rows
    ≡ₚ map (fun row => dict_set "split" (JStr (split row)) row) rows.
Proof.
  intros Hn Hside. exists (fun row => match customer_of row with Ok c => side c | Raise _ => "" end).
  revert names Hn. induction rows as [|row rows IH]; intros names; simpl; [done|].
  destruct (customer_of row) as [c|] eqn:Ec; [|done]. simpl. destruct (customers_of rows) as [cs|] eqn:Ecs; [|done]. intros _.
  rewrite <- (IH cs eq_refl). unfold bucket_of at 1 2 3. cbn [List.filter]. rewrite Ec.
  destruct (Hside c) as [E|[E|E]]; rewrite E; cbn [String.eqb Ascii.eqb Bool.eqb map app]; fold (bucket_of side "train" rows);
    fold (bucket_of side "validation" rows); fold (bucket_of side "test" rows).
  - done.
  - symmetry. apply Permutation_middle.
  - rewrite !app_assoc. symmetry. apply Permutation_middle.
Qed.

(** The first customers train, the next validate, the others test. *)
Definition side_of (train_set val_set : list string) (c : string) : string :=
  if mem_str c train_set then "train" else if mem_str c val_set then "validation" else "test".

Lemma dealt (rows : list dict) names train_set val_set test_set : customers_of rows = Ok names ->
  NoDup (train_set ++ val_set ++ test_set) -> (forall c, c ∈ train_set ++ val_set ++ test_set -> c ∈ names) ->
  train_set <> [] -> val_set <> [] -> test_set <> [] ->
  separated rows (mk_Buckets (bucket_of (side_of train_set val_set) "train" rows)
    (bucket_of (side_of train_set val_set) "validation" rows) (bucket_of (side_of train_set val_set) "test" rows)).
Proof.
  intros Hn Hnd Hin Ht Hv Htest. set (side := side_of train_set val_set).
  assert (forall c, side c = "train" \/ side c = "validation" \/ side c = "test") as Hside.
  { intros c. unfold side, side_of. destruct (mem_str _ _); [by left|]. destruct (mem_str _ _); [right; by left|by do 2 right]. }
  assert (forall (l : list string) name, l <> [] -> (forall c, c ∈ l -> c ∈ names /\ side c = name) -> bucket_of side name rows <> []) as Hne.
  { intros [|c l] name Hl Hc; [done|]. destruct (Hc c ltac:(left)). by eapply bucket_not_empty. }
  apply list.NoDup_app in Hnd as (_ & Hd1 & (_ & Hd2 & _)%list.NoDup_app).
  split; [by apply (buckets_cover side rows names)|]. split; [|by split_and!; apply buckets_apart].
  cbn [bucket_train bucket_validation bucket_test]. split_and!.
  - apply (Hne train_set); [done|]. intros c Hc. split; [apply Hin; set_solver|]. unfold side, side_of, mem_str.
    by rewrite bool_decide_eq_true_2.
  - apply (Hne val_set); [done|]. intros c Hc. split; [apply Hin; set_solver|]. unfold side, side_of, mem_str.
    rewrite bool_decide_eq_false_2 by (intros H; apply (Hd1 c H); set_solver). by rewrite bool_decide_eq_true_2.
  - apply (Hne test_set); [done|]. intros c Hc. split; [apply Hin; set_solver|]. unfold side, side_of, mem_str.
    rewrite bool_decide_eq_false_2 by (intros H; apply (Hd1 c H); set_solver).
    by rewrite bool_decide_eq_false_2 by (intros H; by apply (Hd2 c H)).
Qed.

(** The check on overlaps never fails on a list without duplicates. *)
Lemma no_overlap (l l' : list string) : (forall c, c ∈ l -> c ∉ l') -> existsb (fun c => mem_str c l') l = false.
Proof.
  intros H. apply existsb_elem_false. intros c Hc. by apply bool_decide_eq_false_2, H.
Qed.

(** How many train and validate, of four customers or more. *)
Lemma sizes n : (4 <= n)%Z ->
  let t := Z.max 1 (int_times n train_ratio) in
  let v := Z.max 1 (int_times n val_ratio) in
  let v := if (n <=? t + v)%Z then Z.max 1 (n - t - 1) else v in
  (1 <= t /\ 1 <= v /\ t + v < n)%Z.
Proof.
  intros Hn t v. pose proof (training_leaves_two n Hn) as Ht. destruct (Z.leb_spec n (t + v)); unfold t, v in *; lia.
Qed.


Definition five_rows : list dict := [row_of "a" "w"; row_of "b" "x"; row_of "c" "y"; row_of "d" "z"; row_of "e" "w"].

