(* ===== verification/OperatorPolicy.v ===== *)
(** * The merchant's policy, as the operator reads and changes it

    [src/apps/api/recoverai_api/operator]: [merchant.py], the policy part of [service.py] and
    [schemas.py], and the routes of [router.py] that serve them. The settings an operator
    stores are those the policy engine decides by. *)
From S2P Require Import Prelude PyStr Uuid Errors Decimal Rounding Json Enums Rows Store Repositories Config Optimizer PolicyContext PolicyEngine PolicyProps Lifecycle Refinement Fixtures Worker Approvals.
Open Scope stdpp_scope.

(** [OperatorError] and [OperatorLookupError] *)
Definition OperatorError (code message : string) : exn := DomainError code message false.

(** ** [merchant.py] *)

Definition not_found {A} (required : bool) (message : string) : Op (option A) :=
  if required then mthrow (OperatorError "MERCHANT_NOT_FOUND" message) else mret None.

Definition resolve_merchant (merchant_id : option UUID) (merchant_slug : option string) (required : bool)
  : Op (option UUID) :=
  match merchant_id with
  | Some id =>
      found ← gets (merchant_with_id id);
      match found with
      | Some id => mret (Some id)
      | None => not_found required "Merchant was not found"
      end
  | None =>
      let stripped := strip (default "" merchant_slug) in
      let slug := if nonempty stripped then stripped else SIMULATOR_MERCHANT_SLUG in
      found ← gets (MerchantRepository.get_by_slug slug);
      match found with
      | Some id => mret (Some id)
      | None =>
          if negb (String.eqb slug SIMULATOR_MERCHANT_SLUG) then not_found required "Merchant was not found"
          else
            found ← gets (MerchantRepository.get_by_slug SIMULATOR_MERCHANT_SLUG);
            match found with
            | Some id => mret (Some id)
            | None => not_found required "No merchant is available. Run a simulation or seed data first."
            end
      end
  end.

(** [assert merchant is not None] after the lookup of a required merchant. *)
Definition required_merchant (merchant_id : option UUID) (merchant_slug : option string) : Op UUID :=
  found ← resolve_merchant merchant_id merchant_slug true;
  lift (ok_or (PyError "AssertionError" "") found).

(** ** [schemas.py] *)

Record PolicySettingsBody : Type := mk_PolicySettingsBody {
  pb_max_retry_attempts : Z;
  pb_max_discount_percent : Decimal;
  pb_max_daily_discount_budget : Decimal;
  pb_high_value_approval_threshold : Decimal;
  pb_medium_value_approval_threshold : Decimal;
  pb_max_communications_per_day : Z;
  pb_quiet_hours_start : Z;
  pb_quiet_hours_end : Z;
  pb_automatic_recovery_enabled : bool;
  pb_approval_ttl_minutes : Z;
  pb_blocked_action_types : list string;
}.

Definition within (lo hi n : Z) : bool := ((lo <=? n) && (n <=? hi))%Z.

(** The ranges pydantic checks. *)
Definition in_range (b : PolicySettingsBody) : bool :=
  within 0 50 (pb_max_retry_attempts b)
  && (dec_leb (dec_of_Z 0) (pb_max_discount_percent b) && dec_leb (pb_max_discount_percent b) (dec_of_Z 100))
  && dec_leb (dec_of_Z 0) (pb_max_daily_discount_budget b)
  && dec_leb (dec_of_Z 0) (pb_high_value_approval_threshold b)
  && dec_leb (dec_of_Z 0) (pb_medium_value_approval_threshold b)
  && within 0 100 (pb_max_communications_per_day b)
  && within 0 23 (pb_quiet_hours_start b) && within 0 23 (pb_quiet_hours_end b)
  && within 1 (24 * 60) (pb_approval_ttl_minutes b).

(** ** The policy part of [service.py] *)

Definition blocked_of (settings : option dict) : list string :=
  let s := default [] settings in
  match dict_get "policy" s with
  | JObj nested =>
      match dict_get "blocked_action_types" nested with
      | JList items => map py_str items
      | _ => match dict_get "blocked_action_types" s with JList items => map py_str items | _ => [] end
      end
  | _ => match dict_get "blocked_action_types" s with JList items => map py_str items | _ => [] end
  end.

Record PolicyView : Type := mk_PolicyView {
  view_merchant_id : UUID;
  view_merchant_name : string;
  view_merchant_slug : string;
  view_policy : dict;
  view_legal_actions : list string;
}.

(** The numbers and the version of the settings in force, and the blocked actions. *)
Definition policy_json (s : RecoverySettings) (blocked : list string) : dict :=
  [("max_retry_attempts", JInt (max_retry_attempts s));
   ("max_discount_percent", JStr (dec_str (max_discount_percent s)));
   ("max_daily_discount_budget", JStr (dec_str (max_daily_discount_budget s)));
   ("high_value_approval_threshold", JStr (dec_str (high_value_approval_threshold s)));
   ("medium_value_approval_threshold", JStr (dec_str (medium_value_approval_threshold s)));
   ("max_communications_per_day", JInt (max_communications_per_day s));
   ("quiet_hours_start", JInt (quiet_hours_start s)); ("quiet_hours_end", JInt (quiet_hours_end s));
   ("automatic_recovery_enabled", JBool (automatic_recovery_enabled s));
   ("approval_ttl_minutes", JInt (approval_ttl_minutes s));
   ("blocked_action_types", JList (map JStr blocked)); ("policy_version", JStr (policy_version s))].

Definition stored_policy (b : PolicySettingsBody) : dict :=
  [("max_retry_attempts", JInt (pb_max_retry_attempts b));
   ("max_discount_percent", JStr (dec_str (pb_max_discount_percent b)));
   ("max_daily_discount_budget", JStr (dec_str (pb_max_daily_discount_budget b)));
   ("high_value_approval_threshold", JStr (dec_str (pb_high_value_approval_threshold b)));
   ("medium_value_approval_threshold", JStr (dec_str (pb_medium_value_approval_threshold b)));
   ("max_communications_per_day", JInt (pb_max_communications_per_day b));
   ("quiet_hours_start", JInt (pb_quiet_hours_start b)); ("quiet_hours_end", JInt (pb_quiet_hours_end b));
   ("automatic_recovery_enabled", JBool (pb_automatic_recovery_enabled b));
   ("approval_ttl_minutes", JInt (pb_approval_ttl_minutes b));
   ("blocked_action_types", JList (map JStr (pb_blocked_action_types b)))].

(** The settings with the body's policy in them. *)
Definition nested_policy (current : dict) : dict :=
  match dict_get "policy" current with JObj d => d | _ => [] end.
Definition updated_settings (settings : option dict) (b : PolicySettingsBody) : dict :=
  let current := default [] settings in
  dict_set "policy" (JObj (dict_update (nested_policy current) (stored_policy b))) current.

Definition set_merchant_settings (v : option dict) (m : Merchant) : Merchant :=
  mk_Merchant (merchant_name m) (merchant_slug m) (merchant_is_active m) v (merchant_description m).

Definition illegal_blocks (b : PolicySettingsBody) : list string :=
  List.filter (fun a => negb (mem_str a LEGAL_ACTIONS)) (pb_blocked_action_types b).

Section Policy.
Context (environ : list (string * string)).

Definition get_policy (merchant_id : UUID) : Op PolicyView :=
  m ← get_row w_merchants merchant_id;
  base ← lift (load_recovery_settings environ);
  merged ← lift (merge_merchant base (merchant_settings m));
  mret (mk_PolicyView merchant_id (merchant_name m) (merchant_slug m)
          (policy_json merged (blocked_of (merchant_settings m))) LEGAL_ACTIONS).

Definition update_policy (merchant_id : UUID) (b : PolicySettingsBody) : Op PolicyView :=
  match illegal_blocks b with
  | [] =>
      if dec_ltb (pb_high_value_approval_threshold b) (pb_medium_value_approval_threshold b)
      then mthrow (OperatorError "INVALID_POLICY" "medium threshold cannot exceed high-value approval threshold")
      else
        m ← get_row w_merchants merchant_id;
        update_merchant merchant_id (set_merchant_settings (Some (updated_settings (merchant_settings m) b)));;
        flush;;
        get_policy merchant_id
  | illegal => mthrow (OperatorError "INVALID_POLICY" ("Unknown blocked actions: " +:+ join ", " illegal))
  end.

(** ** [router.py]: the body is parsed before the request gets a session. *)
Definition read_policy (merchant_id : option UUID) (merchant_slug : option string) : Op (response PolicyView) :=
  api_request (merchant ← required_merchant merchant_id merchant_slug; get_policy merchant).

Definition patch_policy (merchant_id : option UUID) (merchant_slug : option string) (b : PolicySettingsBody)
  : Op (response PolicyView) :=
  if in_range b
  then api_request (merchant ← required_merchant merchant_id merchant_slug; update_policy merchant b)
  else mthrow (ValidationError "policy").
End Policy.

(** ** What an update does *)

(** The settings in force when the body is stored. *)
Definition body_settings (window grace : Z) (version : string) (b : PolicySettingsBody) : RecoverySettings :=
  mk_RecoverySettings window grace (pb_high_value_approval_threshold b) (pb_medium_value_approval_threshold b)
    (pb_max_retry_attempts b) (pb_max_discount_percent b) (pb_max_daily_discount_budget b)
    (pb_max_communications_per_day b) (pb_quiet_hours_start b) (pb_quiet_hours_end b)
    (pb_automatic_recovery_enabled b) (pb_approval_ttl_minutes b) version.

Lemma decimal_value_stored d : decimal_of_text (dec_str d) = Ok d.
Proof. unfold decimal_of_text. by rewrite decimal_text_roundtrip. Qed.
Lemma dec_str_nonempty d : nonempty (dec_str d) = true.
Proof. pose proof (decimal_text_roundtrip d) as H. by destruct (dec_str d). Qed.
Lemma unset_decimal d : unset (JStr (dec_str d)) = false.
Proof. simpl. by rewrite dec_str_nonempty. Qed.

Lemma strs_back l : map py_str (map JStr l) = l.
Proof. rewrite map_map. apply map_id. Qed.

Lemma dict_set_cons k v d : exists kv rest, dict_set k v d = kv :: rest.
Proof. destruct d as [|[k' v'] d]; simpl; [eauto|]. destruct (String.eqb k k'); eauto. Qed.

(** The entries that are updated read back, and the others read as before. *)
Lemma read_updated k p b :
  dict_get k (dict_update p (stored_policy b)) = default (dict_get k p) (lookup_key k (stored_policy b)).
Proof. apply dict_get_update. by apply (bool_decide_unpack _); vm_compute. Qed.

Lemma section_updated settings b :
  _policy_section (Some (updated_settings settings b))
  = dict_update (nested_policy (default [] settings)) (stored_policy b).
Proof. unfold _policy_section, updated_settings. by rewrite dict_get_set. Qed.

Lemma merge_updated base settings b :
  merge_merchant base (Some (updated_settings settings b))
  = (let p := nested_policy (default [] settings) in
     window ← _int_value p "recovery_window_hours" (recovery_window_hours base);
     grace ← _int_value p "recovery_ordering_grace_minutes" (recovery_ordering_grace_minutes base);
     mret (body_settings window grace
       (py_str (py_or (dict_get "policy_version" p) (JStr (policy_version base)))) b)).
Proof.
  unfold merge_merchant. rewrite section_updated. cbv zeta.
  set (p := nested_policy _).
  pose proof (fun k => read_updated k p b) as Hq. revert Hq. generalize (dict_update p (stored_policy b)). intros q Hq.
  destruct q as [|kv q'] eqn:Eq; [by specialize (Hq "max_retry_attempts")|]. rewrite <- Eq in *. clear Eq kv q'.
  unfold _int_value, _decimal_value, _bool_value. rewrite !Hq. 
  cbn -[dec_str decimal_of_text]. rewrite !dec_str_nonempty, !decimal_value_stored. reflexivity.
Qed.

(** The blocked actions read back, by the operator and by the engine. *)
Lemma blocked_updated settings b : blocked_of (Some (updated_settings settings b)) = pb_blocked_action_types b.
Proof.
  unfold blocked_of, updated_settings. cbv zeta. cbn [from_option id]. rewrite dict_get_set, String.eqb_refl.
  rewrite read_updated. apply strs_back.
Qed.

Lemma blocked_in_force settings b :
  _blocked_actions (_policy_dict (Some (updated_settings settings b))) = pb_blocked_action_types b.
Proof.
  unfold _blocked_actions, _policy_dict. rewrite section_updated, read_updated. unfold py_or. simpl.
  destruct (pb_blocked_action_types b) as [|a l] eqn:E; [done|]. simpl. by rewrite strs_back.
Qed.

(** What a context says of the merchant's settings. *)
Lemma context_settings case_id base now w w' context :
  build_policy_context case_id base now w = (w', Ok context) ->
  exists m, w_merchants w' !! ctx_merchant_id context = Some m
    /\ w_merchants w' = w_merchants w
    /\ merge_merchant base (merchant_settings m) = Ok (ctx_settings context)
    /\ ctx_blocked_action_types context = _blocked_actions (_policy_dict (merchant_settings m)).
Proof.
  revert w' context. change (returns (build_policy_context case_id base now) w (fun context w' =>
    exists m, w_merchants w' !! ctx_merchant_id context = Some m
    /\ w_merchants w' = w_merchants w
    /\ merge_merchant base (merchant_settings m) = Ok (ctx_settings context)
    /\ ctx_blocked_action_types context = _blocked_actions (_policy_dict (merchant_settings m)))).
  unfold build_policy_context.
  apply (returns_bind _ _ _ _ (fun _ v => w_merchants v = w_merchants w)).
  { destruct now; [by apply returns_ret|]. by intros v t [= <- <-]. }
  intros t v Hv. apply (returns_bind _ _ _ _ (fun c v' => v' = v)).
  { unfold get_row. intros v' c. unfold mbind, m_bind, get, lift, ok_or. simpl. by destruct (w_cases v !! case_id); intros [=]. }
  intros c v' ->. intros v' ctx. unfold mbind, m_bind, get. simpl.
  unfold MerchantRepository.get_merchant. destruct (w_merchants v !! case_merchant_id c) as [m|] eqn:Hm; [|done].
  unfold lift. destruct (merge_merchant base (merchant_settings m)) as [s|] eqn:Hs; [|done].
  intros [<- <-]%returned_inj. exists m. cbn [ctx_merchant_id ctx_settings ctx_blocked_action_types]. by rewrite Hm, Hv.
Qed.

Section Update.
Context (environ : list (string * string)) (base : RecoverySettings).
Context (Hbase : load_recovery_settings environ = Ok base).
Context (m : UUID) (row : Merchant) (w : World).
Context (Hrow : w_merchants w !! m = Some row) (Hchecks : db_checks w = true).
Context (b : PolicySettingsBody).

(** The row after the update. *)
Definition updated_row : Merchant := set_merchant_settings (Some (updated_settings (merchant_settings row) b)) row.

(** C28. An acceptable policy is stored and answered: the update changes the settings of the one
    merchant and nothing else, the answer is what was asked for, and from then on the policy
    engine decides every case of the merchant by exactly these numbers and blocked actions. Of
    the settings the body does not name, those nested in the stored policy stay, and the
    others are those of the environment. *)
Theorem policy_update_takes_effect window grace :
  illegal_blocks b = [] ->
  dec_leb (pb_medium_value_approval_threshold b) (pb_high_value_approval_threshold b) = true ->
  let stored := nested_policy (default [] (merchant_settings row)) in
  _int_value stored "recovery_window_hours" (recovery_window_hours base) = Ok window ->
  _int_value stored "recovery_ordering_grace_minutes" (recovery_ordering_grace_minutes base) = Ok grace ->
  let s := body_settings window grace
             (py_str (py_or (dict_get "policy_version" stored) (JStr (policy_version base)))) b in
  update_policy environ m b w
    = (set_w_merchants (<[m := updated_row]> (w_merchants w)) w,
       Ok (mk_PolicyView m (merchant_name row) (merchant_slug row)
             (policy_json s (pb_blocked_action_types b)) LEGAL_ACTIONS))
  /\ forall case_id now v v' context,
       w_merchants v !! m = Some updated_row ->
       build_policy_context case_id base now v = (v', Ok context) -> ctx_merchant_id context = m ->
       ctx_settings context = s /\ ctx_blocked_action_types context = pb_blocked_action_types b.
Proof using Hbase Hrow Hchecks.
  intros Hl Ht stored Hw Hg s.
  assert (merge_merchant base (merchant_settings updated_row) = Ok s) as Hs.
  { unfold updated_row. simpl. rewrite merge_updated. cbv zeta. fold stored. by rewrite Hw, Hg. }
  split.
  - unfold update_policy. rewrite Hl, dec_ltb_leb, Ht. unfold get_policy, update_merchant, modify, flush, get_row, mbind, m_bind, get, lift.
    simpl. rewrite Hrow. simpl.
    rewrite (alter_as_insert _ _ _ _ Hrow). fold updated_row.
    change (db_checks (set_w_merchants _ w)) with (db_checks w). rewrite Hchecks. simpl.
    rewrite lookup_insert_eq. simpl. rewrite Hbase. simpl. unfold updated_row in Hs. simpl in Hs. rewrite Hs. simpl.
    by rewrite blocked_updated.
  - intros case_id now v v' context Hv Hc Hm. apply context_settings in Hc as (r & Hr & Hk & Hmerge & Hblocked).
    rewrite Hm, Hk, Hv in Hr. injection Hr as <-. rewrite Hs in Hmerge. injection Hmerge as <-.
    split; [done|]. rewrite Hblocked. apply blocked_in_force.
Qed.

(** C29. After an update, whatever else happens to the store as long as the settings of the
    merchant stay, the policy engine allows no action the operator blocked, nothing automatic
    behind the kill switch, and no retry beyond the limit. *)
Theorem updated_policy_is_enforced v v' case_id now context proposed action r :
  w_merchants v !! m = Some updated_row ->
  build_policy_context case_id base now v = (v', Ok context) -> ctx_merchant_id context = m ->
  _parse_action (proposed_action_type proposed) = Some action ->
  evaluate_action context proposed = Ok r -> result_allowed r = true ->
  value action ∉ pb_blocked_action_types b
  /\ (action ∈ AUTOMATIC_ACTIONS -> pb_automatic_recovery_enabled b = true)
  /\ (action ∈ RETRY_ACTIONS -> (ctx_retry_count context < pb_max_retry_attempts b)%Z)
  /\ (action ∈ COMMUNICATION_ACTIONS -> (ctx_communications_last_24h context < pb_max_communications_per_day b)%Z)
  /\ (action = RecoveryActionType.OFFER_DISCOUNT ->
      exists percent, proposed_discount_percent proposed = Some percent
        /\ dec_leb percent (pb_max_discount_percent b) = true).
Proof using.
  intros Hv Hc Hm Hp He Ha. apply context_settings in Hc as (x & Hx & Hk & Hs & Hblocked).
  rewrite Hm, Hk, Hv in Hx. injection Hx as <-. unfold updated_row, set_merchant_settings in Hs, Hblocked.
  cbn [merchant_settings] in Hs, Hblocked.
  rewrite blocked_in_force in Hblocked. rewrite merge_updated in Hs. cbv zeta in Hs.
  destruct (_int_value _ "recovery_window_hours" _) as [window|]; [|done].
  destruct (_int_value _ "recovery_ordering_grace_minutes" _) as [grace|]; [|done]. injection Hs as Hs.
  apply (allowed_permitted _ _ _ _ Hp He) in Ha as [H1 H2 H3 H4 H5]. rewrite Hblocked in H1. rewrite <- Hs in *.
  simpl in *. repeat split; [done|by intros; apply H2|done|by intros; apply H5|].
  intros Hd. destruct (H4 Hd) as (percent & _ & Hq & _ & Hle & _). eauto.
Qed.
End Update.

(** ** The policy routes refine the abstract system *)

Section Refines.
Context (cfg : RecoverySettings) (A : list label) (Hparty : L_party ∈ A).
Context (environ : list (string * string)).
Notation R := (runs cfg A).

Lemma runs_required_merchant m s : preserves R (required_merchant m s).
Proof using. unfold required_merchant, resolve_merchant, not_found. solve_pres. Qed.

Lemma runs_get_policy m : preserves R (get_policy environ m).
Proof using. unfold get_policy. pose proof runs_get_row. solve_pres. Qed.
#[local] Hint Resolve runs_get_policy : pres.

Lemma runs_update_policy m b : preserves R (update_policy environ m b).
Proof using Hparty.
  assert (forall f, (forall m, merchant_identity (f m) = merchant_identity m) -> preserves R (update_merchant m f)).
  { intros f Hf. by apply runs_update_merchant. }
  pose proof runs_get_row. pose proof runs_flush. unfold update_policy. solve_pres.
Qed.
End Refines.
