(* ===== verification/Operator.v ===== *)
(** * The operator's screens

    [src/apps/api/recoverai_api/operator]: the queries of [service.py] with [serialize.py], and
    the approval queue of [router.py]. The numbers of the command centre are sums over the
    cases; lists come in pages; recorded JSON is shown without credentials.
    The second part bounds and relates what the screens show. *)
From S2P Require Import Prelude PyStr Uuid Errors Decimal Sorting PyFloat Json Datetime Enums Rows Store Repositories Config Optimizer PolicyContext OptimizerService Events Simulator ToolData AgentData Worker ToolExecution Approvals OperatorPolicy.
Open Scope stdpp_scope.

(** ** [serialize.py] *)

(** [f"{x:.nf}"]: the multiple of [10 ^ -n] nearest to [x], its [n] digits written out. *)
Definition fixed (n : Z) (x : Decimal) : string :=
  dec_str (mkDec (if (- n <=? d_exp x)%Z then coeff_at (- n) x
                  else div_half_even (d_int x) (10 ^ (- n - d_exp x))) (- n)).
Definition money : Decimal -> string := fixed 2.
Definition money_or_none (x : option Decimal) : json := opt_str (money <$> x).
Definition iso (t : option Z) : json := opt_str ((fun t => isoformat (utc t)) <$> t).
Definition public_json (payload : option dict) : json :=
  match payload with Some d => JObj (strip_secrets d) | None => JNull end.

(** ** The command centre *)

Record Metrics : Type := mk_Metrics {
  metrics_merchant : option (UUID * string * string);
  metrics_partial : bool;
  metrics_revenue_at_risk : string;
  metrics_revenue_recovered : string;
  metrics_expected_recovery : string;
  metrics_recovery_rate : option Decimal;
  metrics_active_cases : nat;
  metrics_pending_approvals : nat;
  metrics_failed_actions : nat;
  metrics_policy_blocks : nat;
  metrics_currency : string;
}.

Definition no_metrics : Metrics := mk_Metrics None true "0.00" "0.00" "0.00" None 0 0 0 0 "INR".

(** [round(float(n) / float(m), 6)] *)
Definition rate6 (n m : nat) : Decimal :=
  strip_zeros 5 (millionths (if (n =? 0)%nat then mk_Double 0 0
                             else nearest_double (Z.of_nat n) (Z.of_nat m))) (-6).

Definition exact_sub (x y : Decimal) : Decimal := exact_add x (mkDec (- d_int y) (d_exp y)).

Definition merchant_cases (merchant_id : UUID) (w : World) : list RecoveryCase :=
  snd <$> rows_where (fun _ c => same (case_merchant_id c) merchant_id) (w_cases w).
Definition is_open (c : RecoveryCase) : bool := same (case_closed_at c) None.
Definition count {A} (p : A -> bool) (l : list A) : nat := length (List.filter p l).

Definition open_at_risk (merchant_id : UUID) (w : World) : Decimal :=
  sql_sum (map (fun c => exact_sub (case_amount_at_risk c) (case_amount_recovered c))
             (List.filter is_open (merchant_cases merchant_id w))).
Definition recovered_amount (merchant_id : UUID) (w : World) : Decimal :=
  sql_sum (map case_amount_recovered (merchant_cases merchant_id w)).

Definition counted_closed : list RecoveryCaseStatus := [RECOVERED; NOT_RECOVERED; STOPPED].
Definition recovered_count (merchant_id : UUID) (w : World) : nat :=
  count (fun c => same (case_status c) RECOVERED) (merchant_cases merchant_id w).
Definition closed_count (merchant_id : UUID) (w : World) : nat :=
  count (fun c => bool_decide (case_status c ∈ counted_closed)) (merchant_cases merchant_id w).

Section Views.
(** What the rows of the model leave out: [created_at] of a decision, by its position, and of
    a case, by its key. *)
Context (decided_at : nat -> Z) (case_created_at : UUID -> Z).

(** [(cid, ts)] of a row is that of [select(cid, max(created_at)) ... group_by(cid)] over
    the rows [mine]. *)
Definition is_newest {A} (case_of : A -> UUID) (mine : list (Z * A)) (row : Z * A) : bool :=
  let group := List.filter (fun r => same (case_of r.2) (case_of row.2)) mine in
  existsb (fun r => (r.1 =? row.1)%Z) group && forallb (fun r => (r.1 <=? row.1)%Z) group.

(** The decisions joined with the newest ones of the merchant, case by case. *)
Definition latest_decisions (merchant_id : UUID) (w : World) : list RecoveryDecision :=
  let dated := imap (fun i d => (decided_at i, d)) (w_decisions w) in
  let mine := List.filter (fun td => same (decision_merchant_id td.2) merchant_id) dated in
  map snd (List.filter (is_newest decision_recovery_case_id mine) dated).

Definition expected_recovery (merchant_id : UUID) (w : World) : Decimal :=
  sql_sum (omap decision_selected_expected_value
    (List.filter (fun d => same (decision_merchant_id d) merchant_id) (latest_decisions merchant_id w))).

Definition metrics_of (merchant_id : UUID) (m : Merchant) (w : World) : Metrics :=
  mk_Metrics (Some (merchant_id, merchant_name m, merchant_slug m)) false
    (money (open_at_risk merchant_id w)) (money (recovered_amount merchant_id w))
    (money (expected_recovery merchant_id w))
    (if (closed_count merchant_id w =? 0)%nat then None
     else Some (rate6 (recovered_count merchant_id w) (closed_count merchant_id w)))
    (count is_open (merchant_cases merchant_id w))
    (length (rows_where (fun _ a => same (approval_merchant_id a) merchant_id
                                    && same (approval_status a) ApprovalStatus.PENDING) (w_approvals w)))
    (length (rows_where (fun _ a => same (action_merchant_id a) merchant_id
                                    && same (action_status a) RecoveryActionStatus.FAILED) (w_actions w)))
    (length (rows_where (fun _ e => same (evaluation_merchant_id e) merchant_id
                                    && negb (evaluation_allowed e)) (w_evaluations w)))
    "INR".

Definition command_center_metrics (merchant_id : option UUID) (merchant_slug : option string) : Op Metrics :=
  found ← resolve_merchant merchant_id merchant_slug false;
  match found with
  | None => mret no_metrics
  | Some id => m ← get_row w_merchants id; gets (metrics_of id m)
  end.

(** ** The list of cases: [RecoveryCaseRepository.page_cases] *)

(** The collation of the database. *)
Context (collate : string -> string -> comparison).

Record CaseFilter : Type := mk_CaseFilter {
  filter_status : option string;
  filter_case_type : option string;
  filter_min_amount : option Decimal;
  filter_max_amount : option Decimal;
}.

Definition opt_holds {A} (p : A -> bool) (o : option A) : bool := match o with Some a => p a | None => true end.

Definition selected_case (merchant_id : UUID) (f : CaseFilter) (c : RecoveryCase) : bool :=
  same (case_merchant_id c) merchant_id
  && opt_holds (String.eqb (value (case_status c))) (filter_status f)
  && opt_holds (String.eqb (value (case_case_type c))) (filter_case_type f)
  && opt_holds (fun lo => dec_leb lo (case_amount_at_risk c)) (filter_min_amount f)
  && opt_holds (fun hi => dec_leb (case_amount_at_risk c) hi) (filter_max_amount f).

(** [_CASE_SORTS.get(sort, RecoveryCase.created_at)] *)
Definition case_column (sort : string) : UUID * RecoveryCase -> UUID * RecoveryCase -> comparison :=
  if String.eqb sort "amount_at_risk" then on_key dec_cmp (fun kv => case_amount_at_risk kv.2)
  else if String.eqb sort "amount_recovered" then on_key dec_cmp (fun kv => case_amount_recovered kv.2)
  else if String.eqb sort "status" then on_key collate (fun kv => value (case_status kv.2))
  else if String.eqb sort "case_type" then on_key collate (fun kv => value (case_case_type kv.2))
  else if String.eqb sort "priority" then on_key Z.compare (fun kv => case_priority kv.2)
  else on_key Z.compare (fun kv => case_created_at kv.1).

Definition case_order (sort direction : string) : UUID * RecoveryCase -> UUID * RecoveryCase -> comparison :=
  lex (if String.eqb (lower direction) "asc" then case_column sort else reversed (case_column sort))
      (reversed (on_key N.compare fst)).

Definition page_cases (merchant_id : UUID) (f : CaseFilter) (sort direction : string) (offset limit : nat)
  (w : World) : list (UUID * RecoveryCase) * nat :=
  let found := rows_where (fun _ => selected_case merchant_id f) (w_cases w) in
  (take limit (drop offset (sort_by (case_order sort direction) found)), length found).

(** [_case_row] *)
Definition _case_row (id : UUID) (c : RecoveryCase) (customer : option Customer) (payment : option Payment)
  (decision : option RecoveryDecision) (prediction : option ModelPrediction) : dict :=
  [("id", JStr (uuid_str id)); ("merchant_id", JStr (uuid_str (case_merchant_id c)));
   ("customer", JObj [("id", JStr (uuid_str (case_customer_id c)));
                      ("full_name", opt_str (customer ≫= customer_full_name));
                      ("email", opt_str (customer ≫= customer_email));
                      ("external_id", opt_str (customer ≫= customer_external_id))]);
   ("amount_at_risk", JStr (money (case_amount_at_risk c)));
   ("amount_recovered", JStr (money (case_amount_recovered c)));
   ("currency", JStr (case_currency c)); ("case_type", JStr (value (case_case_type c)));
   ("failure_reason", opt_str (payment ≫= payment_failure_reason));
   ("status", JStr (value (case_status c)));
   ("recovery_probability", opt_str ((fun p => fixed 6 (prediction_probability p)) <$> prediction));
   ("recommended_action", opt_str (d ← decision; if String.eqb (decision_selected_action d) "NONE" then None
                                                 else Some (decision_selected_action d)));
   ("expected_recovery", money_or_none (decision ≫= decision_selected_expected_value));
   ("created_at", iso (Some (case_created_at id))); ("opened_at", iso (Some (case_opened_at c)));
   ("closed_at", iso (case_closed_at c))].

(** [{row.recovery_case_id: row for row in rows}[case_id]]: the last of the rows. *)
Definition last_of {A} (p : A -> bool) (l : list A) : option A := list.last (List.filter p l).

Definition latest_predictions (merchant_id : UUID) (w : World) : list ModelPrediction :=
  let dated := (fun kv => (prediction_created_at kv.2, kv.2)) <$> map_to_list (w_predictions w) in
  let mine := List.filter (fun tp => same (prediction_merchant_id tp.2) merchant_id) dated in
  map snd (List.filter (is_newest prediction_recovery_case_id mine) dated).

Definition case_item (merchant_id : UUID) (w : World) (kv : UUID * RecoveryCase) : dict :=
  let '(id, c) := kv in
  _case_row id c (w_customers w !! case_customer_id c) (p ← case_payment_id c; w_payments w !! p)
    (last_of (fun d => same (decision_recovery_case_id d) id) (latest_decisions merchant_id w))
    (last_of (fun p => same (prediction_recovery_case_id p) id) (latest_predictions merchant_id w)).

Record Page : Type := mk_Page { page_items : list dict; page_number : nat; page_size : nat; page_total : nat }.

Definition list_cases (merchant_id : option UUID) (merchant_slug : option string) (f : CaseFilter)
  (sort direction : string) (page size : nat) : Op Page :=
  merchant ← required_merchant merchant_id merchant_slug;
  w ← get;
  let '(cases, total) := page_cases merchant f sort direction ((page - 1) * size) size w in
  mret (mk_Page (map (case_item merchant w) cases) page size total).
End Views.

(** * The operator's view of a case

    [src/apps/api/recoverai_api/operator/service.py]: the detail of a case, its decision, the
    agent runs and tool calls, the timeline, the audit trail and the approvals, with the queries
    of [recoverai_db/repositories/audit_event.py]; and the approval queue of [router.py]. *)

Module AuditEventRepository.
Definition oldest : AuditEvent -> AuditEvent -> comparison := on_key Z.compare audit_created_at.

Definition list_for_case_since (merchant_id case_id : UUID) (since : option Z) (limit : nat) (w : World)
  : list AuditEvent :=
  take limit (sort_by oldest (List.filter (fun e =>
    same (audit_merchant_id e) merchant_id && same (audit_case_id e) (Some case_id)
    && opt_holds (fun t => t <? audit_created_at e)%Z since) (w_audit w))).

Record AuditFilter : Type := mk_AuditFilter {
  af_case_id : option UUID;
  af_event_type : option string;
  af_actor_id : option string;
  af_since : option Z;
  af_until : option Z;
}.

Definition page_events (merchant_id : UUID) (f : AuditFilter) (offset limit : nat) (w : World)
  : list AuditEvent * nat :=
  let found := List.filter (fun e =>
    same (audit_merchant_id e) merchant_id
    && opt_holds (fun c => same (audit_case_id e) (Some c)) (af_case_id f)
    && opt_holds (String.eqb (audit_event_type e)) (af_event_type f)
    && opt_holds (fun a => same (audit_actor_id e) (Some a)) (af_actor_id f)
    && opt_holds (fun t => t <=? audit_created_at e)%Z (af_since f)
    && opt_holds (fun t => audit_created_at e <=? t)%Z (af_until f)) (w_audit w) in
  (take limit (drop offset (sort_by (reversed oldest) found)), length found).
End AuditEventRepository.

(** [ModelPredictionRepository.list_for_case] *)
Definition predictions_for_case (case_id : UUID) (w : World) : list ModelPrediction :=
  snd <$> sort_by ModelPredictionRepository.newest_first
    (rows_where (fun _ p => same (prediction_recovery_case_id p) case_id) (w_predictions w)).

(** ** Rows as the API shows them

    The identifier of an audit row and latencies are not part of the model. *)

Definition _audit_dict (e : AuditEvent) : dict :=
  [("timestamp", iso (Some (audit_created_at e))); ("actor_type", JStr (audit_actor_type e));
   ("actor_id", opt_str (audit_actor_id e)); ("event_type", JStr (audit_event_type e));
   ("action", opt_str (audit_action e)); ("previous_state", opt_str (audit_previous_state e));
   ("new_state", opt_str (audit_new_state e)); ("summary", JStr (audit_summary e));
   ("correlation_id", opt_str (audit_correlation_id e));
   ("idempotency_key", opt_str (audit_idempotency_key e)); ("case_id", opt_uuid (audit_case_id e));
   ("metadata", public_json (audit_metadata_json e))].

Definition _approval_dict (kv : UUID * Approval) : dict :=
  let '(id, a) := kv in
  [("id", JStr (uuid_str id)); ("case_id", JStr (uuid_str (approval_recovery_case_id a)));
   ("action_id", opt_uuid (approval_recovery_action_id a)); ("status", JStr (value (approval_status a)));
   ("requested_by", opt_str (approval_requested_by a)); ("decided_by", opt_str (approval_decided_by a));
   ("decision_reason", opt_str (approval_decision_reason a)); ("expires_at", iso (approval_expires_at a));
   ("decided_at", iso (approval_decided_at a)); ("created_at", iso (Some (approval_created_at a)))].

Definition _action_dict (kv : UUID * RecoveryAction) : dict :=
  let '(id, a) := kv in
  [("id", JStr (uuid_str id)); ("action_type", JStr (action_action_type a));
   ("status", JStr (value (action_status a))); ("risk_level", JStr (value (action_risk_level a)));
   ("amount", money_or_none (action_amount a)); ("currency", JStr (action_currency a));
   ("idempotency_key", JStr (action_idempotency_key a)); ("error_code", opt_str (action_error_code a));
   ("error_message", opt_str (action_error_message a)); ("executed_at", iso (action_executed_at a));
   ("created_at", iso (Some (action_created_at a))); ("metadata", public_json (action_metadata_json a))].

Definition _policy_eval_dict (kv : UUID * PolicyEvaluation) : dict :=
  let '(id, e) := kv in
  [("id", JStr (uuid_str id)); ("action", JStr (evaluation_action e)); ("allowed", JBool (evaluation_allowed e));
   ("requires_approval", JBool (evaluation_requires_approval e));
   ("risk_level", JStr (value (evaluation_risk_level e))); ("reason", opt_str (evaluation_reason e));
   ("policy_version", JStr (evaluation_policy_version e)); ("evaluated_at", iso (Some (evaluation_evaluated_at e)))].

Definition agent_run_dict (kv : UUID * AgentRun) : dict :=
  let '(id, r) := kv in
  [("id", JStr (uuid_str id)); ("agent_name", JStr (run_agent_name r));
   ("agent_version", JStr (run_agent_version r)); ("status", JStr (value (run_status r)));
   ("source", dict_get "source" (default [] (run_decision_factors r)));
   ("input_summary", public_json (run_input_summary r)); ("output_summary", public_json (run_output_summary r));
   ("error_message", opt_str (run_error_message r)); ("started_at", iso (Some (run_started_at r)));
   ("completed_at", iso (run_completed_at r))].

Definition prediction_dict (p : ModelPrediction) : dict :=
  [("action", JStr (prediction_action p)); ("probability", JStr (fixed 6 (prediction_probability p)));
   ("model_version", JStr (prediction_model_version p)); ("source", JStr (prediction_source p))].

(** ** The queries *)

Definition _require_case (case_id : UUID) (merchant : option UUID) : Op RecoveryCase :=
  found ← gets (fun w => w_cases w !! case_id);
  match found with
  | None => mthrow (OperatorError "RECOVERY_CASE_NOT_FOUND" "Recovery case was not found")
  | Some c =>
      match merchant with
      | Some m => if same (case_merchant_id c) m then mret c
                  else mthrow (OperatorError "MERCHANT_MISMATCH" "Case does not belong to the given merchant")
      | None => mret c
      end
  end.

(** The merchant a request may name: [merchant = resolve_merchant(...) if merchant_id or merchant_slug else None] *)
Definition named_merchant (merchant_id : option UUID) (merchant_slug : option string) : Op (option UUID) :=
  if is_some merchant_id || nonempty (default "" merchant_slug)
  then resolve_merchant merchant_id merchant_slug true else mret None.

Definition list_agent_runs (case_id : UUID) (merchant : option UUID) : Op (list dict) :=
  _require_case case_id merchant;;
  rows ← gets (fun w => sort_by (on_key Z.compare (fun kv => run_started_at kv.2))
                          (rows_where (fun _ r => same (run_recovery_case_id r) (Some case_id)) (w_agent_runs w)));
  mret (map agent_run_dict rows).

Definition case_timeline (case_id : UUID) (merchant : option UUID) (since : option Z) : Op (json * list dict) :=
  c ← _require_case case_id merchant;
  rows ← gets (AuditEventRepository.list_for_case_since (case_merchant_id c) case_id since 200);
  mret (match list.last rows with Some e => iso (Some (audit_created_at e)) | None => iso since end,
        map _audit_dict rows).

Definition list_audit_events (merchant_id : option UUID) (merchant_slug : option string)
  (f : AuditEventRepository.AuditFilter) (page size : nat) : Op Page :=
  merchant ← required_merchant merchant_id merchant_slug;
  '(rows, total) ← gets (AuditEventRepository.page_events merchant f ((page - 1) * size) size);
  mret (mk_Page (map _audit_dict rows) page size total).

(** One row of the approval queue. *)
Definition approval_item (w : World) (kv : UUID * Approval) : dict :=
  let '(_, row) := kv in
  let c := w_cases w !! approval_recovery_case_id row in
  let customer := c ≫= fun c => w_customers w !! case_customer_id c in
  let action := approval_recovery_action_id row ≫= fun a => w_actions w !! a in
  let meta := action ≫= action_metadata_json in
  let either a b := match meta with Some m => py_or (dict_get a m) (dict_get b m) | None => JNull end in
  dict_update (_approval_dict kv)
    [("case", match c with
              | Some c => JObj [("id", JStr (uuid_str (approval_recovery_case_id row)));
                                ("status", JStr (value (case_status c)));
                                ("amount_at_risk", JStr (money (case_amount_at_risk c)));
                                ("currency", JStr (case_currency c))]
              | None => JNull
              end);
     ("customer", match customer with
                  | Some c => JObj [("full_name", opt_str (customer_full_name c)); ("email", opt_str (customer_email c))]
                  | None => JNull
                  end);
     ("proposed_action", opt_str (action_action_type <$> action));
     ("amount", match action with
                | Some a => money_or_none (action_amount a)
                | None => money_or_none (case_amount_at_risk <$> c)
                end);
     ("risk", opt_str ((fun a => value (action_risk_level a)) <$> action));
     ("expected_value", match either "expected_recovery" "expected_value" with
                        | JNull => JNull
                        | v => JStr (py_str v)
                        end);
     ("reason", py_or (opt_str (approval_decision_reason row)) (either "policy_reason" "reason"))].

Definition list_approvals (merchant_id : option UUID) (merchant_slug status : option string) (page size : nat)
  : Op Page :=
  merchant ← required_merchant merchant_id merchant_slug;
  w ← get;
  let found := rows_where (fun _ a => same (approval_merchant_id a) merchant
    && (negb (nonempty (default "" status)) || String.eqb (value (approval_status a)) (default "" status)))
    (w_approvals w) in
  mret (mk_Page (map (approval_item w) (take size (drop ((page - 1) * size) (sort_by newest_approval found))))
          page size (length found)).

Section Views.
(** [created_at] of the rows that leave it out. *)
Context (decided_at : nat -> Z) (case_created_at call_created_at run_created_at : UUID -> Z).

Definition tool_call_dict (kv : UUID * ToolCall) : dict :=
  let '(id, t) := kv in
  [("id", JStr (uuid_str id)); ("tool_name", JStr (call_tool_name t)); ("tool_version", JStr (call_tool_version t));
   ("status", JStr (value (call_status t))); ("request_payload", public_json (call_request_payload t));
   ("response_payload", public_json (call_response_payload t));
   ("idempotency_key", opt_str (call_idempotency_key t)); ("correlation_id", opt_str (call_correlation_id t));
   ("error_code", opt_str (call_error_code t)); ("error_message", opt_str (call_error_message t));
   ("created_at", iso (Some (call_created_at id)))].

Definition list_tool_calls (case_id : UUID) (merchant : option UUID) : Op (list dict) :=
  _require_case case_id merchant;;
  rows ← gets (fun w => sort_by (on_key Z.compare (fun kv => call_created_at kv.1))
                          (rows_where (fun _ t => same (call_recovery_case_id t) (Some case_id)) (w_tool_calls w)));
  mret (map tool_call_dict rows).

(** The newest decision of the case, with its [created_at]; the identifier of the row is not
    part of the model. *)
Definition newest_decision (case_id : UUID) (w : World) : option (Z * RecoveryDecision) :=
  head (sort_by (reversed (on_key Z.compare fst))
    (List.filter (fun td => same (decision_recovery_case_id td.2) case_id)
       (imap (fun i d => (decided_at i, d)) (w_decisions w)))).

Definition _decision_dict (td : Z * RecoveryDecision) : dict :=
  let '(t, d) := td in
  [("selected_action", JStr (decision_selected_action d));
   ("selected_expected_value", money_or_none (decision_selected_expected_value d));
   ("policy_verdict", opt_str (decision_policy_verdict d)); ("explanation", opt_str (decision_explanation d));
   ("model_version", opt_str (decision_model_version d));
   ("decision_version", JStr (decision_decision_version d));
   ("candidate_actions", JObj (decision_candidate_actions d));
   ("expected_values", JObj (decision_expected_values d));
   ("decision_factors", public_json (decision_decision_factors d)); ("created_at", iso (Some t))].

Definition json_or_none {A} (f : A -> json) (o : option A) : json :=
  match o with Some a => f a | None => JNull end.

Definition payment_json (kv : UUID * Payment) : json :=
  let '(id, p) := kv in
  JObj [("id", JStr (uuid_str id)); ("status", JStr (value (payment_status p)));
        ("amount", JStr (money (payment_amount p))); ("currency", JStr (payment_currency p));
        ("failure_reason", opt_str (payment_failure_reason p)); ("failure_code", opt_str (payment_failure_code p));
        ("payment_method", opt_str (payment_payment_method p)); ("provider", JStr (payment_provider p));
        ("provider_payment_id", opt_str (payment_provider_payment_id p));
        ("provider_order_id", opt_str (payment_provider_order_id p));
        ("captured_at", iso (payment_captured_at p)); ("failed_at", iso (payment_failed_at p))].

(** A row found by a query, with its key. *)
Definition with_row {A} (table : gmap UUID A) (id : option UUID) : option (UUID * A) :=
  i ← id; r ← table !! i; Some (i, r).

Definition newest_evaluations (case_id : UUID) (w : World) : list (UUID * PolicyEvaluation) :=
  take 20 (sort_by (reversed (on_key Z.compare (fun kv => evaluation_evaluated_at kv.2)))
    (rows_where (fun _ e => same (evaluation_recovery_case_id e) (Some case_id)) (w_evaluations w))).

Definition case_detail (case_id : UUID) (c : RecoveryCase) (w : World) : dict :=
  let customer := with_row (w_customers w)
    (CustomerRepository.get_customer (case_merchant_id c) (case_customer_id c) w) in
  let payment := with_row (w_payments w)
    (p ← case_payment_id c; PaymentRepository.get_payment (case_merchant_id c) p w) in
  let decision := newest_decision case_id w in
  let predictions := predictions_for_case case_id w in
  let actions := sort_by (reversed (on_key Z.compare (fun kv => action_created_at kv.2)))
    (rows_where (fun _ a => same (action_recovery_case_id a) case_id) (w_actions w)) in
  let approvals := sort_by newest_approval
    (rows_where (fun _ a => same (approval_recovery_case_id a) case_id) (w_approvals w)) in
  let pending := head (List.filter (fun kv => same (approval_status kv.2) ApprovalStatus.PENDING) approvals) in
  [("case", JObj (_case_row case_created_at case_id c (snd <$> customer) (snd <$> payment) (snd <$> decision)
                    (head predictions)));
   ("customer", JObj [("id", opt_uuid (fst <$> customer));
                      ("full_name", opt_str (customer ≫= fun kv => customer_full_name kv.2));
                      ("email", opt_str (customer ≫= fun kv => customer_email kv.2));
                      ("phone", opt_str (customer ≫= fun kv => customer_phone kv.2));
                      ("external_id", opt_str (customer ≫= fun kv => customer_external_id kv.2));
                      ("lifetime_value", money_or_none ((fun kv => customer_lifetime_value kv.2) <$> customer))]);
   ("payment", json_or_none payment_json payment);
   ("verification", JObj [("verified_payment_id", opt_uuid (case_verified_payment_id c));
                          ("last_mismatch_reason", opt_str (case_last_mismatch_reason c));
                          ("amount_recovered", JStr (money (case_amount_recovered c)));
                          ("amount_at_risk", JStr (money (case_amount_at_risk c)))]);
   ("selected_action", opt_str (td ← decision; if String.eqb (decision_selected_action td.2) "NONE" then None
                                               else Some (decision_selected_action td.2)));
   ("policy_verdict", opt_str (decision ≫= fun td => decision_policy_verdict td.2));
   ("approval", json_or_none (fun kv => JObj (_approval_dict kv)) pending);
   ("approvals", JList (map (fun kv => JObj (_approval_dict kv)) approvals));
   ("actions", JList (map (fun kv => JObj (_action_dict kv)) actions));
   ("policy_evaluations", JList (map (fun kv => JObj (_policy_eval_dict kv)) (newest_evaluations case_id w)));
   ("predictions", JList (map (fun p => JObj (prediction_dict p)) predictions));
   ("decision", json_or_none (fun td => JObj (_decision_dict td)) decision)].

Definition get_case_detail (case_id : UUID) (merchant : option UUID) : Op dict :=
  c ← _require_case case_id merchant;
  gets (case_detail case_id c).

(** *** [get_case_decision] *)

(** The newest run of the case by one of the agents. *)
Definition newest_run (case_id : UUID) (agents : list string) (w : World) : option AgentRun :=
  snd <$> head (sort_by (reversed (on_key Z.compare (fun kv => run_created_at kv.1)))
    (rows_where (fun _ r => same (run_recovery_case_id r) (Some case_id) && mem_str (run_agent_name r) agents)
       (w_agent_runs w))).

Definition DETERMINISTIC : string := "DETERMINISTIC_FALLBACK".

(** What is told of the agents' reasoning. *)
Record Reasoning : Type := mk_Reasoning {
  rs_source : string;
  rs_diagnosis : option dict;
  rs_explanation : json;
  rs_confidence : json;
  rs_evidence : list string;
}.

(** [str(a or b or ...)] of values that may be absent. *)
Definition reasoning_of_output (explanation : json) (output : dict) : Reasoning :=
  let diagnosis := as_dict (dict_get "diagnosis" output) in
  let '(explanation, source) := match dict_get "explanation" output with
    | JObj expl => (JStr (py_str (py_or (py_or (dict_get "reason" expl) explanation) (JStr ""))),
                    py_str (py_or (dict_get "source" expl) (JStr DETERMINISTIC)))
    | _ => (explanation, DETERMINISTIC)
    end in
  let '(source, confidence, evidence) := match diagnosis with
    | Some d => (py_str (py_or (dict_get "source" d) (JStr source)), dict_get "confidence" d,
                 match dict_get "evidence" d with JList l => map py_str l | _ => [] end)
    | None => (source, JNull, [])
    end in
  let source := match dict_get "fallbacks" output with
    | JList (_ :: _) => DETERMINISTIC
    | _ => match diagnosis with
           | Some d => match dict_get "source" d with JStr "LLM" => "LLM" | _ => source end
           | None => source
           end
    end in
  mk_Reasoning source diagnosis explanation confidence evidence.

Definition reasoning (case_id : UUID) (decision : option (Z * RecoveryDecision)) (w : World) : Reasoning :=
  let explanation := opt_str (decision ≫= fun td => decision_explanation td.2) in
  match newest_run case_id ["orchestrator"] w ≫= run_output_summary with
  | Some output => reasoning_of_output explanation output
  | None =>
      let source :=
        match newest_run case_id ["orchestrator"; "diagnosis"; "strategy"; "decision_explainer"] w
              ≫= run_decision_factors with
        | Some factors => py_str (py_or (dict_get "source" factors) (JStr DETERMINISTIC))
        | None => DETERMINISTIC
        end in
      mk_Reasoning source None explanation JNull []
  end.

Definition case_decision (case_id : UUID) (w : World) : dict :=
  let decision := newest_decision case_id w in
  let r := reasoning case_id decision w in
  [("case_id", JStr (uuid_str case_id)); ("source", JStr (rs_source r));
   ("source_label", JStr (if String.eqb (rs_source r) "LLM" then "LLM" else "DETERMINISTIC FALLBACK"));
   ("diagnosis", json_or_none (fun d =>
      JObj [("root_cause", dict_get "root_cause" d); ("confidence", rs_confidence r);
            ("evidence", JList (map JStr (rs_evidence r))); ("recoverability", dict_get "recoverability" d)])
      (rs_diagnosis r));
   ("confidence", rs_confidence r); ("evidence", JList (map JStr (rs_evidence r)));
   ("candidate_actions", match decision with
                         | Some td => match dict_get "actions" (decision_candidate_actions td.2) with
                                      | JList l => JList l
                                      | _ => JList []
                                      end
                         | None => JList []
                         end);
   ("model_probabilities", JList (map (fun p => JObj (prediction_dict p)) (predictions_for_case case_id w)));
   ("selected_action", opt_str ((fun td => decision_selected_action td.2) <$> decision));
   ("expected_values", JObj (default [] ((fun td => decision_expected_values td.2) <$> decision)));
   ("policy_result", opt_str (decision ≫= fun td => decision_policy_verdict td.2));
   ("explanation", rs_explanation r); ("decision", json_or_none (fun td => JObj (_decision_dict td)) decision)].

Definition get_case_decision (case_id : UUID) (merchant : option UUID) : Op dict :=
  _require_case case_id merchant;;
  gets (case_decision case_id).
End Views.

(** ** The approval queue *)

Section Queue.
Context (environ : list (string * string)).
Context (enqueue : list UUID -> UUID -> option (list UUID)) (race_for_key : World -> World).
Context (predictor : dict -> string -> result predictor_error RecoveryProbability).
Context (ml_context_of : UUID -> Z -> option UUID -> option UUID -> World -> result predictor_error dict).
Context (as_int : json -> option Z) (datetime_json : datetime -> string).

(** The approval with the action it is about. *)
Definition _load_approval (approval_id : UUID) : Op (Approval * UUID) :=
  found ← gets (fun w => w_approvals w !! approval_id);
  match found with
  | None => mthrow (OperatorError "APPROVAL_NOT_FOUND" "Approval was not found")
  | Some a =>
      match approval_recovery_action_id a with
      | None => mthrow (OperatorError "ACTION_NOT_FOUND" "Approval has no recovery action")
      | Some action_id => mret (a, action_id)
      end
  end.

(** [body.merchant_id or approval.merchant_id] *)
Definition merchant_or (merchant_id : option UUID) (a : Approval) : option UUID :=
  Some (default (approval_merchant_id a) merchant_id).

Definition approve_from_queue (approval_id : UUID) (merchant_id : option UUID) (actor_id : option string)
  : Op (response ToolExecutionResult) :=
  api_request
    ('(a, action_id) ← _load_approval approval_id;
     settings ← lift (load_recovery_settings environ);
     provider ← lift (get_payment_provider None 42);
     '(result, _) ← approve_action settings enqueue race_for_key id predictor ml_context_of as_int
                      datetime_json (approval_recovery_case_id a) action_id actor_id (value ActorType.USER) None
                      (merchant_or merchant_id a) provider;
     mret result).

Definition reject_from_queue (approval_id : UUID) (merchant_id : option UUID) (reason actor_id : option string)
  : Op (response dict) :=
  api_request
    ('(a, action_id) ← _load_approval approval_id;
     lift (load_recovery_settings environ);;
     reject_action (approval_recovery_case_id a) action_id actor_id (value ActorType.USER) reason
       (merchant_or merchant_id a) None).

Definition cancel_from_queue (approval_id : UUID) (merchant_id : option UUID) (reason actor_id : option string)
  : Op (response dict) :=
  api_request
    ('(a, action_id) ← _load_approval approval_id;
     lift (load_recovery_settings environ);;
     cancel_action (approval_recovery_case_id a) action_id actor_id reason (merchant_or merchant_id a) None).
End Queue.

(** ** The routes that show things: [router.py] *)

Section Routes.
Context (decided_at : nat -> Z) (case_created_at call_created_at run_created_at : UUID -> Z).
Context (collate : string -> string -> comparison).

Definition get_command_center (merchant_id : option UUID) (merchant_slug : option string) : Op (response Metrics) :=
  api_request (command_center_metrics decided_at merchant_id merchant_slug).

(** FastAPI checks [page] and [page_size] before the request is served. *)
Definition page_ok (most page size : nat) : bool := ((1 <=? page) && (1 <=? size) && (size <=? most))%nat.
Definition paged {A} (page size : nat) (op : Op A) : Op (response A) :=
  if page_ok 100 page size then api_request op else mthrow (ValidationError "page").

Definition get_recovery_cases (merchant_id : option UUID) (merchant_slug : option string) (f : CaseFilter)
  (sort direction : string) (page size : nat) : Op (response Page) :=
  paged page size
    (list_cases decided_at case_created_at collate merchant_id merchant_slug f sort direction page size).
Definition get_approvals (merchant_id : option UUID) (merchant_slug status : option string) (page size : nat)
  : Op (response Page) :=
  paged page size (list_approvals merchant_id merchant_slug status page size).
Definition get_audit_events (merchant_id : option UUID) (merchant_slug : option string)
  (f : AuditEventRepository.AuditFilter) (page size : nat) : Op (response Page) :=
  paged page size (list_audit_events merchant_id merchant_slug f page size).

(** A view of one case, for the merchant the request may name. *)
Definition case_view {A} (merchant_id : option UUID) (merchant_slug : option string) (view : option UUID -> Op A)
  : Op (response A) :=
  api_request (merchant ← named_merchant merchant_id merchant_slug; view merchant).

Definition get_recovery_case (case_id : UUID) (merchant_id : option UUID) (merchant_slug : option string) :=
  case_view merchant_id merchant_slug (get_case_detail decided_at case_created_at case_id).
Definition get_case_timeline (case_id : UUID) (merchant_id : option UUID) (merchant_slug : option string)
  (since : option Z) :=
  case_view merchant_id merchant_slug (fun m => case_timeline case_id m since).
Definition get_decision (case_id : UUID) (merchant_id : option UUID) (merchant_slug : option string) :=
  case_view merchant_id merchant_slug (get_case_decision decided_at run_created_at case_id).
Definition get_agent_runs (case_id : UUID) (merchant_id : option UUID) (merchant_slug : option string) :=
  case_view merchant_id merchant_slug (list_agent_runs case_id).
Definition get_tool_calls (case_id : UUID) (merchant_id : option UUID) (merchant_slug : option string) :=
  case_view merchant_id merchant_slug (list_tool_calls call_created_at case_id).
End Routes.
