(* ===== verification/Demo.v ===== *)
(** * The demonstrations

    [recoverai_api/operator/demo.py] and its route: a scenario of the simulator, the
    processing of the events it leaves, and what is then done with the cases, in one
    request.  Three kinds construct the tool service with the settings of the API, an
    object without [merge_merchant]. *)
From S2P Require Import Prelude PyStr Uuid Errors Decimal Sorting Json Datetime Enums Rows Store Repositories Config PolicyContext OptimizerService Events Providers Simulator Processing Processor Verification Ingestion Worker ToolData ToolHandlers ToolExecution Approvals EventService OperatorPolicy.
Open Scope stdpp_scope.

(** 1970-01-01T00:00 *)
Definition UNIX_EPOCH : Z := ymd2days 1970 1 1 * DAY.

Definition AttributeError (m : string) : exn := PyError "AttributeError" m.

(** [except ValueError] *)
Definition is_value_error (e : exn) : bool :=
  is_error_type "ValueError" e || is_error_type "ValidationError" e.

(** What [base.merge_merchant(merchant.settings)] does with the [Settings] of the API. *)
Definition no_merge_merchant : exn := AttributeError "'Settings' object has no attribute 'merge_merchant'".

Definition acknowledgement (r : IngestResult) : json := JObj [
  ("accepted", JBool true); ("duplicate", JBool (in_duplicate r)); ("queued", JBool (in_queued r));
  ("event_id", JStr (in_event_id r)); ("webhook_event_id", JStr (uuid_str (in_webhook_event_id r)));
  ("status", JStr (value (in_status r))); ("merchant_id", JStr (uuid_str (in_merchant_id r)));
  ("correlation_id", opt_str (in_correlation_id r))].

Definition demo_case (kv : UUID * RecoveryCase) : json := JObj [
  ("id", JStr (uuid_str kv.1)); ("status", JStr (value (case_status kv.2)));
  ("amount_at_risk", JStr (dec_str (case_amount_at_risk kv.2)));
  ("amount_recovered", JStr (dec_str (case_amount_recovered kv.2)));
  ("case_type", JStr (value (case_case_type kv.2)))].

(** The rows of the cases as they are when the answer is written. *)
Definition _demo_result (kind : string) (acks : list IngestResult) (cases : list UUID) (extra : dict) : Op dict :=
  w ← get;
  mret ([("kind", JStr kind); ("acknowledgements", JList (map acknowledgement acks));
         ("cases", JList (map demo_case (omap (fun id => c ← w_cases w !! id; Some (id, c)) cases)))] ++ extra).

(** [UUID(str(item["case_id"]))] of the items that have one. *)
Fixpoint followup_cases (followups : list dict) : result exn (list UUID) :=
  match followups with
  | [] => mret []
  | item :: rest =>
      if truthy (dict_get "case_id" item)
      then id ← parse_uuid (py_str (dict_get "case_id" item)); ids ← followup_cases rest; mret (id :: ids)
      else followup_cases rest
  end.

Section Demo.
(** The process environment; the queue, and whether it is one that remembers its jobs
    ([ImmediateEventQueue]); what others commit meanwhile, which respects the lock on a
    webhook row or a case; the code outside the repository. *)
Context (environ : list (string * string)) (simulation_seed : Z).
Context (enqueue : list UUID -> UUID -> option (list UUID)) (remembers : bool).
Context (others newcomers : World -> World) (meanwhile_hook meanwhile_case : UUID -> World -> World).
Context (predictor : dict -> string -> result predictor_error RecoveryProbability).
Context (ml_context_of : UUID -> Z -> option UUID -> option UUID -> World -> result predictor_error dict).
Context (as_int : json -> option Z) (datetime_json : datetime -> string).
(** The order in which a set of identifiers iterates. *)
Context (set_order : list UUID -> list UUID).

(** [seed if seed is not None else int(time()) % 1_000_000] *)
Definition demo_seed (seed : option Z) : Op Z :=
  match seed with
  | Some s => mret s
  | None => now ← utcnow; mret (((now - UNIX_EPOCH) / SECOND) mod 1000000)%Z
  end.

(** The events to process, and the queue they leave. *)
Definition pending_events (queue : list UUID) : Op (list UUID * list UUID) :=
  if remembers then mret (queue, [])
  else
    w ← get;
    mret (map fst (sort_by (on_key Z.compare (fun kv => hook_received_at kv.2))
                     (rows_where (fun _ h => same (hook_status h) WebhookEventStatus.RECEIVED) (w_webhooks w))),
          queue).

Definition drain_event (process_cases : bool) (webhook_id : UUID) : Op (list UUID) :=
  result ← process_webhook_event (meanwhile_hook webhook_id) webhook_id;
  ids ← lift (followup_cases (pr_followups result));
  when process_cases (apply_followups environ (JList (map JObj (pr_followups result)));; mret tt);;
  mret ids.

Definition _drain_and_process (process_cases : bool) (queue : list UUID) : Op (list UUID * list UUID) :=
  '(webhook_ids, queue) ← pending_events queue;
  ids ← map_each (drain_event process_cases) webhook_ids;
  w ← get;
  mret (filter (fun id => is_Some (w_cases w !! id)) (set_order (concat ids)), queue).

(** ** A tool on each case *)

Notation Service := (UUID -> ExecuteArgs -> Outside LocalSimulationProvider
                     -> Op (ToolExecutionResult * Outside LocalSimulationProvider)).

(** [ToolExecutionService(session)] *)
Definition default_service : Service := fun case_id a out =>
  settings ← lift (load_recovery_settings environ);
  execute settings enqueue (meanwhile_case case_id) id predictor ml_context_of as_int datetime_json case_id a out.

(** [ToolExecutionService(session, settings=settings, ...)] of the API's settings: the run
    ends where the policy context would merge those of the merchant. *)
Definition run_with_api_settings {A} (spec : ToolSpec) (case_id : UUID) (validated : dict) : Op A :=
  match action_for_tool (spec_name spec) with
  | Some m => lift (_proposed_from_payload m validated);; mret tt
  | None => mret tt
  end;;
  utcnow;;
  c ← get_row w_cases case_id;
  w ← get;
  match MerchantRepository.get_merchant (case_merchant_id c) w with
  | None => mthrow (ValueError ("Merchant " +:+ uuid_str (case_merchant_id c) +:+ " was not found"))
  | Some _ => mthrow no_merge_merchant
  end.

Definition api_settings_service : Service := fun case_id a out =>
  execute_with (meanwhile_case case_id) as_int
    (fun spec case_id _ _ validated record started_at a out =>
       record_run (fun _ => run_with_api_settings spec case_id validated) spec case_id validated record started_at a out)
    case_id a out.

Definition demo_args (c : RecoveryCase) (key action : string) (payload : dict) : ExecuteArgs :=
  mk_ExecuteArgs None (Some action) payload key (Some (case_merchant_id c)) (value ActorType.SYSTEM)
    (Some "demo-operator") None None None None false.

(** The provider is made for each case; [queue] is that of the request when the service is
    given one. *)
Definition demo_execution (service : Service) (prefix : string) (seed : Z) (action : string) (payload : dict)
  (queue : option (list UUID)) (case_id : UUID) : Op (ToolExecutionResult * option (list UUID)) :=
  walk_to_policy_check None (value ActorType.WORKER) case_id;;
  flush;;
  provider ← lift (get_payment_provider None 42);
  c ← get_row w_cases case_id;
  '(result, out) ← service case_id
    (demo_args c (prefix +:+ str_int seed +:+ "-" +:+ uuid_str case_id) action payload) (mk_Outside provider queue);
  mret (result, out_queue out).

Fixpoint demo_executions (service : Service) (prefix : string) (seed : Z) (action : string) (payload : dict)
  (queue : option (list UUID)) (cases : list UUID) : Op (list ToolExecutionResult * option (list UUID)) :=
  match cases with
  | [] => mret ([], queue)
  | id :: cases =>
      '(result, queue) ← demo_execution service prefix seed action payload queue id;
      '(results, queue) ← demo_executions service prefix seed action payload queue cases;
      mret (result :: results, queue)
  end.

Definition executions_json (l : list ToolExecutionResult) : json := JList (map (fun r => JObj (tool_public_dict r)) l).

(** ** [run_operator_demo] *)

Definition or_amount (amount : option Decimal) (cents : Z) : option Decimal :=
  match amount with
  | Some a => if (d_int a =? 0)%Z then Some (mkDec cents (-2)) else Some a
  | None => Some (mkDec cents (-2))
  end.

Section Kinds.
Context (slug : option string) (seed : Z) (amount : option Decimal).

(** A scenario, then the events it leaves. *)
Definition start_demo (scenario : string) (cents : Z) (process_cases : bool) (queue : list UUID)
  : Op (list IngestResult * list UUID * list UUID) :=
  '(acks, queue) ← run_scenario enqueue others newcomers simulation_seed scenario slug (Some seed)
                     (or_amount amount cents) queue;
  '(cases, queue) ← _drain_and_process process_cases queue;
  mret (acks, cases, queue).

Definition seed_entry : string * json := ("seed", JInt seed).

(** [run_demo], [full_recovery] and [failed_recovery]. *)
Definition retry_demo (kind prefix : string) (attempt : Z) (queue : list UUID) : Op dict :=
  '(acks, cases, queue) ← start_demo "A" 49900 true queue;
  '(executions, queue) ← demo_executions api_settings_service prefix seed "RETRY_NOW"
                           [("attempt_number", JInt attempt)] (Some queue) cases;
  '(cases, _) ← _drain_and_process true (default [] queue);
  _demo_result kind acks cases [seed_entry; ("executions", executions_json executions)].

Definition plain_demo (kind : string) (cents : Z) (process_cases : bool) (queue : list UUID) : Op dict :=
  '(acks, cases, _) ← start_demo "A" cents process_cases queue;
  _demo_result kind acks cases [seed_entry].

Definition policy_block_demo (queue : list UUID) : Op dict :=
  '(acks, cases, _) ← start_demo "A" 90000 false queue;
  '(executions, _) ← demo_executions default_service "demo-block-" seed "OFFER_DISCOUNT"
                       [("discount_percent", JStr "50")] None cases;
  _demo_result "policy_block" acks cases [seed_entry; ("executions", executions_json executions)].

Definition verification_demo (queue : list UUID) : Op dict :=
  '(acks, cases, _) ← start_demo "H" 120000 true queue;
  verifications ← map_each (fun id => verify_recovery_case environ id None None None) cases;
  _demo_result "verification_mismatch" acks cases
    [seed_entry; ("verifications", JList (map JObj verifications))].

Definition demo_of (key : string) (queue : list UUID) : option (Op dict) :=
  if mem_str key ["run_demo"; "demo"] then Some (retry_demo "run_demo" "demo-run-" 1 queue)
  else if mem_str key ["failed_payment"; "create_failed_payment"] then Some (plain_demo "failed_payment" 79900 false queue)
  else if mem_str key ["approval"; "create_approval"] then Some (plain_demo "approval" 4000000 true queue)
  else if mem_str key ["policy_block"; "create_policy_block"] then Some (policy_block_demo queue)
  else if mem_str key ["verification_mismatch"; "create_verification_mismatch"] then Some (verification_demo queue)
  else if mem_str key ["full_recovery"; "successful_recovery"] then Some (retry_demo "full_recovery" "demo-full-" 1 queue)
  else if mem_str key ["failed_recovery"] then Some (retry_demo "failed_recovery" "demo-failed-" 2 queue)
  else None.
End Kinds.

Definition run_operator_demo (kind : string) (slug : option string) (seed : option Z)
  (amount : option Decimal) (queue : list UUID) : Op dict :=
  seed ← demo_seed seed;
  merchant ← resolve_merchant None slug false;
  w ← get;
  let slug := match merchant ≫= (fun id => w_merchants w !! id) with
              | Some m => Some (merchant_slug m)
              | None => slug
              end in
  match demo_of slug seed amount (lower (strip kind)) queue with
  | Some op => op
  | None => mthrow (ValueError ("Unknown demo kind: " +:+ kind))
  end.

(** The route: a [ValueError] is answered too. *)
Definition operator_demo (kind : string) (slug : option string) (seed : option Z)
  (amount : option Decimal) (queue : list UUID) : Op (response dict) :=
  transaction (respond_to (fun e => is_domain_error e || is_value_error e)
    (run_operator_demo kind slug seed amount queue)).
End Demo.
