(* ===== verification/System.v ===== *)
(** * The whole system

    The entry points of the API and of the worker as requests that each run in a
    transaction of their own, with the requests other processes serve while one is
    under way.  Whatever is served, in whatever order, interleaved or repeated, is
    a run of the abstract system; the guarantees below follow. *)
From S2P Require Import Prelude PyStr Uuid Errors Decimal Json Datetime Enums Rows Store Repositories StateMachine Transitions Config Optimizer PolicyContext PolicyEngine OptimizerService Events Simulator AgentData VerificationTypes Processing Processor Verification Lifecycle Refinement VerificationProps ProcessingProps Invariants Ingestion Worker ToolExecution Approvals EventService Agents ToolRefinement Orchestrator OperatorPolicy Operator Demo.
Open Scope stdpp_scope.

#[export] Instance webhook_eq_dec : EqDecision WebhookEvent.
Proof. solve_decision. Defined.
#[export] Instance case_eq_dec : EqDecision RecoveryCase.
Proof. solve_decision. Defined.

(** What the system uses of code outside the repository: the trained model, the features of
    a case it is given, pydantic's conversions and the reading of JSON text; with the settings
    of the optimizer, the seed of the simulations, the order in which a set of identifiers
    iterates and the kind of the queue. *)
Record Externals : Type := mk_Externals {
  ext_predictor : dict -> string -> result predictor_error RecoveryProbability;
  ext_context_of : UUID -> World -> dict;
  ext_tool_context_of : UUID -> Z -> option UUID -> option UUID -> World -> result predictor_error dict;
  ext_as_int : json -> option Z;
  ext_datetime_json : datetime -> string;
  ext_json_loads : string -> option json;
  ext_as_bool : json -> option bool;
  ext_as_float : json -> option string;
  ext_optimizer_settings : OptimizerSettings;
  ext_simulation_seed : Z;
  ext_set_order : list UUID -> list UUID;
  ext_queue_remembers : bool;
}.

(** [others] are the requests other processes commit during this one: while an event is
    ingested, before its row is inserted; while an event is processed, before a case is
    inserted; while a tool is executed, by an operator or by the agents, before its
    idempotency key is recorded. [newcomers] are those committed before a demonstration
    merchant or customer is inserted. *)
Inductive request : Type :=
  | Ingest (event : ProviderEvent) (merchant_id : UUID) (request_id : option string)
      (others : list request)
  | ProcessEvent (webhook_event_id : string) (last_retry : bool) (others : list request)
  | ProcessCase (case_id : string)
  | VerifyCase (case_id : string) (payment_id webhook_event_id : option string)
  | ApiProcess (case_id : UUID)
  | ApiVerify (case_id : UUID)
  | OptimizeCase (case_id : UUID)
  | EvaluateAction (case_id : UUID) (action : string) (merchant_id : option UUID) (input : dict)
  | ExecuteAction (case_id : UUID) (idempotency_key : string) (tool_name action : option string)
      (merchant_id : option UUID) (input : dict) (actor_id : option string) (action_id : option UUID)
      (others : list request)
  | ApproveAction (case_id action_id : UUID) (merchant_id : option UUID) (actor_id : option string)
      (others : list request)
  | RejectAction (case_id action_id : UUID) (merchant_id : option UUID) (reason actor_id : option string)
  | CancelAction (case_id action_id : UUID) (merchant_id : option UUID) (reason actor_id : option string)
  | RunAgents (case_id : UUID) (merchant_id : option UUID) (execute : bool) (others : list request)
  | AskAnalyst (merchant_id : UUID) (question : string)
  | SimulatorWebhook (body : WebhookBody) (request_id : option string) (newcomers others : list request)
  | SimulateEvent (body : SimulationBody) (request_id : option string) (newcomers others : list request)
  | SimulateScenario (scenario : string) (merchant_slug : option string) (seed : option Z)
      (amount : option Decimal) (newcomers others : list request)
  | UpdatePolicy (merchant_id : option UUID) (merchant_slug : option string) (body : PolicySettingsBody)
  | ApproveFromQueue (approval_id : UUID) (merchant_id : option UUID) (actor_id : option string)
      (others : list request)
  | RejectFromQueue (approval_id : UUID) (merchant_id : option UUID) (reason actor_id : option string)
  | CancelFromQueue (approval_id : UUID) (merchant_id : option UUID) (reason actor_id : option string)
  | RunDemo (kind : string) (merchant_slug : option string) (seed : option Z) (amount : option Decimal)
      (newcomers others : list request).

(** [SELECT ... FOR UPDATE] holds a row until the transaction ends: what would change it
    does not get to commit meanwhile. *)
Definition behind_lock (hook : option UUID) (f : World -> World) (w : World) : World :=
  match hook with
  | Some hook => if decide (w_webhooks (f w) !! hook = w_webhooks w !! hook) then f w else w
  | None => f w
  end.
Definition behind_case_lock (case_id : UUID) (f : World -> World) (w : World) : World :=
  if decide (w_cases (f w) !! case_id = w_cases w !! case_id) then f w else w.
(** The case of an approval is locked while its action is executed. *)
Definition behind_approval_lock (approval_id : UUID) (f : World -> World) (w : World) : World :=
  match w_approvals w !! approval_id with
  | Some a => behind_case_lock (approval_recovery_case_id a) f w
  | None => w
  end.

Section System.
Context (environ : list (string * string)) (worker_max_retries : Z).
Context (enqueue_event : list UUID -> UUID -> option (list UUID)).
Context (enqueue_job : list QueuedJob -> QueuedJob -> option (list QueuedJob)).
Context (ext : Externals).

Fixpoint serve (r : request) : World -> World :=
  match r with
  | Ingest event merchant_id request_id others =>
      final (transaction (ingest enqueue_event
        (fun w => fold_left (fun w r => serve r w) others w) event merchant_id [] request_id))
  | ProcessEvent id last_retry others =>
      final (process_provider_event environ
        (behind_lock (uuid_of_str id) (fun w => fold_left (fun w r => serve r w) others w))
        true worker_max_retries enqueue_job (negb last_retry) [] id)
  | ProcessCase id => final (process_recovery_case_job environ true id)
  | VerifyCase id payment_id hook => final (verify_recovery_case_job environ true id payment_id hook)
  | ApiProcess id => final (api_process_case environ id)
  | ApiVerify id => final (api_verify_case environ id)
  | OptimizeCase id =>
      final (api_optimize_case environ (ext_predictor ext) (ext_optimizer_settings ext)
               (ext_context_of ext) id)
  | EvaluateAction id action merchant_id input =>
      final (api_evaluate_action environ id action merchant_id input)
  | ExecuteAction id key tool_name action merchant_id input actor_id action_id others =>
      final (api_execute_action environ enqueue_event
               (behind_case_lock id (fun w => fold_left (fun w r => serve r w) others w))
               (ext_predictor ext) (ext_tool_context_of ext) (ext_as_int ext) (ext_datetime_json ext)
               id key tool_name action merchant_id input actor_id action_id)
  | ApproveAction id action_id merchant_id actor_id others =>
      final (api_approve_action environ enqueue_event
               (behind_case_lock id (fun w => fold_left (fun w r => serve r w) others w))
               (ext_predictor ext) (ext_tool_context_of ext) (ext_as_int ext) (ext_datetime_json ext)
               id action_id merchant_id actor_id)
  | RejectAction id action_id merchant_id reason actor_id =>
      final (api_reject_action environ id action_id merchant_id reason actor_id)
  | CancelAction id action_id merchant_id reason actor_id =>
      final (api_cancel_action environ id action_id merchant_id reason actor_id)
  | RunAgents id merchant_id execute others =>
      final (api_run_agents environ enqueue_event
               (behind_case_lock id (fun w => fold_left (fun w r => serve r w) others w))
               (ext_predictor ext) (ext_optimizer_settings ext) (ext_context_of ext)
               (ext_tool_context_of ext) (ext_as_int ext) (ext_datetime_json ext) (ext_json_loads ext)
               (ext_as_bool ext) (ext_as_float ext) id merchant_id execute)
  | AskAnalyst merchant_id question =>
      final (api_ask_analyst environ (ext_json_loads ext) merchant_id question)
  | SimulatorWebhook body request_id newcomers others =>
      final (ingest_simulator_webhook enqueue_event (fun w => fold_left (fun w r => serve r w) others w)
               (fun w => fold_left (fun w r => serve r w) newcomers w) body request_id [])
  | SimulateEvent body request_id newcomers others =>
      final (simulate_event enqueue_event (fun w => fold_left (fun w r => serve r w) others w)
               (fun w => fold_left (fun w r => serve r w) newcomers w) (ext_simulation_seed ext) body request_id [])
  | SimulateScenario scenario slug seed amount newcomers others =>
      final (simulate_scenario enqueue_event (fun w => fold_left (fun w r => serve r w) others w)
               (fun w => fold_left (fun w r => serve r w) newcomers w) (ext_simulation_seed ext)
               scenario slug seed amount [])
  | UpdatePolicy merchant_id slug body => final (patch_policy environ merchant_id slug body)
  | ApproveFromQueue id merchant_id actor_id others =>
      final (approve_from_queue environ enqueue_event
               (behind_approval_lock id (fun w => fold_left (fun w r => serve r w) others w))
               (ext_predictor ext) (ext_tool_context_of ext) (ext_as_int ext) (ext_datetime_json ext)
               id merchant_id actor_id)
  | RejectFromQueue id merchant_id reason actor_id =>
      final (reject_from_queue environ id merchant_id reason actor_id)
  | CancelFromQueue id merchant_id reason actor_id =>
      final (cancel_from_queue environ id merchant_id reason actor_id)
  | RunDemo kind slug seed amount newcomers others =>
      final (operator_demo environ (ext_simulation_seed ext) enqueue_event (ext_queue_remembers ext)
               (fun w => fold_left (fun w r => serve r w) others w)
               (fun w => fold_left (fun w r => serve r w) newcomers w)
               (fun hook => behind_lock (Some hook) (fun w => fold_left (fun w r => serve r w) others w))
               (fun case_id => behind_case_lock case_id (fun w => fold_left (fun w r => serve r w) others w))
               (ext_predictor ext) (ext_tool_context_of ext) (ext_as_int ext) (ext_datetime_json ext)
               (ext_set_order ext) kind slug seed amount [])
  end.

(** A schedule of requests. *)
Definition serve_all (rs : list request) (w : World) : World :=
  fold_left (fun w r => serve r w) rs w.
End System.

(** The requests served while a request is under way. *)
Definition served_meanwhile (r : request) : list request :=
  match r with
  | Ingest _ _ _ others | ProcessEvent _ _ others | ExecuteAction _ _ _ _ _ _ _ _ others
  | ApproveAction _ _ _ _ others | RunAgents _ _ _ others | ApproveFromQueue _ _ _ others => others
  | SimulatorWebhook _ _ newcomers others | SimulateEvent _ _ newcomers others
  | SimulateScenario _ _ _ _ newcomers others | RunDemo _ _ _ _ newcomers others => newcomers ++ others
  | _ => []
  end.

(** Induction that reaches the requests served meanwhile. *)
Lemma request_ind_nested (P : request -> Prop) :
  (forall r, Forall P (served_meanwhile r) -> P r) -> forall r, P r.
Proof.
  intros H. fix IH 1. assert (forall rs, Forall P rs) as IHs.
  { fix IHs 1. intros [|r rs]; constructor; [apply IH|apply IHs]. }
  intros []; apply H; simpl; try apply Forall_app_2; try apply IHs; constructor.
Qed.

(** ** Transactions are runs *)

Lemma runs_rolled_back settings A w w' :
  L_time ∈ A -> runs settings A w w' -> runs settings A w (rolled_back w w').
Proof. intros HA H. apply runs_time in H as [H1 H2]. by apply runs_later. Qed.

Lemma runs_transaction {B} settings A (op : Op B) :
  L_time ∈ A -> preserves (runs settings A) op -> preserves (runs settings A) (transaction op).
Proof.
  intros HA Hop w. specialize (Hop w). unfold final, transaction in *.
  destruct (op w) as [w' [b|e]]; simpl in *; [|by apply runs_rolled_back].
  destruct (db_checks w'); simpl; [done|by apply runs_rolled_back].
Qed.

Lemma time_in_all : L_time ∈ ALL.
Proof. unfold ALL, VERIFIER, PROCESSOR. set_solver. Qed.
Lemma party_in_all : L_party ∈ ALL.
Proof. unfold ALL. set_solver. Qed.
Lemma verifier_in_all : VERIFIER ⊆ ALL.
Proof. unfold ALL. set_solver. Qed.
Lemma processor_in_all : PROCESSOR ⊆ ALL.
Proof. unfold ALL, VERIFIER. set_solver. Qed.

(** ** The event routes, for any labels that receive events and make parties *)
Section EventRoutes.
Context (settings : RecoverySettings) (A : list label) (HA : INGESTION ⊆ A) (Hparty : L_party ∈ A).
Context (enqueue_event : list UUID -> UUID -> option (list UUID)) (newcomers others : World -> World).
Notation R := (runs settings A).
Context (Hnew : forall w, R w (newcomers w)) (Hothers : forall w, R w (others w)).

Lemma runs_events_request {B} (op : Op B) : preserves R op -> preserves R (events_request op).
Proof using HA.
  intros H. apply runs_transaction; [apply HA; unfold INGESTION; left|]. unfold respond_to. solve_pres.
Qed.

Lemma runs_simulator_webhook b r q : preserves R (ingest_simulator_webhook enqueue_event others newcomers b r q).
Proof using All.
  apply runs_events_request.
  apply preserves_bind; [apply _|by apply (runs_webhook_parties settings A HA Hparty enqueue_event others newcomers)|].
  intros p. apply preserves_bind; [apply _|by apply runs_webhook_event|]. intros event. by apply runs_ingest.
Qed.

Lemma runs_simulate_event d b r q : preserves R (simulate_event enqueue_event others newcomers d b r q).
Proof using All.
  apply runs_events_request.
  apply preserves_bind; [apply _|by apply (runs_simulation_parties settings A HA Hparty enqueue_event others newcomers)|].
  intros p. by apply (runs_simulated settings A HA Hparty enqueue_event others newcomers).
Qed.

Lemma runs_simulate_scenario d s m seed a q :
  preserves R (simulate_scenario enqueue_event others newcomers d s m seed a q).
Proof using All.
  apply runs_events_request. by apply (runs_scenario settings A HA Hparty enqueue_event others newcomers).
Qed.
End EventRoutes.

Section Serving.
Context (environ : list (string * string)) (settings : RecoverySettings).
Context (Hsettings : load_recovery_settings environ = Ok settings).
Context (worker_max_retries : Z).
Context (enqueue_event : list UUID -> UUID -> option (list UUID)).
Context (enqueue_job : list QueuedJob -> QueuedJob -> option (list QueuedJob)).
Context (ext : Externals).
Notation R := (runs settings ALL).
Notation serve := (serve environ worker_max_retries enqueue_event enqueue_job ext).
Notation serve_all := (serve_all environ worker_max_retries enqueue_event enqueue_job ext).

#[local] Hint Resolve time_in_all runs_get_row : pres.

(** The settings a job loads are those of its environment. *)
Lemma loaded {B} (f : RecoverySettings -> Op B) :
  preserves R (f settings) -> preserves R (lift (load_recovery_settings environ) ≫= f).
Proof using Hsettings. rewrite Hsettings. done. Qed.

Lemma runs_process id correlation_id :
  preserves R (process_recovery_case environ id correlation_id).
Proof using Hsettings.
  apply loaded. unfold process.
  assert (preserves R (lock_recovery_case id)) by apply runs_lock.
  assert (forall i, preserves R (process_locked_case settings correlation_id (value ActorType.WORKER) i)).
  { intros i. eapply preserves_mono; [apply processor_in_all|apply runs_process_locked_case]. }
  solve_pres.
Qed.

Lemma runs_verify id payment_id hook correlation_id :
  preserves R (verify_recovery_case environ id payment_id hook correlation_id).
Proof using Hsettings.
  apply loaded. apply preserves_bind; [apply _| |solve_pres].
  eapply preserves_mono; [apply verifier_in_all|apply runs_verify_case].
Qed.
#[local] Hint Resolve runs_process runs_verify : pres.

Lemma runs_require_database b m : preserves R (require_database b m).
Proof using. unfold require_database. solve_pres. Qed.
#[local] Hint Resolve runs_require_database : pres.

Lemma runs_apply_followups f : preserves R (apply_followups environ f).
Proof using Hsettings.
  unfold apply_followups, apply_followup. destruct f; solve_pres.
Qed.

Lemma runs_process_job b id : preserves R (process_recovery_case_job environ b id).
Proof using Hsettings.
  unfold process_recovery_case_job. solve_pres. apply runs_transaction; [apply time_in_all|]. solve_pres.
Qed.

Lemma runs_verify_job b id p h : preserves R (verify_recovery_case_job environ b id p h).
Proof using Hsettings.
  unfold verify_recovery_case_job. solve_pres. apply runs_transaction; [apply time_in_all|]. solve_pres.
Qed.

(** The event job, when what runs meanwhile is a run that respects the lock. *)
Lemma runs_event_job concurrent will_retry queue text :
  (forall w, runs settings ALL w (concurrent w)) ->
  (forall hook w, uuid_of_str text = Some hook ->
     w_webhooks (concurrent w) !! hook = w_webhooks w !! hook) ->
  preserves R (process_provider_event environ concurrent true worker_max_retries enqueue_job
                 will_retry queue text).
Proof using Hsettings.
  intros Hrely Hlock.
  assert (preserves R (transaction (id ← lift (parse_uuid text); process_webhook_event concurrent id))).
  { apply runs_transaction; [apply time_in_all|]. intros w. apply from_lift; [apply _|].
    unfold parse_uuid. intros id Hid. destruct (uuid_of_str text) as [u|] eqn:Hu; [|done].
    injection Hid as <-. apply runs_process_webhook_event; [done|]. intros v. by apply Hlock. }
  assert (preserves R (transaction (id ← lift (parse_uuid text);
            mark_dead_letter id "bounded retries exhausted"))).
  { apply runs_transaction; [apply time_in_all|]. pose proof runs_mark_dead_letter. solve_pres. }
  assert (forall f, preserves R (_apply_followups_now environ true f)).
  { intros f. apply preserves_bind; [apply _| |solve_pres].
    apply runs_transaction; [apply time_in_all|apply runs_apply_followups]. }
  unfold process_provider_event. solve_pres.
Qed.

Lemma behind_lock_rely hook f w : R w (f w) -> R w (behind_lock hook f w).
Proof using.
  intros H. unfold behind_lock. destruct hook; [|done]. by destruct (decide _).
Qed.
Lemma behind_lock_locked text f hook w : uuid_of_str text = Some hook ->
  w_webhooks (behind_lock (uuid_of_str text) f w) !! hook = w_webhooks w !! hook.
Proof using. intros ->. unfold behind_lock. by destruct (decide _). Qed.

Lemma behind_case_lock_rely case_id f w : (forall v, R v (f v)) -> R w (behind_case_lock case_id f w).
Proof using. intros H. unfold behind_case_lock. destruct (decide _); [done|reflexivity]. Qed.

Lemma runs_fold rs w : Forall (fun r => forall w, R w (serve r w)) rs ->
  R w (fold_left (fun w r => serve r w) rs w).
Proof using.
  intros H. revert w. induction H as [|r rs Hr _ IH]; intros w; simpl; [reflexivity|].
  etrans; [apply Hr|apply IH].
Qed.

(** ** The recovery API *)

Lemma runs_api_request {B} (op : Op B) : preserves R op -> preserves R (api_request op).
Proof using.
  intros H. apply runs_transaction; [apply time_in_all|]. unfold respond, respond_to. solve_pres.
Qed.

Lemma runs_prepare case_id : preserves R (_prepare_policy_check environ case_id).
Proof using All.
  unfold _prepare_policy_check. apply preserves_bind; [apply _|apply runs_lock|]. intros i.
  apply preserves_bind; [apply _|solve_pres|]. intros _.
  apply preserves_bind; [apply _| |solve_pres].
  eapply preserves_mono; [apply processor_in_all|apply runs_walk_to_policy_check].
Qed.

Lemma runs_api_execute race id key tool_name action m input actor_id action_id :
  (forall w, R w (race w)) ->
  preserves R (api_execute_action environ enqueue_event race (ext_predictor ext) (ext_tool_context_of ext)
                 (ext_as_int ext) (ext_datetime_json ext) id key tool_name action m input actor_id action_id).
Proof using All.
  intros Hrace. apply runs_api_request. apply preserves_bind; [apply _|apply runs_prepare|]. intros _.
  apply loaded. apply preserves_bind; [apply _|solve_pres|]. intros p.
  apply preserves_bind; [apply _| |intros []; solve_pres].
  by apply (runs_execute settings ALL tools_in_all).
Qed.

Lemma runs_api_approve race id action_id m actor_id :
  (forall w, R w (race w)) ->
  preserves R (api_approve_action environ enqueue_event race (ext_predictor ext) (ext_tool_context_of ext)
                 (ext_as_int ext) (ext_datetime_json ext) id action_id m actor_id).
Proof using All.
  intros Hrace. apply runs_api_request. apply loaded. apply preserves_bind; [apply _|solve_pres|]. intros p.
  apply preserves_bind; [apply _| |intros []; solve_pres].
  by apply (runs_approve_action settings ALL tools_in_all).
Qed.

Lemma runs_api_agents race id m x :
  (forall w, R w (race w)) ->
  preserves R (api_run_agents environ enqueue_event race (ext_predictor ext) (ext_optimizer_settings ext)
                 (ext_context_of ext) (ext_tool_context_of ext) (ext_as_int ext) (ext_datetime_json ext)
                 (ext_json_loads ext) (ext_as_bool ext) (ext_as_float ext) id m x).
Proof using All.
  intros Hrace. apply runs_api_request. apply preserves_bind; [apply _|solve_pres|]. intros s.
  apply loaded. apply preserves_bind; [apply _|solve_pres|]. intros p.
  apply preserves_bind; [apply _| |intros []; solve_pres].
  by apply (runs_run_case settings ALL agents_in_all).
Qed.

Lemma runs_api_analyst m q : preserves R (api_ask_analyst environ (ext_json_loads ext) m q).
Proof using All.
  apply runs_api_request. unfold answer_analyst. solve_pres.
Qed.

(** ** The policy routes and the approval queue *)

Lemma runs_patch_policy m s b : preserves R (patch_policy environ m s b).
Proof using All.
  unfold patch_policy. destruct (in_range b); [|solve_pres]. apply runs_api_request.
  apply preserves_bind; [apply _|apply runs_required_merchant|]. intros i. apply runs_update_policy, party_in_all.
Qed.

Lemma runs_load_approval id : preserves R (_load_approval id).
Proof using. unfold _load_approval. solve_pres. Qed.

Lemma runs_queue_approve race id m actor_id :
  (forall w, R w (race w)) ->
  preserves R (approve_from_queue environ enqueue_event race (ext_predictor ext) (ext_tool_context_of ext)
                 (ext_as_int ext) (ext_datetime_json ext) id m actor_id).
Proof using All.
  intros Hrace. apply runs_api_request. apply preserves_bind; [apply _|apply runs_load_approval|]. intros [a i].
  apply loaded. apply preserves_bind; [apply _|solve_pres|]. intros p.
  apply preserves_bind; [apply _| |intros []; solve_pres].
  by apply (runs_approve_action settings ALL tools_in_all).
Qed.

Lemma runs_queue_decision id (decide : Approval -> UUID -> Op dict) :
  (forall a i, preserves R (decide a i)) ->
  preserves R (api_request ('(a, i) ← _load_approval id; lift (load_recovery_settings environ);; decide a i)).
Proof using All.
  intros H. apply runs_api_request. apply preserves_bind; [apply _|apply runs_load_approval|]. intros [a i].
  apply preserves_bind; [apply _|solve_pres|]. intros _. apply H.
Qed.

Lemma runs_reject case_id action_id actor_id at' reason m co :
  preserves R (reject_action case_id action_id actor_id at' reason m co).
Proof using All.
  exact (runs_reject_action (P:=LocalSimulationProvider) settings ALL tools_in_all enqueue_event id id
           (fun v => rtc_refl _ v) (fun v => rtc_refl _ v) (ext_predictor ext) (ext_tool_context_of ext) (ext_as_int ext) (ext_datetime_json ext)
           settings case_id action_id actor_id at' reason m co).
Qed.

Lemma behind_approval_lock_rely id f w : (forall v, R v (f v)) -> R w (behind_approval_lock id f w).
Proof using All.
  intros H. unfold behind_approval_lock. destruct (w_approvals w !! id); [by apply behind_case_lock_rely|reflexivity].
Qed.

(** ** The demonstrations *)

Section Demonstrations.
Context (others newcomers : World -> World) (meanwhile_hook meanwhile_case : UUID -> World -> World).
Context (Hothers : forall w, R w (others w)) (Hnew : forall w, R w (newcomers w)).
Context (Hhook : forall hook w, R w (meanwhile_hook hook w)).
Context (Hlock : forall hook w, w_webhooks (meanwhile_hook hook w) !! hook = w_webhooks w !! hook).
Context (Hcase : forall id w, R w (meanwhile_case id w)).

Lemma runs_drain_event b id : preserves R (drain_event environ meanwhile_hook b id).
Proof using All.
  unfold drain_event. apply preserves_bind; [apply _|by apply runs_process_webhook_event|]. intros r.
  pose proof runs_apply_followups. solve_pres.
Qed.

Lemma runs_drain b q : preserves R (_drain_and_process environ (ext_queue_remembers ext) meanwhile_hook
                                      (ext_set_order ext) b q).
Proof using All. pose proof runs_drain_event. unfold _drain_and_process, pending_events. solve_pres. Qed.

Lemma runs_default_service id a out :
  preserves R (default_service environ enqueue_event meanwhile_case (ext_predictor ext) (ext_tool_context_of ext)
                 (ext_as_int ext) (ext_datetime_json ext) id a out).
Proof using All.
  apply loaded. apply (runs_execute settings ALL tools_in_all); [apply Hcase|intros v; reflexivity].
Qed.

Lemma runs_with_api_settings {B} spec id v : preserves R (run_with_api_settings (A:=B) spec id v).
Proof using All. unfold run_with_api_settings. pose proof runs_get_row. solve_pres. Qed.

Lemma runs_api_settings_service id a out :
  preserves R (api_settings_service meanwhile_case (ext_as_int ext) id a out).
Proof using All.
  apply (runs_execute_with (P:=LocalSimulationProvider) settings ALL tools_in_all enqueue_event
    (meanwhile_case id) (fun w => w) (Hcase id) (fun v => rtc_refl _ v) (ext_predictor ext)
    (ext_tool_context_of ext) (ext_as_int ext) (ext_datetime_json ext) settings).
  intros spec case_id c p v k t x o.
  apply (runs_record_run (P:=LocalSimulationProvider) settings ALL tools_in_all enqueue_event
    (fun w => w) (fun w => w) (fun v => rtc_refl _ v) (fun v => rtc_refl _ v) (ext_predictor ext)
    (ext_tool_context_of ext) (ext_as_int ext) (ext_datetime_json ext) settings).
  intros out'. apply runs_with_api_settings.
Qed.

Lemma runs_demo_executions service prefix seed action payload queue cases :
  (forall id a out, preserves R (service id a out)) ->
  preserves R (demo_executions service prefix seed action payload queue cases).
Proof using All.
  intros Hs. pose proof runs_get_row.
  assert (forall id, preserves R (walk_to_policy_check None (value ActorType.WORKER) id)).
  { intros id. eapply preserves_mono; [apply processor_in_all|apply runs_walk_to_policy_check]. }
  assert (preserves R flush) by solve_pres.
  assert (forall q id, preserves R (demo_execution service prefix seed action payload q id)).
  { intros q id. unfold demo_execution. solve_pres. }
  revert queue. induction cases as [|id cases IH]; intros queue; simpl; solve_pres.
Qed.

Lemma runs_start_demo slug seed amount scenario cents b q :
  preserves R (start_demo environ (ext_simulation_seed ext) enqueue_event (ext_queue_remembers ext) others
                 newcomers meanwhile_hook (ext_set_order ext) slug seed amount scenario cents b q).
Proof using All.
  apply preserves_bind; [apply _| |intros []; pose proof runs_drain; solve_pres].
  by apply (runs_scenario settings ALL ingestion_in_all party_in_all enqueue_event others newcomers).
Qed.

Lemma runs_demo_of slug seed amount key q op :
  demo_of environ (ext_simulation_seed ext) enqueue_event (ext_queue_remembers ext) others newcomers
    meanwhile_hook meanwhile_case (ext_predictor ext) (ext_tool_context_of ext) (ext_as_int ext)
    (ext_datetime_json ext) (ext_set_order ext) slug seed amount key q = Some op ->
  preserves R op.
Proof using All.
  pose proof runs_start_demo. pose proof runs_drain. pose proof runs_demo_executions.
  pose proof runs_api_settings_service. pose proof runs_default_service.
  unfold demo_of. intros Hop.
  repeat (destruct (mem_str _ _); [injection Hop as <-|]); try done;
    unfold retry_demo, plain_demo, policy_block_demo, verification_demo, _demo_result; solve_pres.
Qed.

Lemma runs_operator_demo kind slug seed amount q :
  preserves R (operator_demo environ (ext_simulation_seed ext) enqueue_event (ext_queue_remembers ext) others
    newcomers meanwhile_hook meanwhile_case (ext_predictor ext) (ext_tool_context_of ext) (ext_as_int ext)
    (ext_datetime_json ext) (ext_set_order ext) kind slug seed amount q).
Proof using All.
  apply runs_transaction; [apply time_in_all|]. unfold respond_to.
  apply preserves_try; [apply _| |solve_pres].
  assert (forall o : option (Op dict), (forall op, o = Some op -> preserves R op) -> preserves R
            (match o with Some op => op | None => mthrow (ValueError ("Unknown demo kind: " +:+ kind)) end)) as Hkind.
  { intros [op|] Hop; [by apply Hop|solve_pres]. }
  apply preserves_bind; [apply _| |solve_pres]. unfold run_operator_demo, demo_seed, resolve_merchant.
  do 3 (apply preserves_bind; [apply _|solve_pres|]; intros ?). apply Hkind. intros op. by apply runs_demo_of.
Qed.

End Demonstrations.

(** Serving a request is a run of the abstract system. *)
Lemma runs_serve r w : R w (serve r w).
Proof using All.
  revert w. induction r as [r IH] using request_ind_nested; intros w.
  assert (forall rs, rs ⊆ served_meanwhile r -> forall v, R v (fold_left (fun w r => serve r w) rs v)) as Hwhile.
  { intros rs Hrs v. apply runs_fold. apply list.Forall_forall. intros x Hx.
    rewrite list.Forall_forall in IH. by apply IH, Hrs. }
  assert (forall v, R v (fold_left (fun w r => serve r w) (served_meanwhile r) v)) as Hmeanwhile by auto.
  destruct r; cbn [served_meanwhile] in *; cbn [System.serve].
  - by apply runs_transaction; [apply time_in_all|apply runs_ingest; [apply ingestion_in_all|]].
  - apply runs_event_job.
    + intros v. by apply behind_lock_rely.
    + intros hook v. apply behind_lock_locked.
  - apply runs_process_job.
  - apply runs_verify_job.
  - apply runs_api_request, runs_process.
  - apply runs_api_request, runs_verify.
  - apply runs_api_request. by apply runs_optimize_case, optimizer_in_all.
  - apply runs_api_request. apply preserves_bind; [apply _|apply runs_prepare|]. intros _.
    apply loaded.
    exact (runs_evaluate (P:=LocalSimulationProvider) settings ALL tools_in_all enqueue_event id id
             (fun v => rtc_refl _ v) (fun v => rtc_refl _ v) (ext_predictor ext) (ext_tool_context_of ext)
             (ext_as_int ext) (ext_datetime_json ext) settings _ _ _ _ _ _ _).
  - apply runs_api_execute. intros v. by apply behind_case_lock_rely.
  - apply runs_api_approve. intros v. by apply behind_case_lock_rely.
  - apply runs_api_request. apply preserves_bind; [apply _|solve_pres|]. intros _. apply runs_reject.
  - apply runs_api_request. apply preserves_bind; [apply _|solve_pres|]. intros _.
    unfold cancel_action. apply runs_reject.
  - apply runs_api_agents. intros v. by apply behind_case_lock_rely.
  - apply runs_api_analyst.
  - apply runs_simulator_webhook; [apply ingestion_in_all|apply party_in_all|apply Hwhile; set_solver..].
  - apply runs_simulate_event; [apply ingestion_in_all|apply party_in_all|apply Hwhile; set_solver..].
  - apply runs_simulate_scenario; [apply ingestion_in_all|apply party_in_all|apply Hwhile; set_solver..].
  - apply runs_patch_policy.
  - apply runs_queue_approve. intros v. by apply behind_approval_lock_rely.
  - apply runs_queue_decision. intros a i. apply runs_reject.
  - apply runs_queue_decision. intros a i. unfold cancel_action. apply runs_reject.
  - apply runs_operator_demo; [apply Hwhile; set_solver..| | |].
    + intros hook v. apply behind_lock_rely, Hwhile. set_solver.
    + intros hook v. unfold behind_lock. by destruct (decide _).
    + intros id v. apply behind_case_lock_rely, Hwhile. set_solver.
Qed.

Lemma runs_serve_all rs w : R w (serve_all rs w).
Proof using All. apply runs_fold, Forall_true. intros r v. apply runs_serve. Qed.
End Serving.
