(* ===== verification/Scenario.v ===== *)
(** * A store and a schedule to evaluate

    A merchant with one customer, a failed payment of 100.00, its capture an hour
    later, and the requests that carry them through the system: the definitions
    are executable, and the case ends RECOVERED. *)
From S2P Require Import Prelude PyStr Uuid Errors Decimal Json Datetime Enums Rows Store Repositories StateMachine Transitions Config VerificationTypes Events Processing Processor Verification Lifecycle Invariants Worker Optimizer OptimizerService System.
From Stdlib Require Import Sorted.
Open Scope stdpp_scope.

Definition merchant_1 : UUID := 0x1111%N.
Definition customer_1 : UUID := 0x2222%N.

(** 2026-09-04T12:00:00 UTC *)
Definition noon : Z := 63924120000 * SECOND.

Definition store_0 : World := mk_World
  {[ merchant_1 := mk_Merchant "Acme" "acme" true None None ]}
  {[ customer_1 := mk_Customer merchant_1 (Some "cust_1") None None None ZERO "INR" None ]}
  ∅ [] ∅ ∅ [] ∅ ∅ ∅ [] [] (mk_SideTables ∅ ∅ ∅ ∅ ∅ ∅) (fun n => noon + Z.of_nat n * SECOND)%Z 0 (fun n => N.of_nat n + 0x9000)%N 0.

Definition event_of (event_id event_type : string) (at_ : Z) : ProviderEvent :=
  mk_ProviderEvent "SIMULATOR" event_id event_type (utc at_) "pay_1" "acme"
    [("provider_payment_id", JStr "pay_1"); ("amount", JStr "100.00"); ("currency", JStr "INR");
     ("customer_id", JStr (uuid_str customer_1)); ("api_key", JStr "hidden")]
    (Some true) None.

Definition failed_event : ProviderEvent := event_of "evt_1" "payment.failed" noon.
Definition captured_event : ProviderEvent := event_of "evt_2" "payment.captured" (noon + hours 1).

(** The keys [uuid4] draws for the two events and the case. *)
Definition hook_1 : UUID := 0x9000%N.
Definition case_1 : UUID := 0x9001%N.
Definition hook_2 : UUID := 0x9004%N.
Definition payment_1 : UUID := internal_payment_uuid merchant_1 "SIMULATOR" "pay_1".

Definition recovery_schedule : list request :=
  [Ingest failed_event merchant_1 None [];
   ProcessEvent (uuid_str hook_1) false [];
   ProcessCase (uuid_str case_1);
   Ingest captured_event merchant_1 None [];
   ProcessEvent (uuid_str hook_2) false [];
   VerifyCase (uuid_str case_1) (Some (uuid_str payment_1)) (Some (uuid_str hook_2))].

(** The failed payment again, with a tool that tries to collect it, asked for twice. *)
Definition retry_request : request :=
  ExecuteAction case_1 "key-1" (Some "retry_payment") None None [] (Some "operator") None [].
Definition tool_schedule : list request :=
  [Ingest failed_event merchant_1 None []; ProcessEvent (uuid_str hook_1) false [];
   retry_request; retry_request].

(** The agents take up the case, and are asked about it. *)
Definition agent_schedule : list request :=
  [Ingest failed_event merchant_1 None []; ProcessEvent (uuid_str hook_1) false [];
   RunAgents case_1 None true []; AskAnalyst merchant_1 "How are we doing?"].

(** A queue that takes every job. *)
Definition queue_all {A} (q : list A) (x : A) : option (list A) := Some (q ++ [x]).

(** A model that gives every action the same chance, and the conversions the schedule needs. *)
Definition simple_externals : Externals := mk_Externals
  (fun _ _ => Ok (mk_RecoveryProbability (mkDec 5 (-1)) "model-1" FEATURE_VERSION "ml" []))
  (fun _ _ => []) (fun _ _ _ _ _ => Ok [])
  (fun v => match v with JInt n => Some n | _ => None end)
  isoformat (fun _ => None) (fun v => match v with JBool b => Some b | _ => None end)
  (fun v => match v with JFloat r => Some r | _ => None end) default_optimizer_settings 42 remove_dups true.

(** The schedule served from a store, with the default settings. *)
Notation run rs w := (serve_all [] 3 queue_all queue_all simple_externals rs w).
Notation store_1 := (run recovery_schedule store_0).

(** The row of the recovered case, and of its two events. *)
Definition case_1_row : RecoveryCase := mk_RecoveryCase merchant_1 customer_1 (Some payment_1) None
  None RecoveryCaseType.FAILED_PAYMENT RECOVERED (mkDec 10000 (-2)) (mkDec 10000 (-2)) "INR" 0
  (Some hook_1) 11 (noon + 3 * SECOND) (Some (noon + 35 * SECOND)%Z) None (Some payment_1)
  (Some hook_2).

(** ** The scenario evaluated *)

Lemma default_environment : load_recovery_settings [] = Ok default_settings.
Proof. reflexivity. Qed.

Lemma case_1_recovered : w_cases store_1 !! case_1 = Some case_1_row.
Proof. vm_compute. reflexivity. Qed.

(** A store without cases and attempts is consistent. *)
Lemma consistent_start w : w_cases w = ∅ -> w_attempts w = [] -> consistent w.
Proof.
  intros Hc Ha. split; red; rewrite ?Hc, ?Ha; try (intros; by simplify_map_eq).
  intros pid. constructor.
Qed.

Lemma store_0_consistent : consistent store_0.
Proof. by apply consistent_start. Qed.
