(* ===== verification/DemoTheorems.v ===== *)
(** * What the demonstrations do

    The kinds that collect construct the tool service with the settings of the API, and
    never run a tool; what each kind ends with is evaluated on a store. *)
From S2P Require Import Prelude PyStr Uuid Errors Decimal Json Enums Rows Store Repositories StateMachine Transitions Config Simulator ToolData ToolHandlers Idempotency ToolExecution Approvals ProcessorProps ToolProps Demo System Scenario.
Open Scope stdpp_scope.

(** ** The service of the demonstrations that collect *)
Section Collecting.
Context (meanwhile_case : UUID -> World -> World) (as_int : json -> option Z).

Notation Sim := LocalSimulationProvider.

Lemma returns_nothing {A} spec case_id validated w (Q : A -> World -> Prop) :
  returns (run_with_api_settings spec case_id validated) w Q.
Proof using.
  unfold run_with_api_settings. eapply returns_bind; [apply returns_true|]. intros [] w1 _.
  eapply returns_bind; [apply returns_true|]. intros now w2 _. apply returns_get_row. intros c Hc.
  apply returns_gets. destruct (MerchantRepository.get_merchant _ _); apply returns_throw.
Qed.

Lemma returns_nothing_recorded spec case_id v record t a (out : Outside Sim) w (Q : _ -> World -> Prop) :
  returns (record_run (fun _ => run_with_api_settings spec case_id v) spec case_id v record t a out) w Q.
Proof using.
  unfold record_run. apply returns_get_row. intros c Hc.
  do 2 (eapply returns_bind; [apply returns_true|]; intros ? ? _).
  apply (returns_bind _ _ _ _ (fun _ _ => False)); [|done]. apply returns_try; [apply returns_nothing|].
  intros e w3 _. destruct e; try apply returns_throw;
    (eapply returns_bind; [apply returns_true|]; intros ? ? _; apply returns_throw).
Qed.

(** The answer of a stored request says that it is one. *)
Lemma replay_answer_replayed k hash approved x :
  replay_answer k hash approved = Ok (Some x) -> x_replayed x = true.
Proof using.
  unfold replay_answer. destruct (as_dict _) as [d|]; simpl; destruct (idem_status k); try done;
    try destruct (_ && _); try done; destruct (_result_from_stored d); simpl; try done; by intros [= <-].
Qed.

Definition only_replays (out : Outside Sim) (ro : ToolExecutionResult * Outside Sim) : Prop :=
  x_replayed ro.1 = true /\ ro.2 = out.

Lemma returns_api_settings_service case_id a (out : Outside Sim) w :
  returns (api_settings_service meanwhile_case as_int case_id a out) w (fun ro _ => only_replays out ro).
Proof using.
  unfold api_settings_service, execute_with.
  do 6 (eapply returns_bind; [apply returns_true|]; intros ? ? _).
  apply returns_get_row. intros c Hc. destruct (terminal (case_status c)).
  { by apply returns_throw. }
  do 2 (eapply returns_bind; [apply returns_true|]; intros ? ? _).
  eapply returns_bind; [apply returns_true|]. intros [record replay] w3 _.
  apply returns_get_row. intros k Hk.
  apply (returns_bind _ _ _ _ (fun answer _ => forall x, answer = Some x -> x_replayed x = true)).
  { destruct replay; [|by apply returns_ret].
    intros w4 answer. unfold lift. destruct (replay_answer _ _ _) eqn:E; [|done].
    intros [= <- <-] x ->. by eapply replay_answer_replayed. }
  intros [x|] w4 Hx; [|apply returns_nothing_recorded]. apply returns_ret. split; [by apply Hx|done].
Qed.
End Collecting.


(** ** The demonstrations evaluated

    A merchant with one customer; nobody else writes meanwhile. *)
Notation demo kind := (operator_demo [] 42 queue_all true (fun w => w) (fun w => w) (fun _ w => w) (fun _ w => w)
  (ext_predictor simple_externals) (ext_tool_context_of simple_externals) (ext_as_int simple_externals)
  (ext_datetime_json simple_externals) remove_dups kind None (Some 7%Z) None [] store_0).

(** The statuses of the cases and of the tool calls that are left, and how the request is
    answered. *)
Definition demo_outcome {A} (r : World * result exn (response A)) :=
  (map (fun kv => (value (case_status kv.2), dec_str (case_amount_at_risk kv.2), dec_str (case_amount_recovered kv.2)))
     (map_to_list (w_cases r.1)),
   map (fun kv => value (call_status kv.2)) (map_to_list (w_tool_calls r.1)),
   match r.2 with
   | Ok (Answer _) => "answered"
   | Ok (Refusal e) => "refused: " +:+ exn_message e
   | Raise e => "failed: " +:+ exn_message e
   end).

Example demonstrations_of_each_kind :
  map (fun kind => demo_outcome (demo kind))
    ["failed_payment"; "approval"; " Policy_Block "; "verification_mismatch"; "run_demo"; "full_recovery";
     "failed_recovery"; "other"]
  = [([("DETECTED", "799.00", "0.00")], [], "answered");
     ([("AWAITING_APPROVAL", "40000.00", "0.00")], [], "answered");
     ([("POLICY_CHECK", "900.00", "0.00")], ["BLOCKED"], "answered");
     ([("NOT_RECOVERED", "1200.00", "0.00")], [], "answered");
     ([], [], "failed: 'Settings' object has no attribute 'merge_merchant'");
     ([], [], "failed: 'Settings' object has no attribute 'merge_merchant'");
     ([], [], "failed: 'Settings' object has no attribute 'merge_merchant'");
     ([], [], "refused: Unknown demo kind: other")].
Proof. vm_compute. reflexivity. Qed.
