(* ===== verification/Guarantees.v ===== *)
(** * Guarantees of the whole system

    For every environment whose settings load, every schedule of requests and
    every store: what the recovery system promises about cases, payments, events
    and the audit trail. *)
From S2P Require Import Prelude PyStr Uuid Errors Decimal Json Datetime Enums Rows Store Repositories StateMachine Transitions Config VerificationTypes Events Processing Processor Verification Lifecycle Invariants Idempotency Worker System Scenario.
Open Scope stdpp_scope.

(** The money credited to a case comes from a credit step, made when the payment
    matched the case. *)
Definition justified (settings : RecoverySettings) (w w' : World) (id : UUID) (amount : Decimal) : Prop :=
  exists v d pid p,
    runs settings ALL w v /\ runs settings ALL v w'
    /\ w_cases v !! id = Some d /\ w_payments v !! pid = Some p
    /\ creditable settings v id d pid p /\ credit_amount d p amount.

Lemma justified_later settings w v v' id amount l :
  justified settings w v id amount -> l ∈ ALL -> step settings l v v' ->
  justified settings w v' id amount.
Proof.
  intros (u & d & pid & p & H1 & H2 & H3) Hl Hs. exists u, d, pid, p.
  split; [done|]. split; [|done]. etrans; [exact H2|]. by eapply runs_step.
Qed.

(** The amount of a case in a later store: unchanged, zero in a new case, or
    justified. *)
Lemma runs_justified settings w w' id c' :
  runs settings ALL w w' -> w_cases w' !! id = Some c' ->
  (exists c, w_cases w !! id = Some c /\ case_amount_recovered c = case_amount_recovered c')
  \/ (w_cases w !! id = None /\ case_amount_recovered c' = ZERO)
  \/ justified settings w w' id (case_amount_recovered c').
Proof.
  intros Hr. revert c'. pattern w'. eapply rtc_ind_r; [| |exact Hr]; clear w' Hr.
  { intros c' Hc'. left. by exists c'. }
  intros v w' Hv (l & Hl & Hs) IH c' Hc'.
  assert (forall amount, justified settings w v id amount -> justified settings w w' id amount) as Hj.
  { intros a Ha. by eapply justified_later. }
  destruct (step_case_row _ _ _ _ _ _ Hs Hc') as [(d & Hd & Hch)|(Hn & [_ _ Hz _ _] & _)].
  - destruct Hch as [| | |pid p amount hook Hp Hcr Ha _ _ _];
      try (destruct (IH _ Hd) as [E|[E|E]]; [by left|right; by left|right; right; by apply Hj]).
    right. right. exists v, d, pid, p. split; [done|]. split; [by eapply runs_step|]. done.
  - right. left. split; [|done]. destruct (w_cases w !! id) as [c|] eqn:Hw; [|done].
    destruct (runs_case_history settings _ _ Hv _ _ Hw) as (d & Hd & _). congruence.
Qed.

(** ** Constraints at commit *)

(** Every row satisfies its CHECK constraints. *)
Abbreviation well_typed := (fun w => db_checks w = true).

(** A transaction keeps them, whatever it does: what breaks them is not committed. *)
Lemma transaction_well_typed {A} (op : Op A) : preserves (keeps well_typed) (transaction op).
Proof.
  intros w Hw. unfold final, transaction. destruct (op w) as [w' [a|e]]; [|exact Hw].
  destruct (db_checks w') eqn:Hc; [exact Hc|exact Hw].
Qed.

Lemma require_database_well_typed b m : preserves (keeps well_typed) (require_database b m).
Proof. unfold require_database. destruct b; [apply preserves_ret|apply preserves_throw]; apply _. Qed.
#[local] Hint Resolve transaction_well_typed require_database_well_typed : pres.

Lemma serve_well_typed environ n enqueue_event enqueue_job ext r :
  forall w, well_typed w -> well_typed (serve environ n enqueue_event enqueue_job ext r w).
Proof.
  destruct r; simpl; intros w; match goal with |- _ -> db_checks (final ?op w) = true =>
    enough (preserves (keeps well_typed) op) as H by apply H end.
  2: unfold process_provider_event, _apply_followups_now; solve_pres.
  2: unfold process_recovery_case_job; solve_pres.
  2: unfold verify_recovery_case_job; solve_pres.
  all: try apply transaction_well_typed.
  unfold OperatorPolicy.patch_policy. destruct (OperatorPolicy.in_range body);
    [apply transaction_well_typed|apply preserves_throw, _].
Qed.

Section Guarantees.
Context (environ : list (string * string)) (settings : RecoverySettings).
Context (Hsettings : load_recovery_settings environ = Ok settings).
Context (worker_max_retries : Z).
Context (enqueue_event : list UUID -> UUID -> option (list UUID)).
Context (enqueue_job : list QueuedJob -> QueuedJob -> option (list QueuedJob)).
Context (ext : Externals).
Notation serve_all := (serve_all environ worker_max_retries enqueue_event enqueue_job ext).

Lemma served rs w : runs settings ALL w (serve_all rs w).
Proof using Hsettings. by apply runs_serve_all. Qed.
Lemma served_consistent rs w : consistent w -> consistent (serve_all rs w).
Proof using Hsettings. by apply (runs_consistent settings ALL), served. Qed.

(** C1. Whatever the schedule of ingested events, worker jobs and their
    interleavings, the money a case has recovered was there before, or is zero in
    a case opened meanwhile, or was credited at a moment when a payment matched
    the case on merchant, customer, order or link, currency, status, recovery
    window and positive amount, and is what that payment captured, capped at the
    amount at risk. *)
Theorem every_credit_is_justified rs w id c' :
  w_cases (serve_all rs w) !! id = Some c' ->
  (exists c, w_cases w !! id = Some c /\ case_amount_recovered c = case_amount_recovered c')
  \/ (w_cases w !! id = None /\ case_amount_recovered c' = ZERO)
  \/ justified settings w (serve_all rs w) id (case_amount_recovered c').
Proof using Hsettings. by apply runs_justified, served. Qed.


(** C7. From a consistent store, a case reported RECOVERED after any schedule of
    requests names the payment that recovered it, and its recovered amount is its
    whole amount at risk. *)
Theorem recovered_means_paid rs w id c :
  consistent w -> w_cases (serve_all rs w) !! id = Some c -> case_status c = RECOVERED ->
  is_some (case_verified_payment_id c) = true
  /\ as_money (case_amount_at_risk c) = Ok (case_amount_recovered c).
Proof using Hsettings.
  intros H Hc Hs. by destruct (inv_full _ (served_consistent rs w H) id c Hc Hs).
Qed.

(** C8. From a consistent store, no schedule of requests lets a case recover more
    than its amount at risk. *)
Theorem recovery_never_exceeds_risk rs w id c :
  consistent w -> w_cases (serve_all rs w) !! id = Some c ->
  case_amount_recovered c = ZERO
  \/ exists m, as_money (case_amount_at_risk c) = Ok m
       /\ dec_leb (case_amount_recovered c) m = true.
Proof using Hsettings.
  intros H Hc. destruct (inv_bounded _ (served_consistent rs w H) id c Hc) as [?|(m & ? & _ & ?)];
    [by left|right; by exists m].
Qed.

(** C9. From a consistent store, two cases of a merchant are never open for the same
    payment, cart or subscription, even when several workers try to open one; and a
    case is closed exactly when its status is terminal. *)
Theorem one_open_case_per_subject rs w :
  consistent w ->
  (forall i j c d, w_cases (serve_all rs w) !! i = Some c -> w_cases (serve_all rs w) !! j = Some d ->
     open_case_conflict c d = true -> i = j)
  /\ (forall id c, w_cases (serve_all rs w) !! id = Some c ->
       (case_closed_at c = None <-> terminal (case_status c) = false)).
Proof using Hsettings.
  intros H. pose proof (served_consistent rs w H) as Hc. split; [apply (inv_open _ Hc)|apply (inv_closed _ Hc)].
Qed.

(** C10. Once a case is RECOVERED no request changes any of its columns, except the
    note of why a later verification credited nothing. *)
Theorem recovered_is_final rs w id c :
  w_cases w !! id = Some c -> case_status c = RECOVERED ->
  exists reason, w_cases (serve_all rs w) !! id = Some (set_case_last_mismatch_reason reason c).
Proof using Hsettings. intros Hc. by eapply runs_recovered_final; [apply served|]. Qed.

(** C11. A case keeps its identity for ever, moves only along legal transitions of
    the state machine, and its version counts the transitions it made. *)
Theorem case_moves_legally rs w id c :
  w_cases w !! id = Some c ->
  exists c' l, w_cases (serve_all rs w) !! id = Some c'
    /\ case_identity c' = case_identity c
    /\ path (case_status c) l (case_status c')
    /\ case_version c' = (case_version c + Z.of_nat (length l))%Z.
Proof using Hsettings.
  intros Hc. destruct (runs_case_history settings _ _ (served rs w) _ _ Hc) as (c' & Hc' & Hi & l & Hp & Hv).
  by exists c', l.
Qed.

(** The audit trail is append-only. *)
Theorem audit_is_append_only rs w :
  exists events, w_audit (serve_all rs w) = w_audit w ++ events.
Proof using Hsettings. apply (runs_audit_grows settings). apply served. Qed.


(** C13. A webhook row that is PROCESSED or DEAD_LETTER never changes again, whatever is
    delivered or retried. *)
Theorem finished_events_are_frozen rs w id e :
  w_webhooks w !! id = Some e -> hook_final e = true ->
  w_webhooks (serve_all rs w) !! id = Some e.
Proof using Hsettings. apply (runs_hook_final settings). apply served. Qed.

(** From a consistent store, the attempts recorded for a payment carry
    different numbers. *)
Theorem attempts_are_numbered rs w pid :
  consistent w ->
  NoDup
    (map attempt_attempt_number
       (List.filter (fun a => same (attempt_payment_id a) pid) (w_attempts (serve_all rs w)))).
Proof using Hsettings. intros H. apply (inv_attempts _ (served_consistent rs w H)). Qed.


(** C25. However the requests race for a key, a merchant's idempotency key is recorded once,
    and names the same operation and the same request hash ever after. *)
Theorem keys_name_one_request rs w :
  keys_distinct w ->
  keys_distinct (serve_all rs w)
  /\ forall id k, w_idempotency w !! id = Some k ->
       exists k', w_idempotency (serve_all rs w) !! id = Some k' /\ same_request k k'.
Proof using Hsettings.
  intros Hd. split; [by eapply runs_keys; [apply served|]|]. by eapply runs_requests, served.
Qed.


End Guarantees.

(** ** The guarantees at work

    Each applied to the scenario, whose schedule ends with a recovered case. *)

Lemma every_credit_is_justified_witness :
  w_cases store_1 !! case_1 = Some case_1_row
  /\ justified default_settings store_0 store_1 case_1 (case_amount_recovered case_1_row).
Proof.
  split; [exact case_1_recovered|].
  destruct (every_credit_is_justified [] default_settings default_environment 3 queue_all queue_all simple_externals
              recovery_schedule store_0 case_1 case_1_row case_1_recovered) as [(c & Hc & _)|[[_ H]|H]].
  - exfalso. vm_compute in Hc. discriminate.
  - exfalso. vm_compute in H. discriminate.
  - exact H.
Defined.


Lemma recovered_means_paid_witness :
  as_money (case_amount_at_risk case_1_row) = Ok (case_amount_recovered case_1_row).
Proof.
  exact (proj2 (recovered_means_paid [] default_settings default_environment 3 queue_all queue_all simple_externals
    recovery_schedule store_0 case_1 case_1_row store_0_consistent case_1_recovered eq_refl)).
Defined.

Lemma recovery_never_exceeds_risk_witness :
  exists m, as_money (case_amount_at_risk case_1_row) = Ok m
    /\ dec_leb (case_amount_recovered case_1_row) m = true.
Proof.
  destruct (recovery_never_exceeds_risk [] default_settings default_environment 3 queue_all queue_all simple_externals
    recovery_schedule store_0 case_1 case_1_row store_0_consistent case_1_recovered) as [H|H].
  - exfalso. vm_compute in H. discriminate.
  - exact H.
Defined.

Lemma one_open_case_per_subject_witness :
  case_closed_at case_1_row = None <-> terminal (case_status case_1_row) = false.
Proof.
  exact (proj2 (one_open_case_per_subject [] default_settings default_environment 3 queue_all
    queue_all simple_externals recovery_schedule store_0 store_0_consistent) case_1 case_1_row case_1_recovered).
Defined.

(** The whole schedule served again leaves the recovered case as it is, up to its
    note. *)
Lemma recovered_is_final_witness :
  exists reason, w_cases (run recovery_schedule store_1) !! case_1
    = Some (set_case_last_mismatch_reason reason case_1_row).
Proof.
  exact (recovered_is_final [] default_settings default_environment 3 queue_all queue_all simple_externals
    recovery_schedule store_1 case_1 case_1_row case_1_recovered eq_refl).
Defined.

Lemma case_moves_legally_witness :
  exists c' l, w_cases (run recovery_schedule store_1) !! case_1 = Some c'
    /\ case_identity c' = case_identity case_1_row /\ path RECOVERED l (case_status c')
    /\ case_version c' = (11 + Z.of_nat (length l))%Z.
Proof.
  exact (case_moves_legally [] default_settings default_environment 3 queue_all queue_all simple_externals
    recovery_schedule store_1 case_1 case_1_row case_1_recovered).
Defined.

Lemma audit_is_append_only_witness :
  exists events, w_audit (run recovery_schedule store_1) = w_audit store_1 ++ events.
Proof.
  exact (audit_is_append_only [] default_settings default_environment 3 queue_all queue_all simple_externals
    recovery_schedule store_1).
Defined.


Lemma finished_events_are_frozen_witness :
  exists e, w_webhooks store_1 !! hook_1 = Some e /\ w_webhooks (run recovery_schedule store_1) !! hook_1 = Some e.
Proof.
  destruct (w_webhooks store_1 !! hook_1) as [e|] eqn:He; [|exfalso; vm_compute in He; discriminate].
  exists e. split; [reflexivity|].
  refine (finished_events_are_frozen [] default_settings default_environment 3 queue_all queue_all simple_externals
    recovery_schedule store_1 hook_1 e He _). vm_compute in He. injection He as <-. reflexivity.
Defined.

Lemma attempts_are_numbered_witness :
  NoDup
    (map attempt_attempt_number
       (List.filter (fun a => same (attempt_payment_id a) payment_1) (w_attempts store_1))).
Proof.
  exact (attempts_are_numbered [] default_settings default_environment 3 queue_all queue_all simple_externals
    recovery_schedule store_0 payment_1 store_0_consistent).
Defined.



Lemma lookup_empty_no {A} (i : UUID) (x : A) : (∅ : gmap UUID A) !! i = Some x -> False.
Proof. by rewrite lookup_empty. Qed.

Lemma keys_name_one_request_witness :
  keys_distinct (run tool_schedule store_0) /\ is_Some (w_idempotency (run tool_schedule store_0) !! 0x9002%N).
Proof.
  split.
  - apply (proj1 (keys_name_one_request [] default_settings default_environment 3 queue_all queue_all
      simple_externals tool_schedule store_0 (fun i j k l H _ _ _ => False_ind _ (lookup_empty_no i k H)))).
  - destruct (w_idempotency (run tool_schedule store_0) !! 0x9002%N) as [k|] eqn:Hk; [by exists k|].
    exfalso. vm_compute in Hk. discriminate.
Defined.

