(* ===== verification/OperatorTheorems.v ===== *)
(** * What the operator's screens show

    The pages of the case list partition the cases that match; the command centre accounts for
    the money in every store the system reaches. *)
From S2P Require Import Prelude PyStr Uuid Errors Decimal Rounding Sorting PyFloat Json Enums Rows Store Repositories StateMachine Config PolicyContext Worker Optimizer OptimizerService Invariants System Guarantees Fixtures OperatorPolicy Operator.
From Stdlib Require Import Sorted.
Open Scope stdpp_scope.

(** ** Pages *)

Lemma chunks {A} (l : list A) size a n :
  concat (map (fun k => take size (drop (k * size) l)) (seq a n)) = take (n * size) (drop (a * size) l).
Proof.
  revert a. induction n as [|n IH]; intros a; simpl; [done|].
  rewrite IH. rewrite <- (take_drop size (drop (a * size) l)) at 2.
  rewrite drop_drop. replace (a * size + size)%nat with (S a * size)%nat by lia.
  destruct (decide (length (drop (a * size) l) <= size)%nat) as [Hle|Hgt].
  - rewrite (drop_ge l (S a * size)) by (rewrite length_drop in Hle; lia).
    rewrite take_nil, !app_nil_r. rewrite (take_ge (drop _ _) size) by done.
    rewrite take_ge; [done|lia].
  - rewrite take_app_ge by (rewrite length_take; lia). f_equal. rewrite length_take. f_equal. lia.
Qed.

Lemma case_column_order created collate `{!Order collate} sort : Order (case_column created collate sort).
Proof. unfold case_column. repeat case_match; apply _. Qed.

#[export] Instance N_order : Order N.compare.
Proof. split; [intros x y; apply N.compare_antisym|]. intros x y z. rewrite !N.compare_gt_iff. lia. Qed.

#[export] Instance case_order_order created collate `{!Order collate} sort direction :
  Order (case_order created collate sort direction).
Proof.
  pose proof (case_column_order created collate sort). unfold case_order.
  destruct (String.eqb _ _); apply _.
Qed.

(** Cases that compare equal are the same. *)
Lemma case_order_eq created collate sort direction x y :
  case_order created collate sort direction x y = Eq -> x.1 = y.1.
Proof.
  unfold case_order, lex. case_match; try done.
  unfold reversed, on_key. intros ->%N.compare_eq. done.
Qed.

Lemma rows_where_NoDup {A} (p : UUID -> A -> bool) t : NoDup (rows_where p t).*1.
Proof.
  unfold rows_where. pose proof (NoDup_fst_map_to_list t) as H. revert H.
  induction (map_to_list t) as [|x l IH]; intros H; [constructor|].
  rewrite fmap_cons in H. apply list.NoDup_cons in H as [Hx Hl]. rewrite filter_cons. destruct (decide _); [|auto].
  rewrite fmap_cons. apply list.NoDup_cons. split; [|auto]. intros (y & Hxy & Hy)%list_elem_of_fmap.
  apply Hx. apply list_elem_of_filter in Hy as [_ Hy]. apply list_elem_of_fmap. eauto.
Qed.

(** C31. The pages of the case list: there is one list of the merchant's cases that satisfy the
    filters, each once, in the order asked for and the newest identifier first among equals,
    which does not depend on the order the database finds them in; a page is its slice, with
    the number of all; and the pages together are the whole list, so that none of the cases is
    missed or shown twice. *)
Theorem pages_partition decided_at case_created_at collate `{!Order collate} m row f sort direction size w :
  w_merchants w !! m = Some row ->
  exists l,
    (forall id c, (id, c) ∈ l <-> w_cases w !! id = Some c /\ selected_case m f c = true)
    /\ NoDup l.*1
    /\ StronglySorted (not_after (case_order case_created_at collate sort direction)) l
    /\ (forall l', l' ≡ₚ l -> sort_by (case_order case_created_at collate sort direction) l' = l)
    /\ (forall page, (1 <= page)%nat ->
        list_cases decided_at case_created_at collate (Some m) None f sort direction page size w
        = (w, Ok (mk_Page (map (case_item decided_at case_created_at m w) (take size (drop ((page - 1) * size) l)))
                    page size (length l))))
    /\ (forall n, (length l <= n * size)%nat ->
        concat (map (fun page => take size (drop ((page - 1) * size) l)) (seq 1 n)) = l).
Proof.
  intros Hm. set (found := rows_where (fun _ => selected_case m f) (w_cases w)).
  set (order := case_order case_created_at collate sort direction). exists (sort_by order found).
  pose proof (rows_where_NoDup (fun _ => selected_case m f) (w_cases w)) as Hnd. fold found in Hnd.
  split_and!.
  - intros id c. rewrite elem_of_sort_by. exact (elem_of_rows_where (fun _ => selected_case m f) (w_cases w) id c).
  - by rewrite sort_by_perm.
  - apply sort_by_sorted, _.
  - intros l' Hl'. rewrite sort_by_perm in Hl'. apply sort_by_unique; [apply _|done|].
    intros x y Hx Hy Hxy%case_order_eq. rewrite Hl' in Hx, Hy. subst found.
    destruct x as [i c], y as [j d]. simpl in Hxy. subst j. apply elem_of_rows_where in Hx as [Hx _], Hy as [Hy _].
    congruence.
  - intros page _. unfold list_cases, required_merchant, resolve_merchant, merchant_with_id,
      MerchantRepository.get_merchant, page_cases, mbind, m_bind, gets, get. simpl. rewrite Hm. simpl.
    fold found order. by rewrite (Permutation_length (sort_by_perm order found)).
  - intros n Hn. rewrite <- seq_shift, map_map.
    rewrite (map_ext _ (fun k => take size (drop (k * size) (sort_by order found)))) by
      (intros k; by rewrite Nat.sub_1_r).
    rewrite chunks. simpl. by rewrite take_ge.
Qed.

(** ** The money *)

Open Scope Z_scope.

(** [x] is written at the exponent [e]. *)
Definition fine (e : Z) (x : Decimal) : Prop := e <= d_exp x.

Lemma exact_add_at e x y : fine e x -> fine e y ->
  fine e (exact_add x y) /\ coeff_at e (exact_add x y) = coeff_at e x + coeff_at e y.
Proof.
  unfold fine, exact_add. intros Hx Hy. simpl. split; [lia|].
  set (f := Z.min (d_exp x) (d_exp y)).
  rewrite (coeff_at_shift f e x), (coeff_at_shift f e y) by lia. unfold coeff_at at 1. simpl. fold f. lia.
Qed.

Lemma exact_sub_at e x y : fine e x -> fine e y ->
  fine e (exact_sub x y) /\ coeff_at e (exact_sub x y) = coeff_at e x - coeff_at e y.
Proof.
  intros Hx Hy. unfold exact_sub. pose proof (exact_add_at e x (mkDec (- d_int y) (d_exp y)) Hx Hy) as [H1 H2].
  split; [done|]. rewrite H2. unfold coeff_at. simpl. lia.
Qed.

Lemma zero_fine e : e <= 0 -> fine e (dec_of_Z 0).
Proof. done. Qed.

(** An exponent at which all the amounts of the cases are written. *)
Lemma common_exponent (l : list RecoveryCase) :
  exists e, e <= 0 /\ forall c, c ∈ l -> fine e (case_amount_at_risk c) /\ fine e (case_amount_recovered c).
Proof.
  induction l as [|c l (e & He & IH)]; [exists 0; split; [lia|]; by intros c ?%elem_of_nil|].
  exists (Z.min e (Z.min (d_exp (case_amount_at_risk c)) (d_exp (case_amount_recovered c)))). split; [lia|].
  intros d [->|Hd]%elem_of_cons; unfold fine in *; [lia|]. specialize (IH d Hd). lia.
Qed.

(** The sums over a list of cases that satisfy the CHECK constraints. *)
Lemma sums_account (l : list RecoveryCase) :
  (forall c, c ∈ l -> case_checks c = true) ->
  let recovered := sql_sum (map case_amount_recovered l) in
  let at_risk := sql_sum (map (fun c => exact_sub (case_amount_at_risk c) (case_amount_recovered c))
                           (List.filter is_open l)) in
  nonneg recovered = true /\ nonneg at_risk = true
  /\ dec_leb (exact_add recovered at_risk) (sql_sum (map case_amount_at_risk l)) = true.
Proof.
  intros Hl. destruct (common_exponent l) as (e & He & Hf). cbv zeta.
  enough (fine e (sql_sum (map case_amount_recovered l))
    /\ fine e (sql_sum (map (fun c => exact_sub (case_amount_at_risk c) (case_amount_recovered c)) (List.filter is_open l)))
    /\ fine e (sql_sum (map case_amount_at_risk l))
    /\ 0 <= coeff_at e (sql_sum (map case_amount_recovered l))
    /\ 0 <= coeff_at e (sql_sum (map (fun c => exact_sub (case_amount_at_risk c) (case_amount_recovered c)) (List.filter is_open l)))
    /\ coeff_at e (sql_sum (map case_amount_recovered l))
       + coeff_at e (sql_sum (map (fun c => exact_sub (case_amount_at_risk c) (case_amount_recovered c)) (List.filter is_open l)))
       <= coeff_at e (sql_sum (map case_amount_at_risk l))) as (F1 & F2 & F3 & H1 & H2 & H3).
  { unfold nonneg, fine in *. assert (forall x, e <= d_exp x -> 0 <= coeff_at e x -> dec_leb ZERO x = true) as Hn.
    { intros x Hx H0. rewrite (dec_leb_at (Z.min e (-2))) by (simpl; unfold MONEY_EXP; lia). apply Z.leb_le.
      rewrite (coeff_at_shift e (Z.min e (-2)) x) by lia. unfold coeff_at at 1. simpl.
      pose proof (pow10_pos (e - Z.min e (-2)) ltac:(lia)). nia. }
    split; [by apply Hn|]. split; [by apply Hn|]. pose proof (exact_add_at e _ _ F1 F2) as [F4 E].
    rewrite (dec_leb_at e) by done. apply Z.leb_le. by rewrite E. }
  induction l as [|c l IH]; simpl.
  { unfold fine, coeff_at. simpl. repeat split; try lia. }
  destruct IH as (F1 & F2 & F3 & H1 & H2 & H3); [by intros; apply Hl; right|by intros; apply Hf; right|].
  destruct (Hf c ltac:(left)) as [Fa Fr].
  destruct (exact_add_at e _ _ Fr F1) as [? E1]. destruct (exact_add_at e _ _ Fa F3) as [? E3].
  destruct (exact_sub_at e _ _ Fa Fr) as [Fs Es].
  specialize (Hl c ltac:(left)). unfold case_checks, nonneg in Hl. rewrite !andb_true_iff in Hl.
  destruct Hl as [[[Ha Hr] Hle] _].
  rewrite (dec_leb_at e) in Hle by done. apply Z.leb_le in Hle.
  assert (0 <= coeff_at e (case_amount_recovered c)) as Hr0.
  { apply dec_leb_zero in Hr. unfold coeff_at. pose proof (pow10_pos (d_exp (case_amount_recovered c) - e)).
    unfold fine in Fr. specialize (H4 ltac:(lia)). nia. }
  rewrite E1, E3. destruct (is_open c); simpl; [|lia || (repeat split; try done; lia)].
  destruct (exact_add_at e _ _ Fs F2) as [? E2]. rewrite E2, Es. repeat split; try done; lia.
Qed.

(** ** The rate *)

Lemma strip_zeros_at fuel c e : fine e (strip_zeros fuel c e) /\ coeff_at e (strip_zeros fuel c e) = c.
Proof.
  unfold fine. revert c e. induction fuel as [|fuel IH]; intros c e; simpl.
  { unfold coeff_at. simpl. rewrite Z.sub_diag. lia. }
  destruct (Z.eqb_spec (c mod 10) 0) as [H|H].
  - destruct (IH (c / 10) (e + 1)) as [H1 H2]. split; [lia|].
    rewrite (coeff_at_shift (e + 1) e) by lia. rewrite H2. replace (e + 1 - e) with 1 by lia.
    pose proof (Z.div_mod c 10). lia.
  - unfold coeff_at. simpl. rewrite Z.sub_diag. lia.
Qed.

Lemma div_half_even_le n m k : 0 < m -> n <= k * m -> div_half_even n m <= k.
Proof. intros Hm H. rewrite <- (div_half_even_exact k m Hm). by apply div_half_even_mono. Qed.

(** The double nearest to a proportion is one. *)
Lemma proportion_double n m : 0 < n -> n <= m ->
  let x := nearest_double n m in 0 <= fl_shift x /\ 0 <= fl_mantissa x <= 2 ^ fl_shift x.
Proof.
  intros Hn Hm. unfold nearest_double.
  set (s := 53 + Z.log2 m - Z.log2 n). pose proof (Z.log2_le_mono n m ltac:(lia)) as Hlog.
  assert (53 <= s) as Hs by lia.
  assert (forall t, 0 <= t -> 0 <= div_half_even (n * 2 ^ t) m <= 2 ^ t) as H.
  { intros t Ht. pose proof (Z.pow_pos_nonneg 2 t ltac:(lia) Ht).
    split; [apply div_half_even_nonneg; nia|apply div_half_even_le; nia]. }
  rewrite (proj2 (Z.leb_le 0 s)) by lia. cbn [fst snd].
  destruct (2 ^ 53 <=? n * 2 ^ s / m).
  - rewrite (proj2 (Z.leb_le 0 (s - 1))) by lia. cbn [fl_shift fl_mantissa]. split; [lia|apply H; lia].
  - rewrite (proj2 (Z.leb_le 0 s)) by lia. cbn [fl_shift fl_mantissa]. split; [lia|apply H; lia].
Qed.

Lemma rate6_proportion n m : (n <= m)%nat -> (0 < m)%nat ->
  dec_leb (dec_of_Z 0) (rate6 n m) = true /\ dec_leb (rate6 n m) (dec_of_Z 1) = true.
Proof.
  intros Hn Hm. unfold rate6. set (x := if (n =? 0)%nat then _ else _).
  assert (0 <= fl_shift x /\ 0 <= fl_mantissa x <= 2 ^ fl_shift x) as (Hs & H0 & H1).
  { subst x. destruct (Nat.eqb_spec n 0); [simpl; lia|]. apply proportion_double; lia. }
  assert (0 <= millionths x <= 10 ^ 6) as Hx.
  { unfold millionths. rewrite (Z.max_l (fl_shift x)), (Z.max_r (- fl_shift x)), Z.pow_0_r, Z.mul_1_r by lia.
    pose proof (Z.pow_pos_nonneg 2 (fl_shift x) ltac:(lia) Hs).
    split; [apply div_half_even_nonneg; nia|apply div_half_even_le; nia]. }
  destruct (strip_zeros_at 5 (millionths x) (-6)) as [F E]. unfold fine in F.
  rewrite !(dec_leb_at (-6)), E by (done || (simpl; lia)).
  unfold coeff_at. simpl. rewrite !Z.leb_le. lia.
Qed.

Lemma count_le {A} (p q : A -> bool) l : (forall x, p x = true -> q x = true) -> (count p l <= count q l)%nat.
Proof.
  intros H. unfold count. induction l as [|x l IH]; simpl; [lia|].
  destruct (p x) eqn:Hp; [rewrite (H _ Hp); simpl; lia|]. destruct (q x); simpl; lia.
Qed.

Lemma count_disjoint {A} (p q : A -> bool) l :
  (forall x, x ∈ l -> p x = true -> q x = false) -> (count p l + count q l <= length l)%nat.
Proof.
  unfold count. induction l as [|x l IH]; intros H; simpl; [lia|].
  specialize (IH (fun y Hy => H y (list_elem_of_further _ _ _ Hy))). specialize (H x (list_elem_of_here _ _)).
  destruct (p x); simpl; [rewrite H by done; lia|]. destruct (q x); simpl; lia.
Qed.

Lemma merchant_cases_spec m w c : c ∈ merchant_cases m w ->
  exists id, w_cases w !! id = Some c /\ case_merchant_id c = m.
Proof.
  unfold merchant_cases. intros ([id d] & -> & H)%list_elem_of_fmap.
  apply elem_of_rows_where in H as [H Hm]. exists id. split; [done|]. by apply same_eq in Hm.
Qed.

Lemma checked_case w id c : db_checks w = true -> w_cases w !! id = Some c -> case_checks c = true.
Proof.
  unfold db_checks. rewrite !andb_true_iff, (forallb_elem _ (map_to_list (w_cases w))).
  intros [[[[[_ H] _] _] _] _] Hc. apply (H (id, c)). by apply elem_of_map_to_list.
Qed.

(** What the command centre must satisfy for the cases [l] of a merchant. *)
Record sound_metrics (l : list RecoveryCase) (x : Metrics) : Prop := {
  sound_money : exists at_risk recovered,
    metrics_revenue_at_risk x = money at_risk /\ metrics_revenue_recovered x = money recovered
    /\ nonneg at_risk = true /\ nonneg recovered = true
    /\ dec_leb (exact_add recovered at_risk) (sql_sum (map case_amount_at_risk l)) = true;
  sound_rate : match metrics_recovery_rate x with
               | Some r => dec_leb (dec_of_Z 0) r = true /\ dec_leb r (dec_of_Z 1) = true
               | None => forall c, c ∈ l -> case_status c <> RECOVERED
               end;
  sound_active : (metrics_active_cases x + count (fun c => terminal (case_status c)) l = length l)%nat;
}.

Section Accounts.
Context (environ : list (string * string)) (settings : RecoverySettings).
Context (Hsettings : load_recovery_settings environ = Ok settings).
Context (worker_max_retries : Z).
Context (enqueue_event : list UUID -> UUID -> option (list UUID)).
Context (enqueue_job : list QueuedJob -> QueuedJob -> option (list QueuedJob)).
Context (ext : Externals).
Notation serve_all := (serve_all environ worker_max_retries enqueue_event enqueue_job ext).

Lemma served_well_typed rs w : db_checks w = true -> db_checks (serve_all rs w) = true.
Proof using.
  revert w. induction rs as [|r rs IH]; intros w H; simpl; [done|]. apply IH. by apply serve_well_typed.
Qed.

(** C27. In every store the system reaches, the command centre of a merchant accounts for its
    money: it shows a non-negative amount recovered and a non-negative amount at risk on open
    cases, together at most the total of its cases; a recovery rate between zero and one, or
    none when no case has recovered; and as many active cases as have not finished. *)
Theorem metrics_account_for_the_money decided_at rs w m row :
  consistent w -> db_checks w = true -> w_merchants (serve_all rs w) !! m = Some row ->
  exists x, command_center_metrics decided_at (Some m) None (serve_all rs w) = (serve_all rs w, Ok x)
    /\ sound_metrics (merchant_cases m (serve_all rs w)) x.
Proof using Hsettings.
  intros Hc Ht Hm. pose proof (served_consistent environ settings Hsettings worker_max_retries
    enqueue_event enqueue_job ext rs w Hc) as Hc'.
  pose proof (served_well_typed rs w Ht) as Ht'. set (v := serve_all rs w) in *. clearbody v.
  exists (metrics_of decided_at m row v). split.
  { unfold command_center_metrics, resolve_merchant, merchant_with_id, MerchantRepository.get_merchant,
      get_row, mbind, m_bind, gets, get, lift. simpl. rewrite Hm. simpl. by rewrite Hm. }
  split.
  - eexists _, _. split; [reflexivity|]. split; [reflexivity|].
    destruct (sums_account (merchant_cases m v)) as (H1 & H2 & H3); [|done].
    intros c (id & Hid & _)%merchant_cases_spec. by eapply checked_case.
  - simpl. destruct (Nat.eqb_spec (closed_count m v) 0) as [E|E].
    + intros c Hin Hs. unfold closed_count, count in E. apply length_zero_iff_nil in E.
      apply list_elem_of_In in Hin.
      assert (In c (List.filter (fun c => bool_decide (case_status c ∈ counted_closed)) (merchant_cases m v))) as Hf.
      { apply List.filter_In. split; [done|]. by rewrite Hs. }
      by rewrite E in Hf.
    + apply rate6_proportion; [|lia]. unfold recovered_count, closed_count. apply count_le.
      intros c Hs%same_eq. by rewrite Hs.
  - simpl. assert (forall c, c ∈ merchant_cases m v -> is_open c = negb (terminal (case_status c))) as H.
    { intros c (id & Hid & _)%merchant_cases_spec. pose proof (inv_closed _ Hc' id c Hid) as Hi.
      unfold is_open, same. case_bool_decide as Hn; [by rewrite (proj1 Hi Hn)|].
      destruct (terminal (case_status c)); [done|]. destruct Hn. by apply Hi. }
    revert H. generalize (merchant_cases m v). intros l. unfold count.
    induction l as [|c l IH]; intros H; simpl; [done|].
    specialize (IH (fun d Hd => H d (list_elem_of_further _ _ _ Hd))). rewrite (H c (list_elem_of_here _ _)).
    destruct (terminal (case_status c)); simpl; lia.
Qed.
End Accounts.
