(* ===== verification/EventTheorems.v ===== *)
(** * What receiving events does

    A webhook's body speaks for its event, whatever its payload says; the routes that receive or
    simulate events only record them; and the demonstration scenarios, worked off, end as they
    are told to. *)
From S2P Require Import Prelude PyStr Uuid Errors Decimal Sorting Json Datetime Enums Rows Store Repositories Config Events Providers Simulator VerificationTypes Lifecycle Refinement Ingestion Worker Approvals Fixtures EventService OperatorPolicy System Guarantees Scenario.
Open Scope stdpp_scope.

(** ** Webhook bodies *)

(** Dropping the entries that are [None] does not change what is read. *)
Lemma dict_get_without_nulls k d : NoDup d.*1 -> dict_get k (without_nulls d) = dict_get k d.
Proof.
  unfold dict_get. induction d as [|[k' v] d IH]; intros H; [done|].
  rewrite fmap_cons in H. apply list.NoDup_cons in H as [Hk Hd]. simpl in Hk. specialize (IH Hd).
  unfold without_nulls in *. simpl. destruct (String.eqb_spec k k') as [->|Hne].
  - assert (lookup_key k' d = None) as Hn by (by apply lookup_key_None).
    destruct v; simpl; rewrite ?String.eqb_refl; try done. rewrite IH, Hn. done.
  - destruct v; simpl; try (rewrite (proj2 (String.eqb_neq k k')) by done); exact IH.
Qed.

Definition BODY_KEYS : list string :=
  ["provider_payment_id"; "provider_order_id"; "amount"; "currency"; "status"; "failure_reason";
   "attempt_number"; "payment_method"; "customer_id"; "customer_external_id"; "merchant_id";
   "merchant_reference"; "occurred_at"].

Lemma body_keys b p r t : (body_entries b p r t).*1 = BODY_KEYS.
Proof. reflexivity. Qed.

(** What is read of the payload an event carries. *)
Lemma read_cleaned k b p r t : NoDup (wb_payload b).*1 ->
  dict_get k (without_nulls (merged_payload b p r t))
  = default (dict_get k (wb_payload b)) (lookup_key k (body_entries b p r t)).
Proof.
  intros H. unfold merged_payload. rewrite dict_get_without_nulls by (by apply dict_update_keys).
  apply dict_get_update. rewrite body_keys. by apply (bool_decide_unpack _); vm_compute.
Qed.

(** A webhook body speaks for its event: whatever the payload it carries says, the event
    names the resolved merchant, the resolved customer or none, the amount, currency, status,
    order and payment of the body, and the type and identifier without surrounding blanks; what
    the payload says besides stays. *)
Theorem webhook_body_overrides_its_payload b p w w' event :
  NoDup (wb_payload b).*1 ->
  webhook_to_provider_event b p w = (w', Ok event) ->
  let read k := dict_get k (pe_payload event) in
  read "merchant_id" = JStr (uuid_str (p_merchant_id p))
  /\ read "customer_id" = opt_str (uuid_str <$> p_customer_id p)
  /\ read "customer_external_id" = opt_str (p_customer_external_id p)
  /\ (forall a, wb_amount b = Some a -> read "amount" = JStr (dec_str a))
  /\ read "currency" = JStr (wb_currency b) /\ read "status" = opt_str (wb_status b)
  /\ read "provider_payment_id" = opt_str (or_str (wb_provider_resource_id b) (wb_provider_payment_id b))
  /\ read "provider_order_id" = opt_str (wb_provider_order_id b)
  /\ (forall k, k ∉ BODY_KEYS -> read k = dict_get k (wb_payload b))
  /\ pe_event_type event = strip (wb_event_type b) /\ blank (wb_event_type b) = false
  /\ exists event_id, wb_event_id b = Some event_id /\ pe_event_id event = strip event_id /\ blank event_id = false.
Proof.
  intros Hnd H. unfold webhook_to_provider_event in H.
  destruct (blank (wb_event_type b)) eqn:Ht; [done|]. destruct (wb_event_id b) as [event_id|] eqn:He; [|done].
  destruct (blank event_id) eqn:Hb; [done|]. destruct (_ && _); [done|].
  unfold mbind, m_bind in H. destruct (time_or_now (wb_occurred_at b) w) as [v [noted|]]; [|done].
  destruct (_ && _); [done|]. destruct (time_or_now (wb_occurred_at b) v) as [v' [occurred|]]; [|done].
  apply returned_inj in H as [_ <-]. cbv zeta. cbn [pe_payload pe_event_type pe_event_id].
  set (r := or_str _ _).
  pose proof (fun k => read_cleaned k b p r noted Hnd) as Hread.
  split_and!; try (rewrite Hread; reflexivity); try done.
  - intros a Ha. rewrite Hread. simpl. by rewrite Ha.
  - intros k Hk. rewrite Hread, lookup_key_None; [done|]. by rewrite body_keys.
  - eauto.
Qed.

(** ** The routes that receive events *)

(** Requests that deliver or simulate events, others of their kind meanwhile. *)
Fixpoint only_delivers (r : request) : bool :=
  match r with
  | Ingest _ _ _ others => forallb only_delivers others
  | SimulatorWebhook _ _ newcomers others | SimulateEvent _ _ newcomers others
  | SimulateScenario _ _ _ _ newcomers others => forallb only_delivers newcomers && forallb only_delivers others
  | _ => false
  end.

(** What receiving events leaves alone. *)
Definition ledger (w : World) :=
  (w_payments w, w_attempts w, w_cases w, w_actions w, w_decisions w, w_evaluations w, w_approvals w,
   w_notifications w, w_side w).

Definition DELIVERY : list label := L_party :: INGESTION.

Lemma delivery_ingests : INGESTION ⊆ DELIVERY.
Proof. unfold DELIVERY. set_solver. Qed.
Lemma delivery_party : L_party ∈ DELIVERY.
Proof. left. Qed.
Lemma delivery_time : L_time ∈ DELIVERY.
Proof. apply delivery_ingests. unfold INGESTION. set_solver. Qed.

Lemma delivery_keeps_ledger settings w w' : runs settings DELIVERY w w' -> ledger w' = ledger w.
Proof.
  apply (runs_ind settings DELIVERY (unchanged ledger)). clear w w'. intros l w w' Hl Hs. unfold unchanged, ledger.
  destruct Hs; try refute_label Hl; reflexivity.
Qed.

Section Deliveries.
Context (environ : list (string * string)) (settings : RecoverySettings) (worker_max_retries : Z).
Context (enqueue_event : list UUID -> UUID -> option (list UUID)).
Context (enqueue_job : list QueuedJob -> QueuedJob -> option (list QueuedJob)).
Context (ext : Externals).
Notation serve := (serve environ worker_max_retries enqueue_event enqueue_job ext).
Notation serve_all := (serve_all environ worker_max_retries enqueue_event enqueue_job ext).
Notation R := (runs settings DELIVERY).

Lemma runs_delivery r : only_delivers r = true -> forall w, R w (serve r w).
Proof using.
  induction r as [r IH] using request_ind_nested. intros Hr w.
  assert (forall rs, rs ⊆ served_meanwhile r -> forallb only_delivers rs = true ->
            forall v, R v (fold_left (fun w r => serve r w) rs v)) as Hwhile.
  { intros rs Hrs Ho v. rewrite list.Forall_forall in IH. rewrite forallb_elem in Ho.
    assert (forall x, x ∈ rs -> forall v, R v (serve x v)) as Hx by auto. clear -Hx. revert v.
    induction rs as [|x rs IHrs]; intros v; simpl; [reflexivity|].
    etrans; [apply Hx; left|]. apply IHrs. intros y Hy. apply Hx. by right. }
  pose proof delivery_ingests. pose proof delivery_party.
  destruct r; try discriminate Hr; cbn [only_delivers served_meanwhile] in *; cbn [System.serve];
    rewrite ?andb_true_iff in Hr.
  - apply runs_transaction; [apply delivery_time|]. apply runs_ingest; [done|]. by apply Hwhile.
  - destruct Hr as [H1 H2]. apply runs_simulator_webhook; try done; apply Hwhile; set_solver.
  - destruct Hr as [H1 H2]. apply runs_simulate_event; try done; apply Hwhile; set_solver.
  - destruct Hr as [H1 H2]. apply runs_simulate_scenario; try done; apply Hwhile; set_solver.
Qed.
End Deliveries.

(** C30. Receiving and simulating events moves no money and decides nothing: whatever webhooks
    and simulations arrive, in any order and interleaving, payments, attempts, cases, actions,
    decisions, approvals, notifications and recorded calls stay what they are, until a worker
    takes the events up. *)
Theorem receiving_moves_nothing environ n enqueue_event enqueue_job ext rs w :
  forallb only_delivers rs = true ->
  ledger (serve_all environ n enqueue_event enqueue_job ext rs w) = ledger w.
Proof.
  intros H. apply (delivery_keeps_ledger default_settings). unfold serve_all. rewrite forallb_elem in H.
  revert w. induction rs as [|r rs IH]; intros w; simpl; [reflexivity|].
  etrans; [apply runs_delivery, H; left|]. apply IH. intros x Hx. apply H. by right.
Qed.

(** ** The demonstration scenarios *)

(** A store without any rows. *)
Definition empty_store : World := mk_World ∅ ∅ ∅ [] ∅ ∅ [] ∅ ∅ ∅ [] [] (mk_SideTables ∅ ∅ ∅ ∅ ∅ ∅)
  (fun n => noon + Z.of_nat n * SECOND)%Z 0 (fun n => N.of_nat n + 0x9000)%N 0.

Definition keys_of {A} (m : gmap UUID A) : list UUID := sort_by N.compare (map fst (map_to_list m)).

(** The workers process every stored event, then process and verify every case. *)
Definition work_off (w : World) : World :=
  let w := run (map (fun h => ProcessEvent (uuid_str h) false []) (keys_of (w_webhooks w))) w in
  let cases := keys_of (w_cases w) in
  run (map ApiVerify cases) (run (map (fun c => ProcessCase (uuid_str c)) cases) w).

Definition demonstrate (scenario : string) : World :=
  work_off (run [SimulateScenario scenario None None None [] []] empty_store).

Definition ending (scenario : string) : list (RecoveryCaseStatus * Decimal * option string) :=
  map (fun kv => (case_status kv.2, case_amount_recovered kv.2, case_last_mismatch_reason kv.2))
    (map_to_list (w_cases (demonstrate scenario))).


(** ** The theorems at work *)

(** A webhook whose payload claims another merchant and amount. *)
Definition forged_body : WebhookBody :=
  mk_WebhookBody (Some " evt_7 ") "payment.failed " None (Some "pay_7") None None None (Some merchant_1) None
    (Some customer_1) None (Some (mkDec 10000 (-2))) "INR" None None 1 None None
    [("merchant_id", JStr "someone else"); ("amount", JStr "1.00"); ("note", JStr "kept")].
Definition forged_parties : Parties := mk_Parties merchant_1 (Some customer_1) None.
Definition forged_event : ProviderEvent :=
  match outcome (webhook_to_provider_event forged_body forged_parties) store_0 with
  | Ok e => e
  | Raise _ => failed_event
  end.

Lemma forged_evaluated : (webhook_to_provider_event forged_body forged_parties store_0).2 = Ok forged_event.
Proof. vm_compute. reflexivity. Qed.

Lemma webhook_body_overrides_its_payload_witness :
  dict_get "merchant_id" (pe_payload forged_event) = JStr (uuid_str merchant_1)
  /\ dict_get "amount" (pe_payload forged_event) = JStr "100.00"
  /\ dict_get "note" (pe_payload forged_event) = JStr "kept"
  /\ pe_event_id forged_event = "evt_7".
Proof.
  destruct (webhook_body_overrides_its_payload forged_body forged_parties store_0
    (webhook_to_provider_event forged_body forged_parties store_0).1 forged_event)
    as (Hm & _ & _ & Ha & _ & _ & _ & _ & Hk & _ & _ & event_id & He & Hi & _).
  - apply (bool_decide_unpack _). vm_compute. exact I.
  - rewrite <- forged_evaluated. apply surjective_pairing.
  - split; [exact Hm|]. split; [apply (Ha (mkDec 10000 (-2))); reflexivity|]. split.
    + rewrite Hk; [reflexivity|]. apply (bool_decide_unpack _). vm_compute. exact I.
    + rewrite Hi. injection He as <-. reflexivity.
Defined.

Lemma receiving_moves_nothing_witness :
  forallb only_delivers [SimulateScenario "G" None None None [] []; Ingest captured_event merchant_1 None []] = true
  /\ ledger (run [SimulateScenario "G" None None None [] []; Ingest captured_event merchant_1 None []] store_1)
     = ledger store_1.
Proof. split; [reflexivity|]. apply receiving_moves_nothing. reflexivity. Defined.
