(* ===== verification/Witnesses.v ===== *)
(** * The properties of single components at work

    Each property applied to a concrete input where its hypotheses hold. *)
From S2P Require Import Prelude PyStr Uuid Errors Decimal Rounding PyFloat Json Datetime Enums Rows Store Repositories StateMachine Transitions Config Optimizer PolicyContext PolicyEngine OptimizerService PolicyProps Events Inference CaseContexts VerificationTypes Processing Processor Verification Lifecycle Worker System Scenario.
Open Scope stdpp_scope.

(** ** The state machine *)

Lemma policy_check_before_execution_witness :
  POLICY_CHECK ∈ [DETECTED; TRIAGED; INVESTIGATING; DIAGNOSED; SCORING; STRATEGY_SELECTED; POLICY_CHECK].
Proof.
  refine (policy_check_before_execution _ EXECUTING _ _); [|apply list_elem_of_here].
  apply (path_cons _ TRIAGED); [reflexivity|]. apply (path_cons _ INVESTIGATING); [reflexivity|].
  apply (path_cons _ DIAGNOSED); [reflexivity|]. apply (path_cons _ SCORING); [reflexivity|].
  apply (path_cons _ STRATEGY_SELECTED); [reflexivity|]. apply (path_cons _ POLICY_CHECK); [reflexivity|].
  apply (path_cons _ EXECUTING); [reflexivity|]. constructor.
Defined.

(** ** The policy engine *)

(** The policy context of [case_1] at noon, for a merchant with no policy. *)
Definition context_1 : PolicyContext :=
  mk_PolicyContext case_1 case_1_row (mk_Merchant "Acme" "acme" true None None) (Some customer_1)
    (Some payment_1) default_settings noon 0 0 ZERO [] false false false false merchant_1.

Definition retry_1 : ProposedAction := propose (value RecoveryActionType.RETRY_LATER).

Lemma allowed_iff_permitted_witness :
  exists r, evaluate_action context_1 retry_1 = Ok r
    /\ permitted context_1 RecoveryActionType.RETRY_LATER retry_1.
Proof.
  destruct (evaluate_action context_1 retry_1) as [r|e] eqn:Hr;
    [|exfalso; vm_compute in Hr; discriminate].
  exists r. split; [reflexivity|].
  apply (proj1 (allowed_iff_permitted context_1 retry_1 RecoveryActionType.RETRY_LATER r eq_refl Hr)).
  vm_compute in Hr. injection Hr as <-. reflexivity.
Defined.

Lemma approval_iff_valuable_witness :
  exists r m, evaluate_action context_1 retry_1 = Ok r
    /\ as_money (case_amount_at_risk case_1_row) = Ok m
    /\ (result_requires_approval r = true <->
        permitted context_1 RecoveryActionType.RETRY_LATER retry_1
        /\ RecoveryActionType.RETRY_LATER ∈ AUTOMATIC_ACTIONS
        /\ (dec_ltb (high_value_approval_threshold default_settings) m = true
            \/ dec_ltb (medium_value_approval_threshold default_settings) m = true)).
Proof.
  destruct (evaluate_action context_1 retry_1) as [r|e] eqn:Hr;
    [|exfalso; vm_compute in Hr; discriminate].
  destruct (approval_iff_valuable context_1 retry_1 RecoveryActionType.RETRY_LATER r eq_refl Hr)
    as (m & Hm & H). exists r, m. split; [reflexivity|]. split; [exact Hm|exact H].
Defined.

Lemma risk_is_maximum_witness :
  exists r hits, evaluate_action context_1 retry_1 = Ok r
    /\ rule_hits context_1 RecoveryActionType.RETRY_LATER retry_1 = Ok hits
    /\ _RISK_RANK (result_risk_level r) = rank_max (omap hit_risk_level hits).
Proof.
  destruct (evaluate_action context_1 retry_1) as [r|e] eqn:Hr;
    [|exfalso; vm_compute in Hr; discriminate].
  destruct (risk_is_maximum context_1 retry_1 RecoveryActionType.RETRY_LATER r eq_refl Hr)
    as (hits & Hh & Hm & _). exists r, hits. split; [reflexivity|]. split; [exact Hh|exact Hm].
Defined.

Lemma unknown_action_rejected_witness :
  exists r, evaluate_action context_1 (propose "WIRE_FUNDS") = Ok r /\ result_allowed r = false.
Proof.
  destruct (unknown_action_rejected context_1 (propose "WIRE_FUNDS")) as (r & Hr & Ha & _).
  - intros []; discriminate.
  - exists r. split; [exact Hr|exact Ha].
Defined.

Lemma evaluation_total_witness : exists r, evaluate_action context_1 retry_1 = Ok r.
Proof. exact (evaluation_total context_1 retry_1 (mkDec 10000 (-2)) eq_refl). Defined.

(** Noon is outside the quiet hours from 21 to 8. *)
Lemma quiet_hours_dial_witness : ~ in_dial 21 8 12.
Proof.
  intros H. assert (_in_quiet_hours context_1 default_settings = true) as Hq.
  { apply (quiet_hours_dial context_1 default_settings); [split; [discriminate|reflexivity]..|exact H]. }
  vm_compute in Hq. discriminate.
Defined.

(** * Scoring a stored case

    A reader of the fields [CaseContext.model_dump] writes, and the theorem on scoring
    without a model applied to a case of the scenario. *)

(** ** Reading a context back *)

Definition num_of (j : json) : option Decimal :=
  match j with
  | JFloat text => match dec_of_str text with Some (Finite d) => Some d | _ => None end
  | _ => None
  end.
Definition int_of (j : json) : option Z := match j with JInt n => Some n | _ => None end.
Definition text_of (j : json) : option string := match j with JStr s => Some s | _ => None end.

Definition context_of_fields (d : dict) : CaseContext :=
  let num k := num_of (dict_get k d) in
  let int k := int_of (dict_get k d) in
  let text k := text_of (dict_get k d) in
  mk_CaseContext (default ZERO (num "amount")) (default "" (text "failure_reason"))
    (default 0%Z (int "attempt_number")) (text "merchant_category") (text "payment_method") (text "bank")
    (num "historical_success_rate") (num "historical_recovery_rate") (num "customer_lifetime_value")
    (num "days_since_last_purchase") (num "cart_age_hours") (num "cart_value") (text "subscription_state")
    (int "communication_count") (num "days_since_last_contact") (num "previous_discount_usage")
    (int "hour_of_day") (int "day_of_week") (text "customer_segment") (text "case_type")
    (int "prior_failures") (int "prior_captures") (text "merchant_id") (text "recovery_case_id")
    (text "customer_id").

Definition validate_fields (d : dict) : result string CaseContext :=
  let context := context_of_fields d in
  if valid_context context then Ok context else Raise "validation error".

Lemma num_of_JNum d : num_of (JNum d) = Some d.
Proof. unfold num_of, JNum. by rewrite float_text_roundtrip. Qed.

Lemma num_of_option o : num_of (json_of JNum o) = o.
Proof. destruct o; [apply num_of_JNum|done]. Qed.
Lemma int_of_option o : int_of (json_of JInt o) = o.
Proof. by destruct o. Qed.
Lemma text_of_option o : text_of (json_of JStr o) = o.
Proof. by destruct o. Qed.

Lemma context_of_dump c : context_of_fields (model_dump c) = c.
Proof.
  unfold context_of_fields.
  repeat match goal with |- context [dict_get ?k (model_dump c)] =>
    let v := eval cbv -[JNum json_of] in (dict_get k (model_dump c)) in
    change (dict_get k (model_dump c)) with v end.
  rewrite num_of_JNum, !num_of_option, !int_of_option, !text_of_option. by destruct c.
Qed.

Lemma validate_dump c : valid_context c = true -> validate_fields (model_dump c) = Ok c.
Proof. intros H. unfold validate_fields. by rewrite context_of_dump, H. Qed.

(** ** A stored case *)

Definition waiting_store : World :=
  run [Ingest failed_event merchant_1 None []; ProcessEvent (uuid_str hook_1) false []] store_0.

Lemma cases_are_scored_without_a_model_witness :
  exists c q, w_cases waiting_store !! case_1 = Some c
    /\ _predict (default_predictor (Pipeline := unit) (fun _ _ => Ok ZERO) validate_fields (mk_ModelsDir ∅ None) ∅)
         (Some (optimizer_context_of case_1 waiting_store)) "RETRY_NOW" noon false = Ok q
    /\ quote_source q = "MODEL_FALLBACK".
Proof.
  assert (is_Some (w_cases waiting_store !! case_1)) as [c Hc] by (apply (bool_decide_unpack _); by vm_compute).
  destruct (cases_are_scored_without_a_model (Pipeline := unit) (fun _ _ => Ok ZERO) validate_fields case_1 c
    "RETRY_NOW" noon false waiting_store validate_dump ltac:(by vm_compute) Hc ltac:(by vm_compute)) as (q & Hq & Hs & _).
  exists c, q. exact (conj Hc (conj Hq Hs)).
Defined.

(** What is answered: the customer has failed once and never paid. *)
Example score_of_the_waiting_case :
  map (fun action => (fun q => (dec_str (quote_probability q), quote_source q)) <$>
      match _predict (default_predictor (Pipeline := unit) (fun _ _ => Ok ZERO) validate_fields (mk_ModelsDir ∅ None) ∅)
        (Some (optimizer_context_of case_1 waiting_store)) action noon false with Ok q => Some q | Raise _ => None end)
    VALID_ACTIONS
  = map (fun p => Some (p, "MODEL_FALLBACK")) ["0.2"; "0.2"; "0.18"; "0.14"; "0.28"; "0.08"; "0.025"].
Proof. vm_compute. reflexivity. Qed.
