(* ===== verification/Applications.v ===== *)
(** * The theorems of processing, verification and the worker at work

    Each applied to a store the scenario passes through. *)
From S2P Require Import Prelude PyStr Uuid Errors Decimal Json Datetime Enums Rows Store Repositories StateMachine Transitions Config Optimizer PolicyContext PolicyEngine OptimizerService OptimizerTheorems VerificationTypes Events Processing Processor Verification Lifecycle Refinement VerificationProps ProcessorProps VerificationTheorems ProcessingProps ProcessingTheorems Ingestion Worker WorkerTheorems System Scenario.
Open Scope stdpp_scope.

(** The store after the first [n] requests. *)
Definition after (n : nat) : World := run (take n recovery_schedule) store_0.

(** Rows of those stores. *)
Definition case_detected : RecoveryCase := Eval vm_compute in default case_1_row (w_cases (after 2) !! case_1).
Definition case_waiting : RecoveryCase := Eval vm_compute in default case_1_row (w_cases (after 5) !! case_1).
Definition hook_row (n : nat) (hook : UUID) : option WebhookEvent := w_webhooks (after n) !! hook.

Lemma run_of_outcome {A} (op : Op A) w a : outcome op w = Ok a -> op w = (final op w, Ok a).
Proof. unfold outcome, final. destruct (op w). by intros [= ->]. Qed.

Ltac evaluated := vm_compute; reflexivity.

Lemma case_2 : w_cases (after 2) !! case_1 = Some case_detected.
Proof. evaluated. Qed.
Lemma case_5 : w_cases (after 5) !! case_1 = Some case_waiting.
Proof. evaluated. Qed.

(** The payment, before and after its capture. *)
Definition no_payment : Payment := mk_Payment merchant_1 customer_1 "" None None None ZERO None ""
  PaymentStatus.CREATED None None None None None.
Definition failed_row : Payment := Eval vm_compute in default no_payment (w_payments (after 2) !! payment_1).
Definition captured_payment : Payment := Eval vm_compute in default no_payment (w_payments (after 5) !! payment_1).

Lemma payment_2 : w_payments (after 2) !! payment_1 = Some failed_row.
Proof. evaluated. Qed.
Lemma payment_5 : w_payments (after 5) !! payment_1 = Some captured_payment.
Proof. evaluated. Qed.

(** The normalised events of the scenario. *)
Definition no_event : DomainPaymentEvent := mk_DomainPaymentEvent Events.PAYMENT_FAILED "" ""
  0%N 0%N (utc 0) "" None "" ZERO "" "" None 0 None None None None.
Definition normalized (e : ProviderEvent) (hook : UUID) : DomainPaymentEvent :=
  match normalize_provider_event e hook merchant_1 with
  | Ok (PaymentEvent d) => d
  | _ => no_event
  end.
Definition failed_domain : DomainPaymentEvent := Eval vm_compute in normalized failed_event hook_1.
Definition captured_domain : DomainPaymentEvent := Eval vm_compute in normalized captured_event hook_2.

(** ** The processor *)

Lemma processing_follows_policy_witness :
  exists c', w_cases (final (process_locked_case default_settings None "WORKER" case_1) (after 2)) !! case_1 = Some c'
    /\ decided case_1 (after 2) (final (process_locked_case default_settings None "WORKER" case_1) (after 2))
         (case_status c').
Proof.
  apply (proj2 (processing_follows_policy default_settings None "WORKER" case_1 (after 2) case_detected case_2)).
  - apply list_elem_of_here.
  - apply run_of_outcome. evaluated.
Defined.

(** ** Verification *)


Lemma counted_payment_credits_nothing_witness :
  w_payments (final (verify_case default_settings None "WORKER" case_1 (Some payment_1) (Some hook_2)) (after 6))
  = w_payments (after 6).
Proof.
  refine (proj1 (counted_payment_credits_nothing default_settings None "WORKER" case_1 payment_1 (Some hook_2)
    (after 6) case_1_row captured_payment _
    (outcome (verify_case default_settings None "WORKER" case_1 (Some payment_1) (Some hook_2)) (after 6))
    _ _ _ _ _)); [evaluated|discriminate|evaluated|left; reflexivity|apply surjective_pairing].
Defined.

(** The capture of the waiting case is a full match, in any status. *)
Definition with_status (s : RecoveryCaseStatus) : RecoveryCase := set_case_status s case_waiting.
Definition store_with (s : RecoveryCaseStatus) : World :=
  set_w_cases (<[case_1 := with_status s]> (w_cases (after 5))) (after 5).

Lemma full_match_with s :
  full_match default_settings (store_with s) case_1 (with_status s) payment_1 captured_payment
    (Some hook_2) (mkDec 10000 (-2)).
Proof.
  split.
  - split; try reflexivity.
    + intros o1 o2 H. exfalso. revert H. vm_compute. discriminate.
    + right. left. reflexivity.
    + eexists. split; [reflexivity|]. split; vm_compute; discriminate.
    + eexists. split; reflexivity.
  - reflexivity.
  - eexists. split; reflexivity.
  - intros [H|[_ H]]; discriminate H.
  - vm_compute. reflexivity.
Qed.

Notation verify_op := (verify_case default_settings None "WORKER" case_1 (Some payment_1) (Some hook_2)).


Lemma stuck_case_is_not_credited_witness :
  final verify_op (store_with NOT_RECOVERED) = store_with NOT_RECOVERED.
Proof.
  destruct (outcome verify_op (store_with NOT_RECOVERED)) as [m|e] eqn:Ho;
    [|exfalso; vm_compute in Ho; discriminate].
  refine (proj1 (stuck_case_is_not_credited default_settings None "WORKER" case_1 payment_1 (Some hook_2)
    (store_with NOT_RECOVERED) (with_status NOT_RECOVERED) captured_payment (mkDec 10000 (-2))
    (final verify_op (store_with NOT_RECOVERED)) m _ _ _ (full_match_with _) _)).
  - evaluated.
  - evaluated.
  - apply list_elem_of_here.
  - apply run_of_outcome, Ho.
Defined.

(** ** Events *)

(** The store with the failed event received, and the same without its merchant. *)
Definition received_row : option WebhookEvent := hook_row 1 hook_1.
Definition orphaned : World :=
  let w := after 1 in
  mk_World ∅ (w_customers w) (w_payments w) (w_attempts w) (w_cases w) (w_actions w)
    (w_decisions w) (w_webhooks w) (w_evaluations w) (w_approvals w) (w_notifications w)
    (w_audit w) (w_side w) (w_clock w) (w_ticks w) (w_uuids w) (w_draws w).

Lemma finished_event_is_a_noop_witness :
  exists status, process_webhook_event alone hook_1 (after 6) = (after 6, Ok (mk_ProcessResult status hook_1 [])).
Proof.
  destruct (w_webhooks (after 6) !! hook_1) as [row|] eqn:Hr; [|exfalso; vm_compute in Hr; discriminate].
  apply (finished_event_is_a_noop alone hook_1 (after 6) row Hr).
  left. vm_compute in Hr. injection Hr as <-. reflexivity.
Defined.

Lemma dead_letter_leaves_no_trace_witness :
  domain_tables (final (process_webhook_event alone hook_1) orphaned) = domain_tables orphaned.
Proof.
  destruct (w_webhooks orphaned !! hook_1) as [row|] eqn:Hr; [|exfalso; vm_compute in Hr; discriminate].
  refine (proj1 (dead_letter_leaves_no_trace alone hook_1 orphaned row
    (final (process_webhook_event alone hook_1) orphaned) (mk_ProcessResult "dead_letter" hook_1 []) Hr _ _ _)).
  - vm_compute in Hr. injection Hr as <-. reflexivity.
  - apply run_of_outcome. evaluated.
  - reflexivity.
Defined.

(** An event of a type the table does not name. *)
Definition odd_store : World :=
  run [Ingest (event_of "evt_9" "payment.disputed" noon) merchant_1 None []] store_0.

Lemma unknown_event_has_no_effect_witness :
  domain_tables (final (process_webhook_event alone hook_1) odd_store) = domain_tables odd_store.
Proof.
  destruct (w_webhooks odd_store !! hook_1) as [row|] eqn:Hr; [|exfalso; vm_compute in Hr; discriminate].
  destruct (unknown_event_has_no_effect alone hook_1 odd_store row
    (mk_Merchant "Acme" "acme" true None None) Hr) as (w' & Hw' & Ht & _).
  - vm_compute in Hr. injection Hr as <-. reflexivity.
  - evaluated.
  - vm_compute in Hr. injection Hr as <-. evaluated.
  - vm_compute in Hr. injection Hr as <-. reflexivity.
  - unfold final. rewrite Hw'. exact Ht.
Defined.

(** A store with the failed payment and no case: one is opened. *)
Definition caseless : World := set_w_cases ∅ (after 2).
Notation open_op := (_create_or_attach_recovery_case alone hook_1 failed_domain payment_1).

Lemma caseless_payment : w_payments caseless !! payment_1 = Some failed_row.
Proof. evaluated. Qed.
Lemma caseless_open :
  RecoveryCaseRepository.list_open_for_payment (ev_merchant_id failed_domain) payment_1 caseless = [].
Proof. evaluated. Qed.

Lemma failed_payment_opens_one_case_witness :
  exists id now, w_cases (final open_op caseless)
    = <[id := new_case failed_domain payment_1 failed_row hook_1 now]> (w_cases caseless).
Proof.
  destruct (outcome open_op caseless) as [jobs|e] eqn:Ho; [|exfalso; vm_compute in Ho; discriminate].
  pose proof (failed_payment_opens_one_case hook_1 failed_domain payment_1 failed_row caseless
    (final open_op caseless) jobs caseless_payment (run_of_outcome _ _ _ Ho)) as H.
  unfold attached_or_opened in H. rewrite caseless_open in H.
  destruct H as (id & now & _ & H & _). exists id, now. exact H.
Defined.

Lemma captures_reach_every_open_case_witness :
  exists pid p, w_payments (final (_handle_payment_captured hook_2 captured_domain) (after 4)) !! pid = Some p
    /\ payment_status p = PaymentStatus.CAPTURED.
Proof.
  destruct (outcome (_handle_payment_captured hook_2 captured_domain) (after 4)) as [jobs|e] eqn:Ho;
    [|exfalso; vm_compute in Ho; discriminate].
  destruct (captures_reach_every_open_case hook_2 captured_domain (after 4)
    (final (_handle_payment_captured hook_2 captured_domain) (after 4)) jobs)
    as (_ & pid & _ & _ & _ & (p & Hp & _ & _ & Hs & _) & _).
  - apply run_of_outcome, Ho.
  - exists pid, p. split; [exact Hp|exact Hs].
Defined.

(** A late capture revives a refunded payment. *)
Lemma late_events_and_captures_witness :
  payment_status (apply_event captured_domain PaymentStatus.CAPTURED
    (set_payment_status PaymentStatus.REFUNDED captured_payment)) = PaymentStatus.CAPTURED.
Proof.
  apply (proj1 (late_events_and_captures captured_domain PaymentStatus.CAPTURED
    (set_payment_status PaymentStatus.REFUNDED captured_payment)
    (list_elem_of_further _ _ _ (list_elem_of_here _ _)))). reflexivity.
Defined.

(** ** Ingestion *)

Notation ingest_op := (ingest queue_all alone failed_event merchant_1 [] None).

Lemma ingestion_is_idempotent_witness :
  exists r, ingested failed_event merchant_1 None [] (after 2) r (final ingest_op (after 2)).
Proof.
  destruct (outcome ingest_op (after 2)) as [r|e] eqn:Ho; [|exfalso; vm_compute in Ho; discriminate].
  exists r. refine (ingestion_is_idempotent queue_all failed_event merchant_1 [] None (after 2)
    (final ingest_op (after 2)) r _). apply run_of_outcome, Ho.
Defined.

(** ** The worker *)

Lemma verify_job_valid : plain_job (verify_job case_1 payment_1 hook_2) /\ valid_job (verify_job case_1 payment_1 hook_2).
Proof.
  assert (forall u v, valid_uuid v -> Some v = Some u -> valid_uuid u) as H.
  { intros u v Hv E. apply (inj Some) in E. by rewrite <- E. }
  split; [split; [reflexivity|right; reflexivity]|].
  split; [evaluated|]. split; intros u; apply H; evaluated.
Qed.

Lemma followup_survives_the_queue_witness :
  exists job, queued_job 3 (JObj (VerificationTypes.as_dict (verify_job case_1 payment_1 hook_2))) = Some job
    /\ perform [] true job (after 5)
       = as_job (follow [] (verify_job case_1 payment_1 hook_2))
           (failure_answer (verify_job case_1 payment_1 hook_2)) (after 5).
Proof.
  exact (proj1 (followup_survives_the_queue [] 3 (verify_job case_1 payment_1 hook_2) (after 5)
    (proj1 verify_job_valid) (proj2 verify_job_valid))).
Defined.

(** A case that does not exist: the job answers, and no row changes. *)
Lemma recovery_job_is_all_or_nothing_witness :
  same_rows store_0 (final (process_recovery_case_job [] true (uuid_str case_1)) store_0).
Proof.
  destruct (recovery_job_is_all_or_nothing [] (uuid_str case_1) case_1 store_0
    (final (process_recovery_case_job [] true (uuid_str case_1)) store_0)
    (outcome (process_recovery_case_job [] true (uuid_str case_1)) store_0)) as [(d & _ & H & _)|(e & H & _)].
  - evaluated.
  - apply surjective_pairing.
  - exfalso. apply (f_equal snd) in H. vm_compute in H. discriminate.
  - exact H.
Defined.

(** An amount that is not a number: processing raises what the queue retries. *)
Definition nan_event : ProviderEvent :=
  mk_ProviderEvent "SIMULATOR" "evt_7" "payment.failed" (utc noon) "pay_7" "acme"
    [("provider_payment_id", JStr "pay_7"); ("amount", JStr "NaN"); ("currency", JStr "INR");
     ("customer_id", JStr (uuid_str customer_1))] (Some true) None.
Definition nan_store : World := run [Ingest nan_event merchant_1 None []] store_0.

Lemma failed_event_job_is_atomic_witness :
  exists w' row', domain_tables w' = domain_tables nan_store
    /\ w_webhooks w' !! hook_1 = Some row' /\ hook_status row' = WebhookEventStatus.DEAD_LETTER.
Proof.
  destruct (w_webhooks nan_store !! hook_1) as [row|] eqn:Hr; [|exfalso; vm_compute in Hr; discriminate].
  destruct (outcome (transaction (process_webhook_event alone hook_1)) nan_store) as [a|e] eqn:Ho;
    [exfalso; vm_compute in Ho; discriminate|].
  destruct (failed_event_job_is_atomic [] alone 3 queue_all false [] (uuid_str hook_1) hook_1 row nan_store e)
    as (w' & _ & Ht & row' & Hr' & Hs & _).
  - evaluated.
  - exact Hr.
  - vm_compute in Hr. injection Hr as <-. reflexivity.
  - evaluated.
  - exact Ho.
  - exists w', row'. split; [exact Ht|]. split; [exact Hr'|exact Hs].
Defined.

(** ** Money *)

(** 12.345 rounds to the even cent. *)
Lemma money_is_nearest_cent_witness :
  as_money (mkDec 12345 (-3)) = Ok (mkDec 1234 (-2)) /\ as_money (mkDec 1234 (-2)) = Ok (mkDec 1234 (-2)).
Proof.
  split; [reflexivity|].
  destruct (money_is_nearest_cent (mkDec 12345 (-3)) (mkDec 1234 (-2)) eq_refl) as (_ & _ & H & _). exact H.
Defined.

(** ** The optimizer *)

(** A predictor that gives every action an even chance, and a case of 100.00. *)
Definition even_chance (context : dict) (action : string) : result predictor_error RecoveryProbability :=
  Ok (mk_RecoveryProbability (mkDec 5 (-1)) "model-1" "features-v1" "ml" []).
Definition input_1 : OptimizerCaseInput :=
  mk_OptimizerCaseInput case_1 merchant_1 (mkDec 10000 (-2)) ZERO "INR" false false None (Some []).
Definition args_1 : OptimizeArgs := mk_OptimizeArgs None None None None None false false None.
Notation optimize_op := (optimize even_chance default_optimizer_settings input_1 args_1).

(** What it computes: the reminder costs least, but retrying later risks least. *)
Definition optimized_1 : OptimizationResult :=
  Eval vm_compute in match outcome optimize_op store_0 with
                     | Ok r => r
                     | Raise _ => mk_OptimizationResult case_1 "" "" None [] None None "" None false None
                     end.
Lemma optimize_1 : optimize_op store_0 = (final optimize_op store_0, Ok optimized_1).
Proof. apply run_of_outcome. evaluated. Qed.

Example optimized_1_selected :
  opt_selected_action optimized_1 = Some "RETRY_LATER"
  /\ opt_selected_expected_value optimized_1 = Some (mkDec 4400 (-2)).
Proof. split; reflexivity. Qed.

Lemma selection_is_best_witness : result_of default_optimizer_settings optimized_1.
Proof. exact (selection_is_best _ _ _ _ _ _ _ optimize_1). Defined.

Lemma expected_values_within_risk_witness :
  Forall (within_risk (mkDec 10000 (-2))) (opt_candidate_actions optimized_1).
Proof. exact (expected_values_within_risk _ _ _ _ _ _ _ (mkDec 10000 (-2)) optimize_1 eq_refl). Defined.

Lemma recorded_verdict_permits_witness : _policy_verdict optimized_1 = "ALLOW".
Proof. exact (recorded_verdict_permits _ _ _ _ _ _ _ optimize_1). Defined.

Lemma ranking_ignores_order_witness :
  rank_candidates default_optimizer_settings input_1 (opt_candidate_actions optimized_1)
  = rank_candidates default_optimizer_settings input_1 (rev (opt_candidate_actions optimized_1)).
Proof.
  refine (ranking_ignores_order default_optimizer_settings input_1 _ _ _ (Permutation_rev _)).
  apply (bool_decide_unpack _). vm_compute. exact I.
Defined.
