(* ===== verification/ToolWitnesses.v ===== *)
(** * The theorems about tools at work

    Each applied to a case of the scenario that has reached POLICY_CHECK, with the local
    simulator. *)
From S2P Require Import Prelude PyStr Uuid Errors Decimal Json Datetime Enums Rows Store Repositories StateMachine Transitions Config PolicyContext PolicyEngine Optimizer OptimizerService Events Providers Simulator Processing Processor Lifecycle Refinement Invariants Ingestion Worker WorkerTheorems ToolData Idempotency ToolHandlers ToolExecution Approvals ToolRefinement ToolProps ToolTheorems ApprovalTheorems HandlerTheorems System Scenario Applications.
Open Scope stdpp_scope.

(** The store in which the case is at POLICY_CHECK. *)
Definition at_policy : World := final (_prepare_policy_check [] case_1) (after 2).

Definition tool_spec (name : string) : ToolSpec :=
  match registry_get name with Ok s => s | Raise _ => tool "" "" GREEN ToolPermission.VIEW_RECOVERY 0 false end.

Definition args (name key : string) (input : dict) (existing approval : option UUID) (approved : bool)
  : ExecuteArgs :=
  mk_ExecuteArgs (Some name) None input key None "SYSTEM" None None None existing approval approved.

Definition fresh_outside : Outside LocalSimulationProvider := mk_Outside (new_simulator 42) None.

Definition predictor_1 := ext_predictor simple_externals.
Definition features_1 := ext_tool_context_of simple_externals.
Definition as_int_1 := ext_as_int simple_externals.

(** A recorded call of a tool, in a store, for a key that is not looked at again. *)
Definition call_of (settings : RecoverySettings) (name : string) (input : dict) (w : World) :=
  run_recorded settings queue_all (fun w => w) predictor_1 features_1 isoformat (tool_spec name) case_1
    (Some customer_1) (Some payment_1) input 0%N noon (args name "key-1" input None None false) fresh_outside w.

(** The policy with a threshold below the amount of the case. *)
Definition strict_settings : RecoverySettings :=
  mk_RecoverySettings 72 60 (dec_of_Z 25000) (dec_of_Z 50) 3 (dec_of_Z 10) (dec_of_Z 5000) 3 21 8
    true 60 POLICY_VERSION.

(** A call and its status. *)
Definition call_status_of (settings : RecoverySettings) (name : string) (input : dict) (w : World) : string :=
  match outcome (call_of settings name input) w with Ok (r, _) => x_status r | Raise _ => "" end.

Lemma status_of_call settings name input w w' r out' :
  call_of settings name input w = (w', Ok (r, out')) -> call_status_of settings name input w = x_status r.
Proof. intros H. unfold call_status_of, outcome. by rewrite H. Qed.

Lemma retry_succeeds : call_status_of default_settings "retry_payment" [] at_policy = "SUCCEEDED".
Proof. evaluated. Qed.
Definition fifteen : dict := [("discount_percent", JStr "15")].
Lemma discount_blocked : call_status_of default_settings "offer_discount" fifteen at_policy = "BLOCKED".
Proof. evaluated. Qed.
Lemma retry_held : call_status_of strict_settings "retry_payment" [] at_policy = "APPROVAL_REQUIRED".
Proof. evaluated. Qed.

Lemma no_execution_without_permission_witness :
  exists w1 context verdict, consults at_policy w1
    /\ verdict_on default_settings case_1 RecoveryActionType.RETRY_NOW [] w1 context verdict
    /\ result_allowed verdict = true.
Proof.
  destruct (call_of default_settings "retry_payment" [] at_policy) as [w' [[r out']|e]] eqn:H;
    [|exfalso; pose proof retry_succeeds as E; unfold call_status_of, outcome in E; rewrite H in E; discriminate E].
  pose proof (status_of_call _ _ _ _ _ _ _ H) as Hst. unfold call_of in H.
  destruct (no_execution_without_permission default_settings queue_all (fun w => w) predictor_1 features_1
    isoformat (tool_spec "retry_payment") case_1 (Some customer_1) (Some payment_1) [] 0%N noon
    (args "retry_payment" "key-1" [] None None false) fresh_outside at_policy w' r out'
    RecoveryActionType.RETRY_NOW eq_refl H) as (w1 & c & v & H1 & H2 & H3 & _).
  - rewrite <- Hst, retry_succeeds. apply list_elem_of_here.
  - exists w1, c, v. split; [exact H1|split; [exact H2|exact H3]].
Defined.

Lemma denied_tools_do_nothing_witness :
  exists w' r out', call_of default_settings "offer_discount" fifteen at_policy = (w', Ok (r, out'))
    /\ effects w' = effects at_policy /\ w_cases w' = w_cases at_policy.
Proof.
  destruct (call_of default_settings "offer_discount" fifteen at_policy) as [w' [[r out']|e]] eqn:H;
    [|exfalso; pose proof discount_blocked as E; unfold call_status_of, outcome in E; rewrite H in E; discriminate E].
  exists w', r, out'. split; [reflexivity|].
  pose proof (status_of_call _ _ _ _ _ _ _ H) as Hst. unfold call_of in H.
  destruct (denied_tools_do_nothing default_settings queue_all (fun w => w) predictor_1 features_1
    isoformat (tool_spec "offer_discount") case_1 (Some customer_1) (Some payment_1) fifteen 0%N noon
    (args "offer_discount" "key-1" fifteen None None false) fresh_outside at_policy w' r out'
    RecoveryActionType.OFFER_DISCOUNT eq_refl H) as (_ & _ & He & Hc & _).
  - rewrite <- Hst. exact discount_blocked.
  - split; [exact He|exact Hc].
Defined.

Lemma held_tools_do_nothing_yet_witness :
  exists w' r out', call_of strict_settings "retry_payment" [] at_policy = (w', Ok (r, out'))
    /\ effects w' = effects at_policy /\ is_Some (x_approval_id r).
Proof.
  destruct (call_of strict_settings "retry_payment" [] at_policy) as [w' [[r out']|e]] eqn:H;
    [|exfalso; pose proof retry_held as E; unfold call_status_of, outcome in E; rewrite H in E; discriminate E].
  exists w', r, out'. split; [reflexivity|].
  pose proof (status_of_call _ _ _ _ _ _ _ H) as Hst. unfold call_of in H.
  destruct (held_tools_do_nothing_yet strict_settings queue_all (fun w => w) predictor_1 features_1
    isoformat (tool_spec "retry_payment") case_1 (Some customer_1) (Some payment_1) [] 0%N noon
    (args "retry_payment" "key-1" [] None None false) fresh_outside at_policy w' r out'
    RecoveryActionType.RETRY_NOW eq_refl H)
    as (w1 & c & v & aid & pid & row & _ & _ & _ & _ & _ & _ & He & _ & _ & _ & Hp & _).
  - rewrite <- Hst. exact retry_held.
  - split; [exact He|exists pid; exact Hp].
Defined.

(** ** Whole requests *)

(** The request in full. *)
Definition request_of (settings : RecoverySettings) (name key : string) (input : dict) :=
  execute settings queue_all (fun w => w) (fun w => w) predictor_1 features_1 as_int_1 isoformat case_1
    (args name key input None None false) fresh_outside.

Definition retried : World := final (request_of default_settings "retry_payment" "key-1" []) at_policy.
Definition retry_answer : ToolExecutionResult := Eval vm_compute in
  match outcome (request_of default_settings "retry_payment" "key-1" []) at_policy with
  | Ok (r, _) => r
  | Raise _ => mk_ToolExecutionResult "" "" false false "" None None None None None false None None [] None false
  end.

(** The row of the case in a store. *)
Definition row_in (w : World) : RecoveryCase := default case_1_row (w_cases w !! case_1).
Definition row_before : RecoveryCase := Eval vm_compute in row_in at_policy.
Definition row_after : RecoveryCase := Eval vm_compute in row_in retried.

Lemma before_row : w_cases at_policy !! case_1 = Some row_before.
Proof. evaluated. Qed.
Lemma after_row : w_cases retried !! case_1 = Some row_after.
Proof. evaluated. Qed.
Lemma merchant_kept w : w_merchants w = w_merchants store_0 -> is_Some (w_merchants w !! merchant_1).
Proof. intros ->. by eexists. Qed.

Lemma retry_admitted w c :
  w_cases w !! case_1 = Some c -> case_merchant_id c = merchant_1 -> terminal (case_status c) = false ->
  w_merchants w = w_merchants store_0 ->
  admitted as_int_1 case_1 (args "retry_payment" "key-1" [] None None false) w (tool_spec "retry_payment")
    [("attempt_number", JNull)] c.
Proof.
  intros Hc Hm Ho Hw. split; [done|done|done| |done|done].
  split; [by intros m [=]|]. rewrite Hm. by apply merchant_kept.
Qed.

Lemma retry_run : exists out, request_of default_settings "retry_payment" "key-1" [] at_policy = (retried, Ok (retry_answer, out)).
Proof.
  unfold retried, final. destruct (request_of _ _ _ _ at_policy) as [w' [[r out]|e]] eqn:H.
  - exists out. assert (retry_answer = r) as ->; [|done].
    assert (outcome (request_of default_settings "retry_payment" "key-1" []) at_policy = Ok (r, out)) as Ho
      by (unfold outcome; by rewrite H).
    assert (match outcome (request_of default_settings "retry_payment" "key-1" []) at_policy with
            | Ok (r, _) => Some r | Raise _ => None end = Some retry_answer) as Hr by evaluated.
    rewrite Ho in Hr. by injection Hr.
  - assert (is_ok (outcome (request_of default_settings "retry_payment" "key-1" []) at_policy) = true) as Hok
      by evaluated.
    unfold outcome in Hok. by rewrite H in Hok.
Qed.

Lemma retry_answer_formed : well_formed retry_answer.
Proof.
  split; [done|]. rewrite !list.Forall_cons. unfold valid_uuid.
  split; [intros u [= <-]; lia|]. split; [done|]. split; [intros u [= <-]; lia|constructor].
Qed.

Lemma stored_answer_reads_back_witness :
  _result_from_stored (tool_public_dict retry_answer) = Ok (set_x_replayed true retry_answer).
Proof. exact (stored_answer_reads_back retry_answer retry_answer_formed). Defined.

Lemma one_key (w : World) id k : w_idempotency w = {[id := k]} -> keys_distinct w.
Proof. intros E i j a b. rewrite E, !lookup_singleton_Some. by intros [<- _] [<- _]. Qed.

Definition key_1 : IdempotencyKey := Eval vm_compute in
  default (mk_IdempotencyKey 0%N "" "" "" None IdempotencyKeyStatus.IN_PROGRESS None None None)
    (w_idempotency retried !! 0x9002%N).

Lemma retried_keys : w_idempotency retried = {[0x9002%N := key_1]}.
Proof. evaluated. Qed.

Lemma merchants_before : w_merchants at_policy = w_merchants store_0.
Proof. evaluated. Qed.
Lemma merchants_after : w_merchants retried = w_merchants store_0.
Proof. evaluated. Qed.
Lemma admitted_before : admitted as_int_1 case_1 (args "retry_payment" "key-1" [] None None false) at_policy
  (tool_spec "retry_payment") [("attempt_number", JNull)] row_before.
Proof. apply (retry_admitted _ _ before_row); [evaluated|evaluated|exact merchants_before]. Qed.
Lemma admitted_after : admitted as_int_1 case_1 (args "retry_payment" "key-1" [] None None false) retried
  (tool_spec "retry_payment") [("attempt_number", JNull)] row_after.
Proof. apply (retry_admitted _ _ after_row); [evaluated|evaluated|exact merchants_after]. Qed.
Lemma retry_not_held : x_status retry_answer <> "APPROVAL_REQUIRED".
Proof. discriminate. Qed.
Lemma retry_fresh : x_replayed retry_answer = false.
Proof. reflexivity. Qed.
Lemma same_merchant : case_merchant_id row_after = case_merchant_id row_before.
Proof. reflexivity. Qed.


(** A recovered case refuses the retry. *)
Lemma terminal_case_runs_no_tool_witness :
  w_cases store_1 !! case_1 = Some case_1_row /\ terminal (case_status case_1_row) = true
  /\ exists e, request_of default_settings "retry_payment" "key-1" [] store_1
       = (set_w_ticks (S (w_ticks store_1)) store_1, Raise e).
Proof.
  split; [exact case_1_recovered|]. split; [reflexivity|]. unfold request_of.
  exact (terminal_case_runs_no_tool default_settings queue_all (fun w => w) (fun w => w) predictor_1 features_1
    as_int_1 isoformat case_1 (args "retry_payment" "key-1" [] None None false) fresh_outside store_1 case_1_row
    case_1_recovered eq_refl).
Defined.

(** The key of the retry, for a retry of another number. *)
Definition second_try : dict := [("attempt_number", JInt 2)].

Lemma second_try_admitted : admitted as_int_1 case_1 (args "retry_payment" "key-1" second_try None None false)
  retried (tool_spec "retry_payment") second_try row_after.
Proof.
  split; [reflexivity|reflexivity|exact after_row| |reflexivity|reflexivity].
  split; [by intros m [=]|]. apply merchant_kept. exact merchants_after.
Qed.
Lemma key_1_row : key_row (case_merchant_id row_after) "key-1" retried = Some 0x9002%N.
Proof. evaluated. Qed.
Lemma key_1_stored : w_idempotency retried !! 0x9002%N = Some key_1.
Proof. rewrite retried_keys. apply lookup_singleton_eq. Qed.

Lemma conflicting_request_refused_witness :
  request_of default_settings "retry_payment" "key-1" second_try retried
    = (set_w_ticks (S (w_ticks retried)) retried, Raise (IdempotencyConflictError "key-1")).
Proof.
  unfold request_of.
  refine (conflicting_request_refused default_settings queue_all (fun w => w) (fun w => w) predictor_1 features_1
    as_int_1 isoformat case_1 (args "retry_payment" "key-1" second_try None None false) retried
    (tool_spec "retry_payment") second_try row_after fresh_outside 0x9002%N key_1 second_try_admitted
    key_1_row key_1_stored _).
  intros H. apply String.eqb_eq in H. vm_compute in H. discriminate H.
Defined.

(** ** Approvals *)

Lemma approval_resumes_the_request_witness :
  _resolve_tool (Some "retry_payment") None = Ok (tool_spec "retry_payment")
  /\ _validate_input as_int_1 (tool_spec "retry_payment") second_try = Ok second_try
  /\ request_hash_of (tool_spec "retry_payment") None second_try
     = request_hash_of (tool_spec "retry_payment") None second_try.
Proof.
  refine (approval_resumes_the_request as_int_1 None (Some "RETRY_NOW") second_try (tool_spec "retry_payment")
    second_try RecoveryActionType.RETRY_NOW None _ _ _ _); [intros n|..]; reflexivity.
Defined.

Lemma tools_credit_nothing_witness :
  uncredited at_policy (final (request_of default_settings "retry_payment" "key-1" []) at_policy).
Proof.
  unfold request_of.
  exact (proj1 (tools_credit_nothing default_settings queue_all (fun w => w) (fun w => w) predictor_1 features_1
    as_int_1 isoformat case_1 0%N (args "retry_payment" "key-1" [] None None false) fresh_outside
    (new_simulator 42) (Some "u") "USER" None None None at_policy (fun v => rtc_refl _ v) (fun v => rtc_refl _ v))).
Defined.

(** The retry held under the strict policy, and then rejected. *)
Definition held : World := final (request_of strict_settings "retry_payment" "key-1" []) at_policy.
Definition held_action : UUID := Eval vm_compute in default 0%N (head (map fst (map_to_list (w_actions held)))).
Definition reject_held :=
  reject_action case_1 held_action (Some "operator-1") "USER" (Some "no") None None.

Lemma held_rejected : is_ok (outcome reject_held held) = true.
Proof. evaluated. Qed.


(** ** Handlers *)

Lemma success_moves_the_case_witness :
  db_checks at_policy = true /\ w_cases at_policy !! case_1 = Some row_before
  /\ case_status row_before = POLICY_CHECK
  /\ exists w' c', apply_case_outcome case_1 (mk_HandlerResult true [] None None None None None
        (Some ACTION_COMPLETED) true []) "SYSTEM" None at_policy = (w', Ok tt)
     /\ w_cases w' !! case_1 = Some c' /\ case_status c' = ACTION_COMPLETED.
Proof.
  assert (db_checks at_policy = true) as Hdb by evaluated.
  split; [exact Hdb|]. split; [exact before_row|]. split; [reflexivity|].
  exact (success_moves_the_case case_1 _ "SYSTEM" None at_policy row_before Hdb before_row).
Defined.

Definition retry_context : HandlerContext := mk_HandlerContext case_1 merchant_1 (Some customer_1) (Some payment_1) second_try 2 "key-2" None None.

Lemma repeated_retry_collides_witness :
  outcome (handle_retry_payment queue_all (fun w => w) retry_context (mk_Outside (new_simulator 42) None)) retried
    = Raise unique_violation.
Proof.
  assert (is_Some (w_payments retried !! payment_1)) as [original Ho] by (vm_compute; by eexists).
  assert (is_Some (w_payments retried !! internal_payment_uuid (hc_merchant_id retry_context) SIMULATOR
            (first_payment_id 42 (hc_case retry_context)))) as [p Hp] by (vm_compute; by eexists).
  exact (repeated_retry_collides queue_all (fun w => w) retry_context 42 None retried payment_1 original p
    eq_refl Ho Hp).
Defined.
