(* ===== verification/AgentWitnesses.v ===== *)
(** * The theorems about agents at work

    A run of the orchestrator on the detected case of the scenario, with a scripted language
    model that proposes a strategy of its own and tries to override the optimizer. The
    second part applies the theorems about the operator's screens. *)
From S2P Require Import Prelude PyStr Uuid Errors Decimal Sorting Json Datetime Enums Rows Store Repositories StateMachine Transitions Config Optimizer PolicyContext PolicyEngine OptimizerService Events Providers Simulator ToolData Idempotency AgentData Processing Processor Lifecycle Refinement Fixtures Invariants Worker ToolHandlers ToolExecution Approvals Agents ApprovalTheorems Orchestrator AgentTheorems OperatorPolicy Operator System Scenario Guarantees OperatorTheorems EventTheorems Applications ToolWitnesses.
From Stdlib Require Import Sorted.
Open Scope stdpp_scope.

(** ** A hostile model *)

Definition hostile_strategy : dict :=
  [("candidate_actions", JList [JStr "RETRY_LATER"; JStr "OFFER_DISCOUNT"]); ("rationale", JStr "Trust me")].
Definition hostile_explanation : dict :=
  [("observed", JStr "x"); ("candidate_comparison", JStr "y"); ("selected_action", JStr "OFFER_DISCOUNT");
   ("policy", JStr "ignored"); ("reason", JStr "override")].
Definition hostile_analysis : dict :=
  [("answer", JStr "All recovered"); ("metrics", JObj [("revenue_recovered", JStr "1000000")])].

Definition hostile_model : ScriptedLlmClient := mk_ScriptedLlmClient
  [("triage", JStr "invalid"); ("diagnosis", JStr "timeout"); ("strategy", JObj hostile_strategy);
   ("decision_explainer", JObj hostile_explanation); ("analyst", JObj hostile_analysis)] ZERO [].

(** [json.loads] of what the model writes; any other text is refused. *)
Definition loads_1 (text : string) : option json :=
  snd <$> find (fun kv => String.eqb text kv.1)
    (map (fun d => (dumps_plain (JObj d), JObj d)) [hostile_strategy; hostile_explanation; hostile_analysis]).

(** A run of the agents, in the store in which the case is detected. *)
Definition agents_on (s : AgentSettings) (execute : bool) (w : World) :=
  run_case (L := ScriptedLlmClient) [] default_settings queue_all (fun w => w) (fun w => w) predictor_1
    default_optimizer_settings (fun _ _ => []) features_1 as_int_1 isoformat loads_1
    (ext_as_bool simple_externals) (ext_as_float simple_externals) s case_1 None execute None hostile_model
    fresh_outside w.

Definition tight_settings : AgentSettings := mk_AgentSettings 8 0 2 (dec_of_Z 8) 1 "stub".

(** What is seen of a run: the strategy, the selection, the explanation's, the execution, the
    number of questions. *)
Definition seen (s : AgentSettings) (execute : bool) (w : World) :=
  match outcome (agents_on s execute) w with
  | Ok (r, (llm, _)) => Some (strat_candidate_actions (orc_strategy r), orc_selected_action r,
                              expl_selected_action (orc_explanation r), orc_execution_status r, length (calls llm))
  | Raise _ => None
  end.


Definition seen_hostile :=
  (["RETRY_LATER"; "OFFER_DISCOUNT"], Some "RETRY_LATER", Some "RETRY_LATER", Some "SUCCEEDED", 6%nat).

Lemma hostile_run : seen default_agent_settings true (after 2) = Some seen_hostile.
Proof. evaluated. Qed.


Lemma language_model_calls_bounded_witness :
  exists w' r lo, agents_on default_agent_settings true (after 2) = (w', Ok (r, lo))
    /\ (length (calls lo.1) <= 8)%nat.
Proof.
  destruct (agents_on default_agent_settings true (after 2)) as [w' [[r lo]|e]] eqn:H;
    [|exfalso; pose proof hostile_run as E; unfold seen, outcome in E; rewrite H in E; discriminate E].
  exists w', r, lo. split; [reflexivity|]. unfold agents_on in H.
  exact (language_model_calls_bounded [] default_settings queue_all (fun w => w) (fun w => w) predictor_1
    default_optimizer_settings (fun _ _ => []) features_1 as_int_1 isoformat loads_1
    (ext_as_bool simple_externals) (ext_as_float simple_externals) default_agent_settings case_1 None true None
    hostile_model fresh_outside (after 2) w' r lo H).
Defined.

Lemma limits_execute_nothing_witness :
  acted (final (agents_on tight_settings true) (after 2)) = acted (after 2)
  /\ outcome (agents_on tight_settings true) (after 2)
       = Raise (AgentError "AGENT_TOOL_LIMIT" "Exceeded MAX_TOOL_CALLS=0" false).
Proof.
  split; [|vm_compute; reflexivity]. unfold agents_on.
  apply (limits_execute_nothing [] default_settings queue_all (fun w => w) (fun w => w) predictor_1
    default_optimizer_settings (fun _ _ => []) features_1 as_int_1 isoformat loads_1
    (ext_as_bool simple_externals) (ext_as_float simple_externals) tight_settings case_1 None true None
    hostile_model fresh_outside (after 2)).
  right; right; left. reflexivity.
Defined.


Definition question_1 : string := "How are we doing?".
Definition answered (w : World) : option (string * string) :=
  match outcome (answer_analyst loads_1 default_agent_settings merchant_1 question_1 hostile_model) w with
  | Ok (a, _) => Some (ans_answer a, metric "revenue_recovered" (ans_metrics a))
  | Raise _ => None
  end.
Lemma analyst_answers : answered store_1 = Some ("All recovered", "100.00").
Proof. evaluated. Qed.

Lemma analyst_only_reads_witness :
  exists a llm', answer_analyst loads_1 default_agent_settings merchant_1 question_1 hostile_model store_1
      = (store_1, Ok (a, llm'))
    /\ ans_question a = question_1 /\ merchant_aggregates merchant_1 store_1 = Ok (ans_metrics a).
Proof.
  destruct (answer_analyst loads_1 default_agent_settings merchant_1 question_1 hostile_model store_1)
    as [w' [[a llm']|e]] eqn:H;
    [|exfalso; pose proof analyst_answers as E; unfold answered, outcome in E; rewrite H in E; discriminate E].
  destruct (analyst_only_reads loads_1 default_agent_settings merchant_1 question_1 hostile_model store_1
    w' a llm' H) as (-> & Hq & Hm).
  exists a, llm'. split; [reflexivity|split; [exact Hq|exact Hm]].
Defined.

(** * The operator's theorems at work

    The theorems on fixtures, policies, pages and metrics, each applied to a concrete store. *)

(** ** Fixtures *)

Definition demo_store : World := final (ensure_simulator_fixtures id) empty_store.

Lemma demo_evaluated :
  ensure_simulator_fixtures id empty_store = (demo_store, Ok (simulator_merchant_id, simulator_customer_id)).
Proof. apply run_of_outcome. evaluated. Qed.

Lemma fixtures_are_idempotent_witness :
  ensure_simulator_fixtures id demo_store = (demo_store, Ok (simulator_merchant_id, simulator_customer_id)).
Proof.
  exact (proj1 (fixtures_are_idempotent id (fun w => eq_refl) empty_store demo_store simulator_merchant_id
                  simulator_customer_id demo_evaluated)).
Defined.

(** ** The policy *)

(** No discounts and one retry. *)
Definition strict_policy : PolicySettingsBody :=
  mk_PolicySettingsBody 1 (dec_of_Z 10) (dec_of_Z 5000) (dec_of_Z 20000) (mkDec 450000 (-2)) 3 21 8 true 60
    ["OFFER_DISCOUNT"].

Definition acme : Merchant := mk_Merchant "Acme" "acme" true None None.
Definition strict_settings : RecoverySettings := body_settings 72 60 POLICY_VERSION strict_policy.
Definition strict_row : Merchant := updated_row acme strict_policy.

Lemma policy_update_takes_effect_witness :
  outcome (update_policy [] merchant_1 strict_policy) store_0
  = Ok (mk_PolicyView merchant_1 "Acme" "acme" (policy_json strict_settings ["OFFER_DISCOUNT"]) LEGAL_ACTIONS).
Proof.
  unfold outcome.
  rewrite (proj1 (policy_update_takes_effect [] default_settings eq_refl merchant_1 acme store_0 eq_refl eq_refl
                    strict_policy 72 60 eq_refl eq_refl eq_refl eq_refl)).
  reflexivity.
Defined.

(** The failed payment's case under the strict policy. *)
Definition strict_store : World :=
  run [Ingest failed_event merchant_1 None []; ProcessEvent (uuid_str hook_1) false [];
       UpdatePolicy (Some merchant_1) None strict_policy] store_0.

Lemma strict_store_row : w_merchants strict_store !! merchant_1 = Some strict_row.
Proof. evaluated. Qed.

(** The case of a merchant may be retried at once. *)
Definition retry_allowed (w : World) : bool :=
  match outcome (build_policy_context case_1 default_settings None) w with
  | Ok c => same (ctx_merchant_id c) merchant_1
            && match evaluate_action c (propose "RETRY_NOW") with Ok r => result_allowed r | _ => false end
  | Raise _ => false
  end.

Lemma retry_allowed_context w : retry_allowed w = true -> exists context r,
  build_policy_context case_1 default_settings None w
    = (final (build_policy_context case_1 default_settings None) w, Ok context)
  /\ ctx_merchant_id context = merchant_1
  /\ evaluate_action context (propose "RETRY_NOW") = Ok r /\ result_allowed r = true.
Proof.
  unfold retry_allowed. destruct (outcome _ w) as [c|] eqn:E; [|done]. intros [Hm%same_eq Hr]%andb_true_iff.
  destruct (evaluate_action c _) as [r|] eqn:He; [|done]. exists c, r. split_and!; try done. by apply run_of_outcome.
Qed.

Lemma strict_store_retries : retry_allowed strict_store = true.
Proof. evaluated. Qed.

Lemma updated_policy_is_enforced_witness : exists context w',
  build_policy_context case_1 default_settings None strict_store = (w', Ok context)
  /\ (ctx_retry_count context < pb_max_retry_attempts strict_policy)%Z.
Proof.
  destruct (retry_allowed_context strict_store strict_store_retries) as (context & r & Hc & Hm & He & Hr).
  eexists context, _. split; [exact Hc|].
  apply (updated_policy_is_enforced default_settings merchant_1 acme strict_policy strict_store _ case_1 None
           context (propose "RETRY_NOW") RecoveryActionType.RETRY_NOW r strict_store_row Hc Hm eq_refl He Hr).
  apply (bool_decide_unpack _). vm_compute. exact I.
Defined.

(** ** Pages and metrics *)

Definition no_filter : CaseFilter := mk_CaseFilter None None None None.

Lemma store_1_merchant : w_merchants store_1 !! merchant_1 = Some acme.
Proof. vm_compute. reflexivity. Qed.

(** The first page of the one case of the store. *)
Lemma pages_partition_witness : exists l,
  (case_1, case_1_row) ∈ l /\ concat (map (fun page => take 25 (drop ((page - 1) * 25) l)) (seq 1 (length l))) = l.
Proof.
  destruct (pages_partition (fun _ => 0%Z) (fun _ => 0%Z) String.compare merchant_1 acme no_filter "amount_at_risk" "asc"
    25 store_1 store_1_merchant) as (l & Hl & _ & _ & _ & _ & Hc).
  exists l. split; [|apply Hc; lia]. apply Hl. split; [exact case_1_recovered|]. vm_compute. reflexivity.
Defined.

Lemma metrics_account_for_the_money_witness : exists x,
  command_center_metrics (fun _ => 0%Z) (Some merchant_1) None store_1 = (store_1, Ok x)
  /\ sound_metrics (merchant_cases merchant_1 store_1) x.
Proof.
  exact (metrics_account_for_the_money [] default_settings default_environment 3 queue_all queue_all simple_externals
           (fun _ => 0%Z) recovery_schedule store_0 merchant_1 acme store_0_consistent eq_refl store_1_merchant).
Defined.

(** What the operator sees of the recovered case. *)
Example metrics_shown : option_map (fun x => (metrics_revenue_at_risk x, metrics_revenue_recovered x,
    metrics_recovery_rate x, metrics_active_cases x))
  (match outcome (command_center_metrics (fun _ => 0%Z) (Some merchant_1) None) store_1 with
   | Ok x => Some x | Raise _ => None end)
  = Some ("0.00", "100.00", Some (mkDec 10 (-1)), 0%nat).
Proof. vm_compute. reflexivity. Qed.
